(* ===== verification/_CoqProject ===== *)
-Q . S2P
Prelude.v
Py.v
Effects.v
Schema.v
Settings.v
Orm.v
AuditTrail.v
Directory.v
Schedule.v
Availability.v
JobQueue.v
Frames.v
Providers.v
Tenancy.v
Users.v
QueueInvariant.v
RateLimit.v
Auth.v
UserListing.v
UserPages.v
UserBehaviour.v
PasswordReset.v
AuthRoutes.v
Onboarding.v
Seeds.v
SeedsBehaviour.v
Schemas.v
Catalogue.v
Scope.v
AuthBehaviour.v
Uploads.v
UploadBehaviour.v
PublicLink.v
Webhooks.v
WebhookBehaviour.v
Notifications.v
Calendar.v
Waitlist.v
Booking.v
BookingMachine.v
SessionFrames.v
BookingRefinement.v
Accounts.v
BookingBehaviour.v
HoldSweep.v
WaitlistOffers.v
Delivery.v
SelfService.v
IvrPrompts.v
Ivr.v
Twilio.v
TwilioBehaviour.v
Startup.v
StartupBehaviour.v
Http.v
HttpBehaviour.v
Observability.v
Preflight.v
Ddl.v
DdlBehaviour.v
Migrations.v
Metadata.v
MigrationBehaviour.v
StoredConstraints.v
Routes.v
IvrCalls.v
Worker.v
System.v
CatalogueBehaviour.v
QueueRuns.v
ScopeBehaviour.v
WorkerLoop.v
RouteBehaviour.v
RouteReads.v
Witnesses.v
AccountWitnesses.v
