(* ===== verification/Prelude.v ===== *)
(** * A verification library for the appointment-voice-saas backend

    The program is a multi-tenant booking backend in Python (FastAPI, SQLAlchemy on
    PostgreSQL, a Redis job queue).  Customers of a salon book by telephone menu, over
    the API, through a signed public link or by answering an SMS; a worker delivers SMS
    messages, mirrors bookings into a calendar and runs periodic sweeps.

    ** How the program is modelled

    The state is a [World] (Schema.v): the rows the open session sees ([w_db]), the
    committed rows ([w_committed]), the primary-key sequences, Redis, the clock and the
    source of job ids.  A Python function is a computation [PyM A] in a state and
    exception monad (Effects.v): an exception keeps the state it was raised in, so
    what was flushed or committed before a failure stays visible.  [commit] publishes
    the session, [rollback] restores the committed rows, [run_request] is the session
    of a request, whose uncommitted work is lost at the end (Orm.v).  Tables are
    finite maps by primary key; [Entity] says for each table where it lives and which
    unique, exclusion and foreign-key constraints an INSERT, UPDATE or DELETE meets.
    Instants are integers in microseconds, dates integers in days; a [str] is a
    sequence of Latin-1 characters (Py.v).

    ** Files and sources (paths under src/app)

    The ground:
    - Prelude.v: record update, list and order lemmas, tactics and hint databases.
    - Py.v: time arithmetic, decimal numerals, string methods, [strftime], [quote_plus].
    - Effects.v: the monad, its loops and its Hoare triples; Frames.v: the rules of [keeps].
    - Schema.v: models/*.py, core/domain_errors.py and the [World].
    - Settings.v: core/config.py and the library functions, as the class [Config].
    - Orm.v: queries, flush, commit; the constraints of models/*.py and of the
      migration that adds the exclusion constraint on bookings.
    - JobQueue.v: core/job_queue.py over Redis lists, sorted sets and locks.
    - Providers.v: core/sms.py, core/calendar.py and the provider protocols, as a class.

    The salon:
    - AuditTrail.v: services/audit_log_service.py.
    - Directory.v: services/business_service.py, service_service.py, staff_service.py,
      customer_service.py, client_service.py.
    - Schedule.v: services/working_hours_service.py, availability_exception_service.py,
      recurring_staff_block_service.py, business_transfer_hours_service.py.
    - Availability.v: services/availability_service.py.
    - PublicLink.v: services/booking_public_service.py.
    - Notifications.v: services/notification_service.py.
    - Calendar.v: services/calendar_service.py, reconciliation_service.py.
    - Waitlist.v: services/waitlist_service.py.
    - Booking.v: services/booking_service.py.
    - SelfService.v: services/sms_reply_service.py, api/routes/bookings_public.py.
    - IvrPrompts.v: core/ivr_prompts.py; Ivr.v: services/ivr_service.py, core/ivr.py.
    - Twilio.v: services/twilio_voice_adapter.py, core/twilio_security.py,
      api/routes/twilio_voice.py, twilio_sms.py.
    - Onboarding.v: services/onboarding_service.py, owner_lead_service.py,
      plan_policy_service.py.
    - Routes.v: the endpoints of a business, with their guards.
    - Worker.v: worker.py.

    The accounts:
    - Tenancy.v: services/tenant_service.py, tenant_seed_service.py,
      tenant_membership_service.py, permission_service.py, core/permissions.py.
    - Users.v, UserListing.v: services/user_service.py, core/cache.py,
      core/keyset_pagination.py, api/routes/users.py.
    - RateLimit.v: api/dependencies/rate_limit.py, core/client_ip.py.
    - Auth.v, AuthRoutes.v: core/security.py, core/redis.py, core/demo_guard.py,
      services/auth_service.py, api/dependencies/auth.py, api/routes/auth.py, signup.py.
    - PasswordReset.v: services/password_reset_service.py, email_service.py,
      email_templates.py.
    - Uploads.v: services/storage_service.py, upload_verification_service.py,
      malware_scanner.py, core/upload_metadata.py, file_validation.py, malware_scan.py,
      api/routes/files.py.
    - Webhooks.v: services/idempotency_service.py, webhook_service.py,
      core/webhook_security.py, api/dependencies/idempotency.py, api/routes/webhooks.py.
    - Startup.v: the fields and validators of core/config.py.
    - Preflight.v: ops/membership_preflight.py.
    - Ddl.v: the operations of Alembic and the column types and constraints of SQLAlchemy, over
      tables with rows; Migrations.v: the scripts of alembic/versions; Metadata.v: the tables
      as models/*.py declare them.
    - Accounts.v: the account endpoints as one type of requests, api/routes/tenants.py.

    The proofs:
    - BookingMachine.v: the abstract specification of bookings and payments, a step
      relation on a ledger, with its invariant; BookingRefinement.v: each operation of
      Booking.v implements an event of the machine.
    - System.v: all requests, jobs and sweeps as steps of one transition system.
    - BookingBehaviour.v, HoldSweep.v, WaitlistOffers.v, Delivery.v, IvrCalls.v,
      RouteBehaviour.v, RouteReads.v, AuthBehaviour.v, UserBehaviour.v, UserPages.v,
      UploadBehaviour.v, WebhookBehaviour.v, TwilioBehaviour.v, StartupBehaviour.v: the behaviour of single operations.
    - DdlBehaviour.v: what schema changes do to data; MigrationBehaviour.v: the history as a
      whole; StoredConstraints.v: the constraints of Orm.v against those of the head.
    - Witnesses.v, AccountWitnesses.v: a salon built by running the model, to which the
      theorems are applied.

    ** What the theorems show

    - The system (System.v): after any run no staff member is double-booked, payments
      agree with bookings, and a booking only moves forward through its life; each
      operation of the booking service refines the machine and is atomic.
    - Booking (BookingBehaviour.v, HoldSweep.v, WaitlistOffers.v): the application's
      overlap check agrees with the database constraint, confirmation is idempotent,
      tenants cannot reach each other's bookings, abandoned holds are released, and a
      freed slot goes to the customer waiting longest.
    - Availability: the search returns exactly the free grid points of the windows that
      weekly hours, exceptions and blocks leave, and what it offers can be booked.
    - The voice menu (IvrCalls.v, IvrPrompts.v): a key press moves along the edges of the
      call graph, a chosen slot is the one that is booked, silence ends a call, and
      every prompt has a text in every language.
    - The endpoints (RouteBehaviour.v, RouteReads.v): a changing endpoint is the operation of
      the system for the caller's tenant or answers 403; a reading one changes nothing
      and returns rows of the caller's tenant and business.
    - Delivery, JobQueue, Worker: jobs are neither lost nor duplicated, retries and
      provider calls are bounded, calendar events follow their life cycle.
    - Accounts: a login opens one account until its token expires, refresh tokens work
      once, a password reset ends every session, administrators change users of their own
      tenant only, the pages of a listing cover it, a presigned upload is verified exactly
      when the stored object passes every check, only signed webhook bodies are recorded
      and a repeated delivery gets the first answer, a limiter lets exactly its limit pass.
    - Twilio (TwilioBehaviour.v): the TwiML of an answer reads back as what it was made from,
      and a request without the signature of its own form changes nothing.
    - Startup (StartupBehaviour.v): validation is idempotent, what it accepts for production
      is hardened, and every number a service divides by or waits for is positive.
    - Preflight: the report of the migration names exactly the tenants that need a decision.
    - The schema (MigrationBehaviour.v, StoredConstraints.v): the migrations run in one line and
      build what the models declare, every revision but four keeps all data and can be
      taken back, a deployment since the payment holds reaches the head whatever rows it has,
      and the rows Orm.v refuses are those the migrated database refuses.
    - PublicLink: tokens verify until they expire and cannot be re-targeted.
    - Theorems named after a failure state behaviour that the source's own comments
      call unintended: a failed reschedule loses the booking, a lost race escapes as
      a database error, a zero duration never returns, special hours cannot open a
      closed weekday, a slot can outlast its window on the day of a clock change, links
      outlive their booking, a non-ASCII signature is a server error, cancelled bookings
      block the deletion of a service, an administrator with an audit trail cannot be
      deleted, a tenant administrator can grant the platform role, an expired answer
      blocks its idempotency key, any administrator reads the leads of all salons,
      a production without Twilio settings takes unsigned replies.

    ** Bounds and fuel

    Where a loop is not structural it runs on fuel, and running out is the exception
    [NonTermination].  The slot loop has [slots_fuel], one round per slot that fits plus
    the failing test; [slots_in_window_grid] shows it suffices for every positive
    duration.  [requeue_failed_jobs] has the length of the failed list plus one, which
    each round shortens; [queue_operations_conserve_jobs] includes that it returns.  The
    chunked read of an upload has one round per byte plus one ([spool_whole]).

    ** Parameters

    Time-zone offsets, HMAC-SHA256, password hashing, signed tokens, random draws and the
    settings are fields of [Config]; the laws of the cryptographic functions that the
    account theorems use are the class [SecurityLaws], which the stand-ins of
    [default_config] satisfy.  The SMS, calendar, mail, storage and scanner services are
    the class [Providers], whose answers depend on anything and may be failures.  The text
    of an exception is the class [ExnText].

    ** Not modelled

    The six floating-point settings, security headers and the
    translation of errors to responses, logging and metrics, health checks and
    scripts.  Requests run one after the other: a step is a whole request, so row locks and
    SKIP LOCKED have no effect; the outcome of a lost race is studied in
    [lost_race_outcomes] from the state the race leaves.  Redis is reachable.

    ** Plan

    Next: the translation of errors to responses, the request schemas and the invariant of
    the catalogue they keep, invariants of the account tables over whole runs, the health
    checks and the waitlist escalation. *)

From stdpp Require Export base gmap list strings sorting.
From Stdlib Require Export ZArith Lia.

#[global] Open Scope Z_scope.

(** ** Record update

    The ORM mutates objects attribute by attribute.  [Eta R] rebuilds a record
    from its projections and [Setter f] rewrites exactly the field [f]; both are
    found by unification, so [r <| f := v |>] reads as the assignment
    [r.f = v] of the source. *)

Class Eta (R : Type) := eta_expand : R -> R.

Class Setter {R T : Type} (f : R -> T) := update_field : (T -> T) -> R -> R.
#[global] Hint Mode Setter + + + : typeclass_instances.
Arguments update_field {R T} f {_} _ _.

Ltac derive_setter :=
  lazymatch goal with
  | |- @Setter ?R ?T ?f =>
      let h := fresh "h" in
      let r := fresh "r" in
      intros h r;
      let body := eval hnf in (@eta_expand R _ r) in
      let pat := eval pattern (f r) in body in
      lazymatch pat with
      | ?ctx _ => let res := eval cbv beta in (ctx (h (f r))) in exact res
      end
  end.

#[global] Hint Extern 1 (Setter _) => derive_setter : typeclass_instances.

Declare Scope py_scope.
Delimit Scope py_scope with py.

Notation "r <| f := v |>" := (update_field f (fun _ => v) r)
  (at level 1, left associativity, f at level 9, format "r  <| f  :=  v |>") : py_scope.
Notation "r <| f ::= h |>" := (update_field f h r)
  (at level 1, left associativity, f at level 9, format "r  <| f  ::=  h |>") : py_scope.
#[global] Open Scope py_scope.

(** ** Automation shared by the components *)

Create HintDb vox.

(** Case analysis on the discriminee of the innermost [match] or [if] of the
    goal or of a hypothesis, keeping the equation. *)
Ltac split_match :=
  match goal with
  | |- context [match ?x with _ => _ end] =>
      lazymatch x with
      | context [match _ with _ => _ end] => fail
      | _ => let E := fresh "E" in destruct x eqn:E
      end
  end.

Ltac split_match_in H :=
  match type of H with
  | context [match ?x with _ => _ end] =>
      lazymatch x with
      | context [match _ with _ => _ end] => fail
      | _ => let E := fresh "E" in destruct x eqn:E
      end
  end.

(** Boolean tests of the code turned into the propositions they decide. *)
Ltac bool_props :=
  repeat match goal with
  | H : andb _ _ = true |- _ => apply andb_true_iff in H; destruct H
  | H : orb _ _ = false |- _ => apply orb_false_iff in H; destruct H
  | H : negb _ = true |- _ => apply negb_true_iff in H
  | H : negb _ = false |- _ => apply negb_false_iff in H
  | H : Z.eqb _ _ = true |- _ => apply Z.eqb_eq in H
  | H : Z.eqb _ _ = false |- _ => apply Z.eqb_neq in H
  | H : Z.ltb _ _ = true |- _ => apply Z.ltb_lt in H
  | H : Z.ltb _ _ = false |- _ => apply Z.ltb_ge in H
  | H : Z.leb _ _ = true |- _ => apply Z.leb_le in H
  | H : Z.leb _ _ = false |- _ => apply Z.leb_gt in H
  | H : bool_decide _ = true |- _ => apply bool_decide_eq_true in H
  | H : bool_decide _ = false |- _ => apply bool_decide_eq_false in H
  end.

(** ** Options *)

(** Python's [x == y] between two nullable integers. *)
Definition optZ_eqb (a b : option Z) : bool :=
  match a, b with
  | Some x, Some y => Z.eqb x y
  | None, None => true
  | _, _ => false
  end.

Lemma optZ_eqb_eq a b : optZ_eqb a b = true <-> a = b.
Proof.
  destruct a, b; simpl; rewrite ?Z.eqb_eq; split; congruence.
Qed.

(** SQL's [column = v]: a NULL column never matches. *)
Definition sql_eqb (col : option Z) (v : Z) : bool :=
  match col with Some x => Z.eqb x v | None => false end.

Lemma sql_eqb_eq col v : sql_eqb col v = true <-> col = Some v.
Proof. destruct col; simpl; rewrite ?Z.eqb_eq; split; congruence. Qed.

Definition is_none {A} (o : option A) : bool :=
  match o with Some _ => false | None => true end.

Lemma is_none_true {A} (o : option A) : is_none o = true <-> o = None.
Proof. destruct o; simpl; split; congruence. Qed.

(** ** Lists *)

Lemma in_filter {A} (p : A -> bool) (l : list A) x :
  In x (List.filter p l) <-> In x l /\ p x = true.
Proof. apply List.filter_In. Qed.

Lemma filter_all {A} (p : A -> bool) l : (forall x, In x l -> p x = true) -> List.filter p l = l.
Proof.
  induction l as [|x l IH]; intros Hp; simpl; [done|]. rewrite Hp by by left.
  rewrite IH; [done|]. intros y Hy. apply Hp. by right.
Qed.

Lemma filter_none {A} (p : A -> bool) l : (forall x, In x l -> p x = false) -> List.filter p l = [].
Proof.
  induction l as [|x l IH]; intros Hp; simpl; [done|]. rewrite Hp by by left.
  apply IH. intros y Hy. apply Hp. by right.
Qed.

Lemma filter_perm {A} (p : A -> bool) l l' :
  Permutation l l' -> Permutation (List.filter p l) (List.filter p l').
Proof.
  induction 1 as [|x l l' Hl IH|x y l|l1 l2 l3 H1 IH1 H2 IH2]; simpl; [done| | |by etrans].
  - destruct (p x); [by constructor | done].
  - destruct (p x), (p y); try done. apply perm_swap.
Qed.

Lemma head_in {A} (l : list A) x : head l = Some x -> In x l.
Proof. destruct l; simpl; [done | intros [= ->]; auto]. Qed.

Lemma head_filter_some {A} (p : A -> bool) l x :
  head (List.filter p l) = Some x -> In x l /\ p x = true.
Proof. intros H. apply in_filter, head_in, H. Qed.

Lemma head_filter_none {A} (p : A -> bool) l :
  head (List.filter p l) = None <-> (forall x, In x l -> p x = false).
Proof.
  split.
  - intros H x Hx. destruct (p x) eqn:E; [|done].
    assert (Hin : In x (List.filter p l)) by (apply in_filter; auto).
    destruct (List.filter p l); [contradiction | discriminate].
  - intros H. destruct (List.filter p l) eqn:E; [done|].
    assert (Hin : In a (List.filter p l)) by (rewrite E; left; done).
    apply in_filter in Hin as [Hin Hp]. rewrite H in Hp; [discriminate | done].
Qed.

Lemma existsb_false {A} (p : A -> bool) l :
  existsb p l = false <-> (forall x, In x l -> p x = false).
Proof.
  induction l as [|a l IH]; simpl; [naive_solver|].
  rewrite orb_false_iff, IH. naive_solver.
Qed.

Lemma NoDup_map_inj_in {A B} (f : A -> B) (l : list A) :
  List.NoDup l -> (forall x y, In x l -> In y l -> f x = f y -> x = y) ->
  List.NoDup (map f l).
Proof.
  induction 1 as [|a l Hn Hd IH]; intros Hinj; simpl; [constructor|].
  constructor.
  - rewrite in_map_iff. intros (y & Hy & Hin).
    rewrite (Hinj y a) in Hin by (simpl; auto). contradiction.
  - apply IH. intros x y Hx Hy. apply Hinj; simpl; auto.
Qed.

(** ** Stable sorting: SQL's ORDER BY and Python's [sorted] *)

Section SortBy.
Context {A : Type} (key : A -> Z).

Fixpoint insert_by (x : A) (l : list A) : list A :=
  match l with
  | [] => [x]
  | y :: l' => if key x <=? key y then x :: y :: l' else y :: insert_by x l'
  end.

Fixpoint sort_by (l : list A) : list A :=
  match l with
  | [] => []
  | x :: l' => insert_by x (sort_by l')
  end.

Lemma insert_by_perm x l : Permutation (insert_by x l) (x :: l).
Proof.
  induction l as [|y l IH]; simpl; [done|].
  destruct (key x <=? key y); [done|].
  rewrite IH. apply Permutation_swap.
Qed.

Lemma sort_by_perm l : Permutation (sort_by l) l.
Proof.
  induction l as [|x l IH]; simpl; [done|].
  rewrite insert_by_perm. by constructor.
Qed.

Lemma in_sort_by x l : In x (sort_by l) <-> In x l.
Proof. rewrite <- !list_elem_of_In. by rewrite sort_by_perm. Qed.

Lemma insert_by_sorted x l :
  StronglySorted (fun a b => key a <= key b) l ->
  StronglySorted (fun a b => key a <= key b) (insert_by x l).
Proof.
  induction 1 as [|y l Hs IH Hall]; simpl; [repeat constructor|].
  destruct (key x <=? key y) eqn:E; bool_props.
  - constructor; [by constructor|]. constructor; [done|].
    eapply Forall_impl; [exact Hall | simpl; lia].
  - constructor; [done|]. rewrite Forall_forall in Hall |- *.
    intros z Hz. rewrite (insert_by_perm x l) in Hz.
    apply elem_of_cons in Hz as [->|Hz]; [lia | auto].
Qed.

Lemma sort_by_sorted l : StronglySorted (fun a b => key a <= key b) (sort_by l).
Proof. induction l; simpl; [constructor | by apply insert_by_sorted]. Qed.

Lemma sort_by_head_min l x y :
  head (sort_by l) = Some x -> In y l -> key x <= key y.
Proof.
  intros Hh Hy. pose proof (sort_by_sorted l) as Hs.
  apply in_sort_by in Hy. destruct (sort_by l) as [|z l']; [done|].
  injection Hh as ->. inversion Hs as [|? ? _ Hall]; subst.
  destruct Hy as [->|Hy]; [lia|].
  rewrite Forall_forall in Hall. by apply Hall, list_elem_of_In.
Qed.

Lemma sort_by_nil l : sort_by l = [] <-> l = [].
Proof.
  split; [|by intros ->]. intros H.
  apply Permutation_nil. by rewrite <- (sort_by_perm l), H.
Qed.
End SortBy.

(** [sorted(set(l))]: duplicates removed, ascending. *)
Definition sorted_set (l : list Z) : list Z := sort_by id (remove_dups l).

Lemma in_sorted_set x l : In x (sorted_set l) <-> In x l.
Proof.
  unfold sorted_set. rewrite in_sort_by, <- !list_elem_of_In.
  apply elem_of_remove_dups.
Qed.

Lemma sorted_set_increasing l : StronglySorted Z.lt (sorted_set l).
Proof.
  assert (Hnd : NoDup (sorted_set l)).
  { unfold sorted_set. rewrite sort_by_perm. apply NoDup_remove_dups. }
  pose proof (sort_by_sorted id (remove_dups l)) as Hs. fold (sorted_set l) in Hs.
  induction Hs as [|y m Hs IH Hall]; constructor.
  - apply IH. by inversion Hnd.
  - inversion Hnd as [|? ? Hn _]; subst. rewrite Forall_forall in Hall |- *.
    intros z Hz. specialize (Hall z Hz). simpl in Hall.
    assert (y <> z) by (intros ->; contradiction). lia.
Qed.

(** [l[skip:skip+limit]], as OFFSET/LIMIT. *)
Definition page {A} (skip limit : Z) (l : list A) : list A :=
  take (Z.to_nat limit) (drop (Z.to_nat skip) l).

(** ORDER BY with a comparison of rows: stable insertion sort. *)
Section SortLeb.
Context {A : Type} (leb : A -> A -> bool).

Fixpoint insert_leb (x : A) (l : list A) : list A :=
  match l with
  | [] => [x]
  | y :: l' => if leb x y then x :: l else y :: insert_leb x l'
  end.

Fixpoint sort_leb (l : list A) : list A :=
  match l with
  | [] => []
  | x :: l' => insert_leb x (sort_leb l')
  end.

Lemma insert_leb_perm x l : Permutation (insert_leb x l) (x :: l).
Proof.
  induction l as [|y l IH]; simpl; [done|]. destruct (leb x y); [done|].
  rewrite IH. by constructor.
Qed.

Lemma sort_leb_perm l : Permutation (sort_leb l) l.
Proof. induction l as [|x l IH]; simpl; [done|]. by rewrite insert_leb_perm, IH. Qed.

Lemma insert_leb_sorted x l :
  (forall a b c, leb a b = true -> leb b c = true -> leb a c = true) ->
  (forall a b, leb a b = true \/ leb b a = true) ->
  StronglySorted (fun a b => leb a b = true) l ->
  StronglySorted (fun a b => leb a b = true) (insert_leb x l).
Proof.
  intros Htr Htot. induction 1 as [|y l Hl IH Hy]; simpl; [by repeat constructor|].
  destruct (leb x y) eqn:E.
  - constructor; [by constructor|]. constructor; [done|]. eapply Forall_impl; [exact Hy|].
    intros z Hz. by eapply Htr.
  - constructor; [done|]. rewrite insert_leb_perm. constructor; [|done].
    destruct (Htot x y); congruence.
Qed.

Lemma sort_leb_sorted l :
  (forall a b c, leb a b = true -> leb b c = true -> leb a c = true) ->
  (forall a b, leb a b = true \/ leb b a = true) ->
  StronglySorted (fun a b => leb a b = true) (sort_leb l).
Proof. intros Htr Htot. induction l; simpl; [constructor|]. by apply insert_leb_sorted. Qed.
End SortLeb.

(** [enumerate(l)], counting from [start]. *)
Fixpoint enumerate_from {A} (i : Z) (l : list A) : list (Z * A) :=
  match l with
  | [] => []
  | x :: l' => (i, x) :: enumerate_from (i + 1) l'
  end.
