(* ===== verification/Py.v ===== *)
(** * Py: the parts of Python's built-ins and standard library the code uses

    Instants are integers: microseconds since 1970-01-01T00:00Z, the resolution
    of [datetime].  A [time] of day is microseconds since midnight, a [date] is
    days since 1970-01-01, a naive local datetime is microseconds since
    1970-01-01T00:00 on the wall clock.  Strings are sequences of Latin-1 characters. *)

From S2P Require Import Prelude.
From Stdlib Require Export Ascii.
From Stdlib Require Import DecimalString DecimalPos DecimalZ DecimalFacts.

(** ** Durations and dates *)

Definition second_us : Z := 1000000.
Definition minute_us : Z := 60 * second_us.
Definition hour_us : Z := 60 * minute_us.
Definition day_us : Z := 24 * hour_us.

(** [timedelta(minutes=n)] and its kin. *)
Definition timedelta_minutes (n : Z) : Z := n * minute_us.
Definition timedelta_seconds (n : Z) : Z := n * second_us.
Definition timedelta_days (n : Z) : Z := n * day_us.

(** [datetime.combine(d, t)] on the wall clock. *)
Definition combine (d t : Z) : Z := d * day_us + t.

(** [dt.date()] of a datetime whose [tzinfo] is UTC. *)
Definition utc_date (instant : Z) : Z := instant / day_us.

(** [date.weekday()]: Monday is 0; 1970-01-01 was a Thursday. *)
Definition weekday (d : Z) : Z := (d + 3) mod 7.

Lemma weekday_bounds d : 0 <= weekday d < 7.
Proof. apply Z.mod_pos_bound. lia. Qed.

(** Proleptic Gregorian calendar: the year, month and day of a day number. *)
Definition civil_of_days (days : Z) : Z * Z * Z :=
  let z := days + 719468 in
  let era := z / 146097 in
  let doe := z mod 146097 in
  let yoe := (doe - doe / 1460 + doe / 36524 - doe / 146096) / 365 in
  let doy := doe - (365 * yoe + yoe / 4 - yoe / 100) in
  let mp := (5 * doy + 2) / 153 in
  let d := doy - (153 * mp + 2) / 5 + 1 in
  let m := if mp <? 10 then mp + 3 else mp - 9 in
  let y := yoe + era * 400 + (if m <=? 2 then 1 else 0) in
  (y, m, d).

(** ** Strings *)

Definition string_of_Z (z : Z) : string := NilZero.string_of_int (Z.to_int z).

Lemma to_int_nonnil z :
  Z.to_int z <> Decimal.Pos Decimal.Nil /\ Z.to_int z <> Decimal.Neg Decimal.Nil.
Proof.
  destruct z as [|p|p]; simpl; split; try discriminate;
    intros H; injection H as H; by apply DecimalPos.Unsigned.to_uint_nonnil in H.
Qed.

Lemma string_of_Z_inj a b : string_of_Z a = string_of_Z b -> a = b.
Proof.
  unfold string_of_Z. intros H.
  apply (f_equal NilZero.int_of_string) in H.
  destruct (to_int_nonnil a), (to_int_nonnil b).
  rewrite !NilZero.isi in H by done.
  injection H as H. by apply DecimalZ.to_int_inj.
Qed.

(** A [str] is a sequence of code points; the model has those of Latin-1, one per
    character, whose digits and blanks are the ones below. *)
Definition chars (s : string) : list ascii := String.list_ascii_of_string s.
Definition of_chars (l : list ascii) : string := String.string_of_list_ascii l.

(** [len(s)] *)
Definition str_len (s : string) : Z := Z.of_nat (String.length s).

Definition is_digit (c : ascii) : bool :=
  let n := N_of_ascii c in (48 <=? n)%N && (n <=? 57)%N.
Definition is_space (c : ascii) : bool :=
  let n := N_of_ascii c in
  ((9 <=? n)%N && (n <=? 13)%N) || ((28 <=? n)%N && (n <=? 32)%N)
  || (n =? 133)%N || (n =? 160)%N.

Fixpoint drop_while (p : ascii -> bool) (l : list ascii) : list ascii :=
  match l with
  | [] => []
  | c :: l' => if p c then drop_while p l' else l
  end.

(** [s.strip()], [s.rstrip("/")] and truthiness of a string. *)
Definition strip (s : string) : string :=
  of_chars (rev (drop_while is_space (rev (drop_while is_space (chars s))))).
Definition rstrip_slash (s : string) : string :=
  of_chars (rev (drop_while (fun c => Ascii.eqb c "/"%char) (rev (chars s)))).
Definition truthy (s : string) : bool := negb (String.eqb s "").
Definition opt_truthy (s : option string) : bool :=
  match s with Some s => truthy s | None => false end.

(** [s.lower()]: A-Z and the accented capitals of Latin-1. *)
Definition lower_char (c : ascii) : ascii :=
  let n := N_of_ascii c in
  if ((65 <=? n)%N && (n <=? 90)%N)
     || ((192 <=? n)%N && (n <=? 222)%N && negb (n =? 215)%N)
  then ascii_of_N (n + 32) else c.
Definition lower (s : string) : string := of_chars (map lower_char (chars s)).

(** [s.strip(c)] for a single character [c]. *)
Definition strip_char (c : ascii) (s : string) : string :=
  of_chars (rev (drop_while (Ascii.eqb c) (rev (drop_while (Ascii.eqb c) (chars s))))).

(** [s.startswith(p)] and [p in s]. *)
Fixpoint starts_with (p l : list ascii) : bool :=
  match p, l with
  | [], _ => true
  | c :: p', x :: l' => Ascii.eqb c x && starts_with p' l'
  | _ :: _, [] => false
  end.
Fixpoint occurs_in (p l : list ascii) : bool :=
  starts_with p l || match l with [] => false | _ :: l' => occurs_in p l' end.

(** [s.split(c)] for a single character [c]. *)
Fixpoint split_on (c : ascii) (l : list ascii) : list (list ascii) :=
  match l with
  | [] => [[]]
  | x :: l' =>
      if Ascii.eqb x c then [] :: split_on c l'
      else match split_on c l' with
           | [] => [[x]]
           | part :: rest => (x :: part) :: rest
           end
  end.

(** [not (reason or "").strip()]. *)
Definition blank (s : option string) : bool :=
  match s with Some s => negb (truthy (strip s)) | None => true end.

(** [s[:n]]. *)
Definition str_take (n : nat) (s : string) : string := of_chars (take n (chars s)).

(** [int(s)]: surrounding blanks, a sign, digits with single underscores
    between them; [None] stands for [ValueError]. *)
Fixpoint int_digits (prev : bool) (acc : Z) (l : list ascii) : option Z :=
  match l with
  | [] => if prev then Some acc else None
  | c :: l' =>
      if is_digit c then int_digits true (acc * 10 + (Z.of_N (N_of_ascii c) - 48)) l'
      else if Ascii.eqb c "_"%char && prev then int_digits false acc l'
      else None
  end.

Definition py_int (s : string) : option Z :=
  match chars (strip s) with
  | [] => None
  | c :: l =>
      if Ascii.eqb c "-"%char then Z.opp <$> int_digits false 0 l
      else if Ascii.eqb c "+"%char then int_digits false 0 l
      else int_digits false 0 (c :: l)
  end.

(** ** Formatting *)

(** ["%02d" % n] for [0 <= n < 100]. *)
Definition pad2 (n : Z) : string :=
  if n <? 10 then ("0" ++ string_of_Z n)%string else string_of_Z n.

(** [date.strftime("%Y-%m-%d")] (years from 1000 on, as a calendar holds). *)
Definition strftime_ymd (d : Z) : string :=
  let '(y, m, dd) := civil_of_days d in
  (string_of_Z y ++ "-" ++ pad2 m ++ "-" ++ pad2 dd)%string.

(** [dt.strftime("%Y-%m-%d %H:%M")] of a naive local datetime. *)
Definition strftime_ymd_hm (local : Z) : string :=
  let d := local / day_us in
  let t := local mod day_us in
  (strftime_ymd d ++ " " ++ pad2 (t / hour_us) ++ ":"
     ++ pad2 (t mod hour_us / minute_us))%string.

(** [urllib.parse.quote_plus]: the UTF-8 bytes outside the unreserved characters are
    escaped. *)
Definition hex_digit (n : N) : ascii := ascii_of_N (if (n <? 10)%N then n + 48 else n + 55)%N.
Definition percent (n : N) : list ascii := ["%"%char; hex_digit (n / 16); hex_digit (n mod 16)].
Definition quote_char (c : ascii) : list ascii :=
  let n := N_of_ascii c in
  if ((48 <=? n)%N && (n <=? 57)%N) || ((65 <=? n)%N && (n <=? 90)%N)
     || ((97 <=? n)%N && (n <=? 122)%N) || (n =? 95)%N || (n =? 46)%N || (n =? 45)%N || (n =? 126)%N
  then [c]
  else if (n =? 32)%N then ["+"%char]
  else if (n <? 128)%N then percent n
  else percent (192 + n / 64) ++ percent (128 + n mod 64).
Definition quote_plus (s : string) : string := of_chars (flat_map quote_char (chars s)).

(** [sep.join(parts)]. *)
Fixpoint join (sep : string) (parts : list string) : string :=
  match parts with
  | [] => ""
  | [p] => p
  | p :: rest => (p ++ sep ++ join sep rest)%string
  end.

Example strftime_epoch : strftime_ymd_hm 0 = "1970-01-01 00:00"%string.
Proof. reflexivity. Qed.
Example strftime_leap : strftime_ymd_hm (19782 * day_us + 9 * hour_us + 5 * minute_us)
  = "2024-02-29 09:05"%string.
Proof. vm_compute. reflexivity. Qed.
Example quote_plus_forms : quote_plus "a-B_9 ?é" = "a-B_9+%3F%C3%83%C2%A9"%string.
Proof. vm_compute. reflexivity. Qed.
Example py_int_forms : map py_int [" 7 "; "+1"; "1_0"; "-3"; "*"; ""; "1__0"]%string
  = [Some 7; Some 1; Some 10; Some (-3); None; None; None].
Proof. vm_compute. reflexivity. Qed.

(** ** Decimal numerals and separators *)

Lemma chars_app a b : chars (a ++ b)%string = chars a ++ chars b.
Proof. induction a as [|c a IH]; [done|]. unfold chars in *. simpl. by rewrite IH. Qed.

Lemma of_chars_chars s : of_chars (chars s) = s.
Proof. apply String.string_of_list_ascii_of_string. Qed.

Lemma chars_of_chars l : chars (of_chars l) = l.
Proof. apply String.list_ascii_of_string_of_list_ascii. Qed.

Lemma chars_inj a b : chars a = chars b -> a = b.
Proof. intros E. by rewrite <- (of_chars_chars a), <- (of_chars_chars b), E. Qed.

(** The characters of a numeral. *)
Definition numeral_char (c : ascii) : bool := is_digit c || Ascii.eqb c "-"%char.

Lemma uint_chars d :
  Forall (fun c => is_digit c = true) (chars (NilEmpty.string_of_uint d)).
Proof. induction d; constructor; done. Qed.

Lemma string_of_Z_chars z : Forall (fun c => numeral_char c = true) (chars (string_of_Z z)).
Proof.
  assert (Hu : forall d, Forall (fun c => numeral_char c = true)
                           (chars (NilZero.string_of_uint d))).
  { intros d. apply Forall_impl with (fun c => is_digit c = true).
    - unfold NilZero.string_of_uint. destruct d; try apply (uint_chars (_ _)). by repeat constructor.
    - intros c Hc. unfold numeral_char. by rewrite Hc. }
  unfold string_of_Z, NilZero.string_of_int. destruct (Z.to_int z) as [d|d]; [apply Hu|].
  constructor; [done | apply Hu].
Qed.

Lemma string_of_Z_digits z : 0 <= z -> Forall (fun c => is_digit c = true) (chars (string_of_Z z)).
Proof.
  intros Hz. unfold string_of_Z. destruct z as [|p|p]; [by repeat constructor| |lia]. simpl.
  unfold NilZero.string_of_uint. destruct (Pos.to_uint p); try apply (uint_chars (_ _)).
  by repeat constructor.
Qed.

Lemma drop_while_none p l : Forall (fun c => p c = false) l -> drop_while p l = l.
Proof. destruct 1 as [|c l Hc Hl]; simpl; [done|]. by rewrite Hc. Qed.

Lemma strip_no_space s : Forall (fun c => is_space c = false) (chars s) -> strip s = s.
Proof.
  intros Hs. unfold strip. rewrite (drop_while_none _ _ Hs).
  rewrite drop_while_none, rev_involutive by (by apply Forall_rev). apply of_chars_chars.
Qed.

Lemma numeral_not_space c : numeral_char c = true -> is_space c = false.
Proof. by destruct c as [[] [] [] [] [] [] [] []]. Qed.

Lemma int_digits_acc d acc :
  int_digits true (Z.pos acc) (chars (NilEmpty.string_of_uint d))
  = Some (Z.pos (Pos.of_uint_acc d acc)).
Proof.
  revert acc. induction d; intros acc; simpl; [done|..];
    rewrite <- IHd; f_equal; lia.
Qed.

Lemma int_digits_zero d :
  int_digits true 0 (chars (NilEmpty.string_of_uint d)) = Some (Z.of_uint d).
Proof.
  induction d as [|d IH|d IH|d IH|d IH|d IH|d IH|d IH|d IH|d IH|d IH]; simpl; [done|exact IH|..];
    apply int_digits_acc.
Qed.

Lemma int_digits_uint d :
  d <> Decimal.Nil -> int_digits false 0 (chars (NilEmpty.string_of_uint d)) = Some (Z.of_uint d).
Proof. intros Hd. rewrite <- int_digits_zero. by destruct d. Qed.

(** [int(str(z))] *)
Lemma py_int_string_of_Z z : py_int (string_of_Z z) = Some z.
Proof.
  unfold py_int. rewrite strip_no_space.
  2:{ eapply Forall_impl; [apply string_of_Z_chars|]. apply numeral_not_space. }
  destruct (to_int_nonnil z) as [Hp Hn]. rewrite <- (DecimalZ.of_to z) at 2.
  unfold string_of_Z. destruct (Z.to_int z) as [d|d]; simpl.
  - replace (NilZero.string_of_uint d) with (NilEmpty.string_of_uint d) by by destruct d.
    rewrite <- int_digits_uint by (by intros ->). by destruct d.
  - assert (Hd : d <> Decimal.Nil) by (intros ->; done).
    replace (NilZero.string_of_uint d) with (NilEmpty.string_of_uint d) by by destruct d.
    by rewrite int_digits_uint by done.
Qed.

(** Splitting at the first occurrence of a character. *)
Fixpoint split_at (c : ascii) (l : list ascii) : option (list ascii * list ascii) :=
  match l with
  | [] => None
  | x :: l' => if Ascii.eqb x c then Some ([], l')
               else match split_at c l' with
                    | Some (a, b) => Some (x :: a, b)
                    | None => None
                    end
  end.

Lemma split_at_app c a b :
  Forall (fun x => Ascii.eqb x c = false) a -> split_at c (a ++ c :: b) = Some (a, b).
Proof.
  induction 1 as [|x a Hx Ha IH]; simpl; [by rewrite Ascii.eqb_refl|]. by rewrite Hx, IH.
Qed.

Lemma split_at_spec c l a b : split_at c l = Some (a, b) -> l = a ++ c :: b.
Proof.
  revert a b. induction l as [|x l IH]; intros a b; simpl; [done|].
  destruct (Ascii.eqb x c) eqn:E.
  - intros [= <- <-]. apply Ascii.eqb_eq in E. by subst.
  - destruct (split_at c l) as [[a' b']|] eqn:Es; [|done]. intros [= <- <-].
    simpl. f_equal. by apply IH.
Qed.

Lemma numeral_not_sep c x : numeral_char c = false -> numeral_char x = true -> Ascii.eqb x c = false.
Proof. intros Hc Hx. apply Ascii.eqb_neq. intros ->. congruence. Qed.

Lemma split_numeral c z rest :
  numeral_char c = false ->
  split_at c (chars (string_of_Z z) ++ c :: rest) = Some (chars (string_of_Z z), rest).
Proof.
  intros Hc. apply split_at_app. eapply Forall_impl; [apply string_of_Z_chars|].
  intros x. by apply numeral_not_sep.
Qed.
