(* ===== verification/Effects.v ===== *)
(** * Effects: the state-and-exception monad of the service layer

    A service function runs in a world (database session, durable database,
    Redis, clock) that it changes, and it returns a value or raises.  A raised
    exception does not undo what was done before it: the world at the moment of
    the raise is part of the outcome, because a [db.commit()] that preceded the
    raise is durable.

    The file has the monad with its notation, [try ... except], the [for] loop,
    and two proof interfaces: [triple], a Hoare rule per construct with a normal
    and an exceptional postcondition, and [guarantees], for relations between
    the world before and the world after (frames, monotonicity). *)

From S2P Require Import Prelude.

Inductive Result (E A : Type) : Type :=
  | Ok (a : A)
  | Raise (e : E).
Arguments Ok {E A} a.
Arguments Raise {E A} e.

Definition M (S E A : Type) : Type := S -> Result E A * S.

Section Monad.
Context {S E : Type}.

Definition ret {A} (a : A) : M S E A := fun s => (Ok a, s).

Definition raise {A} (e : E) : M S E A := fun s => (Raise e, s).

Definition bind {A B} (m : M S E A) (k : A -> M S E B) : M S E B :=
  fun s => match m s with
           | (Ok a, s') => k a s'
           | (Raise e, s') => (Raise e, s')
           end.

(** [try: m except ...: h], where [h e] is [None] for an exception that the
    handler's class does not match. *)
Definition catch {A} (m : M S E A) (h : E -> option (M S E A)) : M S E A :=
  fun s => match m s with
           | (Ok a, s') => (Ok a, s')
           | (Raise e, s') =>
               match h e with
               | Some m' => m' s'
               | None => (Raise e, s')
               end
           end.

(** [try: m finally: f]: an exception of [f] replaces the outcome of [m]. *)
Definition finally {A} (m : M S E A) (f : M S E unit) : M S E A :=
  fun s => let '(r, s') := m s in
           match f s' with
           | (Ok _, s'') => (r, s'')
           | (Raise e, s'') => (Raise e, s'')
           end.

Definition get_state : M S E S := fun s => (Ok s, s).
Definition modify (f : S -> S) : M S E unit := fun s => (Ok tt, f s).
Definition asks {A} (f : S -> A) : M S E A := fun s => (Ok (f s), s).

Definition when (b : bool) (m : M S E unit) : M S E unit :=
  if b then m else ret tt.

(** [for x in l: body x]. *)
Fixpoint for_each {A} (l : list A) (body : A -> M S E unit) : M S E unit :=
  match l with
  | [] => ret tt
  | x :: l' => bind (body x) (fun _ => for_each l' body)
  end.

(** [[body x for x in l]] and loops that thread an accumulator. *)
Fixpoint map_m {A B} (l : list A) (body : A -> M S E B) : M S E (list B) :=
  match l with
  | [] => ret []
  | x :: l' => bind (body x) (fun y => bind (map_m l' body) (fun ys => ret (y :: ys)))
  end.

Fixpoint fold_m {A B} (l : list A) (acc : B) (body : B -> A -> M S E B) : M S E B :=
  match l with
  | [] => ret acc
  | x :: l' => bind (body acc x) (fun acc' => fold_m l' acc' body)
  end.
End Monad.

Notation "x <- m ;; k" := (bind m (fun x => k))
  (at level 100, m at next level, k at level 200, right associativity) : py_scope.
Notation "m ;;; k" := (bind m (fun _ => k))
  (at level 100, k at level 200, right associativity) : py_scope.

(** ** Hoare triples with an exceptional postcondition *)

Definition triple {S E A} (P : S -> Prop) (m : M S E A)
    (Q : A -> S -> Prop) (X : E -> S -> Prop) : Prop :=
  forall s, P s -> match m s with
                   | (Ok a, s') => Q a s'
                   | (Raise e, s') => X e s'
                   end.

Section Triples.
Context {S E : Type}.
Implicit Types (P : S -> Prop) (X : E -> S -> Prop).

Lemma triple_ret {A} P (a : A) Q X :
  (forall s, P s -> Q a s) -> triple P (ret a) Q X.
Proof. intros H s Hs. apply H, Hs. Qed.

Lemma triple_raise {A} P (e : E) (Q : A -> S -> Prop) X :
  (forall s, P s -> X e s) -> triple P (raise e) Q X.
Proof. intros H s Hs. apply H, Hs. Qed.

Lemma triple_bind {A B} P (m : M S E A) (k : A -> M S E B) R Q X :
  triple P m R X -> (forall a, triple (R a) (k a) Q X) -> triple P (bind m k) Q X.
Proof.
  intros Hm Hk s Hs. unfold bind. specialize (Hm s Hs).
  destruct (m s) as [[a|e] s']; [apply Hk, Hm | exact Hm].
Qed.

Lemma triple_conseq {A} P P' (m : M S E A) Q Q' X X' :
  triple P' m Q' X' ->
  (forall s, P s -> P' s) -> (forall a s, Q' a s -> Q a s) ->
  (forall e s, X' e s -> X e s) -> triple P m Q X.
Proof.
  intros H HP HQ HX s Hs. specialize (H s (HP s Hs)).
  destruct (m s) as [[a|e] s']; auto.
Qed.

Lemma triple_and {A} P P' (m : M S E A) Q Q' X X' :
  triple P m Q X -> triple P' m Q' X' ->
  triple (fun s => P s /\ P' s) m (fun a s => Q a s /\ Q' a s) (fun e s => X e s /\ X' e s).
Proof.
  intros H H' s [Hs Hs']. specialize (H s Hs). specialize (H' s Hs').
  destruct (m s) as [[a|e] s']; auto.
Qed.

Lemma triple_asks {A} P (f : S -> A) Q X :
  (forall s, P s -> Q (f s) s) -> triple P (asks f) Q X.
Proof. intros H s Hs. apply H, Hs. Qed.

Lemma triple_modify P f Q X :
  (forall s, P s -> Q tt (f s)) -> triple P (modify f) Q X.
Proof. intros H s Hs. apply H, Hs. Qed.

Lemma triple_catch {A} P (m : M S E A) h Q Y X :
  triple P m Q Y ->
  (forall e m', h e = Some m' -> triple (Y e) m' Q X) ->
  (forall e s, h e = None -> Y e s -> X e s) ->
  triple P (catch m h) Q X.
Proof.
  intros Hm Hh Hn s Hs. unfold catch. specialize (Hm s Hs).
  destruct (m s) as [[a|e] s']; [done|].
  destruct (h e) as [m'|] eqn:E'; [apply (Hh e m' E' s' Hm) | auto].
Qed.

Lemma triple_finally {A} P (m : M S E A) f Q X Q' X' :
  triple P m Q X ->
  (forall a, triple (Q a) f (fun _ => Q' a) (fun e s => X' e s)) ->
  (forall e, triple (X e) f (fun _ => X' e) (fun e' s => X' e' s)) ->
  triple P (finally m f) Q' X'.
Proof.
  intros Hm Hok Hex s Hs. unfold finally. specialize (Hm s Hs).
  destruct (m s) as [[a|e] s'].
  - specialize (Hok a s' Hm). by destruct (f s') as [[u|e'] s''].
  - specialize (Hex e s' Hm). by destruct (f s') as [[u|e'] s''].
Qed.

Lemma triple_for_each {A} (l : list A) body P X :
  (forall x, In x l -> triple P (body x) (fun _ => P) X) ->
  triple P (for_each l body) (fun _ => P) X.
Proof.
  induction l as [|x l IH]; intros H; simpl.
  - apply triple_ret; auto.
  - eapply triple_bind; [apply H; by left|].
    intros u. apply IH. intros y Hy. apply H. by right.
Qed.

Lemma triple_map_m {A B} (l : list A) (body : A -> M S E B) P X :
  (forall x, In x l -> triple P (body x) (fun _ => P) X) ->
  triple P (map_m l body) (fun _ => P) X.
Proof.
  induction l as [|x l IH]; intros H; simpl.
  - apply triple_ret; auto.
  - eapply triple_bind; [apply H; by left|].
    intros y. eapply triple_bind; [apply IH; intros z Hz; apply H; by right|].
    intros ys. apply triple_ret; auto.
Qed.

Lemma triple_fold_m {A B} (l : list A) (body : B -> A -> M S E B) acc P X :
  (forall b x, In x l -> triple P (body b x) (fun _ => P) X) ->
  triple P (fold_m l acc body) (fun _ => P) X.
Proof.
  revert acc. induction l as [|x l IH]; intros acc H; simpl.
  - apply triple_ret; auto.
  - eapply triple_bind; [apply H; by left|].
    intros b. apply IH. intros c y Hy. apply H. by right.
Qed.
End Triples.

(** ** Relations between the world before and after *)

Definition guarantees {S E A} (R : S -> S -> Prop) (m : M S E A) : Prop :=
  forall s, R s (snd (m s)).

Section Guarantees.
Context {S E : Type} (R : S -> S -> Prop) `{!PreOrder R}.

Lemma guarantees_ret {A} (a : A) : guarantees (E := E) R (ret a).
Proof. intros s. simpl. reflexivity. Qed.

Lemma guarantees_raise {A} (e : E) : guarantees (A := A) R (raise e).
Proof. intros s. simpl. reflexivity. Qed.

Lemma guarantees_asks {A} (f : S -> A) : guarantees (E := E) R (asks f).
Proof. intros s. simpl. reflexivity. Qed.

Lemma guarantees_bind {A B} (m : M S E A) (k : A -> M S E B) :
  guarantees R m -> (forall a, guarantees R (k a)) -> guarantees R (bind m k).
Proof.
  intros Hm Hk s. unfold bind. specialize (Hm s).
  destruct (m s) as [[a|e] s']; simpl in *; [etransitivity; [exact Hm | apply Hk] | done].
Qed.

Lemma guarantees_catch {A} (m : M S E A) h :
  guarantees R m -> (forall e m', h e = Some m' -> guarantees R m') ->
  guarantees R (catch m h).
Proof.
  intros Hm Hh s. unfold catch. specialize (Hm s).
  destruct (m s) as [[a|e] s']; simpl in *; [done|].
  destruct (h e) as [m'|] eqn:E'; [|done].
  etransitivity; [exact Hm | apply (Hh e m' E')].
Qed.

Lemma guarantees_for_each {A} (l : list A) (body : A -> M S E unit) :
  (forall x, guarantees R (body x)) -> guarantees R (for_each l body).
Proof.
  intros H. induction l as [|x l IH]; simpl; [apply guarantees_ret|].
  apply guarantees_bind; auto.
Qed.

Lemma guarantees_map_m {A B} (l : list A) (body : A -> M S E B) :
  (forall x, guarantees R (body x)) -> guarantees R (map_m l body).
Proof.
  intros H. induction l as [|x l IH]; simpl; [apply guarantees_ret|].
  apply guarantees_bind; [done|]. intros y.
  apply guarantees_bind; [done|]. intros ys. apply guarantees_ret.
Qed.

Lemma guarantees_fold_m {A B} (l : list A) acc (body : B -> A -> M S E B) :
  (forall b x, guarantees R (body b x)) -> guarantees R (fold_m l acc body).
Proof.
  intros H. revert acc. induction l as [|x l IH]; intros acc; simpl; [apply guarantees_ret|].
  apply guarantees_bind; auto.
Qed.
End Guarantees.

(** Running a bind whose first step is known. *)
Lemma bind_ok {S E A B} (m : M S E A) (k : A -> M S E B) s a s' :
  m s = (Ok a, s') -> bind m k s = k a s'.
Proof. intros H. unfold bind. by rewrite H. Qed.

Lemma bind_raise {S E A B} (m : M S E A) (k : A -> M S E B) s e s' :
  m s = (Raise e, s') -> bind m k s = (Raise e, s').
Proof. intros H. unfold bind. by rewrite H. Qed.

Lemma bind_ok_inv {S E A B} (m : M S E A) (k : A -> M S E B) s b s'' :
  bind m k s = (Ok b, s'') -> exists a s', m s = (Ok a, s') /\ k a s' = (Ok b, s'').
Proof.
  unfold bind. destruct (m s) as [[a|e] s'] eqn:Em; [eauto | discriminate].
Qed.
