(* ===== verification/Schema.v ===== *)
(** * Schema: the relational data model and the world the services run in

    Every ORM class of app/models that the booking core reads or writes is a
    record with the columns of its table; a table is a finite map from primary
    key to row; [DB] is the database.  [World] adds what surrounds a service
    call: the session's view of the database and the durable one, the primary-key
    sequences, Redis and the clock.

    String columns with a closed set of values are enumerations; the columns the
    code compares with unknown strings (booking_mode, transfer_destination_policy,
    language, visibility) stay strings.  Column lengths are not modelled. *)

From S2P Require Import Prelude Py Effects.

(** ** Errors: [app/core/domain_errors.py] and the exceptions of the libraries *)

(** The subclasses of [DomainError]. *)
Inductive DomainErrorKind : Type :=
  | BadRequestError
  | UnauthorizedError
  | ForbiddenError
  | NotFoundError
  | ConflictError
  | PayloadTooLargeError
  | ServiceUnavailableError.
#[global] Instance DomainErrorKind_eq_dec : EqDecision DomainErrorKind.
Proof. solve_decision. Defined.

(** The [status_code] class attribute of each subclass. *)
Definition status_code (k : DomainErrorKind) : Z :=
  match k with
  | BadRequestError => 400
  | UnauthorizedError => 401
  | ForbiddenError => 403
  | NotFoundError => 404
  | ConflictError => 409
  | PayloadTooLargeError => 413
  | ServiceUnavailableError => 503
  end.

(** Everything a service call can end with besides a value.  [NonTermination]
    is not an exception: it marks a loop that never ends, and no handler
    matches it. *)
Inductive Exn : Type :=
  | DomainError (kind : DomainErrorKind) (message : string)
  | IntegrityError (constraint : string)
  | NoResultFound
  | KeyError (key : string)
  | ValueError (message : string)
  | TypeError
  | SmsDeliveryError (message : option string)
  | CalendarSyncError (message : option string)
  | CalendarCancelError (message : option string)
  | UnknownJobTypeError (job_type : string)
  | EmailDeliveryError (message : string)
  | WebhookSignatureError (message : string)
  | TwilioSignatureError (message : string)
  | HTTPException (code : Z) (detail : string)
  | ValidationError
  | JWTError
  | ClientError
  | DatabaseError
  | NonTermination.
#[global] Instance Exn_eq_dec : EqDecision Exn.
Proof. solve_decision. Defined.

(** ** Enumerations *)

(** [app/models/booking.py: BookingStatus] *)
Inductive BookingStatus : Type :=
  | CONFIRMED
  | CANCELLED
  | PENDING_PAYMENT.
#[global] Instance BookingStatus_eq_dec : EqDecision BookingStatus.
Proof. solve_decision. Defined.

(** [app/models/booking_payment.py: BookingPaymentStatus] *)
Inductive BookingPaymentStatus : Type :=
  | PAYMENT_PENDING
  | PAYMENT_SUCCEEDED
  | PAYMENT_FAILED
  | PAYMENT_REFUNDED.
#[global] Instance BookingPaymentStatus_eq_dec : EqDecision BookingPaymentStatus.
Proof. solve_decision. Defined.

(** [app/models/waitlist_entry.py: WaitlistEntryStatus] *)
Inductive WaitlistEntryStatus : Type :=
  | WL_WAITING
  | WL_OFFERED
  | WL_CONFIRMED
  | WL_EXPIRED
  | WL_CANCELLED.
#[global] Instance WaitlistEntryStatus_eq_dec : EqDecision WaitlistEntryStatus.
Proof. solve_decision. Defined.

(** [app/models/notification_outbox.py: NotificationPurpose] *)
Inductive NotificationPurpose : Type :=
  | BOOKING_CONFIRMATION
  | BOOKING_CANCELLATION
  | BOOKING_REMINDER
  | EXTERNAL_BOOKING_LINK
  | WAITLIST_OFFER.
#[global] Instance NotificationPurpose_eq_dec : EqDecision NotificationPurpose.
Proof. solve_decision. Defined.

(** [app/models/notification_outbox.py: NotificationStatus] *)
Inductive NotificationStatus : Type :=
  | NTF_PENDING
  | NTF_SENT
  | NTF_FAILED.
#[global] Instance NotificationStatus_eq_dec : EqDecision NotificationStatus.
Proof. solve_decision. Defined.

(** [app/models/calendar_event.py: CalendarSyncStatus] *)
Inductive CalendarSyncStatus : Type :=
  | CAL_PENDING
  | CAL_SYNCED
  | CAL_FAILED
  | CAL_CANCELLED
  | CAL_CANCEL_FAILED.
#[global] Instance CalendarSyncStatus_eq_dec : EqDecision CalendarSyncStatus.
Proof. solve_decision. Defined.

(** [app/models/audit_log.py: AuditAction] *)
Inductive AuditAction : Type :=
  | USER_UPDATED
  | USER_DEACTIVATED
  | USER_ACTIVATED
  | USER_DELETED
  | PASSWORD_RESET_REQUESTED
  | PASSWORD_RESET_CONFIRMED
  | TENANT_CREATED
  | TENANT_ACTIVATED
  | TENANT_DEACTIVATED
  | BOOKING_CREATED
  | BOOKING_CANCELLED
  | BOOKING_RESCHEDULED
  | BOOKING_CONFIRMED
  | BOOKING_OVERRIDE_CREATED
  | BOOKING_OVERRIDE_CANCELLED
  | BOOKING_HOLD_EXPIRED
  | BOOKING_PAYMENT_REFUNDED
  | CUSTOMER_ANONYMIZED.
#[global] Instance AuditAction_eq_dec : EqDecision AuditAction.
Proof. solve_decision. Defined.

(** [app/models/voice_session.py: IvrStep] *)
Inductive IvrStep : Type :=
  | INCOMING
  | SERVICE_SELECTION
  | STAFF_SELECTION
  | SLOT_SELECTION
  | STEP_BOOKING_CONFIRMED
  | NO_SLOTS
  | EXPIRED
  | ABANDONED
  | TRANSFER_UNAVAILABLE
  | EXTERNAL_LINK_SENT
  | MANAGE_BOOKING
  | RESCHEDULE_SLOT_SELECTION
  | STEP_BOOKING_CANCELLED.
#[global] Instance IvrStep_eq_dec : EqDecision IvrStep.
Proof. solve_decision. Defined.

(** [BookingSource], [BookingMode], [TransferDestinationPolicy] and
    [CalendarVisibility] values, compared as strings by the code. *)
Definition SOURCE_API : string := "api".
Definition SOURCE_IVR : string := "ivr".
Definition INTERNAL_BOOKING : string := "internal_booking".
Definition MODE_EXTERNAL_BOOKING_LINK : string := "external_booking_link".
Definition POLICY_BUSINESS_PHONE : string := "business_phone".
Definition POLICY_STAFF : string := "staff".
Definition VISIBILITY_PUBLIC : string := "public".
Definition VISIBILITY_PRIVATE : string := "private".

(** ** Rows *)

(** [app/models/business.py: Business] *)
Record Business : Type := MkBusiness {
  biz_id : Z;
  biz_tenant_id : Z;
  biz_name : string;
  biz_timezone : string;
  biz_language : string;
  biz_phone : option string;
  biz_owner_notification_phone : option string;
  biz_transfer_phone_number : option string;
  biz_is_active : bool;
  biz_transfer_enabled : bool;
  biz_transfer_destination_policy : string;
  biz_booking_mode : string;
  biz_external_booking_url : option string;
  biz_external_booking_label : option string;
  biz_external_booking_provider : option string;
  biz_subscription_plan : string;
  biz_created_at : Z }.
#[global] Instance eta_Business : Eta Business := fun r =>
  MkBusiness
    (biz_id r) (biz_tenant_id r) (biz_name r) (biz_timezone r) (biz_language r)
    (biz_phone r) (biz_owner_notification_phone r) (biz_transfer_phone_number r)
    (biz_is_active r) (biz_transfer_enabled r) (biz_transfer_destination_policy r)
    (biz_booking_mode r) (biz_external_booking_url r) (biz_external_booking_label r)
    (biz_external_booking_provider r) (biz_subscription_plan r) (biz_created_at r).

(** [app/models/service.py: Service] *)
Record Service : Type := MkService {
  svc_id : Z;
  svc_tenant_id : Z;
  svc_business_id : Z;
  svc_name : string;
  svc_duration_minutes : Z;
  svc_is_active : bool;
  svc_price_minor_units : option Z;
  svc_currency : option string;
  svc_deposit_required : bool;
  svc_deposit_minor_units : option Z;
  svc_created_at : Z }.
#[global] Instance eta_Service : Eta Service := fun r =>
  MkService
    (svc_id r) (svc_tenant_id r) (svc_business_id r) (svc_name r)
    (svc_duration_minutes r) (svc_is_active r) (svc_price_minor_units r) (svc_currency
    r) (svc_deposit_required r) (svc_deposit_minor_units r) (svc_created_at r).

(** [app/models/staff.py: Staff] *)
Record Staff : Type := MkStaff {
  stf_id : Z;
  stf_tenant_id : Z;
  stf_business_id : Z;
  stf_name : string;
  stf_phone : option string;
  stf_is_active : bool;
  stf_created_at : Z }.
#[global] Instance eta_Staff : Eta Staff := fun r =>
  MkStaff
    (stf_id r) (stf_tenant_id r) (stf_business_id r) (stf_name r) (stf_phone r)
    (stf_is_active r) (stf_created_at r).

(** [app/models/customer.py: Customer] *)
Record Customer : Type := MkCustomer {
  cus_id : Z;
  cus_tenant_id : Z;
  cus_business_id : Z;
  cus_phone : string;
  cus_phone_normalized : string;
  cus_name : option string;
  cus_created_at : Z }.
#[global] Instance eta_Customer : Eta Customer := fun r =>
  MkCustomer
    (cus_id r) (cus_tenant_id r) (cus_business_id r) (cus_phone r)
    (cus_phone_normalized r) (cus_name r) (cus_created_at r).

(** [app/models/client.py: Client] *)
Record Client : Type := MkClient {
  cli_id : Z;
  cli_tenant_id : Z;
  cli_business_id : Z;
  cli_customer_id : option Z;
  cli_name : string;
  cli_email : option string;
  cli_phone : option string;
  cli_notes : option string;
  cli_created_at : Z;
  cli_updated_at : Z }.
#[global] Instance eta_Client : Eta Client := fun r =>
  MkClient
    (cli_id r) (cli_tenant_id r) (cli_business_id r) (cli_customer_id r) (cli_name r)
    (cli_email r) (cli_phone r) (cli_notes r) (cli_created_at r) (cli_updated_at r).

(** [app/models/working_hours.py: WorkingHours] *)
Record WorkingHours : Type := MkWorkingHours {
  wh_id : Z;
  wh_tenant_id : Z;
  wh_business_id : Z;
  wh_staff_id : option Z;
  wh_day_of_week : Z;
  wh_start_time : Z;
  wh_end_time : Z }.
#[global] Instance eta_WorkingHours : Eta WorkingHours := fun r =>
  MkWorkingHours
    (wh_id r) (wh_tenant_id r) (wh_business_id r) (wh_staff_id r) (wh_day_of_week r)
    (wh_start_time r) (wh_end_time r).

(** [app/models/availability_exception.py: AvailabilityException] *)
Record AvailabilityException : Type := MkAvailabilityException {
  exc_id : Z;
  exc_tenant_id : Z;
  exc_business_id : Z;
  exc_staff_id : option Z;
  exc_date : Z;
  exc_is_closed : bool;
  exc_start_time : option Z;
  exc_end_time : option Z;
  exc_reason : option string }.
#[global] Instance eta_AvailabilityException : Eta AvailabilityException := fun r =>
  MkAvailabilityException
    (exc_id r) (exc_tenant_id r) (exc_business_id r) (exc_staff_id r) (exc_date r)
    (exc_is_closed r) (exc_start_time r) (exc_end_time r) (exc_reason r).

(** [app/models/recurring_staff_block.py: RecurringStaffBlock] *)
Record RecurringStaffBlock : Type := MkRecurringStaffBlock {
  blk_id : Z;
  blk_tenant_id : Z;
  blk_business_id : Z;
  blk_staff_id : option Z;
  blk_day_of_week : Z;
  blk_start_time : Z;
  blk_end_time : Z;
  blk_reason : option string }.
#[global] Instance eta_RecurringStaffBlock : Eta RecurringStaffBlock := fun r =>
  MkRecurringStaffBlock
    (blk_id r) (blk_tenant_id r) (blk_business_id r) (blk_staff_id r) (blk_day_of_week
    r) (blk_start_time r) (blk_end_time r) (blk_reason r).

(** [app/models/business_transfer_hours.py: BusinessTransferHours] *)
Record BusinessTransferHours : Type := MkBusinessTransferHours {
  bth_id : Z;
  bth_tenant_id : Z;
  bth_business_id : Z;
  bth_day_of_week : Z;
  bth_start_time : Z;
  bth_end_time : Z }.
#[global] Instance eta_BusinessTransferHours : Eta BusinessTransferHours := fun r =>
  MkBusinessTransferHours
    (bth_id r) (bth_tenant_id r) (bth_business_id r) (bth_day_of_week r)
    (bth_start_time r) (bth_end_time r).

(** [app/models/booking.py: Booking] *)
Record Booking : Type := MkBooking {
  bk_id : Z;
  bk_tenant_id : Z;
  bk_business_id : Z;
  bk_customer_id : Z;
  bk_service_id : Z;
  bk_staff_id : option Z;
  bk_starts_at : Z;
  bk_ends_at : Z;
  bk_status : BookingStatus;
  bk_source : string;
  bk_cancel_reason : option string;
  bk_created_at : Z }.
#[global] Instance eta_Booking : Eta Booking := fun r =>
  MkBooking
    (bk_id r) (bk_tenant_id r) (bk_business_id r) (bk_customer_id r) (bk_service_id r)
    (bk_staff_id r) (bk_starts_at r) (bk_ends_at r) (bk_status r) (bk_source r)
    (bk_cancel_reason r) (bk_created_at r).

(** [app/models/booking_line_item.py: BookingLineItem] *)
Record BookingLineItem : Type := MkBookingLineItem {
  li_id : Z;
  li_tenant_id : Z;
  li_business_id : Z;
  li_booking_id : Z;
  li_service_id : Z;
  li_position : Z;
  li_duration_minutes : Z;
  li_created_at : Z }.
#[global] Instance eta_BookingLineItem : Eta BookingLineItem := fun r =>
  MkBookingLineItem
    (li_id r) (li_tenant_id r) (li_business_id r) (li_booking_id r) (li_service_id r)
    (li_position r) (li_duration_minutes r) (li_created_at r).

(** [app/models/booking_payment.py: BookingPayment] *)
Record BookingPayment : Type := MkBookingPayment {
  pay_id : Z;
  pay_tenant_id : Z;
  pay_business_id : Z;
  pay_booking_id : Z;
  pay_provider : string;
  pay_provider_session_id : option string;
  pay_provider_payment_id : option string;
  pay_amount_minor_units : Z;
  pay_currency : string;
  pay_status : BookingPaymentStatus;
  pay_failure_reason : option string;
  pay_created_at : Z;
  pay_paid_at : option Z;
  pay_refunded_at : option Z }.
#[global] Instance eta_BookingPayment : Eta BookingPayment := fun r =>
  MkBookingPayment
    (pay_id r) (pay_tenant_id r) (pay_business_id r) (pay_booking_id r) (pay_provider
    r) (pay_provider_session_id r) (pay_provider_payment_id r) (pay_amount_minor_units
    r) (pay_currency r) (pay_status r) (pay_failure_reason r) (pay_created_at r)
    (pay_paid_at r) (pay_refunded_at r).

(** [app/models/waitlist_entry.py: WaitlistEntry] *)
Record WaitlistEntry : Type := MkWaitlistEntry {
  wl_id : Z;
  wl_tenant_id : Z;
  wl_business_id : Z;
  wl_customer_id : Z;
  wl_service_id : Z;
  wl_staff_id : option Z;
  wl_offered_for_staff_id : option Z;
  wl_desired_date : Z;
  wl_status : WaitlistEntryStatus;
  wl_created_at : Z;
  wl_updated_at : Z }.
#[global] Instance eta_WaitlistEntry : Eta WaitlistEntry := fun r =>
  MkWaitlistEntry
    (wl_id r) (wl_tenant_id r) (wl_business_id r) (wl_customer_id r) (wl_service_id r)
    (wl_staff_id r) (wl_offered_for_staff_id r) (wl_desired_date r) (wl_status r)
    (wl_created_at r) (wl_updated_at r).

(** [app/models/notification_outbox.py: NotificationOutbox]; the channel column has the
    single value "sms" and is left out. *)
Record NotificationOutbox : Type := MkNotificationOutbox {
  ntf_id : Z;
  ntf_tenant_id : Z;
  ntf_business_id : Z;
  ntf_booking_id : option Z;
  ntf_purpose : NotificationPurpose;
  ntf_recipient_phone : string;
  ntf_body : string;
  ntf_status : NotificationStatus;
  ntf_attempts : Z;
  ntf_last_error : option string;
  ntf_provider_message_id : option string;
  ntf_created_at : Z;
  ntf_sent_at : option Z;
  ntf_reconciled_at : option Z }.
#[global] Instance eta_NotificationOutbox : Eta NotificationOutbox := fun r =>
  MkNotificationOutbox
    (ntf_id r) (ntf_tenant_id r) (ntf_business_id r) (ntf_booking_id r) (ntf_purpose
    r) (ntf_recipient_phone r) (ntf_body r) (ntf_status r) (ntf_attempts r)
    (ntf_last_error r) (ntf_provider_message_id r) (ntf_created_at r) (ntf_sent_at r)
    (ntf_reconciled_at r).

(** [app/models/calendar_event.py: CalendarEvent] *)
Record CalendarEvent : Type := MkCalendarEvent {
  cal_id : Z;
  cal_tenant_id : Z;
  cal_business_id : Z;
  cal_booking_id : Z;
  cal_provider : string;
  cal_provider_event_id : option string;
  cal_status : CalendarSyncStatus;
  cal_attempts : Z;
  cal_cancel_attempts : Z;
  cal_last_error : option string;
  cal_created_at : Z;
  cal_synced_at : option Z;
  cal_reconciled_at : option Z }.
#[global] Instance eta_CalendarEvent : Eta CalendarEvent := fun r =>
  MkCalendarEvent
    (cal_id r) (cal_tenant_id r) (cal_business_id r) (cal_booking_id r) (cal_provider
    r) (cal_provider_event_id r) (cal_status r) (cal_attempts r) (cal_cancel_attempts
    r) (cal_last_error r) (cal_created_at r) (cal_synced_at r) (cal_reconciled_at r).

(** [app/models/calendar_integration.py: CalendarIntegration] *)
Record CalendarIntegration : Type := MkCalendarIntegration {
  ci_id : Z;
  ci_tenant_id : Z;
  ci_business_id : Z;
  ci_staff_id : option Z;
  ci_provider : string;
  ci_calendar_id : option string;
  ci_is_active : bool;
  ci_visibility : string }.
#[global] Instance eta_CalendarIntegration : Eta CalendarIntegration := fun r =>
  MkCalendarIntegration
    (ci_id r) (ci_tenant_id r) (ci_business_id r) (ci_staff_id r) (ci_provider r)
    (ci_calendar_id r) (ci_is_active r) (ci_visibility r).

(** [app/models/audit_log.py: AuditLog] *)
Record AuditLog : Type := MkAuditLog {
  aud_id : Z;
  aud_tenant_id : Z;
  aud_admin_id : option Z;
  aud_action : AuditAction;
  aud_target_user_id : option Z;
  aud_target_booking_id : option Z;
  aud_source : option string;
  aud_created_at : Z }.
#[global] Instance eta_AuditLog : Eta AuditLog := fun r =>
  MkAuditLog
    (aud_id r) (aud_tenant_id r) (aud_admin_id r) (aud_action r) (aud_target_user_id
    r) (aud_target_booking_id r) (aud_source r) (aud_created_at r).

(** [app/models/voice_session.py: VoiceSession].  [slot_candidates] holds the JSON array of
    start/end pairs that the column stores, decoded. *)
Record VoiceSession : Type := MkVoiceSession {
  vs_id : Z;
  vs_tenant_id : Z;
  vs_business_id : Z;
  vs_caller_phone : string;
  vs_step : IvrStep;
  vs_locale : string;
  vs_selected_service_id : option Z;
  vs_selected_staff_id : option Z;
  vs_selected_slot_start : option Z;
  vs_selected_slot_end : option Z;
  vs_booking_id : option Z;
  vs_managed_booking_id : option Z;
  vs_slot_candidates : option (list (Z * Z));
  vs_no_input_count : Z;
  vs_invalid_key_count : Z;
  vs_call_sid : option string;
  vs_transfer_destination : option string;
  vs_expires_at : Z;
  vs_created_at : Z;
  vs_updated_at : Z }.
#[global] Instance eta_VoiceSession : Eta VoiceSession := fun r =>
  MkVoiceSession
    (vs_id r) (vs_tenant_id r) (vs_business_id r) (vs_caller_phone r) (vs_step r)
    (vs_locale r) (vs_selected_service_id r) (vs_selected_staff_id r)
    (vs_selected_slot_start r) (vs_selected_slot_end r) (vs_booking_id r)
    (vs_managed_booking_id r) (vs_slot_candidates r) (vs_no_input_count r)
    (vs_invalid_key_count r) (vs_call_sid r) (vs_transfer_destination r)
    (vs_expires_at r) (vs_created_at r) (vs_updated_at r).

(** ** JSON documents: queued jobs, token claims, cursors, stored responses

    [JTime] is the ISO-8601 string of a UTC instant, by the instant it denotes. *)

Inductive json : Type :=
  | JNull
  | JBool (b : bool)
  | JInt (z : Z)
  | JStr (s : string)
  | JTime (instant : Z)
  | JObj (fields : list (string * Z)).
#[global] Instance json_eq_dec : EqDecision json.
Proof. solve_decision. Defined.

(** The members of a JSON object in order; a serialized job is one. *)
Abbreviation json_object := (list (string * json)).
Abbreviation raw_job := json_object.

(** ** Accounts *)

Inductive LeadStatus : Type :=
  | LEAD_NEW
  | LEAD_CONTACTED
  | LEAD_QUALIFIED
  | LEAD_ONBOARDED
  | LEAD_REJECTED.
#[global] Instance LeadStatus_eq_dec : EqDecision LeadStatus.
Proof. solve_decision. Defined.

(** [app/models/uploaded_file.py: UploadVerificationStatus] *)
Inductive UploadVerificationStatus : Type :=
  | UPLOAD_PENDING
  | UPLOAD_VERIFIED.
#[global] Instance UploadVerificationStatus_eq_dec : EqDecision UploadVerificationStatus.
Proof. solve_decision. Defined.

(** [app/models/business_membership.py: MembershipRole, MembershipStatus] *)
Inductive MembershipRole : Type :=
  | OWNER
  | ADMIN
  | STAFF.
#[global] Instance MembershipRole_eq_dec : EqDecision MembershipRole.
Proof. solve_decision. Defined.

Inductive MembershipStatus : Type :=
  | INVITED
  | ACTIVE
  | SUSPENDED
  | REVOKED.
#[global] Instance MembershipStatus_eq_dec : EqDecision MembershipStatus.
Proof. solve_decision. Defined.

(** [app/models/tenant.py: Tenant] *)
Record Tenant : Type := MkTenant {
  ten_id : Z;
  ten_slug : string;
  ten_name : string;
  ten_is_active : bool }.
#[global] Instance eta_Tenant : Eta Tenant := fun r =>
  MkTenant
    (ten_id r) (ten_slug r) (ten_name r) (ten_is_active r).

(** [app/models/user.py: User] *)
Record User : Type := MkUser {
  usr_id : Z;
  usr_tenant_id : Z;
  usr_email : string;
  usr_hashed_password : string;
  usr_is_active : bool;
  usr_role : string;
  usr_token_version : Z;
  usr_is_demo_user : bool }.
#[global] Instance eta_User : Eta User := fun r =>
  MkUser
    (usr_id r) (usr_tenant_id r) (usr_email r) (usr_hashed_password r) (usr_is_active r)
    (usr_role r) (usr_token_version r) (usr_is_demo_user r).

(** [app/models/business_membership.py: BusinessMembership] *)
Record BusinessMembership : Type := MkBusinessMembership {
  mem_id : Z;
  mem_tenant_id : Z;
  mem_business_id : Z;
  mem_user_id : Z;
  mem_staff_id : option Z;
  mem_role : MembershipRole;
  mem_status : MembershipStatus;
  mem_invited_at : option Z;
  mem_accepted_at : option Z;
  mem_revoked_at : option Z;
  mem_invited_by_user_id : option Z;
  mem_revoked_by_user_id : option Z;
  mem_created_at : Z;
  mem_updated_at : Z }.
#[global] Instance eta_BusinessMembership : Eta BusinessMembership := fun r =>
  MkBusinessMembership
    (mem_id r) (mem_tenant_id r) (mem_business_id r) (mem_user_id r) (mem_staff_id r)
    (mem_role r) (mem_status r) (mem_invited_at r) (mem_accepted_at r)
    (mem_revoked_at r) (mem_invited_by_user_id r) (mem_revoked_by_user_id r)
    (mem_created_at r) (mem_updated_at r).

(** [app/models/password_reset_token.py: PasswordResetToken] *)
Record PasswordResetToken : Type := MkPasswordResetToken {
  prt_id : Z;
  prt_user_id : Z;
  prt_token_hash : string;
  prt_expires_at : Z;
  prt_used_at : option Z;
  prt_created_at : Z }.
#[global] Instance eta_PasswordResetToken : Eta PasswordResetToken := fun r =>
  MkPasswordResetToken
    (prt_id r) (prt_user_id r) (prt_token_hash r) (prt_expires_at r) (prt_used_at r)
    (prt_created_at r).

(** [app/models/password_reset_job_completion.py: PasswordResetJobCompletion] *)
Record PasswordResetJobCompletion : Type := MkPasswordResetJobCompletion {
  prc_id : Z;
  prc_job_id : string;
  prc_completed_at : Z }.
#[global] Instance eta_PasswordResetJobCompletion : Eta PasswordResetJobCompletion := fun r =>
  MkPasswordResetJobCompletion
    (prc_id r) (prc_job_id r) (prc_completed_at r).

(** [app/models/idempotency_record.py: IdempotencyRecord].  [response_body] holds the JSON
    object that the column stores, decoded. *)
Record IdempotencyRecord : Type := MkIdempotencyRecord {
  idm_id : Z;
  idm_scope_key : string;
  idm_status_code : Z;
  idm_response_body : json_object;
  idm_created_at : Z;
  idm_expires_at : Z }.
#[global] Instance eta_IdempotencyRecord : Eta IdempotencyRecord := fun r =>
  MkIdempotencyRecord
    (idm_id r) (idm_scope_key r) (idm_status_code r) (idm_response_body r)
    (idm_created_at r) (idm_expires_at r).

(** [app/models/webhook_event.py: WebhookEvent] *)
Record WebhookEvent : Type := MkWebhookEvent {
  whk_id : Z;
  whk_provider : string;
  whk_event_id : string;
  whk_payload_hash : string;
  whk_received_at : Z }.
#[global] Instance eta_WebhookEvent : Eta WebhookEvent := fun r =>
  MkWebhookEvent
    (whk_id r) (whk_provider r) (whk_event_id r) (whk_payload_hash r)
    (whk_received_at r).

(** [app/models/uploaded_file.py: UploadedFile] *)
Record UploadedFile : Type := MkUploadedFile {
  upl_id : Z;
  upl_tenant_id : Z;
  upl_owner_id : Z;
  upl_object_key : string;
  upl_filename : string;
  upl_content_type : string;
  upl_size_bytes : Z;
  upl_verification_status : UploadVerificationStatus;
  upl_created_at : Z }.
#[global] Instance eta_UploadedFile : Eta UploadedFile := fun r =>
  MkUploadedFile
    (upl_id r) (upl_tenant_id r) (upl_owner_id r) (upl_object_key r) (upl_filename r)
    (upl_content_type r) (upl_size_bytes r) (upl_verification_status r)
    (upl_created_at r).

(** [app/models/owner_lead.py: OwnerLead] *)
Record OwnerLead : Type := MkOwnerLead {
  lead_id : Z;
  lead_business_name : string;
  lead_owner_name : option string;
  lead_email : string;
  lead_phone_number : string;
  lead_phone_normalized : string;
  lead_city : option string;
  lead_booking_mode_interest : string;
  lead_external_booking_url : option string;
  lead_message : option string;
  lead_status : LeadStatus;
  lead_created_at : Z;
  lead_updated_at : Z }.
#[global] Instance eta_OwnerLead : Eta OwnerLead := fun r =>
  MkOwnerLead
    (lead_id r) (lead_business_name r) (lead_owner_name r) (lead_email r) (lead_phone_number r)
    (lead_phone_normalized r) (lead_city r) (lead_booking_mode_interest r)
    (lead_external_booking_url r) (lead_message r) (lead_status r) (lead_created_at r)
    (lead_updated_at r).

(** ** The database *)

(** One finite map per table, keyed by primary key. *)
Record DB : Type := MkDB {
  businesses : gmap Z Business;
  services : gmap Z Service;
  staff : gmap Z Staff;
  customers : gmap Z Customer;
  clients : gmap Z Client;
  working_hours : gmap Z WorkingHours;
  availability_exceptions : gmap Z AvailabilityException;
  recurring_staff_blocks : gmap Z RecurringStaffBlock;
  business_transfer_hours : gmap Z BusinessTransferHours;
  bookings : gmap Z Booking;
  booking_line_items : gmap Z BookingLineItem;
  booking_payments : gmap Z BookingPayment;
  waitlist_entries : gmap Z WaitlistEntry;
  notification_outbox : gmap Z NotificationOutbox;
  calendar_events : gmap Z CalendarEvent;
  calendar_integrations : gmap Z CalendarIntegration;
  audit_logs : gmap Z AuditLog;
  voice_sessions : gmap Z VoiceSession;
  tenants : gmap Z Tenant;
  users : gmap Z User;
  business_memberships : gmap Z BusinessMembership;
  password_reset_tokens : gmap Z PasswordResetToken;
  password_reset_job_completions : gmap Z PasswordResetJobCompletion;
  idempotency_records : gmap Z IdempotencyRecord;
  webhook_events : gmap Z WebhookEvent;
  uploaded_files : gmap Z UploadedFile;
  owner_leads : gmap Z OwnerLead }.
#[global] Instance eta_DB : Eta DB := fun r =>
  MkDB
    (businesses r) (services r) (staff r) (customers r) (clients r) (working_hours r)
    (availability_exceptions r) (recurring_staff_blocks r) (business_transfer_hours r)
    (bookings r) (booking_line_items r) (booking_payments r) (waitlist_entries r)
    (notification_outbox r) (calendar_events r) (calendar_integrations r) (audit_logs
    r) (voice_sessions r) (tenants r) (users r) (business_memberships r)
    (password_reset_tokens r) (password_reset_job_completions r) (idempotency_records r)
    (webhook_events r) (uploaded_files r) (owner_leads r).

Definition empty_db : DB :=
  MkDB ∅ ∅ ∅ ∅ ∅ ∅ ∅ ∅ ∅ ∅ ∅ ∅ ∅ ∅ ∅ ∅ ∅ ∅ ∅ ∅ ∅ ∅ ∅ ∅ ∅ ∅ ∅.

(** The tables, for their primary-key sequences. *)
Inductive TableName : Type :=
  | TBusinesses
  | TServices
  | TStaff
  | TCustomers
  | TClients
  | TWorkingHours
  | TAvailabilityExceptions
  | TRecurringStaffBlocks
  | TBusinessTransferHours
  | TBookings
  | TBookingLineItems
  | TBookingPayments
  | TWaitlistEntries
  | TNotificationOutbox
  | TCalendarEvents
  | TCalendarIntegrations
  | TAuditLogs
  | TVoiceSessions
  | TTenants
  | TUsers
  | TBusinessMemberships
  | TPasswordResetTokens
  | TPasswordResetJobCompletions
  | TIdempotencyRecords
  | TWebhookEvents
  | TUploadedFiles
  | TOwnerLeads.
#[global] Instance TableName_eq_dec : EqDecision TableName.
Proof. solve_decision. Defined.

(** [app/schemas/user.py: UserRead], what a listing of users shows and caches. *)
Record UserRead : Type := MkUserRead {
  ur_id : Z;
  ur_email : string;
  ur_is_active : bool;
  ur_role : string;
  ur_is_demo_user : bool }.

(** What a plain Redis key holds: a decimal number (locks and markers hold 1) or the JSON of
    a cached page of users with its cursor. *)
Inductive redis_value : Type :=
  | RInt (n : Z)
  | RUsersPage (items : list UserRead) (next_cursor : option json_object).

(** Redis: lists (head first), sorted sets (member and score) and plain keys
    with their expiry instant, if they have one. *)
Record Redis : Type := MkRedis {
  r_lists : gmap string (list raw_job);
  r_zsets : gmap string (list (raw_job * Z));
  r_keys : gmap string (redis_value * option Z) }.
#[global] Instance eta_Redis : Eta Redis := fun r =>
  MkRedis (r_lists r) (r_zsets r) (r_keys r).

(** ** The world of a service call

    [w_db] is what the session sees (its transaction's writes included),
    [w_committed] is what survives a rollback.  Sequences, Redis and the clock
    are outside the transaction. *)
Record World : Type := MkWorld {
  w_db : DB;
  w_committed : DB;
  w_seq : TableName -> Z;
  w_redis : Redis;
  w_now : Z;
  w_entropy : Z;
  w_request_id : option string }.
#[global] Instance eta_World : Eta World := fun r =>
  MkWorld (w_db r) (w_committed r) (w_seq r) (w_redis r) (w_now r) (w_entropy r)
    (w_request_id r).

Abbreviation PyM := (M World Exn).
