(* ===== verification/Settings.v ===== *)
(** * Settings: app/core/config.py and the external functions

    [Config] holds the settings the services read and the functions of libraries that
    are not part of the program (time-zone data, digests, password hashing, signed
    tokens) as parameters.  [default_config] gives the settings their defaults and the
    functions simple stand-ins, to run the model. *)

From S2P Require Import Prelude Py Effects Schema.

Class Config : Type := {
  secret_key : string;
  booking_public_base_url : string;
  booking_payment_hold_minutes : Z;
  reminder_lead_minutes : Z;
  reminder_min_advance_minutes : Z;
  waitlist_offer_timeout_minutes : Z;
  audit_log_retention_days : Z;
  worker_reconciliation_stale_minutes : Z;
  worker_queue_name : string;
  worker_failed_queue_name : string;
  worker_processing_queue_name : string;
  worker_delayed_queue_name : string;
  worker_max_retries : Z;
  worker_retry_backoff_base_seconds : Z;
  worker_retry_backoff_max_seconds : Z;
  worker_processing_visibility_timeout_seconds : Z;
  worker_maintenance_enabled : bool;
  worker_maintenance_interval_seconds : Z;
  worker_maintenance_lock_key : string;
  worker_queue_maintenance_interval_seconds : Z;
  worker_queue_promote_batch_size : Z;
  ivr_session_ttl_minutes : Z;
  ivr_slot_search_days : Z;
  ivr_max_slots : Z;
  public_demo_business_id : Z;
  public_demo_enabled : bool;
  public_demo_user_email : string;
  registration_enabled : bool;
  access_token_expire_minutes : Z;
  refresh_token_expire_days : Z;
  password_reset_url : string;
  password_reset_token_expire_minutes : Z;
  password_reset_job_completion_ttl_seconds : Z;
  password_reset_rate_limit_limit : Z;
  password_reset_rate_limit_window_seconds : Z;
  rate_limit_trust_forwarded_headers : bool;
  rate_limit_default_limit : Z;
  rate_limit_default_window_seconds : Z;
  auth_login_rate_limit_limit : Z;
  auth_login_rate_limit_window_seconds : Z;
  auth_register_rate_limit_limit : Z;
  auth_register_rate_limit_window_seconds : Z;
  tenant_signup_rate_limit_limit : Z;
  tenant_signup_rate_limit_window_seconds : Z;
  auth_refresh_rate_limit_limit : Z;
  auth_refresh_rate_limit_window_seconds : Z;
  auth_logout_rate_limit_limit : Z;
  auth_logout_rate_limit_window_seconds : Z;
  auth_demo_rate_limit_limit : Z;
  auth_demo_rate_limit_window_seconds : Z;
  twilio_voice_rate_limit_limit : Z;
  twilio_voice_rate_limit_window_seconds : Z;
  twilio_sms_status_rate_limit_limit : Z;
  twilio_sms_status_rate_limit_window_seconds : Z;
  twilio_sms_inbound_rate_limit_limit : Z;
  twilio_sms_inbound_rate_limit_window_seconds : Z;
  twilio_account_sid : string;
  twilio_auth_token : string;
  twilio_sms_from : string;
  twilio_voice_base_url : string;
  smtp_host : string;
  users_cache_enabled : bool;
  users_cache_ttl_seconds : Z;
  upload_max_size_bytes : Z;
  upload_allowed_content_types : string;
  upload_presigned_url_expire_seconds : Z;
  upload_stream_chunk_size_bytes : Z;
  upload_malware_scan_enabled : bool;
  upload_malware_scanner_url : string;
  webhook_signature_secret : string;
  webhook_signature_tolerance_seconds : Z;
  webhook_event_retention_days : Z;
  webhook_max_body_bytes : Z;
  webhook_ingress_rate_limit_limit : Z;
  webhook_ingress_rate_limit_window_seconds : Z;
  webhook_provider_rate_limit_limit : Z;
  webhook_provider_rate_limit_window_seconds : Z;
  idempotency_ttl_seconds : Z;
  idempotency_processing_lock_ttl_seconds : Z;
  (** [ZoneInfo(tz)]: offset from UTC of a wall-clock instant (with [fold=0])
      and of a UTC instant, in microseconds. *)
  tz_offset_of_local : string -> Z -> Z;
  tz_offset_of_utc : string -> Z -> Z;
  (** HMAC-SHA256, in hexadecimal. *)
  hmac_sha256_hex : string -> string -> string;
  (** HMAC-SHA1 of the UTF-8 bytes of the text, in base 64. *)
  hmac_sha1_base64 : string -> string -> string;
  (** [WebhookInboundRequest.model_validate_json]: provider and event of a valid body. *)
  validate_webhook_json : string -> option (string * string);
  (** SHA-256, in hexadecimal. *)
  sha256_hex : string -> string;
  (** The hexadecimal SHA-256 of the JSON of the parameters of a listing and its cursor. *)
  cache_params_digest : json_object -> option (option json_object) -> string;
  (** [str(uuid7())] and [secrets.token_urlsafe(32)] drawn with the given entropy. *)
  uuid_str : Z -> string;
  token_urlsafe : Z -> string;
  (** [pwd_context.hash] with the given salt and [pwd_context.verify] of passlib. *)
  bcrypt_hash : Z -> string -> string;
  bcrypt_verify : string -> string -> bool;
  (** [jwt.encode] of jose, and the part of [jwt.decode] that checks the signature and
      parses the claims. *)
  jwt_encode : string -> json_object -> string;
  jwt_verify : string -> string -> option json_object }.


(** A printable stand-in for a keyed digest. *)
Definition checksum (k m : string) : string :=
  string_of_Z (fold_left (fun h c => (h * 257 + Z.of_N (N_of_ascii c)) mod 1000000007)
                 (chars (k ++ m)%string) 7).

(** ** A stand-in for signed tokens

    A document as text: every character of a name or value is marked, so that it cannot
    be taken for a delimiter. *)

Definition mark (s : string) : list ascii := flat_map (fun c => ["x"; c])%char (chars s) ++ ["."%char].

Fixpoint unmark (l : list ascii) : option (list ascii * list ascii) :=
  match l with
  | "."%char :: rest => Some ([], rest)
  | "x"%char :: c :: rest =>
      match unmark rest with Some (s, rest') => Some (c :: s, rest') | None => None end
  | _ => None
  end.

Definition print_json (v : json) : list ascii :=
  match v with
  | JNull => ["n"]
  | JBool true => ["t"]
  | JBool false => ["f"]
  | JInt z => "i" :: mark (string_of_Z z)
  | JStr s => "s" :: mark s
  | JTime t => "d" :: mark (string_of_Z t)
  | JObj fields =>
      "o" :: flat_map (fun kv => "k" :: mark kv.1 ++ mark (string_of_Z kv.2)) fields ++ ["."]
  end%char.

Fixpoint read_fields (fuel : nat) (l : list ascii) : option (list (string * Z) * list ascii) :=
  match fuel, l with
  | S fuel, "."%char :: rest => Some ([], rest)
  | S fuel, "k"%char :: rest =>
      '(k, rest) ← unmark rest; '(v, rest) ← unmark rest; z ← py_int (of_chars v);
      '(fields, rest) ← read_fields fuel rest; Some ((of_chars k, z) :: fields, rest)
  | _, _ => None
  end.

Definition read_json (l : list ascii) : option (json * list ascii) :=
  match l with
  | "n"%char :: rest => Some (JNull, rest)
  | "t"%char :: rest => Some (JBool true, rest)
  | "f"%char :: rest => Some (JBool false, rest)
  | "i"%char :: rest => '(s, rest) ← unmark rest; z ← py_int (of_chars s); Some (JInt z, rest)
  | "s"%char :: rest => '(s, rest) ← unmark rest; Some (JStr (of_chars s), rest)
  | "d"%char :: rest => '(s, rest) ← unmark rest; z ← py_int (of_chars s); Some (JTime z, rest)
  | "o"%char :: rest =>
      '(fields, rest) ← read_fields (length rest) rest; Some (JObj fields, rest)
  | _ => None
  end.

Definition print_members (o : json_object) : list ascii :=
  flat_map (fun kv => "m"%char :: mark kv.1 ++ print_json kv.2) o.

Fixpoint read_members (fuel : nat) (l : list ascii) : option json_object :=
  match fuel, l with
  | _, [] => Some []
  | S fuel, "m"%char :: rest =>
      '(k, rest) ← unmark rest; '(v, rest) ← read_json rest; o ← read_members fuel rest;
      Some ((of_chars k, v) :: o)
  | _, _ => None
  end.

Definition print_claims (o : json_object) : string := of_chars (print_members o).
Definition read_claims (token : string) : option json_object :=
  read_members (length (chars token)) (chars token).

Lemma unmark_mark s rest : unmark (mark s ++ rest) = Some (chars s, rest).
Proof.
  unfold mark. rewrite <- app_assoc. simpl. induction (chars s) as [|c l IH]; simpl; [done|].
  by rewrite IH.
Qed.

Lemma read_fields_print fields fuel rest :
  (length fields < fuel)%nat ->
  read_fields fuel (flat_map (fun kv => "k"%char :: mark kv.1 ++ mark (string_of_Z kv.2)) fields
                      ++ "."%char :: rest) = Some (fields, rest).
Proof.
  revert fuel. induction fields as [|[k z] fields IH]; intros [|fuel] Hf; simpl in *; try lia;
    [done|].
  rewrite <- !app_assoc, unmark_mark. simpl. rewrite unmark_mark. simpl.
  rewrite !of_chars_chars, py_int_string_of_Z. simpl. by rewrite IH by lia.
Qed.

Lemma read_json_print v rest : read_json (print_json v ++ rest) = Some (v, rest).
Proof.
  destruct v as [|[]|z|s|t|fields]; simpl; try done;
    rewrite ?unmark_mark; simpl; rewrite ?of_chars_chars, ?py_int_string_of_Z; try done.
  rewrite <- app_assoc. simpl. rewrite read_fields_print; [done|].
  rewrite length_app. simpl. induction fields as [|kv fields IH]; simpl; [lia|].
  rewrite length_app. lia.
Qed.

Lemma read_members_print o fuel :
  (length o <= fuel)%nat -> read_members fuel (print_members o) = Some o.
Proof.
  revert fuel. induction o as [|[k v] o IH]; intros [|fuel] Hf; simpl in *; try lia; try done.
  rewrite <- !app_assoc, unmark_mark. simpl. rewrite read_json_print. simpl.
  rewrite of_chars_chars. by rewrite IH by lia.
Qed.

Lemma read_claims_print o : read_claims (print_claims o) = Some o.
Proof.
  unfold read_claims, print_claims. rewrite chars_of_chars. apply read_members_print.
  induction o as [|kv o IH]; simpl; [lia|]. rewrite length_app. lia.
Qed.

(** The defaults of [Settings] (and a webhook secret and a mail server, which have none), with the given wall-clock offsets and simple
    stand-ins for the external functions; used to run the model. *)
Definition config_with_offset (offset : Z -> Z) : Config := {|
  secret_key := "secret";
  booking_public_base_url := "";
  booking_payment_hold_minutes := 15;
  reminder_lead_minutes := 1440;
  reminder_min_advance_minutes := 1440;
  waitlist_offer_timeout_minutes := 60;
  audit_log_retention_days := 365;
  worker_reconciliation_stale_minutes := 15;
  worker_queue_name := "app_jobs";
  worker_failed_queue_name := "app_jobs_failed";
  worker_processing_queue_name := "app_jobs_processing";
  worker_delayed_queue_name := "app_jobs_delayed";
  worker_max_retries := 3;
  worker_retry_backoff_base_seconds := 5;
  worker_retry_backoff_max_seconds := 300;
  worker_processing_visibility_timeout_seconds := 300;
  worker_maintenance_enabled := true;
  worker_maintenance_interval_seconds := 3600;
  worker_maintenance_lock_key := "app_jobs_maintenance_lock";
  worker_queue_maintenance_interval_seconds := 5;
  worker_queue_promote_batch_size := 100;
  ivr_session_ttl_minutes := 10;
  ivr_slot_search_days := 7;
  ivr_max_slots := 5;
  public_demo_business_id := 0;
  public_demo_enabled := false;
  public_demo_user_email := "";
  registration_enabled := true;
  access_token_expire_minutes := 30;
  refresh_token_expire_days := 7;
  password_reset_url := "http://localhost:8000/reset-password";
  password_reset_token_expire_minutes := 30;
  password_reset_job_completion_ttl_seconds := 86400;
  password_reset_rate_limit_limit := 3;
  password_reset_rate_limit_window_seconds := 300;
  rate_limit_trust_forwarded_headers := false;
  rate_limit_default_limit := 5;
  rate_limit_default_window_seconds := 60;
  auth_login_rate_limit_limit := 10;
  auth_login_rate_limit_window_seconds := 60;
  auth_register_rate_limit_limit := 5;
  auth_register_rate_limit_window_seconds := 300;
  tenant_signup_rate_limit_limit := 3;
  tenant_signup_rate_limit_window_seconds := 3600;
  auth_refresh_rate_limit_limit := 30;
  auth_refresh_rate_limit_window_seconds := 60;
  auth_logout_rate_limit_limit := 30;
  auth_logout_rate_limit_window_seconds := 60;
  auth_demo_rate_limit_limit := 20;
  auth_demo_rate_limit_window_seconds := 60;
  twilio_voice_rate_limit_limit := 120;
  twilio_voice_rate_limit_window_seconds := 60;
  twilio_sms_status_rate_limit_limit := 300;
  twilio_sms_status_rate_limit_window_seconds := 60;
  twilio_sms_inbound_rate_limit_limit := 300;
  twilio_sms_inbound_rate_limit_window_seconds := 60;
  twilio_account_sid := "";
  twilio_auth_token := "twilio-token";
  twilio_sms_from := "";
  twilio_voice_base_url := "https://salon.example/";
  smtp_host := "smtp";
  users_cache_enabled := true;
  users_cache_ttl_seconds := 60;
  upload_max_size_bytes := 5242880;
  upload_allowed_content_types := "image/png,image/jpeg,application/pdf";
  upload_presigned_url_expire_seconds := 300;
  upload_stream_chunk_size_bytes := 65536;
  upload_malware_scan_enabled := false;
  upload_malware_scanner_url := "";
  webhook_signature_secret := "webhook-secret";
  webhook_signature_tolerance_seconds := 300;
  webhook_event_retention_days := 90;
  webhook_max_body_bytes := 1048576;
  webhook_ingress_rate_limit_limit := 60;
  webhook_ingress_rate_limit_window_seconds := 60;
  webhook_provider_rate_limit_limit := 120;
  webhook_provider_rate_limit_window_seconds := 60;
  idempotency_ttl_seconds := 86400;
  idempotency_processing_lock_ttl_seconds := 60;
  tz_offset_of_local := fun _ => offset;
  tz_offset_of_utc := fun _ _ => 0;
  hmac_sha256_hex := checksum;
  hmac_sha1_base64 := checksum;
  validate_webhook_json := fun body =>
    match split_at "/"%char (chars body) with
    | Some (provider, event_id) => Some (of_chars provider, of_chars event_id)
    | None => None
    end;
  sha256_hex := checksum "";
  cache_params_digest := fun params cursor =>
    checksum (print_claims params)
      (match cursor with
       | None => "none"
       | Some None => "garbage"
       | Some (Some payload) => print_claims payload
       end);
  uuid_str := fun n => ("job-" ++ string_of_Z n)%string;
  token_urlsafe := fun n => ("token-" ++ string_of_Z n)%string;
  bcrypt_hash := fun _ p => ("bcrypt:" ++ p)%string;
  bcrypt_verify := fun p h => String.eqb h ("bcrypt:" ++ p);
  jwt_encode := fun _ => print_claims;
  jwt_verify := fun _ => read_claims |}.

(** Every zone is UTC. *)
Definition default_config : Config := config_with_offset (fun _ => 0).

(** What the services rely on: jose reads back the claims it signed with the same key, and
    passlib accepts a password against its own hash. *)
Class SecurityLaws `{Config} : Prop := {
  jwt_roundtrip : forall key claims, jwt_verify key (jwt_encode key claims) = Some claims;
  bcrypt_accepts : forall salt password, bcrypt_verify password (bcrypt_hash salt password) = true }.

Lemma default_security offset : @SecurityLaws (config_with_offset offset).
Proof.
  split; [intros key claims; apply read_claims_print|].
  intros salt password. apply String.eqb_refl.
Qed.
