(* ===== verification/Orm.v ===== *)
(** * Orm: the SQLAlchemy session over the relational model

    [Entity A] says which table holds the rows of type [A], which column is the
    primary key, what [onupdate=func.now()] changes, and which constraints the
    database enforces (unique indexes, the booking exclusion constraint, foreign
    keys on delete).  The operations are the ones the services use:

    - [first]/[all]: a query with a filter; without ORDER BY the database may
      return rows in any order, here that of the finite map;
    - [find_pk]: a filter on the primary key plus further conditions;
    - [db_insert]: [db.add(row)] and the flush that assigns the primary key and
      checks the constraints, raising [IntegrityError];
    - [save]: attribute assignments to a loaded row;
    - [refresh], [db_delete], [commit], [rollback].

    The session runs with [autoflush=False]; no query of the services filters on
    a column whose new value is still unflushed, so the session's view is one
    database state. *)

From S2P Require Import Prelude Py Effects Schema.

Class Entity (A : Type) : Type := {
  table : DB -> gmap Z A;
  on_table : (gmap Z A -> gmap Z A) -> DB -> DB;
  table_name : TableName;
  pk : A -> Z;
  touch : Z -> option A -> A -> A;
  violates : DB -> A -> option string;
  referenced : DB -> Z -> option string }.

(** What the lemmas below rely on: [on_table] changes exactly this table and the
    update hook keeps the primary key. *)
Class EntityLaws (A : Type) `{Entity A} : Prop := {
  table_on_table : forall f db, table (on_table f db) = f (table db);
  pk_touch : forall now old r, pk (touch now old r) = pk r }.

(** ** Queries and writes *)

Definition rows_of {A} (t : gmap Z A) : list A := (map_to_list t).*2.

Section Session.
Context {A : Type} `{Entity A}.

(** [query.filter(p).all()] *)
Definition all (p : A -> bool) : PyM (list A) :=
  asks (fun w => List.filter p (rows_of (table (w_db w)))).

(** [query.filter(p).first()] *)
Definition first (p : A -> bool) : PyM (option A) :=
  asks (fun w => head (List.filter p (rows_of (table (w_db w))))).

(** [query.filter(A.id == k, p).first()] *)
Definition find_pk (k : Z) (p : A -> bool) : PyM (option A) :=
  asks (fun w => match table (w_db w) !! k with
                 | Some r => if p r then Some r else None
                 | None => None
                 end).

(** [query.filter(A.id == k).one()] *)
Definition one_pk (k : Z) : PyM A :=
  bind (find_pk k (fun _ => true)) (fun o =>
    match o with Some r => ret r | None => raise NoResultFound end).

(** [db.add(row); db.flush()]: the sequence gives the primary key, the
    constraints are checked, the server defaults read the clock ([mk]). *)
Definition db_insert (mk : Z -> Z -> A) : PyM A :=
  fun w =>
    let k := w_seq w table_name in
    let r := mk k (w_now w) in
    let w1 := w <| w_seq ::= fun sq t => if decide (t = table_name) then k + 1 else sq t |> in
    match table (w_db w) !! k with
    | Some _ => (Raise (IntegrityError "pkey"), w1)
    | None =>
        match violates (w_db w) r with
        | Some c => (Raise (IntegrityError c), w1)
        | None => (Ok r, w1 <| w_db ::= on_table (<[k := r]>) |>)
        end
    end.

(** Attribute assignments to the row [r], as the flush writes them. *)
Definition save (r : A) : PyM unit :=
  modify (fun w => w <| w_db ::= on_table (fun t => <[pk r := touch (w_now w) (t !! pk r) r]> t) |>).

(** Attribute assignments to columns with a constraint: the flush of the UPDATE checks it. *)
Definition db_update (r : A) : PyM unit :=
  fun w => match violates (w_db w) r with
           | Some c => (Raise (IntegrityError c), w)
           | None => save r w
           end.

(** [db.refresh(r)]: re-read the row. *)
Definition refresh (r : A) : PyM A :=
  asks (fun w => default r (table (w_db w) !! pk r)).

(** [db.delete(row)] and its flush. *)
Definition db_delete (r : A) : PyM unit :=
  fun w => match referenced (w_db w) (pk r) with
           | Some fk => (Raise (IntegrityError fk), w)
           | None => (Ok tt, w <| w_db ::= on_table (base.delete (pk r)) |>)
           end.

(** [query.filter(p).delete(synchronize_session=False)]: the number deleted. *)
Definition delete_where (p : A -> bool) : PyM Z :=
  fun w =>
    let n := Z.of_nat (length (List.filter p (rows_of (table (w_db w))))) in
    (Ok n, w <| w_db ::= on_table (fun t => base.filter (fun kv => p (kv.2) = false) t) |>).

(** [query.filter(p).update(values, synchronize_session=False)] *)
Definition update_where (p : A -> bool) (values : A -> A) : PyM unit :=
  modify (fun w => w <| w_db ::= on_table (fmap (fun r => if p r then values r else r)) |>).
End Session.

Definition commit : PyM unit := modify (fun w => w <| w_committed := w_db w |>).
Definition rollback : PyM unit := modify (fun w => w <| w_db := w_committed w |>).

(** [datetime.now(timezone.utc)], [time.time()]. *)
Definition now_utc : PyM Z := asks w_now.

Definition domain_error {A} (k : DomainErrorKind) (msg : string) : PyM A :=
  raise (DomainError k msg).

(** [x if x is not None else raise NotFoundError(msg)]. *)
Definition require {A} (msg : string) (o : option A) : PyM A :=
  match o with Some a => ret a | None => domain_error NotFoundError msg end.

(** One request or job: [get_db()] / [SessionLocal()] opens a session on the
    durable state and closing it discards what was not committed. *)
Definition open_session (w : World) : World := w <| w_db := w_committed w |>.

Definition run_request {A} (m : PyM A) (w : World) : Result Exn A * World :=
  let '(r, w') := m (open_session w) in (r, open_session w').

(** ** The entities *)

Definition no_constraint {A} (_ : DB) (_ : A) : option string := None.
Definition no_touch {A} (_ : Z) (_ : option A) (r : A) : A := r.
Definition never_referenced (_ : DB) (_ : Z) : option string := None.

#[global] Instance Entity_Business : Entity Business := {|
  table := businesses; on_table f db := db <| businesses ::= f |>;
  table_name := TBusinesses; pk := biz_id; touch := no_touch;
  violates := no_constraint; referenced := never_referenced |}.

#[global] Instance Entity_Staff : Entity Staff := {|
  table := staff; on_table f db := db <| staff ::= f |>;
  table_name := TStaff; pk := stf_id; touch := no_touch;
  violates := no_constraint; referenced := never_referenced |}.

#[global] Instance Entity_WorkingHours : Entity WorkingHours := {|
  table := working_hours; on_table f db := db <| working_hours ::= f |>;
  table_name := TWorkingHours; pk := wh_id; touch := no_touch;
  violates := no_constraint; referenced := never_referenced |}.

#[global] Instance Entity_AvailabilityException : Entity AvailabilityException := {|
  table := availability_exceptions; on_table f db := db <| availability_exceptions ::= f |>;
  table_name := TAvailabilityExceptions; pk := exc_id; touch := no_touch;
  violates := no_constraint; referenced := never_referenced |}.

#[global] Instance Entity_RecurringStaffBlock : Entity RecurringStaffBlock := {|
  table := recurring_staff_blocks; on_table f db := db <| recurring_staff_blocks ::= f |>;
  table_name := TRecurringStaffBlocks; pk := blk_id; touch := no_touch;
  violates := no_constraint; referenced := never_referenced |}.

#[global] Instance Entity_NotificationOutbox : Entity NotificationOutbox := {|
  table := notification_outbox; on_table f db := db <| notification_outbox ::= f |>;
  table_name := TNotificationOutbox; pk := ntf_id; touch := no_touch;
  violates := no_constraint; referenced := never_referenced |}.

(** A unique index: some other row agrees with the new one. *)
Definition taken {A} (name : string) (clashes : A -> bool) (t : gmap Z A) : option string :=
  if existsb clashes (rows_of t) then Some name else None.

(** The two partial indexes: one integration of the business, one of each staff member. *)
Definition calendar_integration_violation (db : DB) (r : CalendarIntegration) : option string :=
  match ci_staff_id r with
  | None =>
      taken "uix_calendar_integrations_business_level"
        (fun i => negb (ci_id i =? ci_id r) && (ci_business_id i =? ci_business_id r)
                  && is_none (ci_staff_id i)) (calendar_integrations db)
  | Some s =>
      taken "uix_calendar_integrations_staff_level"
        (fun i => negb (ci_id i =? ci_id r) && (ci_business_id i =? ci_business_id r)
                  && sql_eqb (ci_staff_id i) s) (calendar_integrations db)
  end.

#[global] Instance Entity_CalendarIntegration : Entity CalendarIntegration := {|
  table := calendar_integrations; on_table f db := db <| calendar_integrations ::= f |>;
  table_name := TCalendarIntegrations; pk := ci_id; touch := no_touch;
  violates := calendar_integration_violation; referenced := never_referenced |}.

#[global] Instance Entity_AuditLog : Entity AuditLog := {|
  table := audit_logs; on_table f db := db <| audit_logs ::= f |>;
  table_name := TAuditLogs; pk := aud_id; touch := no_touch;
  violates := no_constraint; referenced := never_referenced |}.

(** [updated_at] has [onupdate=func.now()]: an UPDATE is only sent when some
    attribute changed. *)
#[global] Instance WaitlistEntry_eq_dec : EqDecision WaitlistEntry.
Proof. solve_decision. Defined.
#[global] Instance VoiceSession_eq_dec : EqDecision VoiceSession.
Proof. solve_decision. Defined.
#[global] Instance Client_eq_dec : EqDecision Client.
Proof. solve_decision. Defined.

#[global] Instance Entity_WaitlistEntry : Entity WaitlistEntry := {|
  table := waitlist_entries; on_table f db := db <| waitlist_entries ::= f |>;
  table_name := TWaitlistEntries; pk := wl_id;
  touch now old r := if decide (old = Some r) then r else r <| wl_updated_at := now |>;
  violates := no_constraint; referenced := never_referenced |}.


(** [ix_voice_sessions_call_sid] *)
Definition voice_session_violation (db : DB) (r : VoiceSession) : option string :=
  match vs_call_sid r with
  | None => None
  | Some sid =>
      taken "ix_voice_sessions_call_sid"
        (fun s => negb (vs_id s =? vs_id r)
                  && match vs_call_sid s with Some sid' => String.eqb sid' sid | None => false end)
        (voice_sessions db)
  end.

#[global] Instance Entity_VoiceSession : Entity VoiceSession := {|
  table := voice_sessions; on_table f db := db <| voice_sessions ::= f |>;
  table_name := TVoiceSessions; pk := vs_id;
  touch now old r := if decide (old = Some r) then r else r <| vs_updated_at := now |>;
  violates := voice_session_violation; referenced := never_referenced |}.

(** [uq_customers_business_phone] *)
Definition customer_violation (db : DB) (r : Customer) : option string :=
  if existsb (fun c => negb (cus_id c =? cus_id r) && (cus_business_id c =? cus_business_id r)
                       && String.eqb (cus_phone_normalized c) (cus_phone_normalized r))
       (rows_of (customers db))
  then Some "uq_customers_business_phone"%string else None.

#[global] Instance Entity_Customer : Entity Customer := {|
  table := customers; on_table f db := db <| customers ::= f |>;
  table_name := TCustomers; pk := cus_id; touch := no_touch;
  violates := customer_violation; referenced := never_referenced |}.

(** [uq_clients_business_customer]: NULLs are distinct. *)
Definition client_violation (db : DB) (r : Client) : option string :=
  if existsb (fun c => negb (cli_id c =? cli_id r) && (cli_business_id c =? cli_business_id r)
                       && match cli_customer_id r with
                          | Some k => sql_eqb (cli_customer_id c) k
                          | None => false
                          end)
       (rows_of (clients db))
  then Some "uq_clients_business_customer"%string else None.

#[global] Instance Entity_Client : Entity Client := {|
  table := clients; on_table f db := db <| clients ::= f |>;
  table_name := TClients; pk := cli_id;
  touch now old r := if decide (old = Some r) then r else r <| cli_updated_at := now |>;
  violates := client_violation; referenced := never_referenced |}.

(** [uq_bth_business_day_start] *)
Definition transfer_hours_violation (db : DB) (r : BusinessTransferHours) : option string :=
  if existsb (fun h => negb (bth_id h =? bth_id r) && (bth_business_id h =? bth_business_id r)
                       && (bth_day_of_week h =? bth_day_of_week r)
                       && (bth_start_time h =? bth_start_time r))
       (rows_of (business_transfer_hours db))
  then Some "uq_bth_business_day_start"%string else None.

#[global] Instance Entity_BusinessTransferHours : Entity BusinessTransferHours := {|
  table := business_transfer_hours; on_table f db := db <| business_transfer_hours ::= f |>;
  table_name := TBusinessTransferHours; pk := bth_id; touch := no_touch;
  violates := transfer_hours_violation; referenced := never_referenced |}.

(** The statuses that hold a slot. *)
Definition active_status (s : BookingStatus) : bool :=
  match s with CONFIRMED | PENDING_PAYMENT => true | CANCELLED => false end.

(** [a && b] of PostgreSQL for the half-open ranges [[s1, e1)] and [[s2, e2)]. *)
Definition ranges_overlap (s1 e1 s2 e2 : Z) : bool :=
  (s1 <? e1) && (s2 <? e2) && (s1 <? e2) && (s2 <? e1).

(** [no_overlapping_staff_bookings] as the migration p3008 leaves it: the
    rows [a] and [b] exclude each other. *)
Definition bookings_exclude (a b : Booking) : bool :=
  active_status (bk_status a) && active_status (bk_status b)
  && match bk_staff_id a with Some s => sql_eqb (bk_staff_id b) s | None => false end
  && ranges_overlap (bk_starts_at a) (bk_ends_at a) (bk_starts_at b) (bk_ends_at b).

Definition booking_violation (db : DB) (r : Booking) : option string :=
  if existsb (fun b => negb (bk_id b =? bk_id r) && bookings_exclude r b) (rows_of (bookings db))
  then Some "no_overlapping_staff_bookings"%string else None.

#[global] Instance Entity_Booking : Entity Booking := {|
  table := bookings; on_table f db := db <| bookings ::= f |>;
  table_name := TBookings; pk := bk_id; touch := no_touch;
  violates := booking_violation; referenced := never_referenced |}.

(** [uq_booking_line_items_booking_position] *)
Definition line_item_violation (db : DB) (r : BookingLineItem) : option string :=
  if existsb (fun i => negb (li_id i =? li_id r) && (li_booking_id i =? li_booking_id r)
                       && (li_position i =? li_position r))
       (rows_of (booking_line_items db))
  then Some "uq_booking_line_items_booking_position"%string else None.

#[global] Instance Entity_BookingLineItem : Entity BookingLineItem := {|
  table := booking_line_items; on_table f db := db <| booking_line_items ::= f |>;
  table_name := TBookingLineItems; pk := li_id; touch := no_touch;
  violates := line_item_violation; referenced := never_referenced |}.

(** [uq_booking_payments_booking_id] *)
Definition payment_violation (db : DB) (r : BookingPayment) : option string :=
  if existsb (fun p => negb (pay_id p =? pay_id r) && (pay_booking_id p =? pay_booking_id r))
       (rows_of (booking_payments db))
  then Some "uq_booking_payments_booking_id"%string else None.

#[global] Instance Entity_BookingPayment : Entity BookingPayment := {|
  table := booking_payments; on_table f db := db <| booking_payments ::= f |>;
  table_name := TBookingPayments; pk := pay_id; touch := no_touch;
  violates := payment_violation; referenced := never_referenced |}.

(** [uq_calendar_events_booking_id] *)
Definition calendar_event_violation (db : DB) (r : CalendarEvent) : option string :=
  if existsb (fun e => negb (cal_id e =? cal_id r) && (cal_booking_id e =? cal_booking_id r))
       (rows_of (calendar_events db))
  then Some "uq_calendar_events_booking_id"%string else None.

#[global] Instance Entity_CalendarEvent : Entity CalendarEvent := {|
  table := calendar_events; on_table f db := db <| calendar_events ::= f |>;
  table_name := TCalendarEvents; pk := cal_id; touch := no_touch;
  violates := calendar_event_violation; referenced := never_referenced |}.

(** The foreign keys to [services.id] (no ON DELETE clause: RESTRICT). *)
Definition service_referenced (db : DB) (k : Z) : option string :=
  if existsb (fun b => bk_service_id b =? k) (rows_of (bookings db))
  then Some "fk_bookings_service_id"%string
  else if existsb (fun i => li_service_id i =? k) (rows_of (booking_line_items db))
  then Some "booking_line_items_service_id_fkey"%string
  else if existsb (fun e => wl_service_id e =? k) (rows_of (waitlist_entries db))
  then Some "waitlist_entries_service_id_fkey"%string
  else if existsb (fun v => sql_eqb (vs_selected_service_id v) k) (rows_of (voice_sessions db))
  then Some "voice_sessions_selected_service_id_fkey"%string
  else None.

#[global] Instance Entity_Service : Entity Service := {|
  table := services; on_table f db := db <| services ::= f |>;
  table_name := TServices; pk := svc_id; touch := no_touch;
  violates := no_constraint; referenced := service_referenced |}.

(** ** Accounts *)

Definition tenant_violation (db : DB) (r : Tenant) : option string :=
  taken "tenants_slug_key"
    (fun t => negb (ten_id t =? ten_id r) && String.eqb (ten_slug t) (ten_slug r)) (tenants db).

#[global] Instance Entity_Tenant : Entity Tenant := {|
  table := tenants; on_table f db := db <| tenants ::= f |>;
  table_name := TTenants; pk := ten_id; touch := no_touch;
  violates := tenant_violation; referenced := never_referenced |}.

(** [ix_users_tenant_id_email] *)
Definition user_violation (db : DB) (r : User) : option string :=
  taken "ix_users_tenant_id_email"
    (fun u => negb (usr_id u =? usr_id r) && (usr_tenant_id u =? usr_tenant_id r)
              && String.eqb (usr_email u) (usr_email r)) (users db).

(** The foreign keys to [users.id] that restrict: the administrator of an audit row and the
    three users of a membership. *)
Definition user_referenced (db : DB) (k : Z) : option string :=
  if existsb (fun l => sql_eqb (aud_admin_id l) k) (rows_of (audit_logs db))
  then Some "audit_logs_admin_id_fkey"%string
  else if existsb (fun m => (mem_user_id m =? k) || sql_eqb (mem_invited_by_user_id m) k
                            || sql_eqb (mem_revoked_by_user_id m) k)
            (rows_of (business_memberships db))
  then Some "fk_business_memberships_user_same_tenant"%string
  else None.

#[global] Instance Entity_User : Entity User := {|
  table := users; on_table f db := db <| users ::= f |>;
  table_name := TUsers; pk := usr_id; touch := no_touch;
  violates := user_violation; referenced := user_referenced |}.

(** The two unique indexes and the check that a staff membership names its staff row. *)
Definition membership_violation (db : DB) (r : BusinessMembership) : option string :=
  if bool_decide (mem_role r = STAFF) && is_none (mem_staff_id r)
  then Some "ck_business_memberships_staff_role_requires_staff_id"%string
  else
    match taken "uix_business_memberships_business_user"
            (fun m => negb (mem_id m =? mem_id r) && (mem_business_id m =? mem_business_id r)
                      && (mem_user_id m =? mem_user_id r)) (business_memberships db) with
    | Some c => Some c
    | None =>
        match mem_staff_id r, mem_status r with
        | Some s, ACTIVE =>
            taken "uix_business_memberships_business_staff_active"
              (fun m => negb (mem_id m =? mem_id r) && (mem_business_id m =? mem_business_id r)
                        && sql_eqb (mem_staff_id m) s && bool_decide (mem_status m = ACTIVE))
              (business_memberships db)
        | _, _ => None
        end
    end.

#[global] Instance BusinessMembership_eq_dec : EqDecision BusinessMembership.
Proof. solve_decision. Defined.

#[global] Instance Entity_BusinessMembership : Entity BusinessMembership := {|
  table := business_memberships; on_table f db := db <| business_memberships ::= f |>;
  table_name := TBusinessMemberships; pk := mem_id;
  touch now old r := if decide (old = Some r) then r else r <| mem_updated_at := now |>;
  violates := membership_violation; referenced := never_referenced |}.

(** [ix_password_reset_tokens_token_hash] *)
Definition reset_token_violation (db : DB) (r : PasswordResetToken) : option string :=
  taken "ix_password_reset_tokens_token_hash"
    (fun t => negb (prt_id t =? prt_id r) && String.eqb (prt_token_hash t) (prt_token_hash r))
    (password_reset_tokens db).

#[global] Instance Entity_PasswordResetToken : Entity PasswordResetToken := {|
  table := password_reset_tokens; on_table f db := db <| password_reset_tokens ::= f |>;
  table_name := TPasswordResetTokens; pk := prt_id; touch := no_touch;
  violates := reset_token_violation; referenced := never_referenced |}.

Definition completion_violation (db : DB) (r : PasswordResetJobCompletion) : option string :=
  taken "password_reset_job_completions_job_id_key"
    (fun c => negb (prc_id c =? prc_id r) && String.eqb (prc_job_id c) (prc_job_id r))
    (password_reset_job_completions db).

#[global] Instance Entity_PasswordResetJobCompletion : Entity PasswordResetJobCompletion := {|
  table := password_reset_job_completions;
  on_table f db := db <| password_reset_job_completions ::= f |>;
  table_name := TPasswordResetJobCompletions; pk := prc_id; touch := no_touch;
  violates := completion_violation; referenced := never_referenced |}.

Definition idempotency_violation (db : DB) (r : IdempotencyRecord) : option string :=
  taken "idempotency_records_scope_key_key"
    (fun i => negb (idm_id i =? idm_id r) && String.eqb (idm_scope_key i) (idm_scope_key r))
    (idempotency_records db).

#[global] Instance Entity_IdempotencyRecord : Entity IdempotencyRecord := {|
  table := idempotency_records; on_table f db := db <| idempotency_records ::= f |>;
  table_name := TIdempotencyRecords; pk := idm_id; touch := no_touch;
  violates := idempotency_violation; referenced := never_referenced |}.

(** [uq_webhook_events_provider_event_id] *)
Definition webhook_event_violation (db : DB) (r : WebhookEvent) : option string :=
  taken "uq_webhook_events_provider_event_id"
    (fun e => negb (whk_id e =? whk_id r) && String.eqb (whk_provider e) (whk_provider r)
              && String.eqb (whk_event_id e) (whk_event_id r)) (webhook_events db).

#[global] Instance Entity_WebhookEvent : Entity WebhookEvent := {|
  table := webhook_events; on_table f db := db <| webhook_events ::= f |>;
  table_name := TWebhookEvents; pk := whk_id; touch := no_touch;
  violates := webhook_event_violation; referenced := never_referenced |}.

Definition uploaded_file_violation (db : DB) (r : UploadedFile) : option string :=
  taken "uploaded_files_object_key_key"
    (fun f => negb (upl_id f =? upl_id r) && String.eqb (upl_object_key f) (upl_object_key r))
    (uploaded_files db).

#[global] Instance Entity_UploadedFile : Entity UploadedFile := {|
  table := uploaded_files; on_table f db := db <| uploaded_files ::= f |>;
  table_name := TUploadedFiles; pk := upl_id; touch := no_touch;
  violates := uploaded_file_violation; referenced := never_referenced |}.

#[global] Instance OwnerLead_eq_dec : EqDecision OwnerLead.
Proof. solve_decision. Defined.
#[global] Instance Entity_OwnerLead : Entity OwnerLead := {|
  table := owner_leads; on_table f db := db <| owner_leads ::= f |>;
  table_name := TOwnerLeads; pk := lead_id;
  touch now old r := if decide (old = Some r) then r else r <| lead_updated_at := now |>;
  violates := no_constraint; referenced := never_referenced |}.

(** ** Laws of the entities *)

#[global] Instance Laws_Business : EntityLaws Business.
Proof. split; reflexivity. Qed.
#[global] Instance Laws_Staff : EntityLaws Staff.
Proof. split; reflexivity. Qed.
#[global] Instance Laws_WorkingHours : EntityLaws WorkingHours.
Proof. split; reflexivity. Qed.
#[global] Instance Laws_AvailabilityException : EntityLaws AvailabilityException.
Proof. split; reflexivity. Qed.
#[global] Instance Laws_RecurringStaffBlock : EntityLaws RecurringStaffBlock.
Proof. split; reflexivity. Qed.
#[global] Instance Laws_NotificationOutbox : EntityLaws NotificationOutbox.
Proof. split; reflexivity. Qed.
#[global] Instance Laws_CalendarIntegration : EntityLaws CalendarIntegration.
Proof. split; reflexivity. Qed.
#[global] Instance Laws_AuditLog : EntityLaws AuditLog.
Proof. split; reflexivity. Qed.
#[global] Instance Laws_WaitlistEntry : EntityLaws WaitlistEntry.
Proof. split; [reflexivity|]. intros now old r. simpl. by case_decide. Qed.
#[global] Instance Laws_VoiceSession : EntityLaws VoiceSession.
Proof. split; [reflexivity|]. intros now old r. simpl. by case_decide. Qed.
#[global] Instance Laws_Client : EntityLaws Client.
Proof. split; [reflexivity|]. intros now old r. simpl. by case_decide. Qed.
#[global] Instance Laws_Customer : EntityLaws Customer.
Proof. split; reflexivity. Qed.
#[global] Instance Laws_BusinessTransferHours : EntityLaws BusinessTransferHours.
Proof. split; reflexivity. Qed.
#[global] Instance Laws_Booking : EntityLaws Booking.
Proof. split; reflexivity. Qed.
#[global] Instance Laws_BookingLineItem : EntityLaws BookingLineItem.
Proof. split; reflexivity. Qed.
#[global] Instance Laws_BookingPayment : EntityLaws BookingPayment.
Proof. split; reflexivity. Qed.
#[global] Instance Laws_CalendarEvent : EntityLaws CalendarEvent.
Proof. split; reflexivity. Qed.
#[global] Instance Laws_Service : EntityLaws Service.
Proof. split; reflexivity. Qed.
#[global] Instance Laws_Tenant : EntityLaws Tenant.
Proof. split; reflexivity. Qed.
#[global] Instance Laws_User : EntityLaws User.
Proof. split; reflexivity. Qed.
#[global] Instance Laws_PasswordResetToken : EntityLaws PasswordResetToken.
Proof. split; reflexivity. Qed.
#[global] Instance Laws_PasswordResetJobCompletion : EntityLaws PasswordResetJobCompletion.
Proof. split; reflexivity. Qed.
#[global] Instance Laws_IdempotencyRecord : EntityLaws IdempotencyRecord.
Proof. split; reflexivity. Qed.
#[global] Instance Laws_WebhookEvent : EntityLaws WebhookEvent.
Proof. split; reflexivity. Qed.
#[global] Instance Laws_UploadedFile : EntityLaws UploadedFile.
Proof. split; reflexivity. Qed.
#[global] Instance Laws_BusinessMembership : EntityLaws BusinessMembership.
Proof. split; [reflexivity|]. intros now old r. simpl. by case_decide. Qed.

#[global] Instance Laws_OwnerLead : EntityLaws OwnerLead.
Proof. split; [reflexivity|]. intros now old r. simpl. by case_decide. Qed.

(** ** Tables as finite maps *)

Section Rows.
Context {A : Type}.
Implicit Types (t : gmap Z A) (r : A).

Lemma in_rows_of t r : In r (rows_of t) <-> exists k, t !! k = Some r.
Proof.
  unfold rows_of. rewrite <- list_elem_of_In, list_elem_of_fmap. split.
  - intros ([k r'] & -> & Hk). exists k. by apply elem_of_map_to_list.
  - intros [k Hk]. exists (k, r). split; [done|]. by apply elem_of_map_to_list.
Qed.

(** Every row sits at its own primary key. *)
Definition keyed `{Entity A} (t : gmap Z A) : Prop := forall k r, t !! k = Some r -> pk r = k.

Lemma in_rows_of_keyed `{Entity A} t r :
  keyed t -> In r (rows_of t) <-> t !! pk r = Some r.
Proof.
  intros Hk. rewrite in_rows_of. split; [|by eauto].
  intros [k Hr]. by rewrite (Hk k r Hr).
Qed.

Lemma keyed_insert `{Entity A} t k r : keyed t -> pk r = k -> keyed (<[k := r]> t).
Proof.
  intros Ht Hr k' r'. rewrite lookup_insert. case_decide; [|apply Ht].
  intros [= <-]. congruence.
Qed.

Lemma keyed_delete `{Entity A} t k : keyed t -> keyed (base.delete k t).
Proof. intros Ht k' r'. rewrite lookup_delete. case_decide; [done | apply Ht]. Qed.
End Rows.

(** ** Running the primitives *)

Section Run.
Context {A : Type} `{EntityLaws A}.
Implicit Types (w : World) (r : A).

Lemma run_find_pk w k p :
  find_pk k p w = (Ok (match table (w_db w) !! k with
                       | Some r => if p r then Some r else None
                       | None => None end), w).
Proof. reflexivity. Qed.

Lemma run_first w (p : A -> bool) :
  first p w = (Ok (head (List.filter p (rows_of (table (w_db w))))), w).
Proof. reflexivity. Qed.

Lemma run_all w (p : A -> bool) :
  all p w = (Ok (List.filter p (rows_of (table (w_db w)))), w).
Proof. reflexivity. Qed.

Lemma run_save w r :
  save r w = (Ok tt, w <| w_db ::= on_table (fun t => <[pk r := touch (w_now w) (t !! pk r) r]> t) |>).
Proof. reflexivity. Qed.
End Run.
