(* ===== verification/AuditTrail.v ===== *)
(** * AuditTrail: app/services/audit_log_service.py

    Audit rows are only ever added (and removed by age): the booking services
    call [create_audit_log] inside their own transaction ([commit=False]). *)

From S2P Require Import Prelude Py Effects Schema Settings Orm.

Section AuditLog.
Context `{Config}.

(** [create_audit_log]: add and flush, or add and commit. *)
Definition create_audit_log (tenant_id : Z) (admin_id : option Z) (action : AuditAction)
    (target_user_id target_booking_id : option Z) (source : option string)
    (do_commit : bool) : PyM AuditLog :=
  log <- db_insert (fun id now =>
    MkAuditLog id tenant_id admin_id action target_user_id target_booking_id source now) ;;
  when do_commit commit ;;;
  ret log.

(** [get_audit_logs]: newest first, ties by descending id. *)
Definition get_audit_logs (tenant_id skip limit : Z) (action : option AuditAction)
    (admin_id target_user_id : option Z) : PyM (list AuditLog) :=
  logs <- all (fun l => (aud_tenant_id l =? tenant_id)
    && match action with Some a => bool_decide (aud_action l = a) | None => true end
    && match admin_id with Some a => sql_eqb (aud_admin_id l) a | None => true end
    && match target_user_id with Some u => sql_eqb (aud_target_user_id l) u | None => true end) ;;
  ret (page skip limit
         (sort_by (fun l => - aud_created_at l) (sort_by (fun l => - aud_id l) logs))).

(** [cleanup_old_audit_logs] *)
Definition cleanup_old_audit_logs : PyM Z :=
  now <- now_utc ;;
  let cutoff := now - timedelta_days audit_log_retention_days in
  n <- delete_where (fun l => aud_created_at l <? cutoff) ;;
  commit ;;;
  ret n.
End AuditLog.
