(* ===== verification/Directory.v ===== *)
(** * Directory: businesses, services, staff, customers and clients

    Models app/services/business_service.py, service_service.py,
    staff_service.py, customer_service.py and client_service.py: creation,
    lookup scoped by tenant and business, listing, update, deletion, and the
    anonymization of a customer. *)

From S2P Require Import Prelude Py Effects Schema Settings Orm AuditTrail.

Section Directory.
Context `{Config}.

(** ** Businesses *)

(** The keyword arguments of [create_business] after [name] and [timezone]. *)
Record BusinessFields : Type := MkBusinessFields {
  bf_language : string;
  bf_phone : option string;
  bf_owner_notification_phone : option string;
  bf_transfer_phone_number : option string;
  bf_transfer_enabled : bool;
  bf_transfer_destination_policy : string;
  bf_booking_mode : string;
  bf_external_booking_url : option string;
  bf_external_booking_label : option string;
  bf_external_booking_provider : option string;
  bf_subscription_plan : string }.

Definition create_business (tenant_id : Z) (name timezone : string) (f : BusinessFields)
    : PyM Business :=
  b <- db_insert (fun id now =>
    MkBusiness id tenant_id name timezone (bf_language f) (bf_phone f)
      (bf_owner_notification_phone f) (bf_transfer_phone_number f) true
      (bf_transfer_enabled f) (bf_transfer_destination_policy f) (bf_booking_mode f)
      (bf_external_booking_url f) (bf_external_booking_label f)
      (bf_external_booking_provider f) (bf_subscription_plan f) now) ;;
  commit ;;;
  ret b.

Definition get_business (business_id tenant_id : Z) : PyM (option Business) :=
  find_pk business_id (fun b => biz_tenant_id b =? tenant_id).

Definition require_business (business_id tenant_id : Z) : PyM Business :=
  b <- get_business business_id tenant_id ;; require "Business not found" b.

Definition get_business_global (business_id : Z) : PyM (option Business) :=
  find_pk business_id (fun _ => true).

Definition get_business_by_inbound_phone (phone : string) : PyM (option Business) :=
  if negb (truthy phone) then ret None
  else first (fun b => match biz_phone b with
                       | Some p => String.eqb p phone && biz_is_active b
                       | None => false
                       end).

Definition list_businesses (tenant_id : Z) (include_inactive : bool) (skip limit : Z)
    (demo_user : bool) : PyM (list Business) :=
  l <- all (fun b => (biz_tenant_id b =? tenant_id)
    && (include_inactive || biz_is_active b)
    && (if demo_user && (0 <? public_demo_business_id)
        then biz_id b =? public_demo_business_id else true)) ;;
  ret (page skip limit (sort_by biz_id l)).

(** The keyword arguments of [update_business]: [None] leaves the column. *)
Record BusinessUpdate : Type := MkBusinessUpdate {
  bu_name : option string;
  bu_timezone : option string;
  bu_language : option string;
  bu_phone : option string;
  bu_owner_notification_phone : option string;
  bu_transfer_phone_number : option string;
  bu_is_active : option bool;
  bu_transfer_enabled : option bool;
  bu_transfer_destination_policy : option string;
  bu_booking_mode : option string;
  bu_external_booking_url : option string;
  bu_external_booking_label : option string;
  bu_external_booking_provider : option string;
  bu_subscription_plan : option string }.

(** [if v is not None: obj.f = v] *)
Definition or_keep {A} (v : option A) (old : A) : A := default old v.
(** The same for a nullable column. *)
Definition or_keep_opt {A} (v : option A) (old : option A) : option A :=
  match v with Some _ => v | None => old end.

Definition update_business (business_id tenant_id : Z) (u : BusinessUpdate) : PyM Business :=
  b <- require_business business_id tenant_id ;;
  let b' := MkBusiness (biz_id b) (biz_tenant_id b)
    (or_keep (bu_name u) (biz_name b))
    (or_keep (bu_timezone u) (biz_timezone b))
    (or_keep (bu_language u) (biz_language b))
    (or_keep_opt (bu_phone u) (biz_phone b))
    (or_keep_opt (bu_owner_notification_phone u) (biz_owner_notification_phone b))
    (or_keep_opt (bu_transfer_phone_number u) (biz_transfer_phone_number b))
    (or_keep (bu_is_active u) (biz_is_active b))
    (or_keep (bu_transfer_enabled u) (biz_transfer_enabled b))
    (or_keep (bu_transfer_destination_policy u) (biz_transfer_destination_policy b))
    (or_keep (bu_booking_mode u) (biz_booking_mode b))
    (or_keep_opt (bu_external_booking_url u) (biz_external_booking_url b))
    (or_keep_opt (bu_external_booking_label u) (biz_external_booking_label b))
    (or_keep_opt (bu_external_booking_provider u) (biz_external_booking_provider b))
    (or_keep (bu_subscription_plan u) (biz_subscription_plan b))
    (biz_created_at b) in
  save b' ;;;
  commit ;;;
  ret b'.

(** ** Services *)

(** [_check_deposit_fields]: a required deposit needs its amount and currency. *)
Definition deposit_fields_ok (s : Service) : bool :=
  negb (svc_deposit_required s
        && (is_none (svc_deposit_minor_units s) || is_none (svc_currency s))).

Definition check_deposit_fields (s : Service) : PyM unit :=
  if deposit_fields_ok s then ret tt
  else domain_error BadRequestError
    "deposit_minor_units and currency are required when deposit_required is true".

(** The object is built and checked before [db.add]: a rejected service takes no
    key and leaves no row. *)
Definition create_service (tenant_id business_id : Z) (name : string)
    (duration_minutes : Z) (price_minor_units : option Z) (currency : option string)
    (deposit_required : bool) (deposit_minor_units : option Z) : PyM Service :=
  require_business business_id tenant_id ;;;
  let mk id now := MkService id tenant_id business_id name duration_minutes true
    price_minor_units currency deposit_required deposit_minor_units now in
  check_deposit_fields (mk 0 0) ;;;
  svc <- db_insert mk ;;
  commit ;;;
  ret svc.

Definition get_service (service_id tenant_id : Z) : PyM (option Service) :=
  find_pk service_id (fun s => svc_tenant_id s =? tenant_id).

Definition require_service (service_id tenant_id : Z) : PyM Service :=
  s <- get_service service_id tenant_id ;; require "Service not found" s.

Definition require_service_in_business (service_id business_id tenant_id : Z) : PyM Service :=
  s <- require_service service_id tenant_id ;;
  if svc_business_id s =? business_id then ret s
  else domain_error NotFoundError "Service not found".

Definition list_services (business_id tenant_id : Z) (include_inactive : bool)
    (skip limit : Z) : PyM (list Service) :=
  l <- all (fun s => (svc_business_id s =? business_id) && (svc_tenant_id s =? tenant_id)
                     && (include_inactive || svc_is_active s)) ;;
  ret (page skip limit (sort_by svc_id l)).

Definition delete_service (service_id tenant_id business_id : Z) : PyM unit :=
  svc <- require_service_in_business service_id business_id tenant_id ;;
  has_bookings <- first (fun b => (bk_service_id b =? service_id)
    && (bk_business_id b =? business_id) && (bk_tenant_id b =? tenant_id)
    && negb (bool_decide (bk_status b = CANCELLED))) ;;
  match has_bookings with
  | Some _ => domain_error ConflictError "Cannot delete a service that has confirmed bookings"
  | None => db_delete svc ;;; commit
  end.

(** The keyword arguments of [update_service]. *)
Record ServiceUpdate : Type := MkServiceUpdate {
  su_name : option string;
  su_duration_minutes : option Z;
  su_price_minor_units : option Z;
  su_currency : option string;
  su_is_active : option bool;
  su_deposit_required : option bool;
  su_deposit_minor_units : option Z }.

Definition update_service (service_id business_id tenant_id : Z) (u : ServiceUpdate)
    : PyM Service :=
  s <- require_service_in_business service_id business_id tenant_id ;;
  let s' := MkService (svc_id s) (svc_tenant_id s) (svc_business_id s)
    (or_keep (su_name u) (svc_name s))
    (or_keep (su_duration_minutes u) (svc_duration_minutes s))
    (or_keep (su_is_active u) (svc_is_active s))
    (or_keep_opt (su_price_minor_units u) (svc_price_minor_units s))
    (or_keep_opt (su_currency u) (svc_currency s))
    (or_keep (su_deposit_required u) (svc_deposit_required s))
    (or_keep_opt (su_deposit_minor_units u) (svc_deposit_minor_units s))
    (svc_created_at s) in
  save s' ;;;
  check_deposit_fields s' ;;;
  commit ;;;
  ret s'.

(** ** Staff *)

Definition create_staff (tenant_id business_id : Z) (name : string) (phone : option string)
    : PyM Staff :=
  require_business business_id tenant_id ;;;
  m <- db_insert (fun id now => MkStaff id tenant_id business_id name phone true now) ;;
  commit ;;;
  ret m.

Definition get_staff (staff_id tenant_id : Z) : PyM (option Staff) :=
  find_pk staff_id (fun m => stf_tenant_id m =? tenant_id).

Definition require_staff (staff_id tenant_id : Z) : PyM Staff :=
  m <- get_staff staff_id tenant_id ;; require "Staff member not found" m.

Definition require_staff_in_business (staff_id business_id tenant_id : Z) : PyM Staff :=
  m <- require_staff staff_id tenant_id ;;
  if stf_business_id m =? business_id then ret m
  else domain_error NotFoundError "Staff member not found".

Definition list_staff (business_id tenant_id : Z) (include_inactive : bool)
    (skip limit : Z) : PyM (list Staff) :=
  l <- all (fun m => (stf_business_id m =? business_id) && (stf_tenant_id m =? tenant_id)
                     && (include_inactive || stf_is_active m)) ;;
  ret (page skip limit (sort_by stf_id l)).

Definition update_staff (staff_id business_id tenant_id : Z) (name : option string)
    (phone : option string) (is_active : option bool) : PyM Staff :=
  m <- require_staff_in_business staff_id business_id tenant_id ;;
  let m' := MkStaff (stf_id m) (stf_tenant_id m) (stf_business_id m)
    (or_keep name (stf_name m)) (or_keep_opt phone (stf_phone m))
    (or_keep is_active (stf_is_active m)) (stf_created_at m) in
  save m' ;;;
  commit ;;;
  ret m'.

(** SQL's [trim(phone) <> ''] strips spaces only. *)
Definition sql_trim (s : string) : string :=
  let sp c := Ascii.eqb c " "%char in
  of_chars (rev (drop_while sp (rev (drop_while sp (chars s))))).

Definition get_eligible_transfer_staff (business_id tenant_id limit : Z)
    : PyM (list Staff) :=
  l <- all (fun m => (stf_business_id m =? business_id) && (stf_tenant_id m =? tenant_id)
    && stf_is_active m
    && match stf_phone m with Some p => truthy (sql_trim p) | None => false end) ;;
  ret (page 0 limit (sort_by stf_id l)).

(** ** Customers *)

(** [re.sub(r"[^\d+]", "", phone)] *)
Definition normalize_phone (phone : string) : string :=
  of_chars (List.filter (fun c => is_digit c || Ascii.eqb c "+"%char) (chars phone)).

Definition customer_by_phone (business_id tenant_id : Z) (phone_normalized : string)
    : PyM (option Customer) :=
  first (fun c => (cus_business_id c =? business_id) && (cus_tenant_id c =? tenant_id)
                  && String.eqb (cus_phone_normalized c) phone_normalized).

Definition get_or_create_customer (tenant_id business_id : Z) (phone : string)
    (name : option string) : PyM Customer :=
  require_business business_id tenant_id ;;;
  let phone_normalized := normalize_phone phone in
  existing <- customer_by_phone business_id tenant_id phone_normalized ;;
  match existing with
  | Some c => ret c
  | None =>
      catch
        (c <- db_insert (fun id now =>
           MkCustomer id tenant_id business_id phone phone_normalized name now) ;;
         commit ;;;
         ret c)
        (fun e => match e with
         | IntegrityError _ => Some (
             rollback ;;;
             existing <- customer_by_phone business_id tenant_id phone_normalized ;;
             match existing with
             | Some c => ret c
             | None => domain_error ConflictError "Customer with this phone already exists"
             end)
         | _ => None
         end)
  end.

Definition get_customer_by_phone (business_id tenant_id : Z) (phone : string)
    : PyM (option Customer) :=
  customer_by_phone business_id tenant_id (normalize_phone phone).

Definition get_customer (customer_id tenant_id : Z) : PyM (option Customer) :=
  find_pk customer_id (fun c => cus_tenant_id c =? tenant_id).

Definition require_customer (customer_id tenant_id : Z) : PyM Customer :=
  c <- get_customer customer_id tenant_id ;; require "Customer not found" c.

Definition require_customer_in_business (customer_id business_id tenant_id : Z)
    : PyM Customer :=
  c <- require_customer customer_id tenant_id ;;
  if cus_business_id c =? business_id then ret c
  else domain_error NotFoundError "Customer not found".

Definition list_customers (business_id tenant_id skip limit : Z) : PyM (list Customer) :=
  l <- all (fun c => (cus_business_id c =? business_id) && (cus_tenant_id c =? tenant_id)) ;;
  ret (page skip limit (sort_by cus_id l)).

Definition update_customer (customer_id business_id tenant_id : Z) (name : option string)
    : PyM Customer :=
  c <- require_customer_in_business customer_id business_id tenant_id ;;
  let c' := c <| cus_name ::= or_keep_opt name |> in
  save c' ;;;
  commit ;;;
  ret c'.

(** [f"deleted-{customer.id}"] *)
Definition deleted_phone (customer_id : Z) : string :=
  ("deleted-" ++ string_of_Z customer_id)%string.

Definition gdpr_delete_customer (customer_id business_id tenant_id : Z)
    (actor_id : option Z) : PyM Customer :=
  c <- require_customer_in_business customer_id business_id tenant_id ;;
  let c' := c <| cus_name := None |> <| cus_phone := "deleted"%string |>
              <| cus_phone_normalized := deleted_phone (cus_id c) |> in
  save c' ;;;
  client <- first (fun cl => (cli_tenant_id cl =? tenant_id)
    && (cli_business_id cl =? business_id) && sql_eqb (cli_customer_id cl) (cus_id c)) ;;
  match client with
  | Some cl => save (cl <| cli_name := "Deleted client"%string |> <| cli_email := None |>
                        <| cli_phone := None |> <| cli_notes := None |>)
  | None => ret tt
  end ;;;
  create_audit_log tenant_id actor_id CUSTOMER_ANONYMIZED None None
    (Some ("customer_id=" ++ string_of_Z (cus_id c))%string) false ;;;
  commit ;;;
  ret c'.

(** ** Clients *)

Definition create_client (tenant_id business_id : Z) (name : string)
    (customer_id : option Z) (email phone notes : option string) : PyM Client :=
  require_business business_id tenant_id ;;;
  match customer_id with
  | None => ret tt
  | Some k =>
      require_customer_in_business k business_id tenant_id ;;;
      existing <- first (fun cl => (cli_business_id cl =? business_id)
                                   && sql_eqb (cli_customer_id cl) k) ;;
      match existing with
      | Some _ => domain_error ConflictError "A client profile already exists for this customer"
      | None => ret tt
      end
  end ;;;
  cl <- db_insert (fun id now =>
    MkClient id tenant_id business_id customer_id name email phone notes now now) ;;
  commit ;;;
  ret cl.

Definition get_client (client_id tenant_id : Z) : PyM (option Client) :=
  find_pk client_id (fun c => cli_tenant_id c =? tenant_id).

Definition require_client (client_id tenant_id : Z) : PyM Client :=
  c <- get_client client_id tenant_id ;; require "Client not found" c.

Definition require_client_in_business (client_id business_id tenant_id : Z) : PyM Client :=
  c <- require_client client_id tenant_id ;;
  if cli_business_id c =? business_id then ret c
  else domain_error NotFoundError "Client not found".

Definition get_client_by_customer_id (business_id tenant_id customer_id : Z)
    : PyM (option Client) :=
  first (fun c => (cli_business_id c =? business_id) && (cli_tenant_id c =? tenant_id)
                  && sql_eqb (cli_customer_id c) customer_id).

Definition list_clients (business_id tenant_id skip limit : Z) : PyM (list Client) :=
  l <- all (fun c => (cli_business_id c =? business_id) && (cli_tenant_id c =? tenant_id)) ;;
  ret (page skip limit (sort_by cli_id l)).

Definition get_bookings_for_client (client_id business_id tenant_id skip limit : Z)
    : PyM (list Booking) :=
  c <- require_client_in_business client_id business_id tenant_id ;;
  match cli_customer_id c with
  | None => ret []
  | Some k =>
      l <- all (fun b => (bk_customer_id b =? k) && (bk_business_id b =? business_id)
                         && (bk_tenant_id b =? tenant_id)) ;;
      ret (page skip limit (sort_by (fun b => - bk_starts_at b) l))
  end.

Definition update_client (client_id business_id tenant_id : Z)
    (name email phone notes : option string) : PyM Client :=
  c <- require_client_in_business client_id business_id tenant_id ;;
  let c' := MkClient (cli_id c) (cli_tenant_id c) (cli_business_id c) (cli_customer_id c)
    (or_keep name (cli_name c)) (or_keep_opt email (cli_email c))
    (or_keep_opt phone (cli_phone c)) (or_keep_opt notes (cli_notes c))
    (cli_created_at c) (cli_updated_at c) in
  save c' ;;;
  commit ;;;
  refresh c'.
End Directory.

(** ** Properties *)

Section DirectoryFacts.
Context `{Config}.

(** [uq_customers_business_phone] on the whole table. *)
Definition customers_unique (t : gmap Z Customer) : Prop :=
  forall k1 k2 c1 c2, t !! k1 = Some c1 -> t !! k2 = Some c2 ->
    cus_business_id c1 = cus_business_id c2 ->
    cus_phone_normalized c1 = cus_phone_normalized c2 -> k1 = k2.

Lemma customer_found business_id tenant_id phone w k c :
  customers_unique (customers (w_db w)) -> customers (w_db w) !! k = Some c ->
  cus_business_id c = business_id -> cus_tenant_id c = tenant_id ->
  cus_phone_normalized c = phone ->
  customer_by_phone business_id tenant_id phone w = (Ok (Some c), w).
Proof.
  intros Hu Hc Hb Ht Hp. unfold customer_by_phone. rewrite run_first. f_equal. f_equal.
  set (f := fun c => _). simpl.
  destruct (head (List.filter f (rows_of (customers (w_db w))))) as [c'|] eqn:E.
  - apply head_filter_some in E as [Hin Hf]. apply in_rows_of in Hin as [k' Hc'].
    unfold f in Hf. bool_props. match goal with Hq : String.eqb _ _ = true |- _ =>
      apply String.eqb_eq in Hq end.
    assert (k' = k) by (eapply Hu; eauto; congruence). congruence.
  - rewrite head_filter_none in E. specialize (E c). unfold f in E.
    rewrite Hb, Ht, Hp, !Z.eqb_refl, String.eqb_refl in E. discriminate E. apply in_rows_of. eauto.
Qed.

Lemma require_business_ok business_id tenant_id w z w' :
  require_business business_id tenant_id w = (Ok z, w') <->
  w' = w /\ businesses (w_db w) !! business_id = Some z /\ biz_tenant_id z = tenant_id.
Proof.
  unfold require_business, get_business, bind. rewrite run_find_pk. simpl.
  destruct (businesses (w_db w) !! business_id) as [z0|]; [|split; [done | by intros (_ & ? & _)]].
  destruct (biz_tenant_id z0 =? tenant_id) eqn:Et; bool_props; simpl.
  - split; [by intros [= -> ->] | by intros (-> & [= ->] & _)].
  - split; [done|]. intros (_ & [= ->] & ?). contradiction.
Qed.

Lemma get_existing_customer tenant_id business_id phone name w z k c :
  businesses (w_db w) !! business_id = Some z -> biz_tenant_id z = tenant_id ->
  customers_unique (customers (w_db w)) -> customers (w_db w) !! k = Some c ->
  cus_business_id c = business_id -> cus_tenant_id c = tenant_id ->
  cus_phone_normalized c = normalize_phone phone ->
  get_or_create_customer tenant_id business_id phone name w = (Ok c, w).
Proof.
  intros Hz Hzt Hu Hc Hb Ht Hp. unfold get_or_create_customer.
  rewrite (bind_ok _ _ w z w) by by apply require_business_ok.
  rewrite (bind_ok _ _ w (Some c) w); [done|]. by eapply customer_found.
Qed.

(** The unique index, checked at the insert, keeps the table unique. *)
Lemma customers_unique_insert db r :
  keyed (customers db) -> customers_unique (customers db) ->
  customers db !! cus_id r = None -> customer_violation db r = None ->
  customers_unique (<[cus_id r := r]> (customers db)).
Proof.
  intros Hk Hu Hnew Hv. unfold customer_violation in Hv. destruct (existsb _ _) eqn:Ex; [done|].
  rewrite existsb_false in Ex.
  assert (Hno : forall k c, customers db !! k = Some c -> cus_business_id c = cus_business_id r ->
    cus_phone_normalized c = cus_phone_normalized r -> False).
  { intros k c Hc Hb Hp. specialize (Ex c). rewrite in_rows_of in Ex.
    specialize (Ex (ex_intro _ k Hc)).
    rewrite Hb, Hp, Z.eqb_refl, String.eqb_refl, !andb_true_r in Ex. bool_props.
    pose proof (Hk _ _ Hc) as Hid. simpl in Hid. congruence. }
  intros k1 k2 c1 c2. rewrite !lookup_insert.
  repeat case_decide; subst; intros Hc1 Hc2 Hb Hp; simplify_eq; [done| | |by eauto].
  - exfalso. by apply (Hno k2 c2).
  - exfalso. by apply (Hno k1 c1).
Qed.

(** A caller is one customer.  Once [get_or_create_customer] has returned a customer
    for a phone number, every later call for the same business with a number that
    normalizes to the same digits, whatever its punctuation and the name given,
    returns that same customer and creates nothing; and phone numbers stay unique
    within the business. *)
Theorem get_or_create_customer_idempotent tenant_id business_id phone phone' name name' w w1 c :
  keyed (customers (w_db w)) -> customers_unique (customers (w_db w)) ->
  get_or_create_customer tenant_id business_id phone name w = (Ok c, w1) ->
  w_db w = w_committed w ->
  normalize_phone phone' = normalize_phone phone ->
  customers_unique (customers (w_db w1))
  /\ get_or_create_customer tenant_id business_id phone' name' w1 = (Ok c, w1).
Proof.
  intros Hk Hu Hrun Hclean Hph. unfold get_or_create_customer in Hrun.
  apply bind_ok_inv in Hrun as (z & w0 & Hz & Hrun).
  apply require_business_ok in Hz as (-> & Hz & Hzt).
  cbv zeta in Hrun. apply bind_ok_inv in Hrun as (o & w0 & Ho & Hrun).
  unfold customer_by_phone in Ho. rewrite run_first in Ho. injection Ho as <- <-.
  destruct (head _) as [c0|] eqn:Eh.
  - injection Hrun as <- <-. split; [done|]. apply head_filter_some in Eh as [Hin Hf].
    apply in_rows_of in Hin as [k Hc]. bool_props.
    match goal with Hq : String.eqb _ _ = true |- _ => apply String.eqb_eq in Hq end.
    apply (get_existing_customer _ _ _ _ w z k c0); auto. congruence.
  - unfold catch, bind, db_insert in Hrun. simpl in Hrun, Eh.
    destruct (customers (w_db w) !! w_seq w TCustomers) eqn:En.
    { simpl in Hrun. rewrite <- Hclean in Hrun. by rewrite Eh in Hrun. }
    destruct (customer_violation _ _) eqn:Ev.
    { simpl in Hrun. rewrite <- Hclean in Hrun. by rewrite Eh in Hrun. }
    simpl in Hrun. injection Hrun as <- <-. simpl.
    epose proof (customers_unique_insert (w_db w) (MkCustomer _ _ _ _ _ _ _) Hk Hu En Ev) as Hu1.
    simpl in Hu1.
    split; [exact Hu1|]. eapply (get_existing_customer _ _ _ _ _ z (w_seq w TCustomers)); try done.
    simpl. apply lookup_insert_eq.
Qed.

(** A service whose bookings are all cancelled cannot be deleted: the check of
    [delete_service] only looks for bookings that are not cancelled, so the
    deletion goes on and the foreign key of the cancelled bookings makes the
    database raise [IntegrityError]. *)
Theorem cancelled_bookings_block_deletion service_id tenant_id business_id w svc k b :
  services (w_db w) !! service_id = Some svc -> svc_id svc = service_id ->
  svc_tenant_id svc = tenant_id -> svc_business_id svc = business_id ->
  bookings (w_db w) !! k = Some b -> bk_service_id b = service_id ->
  (forall k' b', bookings (w_db w) !! k' = Some b' -> bk_service_id b' = service_id ->
     bk_status b' = CANCELLED) ->
  delete_service service_id tenant_id business_id w
    = (Raise (IntegrityError "fk_bookings_service_id"), w).
Proof.
  intros Hs Hid Ht Hz Hb Hbs Hall. unfold delete_service. rewrite (bind_ok _ _ w svc w).
  2:{ unfold require_service_in_business, require_service, get_service, bind.
      rewrite run_find_pk. simpl. rewrite Hs, Ht, Z.eqb_refl. simpl. by rewrite Hz, Z.eqb_refl. }
  rewrite (bind_ok _ _ w None w).
  2:{ rewrite run_first. f_equal. f_equal. apply head_filter_none. intros b' Hin.
      apply in_rows_of in Hin as [k' Hb']. destruct (bk_service_id b' =? service_id) eqn:E; [|done].
      bool_props. rewrite (Hall k' b' Hb' E). simpl. by rewrite !andb_false_r. }
  apply bind_raise. unfold db_delete. simpl. unfold service_referenced. rewrite Hid.
  destruct (existsb (fun b0 => bk_service_id b0 =? service_id) _) eqn:E; [done|].
  rewrite existsb_false in E. specialize (E b). rewrite in_rows_of in E.
  specialize (E (ex_intro _ k Hb)). bool_props. contradiction.
Qed.
End DirectoryFacts.
