(* ===== verification/Schedule.v ===== *)
(** * Schedule: working hours, availability exceptions, recurring blocks,
    transfer hours

    Models app/services/working_hours_service.py,
    availability_exception_service.py, recurring_staff_block_service.py and
    business_transfer_hours_service.py, and the request validators of
    app/schemas that guard their creation endpoints. *)

From S2P Require Import Prelude Py Effects Schema Settings Orm AuditTrail Directory.

Section Schedule.
Context `{Config}.

(** [if staff_id is not None: require_staff_in_business(...)] *)
Definition check_staff (staff_id : option Z) (business_id tenant_id : Z) : PyM unit :=
  match staff_id with
  | Some k => require_staff_in_business k business_id tenant_id ;;; ret tt
  | None => ret tt
  end.

(** ** Working hours *)

(** [WorkingHoursCreate] and [RecurringStaffBlockCreate]: the day is 0 to 6 and
    the window is not empty. *)
Definition weekly_window_valid (day_of_week start_time end_time : Z) : bool :=
  (0 <=? day_of_week) && (day_of_week <=? 6) && (start_time <? end_time).

Definition create_working_hours (tenant_id business_id : Z) (staff_id : option Z)
    (day_of_week start_time end_time : Z) : PyM WorkingHours :=
  require_business business_id tenant_id ;;;
  check_staff staff_id business_id tenant_id ;;;
  wh <- db_insert (fun id _ =>
    MkWorkingHours id tenant_id business_id staff_id day_of_week start_time end_time) ;;
  commit ;;;
  ret wh.

Definition get_working_hours (wh_id' tenant_id : Z) : PyM (option WorkingHours) :=
  find_pk wh_id' (fun r => wh_tenant_id r =? tenant_id).

Definition require_working_hours (wh_id' tenant_id : Z) : PyM WorkingHours :=
  r <- get_working_hours wh_id' tenant_id ;; require "Working hours record not found" r.

Definition require_working_hours_in_business (wh_id' business_id tenant_id : Z)
    : PyM WorkingHours :=
  r <- require_working_hours wh_id' tenant_id ;;
  if wh_business_id r =? business_id then ret r
  else domain_error NotFoundError "Working hours record not found".

Definition list_working_hours (business_id tenant_id : Z) (staff_id : option Z)
    : PyM (list WorkingHours) :=
  l <- all (fun r => (wh_business_id r =? business_id) && (wh_tenant_id r =? tenant_id)
    && match staff_id with Some k => sql_eqb (wh_staff_id r) k | None => true end) ;;
  ret (sort_by wh_day_of_week (sort_by wh_start_time l)).

Definition update_working_hours (wh_id' tenant_id business_id : Z)
    (start_time end_time : option Z) : PyM WorkingHours :=
  r <- require_working_hours_in_business wh_id' business_id tenant_id ;;
  let r' := r <| wh_start_time ::= or_keep start_time |> <| wh_end_time ::= or_keep end_time |> in
  save r' ;;;
  (if wh_end_time r' <=? wh_start_time r'
   then domain_error BadRequestError "end_time must be after start_time"
   else ret tt) ;;;
  commit ;;;
  ret r'.

Definition delete_working_hours (wh_id' tenant_id business_id : Z) : PyM unit :=
  r <- require_working_hours_in_business wh_id' business_id tenant_id ;;
  db_delete r ;;;
  commit.

(** ** Availability exceptions *)

(** [AvailabilityExceptionCreate.validate_special_hours] *)
Definition exception_request_valid (is_closed : bool) (start_time end_time : option Z) : bool :=
  is_closed || match start_time, end_time with
               | Some s, Some e => s <? e
               | _, _ => false
               end.

(** [b.start_time < end_time and b.end_time > start_time] *)
Definition windows_overlap (s1 e1 s2 e2 : Z) : bool := (s1 <? e2) && (s2 <? e1).

(** One round of the loop over existing rows: [e.start_time < end_time and
    e.end_time > start_time], where comparing with [None] is a [TypeError] and
    [and] skips the second test when the first fails. *)
Definition check_exception_overlap (start_time end_time : option Z)
    (e : AvailabilityException) : PyM unit :=
  match exc_start_time e, end_time with
  | Some s1, Some e2 =>
      if s1 <? e2 then
        match exc_end_time e, start_time with
        | Some e1, Some s2 =>
            if s2 <? e1 then domain_error ConflictError
              "This availability exception's time window overlaps with an existing one for the same business/staff/date"
            else ret tt
        | _, _ => raise TypeError
        end
      else ret tt
  | _, _ => raise TypeError
  end.

(** Same (business, staff, date) scope; NULL matches NULL. *)
Definition exception_scope (business_id tenant_id : Z) (staff_id : option Z) (d : Z)
    (e : AvailabilityException) : bool :=
  (exc_business_id e =? business_id) && (exc_tenant_id e =? tenant_id)
  && optZ_eqb (exc_staff_id e) staff_id && (exc_date e =? d).

Definition ensure_no_conflicting_exception (business_id tenant_id : Z) (staff_id : option Z)
    (exception_date : Z) (is_closed : bool) (start_time end_time : option Z) : PyM unit :=
  existing <- all (exception_scope business_id tenant_id staff_id exception_date) ;;
  match existing with
  | [] => ret tt
  | _ =>
      if is_closed || existsb exc_is_closed existing
      then domain_error ConflictError
        "A full-day closure cannot be combined with another availability exception for the same business/staff/date"
      else for_each existing (check_exception_overlap start_time end_time)
  end.

Definition create_availability_exception (tenant_id business_id : Z) (staff_id : option Z)
    (exception_date : Z) (is_closed : bool) (start_time end_time : option Z)
    (reason : option string) : PyM AvailabilityException :=
  require_business business_id tenant_id ;;;
  check_staff staff_id business_id tenant_id ;;;
  ensure_no_conflicting_exception business_id tenant_id staff_id exception_date is_closed
    start_time end_time ;;;
  e <- db_insert (fun id _ =>
    MkAvailabilityException id tenant_id business_id staff_id exception_date is_closed
      start_time end_time reason) ;;
  commit ;;;
  ret e.

Definition get_availability_exception (exception_id tenant_id : Z)
    : PyM (option AvailabilityException) :=
  find_pk exception_id (fun e => exc_tenant_id e =? tenant_id).

Definition require_availability_exception (exception_id tenant_id : Z)
    : PyM AvailabilityException :=
  e <- get_availability_exception exception_id tenant_id ;;
  require "Availability exception not found" e.

Definition require_availability_exception_in_business
    (exception_id business_id tenant_id : Z) : PyM AvailabilityException :=
  e <- require_availability_exception exception_id tenant_id ;;
  if exc_business_id e =? business_id then ret e
  else domain_error NotFoundError "Availability exception not found".

Definition list_availability_exceptions (business_id tenant_id : Z) (staff_id : option Z)
    (from_date to_date : option Z) : PyM (list AvailabilityException) :=
  l <- all (fun e => (exc_business_id e =? business_id) && (exc_tenant_id e =? tenant_id)
    && match staff_id with Some k => sql_eqb (exc_staff_id e) k | None => true end
    && match from_date with Some d => d <=? exc_date e | None => true end
    && match to_date with Some d => exc_date e <=? d | None => true end) ;;
  ret (sort_by exc_date l).

Definition delete_availability_exception (exception_id tenant_id business_id : Z) : PyM unit :=
  e <- require_availability_exception_in_business exception_id business_id tenant_id ;;
  db_delete e ;;;
  commit.

(** ** Recurring staff blocks *)

Definition block_scope (business_id tenant_id : Z) (staff_id : option Z) (day_of_week : Z)
    (b : RecurringStaffBlock) : bool :=
  (blk_business_id b =? business_id) && (blk_tenant_id b =? tenant_id)
  && optZ_eqb (blk_staff_id b) staff_id && (blk_day_of_week b =? day_of_week).

Definition ensure_no_conflicting_block (business_id tenant_id : Z) (staff_id : option Z)
    (day_of_week start_time end_time : Z) : PyM unit :=
  existing <- all (block_scope business_id tenant_id staff_id day_of_week) ;;
  if existsb (fun b => windows_overlap (blk_start_time b) (blk_end_time b) start_time end_time)
       existing
  then domain_error ConflictError
    "This recurring block's time window overlaps with an existing one for the same business/staff/day of week"
  else ret tt.

Definition create_recurring_staff_block (tenant_id business_id : Z) (staff_id : option Z)
    (day_of_week start_time end_time : Z) (reason : option string) : PyM RecurringStaffBlock :=
  require_business business_id tenant_id ;;;
  check_staff staff_id business_id tenant_id ;;;
  ensure_no_conflicting_block business_id tenant_id staff_id day_of_week start_time end_time ;;;
  b <- db_insert (fun id _ =>
    MkRecurringStaffBlock id tenant_id business_id staff_id day_of_week start_time end_time
      reason) ;;
  commit ;;;
  ret b.

Definition get_recurring_staff_block (block_id tenant_id : Z)
    : PyM (option RecurringStaffBlock) :=
  find_pk block_id (fun b => blk_tenant_id b =? tenant_id).

Definition require_recurring_staff_block (block_id tenant_id : Z) : PyM RecurringStaffBlock :=
  b <- get_recurring_staff_block block_id tenant_id ;;
  require "Recurring staff block not found" b.

Definition require_recurring_staff_block_in_business (block_id business_id tenant_id : Z)
    : PyM RecurringStaffBlock :=
  b <- require_recurring_staff_block block_id tenant_id ;;
  if blk_business_id b =? business_id then ret b
  else domain_error NotFoundError "Recurring staff block not found".

Definition list_recurring_staff_blocks (business_id tenant_id : Z)
    (staff_id day_of_week : option Z) : PyM (list RecurringStaffBlock) :=
  l <- all (fun b => (blk_business_id b =? business_id) && (blk_tenant_id b =? tenant_id)
    && match staff_id with Some k => sql_eqb (blk_staff_id b) k | None => true end
    && match day_of_week with Some d => blk_day_of_week b =? d | None => true end) ;;
  ret (sort_by blk_day_of_week (sort_by blk_start_time l)).

Definition delete_recurring_staff_block (block_id tenant_id business_id : Z) : PyM unit :=
  b <- require_recurring_staff_block_in_business block_id business_id tenant_id ;;
  db_delete b ;;;
  commit.

(** ** Transfer hours *)

Definition create_transfer_hours (tenant_id business_id day_of_week start_time end_time : Z)
    : PyM BusinessTransferHours :=
  require_business business_id tenant_id ;;;
  catch
    (e <- db_insert (fun id _ =>
       MkBusinessTransferHours id tenant_id business_id day_of_week start_time end_time) ;;
     commit ;;;
     ret e)
    (fun e => match e with
     | IntegrityError _ => Some (rollback ;;; domain_error ConflictError
         "A transfer hours window with this start time already exists for this business and day")
     | _ => None
     end).

Definition get_transfer_hours (entry_id tenant_id business_id : Z)
    : PyM (option BusinessTransferHours) :=
  find_pk entry_id (fun h => (bth_tenant_id h =? tenant_id) && (bth_business_id h =? business_id)).

Definition require_transfer_hours (entry_id business_id tenant_id : Z)
    : PyM BusinessTransferHours :=
  h <- get_transfer_hours entry_id tenant_id business_id ;;
  require "Transfer hours record not found" h.

Definition list_transfer_hours (business_id tenant_id : Z)
    : PyM (list BusinessTransferHours) :=
  l <- all (fun h => (bth_business_id h =? business_id) && (bth_tenant_id h =? tenant_id)) ;;
  ret (sort_by bth_day_of_week (sort_by bth_start_time l)).

Definition delete_transfer_hours (entry_id business_id tenant_id : Z) : PyM unit :=
  h <- require_transfer_hours entry_id business_id tenant_id ;;
  db_delete h ;;;
  commit.
End Schedule.
