(* ===== verification/Availability.v ===== *)
(** * Availability: app/services/availability_service.py

    The search for bookable slots on a date: working hours (staff hours
    intersected with the salon's), one-off exceptions that replace them,
    recurring blocks subtracted from them, the slot grid of each remaining
    window, and the bookings that occupy it.

    The functions read one snapshot of the database, so the closures of the
    source ([_wh_windows], [_has_any_schedule]) are functions of that snapshot.
    The [while] loop of [_slots_in_window] runs on fuel; [slots_in_window_grid]
    shows that the fuel used is enough for every positive duration. *)

From S2P Require Import Prelude Py Effects Schema Settings Orm AuditTrail Directory Schedule.

(** ** Time windows *)

(** [_intersect_time_windows]: the full cross product, empty overlaps dropped. *)
Definition intersect_time_windows (staff_windows salon_windows : list (Z * Z))
    : list (Z * Z) :=
  flat_map (fun '(staff_start, staff_end) =>
    flat_map (fun '(salon_start, salon_end) =>
      let start := Z.max staff_start salon_start in
      let end_ := Z.min staff_end salon_end in
      if start <? end_ then [(start, end_)] else []) salon_windows) staff_windows.

(** The inner loop of [_subtract_time_windows]: one block against one window. *)
Definition subtract_one (block window : Z * Z) : list (Z * Z) :=
  let '(block_start, block_end) := block in
  let '(win_start, win_end) := window in
  if (block_end <=? win_start) || (win_end <=? block_start) then [(win_start, win_end)]
  else (if win_start <? block_start then [(win_start, block_start)] else [])
       ++ (if block_end <? win_end then [(block_end, win_end)] else []).

(** [_subtract_time_windows]: the blocks are applied one after the other. *)
Definition subtract_time_windows (base_windows block_windows : list (Z * Z))
    : list (Z * Z) :=
  fold_left (fun result block => flat_map (subtract_one block) result)
    block_windows base_windows.

Section Availability.
Context `{Config}.

(** ** The slot grid *)

(** [local.replace(tzinfo=tz).astimezone(timezone.utc)] *)
Definition to_utc (tz : string) (local : Z) : Z := local - tz_offset_of_local tz local.

(** The [while] loop of [_slots_in_window]; [None] when the fuel runs out. *)
Fixpoint slots_loop (fuel : nat) (tz : string) (current duration end_local : Z)
    : option (list Z) :=
  match fuel with
  | O => None
  | S n =>
      if current + duration <=? end_local
      then cons (to_utc tz current) <$> slots_loop n tz (current + duration) duration end_local
      else Some []
  end.

(** Rounds the loop needs for a positive duration, plus the failing test. *)
Definition slots_fuel (start_local end_local duration : Z) : nat :=
  S (Z.to_nat ((end_local - start_local) / duration)).

(** [_slots_in_window].  A duration that is not positive makes the source's loop
    run forever (or, when negative, down to [datetime.min]): [None]. *)
Definition slots_in_window (query_date : Z) (window : Z * Z) (duration_minutes : Z)
    (tz : string) : option (list Z) :=
  let duration := timedelta_minutes duration_minutes in
  let start_local := combine query_date (fst window) in
  let end_local := combine query_date (snd window) in
  slots_loop (slots_fuel start_local end_local duration) tz start_local duration end_local.

(** ** The search on a snapshot *)

Section Search.
Context (db : DB) (business_id tenant_id : Z).

(** [query.filter(X.staff_id == k)] or [X.staff_id.is_(None)] *)
Definition staff_scope (filter_staff_id : option Z) (col : option Z) : bool :=
  match filter_staff_id with
  | Some k => sql_eqb col k
  | None => is_none col
  end.

(** [or_(X.staff_id == k, X.staff_id.is_(None))], or only the latter. *)
Definition staff_or_business_scope (staff_id : option Z) (col : option Z) : bool :=
  match staff_id with
  | Some k => sql_eqb col k || is_none col
  | None => is_none col
  end.

(** [_wh_windows] *)
Definition wh_windows (day_of_week : Z) (filter_staff_id : option Z) : list (Z * Z) :=
  map (fun wh => (wh_start_time wh, wh_end_time wh))
    (List.filter (fun wh => (wh_business_id wh =? business_id) && (wh_tenant_id wh =? tenant_id)
       && (wh_day_of_week wh =? day_of_week) && staff_scope filter_staff_id (wh_staff_id wh))
     (rows_of (working_hours db))).

(** [_has_any_schedule] *)
Definition has_any_schedule (filter_staff_id : option Z) : bool :=
  existsb (fun wh => (wh_business_id wh =? business_id) && (wh_tenant_id wh =? tenant_id)
                     && staff_scope filter_staff_id (wh_staff_id wh))
    (rows_of (working_hours db)).

(** Step 1: the weekly hours that apply on this weekday. *)
Definition weekly_hours (day_of_week : Z) (staff_id : option Z) : list (Z * Z) :=
  let salon_windows := wh_windows day_of_week None in
  match staff_id with
  | None => salon_windows
  | Some k =>
      let staff_windows := wh_windows day_of_week (Some k) in
      if negb (has_any_schedule (Some k)) then salon_windows
      else if negb (has_any_schedule None) then staff_windows
      else intersect_time_windows staff_windows salon_windows
  end.

(** Step 2: the exceptions of the date, business-wide and of the staff member. *)
Definition exceptions_on (query_date : Z) (staff_id : option Z) : list AvailabilityException :=
  List.filter (fun e => (exc_business_id e =? business_id) && (exc_tenant_id e =? tenant_id)
      && (exc_date e =? query_date) && staff_or_business_scope staff_id (exc_staff_id e))
    (rows_of (availability_exceptions db)).

(** [[(e.start_time, e.end_time) for e in exceptions if not e.is_closed and
    e.start_time and e.end_time]] *)
Definition special_hours (exceptions : list AvailabilityException) : list (Z * Z) :=
  flat_map (fun e => match exc_is_closed e, exc_start_time e, exc_end_time e with
                     | false, Some s, Some t => [(s, t)]
                     | _, _, _ => []
                     end) exceptions.

(** Step 3: the recurring blocks of the weekday. *)
Definition block_windows (day_of_week : Z) (staff_id : option Z) : list (Z * Z) :=
  map (fun b => (blk_start_time b, blk_end_time b))
    (List.filter (fun b => (blk_business_id b =? business_id) && (blk_tenant_id b =? tenant_id)
       && (blk_day_of_week b =? day_of_week) && staff_or_business_scope staff_id (blk_staff_id b))
     (rows_of (recurring_staff_blocks db))).

(** The windows left for the slot grid: steps 1 to 3 with the early returns. *)
Definition effective_windows (query_date : Z) (staff_id : option Z) : list (Z * Z) :=
  let day_of_week := weekday query_date in
  let hours := weekly_hours day_of_week staff_id in
  match hours with
  | [] => []
  | _ =>
      let exceptions := exceptions_on query_date staff_id in
      if existsb exc_is_closed exceptions then []
      else
        let special := special_hours exceptions in
        let effective := match special with [] => hours | _ => special end in
        match block_windows day_of_week staff_id with
        | [] => effective
        | blocks => subtract_time_windows effective blocks
        end
  end.

(** The bookings fetched for the day: active ones touching it, of the staff
    member if one is given. *)
Definition day_bookings (staff_id : option Z) (day_start_utc day_end_utc : Z) : list Booking :=
  List.filter (fun b => (bk_business_id b =? business_id) && (bk_tenant_id b =? tenant_id)
      && active_status (bk_status b)
      && (bk_starts_at b <? day_end_utc) && (day_start_utc <? bk_ends_at b)
      && match staff_id with Some k => sql_eqb (bk_staff_id b) k | None => true end)
    (rows_of (bookings db)).

(** The slot starts of every window, concatenated. *)
Fixpoint window_slots (query_date duration_minutes : Z) (tz : string)
    (windows : list (Z * Z)) : option (list Z) :=
  match windows with
  | [] => Some []
  | win :: rest =>
      match slots_in_window query_date win duration_minutes tz,
            window_slots query_date duration_minutes tz rest with
      | Some s, Some s' => Some (s ++ s')
      | _, _ => None
      end
  end.

Definition candidate_starts (tz : string) (staff_id : option Z)
    (query_date duration_minutes : Z) : option (list Z) :=
  sorted_set <$> window_slots query_date duration_minutes tz
                   (effective_windows query_date staff_id).

(** The last loop: past and occupied slots are dropped. *)
Definition free_slots (starts : list Z) (occupied : list Booking) (duration now : Z)
    : list (Z * Z) :=
  flat_map (fun slot_start =>
    if slot_start <=? now then []
    else
      let slot_end := slot_start + duration in
      if existsb (fun b => (bk_starts_at b <? slot_end) && (slot_start <? bk_ends_at b)) occupied
      then [] else [(slot_start, slot_end)]) starts.

(** [_get_available_slots_for_duration] *)
Definition available_slots_for_duration (tz : string) (staff_id : option Z)
    (duration_minutes query_date now : Z) : option (list (Z * Z)) :=
  match candidate_starts tz staff_id query_date duration_minutes with
  | None => None
  | Some [] => Some []
  | Some starts =>
      let day_start_utc := to_utc tz (combine query_date 0) in
      let day_end_utc := to_utc tz (combine (query_date + 1) 0) in
      Some (free_slots starts (day_bookings staff_id day_start_utc day_end_utc)
              (timedelta_minutes duration_minutes) now)
  end.
End Search.

(** ** The service functions *)

Definition search_slots (business : Business) (business_id tenant_id : Z)
    (staff_id : option Z) (duration_minutes query_date : Z) : PyM (list (Z * Z)) :=
  r <- asks (fun w => available_slots_for_duration (w_db w) business_id tenant_id
    (biz_timezone business) staff_id duration_minutes query_date (w_now w)) ;;
  match r with Some l => ret l | None => raise NonTermination end.

(** [get_available_slots] *)
Definition get_available_slots (tenant_id business_id service_id : Z) (staff_id : option Z)
    (query_date : Z) : PyM (list (Z * Z)) :=
  business <- require_business business_id tenant_id ;;
  svc <- require_service service_id tenant_id ;;
  (if svc_business_id svc =? business_id then ret tt
   else domain_error NotFoundError "Service not found") ;;;
  match staff_id with
  | None => ret tt
  | Some k =>
      m <- require_staff k tenant_id ;;
      if stf_business_id m =? business_id then ret tt
      else domain_error NotFoundError "Staff member not found"
  end ;;;
  search_slots business business_id tenant_id staff_id (svc_duration_minutes svc) query_date.

(** [get_available_slots_for_total_duration] *)
Definition get_available_slots_for_total_duration (tenant_id business_id : Z)
    (total_duration_minutes : Z) (staff_id : option Z) (query_date : Z)
    : PyM (list (Z * Z)) :=
  business <- require_business business_id tenant_id ;;
  match staff_id with
  | None => ret tt
  | Some k =>
      m <- require_staff k tenant_id ;;
      if stf_business_id m =? business_id then ret tt
      else domain_error NotFoundError "Staff member not found"
  end ;;;
  search_slots business business_id tenant_id staff_id total_duration_minutes query_date.
End Availability.

(** ** Windows as sets of instants *)

(** The instant [t] lies in one of the half-open windows. *)
Definition covers (windows : list (Z * Z)) (t : Z) : Prop :=
  exists s e, In (s, e) windows /\ s <= t < e.

Lemma covers_nil t : covers [] t <-> False.
Proof. split; [intros (s & e & [] & _) | done]. Qed.

Lemma covers_cons s e ws t : covers ((s, e) :: ws) t <-> s <= t < e \/ covers ws t.
Proof.
  unfold covers. split.
  - intros (a & b & [[= -> ->]|Hin] & Ht); eauto.
  - intros [Ht|(a & b & Hin & Ht)]; [exists s, e | exists a, b]; simpl; auto.
Qed.

Lemma covers_app ws ws' t : covers (ws ++ ws') t <-> covers ws t \/ covers ws' t.
Proof.
  unfold covers. setoid_rewrite in_app_iff. firstorder.
Qed.

Lemma covers_flat_map {A} (f : A -> list (Z * Z)) l t :
  covers (flat_map f l) t <-> exists x, In x l /\ covers (f x) t.
Proof.
  unfold covers. setoid_rewrite in_flat_map. firstorder.
Qed.

Lemma covers_subtract_one block win t :
  covers (subtract_one block win) t <->
  fst win <= t < snd win /\ ~ (fst block <= t < snd block).
Proof.
  destruct block as [bs be], win as [ws we]. simpl.
  destruct (be <=? ws) eqn:E1, (we <=? bs) eqn:E2; simpl; bool_props;
    rewrite ?covers_cons, ?covers_nil; [lia..|].
  rewrite covers_app.
  destruct (ws <? bs) eqn:E3, (be <? we) eqn:E4; bool_props;
    rewrite ?covers_cons, ?covers_nil; lia.
Qed.

Lemma covers_intersect staff_windows salon_windows t :
  covers (intersect_time_windows staff_windows salon_windows) t <->
  covers staff_windows t /\ covers salon_windows t.
Proof.
  unfold intersect_time_windows. rewrite covers_flat_map. split.
  - intros ([s1 e1] & H1 & Hc). rewrite covers_flat_map in Hc.
    destruct Hc as ([s2 e2] & H2 & Hc).
    destruct (Z.max s1 s2 <? Z.min e1 e2) eqn:E; rewrite ?covers_cons, ?covers_nil in Hc;
      [|tauto]. destruct Hc as [Hc|[]].
    split; [exists s1, e1 | exists s2, e2]; split; auto; lia.
  - intros [(s1 & e1 & H1 & Ht1) (s2 & e2 & H2 & Ht2)].
    exists (s1, e1). split; [done|]. rewrite covers_flat_map.
    exists (s2, e2). split; [done|].
    destruct (Z.max s1 s2 <? Z.min e1 e2) eqn:E; bool_props; [|lia].
    rewrite covers_cons. left. lia.
Qed.

Lemma covers_subtract base_windows blocks t :
  covers (subtract_time_windows base_windows blocks) t <->
  covers base_windows t /\ ~ covers blocks t.
Proof.
  unfold subtract_time_windows. revert base_windows.
  induction blocks as [|[bs be] blocks IH]; intros base; simpl.
  - rewrite covers_nil. tauto.
  - rewrite IH, covers_cons, covers_flat_map. split.
    + intros [([ws we] & Hin & Hc) Hn]. rewrite covers_subtract_one in Hc. simpl in Hc.
      split; [exists ws, we; tauto | tauto].
    + intros [(ws & we & Hin & Ht) Hn]. split; [|tauto].
      exists (ws, we). rewrite covers_subtract_one. simpl. tauto.
Qed.

(** The window arithmetic is set arithmetic on instants: an instant is in one of
    the windows of [_intersect_time_windows] exactly when it is in a staff window and
    in a salon window, and in one of [_subtract_time_windows] exactly when it is in
    a base window and in no block, for any lists of windows (split shifts,
    overlapping or empty windows included). *)
Theorem window_arithmetic staff_windows salon_windows base_windows blocks t :
  (covers (intersect_time_windows staff_windows salon_windows) t <->
     covers staff_windows t /\ covers salon_windows t)
  /\ (covers (subtract_time_windows base_windows blocks) t <->
     covers base_windows t /\ ~ covers blocks t).
Proof. split; [apply covers_intersect | apply covers_subtract]. Qed.

(** ** The slot grid: termination and exact contents *)

Section SlotFacts.
Context `{Config}.

Lemma slots_loop_exact n tz current duration end_local :
  0 < duration ->
  (end_local - current) / duration <= Z.of_nat n ->
  slots_loop (S n) tz current duration end_local =
  Some (map (fun k => to_utc tz (current + Z.of_nat k * duration))
          (seq 0 (Z.to_nat ((end_local - current) / duration)))).
Proof.
  intros Hd. revert current. induction n as [|n IH]; intros current Hn.
  - simpl. destruct (current + duration <=? end_local) eqn:E; bool_props.
    + assert (1 <= (end_local - current) / duration) by (apply Z.div_le_lower_bound; lia). lia.
    + replace (Z.to_nat ((end_local - current) / duration)) with O; [done|].
      assert ((end_local - current) / duration < 1) by (apply Z.div_lt_upper_bound; lia). lia.
  - remember (S n) as n' eqn:En'. simpl. subst n'.
    destruct (current + duration <=? end_local) eqn:E; bool_props.
    + assert (Hq : (end_local - current) / duration
                   = (end_local - (current + duration)) / duration + 1).
      { rewrite <- Z.div_add by lia. f_equal. lia. }
      assert (0 <= (end_local - (current + duration)) / duration) by (apply Z.div_pos; lia).
      rewrite IH by lia. simpl. f_equal.
      rewrite Hq, Z.add_1_r, Z2Nat.inj_succ by lia. simpl.
      f_equal; [f_equal; lia|].
      rewrite <- seq_shift, map_map. apply map_ext. intros k. f_equal. lia.
    + replace (Z.to_nat ((end_local - current) / duration)) with O; [done|].
      assert ((end_local - current) / duration < 1) by (apply Z.div_lt_upper_bound; lia). lia.
Qed.

Definition grid (query_date : Z) (window : Z * Z) (duration_minutes : Z) (tz : string) : list Z :=
  map (fun k => to_utc tz (combine query_date (fst window)
                           + Z.of_nat k * timedelta_minutes duration_minutes))
    (seq 0 (Z.to_nat ((snd window - fst window) / timedelta_minutes duration_minutes))).

Lemma slots_in_window_grid query_date window duration_minutes tz :
  0 < duration_minutes ->
  slots_in_window query_date window duration_minutes tz =
  Some (grid query_date window duration_minutes tz).
Proof.
  intros Hd. unfold slots_in_window, slots_fuel, grid.
  assert (0 < timedelta_minutes duration_minutes)
    by (unfold timedelta_minutes, minute_us, second_us; lia).
  replace (snd window - fst window)
    with (combine query_date (snd window) - combine query_date (fst window))
    by (unfold combine; lia).
  apply slots_loop_exact; lia.
Qed.

Lemma slots_loop_zero fuel tz current end_local :
  current <= end_local -> slots_loop fuel tz current 0 end_local = None.
Proof.
  intros Hle. induction fuel as [|n IH]; simpl; [done|].
  rewrite Z.add_0_r. destruct (current <=? end_local) eqn:E; bool_props; [|lia].
  by rewrite IH.
Qed.
End SlotFacts.

(** ** The three schedule tables and their precedence *)

Section Precedence.
Context (db : DB) (business_id tenant_id : Z).

(** Some working-hours row of this scope covers the time of day [t] on the
    weekday: the salon's rows for [None], the staff member's for [Some k]. *)
Definition hours_open (day_of_week : Z) (scope : option Z) (t : Z) : Prop :=
  exists wh, In wh (rows_of (working_hours db)) /\ wh_business_id wh = business_id
    /\ wh_tenant_id wh = tenant_id /\ wh_day_of_week wh = day_of_week
    /\ wh_staff_id wh = scope /\ wh_start_time wh <= t < wh_end_time wh.

(** The weekly rule: a staff member without any row follows the salon, a salon
    without any row leaves the staff member's hours alone, otherwise both must
    be open. *)
Definition weekly_open (day_of_week : Z) (staff_id : option Z) (t : Z) : Prop :=
  match staff_id with
  | None => hours_open day_of_week None t
  | Some k =>
      if negb (has_any_schedule db business_id tenant_id (Some k))
      then hours_open day_of_week None t
      else if negb (has_any_schedule db business_id tenant_id None)
      then hours_open day_of_week (Some k) t
      else hours_open day_of_week (Some k) t /\ hours_open day_of_week None t
  end.

Lemma staff_scope_eq scope col : staff_scope scope col = true <-> col = scope.
Proof.
  destruct scope; simpl; [apply sql_eqb_eq | apply is_none_true].
Qed.

Lemma wh_windows_covers day_of_week scope t :
  covers (wh_windows db business_id tenant_id day_of_week scope) t <->
  hours_open day_of_week scope t.
Proof.
  unfold covers, wh_windows, hours_open. split.
  - intros (s & e & Hin & Ht). apply in_map_iff in Hin as (wh & [= <- <-] & Hin).
    apply in_filter in Hin as [Hin Hp]. bool_props.
    match goal with Hs : staff_scope _ _ = true |- _ => apply staff_scope_eq in Hs end.
    exists wh. naive_solver.
  - intros (wh & Hin & Hb & Ht & Hd & Hs & Hc).
    exists (wh_start_time wh), (wh_end_time wh). split; [|done].
    apply in_map_iff. exists wh. split; [done|]. apply in_filter. split; [done|].
    apply staff_scope_eq in Hs. rewrite Hs, !andb_true_r, Hb, Ht, Hd, !Z.eqb_refl. done.
Qed.

Lemma weekly_hours_covers day_of_week staff_id t :
  covers (weekly_hours db business_id tenant_id day_of_week staff_id) t <->
  weekly_open day_of_week staff_id t.
Proof.
  unfold weekly_hours, weekly_open. destruct staff_id as [k|]; [|apply wh_windows_covers].
  destruct (negb (has_any_schedule _ _ _ (Some k))); [apply wh_windows_covers|].
  destruct (negb (has_any_schedule _ _ _ None)); [apply wh_windows_covers|].
  by rewrite covers_intersect, !wh_windows_covers.
Qed.

End Precedence.

(** ** The search *)

Section SearchFacts.
Context `{Config}.

Lemma window_slots_exact query_date duration_minutes tz windows :
  0 < duration_minutes ->
  window_slots query_date duration_minutes tz windows =
  Some (flat_map (fun win => grid query_date win duration_minutes tz) windows).
Proof.
  intros Hd. induction windows as [|win rest IH]; simpl; [done|].
  by rewrite slots_in_window_grid, IH by done.
Qed.

Lemma in_free_slots starts occupied duration now s e :
  In (s, e) (free_slots starts occupied duration now) <->
  In s starts /\ e = s + duration /\ now < s
  /\ (forall b, In b occupied -> e <= bk_starts_at b \/ bk_ends_at b <= s).
Proof.
  unfold free_slots. rewrite in_flat_map. split.
  - intros (s' & Hin & Hs). destruct (s' <=? now) eqn:E1; [done|]. bool_props.
    destruct (existsb _ occupied) eqn:E2; [done|].
    destruct Hs as [[= <- <-]|[]]. repeat split; try done.
    intros b Hb. rewrite existsb_false in E2. specialize (E2 b Hb).
    apply andb_false_iff in E2 as [E2|E2]; bool_props; lia.
  - intros (Hin & -> & Hnow & Hfree). exists s. split; [done|].
    destruct (s <=? now) eqn:E1; bool_props; [lia|].
    destruct (existsb _ occupied) eqn:E2; [|by left].
    apply existsb_exists in E2 as (b & Hb & E2). bool_props.
    destruct (Hfree b Hb); lia.
Qed.

Lemma free_slots_increasing starts occupied duration now :
  StronglySorted Z.lt starts ->
  StronglySorted (fun a b : Z * Z => fst a < fst b) (free_slots starts occupied duration now).
Proof.
  induction 1 as [|s starts Hs IH Hall]; [constructor|].
  unfold free_slots. simpl. fold (free_slots starts occupied duration now).
  destruct (s <=? now); [exact IH|]. destruct (existsb _ occupied); [exact IH|]. simpl.
  constructor; [exact IH|]. rewrite Forall_forall in Hall. apply Forall_forall.
  intros [s' e'] Hin. apply list_elem_of_In, in_free_slots in Hin as [Hin _].
  by apply Hall, list_elem_of_In.
Qed.

Lemma search_exact db business_id tenant_id tz staff_id
    duration_minutes query_date now :
  0 < duration_minutes ->
  exists slots,
    available_slots_for_duration db business_id tenant_id tz staff_id duration_minutes
      query_date now = Some slots
    /\ StronglySorted (fun a b : Z * Z => fst a < fst b) slots
    /\ forall s e, In (s, e) slots <->
         e = s + timedelta_minutes duration_minutes /\ now < s
         /\ (exists win, In win (effective_windows db business_id tenant_id query_date staff_id)
                         /\ In s (grid query_date win duration_minutes tz))
         /\ (forall b, In b (day_bookings db business_id tenant_id staff_id
                               (to_utc tz (combine query_date 0))
                               (to_utc tz (combine (query_date + 1) 0))) ->
                       e <= bk_starts_at b \/ bk_ends_at b <= s).
Proof.
  intros Hd. unfold available_slots_for_duration, candidate_starts.
  rewrite window_slots_exact by done. simpl.
  set (gs := flat_map _ _). set (bs := day_bookings _ _ _ _ _ _).
  exists (free_slots (sorted_set gs) bs (timedelta_minutes duration_minutes) now).
  split; [by destruct (sorted_set gs)|].
  split; [apply free_slots_increasing, sorted_set_increasing|].
  intros s e. rewrite in_free_slots, in_sorted_set. unfold gs. rewrite in_flat_map. tauto.
Qed.

(** A service of duration zero never gets an answer: as soon as one effective
    window is not inverted, the slot loop of the source repeats the same start
    forever, and no amount of fuel ends it. *)
Theorem zero_duration_never_returns fuel tz query_date window :
  fst window <= snd window ->
  slots_loop fuel tz (combine query_date (fst window)) (timedelta_minutes 0)
    (combine query_date (snd window)) = None.
Proof.
  intros Hle. apply slots_loop_zero. unfold combine. lia.
Qed.

(** The offset from UTC is the constant [o] over the whole local day. *)
Definition no_transition (tz : string) (query_date o : Z) : Prop :=
  forall local, combine query_date 0 <= local <= combine (query_date + 1) 0 ->
    tz_offset_of_local tz local = o.

(** Windows are times of one day. *)
Definition day_windows (windows : list (Z * Z)) : Prop :=
  forall s e, In (s, e) windows -> 0 <= s /\ e <= day_us.

Lemma grid_bounds query_date win duration_minutes tz s :
  0 < duration_minutes -> In s (grid query_date win duration_minutes tz) ->
  exists local, s = to_utc tz local
    /\ combine query_date (fst win) <= local
    /\ local + timedelta_minutes duration_minutes <= combine query_date (snd win).
Proof.
  intros Hd Hin. unfold grid in Hin. apply in_map_iff in Hin as (k & <- & Hk).
  apply in_seq in Hk.
  set (d := timedelta_minutes duration_minutes) in *.
  assert (Hpos : 0 < d) by (unfold d, timedelta_minutes, minute_us, second_us; lia).
  eexists. split; [reflexivity|]. unfold combine.
  assert (Hk' : Z.of_nat k + 1 <= (snd win - fst win) / d) by lia.
  assert (d * ((snd win - fst win) / d) <= snd win - fst win) by (apply Z.mul_div_le; lia).
  split; nia.
Qed.

Lemma slot_is_free db business_id tenant_id tz k duration_minutes
    query_date now o slots s e b :
  0 < duration_minutes ->
  no_transition tz query_date o ->
  day_windows (effective_windows db business_id tenant_id query_date (Some k)) ->
  available_slots_for_duration db business_id tenant_id tz (Some k) duration_minutes
    query_date now = Some slots ->
  In (s, e) slots ->
  In b (rows_of (bookings db)) -> bk_business_id b = business_id ->
  bk_tenant_id b = tenant_id -> active_status (bk_status b) = true ->
  bk_staff_id b = Some k ->
  e <= bk_starts_at b \/ bk_ends_at b <= s.
Proof.
  intros Hd Ho Hw Hs Hin Hb Hbiz Hten Hact Hstaff.
  destruct (search_exact db business_id tenant_id tz (Some k)
    duration_minutes query_date now Hd) as (slots' & Hs' & _ & Hex).
  rewrite Hs' in Hs. injection Hs as ->.
  apply Hex in Hin as (He & _ & ([ws we] & Hwin & Hg) & Hfree).
  destruct (grid_bounds _ _ _ _ _ Hd Hg) as (local & Hloc & Hl1 & Hl2). simpl in Hl1, Hl2.
  destruct (Hw ws we Hwin) as [Hw1 Hw2].
  set (d := timedelta_minutes duration_minutes) in *.
  assert (Hpos : 0 < d) by (unfold d, timedelta_minutes, minute_us, second_us; lia).
  unfold to_utc, combine in *.
  assert (Hday : 0 < day_us) by (unfold day_us, hour_us, minute_us, second_us; lia).
  rewrite Ho in Hloc by (unfold combine; lia).
  destruct (bk_starts_at b <? s + d) eqn:E1; [|bool_props; lia].
  destruct (s <? bk_ends_at b) eqn:E2; [|bool_props; lia]. bool_props.
  apply Hfree. unfold day_bookings. apply in_filter. split; [done|].
  rewrite Hbiz, Hten, Hact, Hstaff. simpl. rewrite !Z.eqb_refl. simpl.
  rewrite !Ho by (unfold combine; lia).
  apply andb_true_iff. split; [apply andb_true_iff; split; apply Z.ltb_lt; lia | done].
Qed.


(** On the day the clocks go forward a slot can outlast the opening hours.  In a zone
    that jumps at 03:00 (from one to two hours ahead of UTC), the window 01:00-04:00
    holds two hours of real time, and yet the three-hour slot at 01:00 is offered: its
    end is later than the instant the window closes. *)
Theorem clock_change_slot_overruns_window tz query_date :
  (forall local, tz_offset_of_local tz local
     = if local <? combine query_date (3 * hour_us) then hour_us else 2 * hour_us) ->
  exists slot_start,
    slots_in_window query_date (hour_us, 4 * hour_us) 180 tz = Some [slot_start]
    /\ to_utc tz (combine query_date (4 * hour_us)) < slot_start + timedelta_minutes 180.
Proof.
  intros Ho. rewrite slots_in_window_grid by lia. unfold grid. cbn [fst snd].
  replace (Z.to_nat ((4 * hour_us - hour_us) / timedelta_minutes 180)) with 1%nat
    by (vm_compute; reflexivity).
  cbn [map seq]. eexists. split; [reflexivity|]. rewrite Z.mul_0_l, Z.add_0_r.
  unfold to_utc. rewrite !Ho. unfold combine.
  rewrite (proj2 (Z.ltb_ge _ _)) by (unfold hour_us, minute_us, second_us; lia).
  rewrite (proj2 (Z.ltb_lt _ _)) by (unfold hour_us, minute_us, second_us; lia).
  unfold timedelta_minutes, hour_us, minute_us, second_us. lia.
Qed.

(** Special hours cannot open a day that has no weekly hours: the search
    returns nothing for it, whatever exceptions the date has. *)
Theorem special_hours_need_weekly_hours db business_id tenant_id tz staff_id
    duration_minutes query_date now :
  weekly_hours db business_id tenant_id (weekday query_date) staff_id = [] ->
  available_slots_for_duration db business_id tenant_id tz staff_id duration_minutes
    query_date now = Some [].
Proof.
  intros Hw. unfold available_slots_for_duration, candidate_starts, effective_windows.
  by rewrite Hw.
Qed.
End SearchFacts.
