(* ===== verification/JobQueue.v ===== *)
(** * JobQueue: app/core/job_queue.py

    Jobs are JSON documents in Redis: one list per job type, a processing list,
    a delayed sorted set (scores are instants) and a failed list.  A job moves
    between them by value: [lrem] finds the very document that was pushed. *)

From S2P Require Import Prelude Py Effects Schema Settings Orm.

Definition MAX_JOB_ERROR_LENGTH : nat := 500.

(** [Job] (a frozen dataclass) *)
Record Job : Type := MkJob {
  job_id : string;
  job_type : string;
  job_payload : list (string * Z);
  job_attempts : Z;
  job_request_id : option string;
  job_last_error : option string;
  job_failed_at : option Z;
  job_processing_started_at : option Z }.
#[global] Instance eta_Job : Eta Job := fun r =>
  MkJob (job_id r) (job_type r) (job_payload r) (job_attempts r) (job_request_id r)
    (job_last_error r) (job_failed_at r) (job_processing_started_at r).
#[global] Instance Job_eq_dec : EqDecision Job.
Proof. solve_decision. Defined.

(** [if v is not None: data[k] = ...] *)
Definition opt_member {A} (k : string) (mk : A -> json) (v : option A) : raw_job :=
  match v with Some a => [(k, mk a)] | None => [] end.

Definition to_json (j : Job) : raw_job :=
  [("id", JStr (job_id j)); ("type", JStr (job_type j));
   ("payload", JObj (job_payload j)); ("attempts", JInt (job_attempts j))]%string
  ++ opt_member "request_id" JStr (job_request_id j)
  ++ opt_member "last_error" JStr (job_last_error j)
  ++ opt_member "failed_at" JTime (job_failed_at j)
  ++ opt_member "processing_started_at" JTime (job_processing_started_at j).

(** [data.get(k)] on the parsed document. *)
Fixpoint json_get (k : string) (data : raw_job) : option json :=
  match data with
  | [] => None
  | (k', v) :: rest => if String.eqb k k' then Some v else json_get k rest
  end.

Definition get_str (k : string) (data : raw_job) : option string :=
  match json_get k data with Some (JStr s) => Some s | _ => None end.
Definition get_time (k : string) (data : raw_job) : option Z :=
  match json_get k data with Some (JTime t) => Some t | _ => None end.

(** [Job.from_json]: the first three members are required. *)
Definition from_json (data : raw_job) : Result Exn Job :=
  match json_get "id" data, json_get "type" data, json_get "payload" data with
  | None, _, _ => Raise (KeyError "id")
  | _, None, _ => Raise (KeyError "type")
  | _, _, None => Raise (KeyError "payload")
  | Some (JStr i), Some (JStr t), Some (JObj p) =>
      Ok (MkJob i t p
            (match json_get "attempts" data with Some (JInt n) => n | _ => 0 end)
            (get_str "request_id" data) (get_str "last_error" data)
            (get_time "failed_at" data) (get_time "processing_started_at" data))
  | _, _, _ => Raise TypeError
  end.

Definition with_processing_started_at (started_at : Z) (j : Job) : Job :=
  j <| job_processing_started_at := Some started_at |>.
Definition without_processing_started_at (j : Job) : Job :=
  j <| job_processing_started_at := None |>.
Definition with_next_attempt (j : Job) : Job :=
  j <| job_attempts ::= Z.add 1 |> <| job_processing_started_at := None |>.
Definition with_error (message : string) (j : Job) : Job :=
  j <| job_last_error := Some (str_take MAX_JOB_ERROR_LENGTH message) |>.
Definition with_failed_at (failed_at : Z) (j : Job) : Job :=
  j <| job_failed_at := Some failed_at |>.

#[global] Arguments to_json : simpl never.
#[global] Arguments from_json : simpl never.

(** ** Redis commands *)

Definition get_list (k : string) (r : Redis) : list raw_job := default [] (r_lists r !! k).
Definition get_zset (k : string) (r : Redis) : list (raw_job * Z) := default [] (r_zsets r !! k).
Definition set_list (k : string) (l : list raw_job) (r : Redis) : Redis :=
  r <| r_lists ::= <[k := l]> |>.
Definition set_zset (k : string) (l : list (raw_job * Z)) (r : Redis) : Redis :=
  r <| r_zsets ::= <[k := l]> |>.

(** LPUSH *)
Definition lpush (k : string) (raw : raw_job) (r : Redis) : Redis :=
  set_list k (raw :: get_list k r) r.

(** LREM k 1 raw: drop the first occurrence, if any. *)
Fixpoint remove_first (raw : raw_job) (l : list raw_job) : list raw_job :=
  match l with
  | [] => []
  | x :: l' => if decide (x = raw) then l' else x :: remove_first raw l'
  end.
Definition lrem (k : string) (raw : raw_job) (r : Redis) : bool * Redis :=
  if decide (raw ∈ get_list k r)
  then (true, set_list k (remove_first raw (get_list k r)) r)
  else (false, r).

(** RPOP: the last element. *)
Definition rpop (k : string) (r : Redis) : option raw_job * Redis :=
  match rev (get_list k r) with
  | [] => (None, r)
  | x :: l => (Some x, set_list k (rev l) r)
  end.

(** BRPOPLPUSH; [None] after the timeout on an empty list. *)
Definition brpoplpush (src dst : string) (r : Redis) : option raw_job * Redis :=
  match rpop src r with
  | (None, r') => (None, r')
  | (Some x, r') => (Some x, lpush dst x r')
  end.

(** ZADD k {raw: score}: a member already present gets the new score. *)
Fixpoint set_score (raw : raw_job) (score : Z) (l : list (raw_job * Z)) : list (raw_job * Z) :=
  match l with
  | [] => [(raw, score)]
  | m :: l' => if decide (m.1 = raw) then (raw, score) :: l' else m :: set_score raw score l'
  end.
Definition zadd (k : string) (raw : raw_job) (score : Z) (r : Redis) : Redis :=
  set_zset k (set_score raw score (get_zset k r)) r.

(** ZRANGEBYSCORE k 0 hi *)
Definition zrangebyscore (k : string) (hi : Z) (r : Redis) : list raw_job :=
  map fst (sort_by snd (List.filter (fun m => (0 <=? m.2) && (m.2 <=? hi)) (get_zset k r))).

(** ZREM: whether the member was there. *)
Fixpoint remove_member (raw : raw_job) (l : list (raw_job * Z)) : list (raw_job * Z) :=
  match l with
  | [] => []
  | m :: l' => if decide (m.1 = raw) then l' else m :: remove_member raw l'
  end.
Definition zrem (k : string) (raw : raw_job) (r : Redis) : bool * Redis :=
  if decide (raw ∈ map fst (get_zset k r))
  then (true, set_zset k (remove_member raw (get_zset k r)) r)
  else (false, r).

(** GET k: an expired key is absent. *)
Definition live_key (now : Z) (k : string) (r : Redis) : option redis_value :=
  match r_keys r !! k with
  | Some (v, Some expiry) => if now <? expiry then Some v else None
  | Some (v, None) => Some v
  | None => None
  end.

(** SET k v EX ttl, DEL k and SET k "1" NX EX ttl. *)
Definition set_ex (k : string) (v : redis_value) (ttl_us now : Z) (r : Redis) : Redis :=
  r <| r_keys ::= <[k := (v, Some (now + ttl_us))]> |>.
Definition del_key (k : string) (r : Redis) : Redis := r <| r_keys ::= base.delete k |>.
Definition set_nx_ex (k : string) (ttl_us now : Z) (r : Redis) : bool * Redis :=
  match live_key now k r with
  | Some _ => (false, r)
  | None => (true, set_ex k (RInt 1) ttl_us now r)
  end.

(** Running a Redis command in the world. *)
Definition redis {A} (cmd : Redis -> A * Redis) : PyM A :=
  fun w => let '(a, r) := cmd (w_redis w) in (Ok a, w <| w_redis := r |>).
Definition redis_ (cmd : Redis -> Redis) : PyM unit :=
  modify (fun w => w <| w_redis ::= cmd |>).

Definition lift_result {A} (r : Result Exn A) : PyM A :=
  match r with Ok a => ret a | Raise e => raise e end.

Section JobQueue.
Context `{Config}.

(** [queue_name_for_job_type] with the configured base name *)
Definition queue_name_for_job_type (job_type : string) : string :=
  (worker_queue_name ++ ":" ++ job_type)%string.

Definition calculate_retry_delay_seconds (attempts : Z) : Z :=
  if attempts <=? 0 then worker_retry_backoff_base_seconds
  else Z.min (worker_retry_backoff_base_seconds * 2 ^ (attempts - 1))
             worker_retry_backoff_max_seconds.

(** [str(uuid7())] *)
Definition fresh_uuid : PyM string :=
  fun w => (Ok (uuid_str (w_entropy w)), w <| w_entropy ::= Z.add 1 |>).

Definition enqueue_job (job_type : string) (payload : list (string * Z)) : PyM Job :=
  id <- fresh_uuid ;;
  request_id <- asks w_request_id ;;
  let job := MkJob id job_type payload 0 request_id None None None in
  redis_ (lpush (queue_name_for_job_type job_type) (to_json job)) ;;;
  ret job.

Definition dequeue_job (queue_name : string) : PyM (option Job) :=
  raw <- redis (brpoplpush queue_name worker_processing_queue_name) ;;
  match raw with
  | None => ret None
  | Some raw_job =>
      job <- lift_result (from_json raw_job) ;;
      now <- now_utc ;;
      let processing_job := with_processing_started_at now job in
      (if decide (to_json processing_job = raw_job) then ret tt
       else redis (lrem worker_processing_queue_name raw_job) ;;;
            redis_ (lpush worker_processing_queue_name (to_json processing_job))) ;;;
      ret (Some processing_job)
  end.

Definition ack_job (job : Job) : PyM unit :=
  redis (lrem worker_processing_queue_name (to_json job)) ;;; ret tt.

Definition schedule_retry (job : Job) (error_message : string) : PyM Job :=
  let retried_job := with_error error_message (with_next_attempt job) in
  current_time <- now_utc ;;
  let available_at := current_time
    + timedelta_seconds (calculate_retry_delay_seconds (job_attempts retried_job)) in
  redis (lrem worker_processing_queue_name (to_json job)) ;;;
  redis_ (zadd worker_delayed_queue_name (to_json retried_job) available_at) ;;;
  ret retried_job.

(** One round of the loop of [promote_delayed_jobs]: the [break] on the limit
    leaves the count unchanged for the remaining members. *)
Definition promote_one (limit : option Z) (promoted_count : Z) (raw : raw_job) : PyM Z :=
  if match limit with Some n => n <=? promoted_count | None => false end
  then ret promoted_count
  else
    removed <- redis (zrem worker_delayed_queue_name raw) ;;
    if removed : bool then
      job <- lift_result (from_json raw) ;;
      redis_ (lpush (queue_name_for_job_type (job_type job)) raw) ;;;
      ret (promoted_count + 1)
    else ret promoted_count.

Definition promote_delayed_jobs (limit : option Z) : PyM Z :=
  current_time <- now_utc ;;
  raw_jobs <- asks (fun w => zrangebyscore worker_delayed_queue_name current_time (w_redis w)) ;;
  fold_m raw_jobs 0 (promote_one limit).

(** [is_stale] of [reclaim_stale_processing_jobs] *)
Definition job_is_stale (current_time : Z) (job : Job) : bool :=
  match job_processing_started_at job with
  | None => true
  | Some started_at =>
      timedelta_seconds worker_processing_visibility_timeout_seconds
        <=? current_time - started_at
  end.

Definition reclaim_one (current_time reclaimed_count : Z) (raw : raw_job) : PyM Z :=
  job <- lift_result (from_json raw) ;;
  if negb (job_is_stale current_time job) then ret reclaimed_count
  else
    removed <- redis (lrem worker_processing_queue_name raw) ;;
    if removed : bool then
      redis_ (lpush (queue_name_for_job_type (job_type job))
                (to_json (without_processing_started_at job))) ;;;
      ret (reclaimed_count + 1)
    else ret reclaimed_count.

Definition reclaim_stale_processing_jobs : PyM Z :=
  current_time <- now_utc ;;
  raw_jobs <- asks (fun w => get_list worker_processing_queue_name (w_redis w)) ;;
  fold_m raw_jobs 0 (reclaim_one current_time).

Definition requeue_job (job : Job) : PyM Job :=
  let retried_job := with_next_attempt job in
  redis_ (lpush (queue_name_for_job_type (job_type job)) (to_json retried_job)) ;;;
  ret retried_job.

Definition move_job_to_failed_queue (job : Job) (error : option string) : PyM Job :=
  now <- now_utc ;;
  let failed := with_failed_at now job in
  let failed_job := match error, job_last_error job with
                    | Some e, _ => with_error e failed
                    | None, Some e => with_error e failed
                    | None, None => failed
                    end in
  redis (lrem worker_processing_queue_name (to_json job)) ;;;
  redis_ (lpush worker_failed_queue_name (to_json failed_job)) ;;;
  ret failed_job.

(** [redis.lrange(key, 0, stop)]: a negative [stop] counts from the end of the list. *)
Definition lrange_to {A} (stop : Z) (l : list A) : list A :=
  take (Z.to_nat ((if stop <? 0 then Z.of_nat (length l) + stop else stop) + 1)) l.

Definition list_failed_jobs (limit : Z) : PyM (list Job) :=
  raw_jobs <- asks (fun w => lrange_to (limit - 1) (get_list worker_failed_queue_name (w_redis w))) ;;
  map_m raw_jobs (fun raw => lift_result (from_json raw)).

Definition get_failed_queue_depth : PyM Z :=
  asks (fun w => Z.of_nat (length (get_list worker_failed_queue_name (w_redis w)))).

(** The [while] loop of [requeue_failed_jobs]; every round takes one element, so
    the length of the list (plus the round that finds it empty) is enough fuel. *)
Fixpoint requeue_failed_loop (fuel : nat) (limit : option Z) (requeued_count : Z) : PyM Z :=
  match fuel with
  | O => raise NonTermination
  | S n =>
      if match limit with Some m => requeued_count <? m | None => true end then
        raw <- redis (rpop worker_failed_queue_name) ;;
        match raw with
        | None => ret requeued_count
        | Some raw_job =>
            job <- lift_result (from_json raw_job) ;;
            redis_ (lpush (queue_name_for_job_type (job_type job)) (to_json job)) ;;;
            requeue_failed_loop n limit (requeued_count + 1)
        end
      else ret requeued_count
  end.

Definition requeue_failed_jobs (limit : option Z) : PyM Z :=
  depth <- asks (fun w => length (get_list worker_failed_queue_name (w_redis w))) ;;
  requeue_failed_loop (S depth) limit 0.

Definition try_acquire_maintenance_lock (ttl_seconds : Z) : PyM bool :=
  now <- now_utc ;;
  redis (set_nx_ex worker_maintenance_lock_key (timedelta_seconds ttl_seconds) now).
End JobQueue.

(** ** Serialization *)

Lemma from_to_json (j : Job) : from_json (to_json j) = Ok j.
Proof. destruct j as [i t p n [?|] [?|] [?|] [?|]]; reflexivity. Qed.

Lemma to_json_inj a b : to_json a = to_json b -> a = b.
Proof. intros E. apply (f_equal from_json) in E. rewrite !from_to_json in E. congruence. Qed.

(** A job survives the queue: parsing the document that [to_json] writes gives
    the job back, for every combination of its optional members, so two jobs with
    the same document are the same job and removal by value never takes another. *)
Theorem job_json_roundtrip (j j' : Job) :
  from_json (to_json j) = Ok j /\ (to_json j = to_json j' <-> j = j').
Proof.
  split; [apply from_to_json | split; [apply to_json_inj | by intros ->]].
Qed.

(** ** Where the jobs are *)

Definition raw_id (raw : raw_job) : string := default ""%string (get_str "id" raw).

Lemma raw_id_to_json j : raw_id (to_json j) = job_id j.
Proof. by destruct j. Qed.

Definition map_concat {A} (m : gmap string (list A)) : list A :=
  mjoin ((map_to_list m).*2).

(** Every document held by Redis, whatever the queue. *)
Definition documents (r : Redis) : list raw_job :=
  map_concat (r_lists r) ++ map fst (map_concat (r_zsets r)).

(** The ids of the jobs held by Redis, with multiplicity. *)
Definition job_ids (r : Redis) : list string := map raw_id (documents r).

(** Every document is a serialized job and no job is held twice. *)
Definition queues_ok (r : Redis) : Prop :=
  (forall raw, raw ∈ documents r -> exists j, raw = to_json j) /\ NoDup (job_ids r).

Lemma map_concat_insert {A} (m : gmap string (list A)) k l' :
  map_concat (<[k := l']> m) ++ default [] (m !! k) ≡ₚ l' ++ map_concat m.
Proof.
  unfold map_concat. destruct (m !! k) as [l|] eqn:E; simpl.
  - rewrite <- (insert_delete_id m k l E) at 2.
    rewrite <- insert_delete_eq, !map_to_list_insert by apply lookup_delete_eq.
    simpl. rewrite <- !app_assoc. apply Permutation_app_head.
    rewrite Permutation_app_comm. done.
  - rewrite map_to_list_insert by done. simpl. by rewrite app_nil_r.
Qed.

Lemma in_map_concat {A} (m : gmap string (list A)) k x :
  x ∈ default [] (m !! k) -> x ∈ map_concat m.
Proof.
  intros Hx. unfold map_concat. destruct (m !! k) as [l|] eqn:E; [|by apply elem_of_nil in Hx].
  apply list_elem_of_join. exists l. split; [done|].
  apply list_elem_of_fmap. exists (k, l). split; [done|]. by apply elem_of_map_to_list.
Qed.

Lemma in_list_documents k r raw : raw ∈ get_list k r -> raw ∈ documents r.
Proof. intros Hx. apply elem_of_app. left. by eapply in_map_concat. Qed.

Lemma in_zset_documents k r raw : raw ∈ map fst (get_zset k r) -> raw ∈ documents r.
Proof.
  intros Hx. apply elem_of_app. right. apply list_elem_of_fmap in Hx as (m & -> & Hm).
  apply list_elem_of_fmap. exists m. split; [done|]. by eapply in_map_concat.
Qed.

(** Replacing one list, or one sorted set, changes the documents accordingly. *)
Lemma documents_set_list k l' r :
  documents (set_list k l' r) ++ get_list k r ≡ₚ l' ++ documents r.
Proof.
  unfold documents, set_list, get_list. simpl.
  pose proof (map_concat_insert (r_lists r) k l') as Hp.
  rewrite <- app_assoc, (Permutation_app_comm (map fst _)), app_assoc, Hp. by rewrite app_assoc.
Qed.

Lemma documents_set_zset k l' r :
  documents (set_zset k l' r) ++ map fst (get_zset k r) ≡ₚ map fst l' ++ documents r.
Proof.
  unfold documents, set_zset, get_zset. simpl.
  pose proof (map_concat_insert (r_zsets r) k l') as Hp.
  apply (Permutation_map fst) in Hp. rewrite !map_app in Hp.
  rewrite <- app_assoc, Hp, !app_assoc. apply Permutation_app_tail, Permutation_app_comm.
Qed.

Lemma remove_first_perm raw l : raw ∈ l -> raw :: remove_first raw l ≡ₚ l.
Proof.
  induction l as [|x l IH]; simpl; [by intros ?%elem_of_nil|].
  intros Hx. case_decide as E; [by subst|].
  apply elem_of_cons in Hx as [->|Hx]; [done|].
  etransitivity; [apply Permutation_swap|]. by rewrite IH.
Qed.

Lemma remove_member_perm raw l :
  raw ∈ map fst l -> raw :: map fst (remove_member raw l) ≡ₚ map fst l.
Proof.
  induction l as [|x l IH]; simpl; [by intros ?%elem_of_nil|].
  intros Hx. case_decide as E; simpl; [by subst|].
  apply elem_of_cons in Hx as [->|Hx]; [done|].
  etransitivity; [apply Permutation_swap|]. by rewrite IH.
Qed.

Lemma set_score_fresh raw score l :
  raw ∉ map fst l -> map fst (set_score raw score l) ≡ₚ raw :: map fst l.
Proof.
  induction l as [|x l IH]; simpl; [done|]. intros Hx.
  rewrite not_elem_of_cons in Hx. destruct Hx as [Hne Hx].
  case_decide as E; [by subst|]. simpl. rewrite IH by done. apply Permutation_swap.
Qed.

Lemma documents_lpush k raw r : documents (lpush k raw r) ≡ₚ raw :: documents r.
Proof.
  apply (Permutation_app_inv_r (get_list k r)).
  unfold lpush. rewrite documents_set_list. simpl. constructor. apply Permutation_app_comm.
Qed.

Lemma documents_lrem k raw r :
  raw ∈ get_list k r -> raw :: documents (lrem k raw r).2 ≡ₚ documents r.
Proof.
  intros Hx. unfold lrem. rewrite decide_True by done. simpl.
  apply (Permutation_app_inv_r (get_list k r)). simpl.
  rewrite documents_set_list, app_comm_cons, remove_first_perm by done.
  apply Permutation_app_comm.
Qed.

Lemma documents_zrem k raw r :
  raw ∈ map fst (get_zset k r) -> raw :: documents (zrem k raw r).2 ≡ₚ documents r.
Proof.
  intros Hx. unfold zrem. rewrite decide_True by done. simpl.
  apply (Permutation_app_inv_r (map fst (get_zset k r))). simpl.
  rewrite documents_set_zset, app_comm_cons, remove_member_perm by done.
  apply Permutation_app_comm.
Qed.

Lemma documents_zadd k raw score r :
  raw ∉ map fst (get_zset k r) -> documents (zadd k raw score r) ≡ₚ raw :: documents r.
Proof.
  intros Hx. apply (Permutation_app_inv_r (map fst (get_zset k r))).
  unfold zadd. rewrite documents_set_zset, set_score_fresh by done. simpl.
  constructor. apply Permutation_app_comm.
Qed.

Lemma documents_rpop k r raw r' :
  rpop k r = (Some raw, r') -> raw :: documents r' ≡ₚ documents r.
Proof.
  unfold rpop. destruct (rev (get_list k r)) as [|x l] eqn:E; [done|]. intros [= <- <-].
  apply (Permutation_app_inv_r (get_list k r)). simpl. rewrite documents_set_list.
  rewrite app_comm_cons, (Permutation_app_comm (documents r)).
  apply Permutation_app_tail. rewrite <- (rev_involutive (get_list k r)), E. simpl.
  rewrite (Permutation_app_comm _ [x]). done.
Qed.

(** ** Conservation: no queue operation loses or duplicates a job *)

(** Redis holds exactly the jobs with these ids, each as a serialized job. *)
Definition holds (ids : list string) (r : Redis) : Prop :=
  (forall raw, raw ∈ documents r -> exists j, raw = to_json j) /\ job_ids r ≡ₚ ids.

Lemma queues_ok_holds r : queues_ok r <-> holds (job_ids r) r /\ NoDup (job_ids r).
Proof. unfold queues_ok, holds. naive_solver. Qed.

Lemma holds_perm ids r r' : documents r' ≡ₚ documents r -> holds ids r -> holds ids r'.
Proof.
  intros Hp [Hv Hi]. split.
  - intros raw Hr. apply Hv. by rewrite <- Hp.
  - unfold job_ids. by rewrite Hp.
Qed.

(** A job taken out and put back, possibly with other attributes. *)
Lemma holds_move ids r r1 r2 j j' :
  holds ids r -> to_json j :: documents r1 ≡ₚ documents r ->
  documents r2 ≡ₚ to_json j' :: documents r1 -> job_id j' = job_id j -> holds ids r2.
Proof.
  intros [Hv Hi] H1 H2 Hid. split.
  - intros raw Hr. rewrite H2 in Hr. apply elem_of_cons in Hr as [->|Hr]; [eauto|].
    apply Hv. rewrite <- H1. by apply elem_of_cons; right.
  - unfold job_ids in *. rewrite H2. simpl. rewrite <- Hi, <- H1. simpl.
    by rewrite !raw_id_to_json, Hid.
Qed.

Section Conservation.
Context `{Config}.

Definition no_error (e : Exn) (w : World) : Prop := False.
Definition Holds (ids : list string) (w : World) : Prop := holds ids (w_redis w).

Lemma triple_redis {A} P (cmd : Redis -> A * Redis) Q X :
  (forall w, P w -> Q (cmd (w_redis w)).1 (w <| w_redis := (cmd (w_redis w)).2 |>)) ->
  triple P (redis cmd) Q X.
Proof.
  intros Hq w Hw. unfold redis. specialize (Hq w Hw).
  destruct (cmd (w_redis w)); exact Hq.
Qed.

Lemma triple_lift_job {A} P j (k : Job -> PyM A) Q X :
  triple P (k j) Q X -> triple P (bind (lift_result (from_json (to_json j))) k) Q X.
Proof.
  intros Hk. rewrite from_to_json. simpl. intros w Hw. apply (Hk w Hw).
Qed.

(** Taking the document of [j] out of a list and pushing that of [j'] elsewhere. *)
Lemma triple_relocate ids src dst (j j' : Job) :
  job_id j' = job_id j ->
  triple (fun w => holds ids (w_redis w) /\ to_json j ∈ get_list src (w_redis w))
    (redis (lrem src (to_json j)) ;;; redis_ (lpush dst (to_json j')))
    (fun _ => Holds ids) no_error.
Proof.
  intros Hid. eapply triple_bind.
  - apply triple_redis with (Q := fun _ w => forall r, documents r ≡ₚ to_json j' :: documents (w_redis w) -> holds ids r).
    intros w [Hw Hin] r Hr. simpl in Hr.
    eapply holds_move; [exact Hw | by apply (documents_lrem src) | exact Hr | exact Hid].
  - intros removed. apply triple_modify. intros w Hw. apply Hw, documents_lpush.
Qed.

Lemma dequeue_holds ids queue_name :
  triple (Holds ids) (dequeue_job queue_name) (fun _ => Holds ids) no_error.
Proof.
  unfold dequeue_job. eapply triple_bind.
  { apply triple_redis with (Q := fun o w => Holds ids w /\ match o with
      | None => True
      | Some raw => (exists j, raw = to_json j)
          /\ raw ∈ get_list worker_processing_queue_name (w_redis w) end).
    intros w Hw. unfold brpoplpush.
    destruct (rpop queue_name (w_redis w)) as [[raw|] r] eqn:E; simpl.
    - assert (Hd : documents (lpush worker_processing_queue_name raw r) ≡ₚ documents (w_redis w))
        by (rewrite documents_lpush; by eapply documents_rpop).
      split; [by eapply holds_perm|]. split.
      + apply Hw. rewrite <- Hd, documents_lpush. by left.
      + unfold get_list, lpush. simpl. rewrite lookup_insert_eq. by left.
    - split; [|done]. unfold rpop in E.
      destruct (rev (get_list queue_name (w_redis w))); by simplify_eq. }
  intros [raw|]; [|by apply triple_ret; intros w [? _]].
  intros w [Hw [[j ->] Hin]]. revert w Hw Hin.
  enough (triple (fun w => holds ids (w_redis w)
      /\ to_json j ∈ get_list worker_processing_queue_name (w_redis w))
    (job <- lift_result (from_json (to_json j)) ;;
     now <- now_utc ;;
     (if decide (to_json (with_processing_started_at now job) = to_json j) then ret tt
      else redis (lrem worker_processing_queue_name (to_json j)) ;;;
           redis_ (lpush worker_processing_queue_name
                     (to_json (with_processing_started_at now job)))) ;;;
     ret (Some (with_processing_started_at now job))) (fun _ => Holds ids) no_error) as Ht.
  { intros w Hw Hin. by apply (Ht w). }
  apply triple_lift_job. eapply triple_bind.
  { apply triple_asks with (Q := fun _ w => holds ids (w_redis w)
      /\ to_json j ∈ get_list worker_processing_queue_name (w_redis w)). auto. }
  intros now. eapply triple_bind with (R := fun _ => Holds ids).
  - case_decide; [by apply triple_ret; intros w [? _]|].
    by apply triple_relocate.
  - intros u. by apply triple_ret.
Qed.

Lemma reclaim_holds ids : triple (Holds ids) reclaim_stale_processing_jobs (fun _ => Holds ids) no_error.
Proof.
  unfold reclaim_stale_processing_jobs. eapply triple_bind.
  { apply triple_asks with (Q := fun _ => Holds ids). auto. }
  intros now. eapply triple_bind.
  { apply triple_asks with (Q := fun l w => Holds ids w /\ forall raw, raw ∈ l -> exists j, raw = to_json j).
    intros w Hw. split; [done|]. intros raw Hr. apply Hw. by eapply in_list_documents. }
  intros l w [Hw Hl]. revert w Hw. apply triple_fold_m.
  intros n raw Hin. apply list_elem_of_In, Hl in Hin as [j ->].
  unfold reclaim_one. apply triple_lift_job.
  destruct (negb (job_is_stale now j)); [by apply triple_ret|].
  eapply triple_bind.
  { apply triple_redis with (Q := fun (b : bool) w => if b
      then forall r, documents r ≡ₚ to_json (without_processing_started_at j) :: documents (w_redis w) -> holds ids r
      else Holds ids w).
    intros w Hw. destruct (decide (to_json j ∈ get_list worker_processing_queue_name (w_redis w))) as [Hm|Hm].
    - pose proof (documents_lrem _ _ _ Hm) as Hd. unfold lrem in *.
      rewrite decide_True in * by done. simpl in *. intros r Hr. by eapply holds_move.
    - unfold lrem. rewrite decide_False by done. exact Hw. }
  intros [|]; [|by apply triple_ret].
  eapply triple_bind with (R := fun _ => Holds ids); [|intros u; by apply triple_ret].
  apply triple_modify. intros w Hw. apply Hw, documents_lpush.
Qed.

Lemma promote_holds ids limit :
  triple (Holds ids) (promote_delayed_jobs limit) (fun _ => Holds ids) no_error.
Proof.
  unfold promote_delayed_jobs. eapply triple_bind.
  { apply triple_asks with (Q := fun _ => Holds ids). auto. }
  intros now. eapply triple_bind.
  { apply triple_asks with (Q := fun l w => Holds ids w /\ forall raw, raw ∈ l -> exists j, raw = to_json j).
    intros w Hw. split; [done|]. intros raw Hr. apply Hw.
    unfold zrangebyscore in Hr. apply list_elem_of_In, in_map_iff in Hr as (m & <- & Hm).
    apply in_sort_by, in_filter in Hm as [Hm _].
    eapply in_zset_documents, list_elem_of_In, in_map, Hm. }
  intros l w [Hw Hl]. revert w Hw. apply triple_fold_m.
  intros n raw Hin. apply list_elem_of_In, Hl in Hin as [j ->].
  unfold promote_one. destruct (match limit with Some _ => _ | None => _ end); [by apply triple_ret|].
  eapply triple_bind.
  { apply triple_redis with (Q := fun (b : bool) w => if b
      then forall r, documents r ≡ₚ to_json j :: documents (w_redis w) -> holds ids r
      else Holds ids w).
    intros w Hw. destruct (decide (to_json j ∈ map fst (get_zset worker_delayed_queue_name (w_redis w)))) as [Hm|Hm].
    - pose proof (documents_zrem _ _ _ Hm) as Hd. unfold zrem in *.
      rewrite decide_True in * by done. simpl in *. intros r Hr. by eapply holds_move.
    - unfold zrem. rewrite decide_False by done. exact Hw. }
  intros [|]; [|by apply triple_ret]. apply triple_lift_job.
  eapply triple_bind with (R := fun _ => Holds ids); [|intros u; by apply triple_ret].
  apply triple_modify. intros w Hw. apply Hw, documents_lpush.
Qed.

Lemma rpop_length k r raw r' :
  rpop k r = (Some raw, r') -> length (get_list k r) = S (length (get_list k r')).
Proof.
  unfold rpop. destruct (rev (get_list k r)) as [|x l] eqn:E; [done|]. intros [= <- <-].
  unfold get_list, set_list at 1. simpl. rewrite lookup_insert_eq. simpl.
  rewrite length_rev. apply (f_equal length) in E. rewrite length_rev in E. exact E.
Qed.

Lemma requeue_loop_holds ids fuel limit n :
  (forall t, queue_name_for_job_type t <> worker_failed_queue_name) ->
  triple (fun w => Holds ids w /\ (length (get_list worker_failed_queue_name (w_redis w)) < fuel)%nat)
    (requeue_failed_loop fuel limit n) (fun _ => Holds ids) no_error.
Proof.
  intros Hne. revert n. induction fuel as [|fuel IH]; intros n; simpl.
  { intros w [_ Hlt]. lia. }
  destruct (match limit with Some _ => _ | None => _ end); [|by apply triple_ret; intros w [? _]].
  eapply triple_bind.
  { apply triple_redis with (Q := fun o w => match o with
      | None => Holds ids w
      | Some raw => (exists j, raw = to_json j
          /\ forall r, documents r ≡ₚ to_json j :: documents (w_redis w) -> holds ids r)
          /\ (length (get_list worker_failed_queue_name (w_redis w)) < fuel)%nat end).
    intros w [Hw Hlt]. destruct (rpop worker_failed_queue_name (w_redis w)) as [[raw|] r] eqn:E; simpl.
    - pose proof (documents_rpop _ _ _ _ E) as Hd. apply rpop_length in E. split; [|lia].
      destruct (proj1 Hw raw) as [j ->]; [rewrite <- Hd; by left|].
      exists j. split; [done|]. intros r' Hr'. by eapply holds_move.
    - unfold rpop in E. destruct (rev (get_list worker_failed_queue_name (w_redis w))); by simplify_eq. }
  intros [raw|]; [|by apply triple_ret].
  intros w [(j & -> & Hd) Hlt]. revert w Hd Hlt.
  enough (triple (fun w => (forall r, documents r ≡ₚ to_json j :: documents (w_redis w) -> holds ids r)
      /\ (length (get_list worker_failed_queue_name (w_redis w)) < fuel)%nat)
    (job <- lift_result (from_json (to_json j)) ;;
     redis_ (lpush (queue_name_for_job_type (job_type job)) (to_json job)) ;;;
     requeue_failed_loop fuel limit (n + 1)) (fun _ => Holds ids) no_error) as Ht.
  { intros w Hd Hlt. by apply (Ht w). }
  apply triple_lift_job. eapply triple_bind; [|intros u; apply IH].
  apply triple_modify. intros w [Hd Hlt]. split; [apply Hd, documents_lpush|].
  unfold get_list, lpush, set_list. simpl. by rewrite lookup_insert_ne by done.
Qed.

Lemma requeue_failed_holds ids limit :
  (forall t, queue_name_for_job_type t <> worker_failed_queue_name) ->
  triple (Holds ids) (requeue_failed_jobs limit) (fun _ => Holds ids) no_error.
Proof.
  intros Hne. unfold requeue_failed_jobs. eapply triple_bind.
  { apply triple_asks with (Q := fun n w => Holds ids w
      /\ (length (get_list worker_failed_queue_name (w_redis w)) < S n)%nat). auto. }
  intros n. by apply requeue_loop_holds.
Qed.

(** The document of [j] is in the processing list. *)
Definition in_processing (j : Job) (w : World) : Prop :=
  to_json j ∈ get_list worker_processing_queue_name (w_redis w).

Lemma move_to_failed_holds ids j error :
  triple (fun w => Holds ids w /\ in_processing j w) (move_job_to_failed_queue j error)
    (fun _ => Holds ids) no_error.
Proof.
  unfold move_job_to_failed_queue. eapply triple_bind.
  { apply triple_asks with (Q := fun _ w => Holds ids w /\ in_processing j w). auto. }
  intros now w Hw.
  set (j' := match error with Some e => _ | None => _ end : Job).
  pose proof (triple_relocate ids worker_processing_queue_name worker_failed_queue_name j j'
    ltac:(by unfold j'; destruct error, (job_last_error j)) w Hw) as Ht.
  unfold bind, redis, redis_, modify, ret in *. destruct (lrem _ _ _). exact Ht.
Qed.

Lemma schedule_retry_holds ids j message :
  NoDup ids ->
  triple (fun w => Holds ids w /\ in_processing j w) (schedule_retry j message)
    (fun _ => Holds ids) no_error.
Proof.
  intros Hnd. unfold schedule_retry. set (j' := with_error message (with_next_attempt j)).
  eapply triple_bind.
  { apply triple_asks with (Q := fun _ w => Holds ids w /\ in_processing j w). auto. }
  intros now. eapply triple_bind.
  { apply triple_redis with (Q := fun _ w =>
      (forall r, documents r ≡ₚ to_json j' :: documents (w_redis w) -> holds ids r)
      /\ to_json j' ∉ map fst (get_zset worker_delayed_queue_name (w_redis w))).
    intros w [Hw Hin]. simpl.
    pose proof (documents_lrem _ _ _ Hin) as Hd. split.
    - intros r Hr. by eapply (holds_move _ _ _ _ j j').
    - intros Hz%in_zset_documents. destruct Hw as [_ Hi]. unfold job_ids in Hi.
      rewrite <- Hd in Hi. simpl in Hi. rewrite <- Hi in Hnd.
      apply NoDup_cons in Hnd as [Hn _]. apply Hn. rewrite raw_id_to_json.
      apply list_elem_of_fmap. exists (to_json j'). by rewrite raw_id_to_json. }
  intros removed. eapply triple_bind with (R := fun _ => Holds ids); [|intros u; by apply triple_ret].
  apply triple_modify. intros w [Hr Hz]. apply Hr. by apply documents_zadd.
Qed.

(** The moves of the worker between the queues. *)
Inductive queue_op : Type :=
  | Dequeue (queue_name : string)
  | ScheduleRetry (job : Job) (message : string)
  | MoveToFailed (job : Job) (error : option string)
  | PromoteDelayed (limit : option Z)
  | ReclaimStale
  | RequeueFailed (limit : option Z).

Definition run_queue_op (op : queue_op) : PyM unit :=
  match op with
  | Dequeue q => dequeue_job q ;;; ret tt
  | ScheduleRetry j m => schedule_retry j m ;;; ret tt
  | MoveToFailed j e => move_job_to_failed_queue j e ;;; ret tt
  | PromoteDelayed l => promote_delayed_jobs l ;;; ret tt
  | ReclaimStale => reclaim_stale_processing_jobs ;;; ret tt
  | RequeueFailed l => requeue_failed_jobs l ;;; ret tt
  end.

(** A retry or a failure concerns a job that is being processed. *)
Definition queue_op_applies (op : queue_op) (w : World) : Prop :=
  match op with
  | ScheduleRetry j _ | MoveToFailed j _ => in_processing j w
  | _ => True
  end.

(** C16: no job is lost or duplicated by the queue.  Dequeuing, scheduling a retry,
    moving to the failed list, promoting delayed jobs, reclaiming stale ones and
    requeueing failed ones never raise, terminate, and leave Redis holding exactly
    the same jobs, each once, as valid documents. *)
Theorem queue_operations_conserve_jobs op w :
  (forall t, queue_name_for_job_type t <> worker_failed_queue_name) ->
  queues_ok (w_redis w) -> queue_op_applies op w ->
  (run_queue_op op w).1 = Ok tt
  /\ queues_ok (w_redis (run_queue_op op w).2)
  /\ job_ids (w_redis (run_queue_op op w).2) ≡ₚ job_ids (w_redis w).
Proof.
  intros Hne Hok Happ. apply queues_ok_holds in Hok as [Hh Hnd].
  set (ids := job_ids (w_redis w)) in *.
  assert (Ht : triple (fun w => Holds ids w /\ queue_op_applies op w) (run_queue_op op)
                 (fun _ => Holds ids) no_error).
  { destruct op; unfold run_queue_op; 
      (eapply triple_bind with (R := fun _ => Holds ids); [|intros a; by apply triple_ret]);
      (eapply triple_conseq;
       [first [apply dequeue_holds | by apply schedule_retry_holds | apply move_to_failed_holds
              | apply promote_holds | apply reclaim_holds | by apply requeue_failed_holds]
       | by simpl; intros s [? ?] | done | done]). }
  specialize (Ht w (conj Hh Happ)).
  destruct (run_queue_op op w) as [[[]|e] w'] eqn:E; [|done]. simpl in *.
  destruct Ht as [Hv Hi]. split; [done|]. split; [|done]. split; [done|]. by rewrite Hi.
Qed.
End Conservation.

(** ** Order, reclaiming and retry delays *)

Section QueueBehaviour.
Context `{Config}.

Lemma get_set_list k k' l r :
  get_list k (set_list k' l r) = if decide (k' = k) then l else get_list k r.
Proof. unfold get_list, set_list. simpl. rewrite lookup_insert. by case_decide. Qed.

(** Queues are first in, first out.  [enqueue_job] puts a new job at the head of
    its type's list and [dequeue_job] takes the last element, which is the oldest:
    it is returned with its start time set, the others stay in order, and the job
    is in the processing list under its new document. *)
Theorem dequeue_takes_oldest queue_name l j w :
  queue_name <> worker_processing_queue_name ->
  get_list queue_name (w_redis w) = l ++ [to_json j] ->
  exists w', let j' := with_processing_started_at (w_now w) j in
    dequeue_job queue_name w = (Ok (Some j'), w')
    /\ get_list queue_name (w_redis w') = l
    /\ get_list worker_processing_queue_name (w_redis w')
       = to_json j' :: get_list worker_processing_queue_name (w_redis w).
Proof.
  intros Hne Hl. set (P := worker_processing_queue_name) in *.
  set (r1 := lpush P (to_json j) (set_list queue_name l (w_redis w))).
  assert (Hb : brpoplpush queue_name P (w_redis w) = (Some (to_json j), r1)).
  { unfold brpoplpush, rpop. by rewrite Hl, rev_unit, rev_involutive. }
  assert (Hq1 : get_list queue_name r1 = l).
  { unfold r1, lpush. by rewrite !get_set_list, decide_False, decide_True by done. }
  assert (HP1 : get_list P r1 = to_json j :: get_list P (w_redis w)).
  { unfold r1, lpush. by rewrite !get_set_list, decide_True, decide_False by done. }
  set (j' := with_processing_started_at (w_now w) j).
  unfold dequeue_job. fold P. unfold bind at 1, redis at 1. rewrite Hb. cbv beta iota.
  rewrite from_to_json. simpl.
  unfold bind, now_utc, asks, redis, redis_, modify, ret. simpl. fold j'.
  case_decide as Hj; simpl.
  { eexists; (split; [reflexivity|]); simpl. by rewrite HP1, Hj. }
  assert (Hr : lrem P (to_json j) r1 = (true, set_list P (get_list P (w_redis w)) r1)).
  { unfold lrem. rewrite HP1, decide_True by by left. simpl. by rewrite decide_True. }
  rewrite Hr. simpl. eexists; (split; [reflexivity|]); simpl.
  unfold lpush at 1 2. rewrite !get_set_list. repeat case_decide; simplify_eq; by rewrite ?Hq1.
Qed.

Lemma elem_of_remove_first x raw l : x ∈ remove_first raw l -> x ∈ l.
Proof.
  induction l as [|y l IH]; simpl; [done|]. case_decide.
  - intros Hx. by right.
  - rewrite !elem_of_cons. tauto.
Qed.

Lemma NoDup_remove_first raw l : NoDup l -> NoDup (remove_first raw l) /\ raw ∉ remove_first raw l.
Proof.
  induction 1 as [|y l Hy Hl IH]; simpl.
  - split; [constructor | apply not_elem_of_nil].
  - case_decide; [by subst|]. destruct IH. split.
    + constructor; [|done]. intros Hx. apply Hy. by eapply elem_of_remove_first.
    + rewrite not_elem_of_cons. auto.
Qed.

(** A document whose job is not stale. *)
Definition fresh_document (now : Z) (raw : raw_job) : Prop :=
  exists j, raw = to_json j /\ job_is_stale now j = false.

Lemma reclaim_loop_fresh now l n w :
  (forall t, queue_name_for_job_type t <> worker_processing_queue_name) ->
  (forall raw, raw ∈ l -> exists j, raw = to_json j) ->
  NoDup (get_list worker_processing_queue_name (w_redis w)) ->
  (forall raw, raw ∈ get_list worker_processing_queue_name (w_redis w) ->
     raw ∈ l \/ fresh_document now raw) ->
  exists n' w', fold_m l n (reclaim_one now) w = (Ok n', w')
    /\ forall raw, raw ∈ get_list worker_processing_queue_name (w_redis w') ->
         fresh_document now raw.
Proof.
  intros Hne. set (P := worker_processing_queue_name) in *.
  revert n w. induction l as [|x l IH]; intros n w Hv Hnd Hcov.
  { exists n, w. split; [done|]. intros raw Hr. destruct (Hcov raw Hr) as [Hx|]; [|done].
    by apply elem_of_nil in Hx. }
  destruct (Hv x) as [j ->]; [by left|].
  cbn [fold_m]. unfold bind at 1, reclaim_one at 1. rewrite from_to_json. simpl.
  unfold bind at 1. simpl. destruct (job_is_stale now j) eqn:Es; simpl.
  - unfold bind, redis, redis_, modify, ret. fold P. unfold lrem.
    case_decide as Hin; simpl.
    + apply IH; [intros; apply Hv; by right | |]; simpl;
        unfold lpush; rewrite get_set_list, decide_False by done;
        rewrite get_set_list, decide_True by done;
        destruct (NoDup_remove_first (to_json j) _ Hnd) as [Hnd' Hnot]; [done|].
      intros raw Hr. destruct (Hcov raw (elem_of_remove_first _ _ _ Hr)) as [Hx|]; [|by right].
      apply elem_of_cons in Hx as [->|Hx]; [contradiction | by left].
    + apply IH; [intros; apply Hv; by right | done |]. simpl.
      intros raw Hr. destruct (Hcov raw Hr) as [Hx|]; [|by right].
      apply elem_of_cons in Hx as [->|Hx]; [contradiction | by left].
  - apply IH; [intros; apply Hv; by right | done |].
    intros raw Hr. destruct (Hcov raw Hr) as [Hx|]; [|by right].
    apply elem_of_cons in Hx as [->|Hx]; [right; by exists j | by left].
Qed.

(** After [reclaim_stale_processing_jobs] no job is left in the processing list
    beyond the visibility timeout: a job whose worker died is always handed out
    again. *)
Theorem reclaim_leaves_only_fresh_jobs w :
  (forall t, queue_name_for_job_type t <> worker_processing_queue_name) ->
  queues_ok (w_redis w) ->
  exists n w', reclaim_stale_processing_jobs w = (Ok n, w')
    /\ forall raw, raw ∈ get_list worker_processing_queue_name (w_redis w') ->
         exists j, raw = to_json j /\ job_is_stale (w_now w) j = false.
Proof.
  intros Hne [Hv Hnd]. apply reclaim_loop_fresh; [done | | |].
  - intros raw Hr. apply Hv. by eapply in_list_documents.
  - apply NoDup_fmap_1 in Hnd. unfold documents in Hnd. apply NoDup_app in Hnd as [Hnd _].
    unfold get_list, map_concat in *.
    destruct (r_lists (w_redis w) !! worker_processing_queue_name) as [l|] eqn:E; [|constructor].
    rewrite <- (insert_delete_id _ _ _ E), map_to_list_insert in Hnd by apply lookup_delete_eq.
    simpl in Hnd. by apply NoDup_app in Hnd as [Hnd _].
  - simpl. auto.
Qed.

(** Retry delays grow and are bounded: with a base within the maximum, the delay
    of attempt [n + 1] is at least that of attempt [n], never below the base and
    never above the maximum, and it doubles as long as the maximum is not reached. *)
Theorem retry_delay_bounds attempts :
  0 < worker_retry_backoff_base_seconds <= worker_retry_backoff_max_seconds ->
  worker_retry_backoff_base_seconds <= calculate_retry_delay_seconds attempts
    <= worker_retry_backoff_max_seconds
  /\ calculate_retry_delay_seconds attempts <= calculate_retry_delay_seconds (attempts + 1)
  /\ (0 < attempts ->
      calculate_retry_delay_seconds (attempts + 1)
      = Z.min (2 * calculate_retry_delay_seconds attempts) worker_retry_backoff_max_seconds).
Proof.
  intros Hb. unfold calculate_retry_delay_seconds.
  set (b := worker_retry_backoff_base_seconds) in *. set (m := worker_retry_backoff_max_seconds) in *.
  destruct (attempts <=? 0) eqn:E; bool_props.
  - destruct (attempts + 1 <=? 0) eqn:E'; bool_props; [lia|].
    replace (attempts + 1 - 1) with 0 by lia. rewrite Z.pow_0_r. lia.
  - destruct (attempts + 1 <=? 0) eqn:E'; bool_props; [lia|].
    assert (H1 : 1 <= 2 ^ (attempts - 1)) by (pose proof (Z.pow_pos_nonneg 2 (attempts - 1)); lia).
    replace (attempts + 1 - 1) with (Z.succ (attempts - 1)) by lia.
    rewrite Z.pow_succ_r by lia. nia.
Qed.
End QueueBehaviour.
