(* ===== verification/Frames.v ===== *)
(** * Frames: operations that keep an assertion

    [keeps P m]: started where [P] holds, the operation [m] ends where [P] holds, whether it
    returns or raises.  The rules follow the syntax of an operation; [keeps_steps] applies them
    and leaves the primitives to the hint database [ledger], to which the files add the
    frames of their operations. *)

From S2P Require Import Prelude Py Effects Schema Orm JobQueue.

(** ** Operations that keep an assertion *)

Definition keeps {A} (P : World -> Prop) (m : PyM A) : Prop :=
  triple P m (fun _ => P) (fun _ => P).

Create HintDb ledger.

Lemma keeps_ret {A} P (a : A) : keeps P (ret a).
Proof. by apply triple_ret. Qed.
Lemma keeps_raise {A} P e : keeps (A := A) P (raise e).
Proof. by apply triple_raise. Qed.
Lemma keeps_asks {A} P (f : World -> A) : keeps P (asks f).
Proof. by apply triple_asks. Qed.
Lemma keeps_bind {A B} P (m : PyM A) (k : A -> PyM B) :
  keeps P m -> (forall a, keeps P (k a)) -> keeps P (bind m k).
Proof. intros Hm Hk. eapply triple_bind; [exact Hm | exact Hk]. Qed.
Lemma keeps_catch {A} P (m : PyM A) h :
  keeps P m -> (forall e m', h e = Some m' -> keeps P m') -> keeps P (catch m h).
Proof. intros Hm Hh. eapply triple_catch; [exact Hm | exact Hh | done]. Qed.
Lemma keeps_finally {A} P (m : PyM A) f : keeps P m -> keeps P f -> keeps P (finally m f).
Proof. intros Hm Hf. eapply triple_finally; [exact Hm | intros a; exact Hf | intros e; exact Hf]. Qed.
Lemma keeps_lift {A} P (r : Result Exn A) : keeps P (lift_result r).
Proof. destruct r; [apply keeps_ret | apply keeps_raise]. Qed.
Lemma keeps_for_each {A} P (l : list A) body :
  (forall x, keeps P (body x)) -> keeps P (for_each l body).
Proof. intros Hb. apply triple_for_each. intros x Hx. apply Hb. Qed.
Lemma keeps_map_m {A B} P (l : list A) (body : A -> PyM B) :
  (forall x, keeps P (body x)) -> keeps P (map_m l body).
Proof. intros Hb. apply triple_map_m. intros x Hx. apply Hb. Qed.
Lemma keeps_fold_m {A B} P (l : list A) (body : B -> A -> PyM B) acc :
  (forall b x, keeps P (body b x)) -> keeps P (fold_m l acc body).
Proof. intros Hb. apply triple_fold_m. intros b x Hx. apply Hb. Qed.
Lemma keeps_when P c m : keeps P m -> keeps P (when c m).
Proof. intros Hm. destruct c; [done | apply keeps_ret]. Qed.
Lemma keeps_require {A} P msg (o : option A) : keeps P (require msg o).
Proof. destruct o; [apply keeps_ret | apply keeps_raise]. Qed.
Lemma keeps_domain_error {A} P k msg : keeps (A := A) P (domain_error k msg).
Proof. apply keeps_raise. Qed.

Lemma keeps_final {A} P (m : PyM A) w : keeps P m -> P w -> P (m w).2.
Proof. intros Hm Hw. pose proof (Hm w Hw) as Ht. by destruct (m w) as [[a|e] w']. Qed.

#[export] Hint Resolve keeps_ret keeps_raise keeps_asks keeps_for_each keeps_map_m keeps_fold_m
  keeps_when keeps_require keeps_domain_error keeps_lift : ledger.
#[export] Hint Resolve keeps_bind | 2 : ledger.
#[export] Hint Extern 1 (keeps _ (first _)) => apply keeps_asks : ledger.
#[export] Hint Extern 1 (keeps _ (all _)) => apply keeps_asks : ledger.
#[export] Hint Extern 1 (keeps _ (find_pk _ _)) => apply keeps_asks : ledger.
#[export] Hint Extern 1 (keeps _ (refresh _)) => apply keeps_asks : ledger.
#[export] Hint Extern 1 (keeps _ now_utc) => apply keeps_asks : ledger.
#[export] Hint Extern 3 (keeps _ (match ?x with _ => _ end)) => destruct x : ledger.

(** The rules of [keeps], applied to the syntax of an operation. *)
Ltac keeps_steps :=
  repeat (intros; cbv zeta;
    lazymatch goal with
    | |- keeps _ (bind _ _) => apply keeps_bind
    | |- keeps _ (for_each _ _) => apply keeps_for_each
    | |- keeps _ (map_m _ _) => apply keeps_map_m
    | |- keeps _ (fold_m _ _ _) => apply keeps_fold_m
    | |- keeps _ (when _ _) => apply keeps_when
    | |- keeps _ (catch _ _) =>
        apply keeps_catch; [|intros e ? He; destruct e; simplify_eq/=;
                      try (match type of He with context [match ?k with _ => _ end] => destruct k end;
                           simplify_eq/=)]
    | |- keeps _ (finally _ _) => apply keeps_finally
    | |- keeps _ (match ?x with _ => _ end) => destruct x
    | |- _ => solve [eauto with ledger]
    end).

(** ** Assertions about Redis *)

Section RedisFrames.
Context (P : Redis -> Prop).
Local Abbreviation about := (fun w : World => P (w_redis w)).

Lemma redis_insert `{Entity A} mk : keeps about (db_insert (A := A) mk).
Proof.
  intros w Hw. unfold db_insert. destruct (table (w_db w) !! _); [done|].
  by destruct (violates _ _).
Qed.
Lemma redis_save `{Entity A} (r : A) : keeps about (save r).
Proof. by apply triple_modify. Qed.
Lemma redis_update `{Entity A} (r : A) : keeps about (db_update r).
Proof. intros w Hw. unfold db_update. by destruct (violates _ _). Qed.
Lemma redis_delete `{Entity A} (r : A) : keeps about (db_delete r).
Proof. intros w Hw. unfold db_delete. by destruct (referenced _ _). Qed.
Lemma redis_delete_where `{Entity A} (p : A -> bool) : keeps about (delete_where p).
Proof. by intros w Hw. Qed.
Lemma redis_update_where `{Entity A} (p : A -> bool) f : keeps about (update_where p f).
Proof. by apply triple_modify. Qed.
Lemma redis_commit : keeps about commit.
Proof. by apply triple_modify. Qed.
Lemma redis_rollback : keeps about rollback.
Proof. by apply triple_modify. Qed.
Lemma redis_request {A} (m : PyM A) : keeps about m -> keeps about (run_request m).
Proof.
  intros Hm w Hw. unfold run_request. pose proof (Hm (open_session w) Hw) as Ht.
  by destruct (m (open_session w)) as [[a|e] w'].
Qed.
Lemma redis_command cmd : (forall r, P r -> P (cmd r)) -> keeps about (redis_ cmd).
Proof. intros Hc. apply triple_modify. intros w Hw. by apply Hc. Qed.
End RedisFrames.

Create HintDb redis.
#[export] Hint Resolve redis_commit redis_rollback redis_request : redis.
#[export] Hint Extern 1 (keeps _ (db_insert _)) => apply redis_insert : redis.
#[export] Hint Extern 1 (keeps _ (save _)) => apply redis_save : redis.
#[export] Hint Extern 1 (keeps _ (db_update _)) => apply redis_update : redis.
#[export] Hint Extern 1 (keeps _ (db_delete _)) => apply redis_delete : redis.
#[export] Hint Extern 1 (keeps _ (delete_where _)) => apply redis_delete_where : redis.
#[export] Hint Extern 1 (keeps _ (update_where _ _)) => apply redis_update_where : redis.

(** [keeps_steps] for an assertion about Redis. *)
Ltac redis_steps := keeps_steps; intros; try solve [eauto with redis].
