(* ===== verification/Providers.v ===== *)
(** * Providers: the SMS, calendar, e-mail and object-storage services as an interface

    app/core/sms.py and app/core/calendar.py give the messages; the protocols of
    app/services/sms_provider.py and calendar_provider.py give the calls.  An
    adapter talks to a remote service, so its answer may depend on anything and it
    may raise: a call is a function of the message and of the world at the moment
    of the call.  The mail server (smtplib), the object storage (boto3) and the HTTP malware
    scanner are called in the same way.  The services are verified against every instance; the
    null adapters of the source are the instance used to run the model. *)

From S2P Require Import Prelude Py Effects Schema.

Record SmsMessage : Type := MkSmsMessage { sms_to : string; sms_body : string }.

Record SmsSendResult : Type := MkSmsSendResult {
  sms_success : bool;
  sms_provider_message_id : option string;
  sms_error : option string }.

(** [app.core.calendar.CalendarEvent] *)
Record CalendarEventPayload : Type := MkCalendarEventPayload {
  ev_title : string;
  ev_starts_at : Z;
  ev_ends_at : Z;
  ev_description : string }.

Record CalendarResult : Type := MkCalendarResult {
  cr_success : bool;
  cr_provider_event_id : option string;
  cr_error : option string }.

(** [SmsProvider.send], [CalendarProvider.create_event] and [cancel_event]; whether smtplib
    sends a message (recipient, subject, body) without an [OSError]; [head_object] (size and
    content type), [get_object] with the bytes read up to a bound, and whether
    [delete_object], [upload_fileobj], [head_bucket] and the signing of an URL succeed; the
    verdict of the HTTP scanner. *)
Class Providers : Type := {
  sms_send : SmsMessage -> World -> Result Exn SmsSendResult;
  calendar_create_event : CalendarEventPayload -> World -> Result Exn CalendarResult;
  calendar_cancel_event : option string -> World -> Result Exn CalendarResult;
  smtp_deliver : string -> string -> string -> World -> bool;
  s3_head_object : string -> World -> option (Z * option string);
  s3_get_object : string -> World -> option string;
  s3_delete_object : string -> World -> bool;
  s3_upload : string -> string -> string -> World -> bool;
  s3_head_bucket : World -> bool;
  s3_presign : string -> string -> World -> option string;
  http_scan_clean : string -> string -> World -> bool }.

(** [NullSmsProvider] *)
Definition NullSmsProvider_send (error : string) (_ : SmsMessage) : SmsSendResult :=
  MkSmsSendResult false None (Some error).

(** [NullCalendarProvider] *)
Definition NullCalendarProvider_answer : CalendarResult :=
  MkCalendarResult false None (Some "calendar_provider_not_configured"%string).

Definition null_providers : Providers := {|
  sms_send m _ := Ok (NullSmsProvider_send "sms_provider_not_configured" m);
  calendar_create_event _ _ := Ok NullCalendarProvider_answer;
  calendar_cancel_event _ _ := Ok NullCalendarProvider_answer;
  smtp_deliver _ _ _ _ := false;
  s3_head_object _ _ := None;
  s3_get_object _ _ := None;
  s3_delete_object _ _ := true;
  s3_upload _ _ _ _ := true;
  s3_head_bucket _ := true;
  s3_presign method key _ := Some ("https://storage/" ++ key)%string;
  http_scan_clean _ _ _ := false |}.

(** A call to an adapter. *)
Definition call_provider {A} (f : World -> Result Exn A) : PyM A :=
  fun w => (f w, w).
