(* ===== verification/Tenancy.v ===== *)
(** * Tenancy: tenants, permissions and tenant membership

    app/services/tenant_service.py (all but the public sign-up, which needs users and is in
    Auth.v), tenant_seed_service.py, tenant_membership_service.py, permission_service.py and
    app/core/permissions.py. *)

From S2P Require Import Prelude Py Effects Schema Settings Orm AuditTrail.

(** ** Permissions *)

Inductive Permission : Type :=
  | USERS_LIST
  | USERS_READ
  | USERS_READ_SELF
  | USERS_UPDATE
  | USERS_UPDATE_SELF
  | USERS_DELETE
  | USERS_ACTIVATE
  | USERS_DEACTIVATE
  | ADMIN_ACCESS
  | AUDIT_LOGS_LIST
  | FILES_UPLOAD
  | FILES_DOWNLOAD
  | FILES_DOWNLOAD_SELF
  | FILES_DELETE
  | FILES_DELETE_SELF
  | TENANTS_LIST
  | TENANTS_PROVISION
  | TENANTS_MANAGE.
#[global] Instance Permission_eq_dec : EqDecision Permission.
Proof. solve_decision. Defined.

Definition all_permissions : list Permission :=
  [USERS_LIST; USERS_READ; USERS_READ_SELF; USERS_UPDATE; USERS_UPDATE_SELF; USERS_DELETE;
   USERS_ACTIVATE; USERS_DEACTIVATE; ADMIN_ACCESS; AUDIT_LOGS_LIST; FILES_UPLOAD;
   FILES_DOWNLOAD; FILES_DOWNLOAD_SELF; FILES_DELETE; FILES_DELETE_SELF; TENANTS_LIST;
   TENANTS_PROVISION; TENANTS_MANAGE].

Definition permission_value (p : Permission) : string :=
  match p with
  | USERS_LIST => "users.list"
  | USERS_READ => "users.read"
  | USERS_READ_SELF => "users.read.self"
  | USERS_UPDATE => "users.update"
  | USERS_UPDATE_SELF => "users.update.self"
  | USERS_DELETE => "users.delete"
  | USERS_ACTIVATE => "users.activate"
  | USERS_DEACTIVATE => "users.deactivate"
  | ADMIN_ACCESS => "admin.access"
  | AUDIT_LOGS_LIST => "audit_logs.list"
  | FILES_UPLOAD => "files.upload"
  | FILES_DOWNLOAD => "files.download"
  | FILES_DOWNLOAD_SELF => "files.download.self"
  | FILES_DELETE => "files.delete"
  | FILES_DELETE_SELF => "files.delete.self"
  | TENANTS_LIST => "tenants.list"
  | TENANTS_PROVISION => "tenants.provision"
  | TENANTS_MANAGE => "tenants.manage"
  end.

Definition USER_PERMISSIONS : list Permission :=
  [USERS_READ_SELF; USERS_UPDATE_SELF; FILES_UPLOAD; FILES_DOWNLOAD_SELF; FILES_DELETE_SELF].
Definition TENANT_ADMIN_PERMISSIONS : list Permission :=
  List.filter (fun p => negb (starts_with (chars "tenants.") (chars (permission_value p))))
    all_permissions.
Definition PLATFORM_ADMIN_PERMISSIONS : list Permission := all_permissions.

Definition ROLE_PERMISSIONS : list (string * list Permission) :=
  [("user", USER_PERMISSIONS); ("admin", TENANT_ADMIN_PERMISSIONS);
   ("platform_admin", PLATFORM_ADMIN_PERMISSIONS)]%string.

Definition ROLE_HIERARCHY : list (string * list string) :=
  [("platform_admin", ["platform_admin"; "admin"; "user"]); ("admin", ["admin"; "user"]);
   ("user", ["user"])]%string.

(** [d.get(k, frozenset())] *)
Fixpoint dict_get {A} (k : string) (d : list (string * list A)) : list A :=
  match d with
  | [] => []
  | (k', v) :: rest => if String.eqb k k' then v else dict_get k rest
  end.

Definition get_permissions_for_role (role : string) : list Permission :=
  dict_get role ROLE_PERMISSIONS.

Definition role_includes (actor_role required_role : string) : bool :=
  bool_decide (required_role ∈ dict_get actor_role ROLE_HIERARCHY).

Definition user_has_permission (user : User) (permission : Permission) : bool :=
  bool_decide (permission ∈ get_permissions_for_role (usr_role user)).

Definition user_has_any_permission (user : User) (permissions : list Permission) : bool :=
  existsb (user_has_permission user) permissions.

Definition users_share_tenant (current_user target_user : User) : bool :=
  usr_tenant_id current_user =? usr_tenant_id target_user.

Definition can_read_user (current_user target_user : User) : bool :=
  if negb (users_share_tenant current_user target_user) then false
  else if user_has_permission current_user USERS_READ then true
  else (usr_id current_user =? usr_id target_user)
       && user_has_permission current_user USERS_READ_SELF.

Definition can_update_user (current_user target_user : User) : bool :=
  if negb (users_share_tenant current_user target_user) then false
  else if user_has_permission current_user USERS_UPDATE then true
  else (usr_id current_user =? usr_id target_user)
       && user_has_permission current_user USERS_UPDATE_SELF.

(** ** Tenants *)

Definition DEFAULT_TENANT_SLUG : string := "default".
Definition DEFAULT_TENANT_NAME : string := "Default Tenant".

Section Tenants.
Context `{Config}.

Definition get_tenant_by_slug (slug : string) : PyM (option Tenant) :=
  first (fun t => String.eqb (ten_slug t) slug).

Definition get_tenant_by_id (tenant_id : Z) : PyM (option Tenant) :=
  find_pk tenant_id (fun _ => true).

(** [request.headers.get("X-Tenant-Slug", DEFAULT_TENANT_SLUG)] *)
Definition resolve_tenant_slug (header : option string) : string :=
  default DEFAULT_TENANT_SLUG header.

Definition get_active_tenant_by_slug (slug : string) : PyM Tenant :=
  tenant <- get_tenant_by_slug slug ;;
  match tenant with
  | Some t => if ten_is_active t then ret t else domain_error NotFoundError "Tenant not found"
  | None => domain_error NotFoundError "Tenant not found"
  end.

Definition get_request_tenant (header : option string) : PyM Tenant :=
  get_active_tenant_by_slug (resolve_tenant_slug header).

Definition build_tenant_cache_prefix (tenant_id : Z) : string :=
  ("tenant:" ++ string_of_Z tenant_id)%string.

Definition build_tenant_object_key_prefix (tenant_id : Z) : string :=
  ("tenants/" ++ string_of_Z tenant_id)%string.

Definition create_tenant (slug name : string) : PyM Tenant :=
  existing_tenant <- get_tenant_by_slug slug ;;
  match existing_tenant with
  | Some _ => domain_error BadRequestError "Tenant with this slug already exists"
  | None =>
      tenant <- db_insert (fun id _ => MkTenant id slug name true) ;;
      commit ;;;
      refresh tenant
  end.

(** Ordered by slug; the collation is that of code points. *)
Definition list_tenants (skip limit : Z) (include_inactive : bool) : PyM (list Tenant) :=
  l <- all (fun t => include_inactive || ten_is_active t) ;;
  ret (page skip limit (sort_leb (fun a b => String.leb (ten_slug a) (ten_slug b)) l)).

Definition update_tenant (tenant_id : Z) (name : option string) (is_active : option bool)
    : PyM (option Tenant) :=
  tenant <- get_tenant_by_id tenant_id ;;
  match tenant with
  | None => ret None
  | Some t =>
      let t := match name with Some n => t <| ten_name := n |> | None => t end in
      let t := match is_active with Some a => t <| ten_is_active := a |> | None => t end in
      save t ;;;
      commit ;;;
      t <- refresh t ;;
      ret (Some t)
  end.

Definition provision_tenant (slug name : string) (admin_id admin_tenant_id : Z) : PyM Tenant :=
  tenant <- create_tenant slug name ;;
  create_audit_log admin_tenant_id (Some admin_id) TENANT_CREATED None None None true ;;;
  ret tenant.

Definition set_tenant_active_state (tenant_id : Z) (is_active : bool)
    (admin_id admin_tenant_id : Z) : PyM (option Tenant) :=
  tenant <- update_tenant tenant_id None (Some is_active) ;;
  match tenant with
  | None => ret None
  | Some t =>
      create_audit_log admin_tenant_id (Some admin_id)
        (if is_active then TENANT_ACTIVATED else TENANT_DEACTIVATED) None None None true ;;;
      ret (Some t)
  end.

(** [_SLUG_INVALID_CHARS.sub("-", s)]: each maximal run of other characters becomes one
    hyphen. *)
Definition slug_char (c : ascii) : bool :=
  let n := N_of_ascii c in ((97 <=? n)%N && (n <=? 122)%N) || is_digit c.

Fixpoint hyphenate (in_run : bool) (l : list ascii) : list ascii :=
  match l with
  | [] => []
  | c :: l' =>
      if slug_char c then c :: hyphenate false l'
      else if in_run then hyphenate true l'
      else "-"%char :: hyphenate true l'
  end.

(** [_slugify] *)
Definition slugify (name : string) : string :=
  let slug := strip_char "-" (of_chars (hyphenate false (chars (lower (strip name))))) in
  if truthy slug then slug else "salon"%string.

(** The loop of [_unique_slug] over the suffixes left. *)
Fixpoint unique_slug_loop (base_slug : string) (suffixes : list nat) : PyM string :=
  match suffixes with
  | [] => domain_error BadRequestError
            "Could not generate a unique slug, please provide one explicitly"
  | suffix :: rest =>
      let candidate := (base_slug ++ "-" ++ string_of_Z (Z.of_nat suffix))%string in
      tenant <- get_tenant_by_slug candidate ;;
      match tenant with
      | None => ret candidate
      | Some _ => unique_slug_loop base_slug rest
      end
  end.

(** [_unique_slug] *)
Definition unique_slug (base_slug : string) : PyM string :=
  tenant <- get_tenant_by_slug base_slug ;;
  match tenant with
  | None => ret base_slug
  | Some _ => unique_slug_loop base_slug (seq 2 998)
  end.

Definition ensure_default_tenant (do_commit : bool) : PyM Tenant :=
  tenant <- get_tenant_by_slug DEFAULT_TENANT_SLUG ;;
  match tenant with
  | Some t => ret t
  | None =>
      tenant <- db_insert (fun id _ => MkTenant id DEFAULT_TENANT_SLUG DEFAULT_TENANT_NAME true) ;;
      when do_commit commit ;;;
      ret tenant
  end.

(** ** Tenant membership *)

Definition user_belongs_to_tenant (user : User) (tenant_id : Z) : bool :=
  usr_tenant_id user =? tenant_id.

Definition assert_user_belongs_to_tenant (user : User) (tenant_id : Z) : PyM unit :=
  if user_belongs_to_tenant user tenant_id then ret tt
  else domain_error ForbiddenError "Tenant access denied".

(** [user.tenant] is loaded by the foreign key. *)
Definition assert_active_tenant_membership (user : User) : PyM unit :=
  tenant <- get_tenant_by_id (usr_tenant_id user) ;;
  match tenant with
  | Some t => if ten_is_active t then ret tt
              else domain_error ForbiddenError "Tenant access denied"
  | None => domain_error ForbiddenError "Tenant access denied"
  end.

Definition assert_request_tenant_matches_user (user : User) (request_tenant : Tenant)
    : PyM unit :=
  if usr_tenant_id user =? ten_id request_tenant then ret tt
  else domain_error ForbiddenError "Tenant access denied".
End Tenants.

Example slugify_forms : map slugify ["  Salon Urody & Spa!  "; "---"; "A1"]%string
  = ["salon-urody-spa"; "salon"; "a1"]%string.
Proof. vm_compute. reflexivity. Qed.
