(* ===== verification/Users.v ===== *)
(** * Users: app/services/user_service.py without the listing, and app/core/cache.py

    A user carries a [token_version]; every token names the version it was issued for, so
    that increasing it revokes them all.  Cached listings are invalidated by a version
    counter in Redis.  Redis is taken to be reachable: the branches for [RedisError] are
    reached only by a value of the wrong kind. *)

From S2P Require Import Prelude Py Effects Schema Settings Orm AuditTrail JobQueue Tenancy.

(** ** Plain Redis keys *)

(** INCR: a missing key counts from 0 and has no expiry; [None] when the value is not a
    number. *)
Definition incr (now : Z) (k : string) (r : Redis) : option Z * Redis :=
  match live_key now k r with
  | None => (Some 1, r <| r_keys ::= <[k := (RInt 1, None)]> |>)
  | Some (RInt n) =>
      (Some (n + 1), r <| r_keys ::= <[k := (RInt (n + 1), default None (snd <$> r_keys r !! k))]> |>)
  | Some (RUsersPage _ _) => (None, r)
  end.

(** EXPIRE on an existing key. *)
Definition expire (now : Z) (k : string) (ttl_us : Z) (r : Redis) : Redis :=
  match live_key now k r with
  | Some v => set_ex k v ttl_us now r
  | None => r
  end.

Section Cache.
Context `{Config}.

Definition get_json_cache (key : string) : PyM (option redis_value) :=
  now <- now_utc ;; asks (fun w => live_key now key (w_redis w)).

Definition set_json_cache (key : string) (value : redis_value) (ttl_seconds : Z) : PyM unit :=
  now <- now_utc ;; redis_ (set_ex key value (timedelta_seconds ttl_seconds) now).

Definition get_cache_version (version_key : string) : PyM Z :=
  now <- now_utc ;;
  cached_version <- asks (fun w => live_key now version_key (w_redis w)) ;;
  match cached_version with
  | None => ret 0
  | Some (RInt n) => ret n
  | Some (RUsersPage _ _) => raise (ValueError "invalid literal for int()")
  end.

Definition increment_cache_version (version_key : string) : PyM (option Z) :=
  now <- now_utc ;; redis (incr now version_key).
End Cache.

(** ** Users *)

Definition USERS_LIST_CACHE_NAMESPACE : string := "users:list:v1".
Definition USERS_LIST_CACHE_VERSION_SUFFIX : string := "users:list:version".

Definition build_users_list_cache_version_key (tenant_id : Z) : string :=
  (build_tenant_cache_prefix tenant_id ++ ":" ++ USERS_LIST_CACHE_VERSION_SUFFIX)%string.

(** [UserRole] *)
Inductive UserRole : Type :=
  | role_user
  | role_admin
  | role_platform_admin.
Definition role_value (r : UserRole) : string :=
  match r with
  | role_user => "user"
  | role_admin => "admin"
  | role_platform_admin => "platform_admin"
  end.

(** [UserAdminUpdate] and [UserSelfUpdate]: the outer option is whether the member was
    sent, the inner one whether it is null. *)
Record UserAdminUpdate : Type := MkUserAdminUpdate {
  uau_email : option (option string);
  uau_is_active : option (option bool);
  uau_role : option (option UserRole) }.

Definition UserSelfUpdate (u : UserAdminUpdate) : UserAdminUpdate :=
  MkUserAdminUpdate (uau_email u) None None.

Definition UserRead_of (u : User) : UserRead :=
  MkUserRead (usr_id u) (usr_email u) (usr_is_active u) (usr_role u) (usr_is_demo_user u).

Section Users.
Context `{Config}.

Definition invalidate_users_list_cache (tenant_id : Z) : PyM unit :=
  increment_cache_version (build_users_list_cache_version_key tenant_id) ;;; ret tt.

Definition increment_user_token_version (user : User) : PyM User :=
  let user := user <| usr_token_version ::= Z.add 1 |> in
  save user ;;;
  commit ;;;
  user <- refresh user ;;
  invalidate_users_list_cache (usr_tenant_id user) ;;;
  ret user.

Definition get_user_by_id (user_id tenant_id : Z) : PyM (option User) :=
  find_pk user_id (fun u => usr_tenant_id u =? tenant_id).

(** [setattr] of one member; the columns are NOT NULL. *)
Definition set_column {A} (column : string) (v : option (option A)) (set : A -> User -> User)
    (u : User) : Result Exn User :=
  match v with
  | None => Ok u
  | Some None => Raise (IntegrityError column)
  | Some (Some a) => Ok (set a u)
  end.

Definition updated_user (u : UserAdminUpdate) (user : User) : Result Exn User :=
  match set_column "email" (uau_email u) (fun v r => r <| usr_email := v |>) user with
  | Raise e => Raise e
  | Ok r =>
      match set_column "is_active" (uau_is_active u) (fun v r => r <| usr_is_active := v |>) r with
      | Raise e => Raise e
      | Ok r => set_column "role" (uau_role u) (fun v r => r <| usr_role := role_value v |>) r
      end
  end.

(** ["role" in update_data and update_data["role"] != user.role] *)
Definition should_invalidate_tokens (u : UserAdminUpdate) (user : User) : bool :=
  match uau_role u with
  | Some (Some r) => negb (String.eqb (role_value r) (usr_role user))
  | Some None => true
  | None => false
  end.

(** The flush that checks the columns comes with the commit or instead of it. *)
Definition update_user (user : User) (user_update : UserAdminUpdate) (do_commit : bool)
    : PyM User :=
  updated <- lift_result (updated_user user_update user) ;;
  let updated := if should_invalidate_tokens user_update user
                 then updated <| usr_token_version ::= Z.add 1 |> else updated in
  db_update updated ;;;
  if do_commit then
    commit ;;;
    updated <- refresh updated ;;
    invalidate_users_list_cache (usr_tenant_id updated) ;;;
    ret updated
  else ret updated.

(** [db.delete(user)]: the reset tokens go with the user (a cascade of the ORM), and so do
    the uploaded files (ON DELETE CASCADE). *)
Definition delete_user (user : User) (do_commit : bool) : PyM unit :=
  let tenant_id := usr_tenant_id user in
  delete_where (fun t => prt_user_id t =? usr_id user) ;;;
  db_delete user ;;;
  delete_where (fun f => upl_owner_id f =? usr_id user) ;;;
  if do_commit then commit ;;; invalidate_users_list_cache tenant_id else ret tt.

(** The common part of [deactivate_user] and [activate_user]. *)
Definition set_user_activity (change : User -> User) (user_id tenant_id : Z) (do_commit : bool)
    : PyM (option User) :=
  user <- get_user_by_id user_id tenant_id ;;
  match user with
  | None => ret None
  | Some u =>
      let u := change u in
      save u ;;;
      if do_commit then
        commit ;;;
        u <- refresh u ;;
        invalidate_users_list_cache tenant_id ;;;
        ret (Some u)
      else ret (Some u)
  end.

Definition deactivate_user : Z -> Z -> bool -> PyM (option User) :=
  set_user_activity (fun u => u <| usr_is_active := false |> <| usr_token_version ::= Z.add 1 |>).

Definition activate_user : Z -> Z -> bool -> PyM (option User) :=
  set_user_activity (fun u => u <| usr_is_active := true |>).
End Users.
