(* ===== verification/QueueInvariant.v ===== *)
(** * QueueInvariant: what the job queues always satisfy

    [sound_queues]: every document in Redis is a serialized job, no job is held twice, and the
    ids of all jobs were drawn before.  The operations of JobQueue.v keep it, and commands on
    plain keys do not concern it. *)

From S2P Require Import Prelude Py Effects Schema Settings Orm JobQueue Frames Tenancy Users.

(** ** Commands on plain keys *)

Definition keys_only (r r' : Redis) : Prop := r_lists r' = r_lists r /\ r_zsets r' = r_zsets r.

Lemma keys_set_ex k v ttl now r : keys_only r (set_ex k v ttl now r).
Proof. done. Qed.
Lemma keys_del_key k r : keys_only r (del_key k r).
Proof. done. Qed.
Lemma keys_set_nx_ex k ttl now r : keys_only r (set_nx_ex k ttl now r).2.
Proof. unfold set_nx_ex. by destruct (live_key _ _ _). Qed.
Lemma keys_incr now k r : keys_only r (incr now k r).2.
Proof. unfold incr. by destruct (live_key _ _ _) as [[]|]. Qed.
Lemma keys_expire now k ttl r : keys_only r (expire now k ttl r).
Proof. unfold expire. by destruct (live_key _ _ _). Qed.
#[global] Hint Resolve keys_set_ex keys_del_key keys_set_nx_ex keys_incr keys_expire : ledger.

Lemma keys_documents r r' : keys_only r r' -> documents r' = documents r.
Proof. intros [Hl Hz]. unfold documents. by rewrite Hl, Hz. Qed.

(** ** The invariant *)

(** The ids that [uuid7] draws are different. *)
Class DistinctIds `{Config} : Prop := { uuid_inj : Inj (=) (=) uuid_str }.

Lemma default_ids offset : @DistinctIds (config_with_offset offset).
Proof.
  constructor. intros a b Heq. cbn in Heq. injection Heq as Heq. by apply string_of_Z_inj.
Qed.

Section Sound.
Context `{Config}.

Definition drawn (n : Z) (id : string) : Prop := exists k, k < n /\ id = uuid_str k.

Definition sound_queues (w : World) : Prop :=
  queues_ok (w_redis w) /\ forall id, id ∈ job_ids (w_redis w) -> drawn (w_entropy w) id.

(** Only the documents and the ids drawn so far matter. *)
Lemma sound_same w w' :
  documents (w_redis w') ≡ₚ documents (w_redis w) -> w_entropy w <= w_entropy w' ->
  sound_queues w -> sound_queues w'.
Proof.
  intros Hd He [[Hv Hnd] Hi].
  assert (Hp : job_ids (w_redis w') ≡ₚ job_ids (w_redis w)) by (unfold job_ids; by rewrite Hd).
  unfold sound_queues, queues_ok. rewrite Hp. split; [split; [|exact Hnd]|].
  - intros raw Hr. apply Hv. by rewrite <- Hd.
  - intros id Hid. rewrite Hp in Hid. destruct (Hi id Hid) as (k & Hk & ->).
    exists k. split; [lia | done].
Qed.

(** Leaving one out. *)
Lemma sound_less w w' raw :
  raw :: documents (w_redis w') ≡ₚ documents (w_redis w) -> w_entropy w' = w_entropy w ->
  sound_queues w -> sound_queues w'.
Proof.
  intros Hd He [[Hv Hnd] Hi].
  assert (Hp : raw_id raw :: job_ids (w_redis w') ≡ₚ job_ids (w_redis w))
    by (unfold job_ids; by rewrite <- Hd).
  unfold sound_queues, queues_ok. rewrite He. rewrite <- Hp in Hnd. apply NoDup_cons in Hnd as [_ Hnd].
  split; [split; [|exact Hnd]|].
  - intros r Hr. apply Hv. rewrite <- Hd. by apply elem_of_cons; right.
  - intros id Hid. apply Hi. rewrite <- Hp. by apply elem_of_cons; right.
Qed.

Lemma sound_enqueue `{!DistinctIds} t p : triple sound_queues (enqueue_job t p) (fun _ => sound_queues) no_error.
Proof.
  intros w [[Hv Hnd] Hi]. unfold enqueue_job, fresh_uuid, bind, asks, redis_, modify, ret.
  cbv beta iota zeta. set (job := MkJob _ _ _ _ _ _ _ _).
  set (r := lpush (queue_name_for_job_type t) (to_json job) (w_redis w)).
  assert (Hd : documents r ≡ₚ to_json job :: documents (w_redis w)) by apply documents_lpush.
  assert (Hp : job_ids r ≡ₚ uuid_str (w_entropy w) :: job_ids (w_redis w)).
  { unfold job_ids. rewrite Hd. simpl. by rewrite raw_id_to_json. }
  lazymatch goal with |- sound_queues ?w' =>
    assert (w_redis w' = r /\ w_entropy w' = 1 + w_entropy w) as [Hr He] by done end.
  unfold sound_queues, queues_ok. rewrite Hr, He, Hp. split; [split|].
  - intros raw Hraw. rewrite Hd in Hraw. apply elem_of_cons in Hraw as [->|Hraw]; eauto.
  - apply NoDup_cons. split; [|exact Hnd]. intros (k & Hk & Heq)%Hi. apply uuid_inj in Heq. lia.
  - intros id Hid. rewrite Hp in Hid.
    apply elem_of_cons in Hid as [->|Hid]; [exists (w_entropy w); split; [lia | done]|].
    destruct (Hi id Hid) as (k & Hk & ->). exists k. split; [lia | done].
Qed.

(** ** The moves of a job *)

Definition steady {A} (m : PyM A) : Prop := forall n, keeps (fun w => w_entropy w = n) m.

Lemma steady_redis {A} n (cmd : Redis -> A * Redis) : keeps (fun w => w_entropy w = n) (redis cmd).
Proof. intros w Hw. unfold redis. by destruct (cmd (w_redis w)). Qed.
Lemma steady_redis_ n cmd : keeps (fun w => w_entropy w = n) (redis_ cmd).
Proof. by apply triple_modify. Qed.
Local Hint Resolve steady_redis steady_redis_ : ledger.

(** An operation that conserves the jobs keeps the queues sound and never raises. *)
Lemma conserving_sound {A} (I : World -> Prop) (m : PyM A) :
  (forall ids, NoDup ids -> triple (fun w => Holds ids w /\ I w) m (fun _ => Holds ids) no_error) ->
  steady m ->
  triple (fun w => sound_queues w /\ I w) m (fun _ => sound_queues) no_error.
Proof.
  intros Hm Hs w [[Hok Hi] HI]. pose proof Hok as [Hh Hnd]%queues_ok_holds.
  pose proof (Hm _ Hnd w (conj Hh HI)) as Ht. pose proof (Hs _ w eq_refl) as Hw.
  destruct (m w) as [[a|e] w']; [|done]. destruct Ht as [Hv Hp]. unfold sound_queues, queues_ok.
  rewrite Hw. split; [split; [exact Hv | by rewrite Hp]|]. intros id Hid. apply Hi. by rewrite <- Hp.
Qed.

Lemma conserving {A} (m : PyM A) :
  (forall ids, NoDup ids -> triple (Holds ids) m (fun _ => Holds ids) no_error) -> steady m ->
  triple sound_queues m (fun _ => sound_queues) no_error.
Proof.
  intros Hm Hs. eapply triple_conseq; [apply (conserving_sound (fun _ => True) m); [|done] | done..].
  intros ids Hnd w [Hw _]. by apply Hm.
Qed.

(** The job that is handed out lies on the processing list. *)
Lemma dequeued_in_processing q w j w' : dequeue_job q w = (Ok (Some j), w') -> in_processing j w'.
Proof.
  assert (Hin : forall raw r, raw ∈ get_list worker_processing_queue_name
                                (lpush worker_processing_queue_name raw r)).
  { intros raw r. unfold get_list, lpush. simpl. rewrite lookup_insert_eq. by left. }
  unfold dequeue_job, bind, redis, brpoplpush, in_processing.
  destruct (rpop q (w_redis w)) as [[raw|] r]; [|done].
  destruct (from_json raw) as [job|e]; [|done]. cbn [lift_result ret].
  unfold now_utc, asks. destruct (decide _) as [Heq|Hne].
  - unfold ret. intros [= <- <-]. simpl in Heq |- *. rewrite Heq. apply Hin.
  - destruct (lrem _ _ _) as [b r']. unfold redis_, modify, ret. intros [= <- <-]. apply Hin.
Qed.

Lemma sound_dequeue q :
  triple sound_queues (dequeue_job q)
    (fun o w => sound_queues w /\ match o with Some j => in_processing j w | None => True end) no_error.
Proof.
  intros w Hw. pose proof (dequeued_in_processing q w) as Hin.
  assert (Ht : triple sound_queues (dequeue_job q) (fun _ => sound_queues) no_error).
  { apply conserving; [intros ids _; apply dequeue_holds|]. intros n. unfold dequeue_job. keeps_steps. }
  specialize (Ht w Hw). destruct (dequeue_job q w) as [[[j|]|e] w']; [|done|done].
  split; [done|]. by apply Hin.
Qed.

Lemma sound_retry j message :
  triple (fun w => sound_queues w /\ in_processing j w) (schedule_retry j message)
    (fun _ => sound_queues) no_error.
Proof.
  apply conserving_sound; [intros ids Hnd; by apply schedule_retry_holds|].
  intros n. unfold schedule_retry. keeps_steps.
Qed.
Lemma sound_failed j error :
  triple (fun w => sound_queues w /\ in_processing j w) (move_job_to_failed_queue j error)
    (fun _ => sound_queues) no_error.
Proof.
  apply conserving_sound; [intros ids _; apply move_to_failed_holds|].
  intros n. unfold move_job_to_failed_queue. keeps_steps.
Qed.
Lemma sound_promote limit :
  triple sound_queues (promote_delayed_jobs limit) (fun _ => sound_queues) no_error.
Proof.
  apply conserving; [intros ids _; apply promote_holds|].
  intros n. unfold promote_delayed_jobs, promote_one. keeps_steps.
Qed.
Lemma sound_reclaim : triple sound_queues reclaim_stale_processing_jobs (fun _ => sound_queues) no_error.
Proof.
  apply conserving; [intros ids _; apply reclaim_holds|].
  intros n. unfold reclaim_stale_processing_jobs, reclaim_one. keeps_steps.
Qed.
Lemma sound_requeue limit :
  (forall t, queue_name_for_job_type t <> worker_failed_queue_name) ->
  triple sound_queues (requeue_failed_jobs limit) (fun _ => sound_queues) no_error.
Proof.
  intros Hne. apply conserving; [intros ids _; by apply requeue_failed_holds|].
  assert (Hl : forall m k, steady (requeue_failed_loop m limit k)).
  { intros m. induction m as [|m IH]; intros k n; simpl; [apply keeps_raise|].
    pose proof (fun k' => IH k' n) as IHn. keeps_steps. }
  intros n. unfold requeue_failed_jobs. pose proof (fun m k => Hl m k n) as Hln. keeps_steps.
Qed.

Lemma sound_ack j :
  triple (fun w => sound_queues w /\ in_processing j w) (ack_job j) (fun _ => sound_queues) no_error.
Proof.
  intros w [Hw Hin]. pose proof (documents_lrem _ _ _ Hin) as Hd. unfold ack_job, bind, redis.
  destruct (lrem _ _ _) as [b r]. by apply (sound_less w _ (to_json j)).
Qed.

Lemma sound_list limit : triple sound_queues (list_failed_jobs limit) (fun _ => sound_queues) no_error.
Proof.
  unfold list_failed_jobs. eapply triple_bind.
  - apply triple_asks with (Q := fun l w => sound_queues w /\ forall raw, raw ∈ l -> exists j, raw = to_json j).
    intros w Hw. split; [done|]. intros raw Hr. apply Hw.
    apply (in_list_documents worker_failed_queue_name). by eapply subseteq_take.
  - intros l w [Hw Hl]. revert w Hw.
    change (triple sound_queues (map_m l (fun raw => lift_result (from_json raw)))
              (fun _ => sound_queues) no_error).
    induction l as [|raw l IH]; simpl; [by apply triple_ret|].
    destruct (Hl raw ltac:(by left)) as [j ->]. eapply triple_bind with (R := fun _ => sound_queues).
    + rewrite from_to_json. by apply triple_ret.
    + intros b. eapply triple_bind with (R := fun _ => sound_queues); [|intros bs; by apply triple_ret].
      apply IH. intros r Hr. apply Hl. by right.
Qed.
End Sound.
