(* ===== verification/RateLimit.v ===== *)
(** * RateLimit: app/api/dependencies/rate_limit.py and app/core/client_ip.py

    A limiter counts the requests of a client in Redis under a key that expires with the
    window. *)

From S2P Require Import Prelude Py Effects Schema Settings Orm JobQueue Users.

(** What a request says about where it comes from. *)
Record Peer : Type := MkPeer {
  x_forwarded_for : option string;
  x_real_ip : option string;
  client_host : option string }.

Section RateLimit.
Context `{Config}.

Definition get_client_ip (request : Peer) : string :=
  let direct := default "unknown"%string (client_host request) in
  if rate_limit_trust_forwarded_headers then
    if opt_truthy (x_forwarded_for request)
    then strip (of_chars (hd [] (split_on "," (chars (default ""%string (x_forwarded_for request))))))
    else if opt_truthy (x_real_ip request) then strip (default ""%string (x_real_ip request))
    else direct
  else direct.

Definition enforce_rate_limit_counter (key : string) (limit window_seconds : Z) : PyM unit :=
  now <- now_utc ;;
  count <- redis (incr now key) ;;
  match count with
  | None => raise (HTTPException 503 "Service temporarily unavailable")
  | Some current_count =>
      when (current_count =? 1) (redis_ (expire now key (timedelta_seconds window_seconds))) ;;;
      if limit <? current_count then raise (HTTPException 429 "Too many requests") else ret tt
  end.

(** The dependency that [rate_limit] returns. *)
Definition rate_limit (limit window_seconds : option Z) (key_prefix : string) (request : Peer)
    : PyM unit :=
  let effective_limit := default rate_limit_default_limit limit in
  let effective_window_seconds := default rate_limit_default_window_seconds window_seconds in
  enforce_rate_limit_counter (key_prefix ++ ":" ++ get_client_ip request)%string effective_limit
    effective_window_seconds.

Definition auth_login_rate_limit : Peer -> PyM unit :=
  rate_limit (Some auth_login_rate_limit_limit) (Some auth_login_rate_limit_window_seconds)
    "rate_limit:auth_login".
Definition auth_register_rate_limit : Peer -> PyM unit :=
  rate_limit (Some auth_register_rate_limit_limit) (Some auth_register_rate_limit_window_seconds)
    "rate_limit:auth_register".
Definition tenant_signup_rate_limit : Peer -> PyM unit :=
  rate_limit (Some tenant_signup_rate_limit_limit) (Some tenant_signup_rate_limit_window_seconds)
    "rate_limit:tenant_signup".
Definition auth_refresh_rate_limit : Peer -> PyM unit :=
  rate_limit (Some auth_refresh_rate_limit_limit) (Some auth_refresh_rate_limit_window_seconds)
    "rate_limit:auth_refresh".
Definition auth_logout_rate_limit : Peer -> PyM unit :=
  rate_limit (Some auth_logout_rate_limit_limit) (Some auth_logout_rate_limit_window_seconds)
    "rate_limit:auth_logout".
Definition auth_demo_rate_limit : Peer -> PyM unit :=
  rate_limit (Some auth_demo_rate_limit_limit) (Some auth_demo_rate_limit_window_seconds)
    "rate_limit:auth_demo".

(** The route puts the e-mail address of the body in the request. *)
Definition password_reset_rate_limit (request : Peer) (email : string) : PyM unit :=
  let email_hash := sha256_hex (lower email) in
  enforce_rate_limit_counter
    ("rate_limit:password_reset:" ++ get_client_ip request ++ ":" ++ email_hash)%string
    password_reset_rate_limit_limit password_reset_rate_limit_window_seconds.

Definition webhook_ingress_rate_limit (request : Peer) : PyM unit :=
  enforce_rate_limit_counter ("rate_limit:webhook_ingress:" ++ get_client_ip request)%string
    webhook_ingress_rate_limit_limit webhook_ingress_rate_limit_window_seconds.

Definition enforce_webhook_provider_rate_limit (provider : string) : PyM unit :=
  let normalized_provider := lower (strip provider) in
  if String.eqb normalized_provider "" then ret tt
  else enforce_rate_limit_counter ("rate_limit:webhook_provider:" ++ normalized_provider)%string
         webhook_provider_rate_limit_limit webhook_provider_rate_limit_window_seconds.
End RateLimit.
