(* ===== verification/Auth.v ===== *)
(** * Auth: who is calling

    app/core/security.py, the refresh-token revocation of app/core/redis.py,
    app/services/auth_service.py, app/api/dependencies/auth.py, the demo guard of
    app/core/demo_guard.py and the public sign-up of tenant_service.py.

    A token is a string that jose signs; [jwt_verify] checks the signature and gives the
    claims back, and [decode_token] adds jose's check of the expiry claim.  The claims
    are a JSON object, as the code reads them. *)

From S2P Require Import Prelude Py Effects Schema Settings Orm AuditTrail Directory JobQueue.
From S2P Require Import Tenancy Users.

Section Security.
Context `{Config}.

(** A draw of randomness. *)
Definition draw {A} (f : Z -> A) : PyM A :=
  fun w => (Ok (f (w_entropy w)), w <| w_entropy ::= Z.succ |>).

Definition hash_password (password : string) : PyM string :=
  draw (fun salt => bcrypt_hash salt password).

Definition verify_password (plain_password hashed_password : string) : bool :=
  bcrypt_verify plain_password hashed_password.

Definition generate_password_reset_token : PyM string := draw token_urlsafe.

Definition hash_password_reset_token (token : string) : string :=
  hmac_sha256_hex secret_key token.

(** The claims of a token; jose stores the expiry in whole seconds. *)
Definition claims (subject : string) (tenant_id token_version expire : Z) (type jti : string)
    : json_object :=
  [("sub", JStr subject); ("tenant_id", JInt tenant_id); ("token_version", JInt token_version);
   ("exp", JInt (expire / second_us)); ("type", JStr type); ("jti", JStr jti)]%string.

Definition create_access_token (subject : string) (tenant_id token_version : Z)
    (is_public_demo : bool) : PyM string :=
  now <- now_utc ;;
  jti <- fresh_uuid ;;
  let expire := now + timedelta_minutes access_token_expire_minutes in
  let payload := claims subject tenant_id token_version expire "access" jti in
  let payload := if is_public_demo then payload ++ [("is_public_demo"%string, JBool true)]
                 else payload in
  ret (jwt_encode secret_key payload).

Definition create_refresh_token (subject : string) (tenant_id token_version : Z) : PyM string :=
  now <- now_utc ;;
  jti <- fresh_uuid ;;
  let expire := now + timedelta_days refresh_token_expire_days in
  ret (jwt_encode secret_key (claims subject tenant_id token_version expire "refresh" jti)).

(** jose refuses a token whose [exp] is not a number or lies before the current second. *)
Definition token_live (now : Z) (payload : json_object) : bool :=
  match json_get "exp" payload with
  | None => true
  | Some (JInt e) => now / second_us <=? e
  | Some _ => false
  end.

Definition decode_token (token : string) : PyM json_object :=
  now <- now_utc ;;
  match jwt_verify secret_key token with
  | Some payload => if token_live now payload then ret payload else raise JWTError
  | None => raise JWTError
  end.

(** [int(v)] and [if not v] for a claim. *)
Definition claim_int (v : json) : Result Exn Z :=
  match v with
  | JInt z => Ok z
  | JBool b => Ok (if b then 1 else 0)
  | JStr s => match py_int s with Some z => Ok z | None => Raise (ValueError "invalid literal") end
  | JTime _ => Raise (ValueError "invalid literal")
  | JNull | JObj _ => Raise TypeError
  end.

Definition claim_truthy (v : option json) : bool :=
  match v with
  | None | Some JNull => false
  | Some (JBool b) => b
  | Some (JInt z) => negb (z =? 0)
  | Some (JStr s) => truthy s
  | Some (JTime _) => true
  | Some (JObj fields) => negb (bool_decide (fields = []))
  end.

(** [v is None] for [payload.get(k)]. *)
Definition claim_none (v : option json) : bool :=
  match v with None | Some JNull => true | Some _ => false end.

(** ** Revocation of refresh tokens *)

(** [f"revoked_refresh_token:{jti}"]; a token identifier is a string. *)
Definition revoked_key (jti : string) : string := ("revoked_refresh_token:" ++ jti)%string.

Definition revoke_refresh_token (jti : string) (expires_at : Z) (require_new : bool) : PyM bool :=
  now <- now_utc ;;
  let ttl_seconds := expires_at - now / second_us in
  if ttl_seconds <=? 0 then ret (negb require_new)
  else if require_new then redis (set_nx_ex (revoked_key jti) (timedelta_seconds ttl_seconds) now)
  else redis_ (set_ex (revoked_key jti) (RInt 1) (timedelta_seconds ttl_seconds) now) ;;; ret true.

Definition is_refresh_token_revoked (jti : string) : PyM bool :=
  now <- now_utc ;; asks (fun w => negb (is_none (live_key now (revoked_key jti) (w_redis w)))).
End Security.

Section AuthService.
Context `{Config}.

Definition get_user_by_email (email : string) (tenant_id : Z) : PyM (option User) :=
  first (fun u => String.eqb (usr_email u) email && (usr_tenant_id u =? tenant_id)).

Definition create_user (email password : string) (tenant_id : Z) (role : string) : PyM User :=
  existing_user <- get_user_by_email email tenant_id ;;
  match existing_user with
  | Some _ => domain_error BadRequestError "User with this email already exists"
  | None =>
      hashed_password <- hash_password password ;;
      user <- db_insert (fun id _ => MkUser id tenant_id email hashed_password true role 0 false) ;;
      commit ;;;
      user <- refresh user ;;
      invalidate_users_list_cache tenant_id ;;;
      ret user
  end.

Definition authenticate_user (email password : string) (tenant_id : Z) : PyM User :=
  user <- get_user_by_email email tenant_id ;;
  match user with
  | None => domain_error UnauthorizedError "Invalid email or password"
  | Some u =>
      if negb (verify_password password (usr_hashed_password u))
      then domain_error UnauthorizedError "Invalid email or password"
      else if negb (usr_is_active u) then domain_error UnauthorizedError "Inactive user"
      else ret u
  end.

(** The two tokens of a session of [user]. *)
Definition issue_tokens (user : User) (is_public_demo : bool) : PyM (string * string) :=
  access_token <- create_access_token (string_of_Z (usr_id user)) (usr_tenant_id user)
                    (usr_token_version user) is_public_demo ;;
  refresh_token <- create_refresh_token (string_of_Z (usr_id user)) (usr_tenant_id user)
                     (usr_token_version user) ;;
  ret (access_token, refresh_token).

Definition create_demo_session : PyM (string * string) :=
  if negb public_demo_enabled then domain_error NotFoundError "Public demo is not enabled"
  else
    let email := strip public_demo_user_email in
    if negb (truthy email) then
      domain_error NotFoundError "Demo is not configured: PUBLIC_DEMO_USER_EMAIL is not set"
    else if public_demo_business_id <=? 0 then
      domain_error NotFoundError "Demo is not configured: PUBLIC_DEMO_BUSINESS_ID is not set"
    else
      user <- first (fun u => String.eqb (usr_email u) email && usr_is_demo_user u
                              && usr_is_active u) ;;
      match user with
      | None => domain_error NotFoundError "Demo user not found or not configured"
      | Some u =>
          business <- get_business public_demo_business_id (usr_tenant_id u) ;;
          match business with
          | None => domain_error NotFoundError
                      "Demo business not found or not accessible to demo user"
          | Some _ => issue_tokens u true
          end
      end.

Definition login_user (email password : string) (tenant_id : Z) : PyM (string * string) :=
  user <- authenticate_user email password tenant_id ;;
  issue_tokens user false.

(** [_decode_refresh_token]; the identifier and expiry it was checked for come with the
    payload. *)
Definition decode_refresh_token (refresh_token : string) : PyM (json_object * string * Z) :=
  payload <- catch (decode_token refresh_token) (fun e =>
    match e with
    | JWTError => Some (domain_error UnauthorizedError "Invalid refresh token")
    | _ => None
    end) ;;
  if negb (bool_decide (json_get "type" payload = Some (JStr "refresh")))
  then domain_error UnauthorizedError "Invalid token type"
  else if negb (claim_truthy (json_get "jti" payload)) || negb (claim_truthy (json_get "exp" payload))
          || claim_none (json_get "tenant_id" payload) || claim_none (json_get "token_version" payload)
  then domain_error UnauthorizedError "Invalid refresh token"
  else
    match json_get "jti" payload, json_get "exp" payload with
    | Some (JStr jti), Some (JInt expires_at) =>
        revoked <- is_refresh_token_revoked jti ;;
        if revoked then domain_error UnauthorizedError "Refresh token has been revoked"
        else ret (payload, jti, expires_at)
    | _, _ => raise TypeError
    end.

(** [_get_active_user_from_refresh_payload] *)
Definition get_active_user_from_refresh_payload (payload : json_object) : PyM User :=
  match json_get "sub" payload, json_get "tenant_id" payload with
  | Some user_id, Some tenant_id =>
      if claim_none (Some user_id) || claim_none (Some tenant_id)
      then domain_error UnauthorizedError "Invalid refresh token"
      else
        ids <- catch (u <- lift_result (claim_int user_id) ;;
                      t <- lift_result (claim_int tenant_id) ;; ret (u, t)) (fun e =>
          match e with
          | ValueError _ => Some (domain_error UnauthorizedError "Invalid refresh token")
          | _ => None
          end) ;;
        user <- find_pk ids.1 (fun u => usr_tenant_id u =? ids.2) ;;
        match user with
        | None => domain_error UnauthorizedError "User not found or inactive"
        | Some u =>
            if negb (usr_is_active u) then
              domain_error UnauthorizedError "User not found or inactive"
            else
              assert_active_tenant_membership u ;;;
              if bool_decide (json_get "token_version" payload = Some (JInt (usr_token_version u)))
              then ret u
              else domain_error UnauthorizedError "Refresh token has been revoked"
        end
  | _, _ => domain_error UnauthorizedError "Invalid refresh token"
  end.

Definition rotate_refresh_token (refresh_token : string) : PyM (string * string) :=
  decoded <- decode_refresh_token refresh_token ;;
  let '(payload, jti, expires_at) := decoded in
  user <- get_active_user_from_refresh_payload payload ;;
  revoked_now <- revoke_refresh_token jti expires_at true ;;
  if negb revoked_now then domain_error UnauthorizedError "Refresh token has been revoked"
  else issue_tokens user (usr_is_demo_user user).

Definition logout_user (refresh_token : string) : PyM unit :=
  decoded <- decode_refresh_token refresh_token ;;
  let '(payload, jti, expires_at) := decoded in
  revoke_refresh_token jti expires_at false ;;;
  ret tt.
End AuthService.

(** ** app/api/dependencies/auth.py *)

Section Dependencies.
Context `{Config}.

Definition credentials_exception {A} : PyM A :=
  raise (HTTPException 401 "Could not validate credentials").

(** [get_current_user]: the bearer token and the [X-Tenant-Slug] header. *)
Definition get_current_user (token : string) (requested_slug : option string) : PyM User :=
  ids <- catch
    (payload <- decode_token token ;;
     match json_get "sub" payload, json_get "tenant_id" payload,
           json_get "token_version" payload with
     | Some user_id, Some tenant_id, Some token_version =>
         if negb (bool_decide (json_get "type" payload = Some (JStr "access")))
            || claim_none (Some user_id) || claim_none (Some tenant_id)
            || claim_none (Some token_version)
         then credentials_exception
         else
           u <- lift_result (claim_int user_id) ;;
           t <- lift_result (claim_int tenant_id) ;;
           v <- lift_result (claim_int token_version) ;;
           ret (u, t, v)
     | _, _, _ => credentials_exception
     end)
    (fun e => match e with
              | JWTError | ValueError _ => Some credentials_exception
              | _ => None
              end) ;;
  let '(parsed_user_id, parsed_tenant_id, parsed_token_version) := ids in
  user <- find_pk parsed_user_id (fun u => usr_tenant_id u =? parsed_tenant_id) ;;
  match user with
  | None => credentials_exception
  | Some u =>
      if negb (usr_is_active u) then credentials_exception
      else if negb (usr_token_version u =? parsed_token_version) then credentials_exception
      else
        assert_active_tenant_membership u ;;;
        match requested_slug with
        | None => ret u
        | Some slug =>
            request_tenant <- get_active_tenant_by_slug slug ;;
            assert_request_tenant_matches_user u request_tenant ;;;
            ret u
        end
  end.

Definition forbidden {A} : PyM A := raise (HTTPException 403 "Insufficient permissions").

Definition require_permission (permissions : list Permission) (current_user : User) : PyM User :=
  if user_has_any_permission current_user permissions then ret current_user else forbidden.

Definition require_role (required_role : string) (current_user : User) : PyM User :=
  if role_includes (usr_role current_user) required_role then ret current_user else forbidden.

Definition require_non_demo_user (current_user : User) : PyM User :=
  if usr_is_demo_user current_user
  then raise (HTTPException 403 "This action is not available in the public demo.")
  else ret current_user.

(** [_MEMBERSHIP_ROLE_HIERARCHY] and [_membership_role_includes] *)
Definition MEMBERSHIP_ROLE_HIERARCHY (role : MembershipRole) : list MembershipRole :=
  match role with
  | OWNER => [OWNER; ADMIN; STAFF]
  | ADMIN => [ADMIN; STAFF]
  | STAFF => [STAFF]
  end.
Definition membership_role_includes (actor_role required_role : MembershipRole) : bool :=
  bool_decide (required_role ∈ MEMBERSHIP_ROLE_HIERARCHY actor_role).

Definition require_business_role (min_role : MembershipRole) (business_id : Z)
    (current_user : User) : PyM User :=
  if String.eqb (usr_role current_user) "admin"
     || String.eqb (usr_role current_user) "platform_admin" then ret current_user
  else
    membership <- first (fun m => (mem_tenant_id m =? usr_tenant_id current_user)
      && (mem_business_id m =? business_id) && (mem_user_id m =? usr_id current_user)
      && bool_decide (mem_status m = ACTIVE)) ;;
    match membership with
    | Some m => if membership_role_includes (mem_role m) min_role then ret current_user
                else forbidden
    | None => forbidden
    end.

Definition require_demo_business_access (business_id : Z) (current_user : User) : PyM unit :=
  if usr_is_demo_user current_user && (0 <? public_demo_business_id)
     && negb (business_id =? public_demo_business_id)
  then raise (HTTPException 403 "Not found.")
  else ret tt.

(** ** app/core/demo_guard.py *)

Definition MUTATION_METHODS : list string := ["POST"; "PUT"; "PATCH"; "DELETE"]%string.
Definition DEMO_ALLOWLIST : list string :=
  ["/api/v1/auth/demo"; "/api/v1/auth/logout"; "/api/v1/auth/refresh"]%string.

(** [_is_public_demo_token] of the [Authorization] header. *)
Definition is_public_demo_token (authorization : option string) : PyM bool :=
  match authorization with
  | Some value =>
      if starts_with (chars "Bearer ") (chars value) then
        catch (payload <- decode_token (of_chars (drop 7 (chars value))) ;;
               ret (bool_decide (json_get "is_public_demo" payload = Some (JBool true))))
          (fun e => match e with NonTermination => None | _ => Some (ret false) end)
      else ret false
  | None => ret false
  end.

(** [DemoReadOnlyMiddleware.__call__]: whether the request is passed on. *)
Definition demo_guard (method path : string) (authorization : option string) : PyM bool :=
  if negb (bool_decide (method ∈ MUTATION_METHODS)) then ret true
  else if bool_decide (path ∈ DEMO_ALLOWLIST) then ret true
  else blocked <- is_public_demo_token authorization ;; ret (negb blocked).
End Dependencies.

(** ** Sign-up *)

Section SignUp.
Context `{Config}.

(** The defaults of [create_business]. *)
Definition default_business_fields : BusinessFields :=
  MkBusinessFields "en" None None None false POLICY_BUSINESS_PHONE INTERNAL_BOOKING None None None
    "full_booking".

Definition signup_tenant (salon_name : string) (slug : option string)
    (admin_email admin_password : string) : PyM (Tenant * User) :=
  resolved_slug <- (if opt_truthy slug then ret (default ""%string slug)
                    else unique_slug (slugify salon_name)) ;;
  tenant <- create_tenant resolved_slug salon_name ;;
  create_business (ten_id tenant) salon_name "Europe/Warsaw" default_business_fields ;;;
  user <- create_user admin_email admin_password (ten_id tenant) "admin" ;;
  create_audit_log (ten_id tenant) None TENANT_CREATED None None (Some "self_signup"%string) true ;;;
  ret (tenant, user).
End SignUp.
