(* ===== verification/UserListing.v ===== *)
(** * UserListing: the listing of users

    The listing of app/services/user_service.py with its e-mail search and keyset
    pagination (app/core/keyset_pagination.py), and the routes of app/api/routes/users.py.

    A cursor is the text of a JSON object; it is given by that object, or by [None] when
    the text does not decode to one.  Strings are ordered by code points. *)

From S2P Require Import Prelude Py Effects Schema Settings Orm AuditTrail Directory JobQueue.
From S2P Require Import Tenancy Users Auth.

(** [UserSortBy], [SortOrder] and [UserSearchMode] *)
Inductive UserSortBy : Type := by_id | by_email | by_role | by_is_active.
Inductive SortOrder : Type := asc | desc.
Inductive UserSearchMode : Type := prefix_mode | contains_mode.
#[global] Instance SortOrder_eq_dec : EqDecision SortOrder.
Proof. solve_decision. Defined.

Definition sort_by_value (s : UserSortBy) : string :=
  match s with by_id => "id" | by_email => "email" | by_role => "role" | by_is_active => "is_active" end.
Definition sort_order_value (o : SortOrder) : string :=
  match o with asc => "asc" | desc => "desc" end.
Definition search_mode_value (m : UserSearchMode) : string :=
  match m with prefix_mode => "prefix" | contains_mode => "contains" end.

(** ** ILIKE *)

(** [_escape_like_pattern]: the three replacements one after the other. *)
Definition escape_char (c : ascii) (l : list ascii) : list ascii :=
  flat_map (fun x => if Ascii.eqb x c then ["\"%char; x] else [x]) l.
Definition escape_like_pattern (value : string) : string :=
  of_chars (escape_char "_" (escape_char "%" (escape_char "\" (chars value)))).

(** [text LIKE pattern ESCAPE '\']. *)
Fixpoint like (p : list ascii) : list ascii -> bool :=
  match p with
  | [] => fun t => match t with [] => true | _ => false end
  | c :: p' =>
      if Ascii.eqb c "%" then
        fix any (t : list ascii) : bool :=
          like p' t || match t with [] => false | _ :: t' => any t' end
      else if Ascii.eqb c "_" then
        fun t => match t with [] => false | _ :: t' => like p' t' end
      else if Ascii.eqb c "\" then
        match p' with
        | [] => fun _ => false
        | e :: p'' => fun t => match t with
                               | [] => false
                               | x :: t' => Ascii.eqb e x && like p'' t'
                               end
        end
      else fun t => match t with [] => false | x :: t' => Ascii.eqb c x && like p' t' end
  end.

(** ILIKE ignores case. *)
Definition ilike (text pattern : string) : bool :=
  like (chars (lower pattern)) (chars (lower text)).

(** [_apply_email_search_filter] *)
Definition email_search_matches (search : string) (search_mode : UserSearchMode) (email : string)
    : bool :=
  let escaped_search := escape_like_pattern search in
  match search_mode with
  | contains_mode => ilike email ("%" ++ escaped_search ++ "%")
  | prefix_mode => ilike email (escaped_search ++ "%")
  end.

(** ** Sorting and cursors *)

Record UserQuery : Type := MkUserQuery {
  uq_limit : Z;
  uq_sort_by : UserSortBy;
  uq_sort_order : SortOrder;
  uq_role : option string;
  uq_is_active : option bool;
  uq_search : option string;
  uq_search_mode : UserSearchMode }.

(** [getattr(user, sort_by)] *)
Definition sort_value (s : UserSortBy) (u : User) : json :=
  match s with
  | by_id => JInt (usr_id u)
  | by_email => JStr (usr_email u)
  | by_role => JStr (usr_role u)
  | by_is_active => JBool (usr_is_active u)
  end.

(** The comparison of two values of a column; [None] when they are of different types. *)
Definition sql_compare (a b : json) : option comparison :=
  match a, b with
  | JInt x, JInt y => Some (x ?= y)
  | JStr x, JStr y => Some (String.compare x y)
  | JBool x, JBool y => Some (Bool.compare x y)
  | _, _ => None
  end.

(** The order of the rows: the column, then the primary key. *)
Definition row_compare (s : UserSortBy) (a b : User) : comparison :=
  match sql_compare (sort_value s a) (sort_value s b) with
  | Some Eq | None => usr_id a ?= usr_id b
  | Some c => c
  end.
Definition row_leb (s : UserSortBy) (o : SortOrder) (a b : User) : bool :=
  match o, row_compare s a b with
  | asc, Gt | desc, Lt => false
  | _, _ => true
  end.

(** [_apply_keyset_filter]; [None] for a cursor value that cannot be compared. *)
Definition keyset_matches (s : UserSortBy) (o : SortOrder) (cursor_id : Z) (cursor_sort_value : json)
    (u : User) : option bool :=
  match sql_compare (sort_value s u) cursor_sort_value, o with
  | None, _ => None
  | Some Eq, asc => Some (cursor_id <? usr_id u)
  | Some Eq, desc => Some (usr_id u <? cursor_id)
  | Some Gt, asc | Some Lt, desc => Some true
  | Some _, _ => Some false
  end.

Definition opt_str (v : option string) : json := match v with Some s => JStr s | None => JNull end.
Definition opt_bool (v : option bool) : json := match v with Some b => JBool b | None => JNull end.

(** The members that [_build_next_cursor] and [_validate_cursor_filters] share. *)
Definition cursor_filters (q : UserQuery) : json_object :=
  [("is_active", opt_bool (uq_is_active q)); ("role", opt_str (uq_role q));
   ("search", opt_str (uq_search q)); ("search_mode", JStr (search_mode_value (uq_search_mode q)));
   ("sort_by", JStr (sort_by_value (uq_sort_by q)));
   ("sort_order", JStr (sort_order_value (uq_sort_order q)))]%string.

(** [_build_next_cursor] *)
Definition build_next_cursor (q : UserQuery) (users : list User) : option json_object :=
  if Z.of_nat (length users) <? uq_limit q then None
  else match last users with
       | None => None
       | Some last_user =>
           Some (("id"%string, JInt (usr_id last_user)) :: cursor_filters q
                 ++ [("sort_value"%string, sort_value (uq_sort_by q) last_user)])
       end.

(** [payload.get(k) != v], for a string, [None] or a boolean; in Python [1 == True]. *)
Definition member_eqb (v : option json) (expected : json) : bool :=
  match v, expected with
  | None, JNull | Some JNull, JNull => true
  | Some (JInt z), JBool b => z =? (if b then 1 else 0)
  | Some x, y => bool_decide (x = y)
  | None, _ => false
  end.

(** The checks of [_validate_cursor_filters], in its order. *)
Definition cursor_checks : list string :=
  ["sort_by"; "sort_order"; "role"; "is_active"; "search"; "search_mode"]%string.

Definition validate_cursor_filters (q : UserQuery) (payload : json_object) : Result Exn (json * json) :=
  match List.find (fun k => negb (member_eqb (json_get k payload)
                                    (default JNull (json_get k (cursor_filters q))))) cursor_checks with
  | Some k => Raise (ValueError ("cursor " ++ k ++ " mismatch"))
  | None =>
      match json_get "id" payload, json_get "sort_value" payload with
      | Some (JInt i), Some v => if bool_decide (v = JNull) then Raise (ValueError "invalid cursor payload")
                                 else Ok (JInt i, v)
      | Some (JBool b), Some v => if bool_decide (v = JNull) then Raise (ValueError "invalid cursor payload")
                                  else Ok (JBool b, v)
      | _, _ => Raise (ValueError "invalid cursor payload")
      end
  end.

Definition decode_cursor (cursor : option json_object) : Result Exn json_object :=
  match cursor with Some payload => Ok payload | None => Raise (ValueError "invalid cursor") end.

(** ** The query *)

(** The WHERE clause before the cursor. *)
Definition user_selected (tenant_id : Z) (q : UserQuery) (u : User) : bool :=
  (usr_tenant_id u =? tenant_id)
  && match uq_role q with Some r => String.eqb (usr_role u) r | None => true end
  && match uq_is_active q with Some b => Bool.eqb (usr_is_active u) b | None => usr_is_active u end
  && match uq_search q with
     | Some s => email_search_matches s (uq_search_mode q) (usr_email u)
     | None => true
     end.

(** ORDER BY *)
Definition ordered (q : UserQuery) : list User -> list User :=
  sort_leb (row_leb (uq_sort_by q) (uq_sort_order q)).

Section Listing.
Context `{Config}.

(** The rows after the cursor; the database refuses values it cannot compare. *)
Definition after_cursor (q : UserQuery) (cursor_id cursor_sort_value : json) (users : list User)
    : Result Exn (list User) :=
  match cursor_id with
  | JInt i =>
      if existsb (fun u => is_none (keyset_matches (uq_sort_by q) (uq_sort_order q) i
                                      cursor_sort_value u)) users
      then Raise DatabaseError
      else Ok (List.filter (fun u => default false
             (keyset_matches (uq_sort_by q) (uq_sort_order q) i cursor_sort_value u)) users)
  | _ => Raise DatabaseError
  end.

(** [skip is not None and skip > 0] *)
Definition use_offset (skip : option Z) : bool :=
  match skip with Some n => 0 <? n | None => false end.

(** [get_users] without the cache. *)
Definition query_users (tenant_id : Z) (q : UserQuery) (cursor : option (option json_object))
    (skip : option Z) : PyM (list User * option json_object) :=
  selected <- all (user_selected tenant_id q) ;;
  if use_offset skip then
    ret (page (default 0 skip) (uq_limit q) (ordered q selected), None)
  else
    rows <- match cursor with
            | None => ret selected
            | Some text =>
                payload <- lift_result (decode_cursor text) ;;
                at_ <- lift_result (validate_cursor_filters q payload) ;;
                lift_result (after_cursor q at_.1 at_.2 selected)
            end ;;
    let users := page 0 (uq_limit q) (ordered q rows) in
    ret (users, build_next_cursor q users).

Definition cache_params (q : UserQuery) (skip : option Z) : json_object :=
  [("is_active", opt_bool (uq_is_active q)); ("limit", JInt (uq_limit q));
   ("role", opt_str (uq_role q)); ("search", opt_str (uq_search q));
   ("search_mode", JStr (search_mode_value (uq_search_mode q)));
   ("skip", match skip with Some n => JInt n | None => JNull end);
   ("sort_by", JStr (sort_by_value (uq_sort_by q)));
   ("sort_order", JStr (sort_order_value (uq_sort_order q)))]%string.

Definition users_list_cache_key (tenant_id cache_version : Z) (cache_hash : string) : string :=
  (build_tenant_cache_prefix tenant_id ++ ":" ++ USERS_LIST_CACHE_NAMESPACE ++ ":v"
   ++ string_of_Z cache_version ++ ":" ++ cache_hash)%string.

Definition build_users_list_cache_key (tenant_id : Z) (q : UserQuery)
    (cursor : option (option json_object)) (skip : option Z) : PyM string :=
  let cache_hash := cache_params_digest (cache_params q skip) cursor in
  cache_version <- get_cache_version (build_users_list_cache_version_key tenant_id) ;;
  ret (users_list_cache_key tenant_id cache_version cache_hash).

(** [get_users]; the route serializes the rows of a fresh page in the way the cache does. *)
Definition get_users (tenant_id : Z) (q : UserQuery) (cursor : option (option json_object))
    (skip : option Z) : PyM (list UserRead * option json_object) :=
  cache_key <- build_users_list_cache_key tenant_id q cursor
                 (if use_offset skip then skip else None) ;;
  cached_users <- (if users_cache_enabled then get_json_cache cache_key else ret None) ;;
  match cached_users with
  | Some (RUsersPage items next_cursor) => ret (items, next_cursor)
  | Some (RInt _) => raise TypeError
  | None =>
      result <- query_users tenant_id q cursor skip ;;
      let items := map UserRead_of result.1 in
      when users_cache_enabled
        (set_json_cache cache_key (RUsersPage items result.2) users_cache_ttl_seconds) ;;;
      ret (items, result.2)
  end.
End Listing.

(** ** app/api/routes/users.py

    The handlers take the user that [get_current_user] found. *)

Section Routes.
Context `{Config}.

Definition not_found {A} : PyM A := raise (HTTPException 404 "User not found").

(** The audit row names the administrator by a foreign key. *)
Definition commit_user_mutation_with_audit (tenant_id admin_id : Z) (action : AuditAction)
    (target_user_id : Z) : PyM unit :=
  admin <- find_pk admin_id (fun _ : User => true) ;;
  match admin with
  | None => raise (IntegrityError "audit_logs_admin_id_fkey")
  | Some _ =>
      create_audit_log tenant_id (Some admin_id) action (Some target_user_id) None None false ;;;
      commit ;;;
      invalidate_users_list_cache tenant_id
  end.

Definition list_users (current_user : User) (page_number : Z)
    (cursor : option (option json_object)) (q : UserQuery)
    : PyM (list UserRead * option json_object) :=
  require_permission [USERS_LIST] current_user ;;;
  if negb (is_none cursor) && negb (page_number =? 1)
  then raise (HTTPException 422 "cursor cannot be combined with page > 1")
  else
    let skip := if (1 <? page_number) && is_none cursor
                then Some ((page_number - 1) * uq_limit q) else None in
    catch (get_users (usr_tenant_id current_user) q cursor skip) (fun e =>
      match e with
      | ValueError detail => Some (raise (HTTPException 422 detail))
      | _ => None
      end).

Definition get_user (current_user : User) (user_id : Z) : PyM User :=
  user <- get_user_by_id user_id (usr_tenant_id current_user) ;;
  match user with
  | None => not_found
  | Some u => if can_read_user current_user u then ret u else forbidden
  end.

Definition patch_user (current_user : User) (user_id : Z) (user_update : UserAdminUpdate)
    : PyM User :=
  require_non_demo_user current_user ;;;
  user <- get_user_by_id user_id (usr_tenant_id current_user) ;;
  match user with
  | None => not_found
  | Some u =>
      if negb (can_update_user current_user u) then forbidden
      else if user_has_permission current_user USERS_UPDATE then
        updated <- update_user u user_update false ;;
        commit_user_mutation_with_audit (usr_tenant_id current_user) (usr_id current_user)
          USER_UPDATED user_id ;;;
        refresh updated
      else update_user u (UserSelfUpdate user_update) true
  end.

(** The two endpoints that switch a user off and on. *)
Definition set_activity_endpoint (permission : Permission) (action : AuditAction)
    (change : Z -> Z -> bool -> PyM (option User)) (current_user : User) (user_id : Z) : PyM User :=
  require_non_demo_user current_user ;;;
  require_permission [permission] current_user ;;;
  user <- change user_id (usr_tenant_id current_user) false ;;
  match user with
  | None => not_found
  | Some u =>
      commit_user_mutation_with_audit (usr_tenant_id current_user) (usr_id current_user) action
        user_id ;;;
      refresh u
  end.

Definition deactivate_user_endpoint : User -> Z -> PyM User :=
  set_activity_endpoint USERS_DEACTIVATE USER_DEACTIVATED deactivate_user.
Definition activate_user_endpoint : User -> Z -> PyM User :=
  set_activity_endpoint USERS_ACTIVATE USER_ACTIVATED activate_user.

Definition remove_user (current_user : User) (user_id : Z) : PyM unit :=
  require_non_demo_user current_user ;;;
  require_permission [USERS_DELETE] current_user ;;;
  user <- get_user_by_id user_id (usr_tenant_id current_user) ;;
  match user with
  | None => not_found
  | Some u =>
      delete_user u false ;;;
      commit_user_mutation_with_audit (usr_tenant_id current_user) (usr_id current_user)
        USER_DELETED user_id
  end.
End Routes.
