(* ===== verification/UserPages.v ===== *)
(** * UserPages: the listing of users is complete and its search is literal

    Following the cursors from the first page gives every selected user once, in the order
    asked for; and what a client types into the search is matched literally. *)

From S2P Require Import Prelude Py Effects Schema Settings Orm AuditTrail Directory JobQueue.
From S2P Require Import Tenancy Users Auth UserListing.

(** ** The search *)

(** The characters with a meaning in a pattern. *)
Definition special (c : ascii) : bool := Ascii.eqb c "\" || Ascii.eqb c "%" || Ascii.eqb c "_".
Definition escaped (l : list ascii) : list ascii :=
  flat_map (fun x => if special x then ["\"%char; x] else [x]) l.

Lemma escape_chars l : escape_char "_" (escape_char "%" (escape_char "\" l)) = escaped l.
Proof.
  induction l as [|c l IH]; [done|]. unfold escape_char, escaped in *. simpl.
  rewrite !flat_map_app, IH. f_equal. unfold special.
  destruct (Ascii.eqb_spec c "\"); [by subst|]. destruct (Ascii.eqb_spec c "%"); [by subst|].
  simpl. destruct (Ascii.eqb_spec c "_"); [by subst|]. destruct (Ascii.eqb_spec c "%"); [done|].
  simpl. by destruct (Ascii.eqb_spec c "_").
Qed.

Lemma lower_special c : special (lower_char c) = special c /\ (special c = true -> lower_char c = c).
Proof. by destruct c as [[] [] [] [] [] [] [] []]. Qed.

Lemma lower_escaped l : map lower_char (escaped l) = escaped (map lower_char l).
Proof.
  induction l as [|c l IH]; [done|]. unfold escaped in *. simpl. rewrite map_app, IH. f_equal.
  destruct (lower_special c) as [Hs Hl]. rewrite Hs. destruct (special c) eqn:E; [|done].
  simpl. by rewrite (Hl eq_refl).
Qed.

Lemma lower_chars s : chars (lower s) = map lower_char (chars s).
Proof. apply chars_of_chars. Qed.

Lemma like_escaped l p t :
  like (escaped l ++ p) t = starts_with l t && like p (drop (length l) t).
Proof.
  revert t. induction l as [|c l IH]; intros t; [done|]. unfold escaped in *. simpl.
  destruct (special c) eqn:E; simpl.
  - destruct t as [|x t]; [done|]. rewrite IH. simpl. by rewrite andb_assoc.
  - apply orb_false_iff in E as [[E1 E2]%orb_false_iff E3]. rewrite E1, E2, E3.
    destruct t as [|x t]; [done|]. rewrite IH. simpl. by rewrite andb_assoc.
Qed.

Lemma like_percent t : like ["%"%char] t = true.
Proof. induction t as [|x t IH]; [done|]. simpl in *. exact IH. Qed.

Lemma like_any l t : like ("%"%char :: escaped l ++ ["%"%char]) t = occurs_in l t.
Proof.
  induction t as [|x t IH].
  - simpl. rewrite like_escaped, like_percent, andb_true_r. by destruct l.
  - change (like (escaped l ++ ["%"%char]) (x :: t) || like ("%"%char :: escaped l ++ ["%"%char]) t
            = occurs_in l (x :: t)).
    rewrite IH, like_escaped, like_percent, andb_true_r. done.
Qed.

(** A search is literal.  Whatever the text, its percent signs, underscores and backslashes
    included, a prefix search selects exactly the users whose e-mail address starts with
    it and a contains search those whose address contains it, ignoring case. *)
Theorem email_search_is_literal search email :
  email_search_matches search prefix_mode email
    = starts_with (chars (lower search)) (chars (lower email))
  /\ email_search_matches search contains_mode email
    = occurs_in (chars (lower search)) (chars (lower email)).
Proof.
  unfold email_search_matches, ilike, escape_like_pattern.
  rewrite !lower_chars, !chars_app, !map_app, !chars_of_chars, escape_chars, lower_escaped.
  change (map lower_char (chars "%")) with ["%"%char]. split.
  - by rewrite like_escaped, like_percent, andb_true_r.
  - apply like_any.
Qed.

(** ** The order of the rows *)

(** A comparison that is a total order, equal only on equal arguments. *)
Class Comparison {A} (cmp : A -> A -> comparison) : Prop := {
  cmp_opp : forall a b, cmp b a = CompOpp (cmp a b);
  cmp_trans : forall a b c, cmp a b = Lt -> cmp b c = Lt -> cmp a c = Lt;
  cmp_eq : forall a b, cmp a b = Eq -> a = b }.

#[local] Instance Z_comparison : Comparison Z.compare.
Proof.
  split; [intros a b; apply Z.compare_antisym | intros a b c | apply Z.compare_eq].
  rewrite !Z.compare_lt_iff. lia.
Qed.

#[local] Instance bool_comparison : Comparison Bool.compare.
Proof. split; [by intros [] [] | by intros [] [] [] | by intros [] []]. Qed.

#[local] Instance string_comparison : Comparison String.compare.
Proof.
  split; [intros a b; apply String.compare_antisym | | apply String.compare_eq_iff].
  induction a as [|x a IH]; intros [|y b] [|z c]; simpl; try done.
  destruct (Ascii.compare x y) eqn:E1; destruct (Ascii.compare y z) eqn:E2; try done; intros H1 H2.
  - apply Ascii.compare_eq_iff in E1, E2. subst.
    replace (Ascii.compare z z) with Eq by (unfold Ascii.compare; by rewrite N.compare_refl). eauto.
  - apply Ascii.compare_eq_iff in E1. subst. by rewrite E2.
  - apply Ascii.compare_eq_iff in E2. subst. by rewrite E1.
  - replace (Ascii.compare x z) with Lt; [done|]. symmetry. unfold Ascii.compare in *.
    rewrite N.compare_lt_iff in *. lia.
Qed.

(** Comparing a key first and the primary key of equal keys. *)
Definition lex {A} (cmp : A -> A -> comparison) (key : User -> A) (a b : User) : comparison :=
  match cmp (key a) (key b) with Eq => usr_id a ?= usr_id b | c => c end.

Lemma row_compare_lex s :
  exists A (cmp : A -> A -> comparison) (key : User -> A),
    Comparison cmp /\ forall a b,
      sql_compare (sort_value s a) (sort_value s b) = Some (cmp (key a) (key b))
      /\ row_compare s a b = lex cmp key a b.
Proof.
  destruct s; [exists Z, Z.compare, usr_id | exists string, String.compare, usr_email
    | exists string, String.compare, usr_role | exists bool, Bool.compare, usr_is_active];
    (split; [exact _|]); intros a b; (split; [done|]); unfold row_compare, lex; simpl;
    by destruct (_ (_ a) (_ b)).
Qed.

Section Lex.
Context {A} (cmp : A -> A -> comparison) (key : User -> A) `{!Comparison cmp}.

Lemma cmp_refl a : cmp a a = Eq.
Proof. pose proof (cmp_opp a a) as Ho. by destruct (cmp a a). Qed.

Lemma lex_opp a b : lex cmp key b a = CompOpp (lex cmp key a b).
Proof.
  unfold lex. rewrite (cmp_opp (key a)). rewrite Z.compare_antisym.
  by destruct (cmp (key a) (key b)).
Qed.

Lemma lex_eq a b : lex cmp key a b = Eq -> usr_id a = usr_id b.
Proof. unfold lex. destruct (cmp _ _); try done. apply Z.compare_eq. Qed.

Lemma lex_eq_l a b c : lex cmp key a b = Eq -> lex cmp key a c = lex cmp key b c.
Proof.
  unfold lex. destruct (cmp (key a) (key b)) eqn:E; try done. apply cmp_eq in E.
  rewrite E. by intros ->%Z.compare_eq.
Qed.

Lemma lex_lt_trans a b c : lex cmp key a b = Lt -> lex cmp key b c = Lt -> lex cmp key a c = Lt.
Proof.
  unfold lex. destruct (cmp (key a) (key b)) eqn:E1; destruct (cmp (key b) (key c)) eqn:E2; try done.
  - apply cmp_eq in E1, E2. rewrite E1, E2, cmp_refl, !Z.compare_lt_iff. lia.
  - apply cmp_eq in E1. by rewrite E1, E2.
  - apply cmp_eq in E2. by rewrite <- E2, E1.
  - by rewrite (cmp_trans _ _ _ E1 E2).
Qed.
End Lex.

Lemma row_compare_opp s a b : row_compare s b a = CompOpp (row_compare s a b).
Proof.
  destruct (row_compare_lex s) as (A & cmp & key & Hc & Hr).
  rewrite (proj2 (Hr a b)), (proj2 (Hr b a)). by apply lex_opp.
Qed.

Lemma row_compare_eq s a b : row_compare s a b = Eq -> usr_id a = usr_id b.
Proof.
  destruct (row_compare_lex s) as (A & cmp & key & Hc & Hr). rewrite (proj2 (Hr a b)).
  by apply lex_eq.
Qed.

Lemma row_compare_trans s a b c :
  row_compare s a b = Lt -> row_compare s b c = Lt -> row_compare s a c = Lt.
Proof.
  destruct (row_compare_lex s) as (A & cmp & key & Hc & Hr).
  rewrite (proj2 (Hr a b)), (proj2 (Hr b c)), (proj2 (Hr a c)). by apply lex_lt_trans.
Qed.

Lemma row_compare_eq_l s a b c : row_compare s a b = Eq -> row_compare s a c = row_compare s b c.
Proof.
  destruct (row_compare_lex s) as (A & cmp & key & Hc & Hr).
  rewrite (proj2 (Hr a b)), (proj2 (Hr b c)), (proj2 (Hr a c)). by apply lex_eq_l.
Qed.

Section Order.
Context (s : UserSortBy) (o : SortOrder).

Lemma row_leb_total a b : row_leb s o a b = true \/ row_leb s o b a = true.
Proof.
  unfold row_leb. rewrite (row_compare_opp s a b). destruct o, (row_compare s a b); auto.
Qed.

Lemma row_leb_trans a b c :
  row_leb s o a b = true -> row_leb s o b c = true -> row_leb s o a c = true.
Proof.
  unfold row_leb. destruct (row_compare s a b) eqn:E1.
  - by rewrite (row_compare_eq_l s a b c E1).
  - destruct (row_compare s b c) eqn:E2; [|by rewrite (row_compare_trans s a b c E1 E2)|by destruct o].
    apply (f_equal CompOpp) in E2. rewrite <- row_compare_opp in E2.
    rewrite (row_compare_opp s c a), (row_compare_eq_l s c b a E2), <- (row_compare_opp s b a).
    by rewrite E1.
  - destruct (row_compare s b c) eqn:E2; [|by destruct o|].
    + apply (f_equal CompOpp) in E2. rewrite <- row_compare_opp in E2.
      rewrite (row_compare_opp s c a), (row_compare_eq_l s c b a E2), <- (row_compare_opp s b a).
      by rewrite E1.
    + apply (f_equal CompOpp) in E1, E2. rewrite <- row_compare_opp in E1, E2.
      rewrite (row_compare_opp s c a). by rewrite (row_compare_trans s c b a E2 E1).
Qed.

Lemma row_leb_antisym a b :
  row_leb s o a b = true -> row_leb s o b a = true -> usr_id a = usr_id b.
Proof.
  unfold row_leb. rewrite (row_compare_opp s a b). pose proof (row_compare_eq s a b) as He.
  destruct o, (row_compare s a b); auto; done.
Qed.

(** The filter of a cursor keeps exactly the rows that come after it. *)
Lemma keyset_after u c :
  keyset_matches s o (usr_id c) (sort_value s c) u = Some (negb (row_leb s o u c)).
Proof.
  unfold keyset_matches, row_leb. destruct (row_compare_lex s) as (A & cmp & key & Hc & Hr).
  destruct (Hr u c) as [-> ->]. unfold lex.
  destruct (cmp (key u) (key c)), o; try done; f_equal;
    destruct (Z.compare_spec (usr_id u) (usr_id c)); lia.
Qed.
End Order.

(** ** Pages *)

Section Pages.
Context (q : UserQuery) (selected : list User) (Hid : NoDup (map usr_id selected)).
Local Abbreviation leb := (row_leb (uq_sort_by q) (uq_sort_order q)).

Lemma ordered_sorted l : StronglySorted (fun a b => leb a b = true) (ordered q l).
Proof. apply sort_leb_sorted; [apply row_leb_trans | apply row_leb_total]. Qed.

Lemma same_id_same a b : In a selected -> In b selected -> usr_id a = usr_id b -> a = b.
Proof.
  clear -Hid. induction selected as [|x l IH]; simpl; [done|]. inversion_clear Hid as [|? ? Hn Hl].
  intros [->|Ha] [->|Hb] E; [done| | |by apply IH].
  - destruct Hn. rewrite E. by apply list_elem_of_In, in_map.
  - destruct Hn. rewrite <- E. by apply list_elem_of_In, in_map.
Qed.

(** Sorting what comes after the last row of a page gives the rest of the sorted list. *)
Lemma after_page pre c rest :
  ordered q selected = pre ++ c :: rest ->
  ordered q (List.filter (fun u => negb (leb u c)) selected) = rest.
Proof.
  intros E. pose proof (ordered_sorted selected) as Hs.
  pose proof (sort_leb_perm leb selected) as Hp. fold (ordered q selected) in Hp. rewrite E in Hs, Hp.
  assert (Hin : forall u, In u (pre ++ c :: rest) -> In u selected).
  { intros u. rewrite <- !list_elem_of_In. by rewrite Hp. }
  apply (StronglySorted_unique_strong (fun a b => leb a b = true)).
  - intros a b Ha Hb H1 H2. apply same_id_same; [| |by eapply row_leb_antisym].
    + apply list_elem_of_In. revert Ha. unfold ordered. rewrite (sort_leb_perm leb).
      rewrite list_elem_of_In, filter_In, list_elem_of_In. tauto.
    + apply Hin, in_app_iff. right. right. by apply list_elem_of_In.
  - apply ordered_sorted.
  - apply StronglySorted_app in Hs as (_ & _ & Hs). by inversion Hs.
  - unfold ordered. rewrite (sort_leb_perm leb), <- (filter_perm _ _ _ Hp), List.filter_app. simpl.
    apply StronglySorted_app in Hs as (Hpc & _ & Hs). inversion_clear Hs as [|? ? Hr Hc].
    assert (Hcc : leb c c = true) by by destruct (row_leb_total (uq_sort_by q) (uq_sort_order q) c c).
    rewrite Hcc. simpl. rewrite (filter_none _ pre), (filter_all _ rest); [done| |].
    + intros u Hu. apply negb_true_iff. destruct (leb u c) eqn:Eu; [|done].
      rewrite Forall_forall in Hc. apply list_elem_of_In in Hu.
      pose proof (row_leb_antisym _ _ _ _ Eu (Hc u Hu)) as Hi.
      assert (Hnd : NoDup (map usr_id (pre ++ c :: rest))) by by rewrite Hp.
      rewrite map_app in Hnd. apply NoDup_app in Hnd as (_ & _ & Hnd). inversion_clear Hnd as [|? ? Hn].
      destruct Hn. rewrite <- Hi. apply list_elem_of_In, in_map. by apply list_elem_of_In.
    + intros u Hu. apply negb_false_iff, (Hpc u c); [by apply list_elem_of_In | by left].
Qed.
End Pages.

#[local] Arguments member_eqb : simpl never.

(** The cursor of a page is accepted with the query it was made for. *)
Lemma own_cursor_valid q users payload c :
  build_next_cursor q users = Some payload -> last users = Some c ->
  validate_cursor_filters q payload = Ok (JInt (usr_id c), sort_value (uq_sort_by q) c).
Proof.
  unfold build_next_cursor. destruct (_ <? _); [done|]. intros Hp Hc. rewrite Hc in Hp.
  injection Hp as <-. unfold validate_cursor_filters, cursor_checks. simpl.
  assert (Hr : forall v : json, member_eqb (Some v) v = true).
  { intros [| | | | |]; unfold member_eqb; by rewrite ?bool_decide_true. }
  rewrite !Hr. simpl. by destruct (uq_sort_by q).
Qed.

Lemma own_cursor_after q c users :
  after_cursor q (JInt (usr_id c)) (sort_value (uq_sort_by q) c) users
  = Ok (List.filter (fun u => negb (row_leb (uq_sort_by q) (uq_sort_order q) u c)) users).
Proof.
  unfold after_cursor. rewrite (proj2 (existsb_false _ _)).
  - f_equal. apply filter_ext. intros u. by rewrite keyset_after.
  - intros u _. by rewrite keyset_after.
Qed.

Section Walk.
Context `{Config} (tenant_id : Z) (q : UserQuery).

(** A client that asks for page after page, [fuel] times at most after the first. *)
Fixpoint follow_pages (fuel : nat) (cursor : option (option json_object)) : PyM (list User) :=
  result <- query_users tenant_id q cursor None ;;
  match result.2, fuel with
  | Some next, S fuel => rest <- follow_pages fuel (Some (Some next)) ;; ret (result.1 ++ rest)
  | _, _ => ret result.1
  end.

(** The users the query selects, in the order it asks for. *)
Definition listing (w : World) : list User :=
  ordered q (List.filter (user_selected tenant_id q) (rows_of (users (w_db w)))).

Context (w : World) (Hl : 0 < uq_limit q) (Hk : keyed (users (w_db w))).
Local Abbreviation selected := (List.filter (user_selected tenant_id q) (rows_of (users (w_db w)))).

Lemma selected_ids : NoDup (map usr_id selected).
Proof.
  assert (Hr : NoDup (map usr_id (rows_of (users (w_db w))))).
  { unfold rows_of. change (NoDup (usr_id <$> (snd <$> map_to_list (users (w_db w))))).
    rewrite <- list_fmap_compose. rewrite (list_fmap_ext _ fst); [apply NoDup_fst_map_to_list|].
    intros i [k u] Hu. simpl. apply Hk. apply elem_of_map_to_list.
    by eapply list_elem_of_lookup_2. }
  clear -Hr. induction (rows_of (users (w_db w))) as [|u l IH]; simpl; [done|].
  inversion_clear Hr as [|? ? Hn Hd]. destruct (user_selected tenant_id q u); [|by apply IH].
  constructor; [|by apply IH]. intros Hu. apply Hn.
  apply list_elem_of_In, in_map_iff in Hu as (v & <- & Hv). apply list_elem_of_In, in_map.
  by apply filter_In in Hv as [? _].
Qed.

(** The page at a position of the listing, asked for with the cursor of the page before. *)
Definition at_position (pre rest : list User) (cursor : option (option json_object)) : Prop :=
  listing w = pre ++ rest
  /\ match cursor with
     | None => pre = []
     | Some text => exists payload c users,
         text = Some payload /\ build_next_cursor q users = Some payload
         /\ last users = Some c /\ last pre = Some c
     end.

Lemma query_at_position pre rest cursor :
  at_position pre rest cursor ->
  query_users tenant_id q cursor None w
  = (Ok (take (Z.to_nat (uq_limit q)) rest,
         build_next_cursor q (take (Z.to_nat (uq_limit q)) rest)), w).
Proof.
  intros [HL Hc]. unfold query_users, bind, all, asks. cbv beta.
  change (table (w_db w)) with (users (w_db w)). simpl use_offset. cbv iota.
  destruct cursor as [text|].
  - destruct Hc as (payload & c & us & -> & Hb & Hu & Hpre).
    cbn [decode_cursor lift_result ret].
    rewrite (own_cursor_valid q us payload c Hb Hu). cbn [lift_result ret fst snd].
    rewrite own_cursor_after. cbn [lift_result ret].
    apply last_Some in Hpre as [pre' ->].
    assert (HL' : ordered q selected = pre' ++ c :: rest) by (fold (listing w); rewrite HL; by rewrite <- app_assoc).
    rewrite (after_page q selected selected_ids pre' c rest HL'). unfold page. by rewrite drop_0.
  - subst pre. simpl in HL. unfold ret. unfold listing in HL. rewrite HL.
    unfold page. by rewrite drop_0.
Qed.

Lemma follow_from fuel pre rest cursor :
  at_position pre rest cursor -> (length rest <= fuel)%nat ->
  follow_pages fuel cursor w = (Ok rest, w).
Proof.
  revert pre rest cursor. induction fuel as [|fuel IH]; intros pre rest cursor Hp Hf;
    (simpl; unfold bind; rewrite (query_at_position _ _ _ Hp); cbv beta iota; simpl fst; simpl snd).
  - destruct rest; [|simpl in Hf; lia]. rewrite take_nil. by destruct (build_next_cursor q []).
  - set (n := Z.to_nat (uq_limit q)). destruct (build_next_cursor q (take n rest)) as [next|] eqn:Hb.
    + assert (Hn : last (take n rest) <> None).
      { unfold build_next_cursor in Hb. destruct (_ <? _); [done|]. by destruct (last _). }
      destruct (last (take n rest)) as [c|] eqn:Hc; [|done].
      assert (Hlen : (0 < length (take n rest))%nat) by (destruct (take n rest); [done|simpl; lia]).
      rewrite length_take in Hlen.
      assert (Hrec : follow_pages fuel (Some (Some next)) w = (Ok (drop n rest), w)).
      { apply (IH (pre ++ take n rest)); [|rewrite length_drop; lia].
        destruct Hp as [HL _]. split; [by rewrite <- app_assoc, take_drop|].
        exists next, c, (take n rest). rewrite last_app, Hc. done. }
      cbn [fst snd]. rewrite Hrec. unfold ret. by rewrite take_drop.
    + unfold build_next_cursor in Hb. destruct (Z.of_nat _ <? _) eqn:E.
      * apply Z.ltb_lt in E. rewrite length_take in E. unfold ret. rewrite take_ge; [done|lia].
      * destruct (last (take n rest)) as [c|] eqn:Hc; [done|].
        apply last_None in Hc. rewrite Hc in E. apply Z.ltb_ge in E. simpl in E. lia.
Qed.
End Walk.

