(* ===== verification/UserBehaviour.v ===== *)
(** * UserBehaviour: administering users

    The endpoints that change users stay inside the tenant of the caller. *)

From S2P Require Import Prelude Py Effects Schema Settings Orm AuditTrail Directory JobQueue.
From S2P Require Import Frames Tenancy Users Auth UserListing.

(** The users of other tenants. *)
Definition foreign (tenant_id : Z) (m : gmap Z User) : gmap Z User :=
  base.filter (fun kv => usr_tenant_id kv.2 <> tenant_id) m.

Lemma foreign_insert tenant_id m k old new :
  m !! k = Some old -> usr_tenant_id old = tenant_id -> usr_tenant_id new = tenant_id ->
  foreign tenant_id (<[k := new]> m) = foreign tenant_id m.
Proof.
  intros Hk Ho Hn. apply map_eq. intros i. unfold foreign. rewrite !map_lookup_filter, lookup_insert.
  case_decide as E; [subst i|done]. rewrite Hk. simpl.
  rewrite !option_guard_False by (simpl; congruence). done.
Qed.

Lemma foreign_delete tenant_id m k old :
  m !! k = Some old -> usr_tenant_id old = tenant_id ->
  foreign tenant_id (base.delete k m) = foreign tenant_id m.
Proof.
  intros Hk Ho. apply map_eq. intros i. unfold foreign. rewrite !map_lookup_filter, lookup_delete.
  case_decide as E; [subst i|done]. rewrite Hk. simpl.
  rewrite option_guard_False by (simpl; congruence). done.
Qed.

Section Isolation.
Context `{Config} (tenant_id : Z) (F : gmap Z User).

(** The users of other tenants are those of [F], in the session and durably. *)
Definition isolated (w : World) : Prop :=
  keyed (users (w_db w)) /\ foreign tenant_id (users (w_db w)) = F
  /\ foreign tenant_id (users (w_committed w)) = F.

(** ... and [u] is a row of this tenant. *)
Definition isolated_at (u : User) (w : World) : Prop :=
  isolated w /\ usr_tenant_id u = tenant_id
  /\ exists old, users (w_db w) !! usr_id u = Some old /\ usr_tenant_id old = tenant_id.

Lemma isolated_commit : keeps isolated commit.
Proof. apply triple_modify. intros w (Hk & Hd & _). by split. Qed.
Lemma isolated_redis {A} (cmd : Redis -> A * Redis) : keeps isolated (redis cmd).
Proof. intros w Hw. unfold redis. by destruct (cmd (w_redis w)). Qed.
Lemma isolated_insert_log mk : keeps isolated (db_insert (A := AuditLog) mk).
Proof. intros w Hw. unfold db_insert. by destruct (table (w_db w) !! _). Qed.
#[local] Hint Resolve isolated_commit isolated_redis isolated_insert_log : ledger.

Lemma isolated_cache t : keeps isolated (invalidate_users_list_cache t).
Proof. unfold invalidate_users_list_cache, increment_cache_version. keeps_steps. Qed.
#[local] Hint Resolve isolated_cache : ledger.

Lemma isolated_audit t admin action target :
  keeps isolated (commit_user_mutation_with_audit t admin action target).
Proof. unfold commit_user_mutation_with_audit, create_audit_log. keeps_steps. Qed.
#[local] Hint Resolve isolated_audit : ledger.

Lemma save_own u : triple (isolated_at u) (save u) (fun _ => isolated) (fun _ => isolated).
Proof.
  apply triple_modify. intros w ((Hk & Hd & Hc) & Ht & old & Ho & Hot). split; [|split]; cbn.
  - by apply keyed_insert.
  - by rewrite (foreign_insert _ _ _ old).
  - done.
Qed.

Lemma update_own u : triple (isolated_at u) (db_update u) (fun _ => isolated) (fun _ => isolated).
Proof.
  intros w Hw. unfold db_update. destruct (violates _ _); [by destruct Hw | by apply save_own].
Qed.

Lemma delete_own u : triple (isolated_at u) (db_delete u) (fun _ => isolated) (fun _ => isolated).
Proof.
  intros w ((Hk & Hd & Hc) & Ht & old & Ho & Hot). unfold db_delete. destruct (referenced _ _); [done|].
  split; [|split]; cbn.
  - by apply keyed_delete.
  - by rewrite (foreign_delete _ _ _ old).
  - done.
Qed.

Lemma find_own user_id :
  triple isolated (get_user_by_id user_id tenant_id)
    (fun o w => match o with Some u => isolated_at u w | None => isolated w end) (fun _ => isolated).
Proof.
  apply triple_asks. intros w Hw. pose proof Hw as (Hk & _). cbn [table Entity_User].
  destruct (users (w_db w) !! user_id) as [u|] eqn:Hu; [|done].
  destruct (Z.eqb_spec (usr_tenant_id u) tenant_id) as [E|]; [|done].
  pose proof (Hk _ _ Hu) as Hid. cbn in Hid. subst user_id. by repeat split; eauto; apply Hw.
Qed.

(** A change that keeps the identifier and the tenant of a row. *)
Lemma isolated_at_same u v w :
  isolated_at u w -> usr_id v = usr_id u -> usr_tenant_id v = usr_tenant_id u -> isolated_at v w.
Proof. intros (Hw & Ht & Ho) Hi He. unfold isolated_at. by rewrite Hi, He. Qed.

Lemma updated_same upd u v :
  updated_user upd u = Ok v -> usr_id v = usr_id u /\ usr_tenant_id v = usr_tenant_id u.
Proof.
  unfold updated_user, set_column. destruct upd as [[[e|]|] [[a|]|] [[r|]|]]; cbn; try done;
    by intros [= <-].
Qed.

Lemma isolated_update u upd c :
  triple (isolated_at u) (update_user u upd c) (fun _ => isolated) (fun _ => isolated).
Proof.
  unfold update_user. intros w Hw.
  destruct (updated_user upd u) as [v|e] eqn:Ev; unfold bind at 1; simpl; [|by destruct Hw].
  apply updated_same in Ev as [Hi Ht]. revert w Hw.
  set (v' := if should_invalidate_tokens upd u then _ else v).
  assert (usr_id v' = usr_id u /\ usr_tenant_id v' = usr_tenant_id u) as [Hi' Ht']
    by (unfold v'; by destruct (should_invalidate_tokens upd u)).
  eapply triple_bind with (R := fun _ => isolated).
  - eapply triple_conseq; [apply (update_own v') | | done | done].
    intros w Hw. by apply (isolated_at_same u).
  - intros _. change (keeps isolated (if c then commit ;;; updated <- refresh v' ;;
      invalidate_users_list_cache (usr_tenant_id updated) ;;; ret updated else ret v')). keeps_steps.
Qed.

(** Look a user of the tenant up, and work on its row. *)
Lemma isolated_found {B} user_id (k : option User -> PyM B) :
  keeps isolated (k None) ->
  (forall u, triple (isolated_at u) (k (Some u)) (fun _ => isolated) (fun _ => isolated)) ->
  keeps isolated (bind (get_user_by_id user_id tenant_id) k).
Proof.
  intros Hn Hs. eapply triple_bind; [apply find_own|]. intros [u|]; [apply Hs | apply Hn].
Qed.

Lemma isolated_then {A B} u (m : PyM A) (k : A -> PyM B) :
  triple (isolated_at u) m (fun _ => isolated) (fun _ => isolated) ->
  (forall a, keeps isolated (k a)) ->
  triple (isolated_at u) (bind m k) (fun _ => isolated) (fun _ => isolated).
Proof. intros Hm Hk. by eapply triple_bind. Qed.

Lemma isolated_activity change user_id c :
  (forall u, usr_id (change u) = usr_id u /\ usr_tenant_id (change u) = usr_tenant_id u) ->
  keeps isolated (set_user_activity change user_id tenant_id c).
Proof.
  intros Hch. unfold set_user_activity. apply isolated_found; [apply keeps_ret|]. intros u. cbv zeta.
  apply isolated_then; [|keeps_steps]. eapply triple_conseq; [apply (save_own (change u)) | | done | done].
  intros w Hw. apply (isolated_at_same u); [done | apply Hch | apply Hch].
Qed.

Lemma isolated_delete u : triple (isolated_at u) (delete_user u false) (fun _ => isolated) (fun _ => isolated).
Proof.
  unfold delete_user. cbv zeta. eapply triple_bind with (R := fun _ => isolated_at u).
  { intros w Hw. exact Hw. }
  intros _. apply isolated_then; [apply delete_own|]. intros _. apply keeps_bind; [|keeps_steps].
  intros w Hw. exact Hw.
Qed.
End Isolation.

Section Administration.
Context `{Config}.

Lemma foreign_kept {A} tenant_id (m : PyM A) w :
  (forall F, keeps (isolated tenant_id F) m) -> keyed (users (w_committed w)) ->
  foreign tenant_id (users (w_committed (run_request m w).2))
  = foreign tenant_id (users (w_committed w)).
Proof.
  intros Hm Hk. unfold run_request.
  specialize (Hm _ (open_session w) (conj Hk (conj eq_refl eq_refl))).
  by destruct (m (open_session w)) as [[a|e] w'] eqn:E; destruct Hm as (_ & _ & Hc).
Qed.

Section Endpoints.
Context (current_user : User) (F : gmap Z User).
Local Abbreviation kept := (keeps (isolated (usr_tenant_id current_user) F)).

Lemma isolated_demo : kept (require_non_demo_user current_user).
Proof. unfold require_non_demo_user. keeps_steps. Qed.
Lemma isolated_permission p : kept (require_permission p current_user).
Proof. unfold require_permission, forbidden. keeps_steps. Qed.
#[local] Hint Resolve isolated_demo isolated_permission isolated_audit : ledger.

Lemma isolated_set_activity p a change user_id :
  (forall u, usr_id (change u) = usr_id u /\ usr_tenant_id (change u) = usr_tenant_id u) ->
  kept (set_activity_endpoint p a (set_user_activity change) current_user user_id).
Proof.
  intros Hch. unfold set_activity_endpoint. do 2 (apply keeps_bind; [auto with ledger|]; intros _).
  apply keeps_bind; [by apply isolated_activity|]. unfold not_found. keeps_steps.
Qed.

Lemma isolated_patch user_id update : kept (patch_user current_user user_id update).
Proof.
  unfold patch_user. apply keeps_bind; [auto with ledger|]. intros _.
  apply isolated_found; [apply keeps_raise|]. intros u.
  destruct (negb _); [apply triple_raise; by intros w [Hw _]|].
  destruct (user_has_permission _ _); [|apply isolated_update].
  apply isolated_then; [apply isolated_update|]. keeps_steps.
Qed.

Lemma isolated_remove user_id : kept (remove_user current_user user_id).
Proof.
  unfold remove_user. do 2 (apply keeps_bind; [auto with ledger|]; intros _).
  apply isolated_found; [apply keeps_raise|]. intros u.
  apply isolated_then; [apply isolated_delete|]. keeps_steps.
Qed.
End Endpoints.

(** C28: user administration stays inside the tenant.  Whoever calls the endpoints that update,
    deactivate, activate or delete a user, for whatever user and with whatever data,
    and however the call ends, the users of every other tenant are durably unchanged. *)
Theorem user_administration_isolated (current_user : User) user_id update w :
  keyed (users (w_committed w)) ->
  let tenant_id := usr_tenant_id current_user in
  let others := foreign tenant_id (users (w_committed w)) in
  foreign tenant_id (users (w_committed (run_request (patch_user current_user user_id update) w).2))
    = others
  /\ foreign tenant_id (users (w_committed (run_request (deactivate_user_endpoint current_user user_id) w).2))
    = others
  /\ foreign tenant_id (users (w_committed (run_request (activate_user_endpoint current_user user_id) w).2))
    = others
  /\ foreign tenant_id (users (w_committed (run_request (remove_user current_user user_id) w).2))
    = others.
Proof.
  intros Hk tenant_id others. split; [|split; [|split]]; apply foreign_kept; try done; intros F.
  - apply isolated_patch.
  - by apply isolated_set_activity.
  - by apply isolated_set_activity.
  - apply isolated_remove.
Qed.

(** A tenant administrator may not manage tenants, but may give the platform role to anyone
    in the tenant: the update passes every check, and the role it sets includes it. *)
Theorem tenant_admin_grants_platform_role (admin u : User) w :
  usr_role admin = "admin"%string -> usr_is_demo_user admin = false ->
  users (w_db w) !! usr_id admin = Some admin -> users (w_db w) !! usr_id u = Some u ->
  usr_tenant_id u = usr_tenant_id admin -> user_violation (w_db w) u = None ->
  audit_logs (w_db w) !! w_seq w TAuditLogs = None ->
  exists u' w1, patch_user admin (usr_id u)
      (MkUserAdminUpdate None None (Some (Some role_platform_admin))) w = (Ok u', w1)
    /\ users (w_committed w1) !! usr_id u = Some u'
    /\ user_has_permission admin TENANTS_MANAGE = false
    /\ user_has_permission u' TENANTS_MANAGE = true.
Proof.
  intros Hr Hd Ha Hu Ht Hv Hlog.
  assert (Hup : user_has_permission admin USERS_UPDATE = true)
    by (unfold user_has_permission; rewrite Hr; reflexivity).
  set (u' := if negb (String.eqb "platform_admin" (usr_role u))
             then u <| usr_role := "platform_admin"%string |> <| usr_token_version ::= Z.add 1 |>
             else u <| usr_role := "platform_admin"%string |>).
  assert (usr_id u' = usr_id u /\ usr_role u' = "platform_admin"%string
          /\ user_violation (w_db w) u' = user_violation (w_db w) u) as (Hi & Hrole & Hviol)
    by (unfold u'; by destruct (negb _)).
  exists u'. unfold patch_user, bind at 1, require_non_demo_user. rewrite Hd.
  unfold ret at 1, bind at 1, get_user_by_id, find_pk, asks. cbn [table Entity_User]. rewrite Hu, Ht.
  rewrite Z.eqb_refl. unfold can_update_user, users_share_tenant. rewrite Ht, Z.eqb_refl, Hup.
  cbn [negb]. unfold bind at 1, update_user, bind at 1.
  change (lift_result (updated_user _ u) w)
    with (Ok (E := Exn) (u <| usr_role := "platform_admin"%string |>), w).
  cbv beta iota. fold u'. unfold bind at 1, db_update. cbn [violates Entity_User].
  change (should_invalidate_tokens _ u) with (negb (String.eqb "platform_admin" (usr_role u))).
  fold u'. rewrite Hviol, Hv. unfold save, modify, ret at 1.
  unfold bind at 1, commit_user_mutation_with_audit, bind at 1, find_pk, asks. cbn.
  set (w0 := w <| w_db ::= _ |>).
  assert (exists x, <[usr_id u' := u']> (users (w_db w)) !! usr_id admin = Some x) as [x Hx].
  { rewrite lookup_insert. case_decide; eauto. }
  unfold no_touch. rewrite Hx. unfold bind, create_audit_log, bind, db_insert.
  change (table (w_db w0)) with (audit_logs (w_db w)). change (w_seq w0 _) with (w_seq w TAuditLogs).
  rewrite Hlog. cbn [violates Entity_AuditLog no_constraint]. unfold when, ret, commit, modify.
  unfold invalidate_users_list_cache, increment_cache_version, now_utc, bind, asks, redis.
  destruct (incr _ _ _) as [o r]. cbv beta iota. unfold refresh, asks, ret. cbn.
  eexists. rewrite Hi, lookup_insert_eq. split; [done|]. cbn. rewrite ?Hi, lookup_insert_eq.
  split; [done|]. unfold user_has_permission. by rewrite Hr, Hrole.
Qed.

(** An administrator who ever acted cannot be deleted: the audit rows refer to the account, and
    the endpoint lets the error of the database through. *)
Theorem acting_admin_cannot_be_deleted (admin u : User) log w :
  user_has_permission admin USERS_DELETE = true -> usr_is_demo_user admin = false ->
  users (w_db w) !! usr_id u = Some u -> usr_tenant_id u = usr_tenant_id admin ->
  In log (rows_of (audit_logs (w_db w))) -> aud_admin_id log = Some (usr_id u) ->
  exists w1, remove_user admin (usr_id u) w
             = (Raise (IntegrityError "audit_logs_admin_id_fkey"), w1)
    /\ w_committed w1 = w_committed w.
Proof.
  intros Hp Hd Hu Ht Hlog Hadmin. unfold remove_user, bind at 1, require_non_demo_user. rewrite Hd.
  unfold ret at 1, bind at 1, require_permission, user_has_any_permission. cbn [existsb]. rewrite Hp.
  unfold ret at 1, bind at 1, get_user_by_id, find_pk, asks. cbn [orb table Entity_User].
  rewrite Hu, Ht, Z.eqb_refl. unfold bind at 1, delete_user, bind at 1, delete_where.
  cbv beta iota zeta. unfold bind at 1, db_delete. cbn [referenced Entity_User pk].
  unfold user_referenced. cbn. rewrite (proj2 (existsb_exists _ _)); [by eexists|].
  exists log. split; [done|]. by rewrite Hadmin, sql_eqb_eq.
Qed.
End Administration.
