(* ===== verification/PasswordReset.v ===== *)
(** * PasswordReset: app/services/password_reset_service.py

    A request enqueues a job; the worker stores the hash of a fresh token and mails the
    token; confirming sets the password, revokes every session of the user and uses up all
    reset tokens of the user.  The mail is that of email_service.py and
    email_templates.py. *)

From S2P Require Import Prelude Py Effects Schema Settings Orm AuditTrail Directory JobQueue.
From S2P Require Import Providers Tenancy Users Auth.

Definition SEND_PASSWORD_RESET_EMAIL_JOB : string := "send_password_reset_email".
Definition PASSWORD_RESET_JOB_COMPLETED_PREFIX : string := "password_reset_job_completed:".
Definition PASSWORD_RESET_RESPONSE_MESSAGE : string :=
  "If an account exists for this email, password reset instructions were sent.".
Definition INVALID_RESET_TOKEN_MESSAGE : string := "Invalid or expired password reset token".

(** ** The e-mail *)

Definition build_password_reset_url (base_url token : string) : string :=
  let separator := if occurs_in (chars "?") (chars base_url) then "&"%string else "?"%string in
  (base_url ++ separator ++ "token=" ++ quote_plus token)%string.

Definition render_password_reset_subject : string := "Reset your password".

Definition newline : string := String "010" "".
Definition render_password_reset_body (reset_url : string) : string :=
  ("A password reset was requested for your account." ++ newline ++ newline
   ++ "Reset your password here: " ++ reset_url ++ newline ++ newline
   ++ "If you did not request this change, you can ignore this email.")%string.

Section PasswordReset.
Context `{Config} `{Providers}.

(** [SMTPEmailProvider.send_email] *)
Definition send_email (recipient subject body : string) : PyM unit :=
  if negb (truthy smtp_host) then raise (EmailDeliveryError "SMTP_HOST is not configured")
  else
    sent <- asks (smtp_deliver recipient subject body) ;;
    if sent then ret tt else raise (EmailDeliveryError "Failed to send email").

Definition send_password_reset_email (recipient raw_token : string) : PyM unit :=
  let reset_url := build_password_reset_url password_reset_url raw_token in
  send_email recipient render_password_reset_subject (render_password_reset_body reset_url).

(** ** The service *)

(** [user is None or not user.is_active or user.is_demo_user] *)
Definition can_reset (user : option User) : option User :=
  match user with
  | Some u => if negb (usr_is_active u) || usr_is_demo_user u then None else Some u
  | None => None
  end.

Definition enqueue_password_reset_email_job (user_id : Z) : PyM Job :=
  enqueue_job SEND_PASSWORD_RESET_EMAIL_JOB [("user_id"%string, user_id)].

Definition request_password_reset (email : string) (tenant_id : Z) : PyM string :=
  user <- get_user_by_email email tenant_id ;;
  match can_reset user with
  | None => ret PASSWORD_RESET_RESPONSE_MESSAGE
  | Some u =>
      enqueue_password_reset_email_job (usr_id u) ;;;
      create_audit_log (usr_tenant_id u) None PASSWORD_RESET_REQUESTED (Some (usr_id u)) None None
        true ;;;
      ret PASSWORD_RESET_RESPONSE_MESSAGE
  end.

Definition password_reset_job_completed_key (job_id : string) : string :=
  (PASSWORD_RESET_JOB_COMPLETED_PREFIX ++ job_id)%string.

Definition is_password_reset_job_completed (job_id : string) : PyM bool :=
  now <- now_utc ;;
  asks (fun w => negb (is_none (live_key now (password_reset_job_completed_key job_id) (w_redis w)))).

Definition is_password_reset_job_completed_in_db (job_id : string) : PyM bool :=
  row <- first (fun c => String.eqb (prc_job_id c) job_id) ;; ret (negb (is_none row)).

Definition is_password_reset_job_done (job_id : string) : PyM bool :=
  in_redis <- is_password_reset_job_completed job_id ;;
  if in_redis then ret true else is_password_reset_job_completed_in_db job_id.

Definition mark_password_reset_job_completed (job_id : string) : PyM unit :=
  now <- now_utc ;;
  redis_ (set_ex (password_reset_job_completed_key job_id) (RInt 1)
            (timedelta_seconds password_reset_job_completion_ttl_seconds) now).

Definition create_password_reset_token_and_send_email (user_id : Z) (job_id : option string)
    : PyM unit :=
  done_before <- match job_id with
                 | Some j => is_password_reset_job_done j
                 | None => ret false
                 end ;;
  if done_before then
    match job_id with
    | Some j =>
        completed <- is_password_reset_job_completed j ;;
        when (negb completed) (mark_password_reset_job_completed j)
    | None => ret tt
    end
  else
    user <- find_pk user_id (fun _ => true) ;;
    match can_reset user with
    | None => ret tt
    | Some u =>
        raw_token <- generate_password_reset_token ;;
        let token_hash := hash_password_reset_token raw_token in
        now <- now_utc ;;
        let expires_at := now + timedelta_minutes password_reset_token_expire_minutes in
        db_insert (fun id created_at =>
          MkPasswordResetToken id (usr_id u) token_hash expires_at None created_at) ;;;
        catch (send_password_reset_email (usr_email u) raw_token) (fun e =>
          match e with
          | EmailDeliveryError _ => Some (rollback ;;; raise e)
          | _ => None
          end) ;;;
        committed <- catch
          (match job_id with
           | Some j => db_insert (fun id at_ => MkPasswordResetJobCompletion id j at_) ;;; ret tt
           | None => ret tt
           end ;;;
           commit ;;; ret true)
          (fun e => match e with IntegrityError _ => Some (rollback ;;; ret false) | _ => None end) ;;
        match job_id with
        | Some j => when committed (mark_password_reset_job_completed j)
        | None => ret tt
        end
    end.

Definition raise_invalid_reset_token {A} : PyM A :=
  domain_error BadRequestError INVALID_RESET_TOKEN_MESSAGE.

Definition confirm_password_reset (token new_password : string) : PyM string :=
  let token_hash := hash_password_reset_token token in
  reset_token <- first (fun t => String.eqb (prt_token_hash t) token_hash) ;;
  match reset_token with
  | None => raise_invalid_reset_token
  | Some t =>
      now <- now_utc ;;
      if negb (is_none (prt_used_at t)) then raise_invalid_reset_token
      else if prt_expires_at t <? now then raise_invalid_reset_token
      else
        user <- find_pk (prt_user_id t) (fun _ => true) ;;
        match can_reset user with
        | None => raise_invalid_reset_token
        | Some u =>
            hashed <- hash_password new_password ;;
            u <- increment_user_token_version (u <| usr_hashed_password := hashed |>) ;;
            update_where (fun t => (prt_user_id t =? usr_id u) && is_none (prt_used_at t))
              (fun t => t <| prt_used_at := Some now |>) ;;;
            commit ;;;
            create_audit_log (usr_tenant_id u) None PASSWORD_RESET_CONFIRMED (Some (usr_id u)) None
              None true ;;;
            ret "Password has been reset."%string
        end
  end.

Definition cleanup_expired_password_reset_tokens : PyM Z :=
  now <- now_utc ;;
  deleted_count <- delete_where (fun t => prt_expires_at t <? now) ;;
  commit ;;;
  ret deleted_count.
End PasswordReset.
