(* ===== verification/AuthRoutes.v ===== *)
(** * AuthRoutes: app/api/routes/auth.py and signup.py

    The public endpoints, each behind its rate limit. *)

From S2P Require Import Prelude Py Effects Schema Settings Orm AuditTrail Directory JobQueue.
From S2P Require Import Tenancy Users RateLimit Auth PasswordReset.

Section AuthRoutes.
Context `{Config}.

Definition registration_disabled {A} : PyM A := raise (HTTPException 403 "Registration is disabled").

Definition register (request : Peer) (email password : string) (tenant_header : option string)
    : PyM User :=
  auth_register_rate_limit request ;;;
  tenant <- get_request_tenant tenant_header ;;
  if negb registration_enabled then registration_disabled
  else create_user email password (ten_id tenant) "user".

Definition login (request : Peer) (email password : string) (tenant_header : option string)
    : PyM (string * string) :=
  auth_login_rate_limit request ;;;
  tenant <- get_request_tenant tenant_header ;;
  login_user email password (ten_id tenant).

Definition me (token : string) (tenant_header : option string) : PyM UserRead :=
  current_user <- get_current_user token tenant_header ;;
  ret (UserRead_of current_user).

Definition refresh_token (request : Peer) (token : string) : PyM (string * string) :=
  auth_refresh_rate_limit request ;;;
  rotate_refresh_token token.

Definition logout (request : Peer) (token : string) : PyM unit :=
  auth_logout_rate_limit request ;;;
  logout_user token.

Definition request_reset_password (request : Peer) (email : string) (tenant_header : option string)
    : PyM string :=
  tenant <- get_request_tenant tenant_header ;;
  password_reset_rate_limit request email ;;;
  request_password_reset email (ten_id tenant).

Definition demo_login (request : Peer) : PyM (string * string) :=
  auth_demo_rate_limit request ;;;
  catch create_demo_session (fun e =>
    match e with
    | DomainError NotFoundError detail => Some (raise (HTTPException 503 detail))
    | _ => None
    end).

Definition confirm_reset_password (token new_password : string) : PyM string :=
  confirm_password_reset token new_password.

Definition signup (request : Peer) (salon_name : string) (slug : option string)
    (admin_email admin_password : string) : PyM (Tenant * User) :=
  tenant_signup_rate_limit request ;;;
  if negb registration_enabled then registration_disabled
  else signup_tenant salon_name slug admin_email admin_password.
End AuthRoutes.
