(* ===== verification/Onboarding.v ===== *)
(** * Onboarding: onboarding_service.py, owner_lead_service.py and plan_policy_service.py

    One request sets a business up with its staff, services and weekly hours; a salon owner
    who is not a tenant yet leaves a lead.  The specifications are those of
    app/schemas/onboarding.py, after their validation. *)

From S2P Require Import Prelude Py Effects Schema Settings Orm AuditTrail Directory Schedule.
From S2P Require Import Tenancy Users Auth.

(** ** Onboarding *)

Record OnboardingStaffItem : Type := MkOnboardingStaffItem {
  obs_name : string;
  obs_phone : option string }.

Record OnboardingServiceItem : Type := MkOnboardingServiceItem {
  obv_name : string;
  obv_duration_minutes : Z;
  obv_price_minor_units : option Z;
  obv_currency : option string }.

Record OnboardingWorkingHoursItem : Type := MkOnboardingWorkingHoursItem {
  obw_day_of_week : Z;
  obw_start_time : Z;
  obw_end_time : Z }.

Record OnboardingBusinessSpec : Type := MkOnboardingBusinessSpec {
  obb_name : string;
  obb_timezone : string;
  obb_phone : option string;
  obb_booking_mode : string;
  obb_external_booking_url : option string;
  obb_external_booking_label : option string;
  obb_external_booking_provider : option string;
  obb_subscription_plan : string }.

Record OnboardingSetupRequest : Type := MkOnboardingSetupRequest {
  ob_business : OnboardingBusinessSpec;
  ob_staff : list OnboardingStaffItem;
  ob_services : list OnboardingServiceItem;
  ob_working_hours : list OnboardingWorkingHoursItem }.

Record OnboardingSetupResponse : Type := MkOnboardingSetupResponse {
  or_business_id : Z;
  or_business_name : string;
  or_staff_count : nat;
  or_service_count : nat;
  or_working_hours_count : nat }.

Section Onboarding.
Context `{Config}.

(** [business.name = biz_spec.name] and the other assignments. *)
Definition described (spec : OnboardingBusinessSpec) (b : Business) : Business :=
  MkBusiness (biz_id b) (biz_tenant_id b) (obb_name spec) (obb_timezone spec) (biz_language b)
    (obb_phone spec) (biz_owner_notification_phone b) (biz_transfer_phone_number b) true
    (biz_transfer_enabled b) (biz_transfer_destination_policy b) (obb_booking_mode spec)
    (obb_external_booking_url spec) (obb_external_booking_label spec)
    (obb_external_booking_provider spec) (obb_subscription_plan spec) (biz_created_at b).

(** [Business(tenant_id=tenant_id)]: the other columns have their defaults. *)
Definition blank_business (tenant_id id now : Z) : Business :=
  MkBusiness id tenant_id "" "" "en" None None None true false POLICY_BUSINESS_PHONE
    INTERNAL_BOOKING None None None "full_booking" now.

Definition get_reusable_signup_business (tenant_id : Z) : PyM (option Business) :=
  self_signup_audit <- first (fun l => (aud_tenant_id l =? tenant_id)
    && bool_decide (aud_action l = TENANT_CREATED)
    && bool_decide (aud_source l = Some "self_signup"%string)) ;;
  match self_signup_audit with
  | None => ret None
  | Some _ =>
      businesses <- all (fun b => biz_tenant_id b =? tenant_id) ;;
      match businesses with
      | [business] =>
          staff <- first (fun s => stf_business_id s =? biz_id business) ;;
          service <- first (fun s => svc_business_id s =? biz_id business) ;;
          hours <- first (fun h => wh_business_id h =? biz_id business) ;;
          ret (if negb (is_none staff) || negb (is_none service) || negb (is_none hours)
               then None else Some business)
      | _ => ret None
      end
  end.

Definition setup_business_onboarding (tenant_id : Z) (request : OnboardingSetupRequest)
    : PyM OnboardingSetupResponse :=
  let biz_spec := ob_business request in
  reusable <- get_reusable_signup_business tenant_id ;;
  business <- match reusable with
              | Some b => let b := described biz_spec b in save b ;;; ret b
              | None => db_insert (fun id now => described biz_spec (blank_business tenant_id id now))
              end ;;
  for_each (ob_staff request) (fun item =>
    db_insert (fun id now =>
      MkStaff id tenant_id (biz_id business) (obs_name item) (obs_phone item) true now) ;;; ret tt) ;;;
  for_each (ob_services request) (fun item =>
    db_insert (fun id now =>
      MkService id tenant_id (biz_id business) (obv_name item) (obv_duration_minutes item) true
        (obv_price_minor_units item) (obv_currency item) false None now) ;;; ret tt) ;;;
  for_each (ob_working_hours request) (fun item =>
    db_insert (fun id _ =>
      MkWorkingHours id tenant_id (biz_id business) None (obw_day_of_week item)
        (obw_start_time item) (obw_end_time item)) ;;; ret tt) ;;;
  commit ;;;
  business <- refresh business ;;
  ret (MkOnboardingSetupResponse (biz_id business) (biz_name business)
         (length (ob_staff request)) (length (ob_services request))
         (length (ob_working_hours request))).
End Onboarding.

(** ** Owner leads *)

(** [OwnerLeadCreate] *)
Record OwnerLeadCreate : Type := MkOwnerLeadCreate {
  olc_business_name : string;
  olc_owner_name : option string;
  olc_email : string;
  olc_phone_number : string;
  olc_city : option string;
  olc_booking_mode_interest : string;
  olc_external_booking_url : option string;
  olc_message : option string }.

Section Leads.
Context `{Config}.

Definition create_owner_lead (body : OwnerLeadCreate) : PyM OwnerLead :=
  lead <- db_insert (fun id now =>
    MkOwnerLead id (olc_business_name body) (olc_owner_name body) (strip (lower (olc_email body)))
      (olc_phone_number body) (normalize_phone (olc_phone_number body)) (olc_city body)
      (olc_booking_mode_interest body) (olc_external_booking_url body) (olc_message body)
      LEAD_NEW now now) ;;
  commit ;;;
  refresh lead.

Definition get_owner_lead (lead_id : Z) : PyM (option OwnerLead) := find_pk lead_id (fun _ => true).

Definition require_owner_lead (lead_id : Z) : PyM OwnerLead :=
  lead <- get_owner_lead lead_id ;; require "Owner lead not found" lead.

Definition list_owner_leads (status : option LeadStatus) (skip limit : Z) : PyM (list OwnerLead) :=
  l <- all (fun l => match status with
                     | Some s => bool_decide (lead_status l = s)
                     | None => true
                     end) ;;
  ret (page skip limit (sort_by (fun l => - lead_created_at l) l)).

Definition update_owner_lead_status (lead_id : Z) (status : LeadStatus) : PyM OwnerLead :=
  lead <- require_owner_lead lead_id ;;
  let lead := lead <| lead_status := status |> in
  save lead ;;;
  commit ;;;
  refresh lead.
End Leads.

(** ** Plan policy *)

Record PlanPolicy : Type := MkPlanPolicy {
  sms_limit : option Z;
  ivr_minutes_limit : option Z;
  live_transfer_enabled : bool;
  callback_enabled : bool;
  max_transfer_call_seconds : option Z }.

Definition get_plan_policy (_ : Business) : PlanPolicy := MkPlanPolicy None None true true None.
