(* ===== verification/Seeds.v ===== *)
(** * Seeds: the scripts that fill a database and look after the failed jobs

    app/seed_demo_data.py (run before every deployment), app/seed_dev_data.py,
    app/seed_default_tenant.py, app/worker_failed_jobs.py and app/ops/restore_verification.py.
    The results a script logs are values; what it prints is not modelled further. *)

From S2P Require Import Prelude Py Effects Schema Settings Orm AuditTrail Directory JobQueue.
From S2P Require Import Tenancy Users Auth Onboarding.

(** ** The demo salon *)

Definition DEMO_BUSINESS_NAME : string := "Glamour Studio Demo".
Definition DEMO_USER_EMAIL : string := "demo@voxslot.demo".
Definition DEMO_INBOUND_PHONE : string := "+18174057514".
Definition DEMO_OWNER_NOTIFICATION_PHONE : string := "+48505460409".
Definition DEMO_TRANSFER_PHONE : string := "+48505460409".

Definition WEEKDAY_HOURS : list (Z * Z * Z) :=
  map (fun d => (Z.of_nat d, 9 * hour_us, 17 * hour_us)) (seq 0 5).
Definition SATURDAY_HOURS : list (Z * Z * Z) := [(5, 10 * hour_us, 14 * hour_us)].
Definition ALL_HOURS : list (Z * Z * Z) := WEEKDAY_HOURS ++ SATURDAY_HOURS.

Record StaffSeed : Type := MkStaffSeed { sd_staff_name : string; sd_staff_phone : string }.
Definition DEMO_STAFF : list StaffSeed :=
  [MkStaffSeed "Anna Kowalska" "+48100200301"; MkStaffSeed "Bartek Nowak" "+48100200302";
   MkStaffSeed "Celina Wiśniewska" "+48100200303"].

Record ServiceSeed : Type := MkServiceSeed {
  sd_service_name : string;
  sd_duration_minutes : Z;
  sd_price_minor_units : Z;
  sd_currency : string }.
Definition DEMO_SERVICES : list ServiceSeed :=
  [MkServiceSeed "Haircut" 30 5000 "PLN"; MkServiceSeed "Coloring" 90 15000 "PLN";
   MkServiceSeed "Manicure" 45 7000 "PLN"].

(** [results]: a list of messages under each heading. *)
Definition SeedResults : Type := list (string * list string).

Section Seeds.
Context `{Config}.

(** [settings.public_demo_user_email or DEMO_USER_EMAIL] *)
Definition seed_email : string :=
  if truthy public_demo_user_email then public_demo_user_email else DEMO_USER_EMAIL.

Definition seed_demo_user (tenant_id : Z) : PyM SeedResults :=
  let email := seed_email in
  existing <- first (fun u => String.eqb (usr_email u) email && (usr_tenant_id u =? tenant_id)) ;;
  match existing with
  | Some u =>
      if negb (usr_is_demo_user u)
      then raise (ValueError ("User '" ++ email ++ "' already exists with is_demo_user=False. "
        ++ "Either change PUBLIC_DEMO_USER_EMAIL to a different address, "
        ++ "or manually set is_demo_user=True on the existing user.")%string)
      else ret [("demo_user", ["skipped: " ++ email ++ " (already exists)"])]%string
  | None =>
      placeholder <- draw token_urlsafe ;;
      placeholder_password <- hash_password placeholder ;;
      user <- db_insert (fun id _ => MkUser id tenant_id email placeholder_password true "user" 0 true) ;;
      commit ;;;
      user <- refresh user ;;
      ret [("demo_user", ["created: " ++ email ++ " (id=" ++ string_of_Z (usr_id user) ++ ")"])]%string
  end.

(** The business of the demo: by its configured id, else by its name. *)
Definition find_demo_business (tenant_id : Z) : PyM (option Business) :=
  biz <- (if negb (public_demo_business_id =? 0)
          then find_pk public_demo_business_id (fun b => biz_tenant_id b =? tenant_id)
          else ret None) ;;
  match biz with
  | Some b => ret (Some b)
  | None => first (fun b => (biz_tenant_id b =? tenant_id)
                            && String.eqb (biz_name b) DEMO_BUSINESS_NAME)
  end.

Definition demo_business (tenant_id : Z) (demo_inbound_phone : string) (id now : Z) : Business :=
  (blank_business tenant_id id now)
    <| biz_name := DEMO_BUSINESS_NAME |> <| biz_timezone := "Europe/Warsaw" |>
    <| biz_phone := Some demo_inbound_phone |>
    <| biz_owner_notification_phone := Some DEMO_OWNER_NOTIFICATION_PHONE |>
    <| biz_transfer_phone_number := Some DEMO_TRANSFER_PHONE |>
    <| biz_is_active := true |> <| biz_transfer_enabled := true |>
    <| biz_transfer_destination_policy := POLICY_BUSINESS_PHONE |>.

(** The assignments that keep the phones of an existing salon in step with the settings. *)
Definition synced (demo_inbound_phone : string) (b : Business) : Business :=
  b <| biz_phone := Some demo_inbound_phone |>
    <| biz_owner_notification_phone := Some DEMO_OWNER_NOTIFICATION_PHONE |>
    <| biz_transfer_phone_number := Some DEMO_TRANSFER_PHONE |>.

Definition seed_demo_business (tenant_id : Z) (demo_inbound_phone : string)
    : PyM (Business * list string) :=
  biz <- find_demo_business tenant_id ;;
  match biz with
  | None =>
      biz <- db_insert (demo_business tenant_id demo_inbound_phone) ;;
      commit ;;;
      biz <- refresh biz ;;
      ret (biz, ["created: " ++ DEMO_BUSINESS_NAME]%string)
  | Some b =>
      save (synced demo_inbound_phone b) ;;;
      commit ;;;
      biz <- refresh (synced demo_inbound_phone b) ;;
      ret (biz, ["updated: " ++ DEMO_BUSINESS_NAME]%string)
  end.

(** The loop over a list of rows to add: what is there already is skipped. *)
Definition seed_each {S A} `{Entity A} (specs : list S) (exists_already : S -> bool)
    (label : S -> string) (mk : S -> Z -> Z -> A) : PyM (list string) :=
  map_m specs (fun s =>
    if exists_already s then ret ("skipped: " ++ label s)%string
    else db_insert (mk s) ;;; ret ("created: " ++ label s)%string).

Definition seed_staff (tenant_id business_id : Z) : PyM (list string) :=
  existing <- all (fun s => stf_business_id s =? business_id) ;;
  let existing_names := map stf_name existing in
  messages <- seed_each DEMO_STAFF
    (fun s => existsb (String.eqb (sd_staff_name s)) existing_names) sd_staff_name
    (fun s id now => MkStaff id tenant_id business_id (sd_staff_name s) (Some (sd_staff_phone s))
                       true now) ;;
  commit ;;;
  ret messages.

Definition seed_services (tenant_id business_id : Z) : PyM (list string) :=
  existing <- all (fun s => svc_business_id s =? business_id) ;;
  let existing_svc := map svc_name existing in
  messages <- seed_each DEMO_SERVICES
    (fun s => existsb (String.eqb (sd_service_name s)) existing_svc) sd_service_name
    (fun s id now => MkService id tenant_id business_id (sd_service_name s) (sd_duration_minutes s)
                       true (Some (sd_price_minor_units s)) (Some (sd_currency s)) false None now) ;;
  commit ;;;
  ret messages.

Definition seed_hours (tenant_id business_id : Z) : PyM (list string) :=
  existing <- all (fun h => (wh_business_id h =? business_id) && is_none (wh_staff_id h)) ;;
  let existing_wh := map wh_day_of_week existing in
  messages <- seed_each ALL_HOURS
    (fun h => existsb (Z.eqb h.1.1) existing_wh)
    (fun h => "day " ++ string_of_Z h.1.1)%string
    (fun h id _ => MkWorkingHours id tenant_id business_id None h.1.1 h.1.2 h.2) ;;
  commit ;;;
  ret messages.

(** [twilio_voice_number] is the setting of that name. *)
Definition seed_demo (twilio_voice_number : string) : PyM SeedResults :=
  tenant <- ensure_default_tenant true ;;
  let voice := strip twilio_voice_number in
  let demo_inbound_phone := if truthy voice then voice else DEMO_INBOUND_PHONE in
  biz <- seed_demo_business (ten_id tenant) demo_inbound_phone ;;
  staff_messages <- seed_staff (ten_id tenant) (biz_id biz.1) ;;
  service_messages <- seed_services (ten_id tenant) (biz_id biz.1) ;;
  hours_messages <- seed_hours (ten_id tenant) (biz_id biz.1) ;;
  ret [("business", biz.2); ("staff", staff_messages); ("services", service_messages);
       ("hours", hours_messages)]%string.

(** How the script ends: [SystemExit] with a message, or the results it logs. *)
Inductive ScriptEnd : Type :=
  | WrongEnvironment (message : string)
  | ConfigurationError (message : string)
  | ScriptFailed (exc : Exn)
  | Seeded (results : SeedResults).

(** The [try] of [main]. *)
Definition seed_all (twilio_voice_number : string) : PyM SeedResults :=
  tenant <- ensure_default_tenant true ;;
  results <- seed_demo twilio_voice_number ;;
  user_results <- seed_demo_user (ten_id tenant) ;;
  ret (results ++ user_results).

Definition seed_demo_main (environment twilio_voice_number : string) : PyM ScriptEnd :=
  if negb (String.eqb environment "development" || String.eqb environment "production")
  then ret (WrongEnvironment "seed_demo_data only runs when ENVIRONMENT=development or production")
  else
    catch (results <- seed_all twilio_voice_number ;; ret (Seeded results))
      (fun e => match e with
                | NonTermination => None
                | ValueError m => Some (ret (ConfigurationError ("[demo_user] ERROR: " ++ m)))
                | _ => Some (ret (ScriptFailed e))
                end).

(** ** Development users *)

Definition DEV_PASSWORD : string := "devpassword123".
Record DevUserSeed : Type := MkDevUserSeed { dev_email : string; dev_role : string }.
Definition DEV_USERS : list DevUserSeed :=
  [MkDevUserSeed "admin@example.local" "platform_admin"; MkDevUserSeed "user@example.local" "user"].

Definition seed_dev_users : PyM (list (string * string)) :=
  tenant <- ensure_default_tenant false ;;
  results <- map_m DEV_USERS (fun dev_user =>
    existing_user <- first (fun u => (usr_tenant_id u =? ten_id tenant)
                                     && String.eqb (usr_email u) (dev_email dev_user)) ;;
    match existing_user with
    | None =>
        hashed_password <- hash_password DEV_PASSWORD ;;
        db_insert (fun id _ => MkUser id (ten_id tenant) (dev_email dev_user) hashed_password true
                                 (dev_role dev_user) 0 false) ;;;
        ret (dev_email dev_user, "created"%string)
    | Some _ => ret (dev_email dev_user, "skipped"%string)
    end) ;;
  commit ;;;
  ret results.

Definition seed_dev_main (environment : string) : PyM (option (list (string * string))) :=
  if negb (String.eqb environment "development") then ret None
  else results <- seed_dev_users ;; ret (Some results).

Definition seed_default_tenant_main : PyM Tenant := ensure_default_tenant true.

(** ** Failed jobs *)

Inductive FailedJobsCommand : Type :=
  | ListFailed (limit : Z)
  | RequeueFailed (limit : option Z).

(** The subcommands with their defaults. *)
Definition parsed_command (name : string) : option FailedJobsCommand :=
  if String.eqb name "list" then Some (ListFailed 20)
  else if String.eqb name "requeue" then Some (RequeueFailed None)
  else None.

Definition worker_failed_jobs_main (command : FailedJobsCommand) : PyM (list Job + Z) :=
  match command with
  | ListFailed limit => jobs <- list_failed_jobs limit ;; ret (inl jobs)
  | RequeueFailed limit => requeued_count <- requeue_failed_jobs limit ;; ret (inr requeued_count)
  end.

(** ** The scripts as one type *)

Inductive Script : Type :=
  | SeedDemo (environment twilio_voice_number : string)
  | SeedDevUsers (environment : string)
  | SeedDefaultTenant
  | FailedJobs (command : FailedJobsCommand).

(** A run of a script: a session of its own, closed at the end. *)
Definition run_script (script : Script) : PyM unit :=
  match script with
  | SeedDemo environment voice => run_request (seed_demo_main environment voice) ;;; ret tt
  | SeedDevUsers environment => run_request (seed_dev_main environment) ;;; ret tt
  | SeedDefaultTenant => run_request seed_default_tenant_main ;;; ret tt
  | FailedJobs command => worker_failed_jobs_main command ;;; ret tt
  end.
End Seeds.

(** ** Restore verification *)

Definition CORE_RESTORE_TABLES : list string :=
  ["alembic_version"; "tenants"; "users"; "audit_logs"; "uploaded_files"; "idempotency_records";
   "webhook_events"; "business_memberships"]%string.

Definition newline : string := String (Ascii.ascii_of_nat 10) "".

Definition build_restore_verification_sql : string :=
  String.concat newline
    ("SELECT 1 AS restore_smoke_check;"%string
     :: map (fun table_name =>
          "SELECT EXISTS (SELECT 1 FROM information_schema.tables "
          ++ "WHERE table_schema = 'public' AND table_name = '" ++ table_name ++ "'"
          ++ ") AS has_" ++ table_name ++ ";")%string CORE_RESTORE_TABLES).
