(* ===== verification/SeedsBehaviour.v ===== *)
(** * SeedsBehaviour: seeding twice is seeding once

    The demo seed runs before every deployment.  A run that ended well leaves a state in which
    the next one finds everything: it creates nothing and changes nothing. *)

From S2P Require Import Prelude Py Effects Schema Settings Orm AuditTrail Directory Schedule JobQueue.
From S2P Require Import Frames Tenancy Users Auth Onboarding Seeds.

(** ** Queries with one answer *)

Lemma only_match {A} (t : gmap Z A) (p : A -> bool) r :
  (exists k, t !! k = Some r) -> p r = true ->
  (forall k s, t !! k = Some s -> p s = true -> s = r) ->
  head (List.filter p (rows_of t)) = Some r.
Proof.
  intros Hr Hp Hone. destruct (head _) as [s|] eqn:E.
  - apply head_filter_some in E as [Hin Hs]. apply in_rows_of in Hin as [k Hk]. f_equal. eauto.
  - rewrite head_filter_none in E. specialize (E r). rewrite Hp in E.
    discriminate E. by apply in_rows_of.
Qed.

Lemma no_match {A} (t : gmap Z A) (p : A -> bool) k s :
  head (List.filter p (rows_of t)) = None -> t !! k = Some s -> p s = false.
Proof. intros Hn Hs. rewrite head_filter_none in Hn. apply Hn, in_rows_of. eauto. Qed.

(** An inserted row that nothing matched before is the one match. *)
Lemma inserted_match {A} (t : gmap Z A) (p : A -> bool) k r :
  head (List.filter p (rows_of t)) = None -> p r = true ->
  head (List.filter p (rows_of (<[k := r]> t))) = Some r.
Proof.
  intros Hn Hp. apply only_match; [exists k; apply lookup_insert_eq | done|].
  intros j s. rewrite lookup_insert_Some. intros [[_ <-]|[_ Hs]]; [done|].
  intros Hps. by rewrite (no_match _ _ _ _ Hn Hs) in Hps.
Qed.

Lemma insert_ok `{Entity A} mk w r w' :
  db_insert (A := A) mk w = (Ok r, w') ->
  exists k, table (w_db w) !! k = None /\ r = mk k (w_now w)
    /\ w_db w' = on_table <[k := r]> (w_db w) /\ w_committed w' = w_committed w
    /\ w_now w' = w_now w.
Proof.
  unfold db_insert. destruct (table _ !! _) eqn:Ek; [done|]. destruct (violates _ _); [done|].
  intros [= <- <-]. eauto 10.
Qed.

(** ** The loop *)

(** A table is one component of the database. *)
Class Component (A : Type) `{Entity A} : Prop := {
  table_written : forall t db, table (on_table (fun _ => t) db) = t;
  written_over : forall f t db, on_table f (on_table (fun _ => t) db) = on_table (fun _ => f t) db;
  written_same : forall db, on_table (fun _ => table db) db = db }.

#[global] Instance Component_Business : Component Business.
Proof. by constructor; intros; [..| destruct db]. Qed.
#[global] Instance Component_Staff : Component Staff.
Proof. by constructor; intros; [..| destruct db]. Qed.
#[global] Instance Component_Service : Component Service.
Proof. by constructor; intros; [..| destruct db]. Qed.
#[global] Instance Component_WorkingHours : Component WorkingHours.
Proof. by constructor; intros; [..| destruct db]. Qed.

Lemma unchanged_table `{Component A} f db : f (table db) = table db -> on_table f db = db.
Proof.
  intros Hf. rewrite <- (written_same db) at 1. by rewrite written_over, Hf, written_same.
Qed.

Section Each.
Context {S A : Type} `{Component A} (exists_already : S -> bool) (label : S -> string)
  (mk : S -> Z -> Z -> A).

(** What it adds is there, and nothing else changed. *)
Lemma seed_each_adds specs w ms w' :
  seed_each specs exists_already label mk w = (Ok ms, w') ->
  exists t, w_db w' = on_table (fun _ => t) (w_db w) /\ table (w_db w) ⊆ t
    /\ w_committed w' = w_committed w
    /\ forall s, In s specs -> exists_already s = false ->
         exists k id now, t !! k = Some (mk s id now).
Proof.
  unfold seed_each. revert w ms. induction specs as [|s specs IH]; intros w ms Hr.
  { injection Hr as <- <-. exists (table (w_db w)). rewrite written_same. by repeat split. }
  cbn [map_m] in Hr. apply bind_ok_inv in Hr as (y & w1 & Hy & Hr).
  apply bind_ok_inv in Hr as (ys & w2 & Hys & Hr). injection Hr as <- <-.
  destruct (IH _ _ Hys) as (t & Hdb & Hsub & Hc & Hin). destruct (exists_already s) eqn:Es.
  - injection Hy as <- <-. exists t. repeat split; try done. intros x [<-|Hx] Hex; [congruence | eauto].
  - apply bind_ok_inv in Hy as (r & w3 & Hr & Hy). injection Hy as <- <-.
    apply insert_ok in Hr as (k & Hk & -> & Hd & Hc3 & Hn).
    rewrite <- (written_same (w_db w)), written_over in Hd. rewrite Hd in Hdb, Hsub.
    rewrite written_over in Hdb. rewrite table_written in Hsub.
    exists t. split; [done|]. split; [etrans; [|exact Hsub]; by apply insert_subseteq|].
    split; [congruence|]. intros x [<-|Hx] Hex; [|eauto].
    exists k, k, (w_now w). eapply lookup_weaken; [apply lookup_insert_eq | done].
Qed.

Lemma seed_each_skips specs w :
  (forall s, In s specs -> exists_already s = true) ->
  seed_each specs exists_already label mk w
  = (Ok (map (fun s => "skipped: " ++ label s)%string specs), w).
Proof.
  unfold seed_each. induction specs as [|s specs IH]; intros Hs; [done|]. cbn [map_m].
  rewrite (Hs s (or_introl eq_refl)). unfold bind at 1. cbn [ret].
  erewrite bind_ok; [reflexivity|]. apply IH. intros x Hx. apply Hs. by right.
Qed.

(** A loop of the script: the keys that are there are read first. *)
Context {K : Type} (p : A -> bool) (key : A -> K) (same : K -> K -> bool) (wanted : S -> K).

Definition present (t : gmap Z A) (s : S) : Prop :=
  exists k r, t !! k = Some r /\ p r = true /\ same (wanted s) (key r) = true.

Definition listed (db : DB) (s : S) : bool :=
  existsb (same (wanted s)) (map key (List.filter p (rows_of (table db)))).

Lemma listed_present db s : listed db s = true <-> present (table db) s.
Proof.
  unfold listed. rewrite existsb_exists. split.
  - intros (x & Hx & Hs). apply in_map_iff in Hx as (r & <- & Hr). apply filter_In in Hr as [Hr Hp].
    apply in_rows_of in Hr as [k Hk]. by exists k, r.
  - intros (k & r & Hr & Hp & Hs). exists (key r). split; [|done]. apply in_map_iff. exists r.
    split; [done|]. apply filter_In. split; [apply in_rows_of; eauto | done].
Qed.
End Each.

Section Loops.
Context {S A : Type} `{Component A} {K : Type} (label : S -> string) (mk : S -> Z -> Z -> A)
  (p : A -> bool) (key : A -> K) (same : K -> K -> bool) (wanted : S -> K).
Context (Hmk : forall s id now, p (mk s id now) = true /\ same (wanted s) (key (mk s id now)) = true).

Definition seed_loop (specs : list S) : PyM (list string) :=
  existing <- all p ;;
  messages <- seed_each specs (fun s => existsb (same (wanted s)) (map key existing)) label mk ;;
  commit ;;;
  ret messages.

Lemma loop_adds specs w ms w' :
  seed_loop specs w = (Ok ms, w') ->
  exists t, w_db w' = on_table (fun _ => t) (w_db w) /\ w_db w' = w_committed w'
    /\ forall s, In s specs -> present p key same wanted t s.
Proof.
  intros Hr. apply bind_ok_inv in Hr as (ex & w1 & He & Hr). injection He as <- <-.
  apply bind_ok_inv in Hr as (ms' & w2 & Hs & Hr).
  apply seed_each_adds in Hs as (t & Hd & Hsub & _ & Hin). apply bind_ok_inv in Hr as (u & w3 & Hw & Hr).
  injection Hw as <- <-. injection Hr as <- <-. exists t. split; [done|]. split; [done|].
  intros s Hs. specialize (Hin s Hs). destruct (existsb _ _) eqn:Ex.
  - apply (listed_present p key same wanted) in Ex as (k & r & Hk & Hr). exists k, r. split; [|done].
    by eapply lookup_weaken.
  - destruct (Hin eq_refl) as (k & id & now & Hk). exists k, (mk s id now). split; [done | apply Hmk].
Qed.

Lemma loop_skips specs w :
  w_db w = w_committed w -> (forall s, In s specs -> present p key same wanted (table (w_db w)) s) ->
  seed_loop specs w = (Ok (map (fun s => "skipped: " ++ label s)%string specs), w).
Proof.
  intros Hc Hs. unfold seed_loop, bind at 1, all, asks. erewrite bind_ok.
  2:{ apply seed_each_skips. intros s Hin. by apply (listed_present p key same wanted), Hs. }
  unfold bind, commit, modify, ret. rewrite Hc. by destruct w.
Qed.
End Loops.


Section Seeding.
Context `{Config}.

(** ** A seeded database *)

Definition default_tenant (db : DB) : option Tenant :=
  head (List.filter (fun t => String.eqb (ten_slug t) DEFAULT_TENANT_SLUG) (rows_of (tenants db))).

Definition named_demo (tenant_id : Z) (b : Business) : bool :=
  (biz_tenant_id b =? tenant_id) && String.eqb (biz_name b) DEMO_BUSINESS_NAME.

Definition configured_demo (db : DB) (tenant_id : Z) : option Business :=
  if negb (public_demo_business_id =? 0)
  then match businesses db !! public_demo_business_id with
       | Some b => if biz_tenant_id b =? tenant_id then Some b else None
       | None => None
       end
  else None.

(** What [find_demo_business] finds. *)
Definition the_demo (db : DB) (tenant_id : Z) : option Business :=
  match configured_demo db tenant_id with
  | Some b => Some b
  | None => head (List.filter (named_demo tenant_id) (rows_of (businesses db)))
  end.

Lemma run_find_demo t w : find_demo_business t w = (Ok (the_demo (w_db w) t), w).
Proof.
  unfold find_demo_business, the_demo, configured_demo.
  destruct (negb _); unfold bind, find_pk, first, asks, ret; simpl;
    [|reflexivity]. destruct (businesses (w_db w) !! _) as [b|]; [|reflexivity].
  by destruct (biz_tenant_id b =? t).
Qed.

Lemma the_demo_stored db t b :
  the_demo db t = Some b -> (exists k, businesses db !! k = Some b) /\ biz_tenant_id b = t.
Proof.
  unfold the_demo. destruct (configured_demo db t) as [c|] eqn:Ec; intros Hb.
  - injection Hb as ->. unfold configured_demo in Ec. destruct (negb _); [|done].
    destruct (businesses db !! public_demo_business_id) as [c|] eqn:El; [|done].
    destruct (biz_tenant_id c =? t) eqn:Et; [|done]. injection Ec as ->. bool_props. eauto.
  - apply head_filter_some in Hb as [Hin Hn]. apply in_rows_of in Hin. unfold named_demo in Hn.
    by bool_props.
Qed.

(** The salon of the tenant has the name of the demo at most once. *)
Definition one_demo_salon (db : DB) : Prop :=
  keyed (businesses db) /\
  forall k1 k2 b1 b2, businesses db !! k1 = Some b1 -> businesses db !! k2 = Some b2 ->
    biz_name b1 = DEMO_BUSINESS_NAME -> biz_name b2 = DEMO_BUSINESS_NAME ->
    biz_tenant_id b1 = biz_tenant_id b2 -> k1 = k2.

Definition demo_user (db : DB) (tenant_id : Z) : option User :=
  head (List.filter (fun u => String.eqb (usr_email u) seed_email && (usr_tenant_id u =? tenant_id))
          (rows_of (users db))).

Definition inbound_phone (twilio_voice_number : string) : string :=
  let voice := strip twilio_voice_number in if truthy voice then voice else DEMO_INBOUND_PHONE.

Definition salon_seeded (db : DB) (t : Tenant) (phone : string) (b : Business) : Prop :=
  the_demo db (ten_id t) = Some b /\ businesses db !! biz_id b = Some b /\ synced phone b = b.

(** ** Single steps *)

Definition clean (w : World) : Prop := w_db w = w_committed w.

Lemma same_db (w : World) f : f (w_db w) = w_db w -> w <| w_db ::= f |> = w.
Proof. intros Hf. destruct w. cbn in *. unfold update_field, eta_World. simpl. by rewrite Hf. Qed.

Lemma commit_clean w : clean w -> commit w = (Ok tt, w).
Proof. intros Hc. unfold commit, modify. rewrite Hc. by destruct w. Qed.

Lemma commit_inv w u w' :
  commit w = (Ok u, w') -> w_db w' = w_db w /\ clean w' /\ w_now w' = w_now w.
Proof. by intros [= <- <-]. Qed.

Lemma tenant_step w t w' :
  clean w -> ensure_default_tenant true w = (Ok t, w') ->
  default_tenant (w_db w') = Some t /\ clean w'
  /\ exists ts, w_db w' = (w_db w) <| tenants := ts |>.
Proof.
  intros Hc. unfold ensure_default_tenant, get_tenant_by_slug, bind at 1. rewrite run_first.
  change (head _) with (default_tenant (w_db w)). destruct (default_tenant (w_db w)) as [t0|] eqn:Et.
  - intros [= <- <-]. split; [done|]. split; [done|]. exists (tenants (w_db w)).
    by destruct (w_db w).
  - intros Hr. apply bind_ok_inv in Hr as (r & w1 & Hi & Hr).
    apply insert_ok in Hi as (k & Hk & -> & Hd & _). apply bind_ok_inv in Hr as (u & w2 & Hw2 & Hr).
    apply commit_inv in Hw2 as (Hd2 & Hc2 & _). injection Hr as <- <-.
    rewrite Hd2, Hd. split; [|split; [done | by eexists]].
    apply inserted_match; [exact Et | reflexivity].
Qed.

Lemma tenant_found w t :
  default_tenant (w_db w) = Some t -> ensure_default_tenant true w = (Ok t, w).
Proof.
  intros Ht. unfold ensure_default_tenant, get_tenant_by_slug, bind at 1. rewrite run_first.
  change (head _) with (default_tenant (w_db w)). by rewrite Ht.
Qed.

Lemma synced_again phone b : synced phone (synced phone b) = synced phone b.
Proof. reflexivity. Qed.

Lemma synced_created t phone id now :
  synced phone (demo_business t phone id now) = demo_business t phone id now.
Proof. cbv. reflexivity. Qed.

Lemma named_synced t phone b : named_demo t (synced phone b) = named_demo t b.
Proof. reflexivity. Qed.

Lemma named_one db t b :
  one_demo_salon db -> head (List.filter (named_demo t) (rows_of (businesses db))) = Some b ->
  businesses db !! biz_id b = Some b /\ named_demo t b = true
  /\ forall k s, businesses db !! k = Some s -> named_demo t s = true -> s = b.
Proof.
  intros [Hk Hone] Hb. apply head_filter_some in Hb as [Hin Hb].
  assert (Hbb : businesses db !! biz_id b = Some b).
  { apply in_rows_of in Hin as [k Hkb]. pose proof (Hk _ _ Hkb) as Hid. simpl in Hid. by subst k. }
  split; [done|]. split; [done|]. intros k s Hs Hns. unfold named_demo in Hb, Hns. bool_props.
  repeat match goal with Hq : String.eqb _ _ = true |- _ => apply String.eqb_eq in Hq end.
  assert (k = biz_id b) as -> by (eapply Hone; eauto; congruence). congruence.
Qed.

Lemma the_demo_synced db t phone b :
  one_demo_salon db -> the_demo db t = Some b ->
  businesses db !! biz_id b = Some b
  /\ the_demo (db <| businesses := <[biz_id b := synced phone b]> (businesses db) |>) t
     = Some (synced phone b).
Proof.
  intros Hone. unfold the_demo. destruct (configured_demo db t) as [c|] eqn:Ec; intros Hb.
  - injection Hb as ->. unfold configured_demo in *. destruct (negb _); [|done]. simpl.
    destruct (businesses db !! public_demo_business_id) as [c|] eqn:El; [|done].
    destruct (biz_tenant_id c =? t) eqn:Et; [|done]. injection Ec as ->.
    pose proof (proj1 Hone _ _ El) as Hid. simpl in Hid. rewrite Hid. split; [done|].
    rewrite lookup_insert_eq. simpl. by rewrite Et.
  - destruct (named_one _ _ _ Hone Hb) as (Hbb & Hn & Hall). split; [exact Hbb|].
    replace (configured_demo _ t) with (@None Business).
    + apply only_match; [exists (biz_id b); apply lookup_insert_eq | exact Hn|].
      intros j s. simpl. rewrite lookup_insert_Some. intros [[_ <-]|[Hj Hs]] Hns; [done|].
      pose proof (Hall j s Hs Hns) as ->. pose proof (proj1 Hone _ _ Hs) as Hid. by simpl in Hid.
    + symmetry. unfold configured_demo in *. destruct (negb _); [|done]. simpl.
      rewrite lookup_insert. case_decide as Hd; [|exact Ec]. rewrite <- Hd, Hbb in Ec. simpl.
      exact (match biz_tenant_id b =? t as c return (if c then Some b else None) = None ->
               (if c then Some (synced phone b) else None) = None with
             | true => fun Hx => ltac:(discriminate Hx) | false => fun _ => eq_refl end Ec).
Qed.

Lemma the_demo_created db t phone k now :
  the_demo db t = None -> businesses db !! k = None ->
  the_demo (db <| businesses := <[k := demo_business t phone k now]> (businesses db) |>) t
  = Some (demo_business t phone k now).
Proof.
  unfold the_demo. destruct (configured_demo db t) as [c|] eqn:Ec; [done|]. intros Hn Hk.
  unfold configured_demo in *. simpl. destruct (negb _).
  - rewrite lookup_insert. case_decide as Hd; [by simpl; rewrite Z.eqb_refl|].
    rewrite Ec. apply inserted_match; [exact Hn|]. unfold named_demo. simpl. by rewrite Z.eqb_refl.
  - apply inserted_match; [exact Hn|]. unfold named_demo. simpl. by rewrite Z.eqb_refl.
Qed.

Lemma business_step w t phone r w' :
  clean w -> one_demo_salon (w_db w) ->
  seed_demo_business (ten_id t) phone w = (Ok r, w') ->
  salon_seeded (w_db w') t phone r.1 /\ clean w'
  /\ exists bs, w_db w' = (w_db w) <| businesses := bs |>.
Proof.
  intros Hc Hone. unfold seed_demo_business, bind at 1. rewrite run_find_demo.
  destruct (the_demo (w_db w) (ten_id t)) as [b|] eqn:Eb; intros Hr.
  - apply bind_ok_inv in Hr as (u & w1 & Hs & Hr). injection Hs as <- <-.
    apply bind_ok_inv in Hr as (u & w2 & Hw2 & Hr). apply commit_inv in Hw2 as (Hd2 & Hc2 & _).
    apply bind_ok_inv in Hr as (b' & w3 & Hb' & Hr). unfold refresh, asks in Hb'.
    injection Hb' as <- <-. injection Hr as <- <-. simpl in Hd2. rewrite Hd2. simpl.
    rewrite lookup_insert_eq. simpl. split; [|split; [done | by eexists]].
    destruct (the_demo_synced _ _ phone _ Hone Eb) as [_ Hd]. split; [exact Hd|].
    split; [apply lookup_insert_eq | done].
  - apply bind_ok_inv in Hr as (b & w1 & Hi & Hr).
    apply insert_ok in Hi as (k & Hk & -> & Hd & _). apply bind_ok_inv in Hr as (u & w2 & Hw2 & Hr).
    apply commit_inv in Hw2 as (Hd2 & Hc2 & _). apply bind_ok_inv in Hr as (b' & w3 & Hb' & Hr).
    unfold refresh, asks in Hb'. injection Hb' as <- <-. injection Hr as <- <-.
    rewrite Hd2, Hd. simpl. rewrite lookup_insert_eq. simpl.
    split; [|split; [done | by eexists]].
    split; [by apply the_demo_created|]. split; [apply lookup_insert_eq | apply synced_created].
Qed.

(** The loops: what was missing is added, and after that all is there. *)
Definition staff_present (t : gmap Z Staff) (b : Z) : StaffSeed -> Prop :=
  present (fun s => stf_business_id s =? b) stf_name String.eqb sd_staff_name t.
Definition service_present (t : gmap Z Service) (b : Z) : ServiceSeed -> Prop :=
  present (fun s => svc_business_id s =? b) svc_name String.eqb sd_service_name t.
Definition hours_present (t : gmap Z WorkingHours) (b : Z) : Z * Z * Z -> Prop :=
  present (fun h => (wh_business_id h =? b) && is_none (wh_staff_id h)) wh_day_of_week Z.eqb
    (fun h => h.1.1) t.

Lemma seed_staff_loop t b :
  seed_staff t b = seed_loop sd_staff_name
    (fun s id now => MkStaff id t b (sd_staff_name s) (Some (sd_staff_phone s)) true now)
    (fun s => stf_business_id s =? b) stf_name String.eqb sd_staff_name DEMO_STAFF.
Proof. reflexivity. Qed.
Lemma seed_services_loop t b :
  seed_services t b = seed_loop sd_service_name
    (fun s id now => MkService id t b (sd_service_name s) (sd_duration_minutes s) true
       (Some (sd_price_minor_units s)) (Some (sd_currency s)) false None now)
    (fun s => svc_business_id s =? b) svc_name String.eqb sd_service_name DEMO_SERVICES.
Proof. reflexivity. Qed.
Lemma seed_hours_loop t b :
  seed_hours t b = seed_loop (fun h => "day " ++ string_of_Z h.1.1)%string
    (fun h id _ => MkWorkingHours id t b None h.1.1 h.1.2 h.2)
    (fun h => (wh_business_id h =? b) && is_none (wh_staff_id h)) wh_day_of_week Z.eqb
    (fun h => h.1.1) ALL_HOURS.
Proof. reflexivity. Qed.

Ltac made_rows := intros; simpl; rewrite ?Z.eqb_refl, ?String.eqb_refl; by split.

(** The state that a run of the seed leaves. *)
Record seeded (db : DB) (t : Tenant) (phone : string) (b : Business) : Prop := MkSeeded {
  sd_tenant : default_tenant db = Some t;
  sd_salon : salon_seeded db t phone b;
  sd_staff : forall s, In s DEMO_STAFF -> staff_present (staff db) (biz_id b) s;
  sd_services : forall s, In s DEMO_SERVICES -> service_present (services db) (biz_id b) s;
  sd_hours : forall h, In h ALL_HOURS -> hours_present (working_hours db) (biz_id b) h;
  sd_user : exists u, demo_user db (ten_id t) = Some u /\ usr_is_demo_user u = true }.

(** What a run logs that finds everything. *)
Definition all_skipped : SeedResults :=
  [("business", ["updated: " ++ DEMO_BUSINESS_NAME]);
   ("staff", map (fun s => "skipped: " ++ sd_staff_name s) DEMO_STAFF);
   ("services", map (fun s => "skipped: " ++ sd_service_name s) DEMO_SERVICES);
   ("hours", map (fun h => "skipped: day " ++ string_of_Z h.1.1) ALL_HOURS);
   ("demo_user", ["skipped: " ++ seed_email ++ " (already exists)"])]%string.

Lemma demo_business_found w t phone b :
  clean w -> salon_seeded (w_db w) t phone b ->
  seed_demo_business (ten_id t) phone w = (Ok (b, ["updated: " ++ DEMO_BUSINESS_NAME]%string), w).
Proof.
  intros Hc (Hd & Hb & Hs). unfold seed_demo_business, bind at 1. rewrite run_find_demo, Hd, Hs.
  unfold bind at 1, save, modify.
  rewrite (same_db w) by (apply (unchanged_table (A := Business)), insert_id, Hb).
  rewrite (bind_ok _ _ _ _ _ (commit_clean w Hc)). unfold bind, refresh, asks. simpl. by rewrite Hb.
Qed.

Lemma seeding_again voice w t b :
  clean w -> seeded (w_db w) t (inbound_phone voice) b ->
  seed_all voice w = (Ok all_skipped, w).
Proof.
  intros Hc [Ht Hs Hst Hsv Hh (u & Hu & Hdemo)].
  unfold seed_all. rewrite (bind_ok _ _ _ _ _ (tenant_found w t Ht)).
  assert (Hd : seed_demo voice w = (Ok (take 4 all_skipped), w)).
  { unfold seed_demo. rewrite (bind_ok _ _ _ _ _ (tenant_found w t Ht)). cbv zeta.
    fold (inbound_phone voice). rewrite (bind_ok _ _ _ _ _ (demo_business_found w t _ b Hc Hs)). cbn [fst snd].
    rewrite seed_staff_loop.
    erewrite bind_ok; [|apply loop_skips; [exact Hc | exact Hst]].
    rewrite seed_services_loop.
    erewrite bind_ok; [|apply loop_skips; [exact Hc | exact Hsv]].
    rewrite seed_hours_loop.
    erewrite bind_ok; [|apply loop_skips; [exact Hc | exact Hh]]. reflexivity. }
  rewrite (bind_ok _ _ _ _ _ Hd). erewrite bind_ok; [reflexivity|].
  unfold seed_demo_user, bind at 1. rewrite run_first. change (head _) with (demo_user (w_db w) (ten_id t)).
  by rewrite Hu, Hdemo.
Qed.

(** ** The first run *)

Lemma user_step w t r w' :
  clean w -> seed_demo_user t w = (Ok r, w') ->
  (exists u, demo_user (w_db w') t = Some u /\ usr_is_demo_user u = true) /\ clean w'
  /\ exists us, w_db w' = (w_db w) <| users := us |>.
Proof.
  intros Hc. unfold seed_demo_user, bind at 1. rewrite run_first.
  change (head _) with (demo_user (w_db w) t). destruct (demo_user (w_db w) t) as [u|] eqn:Eu.
  - destruct (usr_is_demo_user u) eqn:Ed; [|done]. intros [= <- <-]. split; [by exists u|].
    split; [done|]. exists (users (w_db w)). by destruct (w_db w).
  - intros Hr. apply bind_ok_inv in Hr as (p & w1 & Hp & Hr). injection Hp as <- <-.
    apply bind_ok_inv in Hr as (h & w2 & Hh & Hr). injection Hh as <- <-.
    apply bind_ok_inv in Hr as (u & w3 & Hi & Hr). apply insert_ok in Hi as (k & Hk & -> & Hd & _).
    apply bind_ok_inv in Hr as (x & w4 & Hw4 & Hr). apply commit_inv in Hw4 as (Hd4 & Hc4 & _).
    apply bind_ok_inv in Hr as (u' & w5 & Hu' & Hr). injection Hu' as <- <-. injection Hr as <- <-.
    rewrite Hd4, Hd. simpl. split; [|split; [done | by eexists]].
    eexists. split; [apply inserted_match; [exact Eu | simpl]|done].
    by rewrite String.eqb_refl, Z.eqb_refl.
Qed.

Lemma seeding_seeds voice w res w1 :
  clean w -> one_demo_salon (w_db w) -> seed_all voice w = (Ok res, w1) ->
  clean w1 /\ exists t b, seeded (w_db w1) t (inbound_phone voice) b.
Proof.
  intros Hc Hone Hr. unfold seed_all in Hr. apply bind_ok_inv in Hr as (t & wa & Ht & Hr).
  apply tenant_step in Ht as (Ht & Hca & ts & Hda); [|done].
  apply bind_ok_inv in Hr as (rs & wb & Hs & Hr). apply bind_ok_inv in Hr as (ru & wc & Hu & Hr).
  injection Hr as <- <-. unfold seed_demo in Hs.
  rewrite (bind_ok _ _ _ _ _ (tenant_found wa t Ht)) in Hs. cbv zeta in Hs.
  fold (inbound_phone voice) in Hs. apply bind_ok_inv in Hs as (b & w2 & Hb & Hs).
  apply business_step in Hb as (Hb & Hc2 & bs & Hd2); [|done | by rewrite Hda].
  apply bind_ok_inv in Hs as (m3 & w3 & Hs3 & Hs). rewrite seed_staff_loop in Hs3.
  apply loop_adds in Hs3 as (x3 & Hd3 & Hc3 & Hin3); [|made_rows].
  apply bind_ok_inv in Hs as (m4 & w4 & Hs4 & Hs). rewrite seed_services_loop in Hs4.
  apply loop_adds in Hs4 as (x4 & Hd4 & Hc4 & Hin4); [|made_rows].
  apply bind_ok_inv in Hs as (m5 & w5 & Hs5 & Hs). rewrite seed_hours_loop in Hs5.
  apply loop_adds in Hs5 as (x5 & Hd5 & Hc5 & Hin5); [|made_rows].
  injection Hs as <- <-. apply user_step in Hu as (Hu & Hcu & us & Hdu); [|done].
  split; [done|]. exists t, b.1. rewrite Hdu in *. rewrite Hd5, Hd4, Hd3.
  constructor; try done. rewrite Hd2. exact Ht.
Qed.

Lemma main_seeds environment voice w res w1 :
  run_request (seed_demo_main environment voice) w = (Ok (Seeded res), w1) ->
  (String.eqb environment "development" || String.eqb environment "production") = true
  /\ exists w', seed_all voice (open_session w) = (Ok res, w') /\ w1 = open_session w'.
Proof.
  unfold run_request, seed_demo_main. destruct (_ || _); simpl; [|done].
  unfold catch, bind. destruct (seed_all voice (open_session w)) as [[r|e] w'] eqn:Es.
  - intros [= <- <-]. eauto.
  - by destruct e.
Qed.


End Seeding.
