(* ===== verification/Schemas.v ===== *)
(** * Schemas: the request bodies of app/schemas

    A validator takes the members of a body with their defaults filled in and their types
    parsed, and answers the body a handler receives or the errors of a 422 response.  As in
    Pydantic the constraints of all fields are tried, in the order of their declaration; a
    model validator runs when no field failed, and the first that fails is reported. *)

From S2P Require Import Prelude Py Effects Schema Settings Orm AuditTrail Directory Schedule.
From S2P Require Import Onboarding.

(** ** Errors and constraints *)

Inductive Violation : Type :=
  | string_too_short (min_length : Z)
  | string_too_long (max_length : Z)
  | greater_than_equal (ge : Z)
  | less_than_equal (le : Z)
  | greater_than (gt : Z)
  | enum_mismatch (expected : list string)
  | email_invalid
  | value_error (message : string).

(** [loc] is the path of the field inside the body; a model validator has the path of the
    model. *)
Record FieldError : Type := MkFieldError {
  fe_loc : list string;
  fe_violation : Violation }.

Definition Validated (A : Type) : Type := Result (list FieldError) A.

Definition Constraint (A : Type) : Type := A -> option Violation.

Definition min_length (n : Z) : Constraint string := fun s =>
  if str_len s <? n then Some (string_too_short n) else None.
Definition max_length (n : Z) : Constraint string := fun s =>
  if n <? str_len s then Some (string_too_long n) else None.
Definition at_least (n : Z) : Constraint Z := fun v => if v <? n then Some (greater_than_equal n) else None.
Definition at_most (n : Z) : Constraint Z := fun v => if n <? v then Some (less_than_equal n) else None.
Definition above (n : Z) : Constraint Z := fun v => if v <=? n then Some (greater_than n) else None.
Definition one_of (values : list string) : Constraint string := fun s =>
  if existsb (String.eqb s) values then None else Some (enum_mismatch values).

Definition both {A} (c d : Constraint A) : Constraint A := fun v =>
  match c v with Some e => Some e | None => d v end.

(** [T | None] *)
Definition nullable {A} (c : Constraint A) : Constraint (option A) := fun v =>
  match v with Some v => c v | None => None end.

Definition length_between (lo hi : Z) : Constraint string := both (min_length lo) (max_length hi).
Definition between (lo hi : Z) : Constraint Z := both (at_least lo) (at_most hi).

Definition field {A} (name : string) (c : Constraint A) (v : A) : list FieldError :=
  match c v with Some e => [MkFieldError [name] e] | None => [] end.

(** A field with a [field_validator(mode="after")], which may replace the value. *)
Definition field_after {A} (name : string) (c : Constraint A) (validator : A -> Result string A)
    (v : A) : list FieldError * A :=
  match c v with
  | Some e => ([MkFieldError [name] e], v)
  | None => match validator v with
            | Ok v' => ([], v')
            | Raise message => ([MkFieldError [name] (value_error message)], v)
            end
  end.

(** A field that is itself a model. *)
Definition nested {A} (path : list string) (r : Validated A) : list FieldError :=
  match r with
  | Ok _ => []
  | Raise errors => map (fun e => MkFieldError (path ++ fe_loc e) (fe_violation e)) errors
  end.
Definition items {A} (name : string) (validate : A -> Validated A) (l : list A) : list FieldError :=
  concat (imap (fun i x => nested [name; string_of_Z (Z.of_nat i)] (validate x)) l).

(** The end of a validation: [rules] are the failure conditions of the model validators. *)
Definition model {A} (errors : list FieldError) (rules : list (bool * string)) (body : A)
    : Validated A :=
  match errors with
  | [] => match List.find fst rules with
          | Some (_, message) => Raise [MkFieldError [] (value_error message)]
          | None => Ok body
          end
  | _ => Raise errors
  end.

(** ** Enumerations *)

Definition TransferDestinationPolicy : list string := ["business_phone"; "staff"]%string.
Definition BookingMode : list string := ["internal_booking"; "external_booking_link"]%string.
Definition ExternalBookingProvider : list string := ["booksy"; "other"]%string.
Definition SubscriptionPlan : list string :=
  ["booksy_lite"; "booksy_pro"; "full_booking"; "full_booking_pro"]%string.
Definition BusinessLanguage : list string := ["en"; "pl"]%string.
Definition BookingSource : list string := ["api"; "ivr"]%string.
Definition LeadBookingModeInterest : list string :=
  ["external_booking_link"; "standalone_booking"; "unsure"]%string.
Definition UserRole : list string := ["user"; "admin"; "platform_admin"]%string.

(** ** business.py *)

Definition ALLOWED_URL_SCHEMES : list string := ["http://"; "https://"]%string.

(** ["\n" in s or "\r" in s] *)
Definition has_newline (s : string) : bool :=
  existsb (fun c => let n := N_of_ascii c in (n =? 10)%N || (n =? 13)%N) (chars s).

Definition validate_booking_url (url : option string) : Result string (option string) :=
  match url with
  | None => Ok None
  | Some url =>
      let url := strip url in
      if has_newline url then Raise "external_booking_url must not contain newlines"%string
      else if negb (existsb (fun s => starts_with (chars s) (chars (lower url)))
                      ALLOWED_URL_SCHEMES)
      then Raise "external_booking_url must start with http:// or https://"%string
      else Ok (Some url)
  end.

Definition validate_booking_label (label : option string) : Result string (option string) :=
  match label with
  | None => Ok None
  | Some label =>
      if has_newline label then Raise "external_booking_label must not contain newlines"%string
      else Ok (Some label)
  end.

(** [external_url_required_when_external_mode], which three models share. *)
Definition url_required (external : bool) (url : option string) : bool * string :=
  (external && negb (opt_truthy url),
   "external_booking_url is required when booking_mode is external_booking_link"%string).

Definition is_external (mode : string) : bool := String.eqb mode MODE_EXTERNAL_BOOKING_LINK.

#[global] Instance eta_BusinessFields : Eta BusinessFields := fun f =>
  MkBusinessFields (bf_language f) (bf_phone f) (bf_owner_notification_phone f)
    (bf_transfer_phone_number f) (bf_transfer_enabled f) (bf_transfer_destination_policy f)
    (bf_booking_mode f) (bf_external_booking_url f) (bf_external_booking_label f)
    (bf_external_booking_provider f) (bf_subscription_plan f).

Definition validate_BusinessCreate (name timezone : string) (f : BusinessFields)
    : Validated (string * string * BusinessFields) :=
  let '(url_errors, url) := field_after "external_booking_url" (nullable (max_length 512))
                              validate_booking_url (bf_external_booking_url f) in
  let '(label_errors, label) := field_after "external_booking_label" (nullable (max_length 128))
                                  validate_booking_label (bf_external_booking_label f) in
  model
    (field "name" (length_between 1 255) name
     ++ field "timezone" (length_between 1 64) timezone
     ++ field "language" (one_of BusinessLanguage) (bf_language f)
     ++ field "phone" (nullable (max_length 32)) (bf_phone f)
     ++ field "owner_notification_phone" (nullable (max_length 32)) (bf_owner_notification_phone f)
     ++ field "transfer_phone_number" (nullable (max_length 32)) (bf_transfer_phone_number f)
     ++ field "transfer_destination_policy" (one_of TransferDestinationPolicy)
          (bf_transfer_destination_policy f)
     ++ field "booking_mode" (one_of BookingMode) (bf_booking_mode f)
     ++ url_errors ++ label_errors
     ++ field "external_booking_provider" (nullable (one_of ExternalBookingProvider))
          (bf_external_booking_provider f)
     ++ field "subscription_plan" (one_of SubscriptionPlan) (bf_subscription_plan f))
    [url_required (is_external (bf_booking_mode f)) url]
    (name, timezone, f <| bf_external_booking_url := url |> <| bf_external_booking_label := label |>).

#[global] Instance eta_BusinessUpdate : Eta BusinessUpdate := fun u =>
  MkBusinessUpdate (bu_name u) (bu_timezone u) (bu_language u) (bu_phone u)
    (bu_owner_notification_phone u) (bu_transfer_phone_number u) (bu_is_active u)
    (bu_transfer_enabled u) (bu_transfer_destination_policy u) (bu_booking_mode u)
    (bu_external_booking_url u) (bu_external_booking_label u) (bu_external_booking_provider u)
    (bu_subscription_plan u).

Definition validate_BusinessUpdate (u : BusinessUpdate) : Validated BusinessUpdate :=
  let '(url_errors, url) := field_after "external_booking_url" (nullable (max_length 512))
                              validate_booking_url (bu_external_booking_url u) in
  let '(label_errors, label) := field_after "external_booking_label" (nullable (max_length 128))
                                  validate_booking_label (bu_external_booking_label u) in
  model
    (field "name" (nullable (length_between 1 255)) (bu_name u)
     ++ field "timezone" (nullable (length_between 1 64)) (bu_timezone u)
     ++ field "language" (nullable (one_of BusinessLanguage)) (bu_language u)
     ++ field "phone" (nullable (max_length 32)) (bu_phone u)
     ++ field "owner_notification_phone" (nullable (max_length 32)) (bu_owner_notification_phone u)
     ++ field "transfer_phone_number" (nullable (max_length 32)) (bu_transfer_phone_number u)
     ++ field "transfer_destination_policy" (nullable (one_of TransferDestinationPolicy))
          (bu_transfer_destination_policy u)
     ++ field "booking_mode" (nullable (one_of BookingMode)) (bu_booking_mode u)
     ++ url_errors ++ label_errors
     ++ field "external_booking_provider" (nullable (one_of ExternalBookingProvider))
          (bu_external_booking_provider u)
     ++ field "subscription_plan" (nullable (one_of SubscriptionPlan)) (bu_subscription_plan u))
    [url_required (match bu_booking_mode u with Some m => is_external m | None => false end) url]
    (u <| bu_external_booking_url := url |> <| bu_external_booking_label := label |>).

(** ** service.py, staff.py, customer.py and client.py *)

(** [deposit_fields_required_when_deposit_required] *)
Definition validate_ServiceCreate (name : string) (duration_minutes : Z) (price_minor_units : option Z)
    (currency : option string) (deposit_required : bool) (deposit_minor_units : option Z)
    : Validated unit :=
  model
    (field "name" (length_between 1 255) name
     ++ field "duration_minutes" (between 1 480) duration_minutes
     ++ field "price_minor_units" (nullable (at_least 0)) price_minor_units
     ++ field "currency" (nullable (length_between 3 3)) currency
     ++ field "deposit_minor_units" (nullable (at_least 0)) deposit_minor_units)
    [(deposit_required && (is_none deposit_minor_units || is_none currency),
      "deposit_minor_units and currency are required when deposit_required is true"%string)]
    tt.

Definition validate_ServiceUpdate (u : ServiceUpdate) : Validated unit :=
  model
    (field "name" (nullable (length_between 1 255)) (su_name u)
     ++ field "duration_minutes" (nullable (between 1 480)) (su_duration_minutes u)
     ++ field "price_minor_units" (nullable (at_least 0)) (su_price_minor_units u)
     ++ field "currency" (nullable (length_between 3 3)) (su_currency u)
     ++ field "deposit_minor_units" (nullable (at_least 0)) (su_deposit_minor_units u))
    [] tt.

Definition validate_StaffCreate (name : string) (phone : option string) : Validated unit :=
  model (field "name" (length_between 1 255) name
         ++ field "phone" (nullable (max_length 32)) phone) [] tt.

Definition validate_StaffUpdate (name phone : option string) : Validated unit :=
  model (field "name" (nullable (length_between 1 255)) name
         ++ field "phone" (nullable (max_length 32)) phone) [] tt.

Definition validate_CustomerCreate (phone : string) (name : option string) : Validated unit :=
  model (field "phone" (length_between 1 32) phone
         ++ field "name" (nullable (max_length 255)) name) [] tt.

Definition validate_CustomerUpdate (name : option string) : Validated unit :=
  model (field "name" (nullable (max_length 255)) name) [] tt.

(** ** working_hours.py, recurring_staff_block.py, business_transfer_hours.py and
    availability_exception.py *)

Definition end_after_start (start_time end_time : Z) : bool * string :=
  (end_time <=? start_time, "end_time must be after start_time"%string).

Definition validate_WorkingHoursCreate (day_of_week start_time end_time : Z) : Validated unit :=
  model (field "day_of_week" (between 0 6) day_of_week) [end_after_start start_time end_time] tt.

(** [end_after_start_if_both] *)
Definition validate_WorkingHoursUpdate (start_time end_time : option Z) : Validated unit :=
  model []
    [match start_time, end_time with
     | Some s, Some e => end_after_start s e
     | _, _ => (false, ""%string)
     end] tt.

Definition validate_RecurringStaffBlockCreate (day_of_week start_time end_time : Z) (reason : option string)
    : Validated unit :=
  model (field "day_of_week" (between 0 6) day_of_week
         ++ field "reason" (nullable (max_length 255)) reason)
    [end_after_start start_time end_time] tt.

Definition validate_BusinessTransferHoursCreate (day_of_week start_time end_time : Z) : Validated unit :=
  model (field "day_of_week" (between 0 6) day_of_week) [end_after_start start_time end_time] tt.

(** [validate_special_hours] *)
Definition validate_AvailabilityExceptionCreate (is_closed : bool) (start_time end_time : option Z)
    (reason : option string) : Validated unit :=
  model (field "reason" (nullable (max_length 255)) reason)
    [match start_time, end_time with
     | Some s, Some e => (negb is_closed && (e <=? s), "end_time must be after start_time"%string)
     | _, _ => (negb is_closed, "start_time and end_time are required when is_closed is False"%string)
     end] tt.

(** ** booking.py *)

(** A [datetime]: the time on the clock and the offset of its zone, if it has one. *)
Record Datetime : Type := MkDatetime {
  dt_local : Z;
  dt_utcoffset : option Z }.

(** The instant of an aware datetime. *)
Definition instant (d : Datetime) : option Z := (fun o => dt_local d - o) <$> dt_utcoffset d.

Definition must_be_aware (name : string) (d : Datetime) : bool * string :=
  (is_none (dt_utcoffset d), (name ++ " must be timezone-aware")%string).

Definition reason_must_not_be_blank (reason : string) : bool * string :=
  (negb (truthy (strip reason)), "reason must not be blank"%string).

Definition validate_BookingCreate (starts_at : Datetime) (source : string) : Validated unit :=
  model (field "source" (one_of BookingSource) source) [must_be_aware "starts_at" starts_at] tt.

Definition validate_BookingOverrideCreateRequest (starts_at : Datetime) (source reason : string)
    : Validated unit :=
  model (field "source" (one_of BookingSource) source
         ++ field "reason" (length_between 1 255) reason)
    [must_be_aware "starts_at" starts_at; reason_must_not_be_blank reason] tt.

Definition validate_BookingCancelRequest (reason : option string) : Validated unit :=
  model (field "reason" (nullable (max_length 255)) reason) [] tt.

Definition validate_BookingOverrideCancelRequest (reason : string) : Validated unit :=
  model (field "reason" (length_between 1 255) reason) [reason_must_not_be_blank reason] tt.

Definition validate_BookingRescheduleRequest (new_starts_at : Datetime) (reason : option string)
    : Validated unit :=
  model (field "reason" (nullable (max_length 255)) reason)
    [must_be_aware "new_starts_at" new_starts_at] tt.

(** ** onboarding.py *)

Definition validate_OnboardingStaffItem (i : OnboardingStaffItem) : Validated OnboardingStaffItem :=
  model (field "name" (length_between 1 255) (obs_name i)
         ++ field "phone" (nullable (max_length 32)) (obs_phone i)) [] i.

Definition validate_OnboardingServiceItem (i : OnboardingServiceItem) : Validated OnboardingServiceItem :=
  model (field "name" (length_between 1 255) (obv_name i)
         ++ field "duration_minutes" (between 1 480) (obv_duration_minutes i)
         ++ field "price_minor_units" (nullable (at_least 0)) (obv_price_minor_units i)
         ++ field "currency" (nullable (length_between 3 3)) (obv_currency i)) [] i.

Definition validate_OnboardingWorkingHoursItem (i : OnboardingWorkingHoursItem)
    : Validated OnboardingWorkingHoursItem :=
  model (field "day_of_week" (between 0 6) (obw_day_of_week i))
    [end_after_start (obw_start_time i) (obw_end_time i)] i.

(** The model validator checks the URL but keeps the text as it was sent. *)
Definition validate_OnboardingBusinessSpec (s : OnboardingBusinessSpec) : Validated OnboardingBusinessSpec :=
  let url := obb_external_booking_url s in
  model
    (field "name" (length_between 1 255) (obb_name s)
     ++ field "timezone" (length_between 1 64) (obb_timezone s)
     ++ field "phone" (nullable (max_length 32)) (obb_phone s)
     ++ field "booking_mode" (one_of BookingMode) (obb_booking_mode s)
     ++ field "external_booking_url" (nullable (max_length 512)) url
     ++ field "external_booking_label" (nullable (max_length 128)) (obb_external_booking_label s)
     ++ field "external_booking_provider" (nullable (one_of ExternalBookingProvider))
          (obb_external_booking_provider s)
     ++ field "subscription_plan" (one_of SubscriptionPlan) (obb_subscription_plan s))
    [match validate_booking_url url with Raise message => (true, message) | Ok _ => (false, ""%string) end;
     url_required (is_external (obb_booking_mode s)) url]
    s.

Definition validate_OnboardingSetupRequest (r : OnboardingSetupRequest) : Validated OnboardingSetupRequest :=
  model
    (nested ["business"%string] (validate_OnboardingBusinessSpec (ob_business r))
     ++ items "staff" validate_OnboardingStaffItem (ob_staff r)
     ++ items "services" validate_OnboardingServiceItem (ob_services r)
     ++ items "working_hours" validate_OnboardingWorkingHoursItem (ob_working_hours r))
    [] r.

(** ** file.py and ivr.py *)

Definition validate_PresignedUploadCompleteRequest (size_bytes : Z) : Validated unit :=
  model (field "size_bytes" (above 0) size_bytes) [] tt.

Definition validate_SimulateCallRequest (caller_phone : string) : Validated unit :=
  model (field "caller_phone" (length_between 1 32) caller_phone) [] tt.

Definition validate_SimulatePressRequest (key : string) : Validated unit :=
  model (field "key" (length_between 1 1) key) [] tt.

(** ** Bodies with an e-mail address *)

Section Email.
(** [EmailStr]: the normalized address, or [None] for one that the library refuses. *)
Context (validate_email : string -> option string).

Definition email_field (name : string) (e : string) : list FieldError * string :=
  match validate_email e with
  | Some e' => ([], e')
  | None => ([MkFieldError [name] email_invalid], e)
  end.
Definition nullable_email (name : string) (e : option string) : list FieldError * option string :=
  match e with
  | None => ([], None)
  | Some e => let '(errors, e') := email_field name e in (errors, Some e')
  end.

(** client.py *)
Definition validate_ClientCreate (name : string) (email phone : option string) : Validated (option string) :=
  let '(email_errors, email) := nullable_email "email" email in
  model (field "name" (length_between 1 255) name ++ email_errors
         ++ field "phone" (nullable (max_length 32)) phone) [] email.

Definition validate_ClientUpdate (name email phone : option string) : Validated (option string) :=
  let '(email_errors, email) := nullable_email "email" email in
  model (field "name" (nullable (length_between 1 255)) name ++ email_errors
         ++ field "phone" (nullable (max_length 32)) phone) [] email.

(** auth.py *)
Definition validate_UserCreate (email password : string) : Validated string :=
  let '(email_errors, email) := email_field "email" email in
  model (email_errors ++ field "password" (min_length 8) password) [] email.

Definition validate_UserLogin (email : string) : Validated string :=
  let '(email_errors, email) := email_field "email" email in model email_errors [] email.

Definition validate_PasswordResetRequest (email : string) : Validated string :=
  let '(email_errors, email) := email_field "email" email in model email_errors [] email.

Definition validate_PasswordResetConfirm (token new_password : string) : Validated unit :=
  model (field "token" (min_length 1) token ++ field "new_password" (min_length 8) new_password)
    [] tt.

(** user.py *)
Definition validate_UserAdminUpdate (email role : option string) : Validated (option string) :=
  let '(email_errors, email) := nullable_email "email" email in
  model (email_errors ++ field "role" (nullable (one_of UserRole)) role) [] email.

(** tenant.py: [TENANT_SLUG_PATTERN.fullmatch], words of small letters and digits with single
    hyphens between them. *)
Definition slug_char (c : ascii) : bool :=
  let n := N_of_ascii c in ((97 <=? n)%N && (n <=? 122)%N) || is_digit c.
Definition tenant_slug_matches (s : string) : bool :=
  forallb (fun word => match word with [] => false | _ => forallb slug_char word end) (split_on "-"%char (chars s)).

Definition validate_slug (value : string) : Result string string :=
  let normalized := lower (strip value) in
  if tenant_slug_matches normalized then Ok normalized
  else Raise "Slug must contain lowercase letters, numbers, and hyphens only"%string.

Definition validate_TenantCreate (slug name : string) : Validated string :=
  let '(slug_errors, slug) := field_after "slug" (length_between 2 63) validate_slug slug in
  model (slug_errors ++ field "name" (length_between 1 255) name) [] slug.

Definition validate_TenantUpdate (name : option string) : Validated unit :=
  model (field "name" (nullable (length_between 1 255)) name) [] tt.

(** signup.py *)
Definition validate_TenantSignupRequest (salon_name : string) (slug : option string)
    (admin_email admin_password : string) : Validated (option string * string) :=
  let '(slug_errors, slug) :=
    field_after "slug" (nullable (length_between 2 63))
      (fun value => match value with
                    | None => Ok None
                    | Some value => match validate_slug value with
                                    | Ok v => Ok (Some v)
                                    | Raise m => Raise m
                                    end
                    end) slug in
  let '(email_errors, admin_email) := email_field "admin_email" admin_email in
  model (field "salon_name" (length_between 1 255) salon_name ++ slug_errors ++ email_errors
         ++ field "admin_password" (min_length 8) admin_password) [] (slug, admin_email).

(** owner_lead.py *)
Definition validate_OwnerLeadCreate (b : OwnerLeadCreate) : Validated OwnerLeadCreate :=
  let '(email_errors, email) := email_field "email" (olc_email b) in
  let '(url_errors, url) := field_after "external_booking_url" (nullable (max_length 512))
                              validate_booking_url (olc_external_booking_url b) in
  model
    (field "business_name" (length_between 1 255) (olc_business_name b)
     ++ field "owner_name" (nullable (max_length 255)) (olc_owner_name b)
     ++ email_errors
     ++ field "phone_number" (length_between 1 32) (olc_phone_number b)
     ++ field "city" (nullable (max_length 128)) (olc_city b)
     ++ field "booking_mode_interest" (one_of LeadBookingModeInterest) (olc_booking_mode_interest b)
     ++ url_errors
     ++ field "message" (nullable (max_length 1000)) (olc_message b))
    [(String.eqb (olc_booking_mode_interest b) "external_booking_link" && negb (opt_truthy url),
      ("external_booking_url is required when booking_mode_interest "
         ++ "is external_booking_link")%string)]
    (MkOwnerLeadCreate (olc_business_name b) (olc_owner_name b) email (olc_phone_number b)
       (olc_city b) (olc_booking_mode_interest b) url (olc_message b)).
End Email.

(** ** What a validated body satisfies *)

Definition passes {A} (c : Constraint A) (v : A) : bool := is_none (c v).

Lemma field_nil {A} name (c : Constraint A) v : field name c v = [] -> passes c v = true.
Proof. unfold field, passes. by destruct (c v). Qed.

Lemma field_after_ok {A} name (c : Constraint A) f v v' :
  field_after name c f v = ([], v') -> f v = Ok v'.
Proof. unfold field_after. destruct (c v); [done|]. destruct (f v); congruence. Qed.

Lemma model_ok {A} errors rules (body b : A) :
  model errors rules body = Ok b -> errors = [] /\ b = body /\ (forall r, In r rules -> r.1 = false).
Proof.
  unfold model. destruct errors; [|done]. destruct (List.find fst rules) as [[p m]|] eqn:E; [done|].
  intros [= <-]. split; [done|]. split; [done|]. intros r Hr. by apply (List.find_none _ _ E).
Qed.

Lemma model_fails {A} errors rules (body : A) : model errors rules body <> Raise [].
Proof.
  unfold model. destruct errors; [|done]. by destruct (List.find fst rules) as [[p m]|].
Qed.

Lemma nested_nil {A} path (r : Validated A) :
  nested path r = [] -> r <> Raise [] -> exists v, r = Ok v.
Proof. destruct r as [v|[|e l]]; simpl; [by exists v | done | done]. Qed.

Lemma items_nil {A} name (validate : A -> Validated A) l x :
  items name validate l = [] -> (forall y, validate y <> Raise []) -> In x l ->
  exists v, validate x = Ok v.
Proof.
  intros Hl Hv Hx. apply list_elem_of_In, list_elem_of_lookup in Hx as (i & Hi).
  apply (nested_nil [name; string_of_Z (Z.of_nat i)]); [|done].
  apply concat_nil_Forall in Hl. rewrite Forall_forall in Hl. apply Hl.
  apply list_elem_of_lookup. exists i. by rewrite list_lookup_imap, Hi.
Qed.

Lemma passes_keep {A} (c : Constraint A) v old :
  passes (nullable c) v = true -> passes c old = true -> passes c (or_keep v old) = true.
Proof. by destruct v. Qed.
Lemma passes_keep_opt {A} (c : Constraint A) v old :
  passes (nullable c) v = true -> passes (nullable c) old = true ->
  passes (nullable c) (or_keep_opt v old) = true.
Proof. by destruct v. Qed.

Lemma passes_between lo hi v : passes (between lo hi) v = true <-> lo <= v <= hi.
Proof.
  unfold passes, between, both, at_least, at_most. destruct (v <? lo) eqn:E; simpl.
  - bool_props. split; [done | lia].
  - destruct (hi <? v) eqn:E'; simpl; bool_props; split; intros; first [done | lia].
Qed.

(** *** Links *)

Lemma drop_while_twice p l : drop_while p (drop_while p l) = drop_while p l.
Proof.
  induction l as [|c l IH]; simpl; [done|]. destruct (p c) eqn:E; [done|]. simpl. by rewrite E.
Qed.

Lemma drop_while_suffix p l : exists l', l = l' ++ drop_while p l.
Proof.
  induction l as [|c l [l' IH]]; simpl; [by exists []|]. destruct (p c); [|by exists []].
  exists (c :: l'). simpl. by rewrite <- IH.
Qed.

(** What remains of a list without its leading characters keeps its head when it loses its
    trailing ones. *)
Lemma drop_while_trimmed p l :
  let m := rev (drop_while p (rev (drop_while p l))) in drop_while p m = m.
Proof.
  intros m. destruct (drop_while_suffix p (rev (drop_while p l))) as [l' Hl'].
  assert (Hd : drop_while p l = m ++ rev l').
  { unfold m. rewrite <- rev_app_distr, <- Hl'. by rewrite rev_involutive. }
  pose proof (drop_while_twice p l) as Ht. rewrite Hd in Ht.
  destruct m as [|c m']; [done|]. simpl in *. destruct (p c); [|done].
  exfalso. assert (Hlen : length (drop_while p (m' ++ rev l')) = length (c :: m' ++ rev l')) by congruence.
  destruct (drop_while_suffix p (m' ++ rev l')) as [l'' Hl''].
  apply (f_equal length) in Hl''. rewrite (length_app l'') in Hl''. simpl in Hlen. lia.
Qed.

Lemma strip_twice s : strip (strip s) = strip s.
Proof.
  unfold strip at 1. unfold strip at 1. rewrite chars_of_chars.
  pose proof (drop_while_trimmed is_space (chars s)) as Ht. cbv zeta in Ht.
  rewrite Ht, rev_involutive, drop_while_twice. done.
Qed.

Lemma validated_url_again url v : validate_booking_url url = Ok v -> validate_booking_url v = Ok v.
Proof.
  destruct url as [u|]; [|intros [= <-]; done]. cbn [validate_booking_url]. cbv zeta.
  destruct (has_newline (strip u)) eqn:E1; [done|].
  destruct (negb _) eqn:E2; [done|]. intros [= <-]. cbn [validate_booking_url]. cbv zeta.
  by rewrite strip_twice, E1, E2.
Qed.

Lemma validated_url_truthy url v :
  validate_booking_url (Some url) = Ok v -> opt_truthy (Some url) = true /\ opt_truthy v = true.
Proof.
  intros Hv. assert (Hs : strip url <> ""%string).
  { intros Hs. unfold validate_booking_url in Hv. rewrite Hs in Hv. done. }
  assert (Hu : url <> ""%string) by (by intros ->).
  unfold validate_booking_url in Hv. destruct (has_newline _); [done|].
  destruct (negb _); [done|]. injection Hv as <-. simpl. unfold truthy.
  split; apply negb_true_iff, String.eqb_neq; congruence.
Qed.

(** The facts of a successful validation, as hypotheses. *)
Ltac validated H :=
  let He := fresh "Hfields" in let Hr := fresh "Hr" in
  apply model_ok in H as (He & ? & Hr);
  repeat match goal with
         | E : _ ++ _ = [] |- _ => apply app_eq_nil in E as [? E]
         end;
  repeat match goal with
         | E : field _ _ _ = [] |- _ => apply field_nil in E
         end.

(** The link of an onboarding request is checked without its blanks and stored with them. *)
Definition newline : string := String (ascii_of_N 10) "".
Example onboarding_stores_newline :
  let url := Some ("https://salon.example" ++ newline)%string in
  let spec := MkOnboardingBusinessSpec "Salon" "UTC" None MODE_EXTERNAL_BOOKING_LINK url None None
                "full_booking" in
  validate_OnboardingBusinessSpec spec = Ok spec
  /\ validate_booking_url url = Ok (Some "https://salon.example"%string)
  /\ has_newline (default "" url) = true.
Proof. done. Qed.
