(* ===== verification/Catalogue.v ===== *)
(** * Catalogue: what the database promises about salons, services and opening times

    [catalogue_ok db]: every business, service, weekly window, transfer window, exception
    and recurring block of the database is one that the schemas of app/schemas accept, every
    booking has the length of a service, and the exceptions and the blocks of one scope do not collide.  [Catalogued A] says which
    rows of a table keep it; for a table outside the catalogue, every row does. *)

From S2P Require Import Prelude Py Effects Schema Settings Orm AuditTrail Directory Schedule.
From S2P Require Import JobQueue Frames Onboarding Schemas.

(** ** Rows *)

(** A business links to its booking page when its mode says so, and a link is a web address. *)
Definition business_ok (b : Business) : bool :=
  passes (one_of BusinessLanguage) (biz_language b)
  && passes (one_of TransferDestinationPolicy) (biz_transfer_destination_policy b)
  && passes (one_of BookingMode) (biz_booking_mode b)
  && passes (nullable (one_of ExternalBookingProvider)) (biz_external_booking_provider b)
  && passes (one_of SubscriptionPlan) (biz_subscription_plan b)
  && match validate_booking_url (biz_external_booking_url b) with Ok _ => true | Raise _ => false end
  && negb (url_required (is_external (biz_booking_mode b)) (biz_external_booking_url b)).1.

Definition service_ok (s : Service) : bool :=
  passes (between 1 480) (svc_duration_minutes s)
  && passes (nullable (at_least 0)) (svc_price_minor_units s)
  && passes (nullable (length_between 3 3)) (svc_currency s)
  && passes (nullable (at_least 0)) (svc_deposit_minor_units s)
  && deposit_fields_ok s.

Definition hours_ok (h : WorkingHours) : bool :=
  weekly_window_valid (wh_day_of_week h) (wh_start_time h) (wh_end_time h).
Definition transfer_ok (h : BusinessTransferHours) : bool :=
  weekly_window_valid (bth_day_of_week h) (bth_start_time h) (bth_end_time h).
Definition block_ok (b : RecurringStaffBlock) : bool :=
  weekly_window_valid (blk_day_of_week b) (blk_start_time b) (blk_end_time b).
Definition exception_ok (e : AvailabilityException) : bool :=
  exception_request_valid (exc_is_closed e) (exc_start_time e) (exc_end_time e).

(** A booking takes one minute to eight hours, as its service did when it was made. *)
Definition booking_ok (b : Booking) : bool :=
  (bk_starts_at b + timedelta_minutes 1 <=? bk_ends_at b)
  && (bk_ends_at b <=? bk_starts_at b + timedelta_minutes 480).

(** Two blocks of one scope are disjoint. *)
Definition blocks_compatible (a b : RecurringStaffBlock) : Prop :=
  block_scope (blk_business_id b) (blk_tenant_id b) (blk_staff_id b) (blk_day_of_week b) a = true ->
  windows_overlap (blk_start_time a) (blk_end_time a) (blk_start_time b) (blk_end_time b) = false.

(** A closure is the only exception of its scope, and special hours are disjoint. *)
Definition exceptions_compatible (a b : AvailabilityException) : Prop :=
  exception_scope (exc_business_id b) (exc_tenant_id b) (exc_staff_id b) (exc_date b) a = true ->
  exc_is_closed a = false /\ exc_is_closed b = false /\
  forall s e s' e', exc_start_time a = Some s -> exc_end_time a = Some e ->
    exc_start_time b = Some s' -> exc_end_time b = Some e' ->
    windows_overlap s e s' e' = false.

(** ** The invariant *)

Definition table_all {A} (ok : A -> bool) (t : gmap Z A) : Prop :=
  forall k r, t !! k = Some r -> ok r = true.
Definition table_pairs {A} (R : A -> A -> Prop) (t : gmap Z A) : Prop :=
  forall j k a b, t !! j = Some a -> t !! k = Some b -> j <> k -> R a b.

Record catalogue_ok (db : DB) : Prop := MkCatalogueOk {
  cat_businesses : table_all business_ok (businesses db);
  cat_services : table_all service_ok (services db);
  cat_hours : table_all hours_ok (working_hours db);
  cat_transfer : table_all transfer_ok (business_transfer_hours db);
  cat_exceptions : table_all exception_ok (availability_exceptions db);
  cat_exceptions_apart : table_pairs exceptions_compatible (availability_exceptions db);
  cat_blocks : table_all block_ok (recurring_staff_blocks db);
  cat_blocks_apart : table_pairs blocks_compatible (recurring_staff_blocks db);
  cat_bookings : table_all booking_ok (bookings db) }.

Lemma empty_catalogue_ok : catalogue_ok empty_db.
Proof. by constructor; intros ?; intros. Qed.

(** ** Which writes keep it *)

(** [row_ok r]: the row may be written to the table of [A]. *)
Class Catalogued (A : Type) `{Entity A} : Type := {
  row_ok : A -> bool;
  row_touch : forall now old r, row_ok (touch now old r) = row_ok r;
  row_stored : forall db k r, catalogue_ok db -> table db !! k = Some r -> row_ok r = true;
  row_written : forall f db, catalogue_ok db -> table_all row_ok (f (table db)) ->
    catalogue_ok (on_table f db) }.

Ltac off_catalogue :=
  refine {| row_ok := fun _ => true |};
    [reflexivity | reflexivity | by intros f db [? ? ? ? ? ? ? ? ?] _; constructor].

#[global] Instance Catalogued_Staff : Catalogued Staff.
Proof. off_catalogue. Defined.
#[global] Instance Catalogued_Customer : Catalogued Customer.
Proof. off_catalogue. Defined.
#[global] Instance Catalogued_Client : Catalogued Client.
Proof. off_catalogue. Defined.
#[global] Instance Catalogued_LineItem : Catalogued BookingLineItem.
Proof. off_catalogue. Defined.
#[global] Instance Catalogued_Payment : Catalogued BookingPayment.
Proof. off_catalogue. Defined.
#[global] Instance Catalogued_Waitlist : Catalogued WaitlistEntry.
Proof. off_catalogue. Defined.
#[global] Instance Catalogued_Outbox : Catalogued NotificationOutbox.
Proof. off_catalogue. Defined.
#[global] Instance Catalogued_Event : Catalogued CalendarEvent.
Proof. off_catalogue. Defined.
#[global] Instance Catalogued_Integration : Catalogued CalendarIntegration.
Proof. off_catalogue. Defined.
#[global] Instance Catalogued_Audit : Catalogued AuditLog.
Proof. off_catalogue. Defined.
#[global] Instance Catalogued_Voice : Catalogued VoiceSession.
Proof. off_catalogue. Defined.
#[global] Instance Catalogued_Tenant : Catalogued Tenant.
Proof. off_catalogue. Defined.
#[global] Instance Catalogued_User : Catalogued User.
Proof. off_catalogue. Defined.
#[global] Instance Catalogued_Membership : Catalogued BusinessMembership.
Proof. off_catalogue. Defined.
#[global] Instance Catalogued_ResetToken : Catalogued PasswordResetToken.
Proof. off_catalogue. Defined.
#[global] Instance Catalogued_Completion : Catalogued PasswordResetJobCompletion.
Proof. off_catalogue. Defined.
#[global] Instance Catalogued_Idempotency : Catalogued IdempotencyRecord.
Proof. off_catalogue. Defined.
#[global] Instance Catalogued_WebhookEvent : Catalogued WebhookEvent.
Proof. off_catalogue. Defined.
#[global] Instance Catalogued_UploadedFile : Catalogued UploadedFile.
Proof. off_catalogue. Defined.
#[global] Instance Catalogued_OwnerLead : Catalogued OwnerLead.
Proof. off_catalogue. Defined.

Ltac in_catalogue_table ok proj :=
  refine {| row_ok := ok |};
    [reflexivity
    | intros db k r Hdb; exact (proj db Hdb k r)
    | by intros f db [? ? ? ? ? ? ? ? ?] Hf; constructor].

#[global] Instance Catalogued_Business : Catalogued Business.
Proof. in_catalogue_table business_ok cat_businesses. Defined.
#[global] Instance Catalogued_Service : Catalogued Service.
Proof. in_catalogue_table service_ok cat_services. Defined.
#[global] Instance Catalogued_Hours : Catalogued WorkingHours.
Proof. in_catalogue_table hours_ok cat_hours. Defined.
#[global] Instance Catalogued_Transfer : Catalogued BusinessTransferHours.
Proof. in_catalogue_table transfer_ok cat_transfer. Defined.
#[global] Instance Catalogued_Booking : Catalogued Booking.
Proof. in_catalogue_table booking_ok cat_bookings. Defined.

Section Writes.
Context {A : Type} `{Catalogued A}.
Implicit Types (db : DB).

Lemma catalogue_subset db f :
  catalogue_ok db -> f (table db) ⊆ table db -> catalogue_ok (on_table f db).
Proof.
  intros Hdb Hf. apply row_written; [done|]. intros k r Hr.
  eapply row_stored; [exact Hdb|]. by eapply lookup_weaken.
Qed.

Lemma catalogue_insert db k r :
  catalogue_ok db -> row_ok r = true -> catalogue_ok (on_table <[k := r]> db).
Proof.
  intros Hdb Hr. apply row_written; [done|]. intros j s. rewrite lookup_insert_Some.
  intros [[_ <-]|[_ Hs]]; [done|]. by eapply row_stored.
Qed.

Lemma catalogue_save db r g :
  catalogue_ok db -> row_ok r = true ->
  catalogue_ok (on_table (fun t => <[pk r := touch g (t !! pk r) r]> t) db).
Proof.
  intros Hdb Hr. apply row_written; [done|]. intros j s. rewrite lookup_insert_Some.
  intros [[_ <-]|[_ Hs]]; [by rewrite row_touch|]. by eapply row_stored.
Qed.

Lemma catalogue_fmap db (f : A -> A) :
  catalogue_ok db -> (forall r, row_ok r = true -> row_ok (f r) = true) ->
  catalogue_ok (on_table (fmap f) db).
Proof.
  intros Hdb Hf. apply row_written; [done|]. intros j s Hs.
  apply lookup_fmap_Some in Hs as (r & <- & Hr). eapply Hf, row_stored; eauto.
Qed.
End Writes.

(** The assertion on a session: what it sees and what is durable are good catalogues. *)
Definition in_catalogue (w : World) : Prop :=
  catalogue_ok (w_db w) /\ catalogue_ok (w_committed w).
