(* ===== verification/Scope.v ===== *)
(** * Scope: what belongs to which salon

    Every row of the salon tables carries the tenant and the business it belongs to, and refers
    to customers, services and staff members by id.  [scoped db] says that these references
    never cross a border: the business exists and is the tenant's, and whoever is referred to
    belongs to the same tenant and business.  [Located A] says which writes to the table of
    [A] keep this, and keep what was already known about other rows. *)

From S2P Require Import Prelude Py Effects Schema Settings Orm AuditTrail Directory Schedule.
From S2P Require Import JobQueue Frames.

(** ** References *)

(** A tenant, a business, and the people and services a row refers to. *)
Record Placement : Type := MkPlacement {
  pl_tenant : Z;
  pl_business : Z;
  pl_customer : option Z;
  pl_service : option Z;
  pl_staff : option Z }.

Definition business_at (db : DB) (t b : Z) : Prop :=
  exists z, businesses db !! b = Some z /\ biz_tenant_id z = t.
Definition customer_at (db : DB) (t b k : Z) : Prop :=
  exists c, customers db !! k = Some c /\ cus_tenant_id c = t /\ cus_business_id c = b.
Definition service_at (db : DB) (t b k : Z) : Prop :=
  exists s, services db !! k = Some s /\ svc_tenant_id s = t /\ svc_business_id s = b.
Definition staff_at (db : DB) (t b k : Z) : Prop :=
  exists m, staff db !! k = Some m /\ stf_tenant_id m = t /\ stf_business_id m = b.

(** Every reference leads to a row of the same tenant and business. *)
Definition placed (db : DB) (p : Placement) : Prop :=
  business_at db (pl_tenant p) (pl_business p)
  /\ (forall k, pl_customer p = Some k -> customer_at db (pl_tenant p) (pl_business p) k)
  /\ (forall k, pl_service p = Some k -> service_at db (pl_tenant p) (pl_business p) k)
  /\ (forall k, pl_staff p = Some k -> staff_at db (pl_tenant p) (pl_business p) k).

Definition stands (db : DB) (ps : list Placement) : Prop := Forall (placed db) ps.

(** What the rows of each table refer to. *)
Definition customer_place (c : Customer) : list Placement :=
  [MkPlacement (cus_tenant_id c) (cus_business_id c) None None None].
Definition service_place (s : Service) : list Placement :=
  [MkPlacement (svc_tenant_id s) (svc_business_id s) None None None].
Definition staff_place (m : Staff) : list Placement :=
  [MkPlacement (stf_tenant_id m) (stf_business_id m) None None None].
Definition client_place (c : Client) : list Placement :=
  [MkPlacement (cli_tenant_id c) (cli_business_id c) (cli_customer_id c) None None].
Definition hours_place (h : WorkingHours) : list Placement :=
  [MkPlacement (wh_tenant_id h) (wh_business_id h) None None (wh_staff_id h)].
Definition exception_place (e : AvailabilityException) : list Placement :=
  [MkPlacement (exc_tenant_id e) (exc_business_id e) None None (exc_staff_id e)].
Definition block_place (b : RecurringStaffBlock) : list Placement :=
  [MkPlacement (blk_tenant_id b) (blk_business_id b) None None (blk_staff_id b)].
Definition transfer_place (h : BusinessTransferHours) : list Placement :=
  [MkPlacement (bth_tenant_id h) (bth_business_id h) None None None].
Definition booking_place (b : Booking) : list Placement :=
  [MkPlacement (bk_tenant_id b) (bk_business_id b) (Some (bk_customer_id b))
     (Some (bk_service_id b)) (bk_staff_id b)].
Definition line_item_place (i : BookingLineItem) : list Placement :=
  [MkPlacement (li_tenant_id i) (li_business_id i) None (Some (li_service_id i)) None].
Definition waitlist_place (e : WaitlistEntry) : list Placement :=
  [MkPlacement (wl_tenant_id e) (wl_business_id e) (Some (wl_customer_id e))
     (Some (wl_service_id e)) (wl_staff_id e);
   MkPlacement (wl_tenant_id e) (wl_business_id e) None None (wl_offered_for_staff_id e)].

Definition table_stands {A} (place : A -> list Placement) (t : DB -> gmap Z A) (db : DB) : Prop :=
  forall k r, t db !! k = Some r -> stands db (place r).

Record scoped (db : DB) : Prop := MkScoped {
  sc_businesses : keyed (businesses db);
  sc_customers : keyed (customers db) /\ table_stands customer_place customers db;
  sc_services : keyed (services db) /\ table_stands service_place services db;
  sc_staff : keyed (staff db) /\ table_stands staff_place staff db;
  sc_clients : table_stands client_place clients db;
  sc_hours : table_stands hours_place working_hours db;
  sc_exceptions : table_stands exception_place availability_exceptions db;
  sc_blocks : table_stands block_place recurring_staff_blocks db;
  sc_transfer : table_stands transfer_place business_transfer_hours db;
  sc_bookings : table_stands booking_place bookings db;
  sc_line_items : table_stands line_item_place booking_line_items db;
  sc_waitlist : table_stands waitlist_place waitlist_entries db }.

Lemma empty_scoped : scoped empty_db.
Proof. repeat split; by intros ?; intros. Qed.

(** ** More rows, the same places *)

(** Everything that was in place still is. *)
Definition extends (db db' : DB) : Prop := forall p, placed db p -> placed db' p.

Lemma extends_by db db' :
  (forall t b, business_at db t b -> business_at db' t b) ->
  (forall t b k, customer_at db t b k -> customer_at db' t b k) ->
  (forall t b k, service_at db t b k -> service_at db' t b k) ->
  (forall t b k, staff_at db t b k -> staff_at db' t b k) -> extends db db'.
Proof.
  intros Hb Hc Hs Hm p (H1 & H2 & H3 & H4). split; [by apply Hb|].
  repeat split; intros k Hk; [apply Hc, H2 | apply Hs, H3 | apply Hm, H4]; done.
Qed.

Lemma extends_stands db db' ps : extends db db' -> stands db ps -> stands db' ps.
Proof. intros He Hp. eapply Forall_impl; [exact Hp | exact He]. Qed.

Lemma extends_table {A} (place : A -> list Placement) t db db' :
  t db' = t db -> extends db db' -> table_stands place t db -> table_stands place t db'.
Proof. intros Ht He Hp k r. rewrite Ht. intros Hr. eapply extends_stands; [done|]. by apply (Hp k). Qed.

(** [place r]: what the row refers to; [self r]: that, and the row itself where others refer
    to it. *)
Class Located (A : Type) `{Entity A} : Type := {
  place : A -> list Placement;
  self : A -> list Placement;
  located_stored : forall db k r, scoped db -> table db !! k = Some r -> stands db (self r);
  located_insert : forall db k r,
    scoped db -> table db !! k = None -> pk r = k -> stands db (place r) ->
    let db' := on_table <[k := r]> db in scoped db' /\ extends db db' /\ stands db' (self r);
  located_save : forall now db r, scoped db -> stands db (self r) ->
    let db' := on_table (fun t => <[pk r := touch now (t !! pk r) r]> t) db in
    scoped db' /\ extends db db' }.

(** ** Tables that nobody refers to *)

Class Loose (A : Type) `{Entity A} : Type := {
  loose_place : A -> list Placement;
  loose_touch : forall now old r, loose_place (touch now old r) = loose_place r;
  loose_stored : forall db k r, scoped db -> table db !! k = Some r -> stands db (loose_place r);
  loose_placed : forall f db p, placed (on_table f db) p = placed db p;
  loose_write : forall f db, scoped db ->
    (forall k r, f (table db) !! k = Some r -> stands db (loose_place r)) ->
    scoped (on_table f db) }.

Ltac loose_table pl proj :=
  refine {| loose_place := pl |};
    [ intros ? ? ?; first [reflexivity | by cbn; case_decide]
    | intros db k r Hdb; exact (proj db Hdb k r)
    | reflexivity
    | by intros f db [? ? ? ? ? ? ? ? ? ? ? ?] Hf; constructor ].

Ltac off_scope :=
  refine {| loose_place := fun _ => [] |};
    [ reflexivity | by intros; apply Forall_nil_2 | reflexivity
    | by intros f db [? ? ? ? ? ? ? ? ? ? ? ?] _; constructor ].

#[global] Instance Loose_Client : Loose Client.
Proof. loose_table client_place sc_clients. Defined.
#[global] Instance Loose_Hours : Loose WorkingHours.
Proof. loose_table hours_place sc_hours. Defined.
#[global] Instance Loose_Exception : Loose AvailabilityException.
Proof. loose_table exception_place sc_exceptions. Defined.
#[global] Instance Loose_Block : Loose RecurringStaffBlock.
Proof. loose_table block_place sc_blocks. Defined.
#[global] Instance Loose_Transfer : Loose BusinessTransferHours.
Proof. loose_table transfer_place sc_transfer. Defined.
#[global] Instance Loose_Booking : Loose Booking.
Proof. loose_table booking_place sc_bookings. Defined.
#[global] Instance Loose_LineItem : Loose BookingLineItem.
Proof. loose_table line_item_place sc_line_items. Defined.
#[global] Instance Loose_Waitlist : Loose WaitlistEntry.
Proof. loose_table waitlist_place sc_waitlist. Defined.
#[global] Instance Loose_Payment : Loose BookingPayment.
Proof. off_scope. Defined.
#[global] Instance Loose_Outbox : Loose NotificationOutbox.
Proof. off_scope. Defined.
#[global] Instance Loose_Event : Loose CalendarEvent.
Proof. off_scope. Defined.
#[global] Instance Loose_Integration : Loose CalendarIntegration.
Proof. off_scope. Defined.
#[global] Instance Loose_Audit : Loose AuditLog.
Proof. off_scope. Defined.
#[global] Instance Loose_Voice : Loose VoiceSession.
Proof. off_scope. Defined.
#[global] Instance Loose_Tenant : Loose Tenant.
Proof. off_scope. Defined.
#[global] Instance Loose_User : Loose User.
Proof. off_scope. Defined.
#[global] Instance Loose_Membership : Loose BusinessMembership.
Proof. off_scope. Defined.
#[global] Instance Loose_ResetToken : Loose PasswordResetToken.
Proof. off_scope. Defined.
#[global] Instance Loose_Completion : Loose PasswordResetJobCompletion.
Proof. off_scope. Defined.
#[global] Instance Loose_Idempotency : Loose IdempotencyRecord.
Proof. off_scope. Defined.
#[global] Instance Loose_WebhookEvent : Loose WebhookEvent.
Proof. off_scope. Defined.
#[global] Instance Loose_UploadedFile : Loose UploadedFile.
Proof. off_scope. Defined.
#[global] Instance Loose_OwnerLead : Loose OwnerLead.
Proof. off_scope. Defined.

(** The tables whose rows have no place in a salon. *)
Class OffScope (A : Type) `{Loose A} : Prop := { off_place : forall r, loose_place r = [] }.
#[global] Hint Extern 0 (OffScope _) => constructor; reflexivity : typeclass_instances.

#[global] Instance Located_Loose `{Loose A} : Located A.
Proof.
  refine {| place := loose_place; self := loose_place |}.
  - apply loose_stored.
  - intros db k r Hdb Hk _ Hr db'. subst db'. split; [|split].
    + apply loose_write; [done|]. intros j s. rewrite lookup_insert_Some.
      intros [[_ <-]|[_ Hs]]; [done|]. by eapply loose_stored.
    + intros p. by rewrite loose_placed.
    + eapply extends_stands; [|exact Hr]. intros p. by rewrite loose_placed.
  - intros now db r Hdb Hr db'. subst db'. split.
    + apply loose_write; [done|]. intros j s. rewrite lookup_insert_Some.
      intros [[_ <-]|[_ Hs]]; [by rewrite loose_touch|]. by eapply loose_stored.
    + intros p. by rewrite loose_placed.
Defined.

(** ** Businesses, customers, services and staff *)

Definition business_self (z : Business) : list Placement :=
  [MkPlacement (biz_tenant_id z) (biz_id z) None None None].
Definition customer_self (c : Customer) : list Placement :=
  [MkPlacement (cus_tenant_id c) (cus_business_id c) (Some (cus_id c)) None None].
Definition service_self (s : Service) : list Placement :=
  [MkPlacement (svc_tenant_id s) (svc_business_id s) None (Some (svc_id s)) None].
Definition staff_self (m : Staff) : list Placement :=
  [MkPlacement (stf_tenant_id m) (stf_business_id m) None None (Some (stf_id m))].

Lemma stands_one db p : stands db [p] <-> placed db p.
Proof. unfold stands. by rewrite Forall_singleton. Qed.

(** Writing a row at [k] keeps the rows with [h] in place, if it has the [h] of the row it
    replaces. *)
Lemma anchored {A} (t : gmap Z A) (h : A -> Z * Z) k r j s :
  (forall old, t !! k = Some old -> h old = h r) ->
  t !! j = Some s -> exists s', <[k := r]> t !! j = Some s' /\ h s' = h s.
Proof.
  intros Hk Hs. rewrite lookup_insert. case_decide as Hd; [subst|by eauto].
  exists r. split; [done|]. by rewrite (Hk _ Hs).
Qed.

Lemma written_stands {A} (pl : A -> list Placement) (t : gmap Z A) db db' k r :
  extends db db' -> stands db (pl r) ->
  (forall j s, t !! j = Some s -> stands db (pl s)) ->
  forall j s, <[k := r]> t !! j = Some s -> stands db' (pl s).
Proof.
  intros He Hr Hp j s. rewrite lookup_insert_Some. intros [[_ <-]|[_ Hs]];
    (eapply extends_stands; [exact He|]); [done | by apply (Hp j)].
Qed.

(** The other tables of [scoped], after a write that extends. *)
Ltac scoped_rest Hdb He :=
  match type of He with extends ?db ?db' =>
  destruct Hdb as [? [? ?] [? ?] [? ?] ? ? ? ? ? ? ? ?];
  constructor; try (split; [|]);
  first [ assumption
        | match goal with |- table_stands ?pl ?t _ =>
            exact (extends_table pl t db db' eq_refl He ltac:(assumption))
          end
        | idtac ]
  end.

(** [h]: the columns that place a row; [at_] unfolds to a lookup with these columns. *)
Ltac extends_in t h Hold :=
  apply extends_by; intros *;
  first [ intros Hx; exact Hx
        | intros (s & Hs & Ht & Hb);
          destruct (anchored t h _ _ _ s Hold Hs) as (s' & Hs' & He');
          injection He' as E1 E2; exists s'; (split; [exact Hs'|]); split; congruence
        | intros (s & Hs & Ht);
          destruct (anchored t h _ _ _ s Hold Hs) as (s' & Hs' & He');
          injection He' as E1 E2; exists s'; (split; [exact Hs'|]); congruence ].

Definition business_anchor (z : Business) : Z * Z := (biz_tenant_id z, biz_id z).
Definition customer_anchor (c : Customer) : Z * Z := (cus_tenant_id c, cus_business_id c).
Definition service_anchor (s : Service) : Z * Z := (svc_tenant_id s, svc_business_id s).
Definition staff_anchor (m : Staff) : Z * Z := (stf_tenant_id m, stf_business_id m).

Lemma business_written db k r :
  scoped db -> biz_id r = k ->
  (forall old, businesses db !! k = Some old -> business_anchor old = business_anchor r) ->
  let db' := db <| businesses ::= <[k := r]> |> in scoped db' /\ extends db db'.
Proof.
  intros Hdb Hk Hold db'.
  assert (He : extends db db') by extends_in (businesses db) business_anchor Hold.
  split; [|exact He]. scoped_rest Hdb He. by apply keyed_insert.
Qed.

Lemma customer_written db k r :
  scoped db -> cus_id r = k -> stands db (customer_place r) ->
  (forall old, customers db !! k = Some old -> customer_anchor old = customer_anchor r) ->
  let db' := db <| customers ::= <[k := r]> |> in scoped db' /\ extends db db'.
Proof.
  intros Hdb Hk Hr Hold db'.
  assert (He : extends db db') by extends_in (customers db) customer_anchor Hold.
  split; [|exact He]. scoped_rest Hdb He; [by apply keyed_insert|].
  refine (written_stands customer_place (customers db) db _ k r He Hr _); assumption.
Qed.

Lemma service_written db k r :
  scoped db -> svc_id r = k -> stands db (service_place r) ->
  (forall old, services db !! k = Some old -> service_anchor old = service_anchor r) ->
  let db' := db <| services ::= <[k := r]> |> in scoped db' /\ extends db db'.
Proof.
  intros Hdb Hk Hr Hold db'.
  assert (He : extends db db') by extends_in (services db) service_anchor Hold.
  split; [|exact He]. scoped_rest Hdb He; [by apply keyed_insert|].
  refine (written_stands service_place (services db) db _ k r He Hr _); assumption.
Qed.

Lemma staff_written db k r :
  scoped db -> stf_id r = k -> stands db (staff_place r) ->
  (forall old, staff db !! k = Some old -> staff_anchor old = staff_anchor r) ->
  let db' := db <| staff ::= <[k := r]> |> in scoped db' /\ extends db db'.
Proof.
  intros Hdb Hk Hr Hold db'.
  assert (He : extends db db') by extends_in (staff db) staff_anchor Hold.
  split; [|exact He]. scoped_rest Hdb He; [by apply keyed_insert|].
  refine (written_stands staff_place (staff db) db _ k r He Hr _); assumption.
Qed.

#[global] Instance Located_Business : Located Business.
Proof.
  refine {| place := fun _ => []; self := business_self |}.
  - intros db k r Hdb Hk. apply stands_one. pose proof (sc_businesses _ Hdb _ _ Hk) as Hid.
    simpl in Hid. split; [by exists r; subst k|]. by repeat split; intros.
  - intros db k r Hdb Hk Hid _ db'.
    destruct (business_written db k r Hdb Hid) as [Hs He]; [cbn in Hk; congruence|].
    split; [exact Hs|]. split; [exact He|]. apply stands_one. split; [|by repeat split; intros].
    exists r. split; [|done]. simpl. cbn in Hid. rewrite Hid. apply lookup_insert_eq.
  - intros now db r Hdb [(z & Hz & Ht) _]%stands_one db'. simpl in Hz, Ht.
    apply (business_written db (biz_id r) r Hdb eq_refl).
    intros old Ho. pose proof (sc_businesses _ Hdb _ _ Ho) as Hid. simpl in Hid.
    unfold business_anchor. congruence.
Defined.

Ltac located_base pl sf proj written :=
  refine {| place := pl; self := sf |};
  [ intros db k r Hdb Hk; destruct (proj db Hdb) as [Hid Hp]; pose proof (Hid _ _ Hk) as Hkr;
    simpl in Hkr; pose proof (proj1 (stands_one _ _) (Hp _ _ Hk)) as (Hb & _);
    apply stands_one; split; [exact Hb|]; repeat split; simpl; intros j Hj; simplify_eq;
    by exists r
  | intros db k r Hdb Hk Hid Hr db';
    destruct (written db k r Hdb Hid Hr) as [Hs He]; [cbn in Hk; congruence|];
    split; [exact Hs|]; split; [exact He|];
    pose proof (proj1 (stands_one _ _) (extends_stands _ _ _ He Hr)) as (Hb & _);
    apply stands_one; split; [exact Hb|]; repeat split; simpl; intros j Hj; simplify_eq;
    exists r; (split; [apply lookup_insert_eq | done])
  | intros now db r Hdb Hr db';
    pose proof (proj1 (stands_one _ _) Hr) as (Hb & H1 & H2 & H3); simpl in *;
    apply (written db _ r Hdb eq_refl);
    [ apply stands_one; split; [exact Hb|]; repeat split; intros ? ?; done
    | intros old Ho;
      first [ destruct (H1 _ eq_refl) as (s & Hs & Ht & Hz)
            | destruct (H2 _ eq_refl) as (s & Hs & Ht & Hz)
            | destruct (H3 _ eq_refl) as (s & Hs & Ht & Hz) ];
      unfold customer_anchor, service_anchor, staff_anchor; congruence ] ].

#[global] Instance Located_Customer : Located Customer.
Proof. located_base customer_place customer_self sc_customers customer_written. Defined.
#[global] Instance Located_Service : Located Service.
Proof. located_base service_place service_self sc_services service_written. Defined.
#[global] Instance Located_Staff : Located Staff.
Proof. located_base staff_place staff_self sc_staff staff_written. Defined.

(** A service that no row refers to can go. *)
Lemma service_deleted db k :
  scoped db -> service_referenced db k = None -> scoped (db <| services ::= base.delete k |>).
Proof.
  intros Hdb Hr. set (db' := db <| services ::= _ |>).
  assert (Hp : forall p, pl_service p <> Some k -> placed db p -> placed db' p).
  { intros p Hk (H1 & H2 & H3 & H4). split; [exact H1|]. split; [exact H2|]. split; [|exact H4].
    intros j Hj. destruct (H3 j Hj) as (s & Hs & Hh). exists s. split; [|exact Hh].
    cbn. rewrite lookup_delete_ne; [done | congruence]. }
  assert (Hf : forall ps, Forall (fun p => pl_service p <> Some k) ps -> stands db ps -> stands db' ps).
  { intros ps Hps Hst. unfold stands in *. rewrite Forall_forall in *. eauto. }
  unfold service_referenced in Hr.
  destruct (existsb _ (rows_of (bookings db))) eqn:E1; [done|].
  destruct (existsb _ (rows_of (booking_line_items db))) eqn:E2; [done|].
  destruct (existsb _ (rows_of (waitlist_entries db))) eqn:E3; [done|].
  rewrite existsb_false in E1. rewrite existsb_false in E2. rewrite existsb_false in E3.
  assert (Hin : forall {A} (pl : A -> list Placement) t, (forall r, Forall (fun p => pl_service p <> Some k) (pl r)) ->
    t db' = t db -> table_stands pl t db -> table_stands pl t db').
  { intros A pl t Hn Ht Hs j r. rewrite Ht. intros Hj. apply Hf; [apply Hn | by apply (Hs j)]. }
  destruct Hdb as [? [? ?] [? ?] [? ?] ? ? ? ? ? Hbk Hli Hwl].
  constructor; try (split; [|]); try done; try (by apply Hin; [by repeat constructor|..]).
  - by apply keyed_delete.
  - intros j r Hj. change (base.delete k (services db) !! j = Some r) in Hj.
    apply lookup_delete_Some in Hj as [_ Hj]. apply Hf; [by repeat constructor|].
    match goal with Hs : table_stands service_place _ _ |- _ => by apply (Hs j) end.
  - intros j r Hj. apply Hf; [|by apply (Hbk j)]. constructor; [|constructor]. simpl. intros [= Hx].
    specialize (E1 r (proj2 (in_rows_of _ _) (ex_intro _ j Hj))). bool_props. congruence.
  - intros j r Hj. apply Hf; [|by apply (Hli j)]. constructor; [|constructor]. simpl. intros [= Hx].
    specialize (E2 r (proj2 (in_rows_of _ _) (ex_intro _ j Hj))). bool_props. congruence.
  - intros j r Hj. apply Hf; [|by apply (Hwl j)]. repeat (constructor; try done). simpl. intros [= Hx].
    specialize (E3 r (proj2 (in_rows_of _ _) (ex_intro _ j Hj))). bool_props. congruence.
Qed.

(** ** Sessions in scope *)

(** What a session sees and what is durable are in scope; [bears ps]: and [ps] stand. *)
Definition in_scope (w : World) : Prop := scoped (w_db w) /\ scoped (w_committed w).
Definition bears (ps : list Placement) (w : World) : Prop := in_scope w /\ stands (w_db w) ps.

Lemma bears_nil w : bears [] w <-> in_scope w.
Proof. split; [by intros [? _] | by split; [|apply Forall_nil_2]]. Qed.

Section BearsWrites.
Context {A : Type} `{Located A} (ps : list Placement).

Lemma bears_insert mk :
  (forall id now, pk (mk id now) = id) ->
  (forall db id now, stands db ps -> stands db (place (mk id now))) ->
  triple (bears ps) (db_insert mk)
    (fun r w => bears (self r ++ ps) w /\ exists id now, r = mk id now) (fun _ => bears ps).
Proof.
  intros Hid Hpl w [[Hs Hc] Hps]. unfold db_insert. destruct (table _ !! _) eqn:Ek; [by split|].
  destruct (violates _ _); [by split|].
  destruct (located_insert _ _ (mk (w_seq w table_name) (w_now w)) Hs Ek (Hid _ _) (Hpl _ _ _ Hps))
    as (Hs' & He & Hself).
  split; [|by eauto]. split; [by split|].
  apply Forall_app. split; [exact Hself | by eapply extends_stands].
Qed.

Lemma bears_save (r : A) :
  (forall db, stands db ps -> stands db (self r)) -> keeps (bears ps) (save r).
Proof.
  intros Hr. apply triple_modify. intros w [[Hs Hc] Hps].
  destruct (located_save (w_now w) _ r Hs (Hr _ Hps)) as [Hs' He].
  split; [by split | by eapply extends_stands].
Qed.

Lemma bears_update (r : A) :
  (forall db, stands db ps -> stands db (self r)) -> keeps (bears ps) (db_update r).
Proof. intros Hr w Hw. unfold db_update. destruct (violates _ _); [done|]. by apply bears_save. Qed.
End BearsWrites.

Section LooseWrites.
Context {A : Type} `{Loose A} (ps : list Placement).

Lemma bears_loose f w :
  bears ps w ->
  (forall k r, f (table (w_db w)) !! k = Some r -> stands (w_db w) (loose_place r)) ->
  bears ps (w <| w_db ::= on_table f |>).
Proof.
  intros [[Hs Hc] Hps] Hf. split; [split; [by apply loose_write | done]|].
  eapply extends_stands; [|exact Hps]. intros p. simpl. by rewrite loose_placed.
Qed.

Lemma bears_delete (r : A) : keeps (bears ps) (db_delete r).
Proof.
  intros w Hw. unfold db_delete. destruct (referenced _ _); [done|]. apply bears_loose; [done|].
  intros k s [_ Hs]%lookup_delete_Some. eapply loose_stored; [apply Hw | exact Hs].
Qed.

Lemma bears_delete_where (p : A -> bool) : keeps (bears ps) (delete_where p).
Proof.
  intros w Hw. apply bears_loose; [done|]. intros k s [Hs _]%map_lookup_filter_Some.
  eapply loose_stored; [apply Hw | exact Hs].
Qed.

Lemma bears_update_where (p : A -> bool) f :
  (forall r, loose_place (f r) = loose_place r) -> keeps (bears ps) (update_where p f).
Proof.
  intros Hf. apply triple_modify. intros w Hw. apply bears_loose; [done|].
  intros k s (r & <- & Hr)%lookup_fmap_Some.
  pose proof (loose_stored _ _ _ (proj1 (proj1 Hw)) Hr) as Hst. by destruct (p r); [rewrite Hf|].
Qed.
End LooseWrites.

(** ** Reading *)

(** [m] only looks, and what it returns satisfies [Q] in the database. *)
Definition reads {A} (m : PyM A) (Q : A -> DB -> Prop) : Prop :=
  forall w, match m w with
            | (Ok a, w') => w' = w /\ Q a (w_db w)
            | (Raise _, w') => w' = w
            end.

Lemma reads_find `{Entity A} k (p : A -> bool) msg :
  reads (o <- find_pk k p ;; require msg o)
    (fun r db => table db !! k = Some r /\ p r = true).
Proof.
  intros w. unfold bind, find_pk, asks, require.
  destruct (table (w_db w) !! k) as [r|] eqn:Hr; [|done]. by destruct (p r) eqn:Hp.
Qed.

Lemma reads_checked {A} (m : PyM A) (c : A -> bool) (e : Exn) Q :
  reads m Q -> reads (r <- m ;; if c r then ret r else raise e) (fun r db => Q r db /\ c r = true).
Proof.
  intros Hm w. unfold bind. specialize (Hm w). destruct (m w) as [[r|e'] w']; [|done].
  destruct Hm as [-> Hq]. by destruct (c r) eqn:Hc.
Qed.

(** What a read teaches about places. *)
Definition learns {A} (m : PyM A) (pf : A -> list Placement) : Prop :=
  reads m (fun a db => scoped db -> stands db (pf a)).

Lemma reads_learns {A} (m : PyM A) Q pf :
  reads m Q -> (forall a db, scoped db -> Q a db -> stands db (pf a)) -> learns m pf.
Proof.
  intros Hm Hq w. specialize (Hm w). destruct (m w) as [[a|e] w']; [|done].
  destruct Hm as [-> Ha]. split; [done|]. intros Hs. by apply Hq.
Qed.

(** ** The logic *)

(** Started where [ps] stand, [m] ends in scope; what stood may be gone. *)
Definition ends {A} (ps : list Placement) (m : PyM A) : Prop :=
  triple (bears ps) m (fun _ => in_scope) (fun _ => in_scope).

Create HintDb learn.

Section Ends.
Context {A B : Type} (ps : list Placement).

Lemma ends_keeps (m : PyM A) : keeps (bears ps) m -> ends ps m.
Proof. intros Hm. eapply triple_conseq; [exact Hm | done | |]; by intros ? ? [? _]. Qed.

Lemma ends_scope (m : PyM A) : keeps in_scope m -> ends ps m.
Proof. intros Hm. eapply triple_conseq; [exact Hm | | done | done]. by intros ? [? _]. Qed.

Lemma scope_ends (m : PyM A) : ends [] m -> keeps in_scope m.
Proof. intros Hm. eapply triple_conseq; [exact Hm | | done | done]. intros w. by rewrite bears_nil. Qed.

Lemma ends_bind (m : PyM A) (k : A -> PyM B) :
  keeps (bears ps) m -> (forall a, ends ps (k a)) -> ends ps (bind m k).
Proof.
  intros Hm Hk. eapply triple_bind; [|exact Hk].
  eapply triple_conseq; [exact Hm | done | done |]. by intros ? ? [? _].
Qed.

Lemma ends_then (m : PyM A) (k : A -> PyM B) :
  ends ps m -> (forall a, keeps in_scope (k a)) -> ends ps (bind m k).
Proof. intros Hm Hk. eapply triple_bind; [exact Hm | exact Hk]. Qed.

Lemma ends_learn (m : PyM A) (k : A -> PyM B) pf :
  learns m pf -> (forall a, ends (pf a ++ ps) (k a)) -> ends ps (bind m k).
Proof.
  intros Hm Hk w [Hw Hps]. unfold bind. specialize (Hm w). destruct (m w) as [[a|e] w'].
  - destruct Hm as [-> Hq]. apply Hk. split; [done|]. apply Forall_app. split; [by apply Hq, Hw | done].
  - by subst w'.
Qed.

(** What is known about a row that was read, beyond its place. *)
Lemma ends_known (m : PyM A) (k : A -> PyM B) Q pf :
  reads m Q -> (forall a db, scoped db -> Q a db -> stands db (pf a)) ->
  (forall a, (exists db, Q a db) -> ends (pf a ++ ps) (k a)) -> ends ps (bind m k).
Proof.
  intros Hm Hp Hk w [Hw Hps]. unfold bind. specialize (Hm w). destruct (m w) as [[a|e] w'].
  - destruct Hm as [-> Hq]. apply Hk; [by eexists|]. split; [done|]. apply Forall_app.
    split; [by apply Hp; [apply Hw|] | done].
  - by subst w'.
Qed.

Lemma keeps_known (m : PyM A) (k : A -> PyM B) Q pf :
  reads m Q -> (forall a db, scoped db -> Q a db -> stands db (pf a)) ->
  (forall a, (exists db, Q a db) -> keeps (bears (pf a ++ ps)) (k a)) ->
  keeps (bears ps) (bind m k).
Proof.
  intros Hm Hp Hk w [Hw Hps]. unfold bind. specialize (Hm w). destruct (m w) as [[a|e] w'].
  - destruct Hm as [-> Hq]. assert (Hb : bears (pf a ++ ps) w).
    { split; [done|]. apply Forall_app. split; [by apply Hp; [apply Hw|] | done]. }
    pose proof (Hk a (ex_intro _ _ Hq) w Hb) as Ht.
    by destruct (k a w) as [[b|e] w'']; destruct Ht as [Hs Hps']; apply Forall_app in Hps' as [_ ?].
  - by subst w'.
Qed.

Lemma ends_insert `{Located A} mk (k : A -> PyM B) :
  (forall id now, pk (mk id now) = id) ->
  (forall db id now, stands db ps -> stands db (place (mk id now))) ->
  (forall id now, ends (self (mk id now) ++ ps) (k (mk id now))) ->
  ends ps (bind (db_insert mk) k).
Proof.
  intros Hid Hpl Hk. eapply triple_bind.
  - eapply triple_conseq; [by apply bears_insert | done | intros r w Hr; exact Hr |].
    by intros ? ? [? _].
  - intros r w [Hw (id & now & ->)]. by apply Hk.
Qed.

Lemma ends_test (c : bool) e (k : unit -> PyM B) :
  (c = true -> ends ps (k tt)) -> ends ps (bind (if c then ret tt else raise e) k).
Proof.
  intros Hk. destruct c; [by apply Hk|]. by intros w [Hw _].
Qed.

Lemma ends_catch (m : PyM A) h :
  ends ps m -> (forall e m', h e = Some m' -> keeps in_scope m') -> ends ps (catch m h).
Proof. intros Hm Hh. eapply triple_catch; [exact Hm | exact Hh | done]. Qed.
End Ends.
