(* ===== verification/AuthBehaviour.v ===== *)
(** * AuthBehaviour: sessions

    A refresh token is good for one use, tokens open the account they were issued for and no
    other, and a password reset ends every session. *)

From S2P Require Import Prelude Py Effects Schema Settings Orm AuditTrail Directory JobQueue.
From S2P Require Import Frames Providers Tenancy Users Auth UserListing PasswordReset.

Section Sessions.
Context `{Config}.

(** ** Refresh tokens are used once *)

(** What an accepted refresh token says, and that it is not revoked. *)
Lemma decode_refresh_inv token w payload jti expires_at w' :
  decode_refresh_token token w = (Ok (payload, jti, expires_at), w') ->
  w' = w /\ jwt_verify secret_key token = Some payload
  /\ json_get "type" payload = Some (JStr "refresh")
  /\ json_get "jti" payload = Some (JStr jti) /\ json_get "exp" payload = Some (JInt expires_at)
  /\ w_now w / second_us <= expires_at
  /\ live_key (w_now w) (revoked_key jti) (w_redis w) = None.
Proof.
  unfold decode_refresh_token. intros Hd. apply bind_ok_inv in Hd as (p & w0 & Hp & Hd).
  assert (w0 = w /\ jwt_verify secret_key token = Some p /\ token_live (w_now w) p = true)
    as (-> & Hv & Hl).
  { revert Hp. unfold catch, decode_token, bind, now_utc, asks, ret, raise, domain_error.
    destruct (jwt_verify secret_key token) as [q|]; [|done].
    destruct (token_live (w_now w) q) eqn:Hl; [|done]. by intros [= <- <-]. }
  clear Hp. destruct (negb (bool_decide _)) eqn:Ht; [done|]. bool_props.
  destruct (_ || _); [done|].
  destruct (json_get "jti" p) as [[| | |j| |]|] eqn:Hj; try done.
  destruct (json_get "exp" p) as [[| |e| | |]|] eqn:He; try done.
  apply bind_ok_inv in Hd as (r & w0 & Hr & Hd). injection Hr as <- <-.
  destruct (live_key _ _ _) eqn:Hk; [done|]. simpl in Hd. injection Hd as <- <- <- <-.
  repeat split; try done. unfold token_live in Hl. rewrite He in Hl. by bool_props.
Qed.

(** Using a token leaves a mark that lasts as long as the token. *)
Definition marked (jti : string) (expires_at : Z) (w : World) : Prop :=
  forall t, w_now w <= t -> t / second_us < expires_at ->
    live_key t (revoked_key jti) (w_redis w) <> None.

Lemma revoke_marks jti expires_at require_new w r w' :
  revoke_refresh_token jti expires_at require_new w = (Ok r, w') ->
  (require_new = true -> r = true) ->
  w_now w' = w_now w /\ w_db w' = w_db w /\ marked jti expires_at w'.
Proof.
  unfold revoke_refresh_token, bind, now_utc, asks. cbv beta iota.
  assert (Hset : marked jti expires_at
    (w <| w_redis := set_ex (revoked_key jti) (RInt 1)
            (timedelta_seconds (expires_at - w_now w / second_us)) (w_now w) (w_redis w) |>)).
  { intros t Ht He. unfold live_key, set_ex. simpl. rewrite lookup_insert_eq.
    unfold timedelta_seconds, second_us in *. destruct (Z.ltb_spec t (w_now w + (expires_at - w_now w / 1000000) * 1000000));
      [done|].
    pose proof (Z.div_mod (w_now w) 1000000 ltac:(lia)). pose proof (Z.mod_pos_bound (w_now w) 1000000 ltac:(lia)).
    pose proof (Z.div_mod t 1000000 ltac:(lia)). pose proof (Z.mod_pos_bound t 1000000 ltac:(lia)). lia. }
  destruct (Z.leb_spec (expires_at - w_now w / second_us) 0) as [Hle|Hgt].
  - intros [= <- <-] Hr. split; [done|]. split; [done|]. intros t Ht He.
    assert (w_now w / second_us <= t / second_us) by (apply Z.div_le_mono; [done | lia]). lia.
  - destruct require_new.
    + unfold redis, set_nx_ex. destruct (live_key _ _ _); intros [= <- <-] Hr; [by specialize (Hr eq_refl)|].
      done.
    + unfold redis_, modify, ret. intros [= <- <-] Hr. done.
Qed.

(** An operation that only reads. *)
Lemma reads_ok {A} (m : PyM A) w a w' : keeps (eq w) m -> m w = (Ok a, w') -> w' = w.
Proof. intros Hm E. specialize (Hm w eq_refl). by rewrite E in Hm. Qed.

Lemma active_user_reads w payload : keeps (eq w) (get_active_user_from_refresh_payload payload).
Proof.
  unfold get_active_user_from_refresh_payload, assert_active_tenant_membership, get_tenant_by_id.
  keeps_steps.
Qed.

(** The token was exchanged, or its session ended. *)
Definition spent (token : string) (w w1 : World) : Prop :=
  (exists tokens, rotate_refresh_token token w = (Ok tokens, w1))
  \/ logout_user token w = (Ok tt, w1).

Lemma issue_keeps u d w tokens w' :
  issue_tokens u d w = (Ok tokens, w') -> w_now w' = w_now w /\ w_redis w' = w_redis w.
Proof. by intros [= <- <-]. Qed.

Lemma spent_marked token w w1 :
  spent token w w1 ->
  exists payload jti expires_at,
    jwt_verify secret_key token = Some payload
    /\ json_get "jti" payload = Some (JStr jti) /\ json_get "exp" payload = Some (JInt expires_at)
    /\ w_now w1 = w_now w /\ marked jti expires_at w1.
Proof.
  intros [[tokens Hr]|Hr].
  - unfold rotate_refresh_token in Hr. apply bind_ok_inv in Hr as ([[payload jti] e] & w0 & Hd & Hr).
    apply decode_refresh_inv in Hd as (-> & Hv & _ & Hj & He & _).
    apply bind_ok_inv in Hr as (u & w0 & Hu & Hr).
    apply reads_ok in Hu as ->; [|apply active_user_reads].
    apply bind_ok_inv in Hr as (r & w2 & Hrev & Hr). destruct r; [|done]. simpl in Hr.
    apply revoke_marks in Hrev as (Hn & _ & Hm); [|done].
    apply issue_keeps in Hr as [Hn' Hred]. exists payload, jti, e. do 3 (split; [done|]).
    split; [congruence|]. unfold marked. by rewrite Hn', Hred.
  - unfold logout_user in Hr. apply bind_ok_inv in Hr as ([[payload jti] e] & w0 & Hd & Hr).
    apply decode_refresh_inv in Hd as (-> & Hv & _ & Hj & He & _).
    apply bind_ok_inv in Hr as (r & w2 & Hrev & Hr). injection Hr as <-.
    apply revoke_marks in Hrev as (Hn & _ & Hm); [|done]. eauto 10.
Qed.

(** C23: a refresh token works once.  After it was exchanged for new tokens, or its session was
    closed, exchanging it again fails at every later moment, to the very second it expires
    in, whatever happened to the database in between, as long as Redis keeps the marks of
    revoked tokens. *)
Theorem refresh_token_single_use token w w1 w2 :
  spent token w w1 -> w_now w1 <= w_now w2 ->
  (forall jti, r_keys (w_redis w2) !! revoked_key jti = r_keys (w_redis w1) !! revoked_key jti) ->
  exists e, (rotate_refresh_token token w2).1 = Raise e.
Proof.
  intros Hs Ht Hk. destruct (rotate_refresh_token token w2) as [[tokens|e] w3] eqn:Hr; [|eauto].
  exfalso. destruct (spent_marked _ _ _ Hs) as (payload & jti & e & Hv & Hj & He & Hn & Hm).
  unfold rotate_refresh_token in Hr. apply bind_ok_inv in Hr as ([[payload' jti'] e'] & w0 & Hd & Hr).
  apply decode_refresh_inv in Hd as (-> & Hv' & _ & Hj' & He' & _ & Hlive).
  assert (payload' = payload) as -> by congruence. assert (jti' = jti) as -> by congruence.
  assert (e' = e) as -> by congruence.
  assert (Hdead : live_key (w_now w2) (revoked_key jti) (w_redis w1) = None)
    by (unfold live_key in *; by rewrite Hk in Hlive).
  apply bind_ok_inv in Hr as (u & w0 & Hu & Hr). apply bind_ok_inv in Hr as (r & w4 & Hrev & Hr).
  apply reads_ok in Hu as ->; [|apply active_user_reads].
  unfold revoke_refresh_token, bind, now_utc, asks in Hrev. cbv beta iota in Hrev.
  destruct (Z.leb_spec (e - w_now w2 / second_us) 0) as [Hle|Hgt].
  - injection Hrev as <- <-. done.
  - apply (Hm (w_now w2) Ht); [lia | done].
Qed.
(** ** What an access token opens *)

Context `{!SecurityLaws}.

(** The claims of an access token made for a user. *)
Lemma access_claims_get sub tenant_id version expire jti (d : bool) :
  let p := claims sub tenant_id version expire "access" jti in
  let p := if d then p ++ [("is_public_demo"%string, JBool true)] else p in
  json_get "sub" p = Some (JStr sub) /\ json_get "tenant_id" p = Some (JInt tenant_id)
  /\ json_get "token_version" p = Some (JInt version)
  /\ json_get "exp" p = Some (JInt (expire / second_us))
  /\ json_get "type" p = Some (JStr "access").
Proof. by destruct d. Qed.

(** The row that a token opens at a moment. *)
Definition opens (user_id tenant_id version expire : Z) (w : World) (u : User) : Prop :=
  w_now w / second_us <= expire / second_us
  /\ users (w_db w) !! user_id = Some u /\ usr_tenant_id u = tenant_id
  /\ usr_is_active u = true /\ usr_token_version u = version
  /\ exists t, tenants (w_db w) !! tenant_id = Some t /\ ten_is_active t = true.

Lemma current_user_opens sub_id tenant_id version expire jti (d : bool) w u :
  let p := claims (string_of_Z sub_id) tenant_id version expire "access" jti in
  let p := if d then p ++ [("is_public_demo"%string, JBool true)] else p in
  get_current_user (jwt_encode secret_key p) None w = (Ok u, w)
  <-> opens sub_id tenant_id version expire w u.
Proof.
  intros p0 p. destruct (access_claims_get (string_of_Z sub_id) tenant_id version expire jti d)
    as (Hs & Ht & Hv & He & Hty). fold p0 in Hs, Ht, Hv, He, Hty. fold p in Hs, Ht, Hv, He, Hty.
  unfold get_current_user, opens, decode_token, bind, catch, now_utc, asks. cbv beta iota.
  rewrite jwt_roundtrip. unfold token_live. rewrite He.
  destruct (Z.leb_spec (w_now w / second_us) (expire / second_us)) as [Hle|Hgt];
    [|unfold raise; split; [done | intros [? _]; lia]].
  unfold ret at 1. cbv beta iota. rewrite Hs, Ht, Hv, Hty. rewrite bool_decide_true by done.
  simpl. rewrite py_int_string_of_Z. simpl.
  unfold find_pk, asks, assert_active_tenant_membership, get_tenant_by_id. simpl.
  destruct (users (w_db w) !! sub_id) as [u0|]; [|split; [done | naive_solver]].
  destruct (Z.eqb_spec (usr_tenant_id u0) tenant_id) as [E|E]; [|split; [done | naive_solver]].
  destruct (usr_is_active u0) eqn:Ea; simpl; [|split; [done | naive_solver congruence]].
  destruct (Z.eqb_spec (usr_token_version u0) version) as [Ev|Ev]; simpl;
    [|split; [done | naive_solver]].
  unfold bind, find_pk, asks. simpl. rewrite E.
  destruct (tenants (w_db w) !! tenant_id) as [t|] eqn:Et; [|split; [done | naive_solver]].
  destruct (ten_is_active t) eqn:Eta; [|split; [done | naive_solver congruence]].
  split; [intros [= <-]; naive_solver | naive_solver].
Qed.

(** C25: an access token opens exactly the account it was issued for.  A login succeeds only for
    an active user of the tenant with that e-mail address whose password matches; and the
    access token it returns is accepted at a later moment exactly when it has not expired and the
    user still exists in that tenant, is active, has not had its sessions revoked since, and
    the tenant is active; the user it stands for is then that user. *)
Theorem login_opens_account email password tenant_id w access refresh w1 :
  login_user email password tenant_id w = (Ok (access, refresh), w1) ->
  exists u k, users (w_db w) !! k = Some u /\ usr_email u = email /\ usr_tenant_id u = tenant_id
    /\ usr_is_active u = true /\ bcrypt_verify password (usr_hashed_password u) = true
    /\ forall w2 u2, get_current_user access None w2 = (Ok u2, w2)
         <-> opens (usr_id u) tenant_id (usr_token_version u)
               (w_now w + timedelta_minutes access_token_expire_minutes) w2 u2.
Proof.
  unfold login_user. intros Hl. apply bind_ok_inv in Hl as (u & w0 & Ha & Hl).
  unfold authenticate_user, get_user_by_email in Ha.
  apply bind_ok_inv in Ha as (o & w0' & Ho & Ha). injection Ho as <- <-.
  destruct (head _) as [u0|] eqn:Hh; [|done].
  destruct (verify_password password (usr_hashed_password u0)) eqn:Hp; [|done].
  destruct (usr_is_active u0) eqn:Hact; [|done]. injection Ha as <- <-.
  apply head_filter_some in Hh as [Hin Hf]. apply in_rows_of in Hin as [k Hk]. simpl in Hk.
  apply andb_true_iff in Hf as [He%String.eqb_eq Ht%Z.eqb_eq].
  exists u0, k. do 5 (split; [done|]). intros w2 u2. injection Hl as <- _ _. rewrite Ht.
  apply (current_user_opens (usr_id u0) tenant_id (usr_token_version u0) _ _ false).
Qed.
(** ** Password reset *)

(** The unique index on the hash of reset tokens. *)
Definition distinct_hashes (ts : gmap Z PasswordResetToken) : Prop :=
  forall i j s t, ts !! i = Some s -> ts !! j = Some t ->
    prt_token_hash s = prt_token_hash t -> i = j.

(** Every token of the user is used up at the moment [now]. *)
Definition use_up (user_id now : Z) (t : PasswordResetToken) : PasswordResetToken :=
  if (prt_user_id t =? user_id) && is_none (prt_used_at t) then t <| prt_used_at := Some now |>
  else t.

(** The row with a new password: every session issued before is for an older version. *)
Definition with_new_password (hashed : string) (u : User) : User :=
  u <| usr_hashed_password := hashed |> <| usr_token_version ::= Z.add 1 |>.

Lemma version_step_inv u w u' w' :
  increment_user_token_version u w = (Ok u', w') ->
  u' = u <| usr_token_version ::= Z.add 1 |> /\ w_now w' = w_now w
  /\ w_db w' = (w_db w) <| users ::= <[usr_id u := u']> |>.
Proof.
  unfold increment_user_token_version. cbv zeta. intros Hi.
  apply bind_ok_inv in Hi as ([] & w1 & Hs & Hi). injection Hs as <-.
  apply bind_ok_inv in Hi as ([] & w2 & Hc & Hi). injection Hc as <-.
  apply bind_ok_inv in Hi as (u2 & w3 & Hr & Hi). injection Hr as <- <-.
  cbn [w_db users usr_id] in Hi. simpl in Hi. rewrite lookup_insert_eq in Hi. simpl in Hi.
  unfold invalidate_users_list_cache, increment_cache_version, now_utc, redis, bind, asks, ret in Hi.
  destruct (incr _ _ _) as [o r]. simpl in Hi. by injection Hi as <- <-.
Qed.

Lemma confirm_inv token new_password w msg w1 :
  confirm_password_reset token new_password w = (Ok msg, w1) ->
  exists k t u hashed,
    password_reset_tokens (w_db w) !! k = Some t
    /\ prt_token_hash t = hash_password_reset_token token
    /\ prt_used_at t = None /\ w_now w <= prt_expires_at t
    /\ users (w_db w) !! prt_user_id t = Some u /\ usr_is_active u = true /\ usr_is_demo_user u = false
    /\ bcrypt_verify new_password hashed = true
    /\ w_committed w1 = w_db w1
    /\ users (w_committed w1) = <[usr_id u := with_new_password hashed u]> (users (w_db w))
    /\ password_reset_tokens (w_committed w1)
       = use_up (usr_id u) (w_now w) <$> password_reset_tokens (w_db w).
Proof.
  unfold confirm_password_reset. cbv zeta. intros Hc.
  apply bind_ok_inv in Hc as (o & w0 & Ho & Hc). injection Ho as <- <-.
  destruct (head _) as [t|] eqn:Hh; [|done].
  apply head_filter_some in Hh as [Hin Hf%String.eqb_eq]. apply in_rows_of in Hin as [k Hk].
  apply bind_ok_inv in Hc as (now & w0 & Hn & Hc). injection Hn as <- <-.
  destruct (prt_used_at t) eqn:Hused; [done|]. cbn [is_none negb] in Hc.
  destruct (Z.ltb_spec (prt_expires_at t) (w_now w)); [done|].
  apply bind_ok_inv in Hc as (o & w0 & Ho & Hc). injection Ho as <- <-.
  simpl in Hk. cbn [table Entity_User] in Hc.
  destruct (users (w_db w) !! prt_user_id t) as [u|] eqn:Hu; [|done].
  unfold can_reset in Hc. destruct (negb (usr_is_active u) || usr_is_demo_user u) eqn:Hr; [done|].
  apply orb_false_iff in Hr as [Hact%negb_false_iff Hdemo].
  apply bind_ok_inv in Hc as (hashed & w2 & Hp & Hc). injection Hp as <- <-.
  apply bind_ok_inv in Hc as (u1 & w3 & Hv & Hc).
  apply version_step_inv in Hv as (-> & Hn & Hdb).
  apply bind_ok_inv in Hc as ([] & w4 & Hup & Hc). injection Hup as <-.
  apply bind_ok_inv in Hc as ([] & w5 & Hcm & Hc). injection Hcm as <-.
  apply bind_ok_inv in Hc as (log & w6 & Hl & Hc). injection Hc as _ <-.
  unfold create_audit_log in Hl. apply bind_ok_inv in Hl as (row & w7 & Hi & Hl).
  injection Hl as _ <-. unfold db_insert in Hi.
  destruct (table _ !! _); [done|]. cbn [violates Entity_AuditLog no_constraint] in Hi.
  injection Hi as _ <-. exists k, t, u, (bcrypt_hash (w_entropy w) new_password).
  do 7 (split; [done|]). split; [apply bcrypt_accepts|]. split; [done|].
  cbn. rewrite Hdb. cbn. split; [done|]. apply map_fmap_ext. intros i x _. done.
Qed.

(** C24: a password reset replaces the password and ends every session.  It succeeds only with
    the token of a reset that was asked for, not used and not expired, for an active user
    that is not the demo account.  Afterwards the new password is accepted for that user, no
    other user changed, no access token issued before opens the account, all reset tokens of
    the user are used up and those of others are as before, and the same token is refused. *)
Theorem password_reset_ends_sessions token new_password w msg w1 :
  keyed (users (w_db w)) -> distinct_hashes (password_reset_tokens (w_db w)) ->
  confirm_password_reset token new_password w = (Ok msg, w1) ->
  exists k t u hashed,
    password_reset_tokens (w_db w) !! k = Some t
    /\ prt_token_hash t = hash_password_reset_token token
    /\ prt_used_at t = None /\ w_now w <= prt_expires_at t
    /\ users (w_db w) !! prt_user_id t = Some u /\ usr_is_active u = true
    /\ usr_is_demo_user u = false
    /\ bcrypt_verify new_password hashed = true
    /\ users (w_committed w1) = <[prt_user_id t := with_new_password hashed u]> (users (w_db w))
    /\ (forall version tenant_id expire jti d w2 u2,
          users (w_db w2) = users (w_committed w1) -> version <= usr_token_version u ->
          let p := claims (string_of_Z (prt_user_id t)) tenant_id version expire "access" jti in
          let p := if (d : bool) then p ++ [("is_public_demo"%string, JBool true)] else p in
          get_current_user (jwt_encode secret_key p) None w2 <> (Ok u2, w2))
    /\ (forall i s, password_reset_tokens (w_committed w1) !! i = Some s ->
          (prt_user_id s = prt_user_id t -> prt_used_at s <> None)
          /\ (prt_user_id s <> prt_user_id t -> password_reset_tokens (w_db w) !! i = Some s))
    /\ forall other w2, w_db w2 = w_committed w1 ->
         confirm_password_reset token other w2
         = (Raise (DomainError BadRequestError INVALID_RESET_TOKEN_MESSAGE), w2).
Proof.
  intros Hkeyed Hdist Hc. pose proof (confirm_inv _ _ _ _ _ Hc)
    as (k & t & u & hashed & Hk & Hh & Hused & Hexp & Hu & Hact & Hdemo & Hpw & _ & Husers & Htok).
  pose proof (Hkeyed _ _ Hu) as Hid. cbn in Hid. rewrite Hid in Husers, Htok.
  exists k, t, u, hashed. do 9 (split; [done|]). split; [|split].
  - intros version tenant_id expire jti d w2 u2 Hw2 Hv p p' Hopen.
    apply current_user_opens in Hopen as (_ & Hrow & _ & _ & Hver & _).
    rewrite Hw2, Husers, lookup_insert_eq in Hrow. injection Hrow as <-. cbn in Hver. lia.
  - intros i s. rewrite Htok, lookup_fmap. destruct (password_reset_tokens (w_db w) !! i) as [s0|];
      [|done]. intros [= <-]. unfold use_up.
    destruct (Z.eqb_spec (prt_user_id s0) (prt_user_id t)), (prt_used_at s0) eqn:E; simpl; try done;
      split; intros; congruence.
  - intros other w2 Hw2. unfold confirm_password_reset, bind, first, asks. cbv beta iota zeta.
    destruct (head _) as [s|] eqn:Hs.
    + apply head_filter_some in Hs as [Hin Hf%String.eqb_eq]. apply in_rows_of in Hin as [j Hj].
      cbn [table Entity_PasswordResetToken] in Hj. rewrite Hw2, Htok, lookup_fmap in Hj.
      destruct (password_reset_tokens (w_db w) !! j) as [s0|] eqn:Hs0; [|done]. injection Hj as <-.
      assert (prt_token_hash (use_up (prt_user_id t) (w_now w) s0) = prt_token_hash s0) as Eh
        by (unfold use_up; by destruct (_ && _)).
      assert (j = k) as -> by (eapply Hdist; eauto; congruence).
      assert (s0 = t) as -> by congruence. unfold use_up. rewrite Z.eqb_refl, Hused. done.
    + done.
Qed.
End Sessions.
