(* ===== verification/Uploads.v ===== *)
(** * Uploads: files in object storage

    app/core/upload_metadata.py, file_validation.py and malware_scan.py,
    malware_scanner.py, storage_service.py, upload_verification_service.py and the routes of
    app/api/routes/files.py.  The bytes of a file are a string; the storage and the HTTP scanner
    are the providers. *)

From S2P Require Import Prelude Py Effects Schema Settings Orm AuditTrail Directory JobQueue.
From S2P Require Import Providers Tenancy Users Auth.

Definition VERIFY_PRESIGNED_UPLOAD_JOB : string := "verify_presigned_upload".

(** ** Names, types and contents *)

Definition MAX_UPLOAD_FILENAME_LENGTH : nat := 255.

Definition forbidden_in_filename : list string := [String "000" ""; "/"; "\"; ".."]%string.

Definition validate_upload_filename (filename : string) : PyM string :=
  let normalized_filename := strip filename in
  if negb (truthy normalized_filename) then domain_error BadRequestError "Filename is required"
  else if (MAX_UPLOAD_FILENAME_LENGTH <? length (chars normalized_filename))%nat
  then domain_error BadRequestError "Filename is too long"
  else if existsb (fun f => occurs_in (chars f) (chars normalized_filename)) forbidden_in_filename
  then domain_error BadRequestError "Invalid filename"
  else ret normalized_filename.

(** The character class of [CONTENT_TYPE_PATTERN]. *)
Definition type_char (c : ascii) : bool :=
  let n := N_of_ascii (lower_char c) in
  is_digit c || ((97 <=? n)%N && (n <=? 122)%N)
  || bool_decide (c ∈ ["!"; "#"; "$"; "&"; "-"; "^"; "_"; "."; "+"]%char).

Definition content_type_matches (l : list ascii) : bool :=
  match split_on "/" l with
  | [a; b] => negb (bool_decide (a = [])) && negb (bool_decide (b = []))
              && forallb type_char a && forallb type_char b
  | _ => false
  end.

Definition validate_content_type_format (content_type : string) : PyM string :=
  let normalized_content_type := lower (strip content_type) in
  if content_type_matches (chars normalized_content_type) then ret normalized_content_type
  else domain_error BadRequestError "Invalid content type format".

(** [CONTENT_SIGNATURES] *)
Definition CONTENT_SIGNATURES : list (string * list string) :=
  [("application/pdf", ["%PDF"]);
   ("image/png", [String "137" ("PNG" ++ String "013" (String "010" (String "026" (String "010" ""))))]);
   ("image/jpeg", [String "255" (String "216" (String "255" ""))])]%string.

Definition sniff_content_type (body : string) : option string :=
  match List.find (fun ts => existsb (fun sig => starts_with (chars sig) (chars body)) ts.2)
          CONTENT_SIGNATURES with
  | Some ts => Some ts.1
  | None => None
  end.

Section Validation.
Context `{Config} `{Providers}.

Definition allowed_content_types : list string :=
  List.filter truthy
    (map (fun v => lower (strip (of_chars v))) (split_on "," (chars upload_allowed_content_types))).

Definition validate_declared_content_type (content_type : option string) : PyM string :=
  match content_type with
  | None => domain_error BadRequestError "Unsupported file type"
  | Some c =>
      normalized_content_type <- validate_content_type_format c ;;
      if bool_decide (normalized_content_type ∈ allowed_content_types)
      then ret normalized_content_type
      else domain_error BadRequestError "Unsupported file type"
  end.

Definition validate_content_sniff (declared_content_type body : string) : PyM unit :=
  if bool_decide (sniff_content_type body = Some declared_content_type) then ret tt
  else domain_error BadRequestError "File content does not match declared content type".

(** [MalwareScanResult] *)
Record MalwareScanResult : Type := MkMalwareScanResult { clean : bool; detail : string }.

Definition DisabledMalwareScanner_scan : MalwareScanResult :=
  MkMalwareScanResult true "malware_scan_disabled".

Definition InfectedFilenameMalwareScanner_scan (filename : string) : MalwareScanResult :=
  if occurs_in (chars ".infected.") (chars (lower filename))
  then MkMalwareScanResult false "infected_filename_detected"
  else MkMalwareScanResult true "malware_scan_passed".

(** [get_malware_scanner().scan]; the HTTP scanner says clean only for an answer that does. *)
Definition run_malware_scan (body filename : string) : PyM MalwareScanResult :=
  if negb upload_malware_scan_enabled then ret DisabledMalwareScanner_scan
  else if truthy (strip upload_malware_scanner_url) then
    passed <- asks (http_scan_clean body filename) ;;
    ret (if passed then MkMalwareScanResult true "malware_scan_passed"
         else MkMalwareScanResult false "malware_detected")
  else ret (InfectedFilenameMalwareScanner_scan filename).

Definition ensure_malware_scan_is_clean (scan_result : MalwareScanResult) : PyM unit :=
  if clean scan_result then ret tt
  else domain_error BadRequestError "File failed malware scanning".
End Validation.

(** ** Object storage *)

Record StoredObjectMetadata : Type := MkStoredObjectMetadata {
  som_size_bytes : Z;
  som_content_type : string }.

Record PresignedUrl : Type := MkPresignedUrl { pu_url : string; pu_expires_in_seconds : Z }.

Section Storage.
Context `{Config} `{Providers}.

Definition get_object_metadata (object_key : string) : PyM StoredObjectMetadata :=
  response <- asks (s3_head_object object_key) ;;
  match response with
  | None => domain_error BadRequestError "Uploaded object was not found in storage"
  | Some (size, content_type) =>
      let content_type := if opt_truthy content_type then default ""%string content_type
                          else "application/octet-stream"%string in
      ret (MkStoredObjectMetadata size
             (lower (strip (of_chars (hd [] (split_on ";" (chars content_type)))))))
  end.

Definition download_object_body (object_key : string) (max_bytes : Z) : PyM string :=
  response <- asks (s3_get_object object_key) ;;
  match response with
  | None => domain_error BadRequestError "Uploaded object could not be verified"
  | Some content =>
      let body := str_take (Z.to_nat (max_bytes + 1)) content in
      if max_bytes <? Z.of_nat (length (chars body))
      then domain_error PayloadTooLargeError "File too large" else ret body
  end.

Definition verify_bucket_access : PyM unit :=
  reachable <- asks s3_head_bucket ;;
  if reachable then ret tt
  else domain_error ServiceUnavailableError "Object storage bucket is not reachable".

(** [generate_presigned_download_url] and [generate_presigned_upload_url] *)
Definition generate_presigned_url (client_method object_key : string) : PyM PresignedUrl :=
  url <- asks (s3_presign client_method object_key) ;;
  match url with
  | Some url => ret (MkPresignedUrl url upload_presigned_url_expire_seconds)
  | None => raise ClientError
  end.

Definition validate_file_size (size_bytes : Z) : PyM unit :=
  if upload_max_size_bytes <? size_bytes
  then domain_error PayloadTooLargeError "File too large" else ret tt.

(** The loop of [spool_upload_stream_limited]: read a chunk, count it, write it. *)
Fixpoint spool_loop (fuel : nat) (unread : list ascii) (total_size : Z) (spool : list ascii)
    : Result Exn (list ascii * Z) :=
  match fuel with
  | O => Raise NonTermination
  | S fuel =>
      let chunk := take (Z.to_nat upload_stream_chunk_size_bytes) unread in
      match chunk with
      | [] => Ok (spool, total_size)
      | _ =>
          let total_size := total_size + Z.of_nat (length chunk) in
          if upload_max_size_bytes <? total_size
          then Raise (DomainError PayloadTooLargeError "File too large")
          else spool_loop fuel (drop (Z.to_nat upload_stream_chunk_size_bytes) unread) total_size
                 (spool ++ chunk)
      end
  end.

Definition spool_upload_stream_limited (content : string) : PyM (string * Z) :=
  spooled <- lift_result (spool_loop (S (length (chars content))) (chars content) 0 []) ;;
  ret (of_chars spooled.1, spooled.2).

Definition assert_stored_metadata_matches (metadata : StoredObjectMetadata)
    (declared_content_type : string) (declared_size_bytes : Z) : PyM unit :=
  if negb (som_size_bytes metadata =? declared_size_bytes)
  then domain_error BadRequestError "Uploaded object size does not match declared size"
  else if negb (String.eqb (som_content_type metadata) declared_content_type)
  then domain_error BadRequestError
         "Uploaded object content type does not match declared content type"
  else ret tt.

Definition verify_stored_object_metadata (object_key declared_content_type : string)
    (declared_size_bytes : Z) : PyM StoredObjectMetadata :=
  metadata <- get_object_metadata object_key ;;
  assert_stored_metadata_matches metadata declared_content_type declared_size_bytes ;;;
  ret metadata.

Definition verify_stored_object_content (object_key declared_content_type : string)
    (declared_size_bytes : Z) (filename : string) : PyM unit :=
  metadata <- get_object_metadata object_key ;;
  assert_stored_metadata_matches metadata declared_content_type declared_size_bytes ;;;
  body <- download_object_body object_key (som_size_bytes metadata) ;;
  if negb (Z.of_nat (length (chars body)) =? som_size_bytes metadata)
  then domain_error BadRequestError "Uploaded object size could not be verified"
  else
    validate_content_sniff declared_content_type body ;;;
    scan <- run_malware_scan body filename ;;
    ensure_malware_scan_is_clean scan.

(** [uuid7().hex] *)
Definition uuid_hex : PyM string :=
  u <- fresh_uuid ;;
  ret (of_chars (List.filter (fun c => negb (Ascii.eqb c "-")) (chars u))).

Definition owner_prefix (tenant_id owner_id : Z) : string :=
  (build_tenant_object_key_prefix tenant_id ++ "/uploads/" ++ string_of_Z owner_id ++ "/")%string.

Definition build_object_key (tenant_id owner_id : Z) (filename : string) : PyM string :=
  let safe_filename := of_chars (map (fun c =>
    if Ascii.eqb c "/" || Ascii.eqb c "\" then "_"%char else c) (chars filename)) in
  hex <- uuid_hex ;;
  ret (owner_prefix tenant_id owner_id ++ hex ++ "-" ++ safe_filename)%string.

Definition ensure_object_key_belongs_to_owner (object_key : string) (owner : User) : PyM unit :=
  if starts_with (chars (owner_prefix (usr_tenant_id owner) (usr_id owner))) (chars object_key)
  then ret tt
  else domain_error BadRequestError "Invalid object key for current user".

(** ** Access *)

Definition get_uploaded_file (file_id tenant_id : Z) : PyM (option UploadedFile) :=
  find_pk file_id (fun f => upl_tenant_id f =? tenant_id).

Definition can_access_uploaded_file (current_user : User) (f : UploadedFile) : bool :=
  if negb (usr_tenant_id current_user =? upl_tenant_id f) then false
  else if user_has_permission current_user FILES_DOWNLOAD then true
  else (upl_owner_id f =? usr_id current_user)
       && user_has_permission current_user FILES_DOWNLOAD_SELF.

Definition can_delete_uploaded_file (current_user : User) (f : UploadedFile) : bool :=
  if negb (usr_tenant_id current_user =? upl_tenant_id f) then false
  else if user_has_permission current_user FILES_DELETE then true
  else (upl_owner_id f =? usr_id current_user)
       && user_has_permission current_user FILES_DELETE_SELF.

Definition ensure_upload_is_downloadable (f : UploadedFile) : PyM unit :=
  match upl_verification_status f with
  | UPLOAD_PENDING => domain_error ConflictError "File verification is still in progress"
  | UPLOAD_VERIFIED => ret tt
  end.

(** ** [StorageService] *)

Definition new_file (owner : User) (object_key filename content_type : string) (size_bytes : Z)
    (status : UploadVerificationStatus) : PyM UploadedFile :=
  f <- db_insert (fun id created_at =>
    MkUploadedFile id (usr_tenant_id owner) (usr_id owner) object_key filename content_type
      size_bytes status created_at) ;;
  commit ;;;
  refresh f.

(** [StorageService.upload] *)
Definition storage_upload (owner : User) (filename content_type : option string) (content : string)
    : PyM UploadedFile :=
  filename <- validate_upload_filename
    (if opt_truthy filename then default ""%string filename else "upload"%string) ;;
  content_type <- validate_declared_content_type
    (Some (if opt_truthy content_type then default ""%string content_type
           else "application/octet-stream"%string)) ;;
  spooled <- spool_upload_stream_limited content ;;
  let '(spool, size_bytes) := spooled in
  validate_file_size size_bytes ;;;
  validate_content_sniff content_type (str_take 512 spool) ;;;
  scan <- run_malware_scan spool filename ;;
  ensure_malware_scan_is_clean scan ;;;
  object_key <- build_object_key (usr_tenant_id owner) (usr_id owner) filename ;;
  stored <- asks (s3_upload object_key spool content_type) ;;
  if negb stored then domain_error ServiceUnavailableError "Object storage upload failed"
  else new_file owner object_key filename content_type size_bytes UPLOAD_VERIFIED.

Definition storage_create_presigned_upload (owner : User) (filename content_type : string)
    : PyM (string * PresignedUrl) :=
  safe_filename <- validate_upload_filename filename ;;
  normalized_content_type <- validate_declared_content_type (Some content_type) ;;
  verify_bucket_access ;;;
  object_key <- build_object_key (usr_tenant_id owner) (usr_id owner) safe_filename ;;
  presigned_url <- generate_presigned_url "put_object" object_key ;;
  ret (object_key, presigned_url).

Definition enqueue_verify_presigned_upload_job (uploaded_file_id : Z) : PyM Job :=
  enqueue_job VERIFY_PRESIGNED_UPLOAD_JOB [("uploaded_file_id"%string, uploaded_file_id)].

Definition storage_complete_presigned_upload (owner : User)
    (object_key filename content_type : string) (size_bytes : Z) : PyM UploadedFile :=
  safe_filename <- validate_upload_filename filename ;;
  normalized_content_type <- validate_declared_content_type (Some content_type) ;;
  validate_file_size size_bytes ;;;
  ensure_object_key_belongs_to_owner object_key owner ;;;
  verify_stored_object_metadata object_key normalized_content_type size_bytes ;;;
  uploaded_file <- new_file owner object_key safe_filename normalized_content_type size_bytes
                     UPLOAD_PENDING ;;
  enqueue_verify_presigned_upload_job (upl_id uploaded_file) ;;;
  ret uploaded_file.

Definition storage_get_presigned_download_url (f : UploadedFile) (current_user : User)
    : PyM PresignedUrl :=
  if negb (can_access_uploaded_file current_user f)
  then domain_error ForbiddenError "Insufficient permissions"
  else
    ensure_upload_is_downloadable f ;;;
    catch (generate_presigned_url "get_object" (upl_object_key f)) (fun e =>
      match e with
      | ClientError => Some (domain_error ServiceUnavailableError
                               "Object storage download URL generation failed")
      | _ => None
      end).

Definition storage_delete_uploaded_file (f : UploadedFile) (current_user : User) : PyM unit :=
  if negb (can_delete_uploaded_file current_user f)
  then domain_error ForbiddenError "Insufficient permissions"
  else
    deleted <- asks (s3_delete_object (upl_object_key f)) ;;
    if negb deleted then domain_error ServiceUnavailableError "Object storage delete failed"
    else db_delete f ;;; commit.

(** ** The verification job *)

(** A failed verification deletes the object, whether or not that succeeds, and the row. *)
Definition verify_presigned_upload_in_worker (uploaded_file_id : Z) : PyM unit :=
  uploaded_file <- find_pk uploaded_file_id (fun _ => true) ;;
  match uploaded_file with
  | None => ret tt
  | Some f =>
      if negb (bool_decide (upl_verification_status f = UPLOAD_PENDING)) then ret tt
      else
        failed <- catch
          (verify_stored_object_content (upl_object_key f) (upl_content_type f) (upl_size_bytes f)
             (upl_filename f) ;;; ret false)
          (fun e => match e with DomainError _ _ => Some (ret true) | _ => None end) ;;
        if failed then
          asks (s3_delete_object (upl_object_key f)) ;;;
          db_delete f ;;;
          commit
        else
          save (f <| upl_verification_status := UPLOAD_VERIFIED |>) ;;;
          commit
  end.

(** ** Routes *)

Definition upload_file (current_user : User) (filename content_type : option string)
    (content : string) : PyM UploadedFile :=
  require_non_demo_user current_user ;;;
  require_permission [FILES_UPLOAD] current_user ;;;
  storage_upload current_user filename content_type content.

Definition create_presigned_upload (current_user : User) (filename content_type : string)
    : PyM (string * PresignedUrl) :=
  require_non_demo_user current_user ;;;
  require_permission [FILES_UPLOAD] current_user ;;;
  storage_create_presigned_upload current_user filename content_type.

Definition complete_presigned_upload (current_user : User)
    (object_key filename content_type : string) (size_bytes : Z) : PyM UploadedFile :=
  require_non_demo_user current_user ;;;
  require_permission [FILES_UPLOAD] current_user ;;;
  storage_complete_presigned_upload current_user object_key filename content_type size_bytes.

Definition require_uploaded_file (current_user : User) (file_id : Z) : PyM UploadedFile :=
  uploaded_file <- get_uploaded_file file_id (usr_tenant_id current_user) ;;
  match uploaded_file with
  | None => raise (HTTPException 404 "File not found")
  | Some f => ret f
  end.

Definition get_download_url (current_user : User) (file_id : Z) : PyM PresignedUrl :=
  uploaded_file <- require_uploaded_file current_user file_id ;;
  storage_get_presigned_download_url uploaded_file current_user.

Definition delete_file (current_user : User) (file_id : Z) : PyM unit :=
  require_non_demo_user current_user ;;;
  uploaded_file <- require_uploaded_file current_user file_id ;;
  storage_delete_uploaded_file uploaded_file current_user.
End Storage.

Example sniff_forms : map sniff_content_type ["%PDF-1.7"; "GIF89a"; ""]%string
  = [Some "application/pdf"; None; None]%string.
Proof. vm_compute. reflexivity. Qed.
Example type_forms : map (fun s => content_type_matches (chars s))
    ["image/png"; "image/svg+xml"; "image"; "a/b/c"; "/png"; "im age/png"]%string
  = [true; true; false; false; false; false].
Proof. vm_compute. reflexivity. Qed.
