(* ===== verification/UploadBehaviour.v ===== *)
(** * UploadBehaviour: which files can be downloaded

    A streamed upload is stored whole or refused by size; a presigned upload becomes a verified
    file exactly when the stored object passes every check and is discarded otherwise; an
    object key belongs to one owner. *)

From S2P Require Import Prelude Py Effects Schema Settings Orm AuditTrail Directory JobQueue.
From S2P Require Import Providers Tenancy Users Auth Uploads.

Section UploadBehaviour.
Context `{Config} `{Providers}.

(** ** Streaming *)

Lemma spool_loop_ok fuel unread total spool :
  0 < upload_stream_chunk_size_bytes -> (length unread < fuel)%nat ->
  total <= upload_max_size_bytes ->
  spool_loop fuel unread total spool
  = if upload_max_size_bytes <? total + Z.of_nat (length unread)
    then Raise (DomainError PayloadTooLargeError "File too large")
    else Ok (spool ++ unread, total + Z.of_nat (length unread)).
Proof.
  intros Hchunk. set (n := Z.to_nat upload_stream_chunk_size_bytes).
  assert (Hn : (0 < n)%nat) by lia.
  revert unread total spool. induction fuel as [|fuel IH]; intros unread total spool Hf Ht; [lia|].
  cbn [spool_loop]. fold n. destruct unread as [|c l].
  - rewrite take_nil. simpl. rewrite Z.add_0_r, app_nil_r.
    by destruct (Z.ltb_spec upload_max_size_bytes total); [lia|].
  - destruct (take n (c :: l)) as [|c' chunk] eqn:Et.
    { apply (f_equal length) in Et. rewrite length_take in Et. simpl in Et. lia. }
    rewrite <- Et. clear c' chunk Et. cbv zeta. rewrite length_take.
    set (l0 := c :: l) in *. assert (Hl0 : (0 < length l0)%nat) by (simpl; lia).
    assert (Hlen : (length (drop n l0) = length l0 - n)%nat) by apply length_drop.
    destruct (Z.ltb_spec upload_max_size_bytes (total + Z.of_nat (n `min` length l0))).
    + by destruct (Z.ltb_spec upload_max_size_bytes (total + Z.of_nat (length l0))); [|lia].
    + rewrite IH by lia. rewrite <- app_assoc, take_drop.
      by replace (total + Z.of_nat (n `min` length l0) + Z.of_nat (length (drop n l0)))
        with (total + Z.of_nat (length l0)) by lia.
Qed.

(** Reading in chunks stores the whole content, or refuses a content above the limit. *)
Lemma spool_whole content w :
  0 < upload_stream_chunk_size_bytes -> 0 <= upload_max_size_bytes ->
  spool_upload_stream_limited content w
  = (if upload_max_size_bytes <? Z.of_nat (length (chars content))
     then Raise (DomainError PayloadTooLargeError "File too large")
     else Ok (content, Z.of_nat (length (chars content))), w).
Proof.
  intros Hc Hm. unfold spool_upload_stream_limited, bind. rewrite spool_loop_ok by lia.
  rewrite Z.add_0_l. destruct (_ <? _); [done|]. simpl. by rewrite of_chars_chars.
Qed.

(** ** The checks *)

(** The media type in the answer of the storage. *)
Definition media_type (content_type : option string) : string :=
  let content_type := if opt_truthy content_type then default ""%string content_type
                      else "application/octet-stream"%string in
  lower (strip (of_chars (hd [] (split_on ";" (chars content_type))))).

(** The configured scanner finds nothing. *)
Definition scan_clean (body filename : string) (w : World) : bool :=
  negb upload_malware_scan_enabled
  || if truthy (strip upload_malware_scanner_url) then http_scan_clean body filename w
     else negb (occurs_in (chars ".infected.") (chars (lower filename))).

(** The stored object is what was declared, and clean. *)
Definition content_ok (f : UploadedFile) (w : World) : bool :=
  match s3_head_object (upl_object_key f) w, s3_get_object (upl_object_key f) w with
  | Some (size, content_type), Some content =>
      (size =? upl_size_bytes f) && String.eqb (media_type content_type) (upl_content_type f)
      && (Z.of_nat (length (chars content)) =? size)
      && bool_decide (sniff_content_type content = Some (upl_content_type f))
      && scan_clean content (upl_filename f) w
  | _, _ => false
  end.

Lemma scan_run body filename w :
  exists r, run_malware_scan body filename w = (Ok r, w) /\ clean r = scan_clean body filename w.
Proof.
  unfold run_malware_scan, scan_clean. destruct upload_malware_scan_enabled; simpl; [|by eexists].
  destruct (truthy _); [unfold bind, asks, ret; by destruct (http_scan_clean _ _ w); eexists|].
  unfold InfectedFilenameMalwareScanner_scan. by destruct (occurs_in _ _); eexists.
Qed.

Lemma verify_content_iff f w :
  exists r, verify_stored_object_content (upl_object_key f) (upl_content_type f) (upl_size_bytes f)
              (upl_filename f) w = (r, w)
    /\ if content_ok f w then r = Ok tt else exists k m, r = Raise (DomainError k m).
Proof.
  unfold verify_stored_object_content, content_ok.
  unfold bind at 1, get_object_metadata, bind at 1, asks at 1.
  destruct (s3_head_object _ w) as [[size ct]|]; [|eexists; split; [done|]; by eexists _, _].
  unfold ret at 1, assert_stored_metadata_matches. fold (media_type ct). cbn [som_size_bytes som_content_type].
  destruct (Z.eqb_spec size (upl_size_bytes f)) as [Hs|]; cbn [negb andb].
  2:{ eexists. split; [done|]. destruct (s3_get_object _ w); by eexists _, _. }
  fold (media_type ct).
  destruct (String.eqb (media_type ct) (upl_content_type f)) eqn:Et; cbn [negb andb].
  2:{ eexists. split; [done|]. destruct (s3_get_object _ w); by eexists _, _. }
  unfold bind at 1, ret at 1, bind at 1, download_object_body, bind at 1, asks at 1.
  destruct (s3_get_object _ w) as [content|]; [|eexists; split; [done|]; by eexists _, _].
  cbv zeta. unfold str_take. rewrite chars_of_chars, length_take.
  destruct (Z.ltb_spec size (Z.of_nat (Z.to_nat (size + 1) `min` length (chars content)))).
  { eexists. split; [done|]. destruct (Z.eqb_spec (Z.of_nat (length (chars content))) size); [lia|].
    simpl. by eexists _, _. }
  assert (Hb : take (Z.to_nat (size + 1)) (chars content) = chars content) by (apply take_ge; lia).
  rewrite Hb, of_chars_chars. unfold ret at 1.
  destruct (Z.eqb_spec (Z.of_nat (length (chars content))) size); cbn [negb andb];
    [|eexists; split; [done|]; by eexists _, _].
  unfold bind at 1, validate_content_sniff.
  destruct (bool_decide _); cbn [andb]; [|eexists; split; [done|]; by eexists _, _].
  unfold ret at 1, bind. destruct (scan_run content (upl_filename f) w) as (r & -> & Hr).
  unfold ensure_malware_scan_is_clean. rewrite Hr.
  destruct (scan_clean content (upl_filename f) w); eexists; (split; [done|]); [done | by eexists _, _].
Qed.

(** ** What verification does *)

(** The table after the verification of a file. *)
Definition settle (f : UploadedFile) (passed : bool) (t : gmap Z UploadedFile) : gmap Z UploadedFile :=
  if passed then <[upl_id f := f <| upl_verification_status := UPLOAD_VERIFIED |>]> t
  else base.delete (upl_id f) t.


(** A download address is given only for a verified file of the caller's tenant, to a caller
    with the permission for it. *)
Lemma downloads_are_verified current_user file_id w url w1 :
  get_download_url current_user file_id w = (Ok url, w1) ->
  w1 = w /\ exists f, uploaded_files (w_db w) !! file_id = Some f
    /\ upl_verification_status f = UPLOAD_VERIFIED /\ upl_tenant_id f = usr_tenant_id current_user
    /\ (user_has_permission current_user FILES_DOWNLOAD = true
        \/ upl_owner_id f = usr_id current_user
           /\ user_has_permission current_user FILES_DOWNLOAD_SELF = true).
Proof.
  unfold get_download_url. intros Hg. apply bind_ok_inv in Hg as (f & w0 & Hq & Hg).
  unfold require_uploaded_file in Hq. apply bind_ok_inv in Hq as (o & w2 & Ho & Hq).
  injection Ho as <- <-. cbn [table Entity_UploadedFile] in Hq.
  destruct (uploaded_files (w_db w) !! file_id) as [f'|] eqn:Hf; [|done].
  destruct (Z.eqb_spec (upl_tenant_id f') (usr_tenant_id current_user)) as [Ht|]; [|done].
  injection Hq as -> <-. unfold storage_get_presigned_download_url in Hg.
  destruct (can_access_uploaded_file current_user f) eqn:Ha; [|done]. cbn [negb] in Hg.
  apply bind_ok_inv in Hg as ([] & w2 & He & Hg). unfold ensure_upload_is_downloadable in He.
  destruct (upl_verification_status f) eqn:Hst; [done|]. injection He as <-.
  unfold catch, generate_presigned_url, bind, asks in Hg.
  destruct (s3_presign _ _ w); [|done]. injection Hg as _ <-. split; [done|]. exists f.
  do 3 (split; [done|]). unfold can_access_uploaded_file in Ha.
  destruct (negb _); [done|]. destruct (user_has_permission current_user FILES_DOWNLOAD); [by left|].
  right. by apply andb_true_iff in Ha as [->%Z.eqb_eq ->].
Qed.

(** ** Object keys *)

Lemma starts_with_app p l : starts_with p (p ++ l) = true.
Proof. induction p as [|c p IH]; simpl; [done|]. by rewrite Ascii.eqb_refl. Qed.

Lemma starts_with_inv p l : starts_with p l = true -> exists rest, l = p ++ rest.
Proof.
  revert l. induction p as [|c p IH]; intros l Hl; [by exists l|].
  destruct l as [|x l]; [done|]. simpl in Hl. apply andb_true_iff in Hl as [->%Ascii.eqb_eq Hl].
  destruct (IH l Hl) as [rest ->]. by exists rest.
Qed.

Lemma owner_prefix_chars tenant_id owner_id rest :
  chars (owner_prefix tenant_id owner_id) ++ rest
  = chars "tenants/" ++ chars (string_of_Z tenant_id) ++ "/"%char
      :: chars "uploads/" ++ chars (string_of_Z owner_id) ++ "/"%char :: rest.
Proof.
  unfold owner_prefix, build_tenant_object_key_prefix. rewrite !chars_app, <- !app_assoc. done.
Qed.

Lemma owner_prefix_inj t o t' o' rest rest' :
  chars (owner_prefix t o) ++ rest = chars (owner_prefix t' o') ++ rest' -> t = t' /\ o = o'.
Proof.
  rewrite !owner_prefix_chars. intros E. apply app_inv_head in E.
  assert (Hsplit : forall z z' l l', chars (string_of_Z z) ++ "/"%char :: l
                    = chars (string_of_Z z') ++ "/"%char :: l' -> z = z' /\ l = l').
  { intros z z' l l' El. apply (f_equal (split_at "/"%char)) in El.
    rewrite !split_numeral in El by done. injection El as El ->.
    split; [|done]. by apply string_of_Z_inj, chars_inj. }
  apply Hsplit in E as [-> E]. apply app_inv_head in E. by apply Hsplit in E as [-> _].
Qed.

(** An object key belongs to one owner.  The key that the service hands out for an upload of
    a user is accepted when that user completes the upload and refused for every other
    user, of the same tenant or of another one: no owner's prefix is a prefix of
    another's. *)
Theorem object_key_has_one_owner owner filename w key w1 :
  build_object_key (usr_tenant_id owner) (usr_id owner) filename w = (Ok key, w1) ->
  forall user v, ensure_object_key_belongs_to_owner key user v
    = (if (usr_tenant_id user =? usr_tenant_id owner) && (usr_id user =? usr_id owner) then Ok tt
       else Raise (DomainError BadRequestError "Invalid object key for current user"), v).
Proof.
  unfold build_object_key. cbv zeta. intros Hb. apply bind_ok_inv in Hb as (hex & w2 & _ & Hb).
  injection Hb as <- _. intros user v. unfold ensure_object_key_belongs_to_owner.
  rewrite chars_app.
  destruct (starts_with _ _) eqn:Hs.
  - apply starts_with_inv in Hs as [rest E]. apply owner_prefix_inj in E as [-> ->].
    by rewrite !Z.eqb_refl.
  - destruct (_ && _) eqn:E; [|done]. apply andb_true_iff in E as [Et%Z.eqb_eq Ei%Z.eqb_eq].
    rewrite Et, Ei in Hs. by rewrite starts_with_app in Hs.
Qed.

(** ** Direct uploads *)

(** A direct upload stores a verified row only for a content within the limit, of an allowed
    type that its first bytes confirm, which the scanner finds clean and the storage took. *)
Lemma direct_upload_checked owner filename content_type content w f w1 :
  0 < upload_stream_chunk_size_bytes -> 0 <= upload_max_size_bytes ->
  storage_upload owner filename content_type content w = (Ok f, w1) ->
  upl_verification_status f = UPLOAD_VERIFIED
  /\ upl_size_bytes f = Z.of_nat (length (chars content)) /\ upl_size_bytes f <= upload_max_size_bytes
  /\ upl_content_type f ∈ allowed_content_types
  /\ sniff_content_type (str_take 512 content) = Some (upl_content_type f)
  /\ (exists v, scan_clean content (upl_filename f) v = true)
  /\ (exists v, s3_upload (upl_object_key f) content (upl_content_type f) v = true).
Proof.
  intros Hc Hm. unfold storage_upload. intros Hu.
  apply bind_ok_inv in Hu as (fn & w2 & _ & Hu). apply bind_ok_inv in Hu as (ct & w3 & Hct & Hu).
  assert (Hallowed : ct ∈ allowed_content_types).
  { unfold validate_declared_content_type in Hct. apply bind_ok_inv in Hct as (n & v & _ & Hct).
    case_bool_decide; [|done]. by injection Hct as <- <-. }
  unfold bind at 1 in Hu. rewrite spool_whole in Hu by done.
  destruct (Z.ltb_spec upload_max_size_bytes (Z.of_nat (length (chars content)))); [done|].
  apply bind_ok_inv in Hu as ([] & w4 & _ & Hu). apply bind_ok_inv in Hu as ([] & w5 & Hsn & Hu).
  unfold validate_content_sniff in Hsn. case_bool_decide as Hsniff; [|done]. injection Hsn as <-.
  unfold bind at 1 in Hu. destruct (scan_run content fn w4) as (r & Er & Hr). rewrite Er in Hu.
  apply bind_ok_inv in Hu as ([] & w5 & Hen & Hu). unfold ensure_malware_scan_is_clean in Hen.
  destruct (clean r) eqn:Hclean; [|done]. injection Hen as <-.
  apply bind_ok_inv in Hu as (key & w5 & _ & Hu). apply bind_ok_inv in Hu as (stored & w6 & Hst & Hu).
  injection Hst as Hst <-. destruct stored; [|done]. cbn [negb] in Hu.
  unfold new_file in Hu. apply bind_ok_inv in Hu as (row & w7 & Hi & Hu).
  apply bind_ok_inv in Hu as ([] & w8 & Hcm & Hu). injection Hcm as <-. injection Hu as <- _.
  unfold db_insert in Hi. destruct (table _ !! _); [done|]. destruct (violates _ _); [done|].
  injection Hi as <- <-. cbn. rewrite lookup_insert_eq. cbn. repeat split; try done; eauto.
Qed.
End UploadBehaviour.
