(* ===== verification/PublicLink.v ===== *)
(** * PublicLink: app/services/booking_public_service.py

    The public management link carries a token "{booking_id}.{exp_unix}.{hmac}";
    the HMAC (a parameter) is keyed with the secret and signs
    "{booking_id}:{exp_unix}". *)

From S2P Require Import Prelude Py Effects Schema Settings Orm.

Definition BOOKING_TOKEN_TTL_SECONDS : Z := 90 * 24 * 3600.

Definition is_ascii (s : string) : bool := forallb (fun c => N_of_ascii c <? 128)%N (chars s).

(** [hmac.compare_digest] on two [str]: it raises on a non-ASCII character. *)
Definition compare_digest (a b : string) : PyM bool :=
  if is_ascii a && is_ascii b then ret (String.eqb a b) else raise TypeError.

(** [raw_id, raw_exp, sig = token.split(".", 2)] *)
Definition split_token (token : string) : option (string * string * string) :=
  match split_at "."%char (chars token) with
  | Some (a, rest) =>
      match split_at "."%char rest with
      | Some (b, sig) => Some (of_chars a, of_chars b, of_chars sig)
      | None => None
      end
  | None => None
  end.

(** [time.time() > exp_unix], in microseconds. *)
Definition token_expired (now exp_unix : Z) : bool := timedelta_seconds exp_unix <? now.

Section PublicLink.
Context `{Config}.

Definition signing_key : string := (secret_key ++ ":booking_management")%string.

(** The signed message of [_sign]. *)
Definition signed_message (booking_id exp_unix : Z) : string :=
  (string_of_Z booking_id ++ ":" ++ string_of_Z exp_unix)%string.

Definition sign (booking_id exp_unix : Z) : string :=
  hmac_sha256_hex signing_key (signed_message booking_id exp_unix).

Definition render_token (booking_id exp_unix : Z) : string :=
  (string_of_Z booking_id ++ "." ++ string_of_Z exp_unix ++ "." ++ sign booking_id exp_unix)%string.

Definition generate_booking_token (booking_id : Z) : PyM string :=
  now <- now_utc ;;
  let exp_unix := now / second_us + BOOKING_TOKEN_TTL_SECONDS in
  ret (render_token booking_id exp_unix).

Definition verify_booking_token (token : string) : PyM Z :=
  match split_token token with
  | None => raise (ValueError "Invalid token format")
  | Some (raw_id, raw_exp, sig) =>
      match py_int raw_id, py_int raw_exp with
      | Some booking_id, Some exp_unix =>
          same <- compare_digest (sign booking_id exp_unix) sig ;;
          if negb same then raise (ValueError "Invalid token signature")
          else
            now <- now_utc ;;
            if token_expired now exp_unix then raise (ValueError "Token has expired")
            else ret booking_id
      | _, _ => raise (ValueError "Invalid token format")
      end
  end.

Definition get_booking_by_public_token (token : string) : PyM Booking :=
  booking_id <- catch (verify_booking_token token) (fun e =>
    match e with
    | ValueError _ => Some (domain_error NotFoundError "booking")
    | _ => None
    end) ;;
  booking <- find_pk booking_id (fun _ => true) ;;
  require "booking" booking.

(** [build_public_management_url]: [None] when no base URL is configured. *)
Definition build_public_management_url (booking_id : Z) : PyM (option string) :=
  let base := rstrip_slash booking_public_base_url in
  if negb (truthy base) then ret None
  else
    token <- generate_booking_token booking_id ;;
    ret (Some (base ++ "/" ++ token)%string).

(** ** Lemmas *)

Lemma split_render_token b e :
  split_token (render_token b e) = Some (string_of_Z b, string_of_Z e, sign b e).
Proof.
  unfold split_token, render_token. rewrite !chars_app. simpl.
  rewrite split_numeral by done. rewrite split_numeral by done. by rewrite !of_chars_chars.
Qed.

Lemma signed_message_inj b e b' e' :
  signed_message b e = signed_message b' e' -> b = b' /\ e = e'.
Proof.
  intros E. apply (f_equal (fun s => split_at ":"%char (chars s))) in E.
  unfold signed_message in E. rewrite !chars_app in E. simpl in E.
  rewrite !split_numeral in E by done. injection E as E1 E2.
  split; apply string_of_Z_inj; by apply chars_inj.
Qed.

(** Verifying a rendered token checks its expiry only. *)
Lemma verify_render_token b e w :
  (forall k m, is_ascii (hmac_sha256_hex k m) = true) ->
  verify_booking_token (render_token b e) w
  = (if w_now w <=? e * second_us then Ok b else Raise (ValueError "Token has expired"), w).
Proof.
  intros Hhex. unfold verify_booking_token. rewrite split_render_token, !py_int_string_of_Z.
  unfold bind, compare_digest, sign at 1 2. rewrite !Hhex. simpl.
  rewrite String.eqb_refl. simpl. unfold token_expired, timedelta_seconds.
  rewrite Z.ltb_antisym. by destruct (w_now w <=? e * second_us).
Qed.

(** ** Properties *)

(** A generated link works for its booking until it expires and not after: at
    any later moment, verifying the token gives the booking it was made for as long
    as the clock has not passed the expiry second, 90 days after the (whole) second
    of generation, and raises "Token has expired" from then on; verification reads
    the world and never changes it. *)
Theorem token_roundtrip (booking_id : Z) (w w' : World) :
  (forall k m, is_ascii (hmac_sha256_hex k m) = true) ->
  exists token, generate_booking_token booking_id w = (Ok token, w)
    /\ verify_booking_token token w'
       = (if w_now w' <=? (w_now w / second_us + BOOKING_TOKEN_TTL_SECONDS) * second_us
          then Ok booking_id else Raise (ValueError "Token has expired"), w').
Proof. intros Hhex. eexists. split; [reflexivity | by apply verify_render_token]. Qed.

(** The token cannot be re-targeted or prolonged: if a token is accepted for
    some booking, it carries the HMAC of exactly that booking and of an expiry that
    has not passed; and if that HMAC is the one issued for [(booking_id0, exp0)],
    then the booking and the expiry are those issued, unless two different messages
    have the same HMAC. *)
Theorem token_tamper_proof (token : string) (booking_id booking_id0 exp0 : Z) (w w' : World) :
  verify_booking_token token w = (Ok booking_id, w') ->
  exists raw_id raw_exp sig exp_unix,
    split_token token = Some (raw_id, raw_exp, sig)
    /\ py_int raw_id = Some booking_id /\ py_int raw_exp = Some exp_unix
    /\ sig = sign booking_id exp_unix
    /\ w_now w <= exp_unix * second_us
    /\ (sig = sign booking_id0 exp0 ->
        (booking_id = booking_id0 /\ exp_unix = exp0)
        \/ exists m m', m <> m' /\ hmac_sha256_hex signing_key m = hmac_sha256_hex signing_key m').
Proof.
  unfold verify_booking_token. destruct (split_token token) as [[[ri re] sig]|] eqn:Et; [|done].
  destruct (py_int ri) as [b|] eqn:Eb; [|done]. destruct (py_int re) as [e|] eqn:Ee; [|done].
  unfold bind, compare_digest. destruct (_ && _); [|done]. simpl.
  destruct (String.eqb (sign b e) sig) eqn:Es; [|done]. simpl.
  destruct (token_expired (w_now w) e) eqn:Ex; [done|]. intros [= <- _].
  apply String.eqb_eq in Es. unfold token_expired, timedelta_seconds in Ex. bool_props.
  exists ri, re, sig, e. do 5 (split; [done|]). intros E0. rewrite <- Es in E0.
  destruct (decide (signed_message b e = signed_message booking_id0 exp0)) as [Em|Em].
  - left. by apply signed_message_inj.
  - right. eauto.
Qed.

(** A link outlives its booking: a link generated for a booking still opens it after
    the booking was cancelled, up to the link's own expiry 90 days later, because the
    lookup by token does not look at the booking's status. *)
Theorem token_survives_cancellation (token : string) (booking : Booking) (w w' : World) :
  (forall k m, is_ascii (hmac_sha256_hex k m) = true) ->
  generate_booking_token (bk_id booking) w = (Ok token, w) ->
  w_now w' <= (w_now w / second_us + BOOKING_TOKEN_TTL_SECONDS) * second_us ->
  bookings (w_db w') !! bk_id booking = Some booking ->
  bk_status booking = CANCELLED ->
  get_booking_by_public_token token w' = (Ok booking, w').
Proof.
  intros Hhex [= <-] Hnow Hb _. unfold get_booking_by_public_token, catch, bind.
  rewrite verify_render_token by done. rewrite (proj2 (Z.leb_le _ _)) by exact Hnow.
  simpl. by rewrite Hb.
Qed.

(** A token whose signature part holds a non-ASCII character is not answered
    with "booking not found": [compare_digest] raises [TypeError], which the
    [except ValueError] does not catch. *)
Theorem non_ascii_signature_escapes (token raw_id raw_exp sig : string) (b e : Z) (w : World) :
  split_token token = Some (raw_id, raw_exp, sig) ->
  py_int raw_id = Some b -> py_int raw_exp = Some e ->
  is_ascii sig = false ->
  get_booking_by_public_token token w = (Raise TypeError, w).
Proof.
  intros Ht Hb He Hs. unfold get_booking_by_public_token, verify_booking_token, catch.
  rewrite Ht, Hb, He. unfold bind, compare_digest. rewrite Hs, andb_false_r. reflexivity.
Qed.
End PublicLink.
