(* ===== verification/Webhooks.v ===== *)
(** * Webhooks: the signed webhook endpoint

    idempotency_service.py, webhook_security.py, webhook_service.py and
    app/api/routes/webhooks.py.  A request body is a string of bytes. *)

From S2P Require Import Prelude Py Effects Schema Settings Orm AuditTrail JobQueue Tenancy Users.
From S2P Require Import RateLimit PublicLink.

(** ** Idempotency *)

Definition IDEMPOTENCY_LOCK_PREFIX : string := "idempotency:processing:".

Section Idempotency.
Context `{Config}.

Definition build_scope_key (scope idempotency_key : string) : PyM string :=
  let normalized_key := strip idempotency_key in
  if negb (truthy normalized_key)
  then domain_error BadRequestError "Idempotency-Key header is required"
  else ret (scope ++ ":" ++ sha256_hex (scope ++ ":" ++ normalized_key))%string.

Definition idempotency_lock_key (scope_key : string) : string :=
  (IDEMPOTENCY_LOCK_PREFIX ++ scope_key)%string.

Definition try_acquire_idempotency_lock (scope_key : string) : PyM bool :=
  now <- now_utc ;;
  redis (set_nx_ex (idempotency_lock_key scope_key)
           (timedelta_seconds idempotency_processing_lock_ttl_seconds) now).

Definition release_idempotency_lock (scope_key : string) : PyM unit :=
  redis_ (del_key (idempotency_lock_key scope_key)).

Definition record_matches (scope_key : string) (now : Z) (r : IdempotencyRecord) : bool :=
  String.eqb (idm_scope_key r) scope_key && (now <? idm_expires_at r).

Definition get_cached_response (scope_key : string) : PyM (option IdempotencyRecord) :=
  now <- now_utc ;; first (record_matches scope_key now).

Definition store_response (scope_key : string) (status_code : Z) (response_body : json_object)
    : PyM IdempotencyRecord :=
  now <- now_utc ;;
  let expires_at := now + timedelta_seconds idempotency_ttl_seconds in
  catch
    (record <- db_insert (fun id created_at =>
       MkIdempotencyRecord id scope_key status_code response_body created_at expires_at) ;;
     commit ;;;
     refresh record)
    (fun e => match e with
              | IntegrityError _ => Some (
                  rollback ;;;
                  existing_record <- get_cached_response scope_key ;;
                  match existing_record with
                  | None => raise e
                  | Some r => ret r
                  end)
              | _ => None
              end).

(** The record to answer with, if there is one; otherwise the lock was acquired. *)
Definition begin_idempotent_request (scope_key : string) : PyM (option IdempotencyRecord) :=
  cached_record <- get_cached_response scope_key ;;
  match cached_record with
  | Some r => ret (Some r)
  | None =>
      acquired <- try_acquire_idempotency_lock scope_key ;;
      if acquired then ret None
      else
        cached_record <- get_cached_response scope_key ;;
        match cached_record with
        | Some r => ret (Some r)
        | None => domain_error ConflictError "Duplicate request is already in progress"
        end
  end.

Definition cleanup_expired_idempotency_records : PyM Z :=
  now <- now_utc ;;
  deleted_count <- delete_where (fun r => idm_expires_at r <? now) ;;
  commit ;;;
  ret deleted_count.
End Idempotency.

(** ** Signatures *)

Definition hex_char (c : ascii) : bool :=
  let n := N_of_ascii (lower_char c) in is_digit c || ((97 <=? n)%N && (n <=? 102)%N).

Fixpoint take_while (p : ascii -> bool) (l : list ascii) : list ascii :=
  match l with
  | [] => []
  | c :: l' => if p c then c :: take_while p l' else []
  end.

(** [STRIPE_STYLE_SIGNATURE_PATTERN.fullmatch]: the digits and the signature, if there is
    one. *)
Definition stripe_match (l : list ascii) : option (list ascii * option (list ascii)) :=
  match l with
  | t :: eq :: rest =>
      if Ascii.eqb (lower_char t) "t" && Ascii.eqb eq "=" then
        let digits := take_while is_digit rest in
        match digits, drop_while is_digit rest with
        | [], _ => None
        | _, [] => Some (digits, None)
        | _, comma :: v :: one :: eq' :: hex =>
            if Ascii.eqb comma "," && Ascii.eqb (lower_char v) "v" && Ascii.eqb one "1"
               && Ascii.eqb eq' "=" && negb (bool_decide (hex = [])) && forallb hex_char hex
            then Some (digits, Some hex) else None
        | _, _ => None
        end
      else None
  | _ => None
  end.

Section Signatures.
Context `{Config}.

Definition hash_payload (payload : string) : string := sha256_hex payload.

Definition build_timestamped_signing_message (timestamp : Z) (payload : string) : string :=
  (string_of_Z timestamp ++ "." ++ payload)%string.

Definition compute_hmac_signature (payload secret : string) : string :=
  hmac_sha256_hex secret payload.

Definition compute_timestamped_hmac_signature (timestamp : Z) (payload secret : string) : string :=
  compute_hmac_signature (build_timestamped_signing_message timestamp payload) secret.

Definition parse_webhook_signature_header (signature : string) : Result Exn (option Z * string) :=
  let normalized_signature := strip signature in
  match stripe_match (chars normalized_signature) with
  | Some (digits, Some hex) => Ok (py_int (of_chars digits), lower (of_chars hex))
  | Some (_, None) => Raise (WebhookSignatureError "Webhook signature version is required")
  | None => Ok (None, lower normalized_signature)
  end.

Definition verify_timestamped_hmac_signature (payload signature : string) (timestamp : option Z)
    (secret : string) (tolerance_seconds : Z) : PyM Z :=
  if negb (truthy secret)
  then raise (WebhookSignatureError "Webhook signature secret is not configured")
  else
    header <- lift_result (parse_webhook_signature_header signature) ;;
    let '(header_timestamp, parsed_signature) := header in
    match match timestamp with Some t => Some t | None => header_timestamp end with
    | None => raise (WebhookSignatureError "Webhook timestamp is required")
    | Some effective_timestamp =>
        now <- now_utc ;;
        let age_seconds := Z.abs (now / second_us - effective_timestamp) in
        if tolerance_seconds <? age_seconds
        then raise (WebhookSignatureError "Webhook timestamp is outside the replay window")
        else
          let signing_message := build_timestamped_signing_message effective_timestamp payload in
          let expected_signature := compute_hmac_signature signing_message secret in
          same <- compare_digest expected_signature parsed_signature ;;
          if same then ret effective_timestamp
          else raise (WebhookSignatureError "Invalid webhook signature")
    end.
End Signatures.

(** ** The service and the route *)

Section WebhookService.
Context `{Config}.

Definition enforce_webhook_body_size (raw_body : string) : PyM unit :=
  if webhook_max_body_bytes <? Z.of_nat (length (chars raw_body))
  then domain_error PayloadTooLargeError "Webhook payload too large" else ret tt.

Definition persist_webhook_event (provider event_id payload : string) : PyM WebhookEvent :=
  catch
    (event <- db_insert (fun id received_at =>
       MkWebhookEvent id provider event_id (hash_payload payload) received_at) ;;
     commit ;;;
     refresh event)
    (fun e => match e with
              | IntegrityError _ =>
                  Some (rollback ;;; domain_error ConflictError "Webhook event already processed")
              | _ => None
              end).

Definition cleanup_old_webhook_events : PyM Z :=
  now <- now_utc ;;
  let cutoff := now - timedelta_days webhook_event_retention_days in
  deleted_count <- delete_where (fun e => whk_received_at e <? cutoff) ;;
  commit ;;;
  ret deleted_count.

Definition verify_inbound_webhook_signature (payload : string) (signature timestamp : option string)
    (secret : string) (tolerance_seconds : Z) : PyM unit :=
  match signature with
  | None => domain_error UnauthorizedError "Webhook signature header is required"
  | Some signature =>
      parsed_timestamp <- match timestamp with
                          | None => ret None
                          | Some t =>
                              match py_int (strip t) with
                              | Some z => ret (Some z)
                              | None => domain_error UnauthorizedError
                                          "Webhook timestamp must be a Unix timestamp"
                              end
                          end ;;
      catch
        (verify_timestamped_hmac_signature payload signature parsed_timestamp secret
           tolerance_seconds ;;; ret tt)
        (fun e => match e with
                  | WebhookSignatureError message => Some (domain_error UnauthorizedError message)
                  | _ => None
                  end)
  end.

(** app/api/dependencies/idempotency.py *)
Definition get_idempotency_key (header : option string) : PyM string :=
  let normalized_key := match header with
                        | Some k => if truthy k then strip k else ""%string
                        | None => ""%string
                        end in
  if truthy normalized_key then ret normalized_key
  else raise (HTTPException 400 "Idempotency-Key header is required").

Definition webhook_response (status provider event_id : string) : json_object :=
  [("status", JStr status); ("provider", JStr provider); ("event_id", JStr event_id)]%string.

Definition webhook_scope : string := "webhooks:inbound".

(** The body of the [try] of [inbound_webhook]. *)
Definition process_webhook (scope_key raw_body : string) (signature timestamp : option string)
    : PyM (Z * json_object) :=
  verify_inbound_webhook_signature raw_body signature timestamp webhook_signature_secret
    webhook_signature_tolerance_seconds ;;;
  match validate_webhook_json raw_body with
  | None => raise ValidationError
  | Some (provider, event_id) =>
      enforce_webhook_provider_rate_limit provider ;;;
      duplicate <- catch (persist_webhook_event provider event_id raw_body ;;; ret false) (fun e =>
        match e with
        | DomainError ConflictError _ => Some (ret true)
        | _ => None
        end) ;;
      if duplicate then
        stored_record <- store_response scope_key 409
                           (webhook_response "duplicate" provider event_id) ;;
        ret (idm_status_code stored_record, idm_response_body stored_record)
      else
        stored_record <- store_response scope_key 200
                           (webhook_response "accepted" provider event_id) ;;
        ret (200, idm_response_body stored_record)
  end.

(** [inbound_webhook]: the status and body of the response. *)
Definition inbound_webhook (raw_body : string) (request : Peer)
    (idempotency_header signature timestamp : option string) : PyM (Z * json_object) :=
  idempotency_key <- get_idempotency_key idempotency_header ;;
  webhook_ingress_rate_limit request ;;;
  enforce_webhook_body_size raw_body ;;;
  scope_key <- build_scope_key webhook_scope idempotency_key ;;
  cached_record <- begin_idempotent_request scope_key ;;
  match cached_record with
  | Some r => ret (idm_status_code r, idm_response_body r)
  | None =>
      finally (process_webhook scope_key raw_body signature timestamp)
        (release_idempotency_lock scope_key)
  end.
End WebhookService.

Example stripe_forms :
  map (fun s => match stripe_match (chars s) with
                | Some (d, h) => Some (of_chars d, of_chars <$> h)
                | None => None
                end)
    ["t=12,v1=aF09"; "T=1"; "t=,v1=a"; "t=1,v1="; "t=1,v1=xyz"; "abc"]%string
  = [Some ("12", Some "aF09"); Some ("1", None); None; None; None; None]%string.
Proof. vm_compute. reflexivity. Qed.
