(* ===== verification/WebhookBehaviour.v ===== *)
(** * WebhookBehaviour: what the webhook endpoint guarantees

    A limiter lets through exactly its limit of requests per window; an event is recorded only
    for a body that was signed with the shared secret a short while ago, and once; an answer
    is repeated for the same idempotency key. *)

From S2P Require Import Prelude Py Effects Schema Settings Orm AuditTrail JobQueue Frames Tenancy.
From S2P Require Import Users RateLimit PublicLink Webhooks.

(** ** Rate limits *)

Section Limits.
Context `{Config}.

(** Requests under one key, each at its own moment: their outcomes and the final world. *)
Fixpoint attempts (key : string) (limit window_seconds : Z) (times : list Z) (w : World)
    : list (Result Exn unit) * World :=
  match times with
  | [] => ([], w)
  | t :: times =>
      let '(r, w) := enforce_rate_limit_counter key limit window_seconds (w <| w_now := t |>) in
      let '(rs, w) := attempts key limit window_seconds times w in
      (r :: rs, w)
  end.

(** Assertions that do not mention Redis hold through its commands. *)
Definition redis_blind (P : World -> Prop) : Prop := forall w r, P w -> P (w <| w_redis := r |>).

Lemma redis_command_blind P cmd : redis_blind P -> keeps P (redis_ cmd).
Proof. intros HP. apply triple_modify. intros w Hw. exact (HP w (cmd (w_redis w)) Hw). Qed.
Lemma redis_read_blind {A} P (cmd : Redis -> A * Redis) : redis_blind P -> keeps P (redis cmd).
Proof. intros HP w Hw. unfold redis. destruct (cmd (w_redis w)) as [a r]. by apply HP. Qed.
Lemma limit_blind P : redis_blind P -> forall key limit window,
  keeps P (enforce_rate_limit_counter key limit window).
Proof.
  intros HP key limit window. unfold enforce_rate_limit_counter. keeps_steps;
    (by apply redis_read_blind) || by apply redis_command_blind.
Qed.

(** The outcome of the [i]-th request of a window. *)
Definition verdict (limit i : Z) : Result Exn unit :=
  if limit <? i then Raise (HTTPException 429 "Too many requests") else Ok tt.

(** The counter stands at [n] and lasts until [expiry]. *)
Definition counted (key : string) (n expiry : Z) (w : World) : Prop :=
  r_keys (w_redis w) !! key = Some (RInt n, Some expiry).

Lemma counted_attempt key limit window n expiry t w :
  counted key n expiry w -> 1 <= n -> t < expiry ->
  exists w', enforce_rate_limit_counter key limit window (w <| w_now := t |>)
             = (verdict limit (n + 1), w') /\ counted key (n + 1) expiry w'.
Proof.
  intros Hc Hn Ht. unfold counted in Hc.
  unfold enforce_rate_limit_counter, bind, now_utc, asks, redis, incr, live_key. cbn [w_now w_redis].
  simpl. rewrite Hc. rewrite (proj2 (Z.ltb_lt t expiry) Ht). cbv beta iota.
  destruct (Z.eqb_spec (n + 1) 1); [lia|]. unfold when, ret, verdict, raise. simpl.
  destruct (limit <? n + 1); eexists; (split; [reflexivity|]);
    unfold counted; simpl; by rewrite lookup_insert_eq.
Qed.

Lemma counted_attempts key limit window expiry times n w :
  counted key n expiry w -> 1 <= n -> Forall (fun t => t < expiry) times ->
  (attempts key limit window times w).1 = map (verdict limit) (seqZ (n + 1) (Z.of_nat (length times)))
  /\ counted key (n + Z.of_nat (length times)) expiry (attempts key limit window times w).2.
Proof.
  revert n w. induction times as [|t times IH]; intros n w Hc Hn Hf; simpl length.
  - simpl. by rewrite Z.add_0_r.
  - inversion_clear Hf as [|? ? Ht Hts].
    destruct (counted_attempt key limit window n expiry t w Hc Hn Ht) as (w' & E & Hc').
    cbn [attempts]. rewrite E. destruct (IH (n + 1) w' Hc' ltac:(lia) Hts) as [Hr Hc2].
    destruct (attempts key limit window times w') as [rs w2]. simpl in *.
    rewrite seqZ_cons by lia. simpl. replace (Z.pred (Z.of_nat (S (length times)))) with (Z.of_nat (length times)) by lia.
    replace (Z.succ (n + 1)) with (n + 1 + 1) by lia. rewrite Hr. split; [done|].
    by replace (n + Z.of_nat (S (length times))) with (n + 1 + Z.of_nat (length times)) by lia.
Qed.

(** A limiter is exact.  From the first request of a window on, and however the requests are
    spread over the window, exactly the first [limit] of them pass and every further one is
    answered 429; when the window is over the key counts from the beginning again. *)
Theorem rate_limit_exact key limit window_seconds t0 times w :
  live_key t0 key (w_redis w) = None -> 0 < window_seconds ->
  Forall (fun t => t0 <= t < t0 + timedelta_seconds window_seconds) times ->
  let '(rs, w') := attempts key limit window_seconds (t0 :: times) w in
  rs = map (verdict limit) (seqZ 1 (1 + Z.of_nat (length times)))
  /\ forall t, t0 + timedelta_seconds window_seconds <= t -> live_key t key (w_redis w') = None.
Proof.
  intros Hfree Hpos Hts. cbn [attempts].
  assert (exists w1, enforce_rate_limit_counter key limit window_seconds (w <| w_now := t0 |>)
             = (verdict limit 1, w1) /\ counted key 1 (t0 + timedelta_seconds window_seconds) w1)
    as (w1 & E & Hc).
  { unfold enforce_rate_limit_counter, bind, now_utc, asks, redis, incr. simpl. rewrite Hfree.
    unfold when, redis_, modify, expire, live_key, set_ex, verdict, ret, raise. simpl.
    destruct (limit <? 1); eexists; (split; [reflexivity|]); unfold counted; simpl;
      rewrite lookup_insert_eq; simpl; by rewrite lookup_insert_eq. }
  rewrite E.
  destruct (counted_attempts key limit window_seconds _ times 1 w1 Hc ltac:(lia)) as [Hr Hc2].
  { eapply Forall_impl; [exact Hts|]. simpl. lia. }
  destruct (attempts key limit window_seconds times w1) as [rs w2]. simpl in Hr, Hc2. split.
  - rewrite seqZ_cons by lia. simpl. replace (Z.pred (1 + Z.of_nat (length times))) with (Z.of_nat (length times)) by lia.
    by rewrite Hr.
  - intros t Ht. unfold live_key. rewrite Hc2. by rewrite (proj2 (Z.ltb_ge _ _) Ht).
Qed.
End Limits.

(** ** Signatures *)

Section Authenticity.
Context `{Config}.

(** The body came with a signature of the shared secret over a moment close to [now]: the moment
    is that of the timestamp header, or else that of the signature header. *)
Definition signed (now : Z) (payload : string) (signature timestamp : option string) : Prop :=
  truthy webhook_signature_secret = true
  /\ exists header in_header moment,
       signature = Some header
       /\ parse_webhook_signature_header header
          = Ok (in_header, compute_timestamped_hmac_signature moment payload webhook_signature_secret)
       /\ match timestamp with
          | Some t => py_int (strip t) = Some moment
          | None => in_header = Some moment
          end
       /\ Z.abs (now / second_us - moment) <= webhook_signature_tolerance_seconds.

Lemma verified_is_signed payload signature timestamp w w' :
  verify_inbound_webhook_signature payload signature timestamp webhook_signature_secret
    webhook_signature_tolerance_seconds w = (Ok tt, w') ->
  w' = w /\ signed (w_now w) payload signature timestamp.
Proof.
  unfold verify_inbound_webhook_signature. destruct signature as [header|]; [|done].
  intros Hv. apply bind_ok_inv in Hv as (parsed & w0 & Hp & Hv).
  assert (w0 = w /\ match timestamp with
                     | Some t => exists z, py_int (strip t) = Some z /\ parsed = Some z
                     | None => parsed = None
                     end) as [-> Ht].
  { destruct timestamp as [t|]; [|by injection Hp as <- <-].
    destruct (py_int (strip t)) as [z|] eqn:Ez; [|done]. injection Hp as <- <-. eauto. }
  clear Hp. unfold catch in Hv.
  destruct (bind (verify_timestamped_hmac_signature payload header parsed _ _) _ w)
    as [[u|e] w1] eqn:Hm; [|by destruct e]. injection Hv as _ <-.
  apply bind_ok_inv in Hm as (at_ & w2 & Hm & Hret). injection Hret as _ <-.
  unfold verify_timestamped_hmac_signature in Hm.
  destruct (truthy webhook_signature_secret) eqn:Hs; [|done]. cbn [negb] in Hm.
  apply bind_ok_inv in Hm as ([in_header hex] & w3 & Hl & Hm).
  destruct (parse_webhook_signature_header header) as [ph|e] eqn:Hph; [|done].
  injection Hl as -> <-.
  destruct (match parsed with Some t => Some t | None => in_header end) as [moment|] eqn:Em; [|done].
  apply bind_ok_inv in Hm as (now & w3 & Hn & Hm). injection Hn as <- <-. cbv zeta in Hm.
  destruct (Z.ltb_spec webhook_signature_tolerance_seconds (Z.abs (w_now w / second_us - moment)));
    [done|].
  apply bind_ok_inv in Hm as (same & w3 & Hc & Hm). unfold compare_digest in Hc.
  destruct (_ && _); [|done]. injection Hc as Hsame <-.
  destruct same; [|done]. injection Hm as _ <-. apply String.eqb_eq in Hsame.
  split; [done|]. split; [done|]. exists header, in_header, moment. split; [done|].
  split; [by rewrite Hph, <- Hsame|]. split; [|done].
  destruct timestamp as [t|]; [destruct Ht as (z & Hz & ->); congruence | by subst parsed].
Qed.

(** ** Events are recorded once *)

(** The recorded events, in the session and durably. *)
Definition events_are (E : gmap Z WebhookEvent) (now : Z) (w : World) : Prop :=
  webhook_events (w_db w) = E /\ webhook_events (w_committed w) = E /\ w_now w = now.

(** The event of a signed body, which was not known, became the only new row. *)
Definition recorded (E : gmap Z WebhookEvent) (now : Z) (raw_body : string)
    (signature timestamp : option string) (w : World) : Prop :=
  signed now raw_body signature timestamp
  /\ exists provider event_id k,
       validate_webhook_json raw_body = Some (provider, event_id)
       /\ E !! k = None
       /\ (forall j e, E !! j = Some e -> ~ (whk_provider e = provider /\ whk_event_id e = event_id))
       /\ events_are (<[k := MkWebhookEvent k provider event_id (hash_payload raw_body) now]> E) now w.

Definition unchanged_or_recorded E now raw_body signature timestamp (w : World) : Prop :=
  events_are E now w \/ recorded E now raw_body signature timestamp w.

Lemma events_blind E now : redis_blind (events_are E now).
Proof. by intros w r Hw. Qed.
Lemma events_redis E now cmd : keeps (events_are E now) (redis_ cmd).
Proof. apply redis_command_blind, events_blind. Qed.
Lemma events_redis_read {A} E now (cmd : Redis -> A * Redis) : keeps (events_are E now) (redis cmd).
Proof. apply redis_read_blind, events_blind. Qed.
Lemma events_commit E now : keeps (events_are E now) commit.
Proof. apply triple_modify. intros w (Hd & Hc & Hn). by split. Qed.
Lemma events_rollback E now : keeps (events_are E now) rollback.
Proof. apply triple_modify. intros w (Hd & Hc & Hn). by split. Qed.
Lemma events_insert_record E now mk : keeps (events_are E now) (db_insert (A := IdempotencyRecord) mk).
Proof.
  intros w Hw. unfold db_insert. destruct (table (w_db w) !! _); [done|].
  by destruct (violates _ _).
Qed.

#[local] Hint Resolve events_redis events_redis_read events_commit events_rollback
  events_insert_record : ledger.

Lemma events_limit E now key limit window :
  keeps (events_are E now) (enforce_rate_limit_counter key limit window).
Proof. apply limit_blind, events_blind. Qed.
#[local] Hint Resolve events_limit : ledger.

Lemma events_provider_limit E now provider :
  keeps (events_are E now) (enforce_webhook_provider_rate_limit provider).
Proof. unfold enforce_webhook_provider_rate_limit. keeps_steps. Qed.

Lemma events_store E now scope_key status body :
  keeps (events_are E now) (store_response scope_key status body).
Proof. unfold store_response, get_cached_response. keeps_steps. Qed.

Lemma events_begin E now scope_key : keeps (events_are E now) (begin_idempotent_request scope_key).
Proof.
  unfold begin_idempotent_request, get_cached_response, try_acquire_idempotency_lock. keeps_steps.
Qed.
#[local] Hint Resolve events_provider_limit events_store events_begin : ledger.

(** What does not change the events keeps the disjunction, too. *)
Lemma outcome_keeps {A} E now raw_body signature timestamp (m : PyM A) :
  (forall E', keeps (events_are E' now) m) ->
  keeps (unchanged_or_recorded E now raw_body signature timestamp) m.
Proof.
  intros Hm w [Hw|(Hs & provider & event_id & k & Hj & Hk & Hnew & Hw)].
  - specialize (Hm E w Hw). destruct (m w) as [[a|e] w']; by left.
  - specialize (Hm _ w Hw).
    destruct (m w) as [[a|e] w']; right; (split; [done|]); exists provider, event_id, k; done.
Qed.

Lemma persist_outcome E now raw_body signature timestamp provider event_id :
  keyed E -> signed now raw_body signature timestamp ->
  validate_webhook_json raw_body = Some (provider, event_id) ->
  triple (events_are E now) (persist_webhook_event provider event_id raw_body)
    (fun _ => recorded E now raw_body signature timestamp) (fun _ => events_are E now).
Proof.
  intros Hkeyed Hs Hj w (Hd & Hc & Hn). unfold persist_webhook_event, catch, bind at 1, db_insert.
  cbn [table table_name Entity_WebhookEvent violates]. rewrite Hd, Hn.
  destruct (E !! w_seq w TWebhookEvents) eqn:Hk.
  { unfold bind, rollback, modify, domain_error, raise. split; [exact Hc | split; [exact Hc | exact Hn]]. }
  unfold webhook_event_violation, taken. rewrite Hd. cbn [whk_id whk_provider whk_event_id].
  destruct (existsb _ _) eqn:He.
  { unfold bind, rollback, modify, domain_error, raise. split; [exact Hc | split; [exact Hc | exact Hn]]. }
  unfold bind, commit, modify, refresh, asks. split; [done|].
  exists provider, event_id, (w_seq w TWebhookEvents). split; [done|]. split; [done|]. split.
  - intros j e He' [Hp Hi]. assert (Hin : In e (rows_of E)) by (apply in_rows_of; eauto).
    apply existsb_false with (x := e) in He; [|done]. rewrite Hp, Hi, !String.eqb_refl in He.
    rewrite !andb_true_r in He. apply negb_false_iff, Z.eqb_eq in He.
    pose proof (Hkeyed _ _ He') as Hpk. cbn in Hpk. congruence.
  - split; [|split]; cbn; rewrite ?Hd; done.
Qed.

Lemma events_verify E now raw_body signature timestamp secret tolerance :
  keeps (events_are E now)
    (verify_inbound_webhook_signature raw_body signature timestamp secret tolerance).
Proof.
  unfold verify_inbound_webhook_signature, verify_timestamped_hmac_signature, compare_digest.
  keeps_steps.
Qed.

Lemma verify_outcome E now raw_body signature timestamp :
  triple (events_are E now)
    (verify_inbound_webhook_signature raw_body signature timestamp webhook_signature_secret
       webhook_signature_tolerance_seconds)
    (fun _ w => signed now raw_body signature timestamp /\ events_are E now w)
    (fun _ => events_are E now).
Proof.
  intros w Hw. destruct (verify_inbound_webhook_signature _ _ _ _ _ w) as [[[]|e] w1] eqn:Hv.
  - apply verified_is_signed in Hv as [-> Hs]. pose proof Hw as (_ & _ & <-). done.
  - pose proof (events_verify E now raw_body signature timestamp webhook_signature_secret
      webhook_signature_tolerance_seconds w Hw) as Hk. by rewrite Hv in Hk.
Qed.

(** Steps that leave the events alone, on the way to an outcome. *)
Lemma outcome_step {A B} E now raw_body signature timestamp (m : PyM A) (f : A -> PyM B) :
  let U := unchanged_or_recorded E now raw_body signature timestamp in
  keeps (events_are E now) m ->
  (forall a, triple (events_are E now) (f a) (fun _ => U) (fun _ => U)) ->
  triple (events_are E now) (bind m f) (fun _ => U) (fun _ => U).
Proof.
  intros U Hm Hf. eapply triple_bind; [|exact Hf].
  eapply triple_conseq; [exact Hm | done | done | by left].
Qed.

Lemma process_outcome E now scope_key raw_body signature timestamp :
  keyed E ->
  let U := unchanged_or_recorded E now raw_body signature timestamp in
  triple (events_are E now) (process_webhook scope_key raw_body signature timestamp)
    (fun _ => U) (fun _ => U).
Proof.
  intros Hkeyed U. unfold process_webhook. eapply triple_bind.
  { eapply triple_conseq; [apply verify_outcome | done | intros ? w Hw; exact Hw | by left]. }
  intros u w [Hs Hw]. revert w Hw.
  destruct (validate_webhook_json raw_body) as [[provider event_id]|] eqn:Hj;
    [|apply triple_raise; by left].
  apply outcome_step; [apply events_provider_limit|]. intros _.
  eapply triple_bind with (R := fun _ => U).
  - eapply triple_catch with (Y := fun _ => events_are E now).
    + eapply triple_bind; [by eapply persist_outcome|]. intros ?. apply triple_ret. by right.
    + intros e m He. destruct e; try done. destruct kind; simplify_eq/=. apply triple_ret. by left.
    + by left.
  - intros dup. apply outcome_keeps. intros E'. destruct dup; keeps_steps.
Qed.

(** C26: webhook events are authentic and recorded once.  Whatever a request to the webhook
    endpoint contains and however it ends, either the recorded events are as before, or its
    body was signed with the shared secret over a moment within the tolerance of the
    clock, no event with its provider and identifier was recorded before, and exactly one row
    was added durably, with that provider, identifier and the hash of the body. *)
Theorem webhook_events_authentic raw_body request key signature timestamp w :
  keyed (webhook_events (w_committed w)) ->
  unchanged_or_recorded (webhook_events (w_committed w)) (w_now w) raw_body signature timestamp
    (run_request (inbound_webhook raw_body request key signature timestamp) w).2.
Proof.
  intros Hkeyed. set (E := webhook_events (w_committed w)) in *.
  set (U := unchanged_or_recorded E (w_now w) raw_body signature timestamp).
  assert (Ht : triple (events_are E (w_now w)) (inbound_webhook raw_body request key signature timestamp)
                 (fun _ => U) (fun _ => U)).
  { unfold inbound_webhook.
    apply outcome_step; [unfold get_idempotency_key; keeps_steps|]. intros k.
    apply outcome_step; [apply events_limit|]. intros _.
    apply outcome_step; [unfold enforce_webhook_body_size; keeps_steps|]. intros _.
    apply outcome_step; [unfold build_scope_key; keeps_steps|]. intros scope_key.
    apply outcome_step; [apply events_begin|]. intros [r|]; [apply triple_ret; by left|].
    eapply triple_finally; [by apply process_outcome | |];
      intros; apply outcome_keeps; intros; apply events_redis. }
  unfold run_request. specialize (Ht (open_session w) (conj eq_refl (conj eq_refl eq_refl))).
  assert (Hopen : forall v, U v -> U (open_session v)).
  { intros v [(Hd & Hc & Hn)|(Hs & p & i & k & Hj & Hk & Hnew & Hd & Hc & Hn)]; [by left|right].
    split; [done|]. by exists p, i, k. }
  destruct (inbound_webhook _ _ _ _ _ (open_session w)) as [[a|e] w']; by apply Hopen.
Qed.

(** ** Signing and verifying *)

(** The form of [hexdigest()]. *)
Definition hex_digest (s : string) : bool :=
  truthy s && forallb (fun c => hex_char c && Ascii.eqb (lower_char c) c) (chars s).

(** The header that a sender attaches: the moment and the signature over it. *)
Definition signature_header (moment : Z) (payload secret : string) : string :=
  ("t=" ++ string_of_Z moment ++ ",v1="
   ++ compute_timestamped_hmac_signature moment payload secret)%string.

Lemma take_digits ds rest :
  Forall (fun c => is_digit c = true) ds ->
  take_while is_digit (ds ++ ","%char :: rest) = ds
  /\ drop_while is_digit (ds ++ ","%char :: rest) = ","%char :: rest.
Proof.
  induction 1 as [|c ds Hc Hds [IH1 IH2]]; [done|]. simpl. rewrite Hc. by rewrite IH1, IH2.
Qed.

Lemma hex_char_facts c :
  hex_char c && Ascii.eqb (lower_char c) c = true ->
  hex_char c = true /\ lower_char c = c /\ is_space c = false /\ (N_of_ascii c <? 128)%N = true.
Proof. by destruct c as [[] [] [] [] [] [] [] []]. Qed.

Lemma hex_digest_facts s :
  hex_digest s = true ->
  chars s <> [] /\ forallb hex_char (chars s) = true /\ lower s = s
  /\ Forall (fun c => is_space c = false) (chars s) /\ is_ascii s = true.
Proof.
  unfold hex_digest. intros [Ht Hf]%andb_true_iff. rewrite forallb_forall in Hf.
  pose proof (fun c Hc => hex_char_facts c (Hf c Hc)) as Hall. repeat split.
  - intros E. unfold truthy in Ht. by rewrite <- (of_chars_chars s), E in Ht.
  - apply forallb_forall. intros c Hc. by apply Hall.
  - unfold lower. rewrite <- (of_chars_chars s) at 2. f_equal. rewrite <- (map_id (chars s)) at 2.
    apply map_ext_in. intros c Hc. by apply Hall.
  - apply List.Forall_forall. intros c Hc. by apply Hall.
  - apply forallb_forall. intros c Hc. by apply Hall.
Qed.

Lemma parse_signature_header moment payload secret :
  0 <= moment -> hex_digest (compute_timestamped_hmac_signature moment payload secret) = true ->
  parse_webhook_signature_header (signature_header moment payload secret)
  = Ok (Some moment, compute_timestamped_hmac_signature moment payload secret).
Proof.
  intros Hm Hx. unfold parse_webhook_signature_header, signature_header.
  set (hex := compute_timestamped_hmac_signature moment payload secret) in *.
  destruct (hex_digest_facts hex Hx) as (Hne & Hhex & Hlow & Hsp & _).
  pose proof (string_of_Z_digits moment Hm) as Hds.
  rewrite strip_no_space.
  2:{ rewrite !chars_app. simpl. repeat constructor. apply Forall_app. split.
      - eapply Forall_impl; [apply string_of_Z_chars | apply numeral_not_space].
      - by repeat constructor. }
  rewrite !chars_app. simpl. destruct (take_digits (chars (string_of_Z moment))
    ("v"%char :: "1"%char :: "="%char :: chars hex) Hds) as [-> ->].
  destruct (chars (string_of_Z moment)) as [|d ds] eqn:Ed.
  { pose proof (py_int_string_of_Z moment) as Hp.
    by rewrite <- (of_chars_chars (string_of_Z moment)), Ed in Hp. }
  simpl. rewrite bool_decide_false by done. rewrite Hhex. simpl.
  rewrite of_chars_chars, Hlow. f_equal. f_equal. rewrite <- (py_int_string_of_Z moment).
  by rewrite <- (of_chars_chars (string_of_Z moment)), Ed.
Qed.

(** What a sender signs is accepted.  The header made of a moment and of the digest over
    that moment and the body is accepted for this body as long as the clock is within the
    tolerance of the moment, on either side and including its ends, and refused with an
    authentication error outside of it; checking it changes nothing. *)
Theorem webhook_signature_roundtrip moment payload w :
  (forall k m, hex_digest (hmac_sha256_hex k m) = true) ->
  0 <= moment -> truthy webhook_signature_secret = true ->
  verify_inbound_webhook_signature payload
    (Some (signature_header moment payload webhook_signature_secret)) None
    webhook_signature_secret webhook_signature_tolerance_seconds w
  = (if Z.abs (w_now w / second_us - moment) <=? webhook_signature_tolerance_seconds then Ok tt
     else Raise (DomainError UnauthorizedError "Webhook timestamp is outside the replay window"), w).
Proof.
  intros Hlaw Hm Hs. unfold verify_inbound_webhook_signature, bind at 1, ret at 1.
  unfold verify_timestamped_hmac_signature. rewrite Hs. cbn [negb].
  rewrite parse_signature_header by (done || apply Hlaw).
  unfold catch, bind, lift_result, ret, now_utc, asks, raise, domain_error, compare_digest.
  cbv beta iota zeta. rewrite Z.ltb_antisym.
  destruct (Z.abs (w_now w / second_us - moment) <=? webhook_signature_tolerance_seconds); [|done].
  cbn [negb]. unfold compute_timestamped_hmac_signature, compute_hmac_signature.
  destruct (hex_digest_facts _ (Hlaw webhook_signature_secret
    (build_timestamped_signing_message moment payload))) as (_ & _ & _ & _ & ->).
  unfold ret. simpl. by rewrite String.eqb_refl.
Qed.
End Authenticity.

(** ** Answers are repeated *)

Section Replay.
Context `{Config}.

(** The unique index on the scope key. *)
Definition distinct_scopes (R : gmap Z IdempotencyRecord) : Prop :=
  forall i j r s, R !! i = Some r -> R !! j = Some s -> idm_scope_key r = idm_scope_key s -> i = j.

(** [R] holds the answer for a scope key, and no other row has this key. *)
Definition holds_answer (R : gmap Z IdempotencyRecord) (scope_key : string) (r : IdempotencyRecord)
    : Prop :=
  exists k, R !! k = Some r /\ idm_scope_key r = scope_key
    /\ forall j s, R !! j = Some s -> idm_scope_key s = scope_key -> j = k.

Lemma cached_answer R scope_key r now :
  holds_answer R scope_key r -> now < idm_expires_at r ->
  head (List.filter (record_matches scope_key now) (rows_of R)) = Some r.
Proof.
  intros (k & Hk & Hs & Honly) Hlive.
  destruct (head (List.filter (record_matches scope_key now) (rows_of R))) as [s|] eqn:Hh.
  - apply head_filter_some in Hh as [Hin Hm]. apply in_rows_of in Hin as [j Hj].
    unfold record_matches in Hm. apply andb_true_iff in Hm as [Hm%String.eqb_eq _].
    assert (j = k) as -> by eauto. congruence.
  - apply head_filter_none with (x := r) in Hh; [|apply in_rows_of; eauto].
    unfold record_matches in Hh. rewrite Hs, String.eqb_refl in Hh. simpl in Hh. bool_props. lia.
Qed.

Definition records_are (R : gmap Z IdempotencyRecord) (now : Z) (w : World) : Prop :=
  idempotency_records (w_db w) = R /\ idempotency_records (w_committed w) = R /\ w_now w = now.

Lemma records_blind R now : redis_blind (records_are R now).
Proof. by intros w r Hw. Qed.
Lemma records_redis R now cmd : keeps (records_are R now) (redis_ cmd).
Proof. apply redis_command_blind, records_blind. Qed.
Lemma records_redis_read {A} R now (cmd : Redis -> A * Redis) : keeps (records_are R now) (redis cmd).
Proof. apply redis_read_blind, records_blind. Qed.
Lemma records_commit R now : keeps (records_are R now) commit.
Proof. apply triple_modify. intros w (Hd & Hc & Hn). by split. Qed.
Lemma records_rollback R now : keeps (records_are R now) rollback.
Proof. apply triple_modify. intros w (Hd & Hc & Hn). by split. Qed.
Lemma records_insert_event R now mk : keeps (records_are R now) (db_insert (A := WebhookEvent) mk).
Proof.
  intros w Hw. unfold db_insert. destruct (table (w_db w) !! _); [done|].
  by destruct (violates _ _).
Qed.
#[local] Hint Resolve records_redis records_redis_read records_commit records_rollback
  records_insert_event : ledger.

Lemma records_limit R now key limit window :
  keeps (records_are R now) (enforce_rate_limit_counter key limit window).
Proof. apply limit_blind, records_blind. Qed.
#[local] Hint Resolve records_limit : ledger.

Lemma records_verify R now raw_body signature timestamp secret tolerance :
  keeps (records_are R now)
    (verify_inbound_webhook_signature raw_body signature timestamp secret tolerance).
Proof.
  unfold verify_inbound_webhook_signature, verify_timestamped_hmac_signature, compare_digest.
  keeps_steps.
Qed.

Lemma records_provider_limit R now provider :
  keeps (records_are R now) (enforce_webhook_provider_rate_limit provider).
Proof. unfold enforce_webhook_provider_rate_limit. keeps_steps. Qed.

Lemma records_persist R now provider event_id raw_body :
  keeps (records_are R now) (persist_webhook_event provider event_id raw_body).
Proof. unfold persist_webhook_event. keeps_steps. Qed.
#[local] Hint Resolve records_verify records_provider_limit records_persist : ledger.

(** No row answers for the scope key at this moment. *)
Definition unanswered (R : gmap Z IdempotencyRecord) (scope_key : string) (now : Z) : Prop :=
  head (List.filter (record_matches scope_key now) (rows_of R)) = None.

(** The answer is durable, and lasts for the configured time. *)
Definition answered (scope_key : string) (expires_at : Z) (answer : Z * json_object) (w : World)
    : Prop :=
  exists r, holds_answer (idempotency_records (w_committed w)) scope_key r
    /\ (idm_status_code r, idm_response_body r) = answer /\ idm_expires_at r = expires_at.

Lemma store_answers R now scope_key status body :
  keyed R -> unanswered R scope_key now ->
  triple (records_are R now) (store_response scope_key status body)
    (fun r w => (idm_status_code r, idm_response_body r) = (status, body)
       /\ answered scope_key (now + timedelta_seconds idempotency_ttl_seconds) (status, body) w)
    (fun _ _ => True).
Proof.
  intros Hkeyed Hnone w (Hd & Hc & Hn).
  unfold store_response, bind at 1, now_utc at 1, asks, catch, bind at 1, db_insert.
  cbn [table table_name Entity_IdempotencyRecord violates]. cbv zeta. rewrite Hd, Hn.
  assert (Hlost : forall e (v : World), idempotency_records (w_committed v) = R -> w_now v = now ->
    exists v', (rollback ;;; existing_record <- get_cached_response scope_key ;;
      match existing_record with None => raise e | Some r => ret r end) v = (Raise e, v')).
  { intros e v Hv Hv'. unfold bind, rollback, modify, get_cached_response, now_utc, first, asks. simpl.
    rewrite Hv, Hv'. unfold unanswered in Hnone. rewrite Hnone. eauto. }
  destruct (R !! w_seq w TIdempotencyRecords) eqn:Hk.
  { edestruct Hlost as [v' ->]; [exact Hc | exact Hn | done]. }
  unfold idempotency_violation, taken. rewrite Hd. cbn [idm_id idm_scope_key].
  destruct (existsb _ _) eqn:He.
  { edestruct Hlost as [v' ->]; [exact Hc | exact Hn | done]. }
  unfold bind, commit, modify, refresh, asks. cbn. rewrite Hd, lookup_insert_eq. cbn. split; [done|].
  exists (MkIdempotencyRecord (w_seq w TIdempotencyRecords) scope_key status body now
           (now + timedelta_seconds idempotency_ttl_seconds)).
  split; [|done]. exists (w_seq w TIdempotencyRecords).
  split; [cbn; rewrite Hd; apply lookup_insert_eq|]. split; [done|].
  intros j s. cbn. rewrite Hd, lookup_insert. case_decide; [done|]. intros Hj Hs.
  apply existsb_false with (x := s) in He; [|apply in_rows_of; eauto].
  rewrite Hs, String.eqb_refl, andb_true_r in He. apply negb_false_iff, Z.eqb_eq in He.
  pose proof (Hkeyed _ _ Hj) as Hpk. cbn in Hpk. congruence.
Qed.

(** The answer of a request that was not answered before is stored. *)
Lemma process_answers R now scope_key raw_body signature timestamp :
  keyed R -> unanswered R scope_key now ->
  triple (records_are R now) (process_webhook scope_key raw_body signature timestamp)
    (answered scope_key (now + timedelta_seconds idempotency_ttl_seconds)) (fun _ _ => True).
Proof.
  intros Hkeyed Hnone. unfold process_webhook.
  assert (Hstep : forall A B (m : PyM A) (f : A -> PyM B) Q,
    keeps (records_are R now) m -> (forall a, triple (records_are R now) (f a) Q (fun _ _ => True)) ->
    triple (records_are R now) (bind m f) Q (fun _ _ => True)).
  { intros A B m f Q Hm Hf. eapply triple_bind; [|exact Hf]. by eapply triple_conseq. }
  apply Hstep; [apply records_verify|]. intros _.
  destruct (validate_webhook_json raw_body) as [[provider event_id]|]; [|by apply triple_raise].
  apply Hstep; [apply records_provider_limit|]. intros _.
  apply Hstep.
  { apply keeps_catch; [keeps_steps|]. intros e m He. destruct e; try done.
    destruct kind; simplify_eq/=. apply keeps_ret. }
  intros [|]; (eapply triple_bind; [by apply store_answers|]); intros r; apply triple_ret;
    intros w [Er Ha]; injection Er as Es Eb; by rewrite ?Es, ?Eb.
Qed.

(** What a request reads before it looks for an answer. *)
Lemma inbound_answer raw_body request key signature timestamp w answer w1 :
  inbound_webhook raw_body request key signature timestamp w = (Ok answer, w1) ->
  exists idempotency_key scope_key w2,
    (forall v, get_idempotency_key key v = (Ok idempotency_key, v))
    /\ (forall v, build_scope_key webhook_scope idempotency_key v = (Ok scope_key, v))
    /\ (forall R now, records_are R now w -> records_are R now w2)
    /\ (r <- begin_idempotent_request scope_key ;;
        match r with
        | Some r => ret (idm_status_code r, idm_response_body r)
        | None => finally (process_webhook scope_key raw_body signature timestamp)
                    (release_idempotency_lock scope_key)
        end) w2 = (Ok answer, w1).
Proof.
  unfold inbound_webhook. intros Hi. apply bind_ok_inv in Hi as (k & w2 & Hk & Hi).
  assert (w2 = w /\ forall v, get_idempotency_key key v = (Ok k, v)) as [-> Hk'].
  { unfold get_idempotency_key in *. cbv zeta in *. destruct (truthy _); [|done].
    by injection Hk as <- <-. }
  apply bind_ok_inv in Hi as ([] & w2 & Hl & Hi). apply bind_ok_inv in Hi as ([] & w3 & Hb & Hi).
  assert (w3 = w2) as ->.
  { unfold enforce_webhook_body_size in Hb. destruct (_ <? _); [done|]. by injection Hb as <-. }
  apply bind_ok_inv in Hi as (scope_key & w3 & Hs & Hi).
  assert (w3 = w2 /\ forall v, build_scope_key webhook_scope k v = (Ok scope_key, v)) as [-> Hs'].
  { unfold build_scope_key in *. cbv zeta in *. destruct (negb _); [done|]. by injection Hs as <- <-. }
  exists k, scope_key, w2. do 2 (split; [done|]). split; [|done]. intros R now Hw.
  pose proof (records_limit R now ("rate_limit:webhook_ingress:" ++ get_client_ip request)%string
    webhook_ingress_rate_limit_limit webhook_ingress_rate_limit_window_seconds w Hw) as Hk2.
  unfold webhook_ingress_rate_limit in Hl. by rewrite Hl in Hk2.
Qed.

Lemma cached_holds R scope_key now r :
  distinct_scopes R ->
  head (List.filter (record_matches scope_key now) (rows_of R)) = Some r ->
  holds_answer R scope_key r /\ now < idm_expires_at r.
Proof.
  intros Hdist Hh. apply head_filter_some in Hh as [Hin Hm]. apply in_rows_of in Hin as [k Hk].
  unfold record_matches in Hm. apply andb_true_iff in Hm as [Hs%String.eqb_eq Hl%Z.ltb_lt].
  split; [|done]. exists k. do 2 (split; [done|]). intros j s Hj E. eapply Hdist; eauto. congruence.
Qed.

Lemma begin_repeats scope_key r w :
  holds_answer (idempotency_records (w_db w)) scope_key r -> w_now w < idm_expires_at r ->
  begin_idempotent_request scope_key w = (Ok (Some r), w).
Proof.
  intros Ha Hl. unfold begin_idempotent_request, bind at 1.
  change (get_cached_response scope_key w)
    with (Ok (E := Exn) (head (List.filter (record_matches scope_key (w_now w))
                     (rows_of (idempotency_records (w_db w))))), w).
  by rewrite (cached_answer _ _ _ _ Ha Hl).
Qed.

(** An answered request leaves its answer behind. *)
Lemma answer_left R now scope_key raw_body signature timestamp w answer w1 :
  keyed R -> distinct_scopes R -> 0 < idempotency_ttl_seconds -> records_are R now w ->
  (r <- begin_idempotent_request scope_key ;;
   match r with
   | Some r => ret (idm_status_code r, idm_response_body r)
   | None => finally (process_webhook scope_key raw_body signature timestamp)
               (release_idempotency_lock scope_key)
   end) w = (Ok answer, w1) ->
  exists expires_at, now < expires_at /\ answered scope_key expires_at answer w1
    /\ (unanswered R scope_key now -> expires_at = now + timedelta_seconds idempotency_ttl_seconds).
Proof.
  intros Hkeyed Hdist Httl Hw Hi. apply bind_ok_inv in Hi as (o & w2 & Hb & Hi).
  unfold begin_idempotent_request in Hb. apply bind_ok_inv in Hb as (c & w3 & Hc & Hb).
  injection Hc as <- <-. pose proof Hw as (Hd & Hcm & Hn). cbn [table Entity_IdempotencyRecord] in Hb.
  rewrite Hd, Hn in Hb.
  destruct (head (List.filter (record_matches scope_key now) (rows_of R))) as [r|] eqn:Hh.
  - injection Hb as <- <-. injection Hi as <- <-. apply cached_holds in Hh as [Ha Hl]; [|done].
    exists (idm_expires_at r). split; [done|]. split; [|unfold unanswered; intros E].
    + exists r. by rewrite Hcm.
    + pose proof (cached_answer R scope_key r now Ha Hl). congruence.
  - apply bind_ok_inv in Hb as (acquired & w3 & Ht & Hb).
    pose proof (records_redis_read R now (set_nx_ex (idempotency_lock_key scope_key)
      (timedelta_seconds idempotency_processing_lock_ttl_seconds) (w_now w)) w Hw) as Hw3.
    unfold try_acquire_idempotency_lock in Ht. unfold bind, now_utc, asks in Ht. rewrite Ht in Hw3.
    destruct acquired.
    + injection Hb as <- <-. exists (now + timedelta_seconds idempotency_ttl_seconds).
      unfold timedelta_seconds, second_us. split; [lia|]. split; [|done].
      pose proof (process_answers R now scope_key raw_body signature timestamp Hkeyed Hh w3 Hw3) as Hp.
      unfold finally in Hi. destruct (process_webhook _ _ _ _ w3) as [[a|e] w4]; [|done].
      injection Hi as <- <-. exact Hp.
    + apply bind_ok_inv in Hb as (c & w4 & Hc & Hb). injection Hc as <- <-.
      destruct Hw3 as (Hd3 & _ & Hn3). cbn [table Entity_IdempotencyRecord] in Hb.
      by rewrite Hd3, Hn3, Hh in Hb.
Qed.


(** An answer that has expired and was not cleaned up yet keeps its key taken: storing a new
    answer raises, and the event that was accepted before stays recorded without one. *)
Theorem expired_answer_blocks_key R now scope_key k r status body w :
  keyed R -> records_are R now w -> R !! k = Some r -> idm_scope_key r = scope_key ->
  unanswered R scope_key now ->
  exists constraint w', store_response scope_key status body w = (Raise (IntegrityError constraint), w')
    /\ w_committed w' = w_committed w /\ w_db w' = w_committed w.
Proof.
  intros Hkeyed (Hd & Hc & Hn) Hk Hs Hnone.
  unfold store_response, bind at 1, now_utc at 1, asks, catch, bind at 1, db_insert.
  cbn [table table_name Entity_IdempotencyRecord violates]. cbv zeta. rewrite Hd, Hn.
  destruct (R !! w_seq w TIdempotencyRecords) eqn:Hq.
  - unfold bind, rollback, modify, get_cached_response, now_utc, first, asks. simpl.
    rewrite Hc, Hn. unfold unanswered in Hnone. rewrite Hnone. eauto 6.
  - unfold idempotency_violation, taken. rewrite Hd. cbn [idm_id idm_scope_key].
    rewrite (proj2 (existsb_exists _ _)).
    + unfold bind, rollback, modify, get_cached_response, now_utc, first, asks. simpl.
      rewrite Hc, Hn. unfold unanswered in Hnone. rewrite Hnone. eauto 6.
    + exists r. split; [apply in_rows_of; eauto|]. rewrite Hs, String.eqb_refl, andb_true_r.
      apply negb_true_iff, Z.eqb_neq. pose proof (Hkeyed _ _ Hk) as E. cbn in E. congruence.
Qed.
End Replay.
