(* ===== verification/Notifications.v ===== *)
(** * Notifications: app/services/notification_service.py

    SMS intents are rows of the outbox, written in the transaction of the booking
    change; a job per row is put on the queue after the commit, and the worker
    delivers the row with at most [MAX_NOTIFICATION_ATTEMPTS] provider calls. *)

From S2P Require Import Prelude Py Effects Schema Settings Orm Directory JobQueue PublicLink Providers.

Definition SEND_NOTIFICATION_JOB : string := "send_notification".
Definition MAX_NOTIFICATION_ATTEMPTS : Z := 3.

Section Notifications.
Context `{Config}.

Definition enqueue_send_notification_job (notification_id : Z) : PyM Job :=
  enqueue_job SEND_NOTIFICATION_JOB [("notification_id"%string, notification_id)].

Definition format_local_time (starts_at : Z) (business : Business) : string :=
  strftime_ymd_hm (starts_at + tz_offset_of_utc (biz_timezone business) starts_at).

(** [NotificationOutbox(...)] with the column defaults: pending, no attempt. *)
Definition new_intent (tenant_id business_id : Z) (booking_id : option Z)
    (purpose : NotificationPurpose) (recipient_phone body : string) (id now : Z)
    : NotificationOutbox :=
  MkNotificationOutbox id tenant_id business_id booking_id purpose recipient_phone body
    NTF_PENDING 0 None None now None None.

(** The intents of a booking change: one for the customer, one for the owner's
    phone when the business has one ([if business.owner_notification_phone]). *)
Definition booking_intents (booking : Booking) (business : Business) (customer : Customer)
    (purpose : NotificationPurpose) (customer_body owner_body : string)
    : list (Z -> Z -> NotificationOutbox) :=
  let intent phone body := new_intent (bk_tenant_id booking) (bk_business_id booking)
    (Some (bk_id booking)) purpose phone body in
  intent (cus_phone customer) customer_body
  :: match biz_owner_notification_phone business with
     | Some phone => if truthy phone then [intent phone owner_body] else []
     | None => []
     end.

Definition enqueue_booking_confirmation (booking : Booking) (business : Business)
    (customer : Customer) (service : Service) : PyM (list NotificationOutbox) :=
  let when := format_local_time (bk_starts_at booking) business in
  manage_url <- build_public_management_url (bk_id booking) ;;
  let manage_suffix := match manage_url with
                       | Some url => if truthy url then (" Manage: " ++ url)%string else ""%string
                       | None => ""%string
                       end in
  map_m
    (booking_intents booking business customer BOOKING_CONFIRMATION
       ("Your " ++ svc_name service ++ " appointment at " ++ biz_name business
          ++ " is confirmed for " ++ when ++ "." ++ manage_suffix)%string
       ("New booking: " ++ svc_name service ++ " for " ++ cus_phone customer
          ++ " on " ++ when ++ ".")%string)
    db_insert.

Definition enqueue_booking_cancellation (booking : Booking) (business : Business)
    (customer : Customer) (service : Service) : PyM (list NotificationOutbox) :=
  let when := format_local_time (bk_starts_at booking) business in
  map_m
    (booking_intents booking business customer BOOKING_CANCELLATION
       ("Your " ++ svc_name service ++ " appointment at " ++ biz_name business
          ++ " on " ++ when ++ " has been cancelled.")%string
       ("Booking cancelled: " ++ svc_name service ++ " for " ++ cus_phone customer
          ++ " on " ++ when ++ ".")%string)
    db_insert.

Definition enqueue_waitlist_offer (entry : WaitlistEntry) (business : Business)
    (customer : Customer) (service : Service) : PyM NotificationOutbox :=
  let when := strftime_ymd (wl_desired_date entry) in
  db_insert (new_intent (wl_tenant_id entry) (wl_business_id entry) None WAITLIST_OFFER
    (cus_phone customer)
    ("Good news! A " ++ svc_name service ++ " slot opened up at " ++ biz_name business
       ++ " on " ++ when ++ ". Call us to book it.")%string).

Definition enqueue_external_booking_link_sms (business : Business) (caller_phone url : string)
    (label : option string) : PyM NotificationOutbox :=
  let label_text := match label with
                    | Some l => if truthy l then l else "Book online"%string
                    | None => "Book online"%string
                    end in
  db_insert (new_intent (biz_tenant_id business) (biz_id business) None EXTERNAL_BOOKING_LINK
    caller_phone (label_text ++ ": " ++ url)%string).

(** The filter of [due_bookings]. *)
Definition reminder_due (now : Z) (b : Booking) : bool :=
  bool_decide (bk_status b = CONFIRMED)
  && (now <? bk_starts_at b)
  && (bk_starts_at b <=? now + timedelta_minutes reminder_lead_minutes).

(** The filter of [already_queued]. *)
Definition is_reminder_of (booking_id : Z) (n : NotificationOutbox) : bool :=
  sql_eqb (ntf_booking_id n) booking_id && bool_decide (ntf_purpose n = BOOKING_REMINDER).

Definition short_notice (b : Booking) : bool :=
  bk_starts_at b - bk_created_at b <? timedelta_minutes reminder_min_advance_minutes.

(** One round of the loop: the count goes up when a reminder is queued. *)
Definition remind_one (count : Z) (booking : Booking) : PyM Z :=
  if short_notice booking then ret count
  else
    already_queued <- first (is_reminder_of (bk_id booking)) ;;
    match already_queued with
    | Some _ => ret count
    | None =>
        business <- require_business (bk_business_id booking) (bk_tenant_id booking) ;;
        customer <- require_customer_in_business (bk_customer_id booking)
                      (bk_business_id booking) (bk_tenant_id booking) ;;
        service <- require_service_in_business (bk_service_id booking)
                     (bk_business_id booking) (bk_tenant_id booking) ;;
        let when := format_local_time (bk_starts_at booking) business in
        intent <- db_insert (new_intent (bk_tenant_id booking) (bk_business_id booking)
          (Some (bk_id booking)) BOOKING_REMINDER (cus_phone customer)
          ("Reminder: your " ++ svc_name service ++ " appointment at " ++ biz_name business
             ++ " is at " ++ when ++ ".")%string) ;;
        enqueue_send_notification_job (ntf_id intent) ;;;
        ret (count + 1)
    end.

Definition enqueue_due_reminders : PyM Z :=
  now <- now_utc ;;
  due_bookings <- all (reminder_due now) ;;
  count <- fold_m due_bookings 0 remind_one ;;
  when (negb (count =? 0)) commit ;;;
  ret count.

(** What a provider answer makes of a pending row, at instant [now]. *)
Definition record_delivery (result : SmsSendResult) (now : Z) (i : NotificationOutbox)
    : NotificationOutbox :=
  let i := i <| ntf_attempts ::= Z.add 1 |> in
  if sms_success result then
    i <| ntf_status := NTF_SENT |> <| ntf_sent_at := Some now |>
      <| ntf_provider_message_id := sms_provider_message_id result |>
  else
    let i := i <| ntf_last_error := sms_error result |> in
    if MAX_NOTIFICATION_ATTEMPTS <=? ntf_attempts i then i <| ntf_status := NTF_FAILED |>
    else i.

Context `{Providers}.

Definition send_notification_in_worker (notification_id : Z) : PyM unit :=
  intent <- find_pk notification_id (fun _ => true) ;;
  match intent with
  | None => ret tt
  | Some i =>
      if negb (bool_decide (ntf_status i = NTF_PENDING)) then ret tt
      else
        result <- call_provider (sms_send (MkSmsMessage (ntf_recipient_phone i) (ntf_body i))) ;;
        now <- now_utc ;;
        let i' := record_delivery result now i in
        save i' ;;;
        commit ;;;
        if bool_decide (ntf_status i' = NTF_PENDING)
        then raise (SmsDeliveryError (sms_error result))
        else ret tt
  end.
End Notifications.
