(* ===== verification/Calendar.v ===== *)
(** * Calendar: app/services/calendar_service.py and reconciliation_service.py

    Every confirmed booking gets one calendar event row; the worker creates the
    event at the provider and removes it when the booking is cancelled.  The
    reconciliation sweep puts rows whose job was lost back on the queue. *)

From S2P Require Import Prelude Py Effects Schema Settings Orm JobQueue Providers Notifications.

Definition SYNC_CALENDAR_EVENT_JOB : string := "sync_calendar_event".
Definition CANCEL_CALENDAR_EVENT_JOB : string := "cancel_calendar_event".

Section Calendar.
Context `{Config}.

Definition enqueue_sync_calendar_event_job (event_id : Z) : PyM Job :=
  enqueue_job SYNC_CALENDAR_EVENT_JOB [("event_id"%string, event_id)].
Definition enqueue_cancel_calendar_event_job (event_id : Z) : PyM Job :=
  enqueue_job CANCEL_CALENDAR_EVENT_JOB [("event_id"%string, event_id)].

Definition integration_in_scope (business_id tenant_id : Z) (i : CalendarIntegration) : bool :=
  (ci_business_id i =? business_id) && (ci_tenant_id i =? tenant_id) && ci_is_active i.

Definition get_calendar_integration (business_id tenant_id : Z) (staff_id : option Z)
    : PyM (option CalendarIntegration) :=
  let business_level := first (fun i =>
    integration_in_scope business_id tenant_id i && is_none (ci_staff_id i)) in
  match staff_id with
  | Some s =>
      staff_integration <- first (fun i =>
        integration_in_scope business_id tenant_id i && sql_eqb (ci_staff_id i) s) ;;
      match staff_integration with
      | Some i => ret (Some i)
      | None => business_level
      end
  | None => business_level
  end.

Definition enqueue_calendar_event (booking : Booking) (business : Business) : PyM CalendarEvent :=
  integration <- get_calendar_integration (biz_id business) (bk_tenant_id booking)
                   (bk_staff_id booking) ;;
  let provider_name := match integration with Some i => ci_provider i | None => "null"%string end in
  db_insert (fun id now =>
    MkCalendarEvent id (bk_tenant_id booking) (bk_business_id booking) (bk_id booking)
      provider_name None CAL_PENDING 0 0 None now None None).

Definition build_event_payload (booking : Booking) (service : Service) (member : option Staff)
    (visibility : string) : CalendarEventPayload :=
  let title :=
    if String.eqb visibility VISIBILITY_PRIVATE then "Busy"%string
    else join " – " (svc_name service
                       :: match member with Some s => [stf_name s] | None => [] end) in
  MkCalendarEventPayload title (bk_starts_at booking) (bk_ends_at booking) "".

(** [(result.error or "")[:500]] *)
Definition clipped_error (e : option string) : option string :=
  Some (str_take 500 (default ""%string e)).

(** What the provider's answer to [create_event] makes of the row. *)
Definition record_sync (result : CalendarResult) (now : Z) (e : CalendarEvent) : CalendarEvent :=
  let e := e <| cal_attempts ::= Z.add 1 |> in
  if cr_success result then
    e <| cal_status := CAL_SYNCED |> <| cal_provider_event_id := cr_provider_event_id result |>
      <| cal_synced_at := Some now |>
  else
    let e := e <| cal_last_error := clipped_error (cr_error result) |> in
    if worker_max_retries <=? cal_attempts e then e <| cal_status := CAL_FAILED |> else e.

(** Whether the worker's call ends without raising [CalendarSyncError]. *)
Definition sync_settled (result : CalendarResult) (e : CalendarEvent) : bool :=
  cr_success result || (worker_max_retries <=? cal_attempts e).

Definition record_cancel (result : CalendarResult) (e : CalendarEvent) : CalendarEvent :=
  let e := e <| cal_cancel_attempts ::= Z.add 1 |> in
  if cr_success result then e <| cal_status := CAL_CANCELLED |>
  else
    let e := e <| cal_last_error := clipped_error (cr_error result) |> in
    if worker_max_retries <=? cal_cancel_attempts e
    then e <| cal_status := CAL_CANCEL_FAILED |> else e.

Definition cancel_settled (result : CalendarResult) (e : CalendarEvent) : bool :=
  cr_success result || (worker_max_retries <=? cal_cancel_attempts e).

(** [status in (PENDING, FAILED)]: never synced, or not yet. *)
Definition sync_retryable (s : CalendarSyncStatus) : bool :=
  match s with CAL_PENDING | CAL_FAILED => true | _ => false end.

Definition get_calendar_event_for_booking (booking_id tenant_id : Z)
    : PyM (option CalendarEvent) :=
  first (fun e => (cal_booking_id e =? booking_id) && (cal_tenant_id e =? tenant_id)).

Context `{Providers}.

Definition sync_calendar_event_in_worker (event_id : Z) : PyM unit :=
  event <- find_pk event_id (fun _ => true) ;;
  match event with
  | None => ret tt
  | Some e =>
      if negb (sync_retryable (cal_status e)) then ret tt
      else
        booking <- one_pk (cal_booking_id e) ;;
        if negb (bk_tenant_id booking =? cal_tenant_id e) then ret tt
        else
          service <- one_pk (bk_service_id booking) ;;
          member <- match bk_staff_id booking with
                    | Some s => m <- one_pk s ;; ret (Some m)
                    | None => ret None
                    end ;;
          integration <- get_calendar_integration (bk_business_id booking)
                           (bk_tenant_id booking) (bk_staff_id booking) ;;
          let visibility := match integration with
                            | Some i => ci_visibility i
                            | None => VISIBILITY_PUBLIC
                            end in
          result <- call_provider
            (calendar_create_event (build_event_payload booking service member visibility)) ;;
          now <- now_utc ;;
          let e' := record_sync result now e in
          save e' ;;;
          commit ;;;
          if sync_settled result e' then ret tt
          else raise (CalendarSyncError (cr_error result))
  end.

Definition cancel_calendar_event_in_worker (event_id : Z) : PyM unit :=
  event <- find_pk event_id (fun _ => true) ;;
  match event with
  | None => ret tt
  | Some e =>
      match cal_status e with
      | CAL_CANCELLED | CAL_CANCEL_FAILED => ret tt
      | _ =>
          booking <- one_pk (cal_booking_id e) ;;
          if negb (bk_tenant_id booking =? cal_tenant_id e) then ret tt
          else if sync_retryable (cal_status e) then
            save (e <| cal_status := CAL_CANCELLED |>) ;;; commit
          else
            result <- call_provider (calendar_cancel_event (cal_provider_event_id e)) ;;
            let e' := record_cancel result e in
            save e' ;;;
            commit ;;;
            if cancel_settled result e' then ret tt
            else raise (CalendarCancelError (cr_error result))
      end
  end.

(** ** reconciliation_service.py *)

(** [COALESCE(reconciled_at, created_at) < current_time - stale_minutes] *)
Definition untouched_since (current_time created_at : Z) (reconciled_at : option Z) : bool :=
  default created_at reconciled_at
    <? current_time - timedelta_minutes worker_reconciliation_stale_minutes.

Definition stale_notification (current_time : Z) (n : NotificationOutbox) : bool :=
  bool_decide (ntf_status n = NTF_PENDING)
  && untouched_since current_time (ntf_created_at n) (ntf_reconciled_at n).

Definition reconcile_stale_notifications : PyM Z :=
  current_time <- now_utc ;;
  stale <- all (stale_notification current_time) ;;
  for_each stale (fun intent =>
    enqueue_send_notification_job (ntf_id intent) ;;;
    save (intent <| ntf_reconciled_at := Some current_time |>)) ;;;
  when (negb (bool_decide (stale = []))) commit ;;;
  ret (Z.of_nat (length stale)).

Definition stale_calendar_event (current_time : Z) (e : CalendarEvent) : bool :=
  sync_retryable (cal_status e)
  && untouched_since current_time (cal_created_at e) (cal_reconciled_at e).

Definition reconcile_stale_calendar_events : PyM Z :=
  current_time <- now_utc ;;
  stale <- all (stale_calendar_event current_time) ;;
  for_each stale (fun event =>
    enqueue_sync_calendar_event_job (cal_id event) ;;;
    save (event <| cal_reconciled_at := Some current_time |>)) ;;;
  when (negb (bool_decide (stale = []))) commit ;;;
  ret (Z.of_nat (length stale)).
End Calendar.
