(* ===== verification/Waitlist.v ===== *)
(** * Waitlist: app/services/waitlist_service.py

    An entry waits for a slot of a service on a date; a freed slot is offered to
    the oldest matching entry, and an offer that is not answered in time expires
    and moves on to the next one. *)

From S2P Require Import Prelude Py Effects Schema Settings Orm Directory JobQueue Notifications.

Section Waitlist.
Context `{Config}.

Definition create_waitlist_entry (tenant_id business_id customer_id service_id desired_date : Z)
    (staff_id : option Z) : PyM WaitlistEntry :=
  require_business business_id tenant_id ;;;
  customer <- require_customer customer_id tenant_id ;;
  (if cus_business_id customer =? business_id then ret tt
   else domain_error NotFoundError "Customer not found") ;;;
  svc <- require_service service_id tenant_id ;;
  (if svc_business_id svc =? business_id then ret tt
   else domain_error NotFoundError "Service not found") ;;;
  match staff_id with
  | Some s =>
      member <- require_staff s tenant_id ;;
      if stf_business_id member =? business_id then ret tt
      else domain_error NotFoundError "Staff member not found"
  | None => ret tt
  end ;;;
  entry <- db_insert (fun id now =>
    MkWaitlistEntry id tenant_id business_id customer_id service_id staff_id None desired_date
      WL_WAITING now now) ;;
  commit ;;;
  refresh entry.

Definition get_waitlist_entry (entry_id tenant_id : Z) : PyM (option WaitlistEntry) :=
  find_pk entry_id (fun e => wl_tenant_id e =? tenant_id).

Definition require_waitlist_entry (entry_id tenant_id : Z) : PyM WaitlistEntry :=
  e <- get_waitlist_entry entry_id tenant_id ;; require "Waitlist entry not found" e.

Definition list_waitlist_entries (business_id tenant_id : Z) (status : option WaitlistEntryStatus)
    (service_id : option Z) (skip limit : Z) : PyM (list WaitlistEntry) :=
  l <- all (fun e => (wl_business_id e =? business_id) && (wl_tenant_id e =? tenant_id)
    && match status with Some s => bool_decide (wl_status e = s) | None => true end
    && match service_id with Some s => wl_service_id e =? s | None => true end) ;;
  ret (page skip limit (sort_by wl_created_at l)).

(** The filter of [find_matching_waitlist_entries]: no preference always matches, a
    preference only the staff member whose slot opened. *)
Definition entry_matches (business_id tenant_id service_id desired_date : Z)
    (staff_id : option Z) (e : WaitlistEntry) : bool :=
  (wl_business_id e =? business_id) && (wl_tenant_id e =? tenant_id)
  && (wl_service_id e =? service_id) && (wl_desired_date e =? desired_date)
  && bool_decide (wl_status e = WL_WAITING)
  && match staff_id with
     | Some s => is_none (wl_staff_id e) || sql_eqb (wl_staff_id e) s
     | None => is_none (wl_staff_id e)
     end.

(** [for_update] adds LIMIT 1 and a row lock; a lock held by another transaction
    would skip the row, which one transaction at a time never meets. *)
Definition find_matching_waitlist_entries (business_id tenant_id service_id desired_date : Z)
    (staff_id : option Z) (for_update : bool) : PyM (list WaitlistEntry) :=
  l <- all (entry_matches business_id tenant_id service_id desired_date staff_id) ;;
  let sorted := sort_by wl_created_at l in
  ret (if for_update then take 1 sorted else sorted).

Definition update_waitlist_entry_status (entry_id tenant_id : Z) (status : WaitlistEntryStatus)
    : PyM WaitlistEntry :=
  entry <- require_waitlist_entry entry_id tenant_id ;;
  save (entry <| wl_status := status |>) ;;;
  commit ;;;
  refresh (entry <| wl_status := status |>).

Definition lock_stale_offered_entries (threshold : Z) : PyM (list WaitlistEntry) :=
  all (fun e => bool_decide (wl_status e = WL_OFFERED) && (wl_updated_at e <=? threshold)).

Definition escalate_to_next_waiting_entry (expired_entry : WaitlistEntry) : PyM (list Z) :=
  candidates <- find_matching_waitlist_entries (wl_business_id expired_entry)
    (wl_tenant_id expired_entry) (wl_service_id expired_entry) (wl_desired_date expired_entry)
    (wl_offered_for_staff_id expired_entry) true ;;
  match candidates with
  | [] => ret []
  | next_entry :: _ =>
      let next := next_entry <| wl_status := WL_OFFERED |>
        <| wl_offered_for_staff_id := wl_offered_for_staff_id expired_entry |> in
      save next ;;;
      business <- require_business (wl_business_id next) (wl_tenant_id next) ;;
      customer <- require_customer_in_business (wl_customer_id next) (wl_business_id next)
                    (wl_tenant_id next) ;;
      service <- require_service_in_business (wl_service_id next) (wl_business_id next)
                   (wl_tenant_id next) ;;
      intent <- enqueue_waitlist_offer next business customer service ;;
      ret [ntf_id intent]
  end.

(** One round of the loop of [expire_stale_waitlist_offers]. *)
Definition expire_offer (notification_ids : list Z) (entry : WaitlistEntry) : PyM (list Z) :=
  let expired := entry <| wl_status := WL_EXPIRED |> in
  save expired ;;;
  ids <- escalate_to_next_waiting_entry expired ;;
  ret (notification_ids ++ ids).

Definition expire_stale_waitlist_offers : PyM Z :=
  now <- now_utc ;;
  let threshold := now - timedelta_minutes waitlist_offer_timeout_minutes in
  stale_entries <- lock_stale_offered_entries threshold ;;
  match stale_entries with
  | [] => ret 0
  | _ =>
      notification_ids <- fold_m stale_entries [] expire_offer ;;
      commit ;;;
      for_each notification_ids (fun notification_id =>
        enqueue_send_notification_job notification_id ;;; ret tt) ;;;
      ret (Z.of_nat (length stale_entries))
  end.
End Waitlist.
