(* ===== verification/Booking.v ===== *)
(** * Booking: app/services/booking_service.py and sms_reply_service.py

    The booking lifecycle: direct creation, payment holds and their confirmation
    or expiry, cancellation with the waitlist offer, rescheduling, refunds, line
    items and the queries.  The tail of each operation that runs after
    [db.commit()] (queueing the jobs) is part of the definition. *)

From S2P Require Import Prelude Py Effects Schema Settings Orm AuditTrail Directory Schedule JobQueue.
From S2P Require Import Notifications Calendar Waitlist.

Section Booking.
Context `{Config}.

Definition double_booking_message : string :=
  "This time slot is already booked for the selected staff".

(** The filter of [_check_double_booking]. *)
Definition occupies (staff_id business_id starts_at ends_at : Z) (b : Booking) : bool :=
  sql_eqb (bk_staff_id b) staff_id && (bk_business_id b =? business_id)
  && active_status (bk_status b)
  && (bk_starts_at b <? ends_at) && (starts_at <? bk_ends_at b).

Definition check_double_booking (staff_id : option Z) (business_id starts_at ends_at : Z)
    (exclude_booking_id : option Z) : PyM unit :=
  match staff_id with
  | None => ret tt
  | Some s =>
      conflict <- first (fun b => occupies s business_id starts_at ends_at b
        && match exclude_booking_id with Some i => negb (bk_id b =? i) | None => true end) ;;
      match conflict with
      | None => ret tt
      | Some _ => domain_error ConflictError double_booking_message
      end
  end.

(** [except IntegrityError as exc: db.rollback(); ...] *)
Definition translate_integrity_error {A} (e : Exn) : option (PyM A) :=
  match e with
  | IntegrityError c =>
      Some (rollback ;;;
            if String.eqb c "no_overlapping_staff_bookings"
            then domain_error ConflictError double_booking_message
            else raise e)
  | _ => None
  end.

(** [Booking(...)] *)
Definition new_booking (tenant_id business_id customer_id service_id : Z) (staff_id : option Z)
    (starts_at ends_at : Z) (status : BookingStatus) (source : string) (id now : Z) : Booking :=
  MkBooking id tenant_id business_id customer_id service_id staff_id starts_at ends_at status
    source None now.

(** The jobs queued after a confirmation is committed. *)
Definition enqueue_confirmation_jobs (confirmation_intent_ids : list Z) (event : CalendarEvent)
    : PyM unit :=
  for_each confirmation_intent_ids (fun i => enqueue_send_notification_job i ;;; ret tt) ;;;
  enqueue_sync_calendar_event_job (cal_id event) ;;;
  ret tt.

(** [create_booking] after its checks: everything from [db.add(booking)] on.  The
    booking's flush is outside the [try]. *)
Definition write_booking (tenant_id business_id customer_id service_id : Z)
    (staff_id : option Z) (starts_at ends_at : Z) (source : string) (actor_id : option Z)
    (override : bool) (reason : option string)
    (business : Business) (customer : Customer) (svc : Service) : PyM Booking :=
  booking <- db_insert (new_booking tenant_id business_id customer_id service_id staff_id
                          starts_at ends_at CONFIRMED source) ;;
  create_audit_log tenant_id actor_id
    (if override then BOOKING_OVERRIDE_CREATED else BOOKING_CREATED)
    None (Some (bk_id booking)) (if override then reason else Some source) false ;;;
  confirmation_intents <- enqueue_booking_confirmation booking business customer svc ;;
  calendar_event <- catch
    (event <- enqueue_calendar_event booking business ;; commit ;;; ret event)
    translate_integrity_error ;;
  booking <- refresh booking ;;
  enqueue_confirmation_jobs (map ntf_id confirmation_intents) calendar_event ;;;
  ret booking.

Definition create_booking (tenant_id business_id customer_id service_id : Z)
    (staff_id : option Z) (starts_at : Z) (source : string) (actor_id : option Z)
    (override : bool) (reason : option string) : PyM Booking :=
  if override && blank reason
  then domain_error BadRequestError "reason is required for an admin override booking"
  else
    business <- require_business business_id tenant_id ;;
    customer <- require_customer_in_business customer_id business_id tenant_id ;;
    svc <- require_service_in_business service_id business_id tenant_id ;;
    check_staff staff_id business_id tenant_id ;;;
    let ends_at := starts_at + timedelta_minutes (svc_duration_minutes svc) in
    check_double_booking staff_id business_id starts_at ends_at None ;;;
    write_booking tenant_id business_id customer_id service_id staff_id starts_at ends_at
      source actor_id override reason business customer svc.

Definition fail_linked_pending_payment (booking : Booking) : PyM unit :=
  payment <- first (fun p => (pay_booking_id p =? bk_id booking)
    && (pay_tenant_id p =? bk_tenant_id booking)
    && bool_decide (pay_status p = PAYMENT_PENDING)) ;;
  match payment with
  | Some p => save (p <| pay_status := PAYMENT_FAILED |>
                      <| pay_failure_reason := bk_cancel_reason booking |>)
  | None => ret tt
  end.

(** [create_pending_payment_hold] after its checks: the whole write is inside the
    [try]. *)
Definition write_hold (tenant_id business_id customer_id service_id : Z)
    (staff_id : option Z) (starts_at ends_at : Z) (provider : string)
    (provider_session_id : option string) (source : string) (amount : Z) (currency : string)
    : PyM Booking :=
  booking <- catch
    (booking <- db_insert (new_booking tenant_id business_id customer_id service_id staff_id
                             starts_at ends_at PENDING_PAYMENT source) ;;
     db_insert (fun id now =>
       MkBookingPayment id tenant_id business_id (bk_id booking) provider provider_session_id
         None amount currency PAYMENT_PENDING None now None None) ;;;
     create_audit_log tenant_id None BOOKING_CREATED None (Some (bk_id booking))
       (Some ("payment_hold:" ++ provider)%string) false ;;;
     commit ;;;
     ret booking)
    translate_integrity_error ;;
  refresh booking.

Definition create_pending_payment_hold (tenant_id business_id customer_id service_id : Z)
    (staff_id : option Z) (starts_at : Z) (provider : string)
    (provider_session_id : option string) (source : string) : PyM Booking :=
  require_business business_id tenant_id ;;;
  require_customer_in_business customer_id business_id tenant_id ;;;
  svc <- require_service_in_business service_id business_id tenant_id ;;
  match svc_deposit_required svc, svc_deposit_minor_units svc, svc_currency svc with
  | true, Some amount, Some currency =>
      check_staff staff_id business_id tenant_id ;;;
      let ends_at := starts_at + timedelta_minutes (svc_duration_minutes svc) in
      check_double_booking staff_id business_id starts_at ends_at None ;;;
      write_hold tenant_id business_id customer_id service_id staff_id starts_at ends_at
        provider provider_session_id source amount currency
  | _, _, _ => domain_error BadRequestError "service does not require a deposit"
  end.

(** ** Queries *)

Definition get_booking (booking_id tenant_id : Z) : PyM (option Booking) :=
  find_pk booking_id (fun b => bk_tenant_id b =? tenant_id).

Definition require_booking (booking_id tenant_id : Z) : PyM Booking :=
  b <- get_booking booking_id tenant_id ;; require "Booking not found" b.

Definition require_booking_in_business (booking_id business_id tenant_id : Z) : PyM Booking :=
  b <- require_booking booking_id tenant_id ;;
  if bk_business_id b =? business_id then ret b
  else domain_error NotFoundError "Booking not found".

(** The locked read: in one transaction it reads what the plain one reads. *)
Definition require_booking_in_business_for_update (booking_id business_id tenant_id : Z)
    : PyM Booking :=
  b <- find_pk booking_id (fun b => bk_tenant_id b =? tenant_id) ;;
  b <- require "Booking not found" b ;;
  if bk_business_id b =? business_id then ret b
  else domain_error NotFoundError "Booking not found".

(** [BookingPayment.booking_id == booking.id, BookingPayment.tenant_id == tenant_id] *)
Definition payment_of (booking_id tenant_id : Z) : PyM (option BookingPayment) :=
  first (fun p => (pay_booking_id p =? booking_id) && (pay_tenant_id p =? tenant_id)).

Definition get_next_confirmed_booking (business_id tenant_id customer_id : Z)
    : PyM (option Booking) :=
  now <- now_utc ;;
  l <- all (fun b => (bk_business_id b =? business_id) && (bk_tenant_id b =? tenant_id)
    && (bk_customer_id b =? customer_id) && bool_decide (bk_status b = CONFIRMED)
    && (now <? bk_starts_at b)) ;;
  ret (head (sort_by bk_starts_at l)).

Definition get_last_staff_booking (business_id tenant_id customer_id : Z) : PyM (option Booking) :=
  l <- all (fun b => (bk_business_id b =? business_id) && (bk_tenant_id b =? tenant_id)
    && (bk_customer_id b =? customer_id) && negb (is_none (bk_staff_id b))) ;;
  ret (head (sort_by (fun b => - bk_starts_at b) l)).

Definition list_bookings (business_id tenant_id : Z) (status : option BookingStatus)
    (staff_id : option Z) (skip limit : Z) : PyM (list Booking) :=
  l <- all (fun b => (bk_business_id b =? business_id) && (bk_tenant_id b =? tenant_id)
    && match status with Some s => bool_decide (bk_status b = s) | None => true end
    && match staff_id with Some s => sql_eqb (bk_staff_id b) s | None => true end) ;;
  ret (page skip limit (sort_by bk_starts_at l)).

(** ** Payment *)

(** The body of [confirm_booking_payment] once booking and payment are known to be
    pending. *)
Definition settle_payment (booking : Booking) (payment : BookingPayment) (tenant_id : Z)
    (provider_payment_id : option string) (source : string) : PyM Booking :=
  now <- now_utc ;;
  save (payment <| pay_status := PAYMENT_SUCCEEDED |>
          <| pay_provider_payment_id := provider_payment_id |>
          <| pay_paid_at := Some now |>) ;;;
  let booking := booking <| bk_status := CONFIRMED |> in
  save booking ;;;
  create_audit_log tenant_id None BOOKING_CONFIRMED None (Some (bk_id booking))
    (Some source) false ;;;
  business <- require_business (bk_business_id booking) tenant_id ;;
  customer <- require_customer_in_business (bk_customer_id booking) (bk_business_id booking)
                tenant_id ;;
  svc <- require_service_in_business (bk_service_id booking) (bk_business_id booking)
           tenant_id ;;
  confirmation_intents <- enqueue_booking_confirmation booking business customer svc ;;
  calendar_event <- enqueue_calendar_event booking business ;;
  commit ;;;
  booking <- refresh booking ;;
  enqueue_confirmation_jobs (map ntf_id confirmation_intents) calendar_event ;;;
  ret booking.

Definition confirm_booking_payment (booking_id business_id tenant_id : Z)
    (provider_payment_id : option string) (source : string) : PyM Booking :=
  booking <- require_booking_in_business_for_update booking_id business_id tenant_id ;;
  match bk_status booking with
  | CONFIRMED =>
      payment <- payment_of (bk_id booking) tenant_id ;;
      match payment with
      | Some p => if bool_decide (pay_status p = PAYMENT_SUCCEEDED) then ret booking
                  else domain_error ConflictError "Booking is not awaiting payment"
      | None => domain_error ConflictError "Booking is not awaiting payment"
      end
  | CANCELLED => domain_error ConflictError "Booking is not awaiting payment"
  | PENDING_PAYMENT =>
      payment <- payment_of (bk_id booking) tenant_id ;;
      payment <- require "No payment found for this booking" payment ;;
      if negb (bool_decide (pay_status payment = PAYMENT_PENDING))
      then domain_error ConflictError "Payment is not pending"
      else settle_payment booking payment tenant_id provider_payment_id source
  end.

(** The offer of a freed slot to the oldest matching waitlist entry; [context] reads
    the business and the service (already loaded on cancellation, read here on
    expiry, in the order of the source). *)
Definition offer_freed_slot (booking : Booking) (tenant_id : Z)
    (context : PyM (Business * Service)) : PyM (list Z) :=
  matching_entries <- find_matching_waitlist_entries (bk_business_id booking) tenant_id
    (bk_service_id booking) (utc_date (bk_starts_at booking)) (bk_staff_id booking) true ;;
  match matching_entries with
  | [] => ret []
  | e :: _ =>
      let entry := e <| wl_status := WL_OFFERED |>
                     <| wl_offered_for_staff_id := bk_staff_id booking |> in
      save entry ;;;
      bs <- context ;;
      waitlist_customer <- require_customer_in_business (wl_customer_id entry)
                             (wl_business_id entry) tenant_id ;;
      offer_intent <- enqueue_waitlist_offer entry bs.1 waitlist_customer bs.2 ;;
      ret [ntf_id offer_intent]
  end.

Definition expire_pending_payment_hold (booking_id business_id tenant_id : Z) : PyM Booking :=
  booking <- require_booking_in_business_for_update booking_id business_id tenant_id ;;
  if negb (bool_decide (bk_status booking = PENDING_PAYMENT))
  then domain_error ConflictError "Booking is not a pending payment hold"
  else
    let booking := booking <| bk_status := CANCELLED |>
      <| bk_cancel_reason := Some "payment_hold_expired"%string |> in
    save booking ;;;
    fail_linked_pending_payment booking ;;;
    create_audit_log tenant_id None BOOKING_HOLD_EXPIRED None (Some (bk_id booking))
      (Some "payment_hold_expired"%string) false ;;;
    waitlist_notification_ids <- offer_freed_slot booking tenant_id
      (business <- require_business (bk_business_id booking) tenant_id ;;
       service <- require_service_in_business (bk_service_id booking) (bk_business_id booking)
                    tenant_id ;;
       ret (business, service)) ;;
    commit ;;;
    booking <- refresh booking ;;
    for_each waitlist_notification_ids (fun i => enqueue_send_notification_job i ;;; ret tt) ;;;
    ret booking.

(** One round of the sweep: a [ConflictError] rolls back and is skipped. *)
Definition expire_one_hold (expired_count : Z) (booking : Booking) : PyM Z :=
  catch
    (expire_pending_payment_hold (bk_id booking) (bk_business_id booking) (bk_tenant_id booking) ;;;
     ret (expired_count + 1))
    (fun e => match e with
              | DomainError ConflictError _ => Some (rollback ;;; ret expired_count)
              | _ => None
              end).

Definition stale_hold (threshold : Z) (b : Booking) : bool :=
  bool_decide (bk_status b = PENDING_PAYMENT) && (bk_created_at b <? threshold).

Definition expire_stale_payment_holds : PyM Z :=
  now <- now_utc ;;
  let threshold := now - timedelta_minutes booking_payment_hold_minutes in
  stale <- all (stale_hold threshold) ;;
  fold_m stale 0 expire_one_hold.

Definition refund_booking_payment (booking_id business_id tenant_id : Z) (actor_id : option Z)
    (reason : option string) : PyM BookingPayment :=
  booking <- require_booking_in_business booking_id business_id tenant_id ;;
  payment <- payment_of (bk_id booking) tenant_id ;;
  payment <- require "No payment found for this booking" payment ;;
  if negb (bool_decide (pay_status payment = PAYMENT_SUCCEEDED))
  then domain_error ConflictError "Only a succeeded payment can be refunded"
  else
    now <- now_utc ;;
    let payment := payment <| pay_status := PAYMENT_REFUNDED |>
                     <| pay_refunded_at := Some now |> in
    save payment ;;;
    create_audit_log tenant_id actor_id BOOKING_PAYMENT_REFUNDED None (Some (bk_id booking))
      reason false ;;;
    commit ;;;
    refresh payment.

(** ** Line items *)

Definition add_booking_line_item (booking_id tenant_id service_id : Z) : PyM BookingLineItem :=
  booking <- require_booking booking_id tenant_id ;;
  svc <- require_service service_id tenant_id ;;
  if negb (svc_business_id svc =? bk_business_id booking)
  then domain_error NotFoundError "Service not found"
  else
    items <- all (fun i => li_booking_id i =? booking_id) ;;
    let next_position := Z.of_nat (length items) in
    line_item <- db_insert (fun id now =>
      MkBookingLineItem id tenant_id (bk_business_id booking) booking_id service_id
        next_position (svc_duration_minutes svc) now) ;;
    commit ;;;
    refresh line_item.

Definition list_booking_line_items (booking_id tenant_id : Z) : PyM (list BookingLineItem) :=
  require_booking booking_id tenant_id ;;;
  l <- all (fun i => (li_booking_id i =? booking_id) && (li_tenant_id i =? tenant_id)) ;;
  ret (sort_by li_position l).

Definition get_booking_total_duration_minutes (booking_id tenant_id : Z) : PyM Z :=
  line_items <- list_booking_line_items booking_id tenant_id ;;
  ret (foldr (fun i acc => li_duration_minutes i + acc) 0 line_items).

(** ** Cancellation and rescheduling *)

Definition cancel_booking (booking_id business_id tenant_id : Z) (reason : option string)
    (actor_id : option Z) (override : bool) : PyM Booking :=
  if override && blank reason
  then domain_error BadRequestError "reason is required for an admin override cancellation"
  else
    booking <- require_booking_in_business_for_update booking_id business_id tenant_id ;;
    if bool_decide (bk_status booking = CANCELLED)
    then domain_error ConflictError "Booking is already cancelled"
    else
      let booking := booking <| bk_status := CANCELLED |> <| bk_cancel_reason := reason |> in
      save booking ;;;
      fail_linked_pending_payment booking ;;;
      create_audit_log tenant_id actor_id
        (if override then BOOKING_OVERRIDE_CANCELLED else BOOKING_CANCELLED)
        None (Some (bk_id booking))
        (if override then reason else Some (bk_source booking)) false ;;;
      business <- require_business (bk_business_id booking) tenant_id ;;
      customer <- require_customer_in_business (bk_customer_id booking)
                    (bk_business_id booking) tenant_id ;;
      service <- require_service_in_business (bk_service_id booking) (bk_business_id booking)
                   tenant_id ;;
      cancellation_intents <- enqueue_booking_cancellation booking business customer service ;;
      waitlist_notification_ids <- offer_freed_slot booking tenant_id (ret (business, service)) ;;
      cal_event <- get_calendar_event_for_booking (bk_id booking) tenant_id ;;
      commit ;;;
      booking <- refresh booking ;;
      for_each (map ntf_id cancellation_intents)
        (fun i => enqueue_send_notification_job i ;;; ret tt) ;;;
      for_each waitlist_notification_ids
        (fun i => enqueue_send_notification_job i ;;; ret tt) ;;;
      match cal_event with
      | Some e => enqueue_cancel_calendar_event_job (cal_id e) ;;; ret tt
      | None => ret tt
      end ;;;
      ret booking.

Definition reschedule_booking (booking_id business_id tenant_id new_starts_at : Z)
    (reason : option string) (actor_id : option Z) (source : string) : PyM Booking :=
  old_booking <- require_booking_in_business booking_id business_id tenant_id ;;
  if negb (bool_decide (bk_status old_booking = CONFIRMED))
  then domain_error ConflictError "Only a confirmed booking can be rescheduled"
  else
    cancel_booking (bk_id old_booking) business_id tenant_id reason actor_id false ;;;
    new_booking <- create_booking tenant_id (bk_business_id old_booking)
      (bk_customer_id old_booking) (bk_service_id old_booking) (bk_staff_id old_booking)
      new_starts_at source actor_id false None ;;
    create_audit_log tenant_id actor_id BOOKING_RESCHEDULED None (Some (bk_id new_booking))
      (Some ("rescheduled_from_booking_" ++ string_of_Z (bk_id old_booking))%string) true ;;;
    ret new_booking.
End Booking.
