(* ===== verification/BookingMachine.v ===== *)
(** * BookingMachine: what the booking component promises, as a state machine

    The abstract state is the ledger: the booking and payment tables.  One event
    changes it: a booking is made, a slot is held for a payment, the payment
    succeeds, the hold expires, the booking is cancelled, the payment is refunded.
    The invariant of the machine is that no staff member is double-booked and that
    every payment agrees with its booking.  BookingRefinement shows that the
    operations of booking_service.py implement the machine. *)

From S2P Require Import Prelude Py Effects Schema Settings Orm.

Record Ledger : Type := MkLedger {
  lg_bookings : gmap Z Booking;
  lg_payments : gmap Z BookingPayment }.

Definition ledger (db : DB) : Ledger := MkLedger (bookings db) (booking_payments db).

(** The fields that never change once a booking exists. *)
Definition same_slot (a b : Booking) : Prop :=
  bk_id a = bk_id b /\ bk_tenant_id a = bk_tenant_id b /\ bk_business_id a = bk_business_id b
  /\ bk_customer_id a = bk_customer_id b /\ bk_service_id a = bk_service_id b
  /\ bk_staff_id a = bk_staff_id b /\ bk_starts_at a = bk_starts_at b
  /\ bk_ends_at a = bk_ends_at b /\ bk_source a = bk_source b
  /\ bk_created_at a = bk_created_at b.

(** The life of a booking: a hold is paid or cancelled, a confirmed booking is
    cancelled, a cancelled one stays so. *)
Definition status_leq (a b : BookingStatus) : bool :=
  match a, b with
  | PENDING_PAYMENT, _ => true
  | CONFIRMED, CONFIRMED | CONFIRMED, CANCELLED => true
  | CANCELLED, CANCELLED => true
  | _, _ => false
  end.

(** No booking in the table takes time of the same staff member from [b]. *)
Definition slot_free (bs : gmap Z Booking) (b : Booking) : Prop :=
  forall k b', bs !! k = Some b' -> bk_id b' <> bk_id b -> bookings_exclude b b' = false.

(** No two bookings of the table exclude each other. *)
Definition no_overlap (bs : gmap Z Booking) : Prop :=
  forall k1 k2 b1 b2, bs !! k1 = Some b1 -> bs !! k2 = Some b2 -> k1 <> k2 ->
    bookings_exclude b1 b2 = false.

(** The payment that dies with its booking. *)
Definition pending_payment_of (b : Booking) (p : BookingPayment) : bool :=
  (pay_booking_id p =? bk_id b) && (pay_tenant_id p =? bk_tenant_id b)
  && bool_decide (pay_status p = PAYMENT_PENDING).

Definition fail_payment (b : Booking) (p : BookingPayment) : BookingPayment :=
  p <| pay_status := PAYMENT_FAILED |> <| pay_failure_reason := bk_cancel_reason b |>.

Definition fail_pending (b : Booking) (ps : gmap Z BookingPayment) : gmap Z BookingPayment :=
  (fun p => if pending_payment_of b p then fail_payment b p else p) <$> ps.

Definition paid (b : Booking) : Booking := b <| bk_status := CONFIRMED |>.
Definition succeed (reference : option string) (now : Z) (p : BookingPayment) : BookingPayment :=
  p <| pay_status := PAYMENT_SUCCEEDED |> <| pay_provider_payment_id := reference |>
    <| pay_paid_at := Some now |>.
Definition cancelled (reason : option string) (b : Booking) : Booking :=
  b <| bk_status := CANCELLED |> <| bk_cancel_reason := reason |>.
Definition refunded (now : Z) (p : BookingPayment) : BookingPayment :=
  p <| pay_status := PAYMENT_REFUNDED |> <| pay_refunded_at := Some now |>.

Inductive BookingEvent : Type :=
  | Booked (b : Booking)
  | Held (b : Booking) (p : BookingPayment)
  | Paid (b : Booking) (p : BookingPayment) (reference : option string) (now : Z)
  | HoldExpired (b : Booking)
  | Cancelled (b : Booking) (reason : option string)
  | Refunded (p : BookingPayment) (now : Z).

(** A payment as a hold creates it. *)
Definition fresh_payment (b : Booking) (p : BookingPayment) : Prop :=
  pay_booking_id p = bk_id b /\ pay_tenant_id p = bk_tenant_id b
  /\ pay_business_id p = bk_business_id b /\ pay_status p = PAYMENT_PENDING
  /\ pay_paid_at p = None /\ pay_refunded_at p = None.

Inductive booking_step : BookingEvent -> Ledger -> Ledger -> Prop :=
  | step_booked bs ps b :
      bs !! bk_id b = None -> bk_status b = CONFIRMED -> slot_free bs b ->
      booking_step (Booked b) (MkLedger bs ps) (MkLedger (<[bk_id b := b]> bs) ps)
  | step_held bs ps b p :
      bs !! bk_id b = None -> bk_status b = PENDING_PAYMENT -> slot_free bs b ->
      ps !! pay_id p = None -> fresh_payment b p ->
      (forall k q, ps !! k = Some q -> pay_booking_id q <> bk_id b) ->
      booking_step (Held b p) (MkLedger bs ps)
        (MkLedger (<[bk_id b := b]> bs) (<[pay_id p := p]> ps))
  | step_paid bs ps b p reference now :
      bs !! bk_id b = Some b -> bk_status b = PENDING_PAYMENT ->
      ps !! pay_id p = Some p -> pay_booking_id p = bk_id b -> pay_status p = PAYMENT_PENDING ->
      booking_step (Paid b p reference now) (MkLedger bs ps)
        (MkLedger (<[bk_id b := paid b]> bs) (<[pay_id p := succeed reference now p]> ps))
  | step_expired bs ps b :
      bs !! bk_id b = Some b -> bk_status b = PENDING_PAYMENT ->
      let b' := cancelled (Some "payment_hold_expired"%string) b in
      booking_step (HoldExpired b) (MkLedger bs ps)
        (MkLedger (<[bk_id b := b']> bs) (fail_pending b' ps))
  | step_cancelled bs ps b reason :
      bs !! bk_id b = Some b -> bk_status b <> CANCELLED ->
      let b' := cancelled reason b in
      booking_step (Cancelled b reason) (MkLedger bs ps)
        (MkLedger (<[bk_id b := b']> bs) (fail_pending b' ps))
  | step_refunded bs ps p now :
      ps !! pay_id p = Some p -> pay_status p = PAYMENT_SUCCEEDED ->
      booking_step (Refunded p now) (MkLedger bs ps)
        (MkLedger bs (<[pay_id p := refunded now p]> ps)).

(** Any number of events. *)
Inductive booking_steps : list BookingEvent -> Ledger -> Ledger -> Prop :=
  | steps_nil L : booking_steps [] L L
  | steps_cons ev evs L1 L2 L3 :
      booking_step ev L1 L2 -> booking_steps evs L2 L3 -> booking_steps (ev :: evs) L1 L3.

(** ** The invariant *)

(** The booking statuses a payment status allows, and the dates it needs. *)
Definition payment_agrees (p : BookingPayment) (s : BookingStatus) : Prop :=
  match pay_status p with
  | PAYMENT_PENDING => s = PENDING_PAYMENT /\ pay_paid_at p = None /\ pay_refunded_at p = None
  | PAYMENT_SUCCEEDED => s <> PENDING_PAYMENT /\ pay_paid_at p <> None /\ pay_refunded_at p = None
  | PAYMENT_FAILED => s = CANCELLED /\ pay_paid_at p = None /\ pay_refunded_at p = None
  | PAYMENT_REFUNDED => s <> PENDING_PAYMENT /\ pay_paid_at p <> None /\ pay_refunded_at p <> None
  end.

Record ledger_wf (L : Ledger) : Prop := {
  wf_bookings_keyed : keyed (lg_bookings L);
  wf_payments_keyed : keyed (lg_payments L);
  wf_no_overlap : no_overlap (lg_bookings L);
  wf_payment : forall k p, lg_payments L !! k = Some p ->
    exists b, lg_bookings L !! pay_booking_id p = Some b
      /\ pay_tenant_id p = bk_tenant_id b /\ pay_business_id p = bk_business_id b
      /\ payment_agrees p (bk_status b);
  wf_hold : forall k b, lg_bookings L !! k = Some b -> bk_status b = PENDING_PAYMENT ->
    exists kp p, lg_payments L !! kp = Some p /\ pay_booking_id p = k
      /\ pay_status p = PAYMENT_PENDING;
  wf_one_payment : forall k1 k2 p1 p2,
    lg_payments L !! k1 = Some p1 -> lg_payments L !! k2 = Some p2 ->
    pay_booking_id p1 = pay_booking_id p2 -> k1 = k2 }.

Lemma empty_ledger_wf : ledger_wf (MkLedger ∅ ∅).
Proof. split; simpl; intros *; by rewrite ?lookup_empty. Qed.

Lemma ranges_overlap_sym s1 e1 s2 e2 : ranges_overlap s1 e1 s2 e2 = ranges_overlap s2 e2 s1 e1.
Proof.
  unfold ranges_overlap.
  destruct (s1 <? e1), (s2 <? e2), (s1 <? e2), (s2 <? e1); reflexivity.
Qed.

Lemma bookings_exclude_sym a b : bookings_exclude a b = bookings_exclude b a.
Proof.
  unfold bookings_exclude. rewrite ranges_overlap_sym.
  destruct (bk_staff_id a) as [s|], (bk_staff_id b) as [t|]; simpl;
    rewrite ?andb_false_r; try done.
  rewrite (Z.eqb_sym t s). by destruct (active_status (bk_status a)), (active_status (bk_status b)).
Qed.

(** Only the slot and the activity of a booking matter for exclusion. *)
Lemma bookings_exclude_mono a a' b :
  same_slot a a' -> (active_status (bk_status a') = true -> active_status (bk_status a) = true) ->
  bookings_exclude a b = false -> bookings_exclude a' b = false.
Proof.
  intros (_ & _ & _ & _ & _ & Hs & Ha & He & _) Hact. unfold bookings_exclude.
  rewrite <- Hs, <- Ha, <- He.
  destruct (active_status (bk_status a')); [|done]. by rewrite Hact.
Qed.

Lemma booking_violation_none db b :
  keyed (bookings db) -> booking_violation db b = None -> slot_free (bookings db) b.
Proof.
  intros Hk Hv k b' Hb Hid. unfold booking_violation in Hv.
  destruct (existsb _ _) eqn:E; [done|]. rewrite existsb_false in E.
  specialize (E b'). rewrite in_rows_of in E. specialize (E (ex_intro _ k Hb)).
  apply andb_false_iff in E as [E|E]; [|done]. bool_props. congruence.
Qed.

(** Replacing a row by one with the same slot that is not more active keeps the
    table free of overlaps. *)
Lemma no_overlap_update bs k b b' :
  no_overlap bs -> bs !! k = Some b -> same_slot b b' ->
  (active_status (bk_status b') = true -> active_status (bk_status b) = true) ->
  no_overlap (<[k := b']> bs).
Proof.
  intros Hno Hb Hs Hact k1 k2 b1 b2. rewrite !lookup_insert.
  repeat case_decide; subst; intros H1 H2 Hne; simplify_eq; [| |by eauto].
  - eapply bookings_exclude_mono; eauto.
  - rewrite bookings_exclude_sym. eapply bookings_exclude_mono; eauto.
Qed.

Lemma no_overlap_insert bs b :
  no_overlap bs -> keyed bs -> slot_free bs b -> no_overlap (<[bk_id b := b]> bs).
Proof.
  intros Hno Hk Hfree k1 k2 b1 b2. rewrite !lookup_insert.
  repeat case_decide; subst; intros H1 H2 Hne; simplify_eq; [| |by eauto].
  - eapply Hfree; [done|]. pose proof (Hk _ _ H2) as E. simpl in E. congruence.
  - rewrite bookings_exclude_sym. eapply Hfree; [done|]. pose proof (Hk _ _ H1) as E. simpl in E. congruence.
Qed.

Lemma lookup_fail_pending b ps k q :
  fail_pending b ps !! k = Some q ->
  exists p, ps !! k = Some p /\ q = if pending_payment_of b p then fail_payment b p else p.
Proof. unfold fail_pending. rewrite lookup_fmap_Some. naive_solver. Qed.

Lemma pay_booking_id_fail b p :
  pay_booking_id (if pending_payment_of b p then fail_payment b p else p) = pay_booking_id p.
Proof. by destruct (pending_payment_of b p). Qed.

(** ** Preservation, event by event *)

Lemma wf_add_booking bs ps b :
  ledger_wf (MkLedger bs ps) -> bs !! bk_id b = None -> slot_free bs b ->
  bk_status b = CONFIRMED -> ledger_wf (MkLedger (<[bk_id b := b]> bs) ps).
Proof.
  intros [Hbk Hpk Hno Hpay Hhold Hone] Hnew Hfree Hst. simpl in *. split; simpl.
  - by apply keyed_insert.
  - done.
  - by apply no_overlap_insert.
  - intros k p Hp. destruct (Hpay k p Hp) as (b0 & Hb0 & ?). exists b0. split; [|done].
    rewrite lookup_insert_ne; [done | congruence].
  - intros k b0. rewrite lookup_insert. case_decide; [|eauto]. intros [= <-]. congruence.
  - done.
Qed.

Lemma wf_add_hold bs ps b p :
  ledger_wf (MkLedger bs ps) -> bs !! bk_id b = None -> slot_free bs b ->
  bk_status b = PENDING_PAYMENT -> ps !! pay_id p = None -> fresh_payment b p ->
  (forall k q, ps !! k = Some q -> pay_booking_id q <> bk_id b) ->
  ledger_wf (MkLedger (<[bk_id b := b]> bs) (<[pay_id p := p]> ps)).
Proof.
  intros [Hbk Hpk Hno Hpay Hhold Hone] Hnew Hfree Hst Hpnew (Hpb & Hpt & Hpz & Hps & Hd1 & Hd2) Hnone.
  simpl in *. split; simpl.
  - by apply keyed_insert.
  - by apply keyed_insert.
  - by apply no_overlap_insert.
  - intros k q. rewrite lookup_insert. case_decide.
    + intros [= <-]. exists b. rewrite Hpb, lookup_insert_eq.
      unfold payment_agrees. rewrite Hps. naive_solver.
    + intros Hq. destruct (Hpay k q Hq) as (b0 & Hb0 & ?). exists b0. split; [|done].
      rewrite lookup_insert_ne; [done | congruence].
  - intros k b0. rewrite lookup_insert. case_decide.
    + intros [= <-] _. exists (pay_id p), p. rewrite lookup_insert_eq. subst. auto.
    + intros Hb0 Hs0. destruct (Hhold k b0 Hb0 Hs0) as (kp & q & Hq & ?). exists kp, q.
      split; [|done]. rewrite lookup_insert_ne; [done | congruence].
  - intros k1 k2 p1 p2. rewrite !lookup_insert. repeat case_decide; subst; intros; simplify_eq;
      [done | | | by eauto]; exfalso; eapply Hnone; eauto; congruence.
Qed.

Lemma wf_pay bs ps b p reference now :
  ledger_wf (MkLedger bs ps) -> bs !! bk_id b = Some b -> bk_status b = PENDING_PAYMENT ->
  ps !! pay_id p = Some p -> pay_booking_id p = bk_id b -> pay_status p = PAYMENT_PENDING ->
  ledger_wf (MkLedger (<[bk_id b := paid b]> bs) (<[pay_id p := succeed reference now p]> ps)).
Proof.
  intros [Hbk Hpk Hno Hpay Hhold Hone] Hb Hst Hp Hpb Hps. simpl in *. split; simpl.
  - by apply keyed_insert.
  - by apply keyed_insert.
  - eapply no_overlap_update; [exact Hno | exact Hb | done |]. by rewrite Hst.
  - intros k q. rewrite !lookup_insert. case_decide as Ek.
    + intros [= <-]. destruct (Hpay _ _ Hp) as (b0 & Hb0 & Ht & Hz & Ha). simpl.
      rewrite Hpb in *. simplify_eq. exists (paid b). rewrite decide_True by done.
      unfold payment_agrees in *. rewrite Hps in Ha. simpl. naive_solver.
    + intros Hq. destruct (Hpay _ _ Hq) as (b0 & Hb0 & Ht & Hz & Ha).
      case_decide as Eb; [|by exists b0].
      destruct Ek. eapply Hone; [exact Hp | exact Hq | congruence].
  - intros k b0. rewrite lookup_insert. case_decide; [by intros [= <-]|].
    intros Hb0 Hs0. destruct (Hhold k b0 Hb0 Hs0) as (kp & q & Hq & Hqb & ?). exists kp, q.
    split; [|done]. rewrite lookup_insert_ne; [done|]. intros E; subst kp. congruence.
  - intros k1 k2 p1 p2. rewrite !lookup_insert. repeat case_decide; subst; intros; simplify_eq;
      eauto.
Qed.

Lemma wf_cancel bs ps b reason :
  ledger_wf (MkLedger bs ps) -> bs !! bk_id b = Some b -> bk_status b <> CANCELLED ->
  ledger_wf (MkLedger (<[bk_id b := cancelled reason b]> bs)
               (fail_pending (cancelled reason b) ps)).
Proof.
  intros [Hbk Hpk Hno Hpay Hhold Hone] Hb Hst. simpl in *. split; simpl.
  - by apply keyed_insert.
  - intros k q Hq. apply lookup_fail_pending in Hq as (p & Hp & ->).
    rewrite <- (Hpk k p Hp). by destruct (pending_payment_of _ p).
  - eapply no_overlap_update; [exact Hno | exact Hb | done | done].
  - intros k q Hq. apply lookup_fail_pending in Hq as (p & Hp & ->).
    destruct (Hpay k p Hp) as (b0 & Hb0 & Ht & Hz & Ha). rewrite pay_booking_id_fail, lookup_insert.
    case_decide as Eb.
    + exists (cancelled reason b). split; [done|]. rewrite <- Eb in Hb0. simplify_eq.
      unfold pending_payment_of, payment_agrees in *. simpl.
      rewrite <- Eb, Z.eqb_refl, Ht, Z.eqb_refl. simpl.
      destruct (pay_status p) eqn:Es; simpl; rewrite ?Es; naive_solver.
    + exists b0. split; [done|]. unfold pending_payment_of. simpl.
      rewrite (proj2 (Z.eqb_neq _ _)) by congruence. done.
  - intros k b0. rewrite lookup_insert. case_decide; [by intros [= <-]|].
    intros Hb0 Hs0. destruct (Hhold k b0 Hb0 Hs0) as (kp & q & Hq & Hqb & ?). exists kp, q.
    split; [|done]. unfold fail_pending. rewrite lookup_fmap, Hq. simpl.
    unfold pending_payment_of. simpl. rewrite (proj2 (Z.eqb_neq _ _)) by congruence. done.
  - intros k1 k2 p1 p2 H1 H2. apply lookup_fail_pending in H1 as (q1 & H1 & ->).
    apply lookup_fail_pending in H2 as (q2 & H2 & ->). rewrite !pay_booking_id_fail. eauto.
Qed.

Lemma wf_refund bs ps p now :
  ledger_wf (MkLedger bs ps) -> ps !! pay_id p = Some p -> pay_status p = PAYMENT_SUCCEEDED ->
  ledger_wf (MkLedger bs (<[pay_id p := refunded now p]> ps)).
Proof.
  intros [Hbk Hpk Hno Hpay Hhold Hone] Hp Hps. simpl in *. split; simpl; try done.
  - by apply keyed_insert.
  - intros k q. rewrite lookup_insert. case_decide; [|eauto].
    intros [= <-]. destruct (Hpay _ _ Hp) as (b0 & ? & ? & ? & Ha). exists b0.
    unfold payment_agrees in *. rewrite Hps in Ha. simpl. naive_solver.
  - intros k b Hb Hs. destruct (Hhold k b Hb Hs) as (kp & q & Hq & ? & ?). exists kp, q.
    split; [|done]. rewrite lookup_insert_ne; [done | intros E; subst kp; congruence].
  - intros k1 k2 p1 p2. rewrite !lookup_insert. repeat case_decide; subst; intros; simplify_eq;
      eauto.
Qed.

Lemma booking_step_wf ev L L' : booking_step ev L L' -> ledger_wf L -> ledger_wf L'.
Proof.
  destruct 1; intros Hwf.
  - by apply wf_add_booking.
  - by apply wf_add_hold.
  - by apply wf_pay.
  - apply wf_cancel; [done | done | congruence].
  - by apply wf_cancel.
  - by apply wf_refund.
Qed.

Lemma booking_steps_wf evs L L' : booking_steps evs L L' -> ledger_wf L -> ledger_wf L'.
Proof. induction 1; eauto using booking_step_wf. Qed.

Lemma booking_steps_app evs1 evs2 L1 L2 L3 :
  booking_steps evs1 L1 L2 -> booking_steps evs2 L2 L3 -> booking_steps (evs1 ++ evs2) L1 L3.
Proof. induction 1; simpl; eauto using booking_steps. Qed.

Lemma booking_steps_one ev L L' : booking_step ev L L' -> booking_steps [ev] L L'.
Proof. eauto using booking_steps. Qed.

(** ** Life of a booking *)

Lemma status_leq_trans a b c :
  status_leq a b = true -> status_leq b c = true -> status_leq a c = true.
Proof. by destruct a, b, c. Qed.

Lemma booking_step_progress ev L L' k b :
  booking_step ev L L' -> ledger_wf L -> lg_bookings L !! k = Some b ->
  exists b', lg_bookings L' !! k = Some b' /\ same_slot b b'
    /\ status_leq (bk_status b) (bk_status b') = true
    /\ (bk_status b = CANCELLED -> b' = b).
Proof.
  assert (Hrefl : status_leq (bk_status b) (bk_status b) = true) by by destruct (bk_status b).
  destruct 1; intros Hwf Hb; simpl in *; rewrite ?lookup_insert;
    repeat case_decide; simplify_eq; eexists; (split; [done|]); try done.
  all: split; [done|].
  all: match goal with |- context [status_leq (bk_status ?x) _] => by destruct (bk_status x) end.
Qed.

Lemma booking_steps_progress evs L L' k b :
  booking_steps evs L L' -> ledger_wf L -> lg_bookings L !! k = Some b ->
  exists b', lg_bookings L' !! k = Some b' /\ same_slot b b'
    /\ status_leq (bk_status b) (bk_status b') = true
    /\ (bk_status b = CANCELLED -> b' = b).
Proof.
  intros Hs. revert b. induction Hs as [L|ev evs L1 L2 L3 H1 Hs IH]; intros b Hwf Hb.
  - exists b. split; [done|]. split; [done|]. by destruct (bk_status b).
  - destruct (booking_step_progress _ _ _ _ _ H1 Hwf Hb) as (b1 & Hb1 & Hs1 & Hl1 & Hc1).
    destruct (IH b1 (booking_step_wf _ _ _ H1 Hwf) Hb1) as (b2 & Hb2 & Hs2 & Hl2 & Hc2).
    exists b2. split; [done|]. split; [unfold same_slot in *; intuition congruence|].
    split; [by eapply status_leq_trans|]. intros Hc. specialize (Hc1 Hc). subst. auto.
Qed.
