(* ===== verification/SessionFrames.v ===== *)
(** * SessionFrames: what the operations around a booking leave alone

    Four assertions about a session run through the development: [at_ledger L D], it sees the
    bookings and payments [L] and [D] are durable; [in_catalogue]; [in_scope], with
    [bears]; and [sound_queues].  Audit rows, outbox rows, calendar rows, accounts, plain keys
    of Redis and new jobs break none of them.  [Framed P] states
    that [P] is such an assertion, [SessionFramed P] that transactions keep it too, [RedisFree P]
    that Redis does not concern it at all; the frames
    of the operations are proved from these classes once for all. *)

From S2P Require Import Prelude Py Effects Schema Settings Orm AuditTrail Directory Schedule JobQueue.
From S2P Require Import Frames PublicLink Notifications Calendar Waitlist Booking BookingMachine.
From S2P Require Import Tenancy Users QueueInvariant RateLimit Auth Onboarding Schemas Catalogue Scope.

Definition at_ledger (L D : Ledger) (w : World) : Prop :=
  ledger (w_db w) = L /\ ledger (w_committed w) = D.

(** ** Tables outside the ledger *)

Class OffLedger (A : Type) `{Entity A} : Prop := {
  off_ledger : forall f db, ledger (on_table f db) = ledger db }.
#[global] Instance OffLedger_Business : OffLedger Business.
Proof. by constructor. Qed.
#[global] Instance OffLedger_Service : OffLedger Service.
Proof. by constructor. Qed.
#[global] Instance OffLedger_Staff : OffLedger Staff.
Proof. by constructor. Qed.
#[global] Instance OffLedger_Customer : OffLedger Customer.
Proof. by constructor. Qed.
#[global] Instance OffLedger_Client : OffLedger Client.
Proof. by constructor. Qed.
#[global] Instance OffLedger_WorkingHours : OffLedger WorkingHours.
Proof. by constructor. Qed.
#[global] Instance OffLedger_Exception : OffLedger AvailabilityException.
Proof. by constructor. Qed.
#[global] Instance OffLedger_Block : OffLedger RecurringStaffBlock.
Proof. by constructor. Qed.
#[global] Instance OffLedger_TransferHours : OffLedger BusinessTransferHours.
Proof. by constructor. Qed.
#[global] Instance OffLedger_LineItem : OffLedger BookingLineItem.
Proof. by constructor. Qed.
#[global] Instance OffLedger_Waitlist : OffLedger WaitlistEntry.
Proof. by constructor. Qed.
#[global] Instance OffLedger_Outbox : OffLedger NotificationOutbox.
Proof. by constructor. Qed.
#[global] Instance OffLedger_Event : OffLedger CalendarEvent.
Proof. by constructor. Qed.
#[global] Instance OffLedger_Integration : OffLedger CalendarIntegration.
Proof. by constructor. Qed.
#[global] Instance OffLedger_Audit : OffLedger AuditLog.
Proof. by constructor. Qed.
#[global] Instance OffLedger_Voice : OffLedger VoiceSession.
Proof. by constructor. Qed.
#[global] Instance OffLedger_Tenant : OffLedger Tenant.
Proof. by constructor. Qed.
#[global] Instance OffLedger_User : OffLedger User.
Proof. by constructor. Qed.
#[global] Instance OffLedger_PasswordResetToken : OffLedger PasswordResetToken.
Proof. by constructor. Qed.
#[global] Instance OffLedger_PasswordResetJobCompletion : OffLedger PasswordResetJobCompletion.
Proof. by constructor. Qed.
#[global] Instance OffLedger_IdempotencyRecord : OffLedger IdempotencyRecord.
Proof. by constructor. Qed.
#[global] Instance OffLedger_WebhookEvent : OffLedger WebhookEvent.
Proof. by constructor. Qed.
#[global] Instance OffLedger_UploadedFile : OffLedger UploadedFile.
Proof. by constructor. Qed.
#[global] Instance OffLedger_BusinessMembership : OffLedger BusinessMembership.
Proof. by constructor. Qed.
#[global] Instance OffLedger_OwnerLead : OffLedger OwnerLead.
Proof. by constructor. Qed.

Section KeepsLedger.
Context (L D : Ledger).

Lemma keeps_insert `{OffLedger A} mk : keeps (at_ledger L D) (db_insert (A := A) mk).
Proof.
  intros w [HL HD]. unfold db_insert.
  destruct (table (w_db w) !! _); [by split|]. destruct (violates _ _); [by split|].
  split; simpl; [rewrite off_ledger|]; done.
Qed.
Lemma keeps_save `{OffLedger A} (r : A) : keeps (at_ledger L D) (save r).
Proof.
  apply triple_modify. intros w [HL HD]. split; simpl; [rewrite off_ledger|]; done.
Qed.
Lemma keeps_update `{OffLedger A} (r : A) : keeps (at_ledger L D) (db_update r).
Proof.
  intros w Hw. unfold db_update. destruct (violates _ _); [done|]. by apply keeps_save.
Qed.
Lemma keeps_delete `{OffLedger A} (r : A) : keeps (at_ledger L D) (db_delete r).
Proof.
  intros w [HL HD]. unfold db_delete. destruct (referenced _ _); [by split|].
  split; simpl; [rewrite off_ledger|]; done.
Qed.
Lemma keeps_delete_where `{OffLedger A} (p : A -> bool) :
  keeps (at_ledger L D) (delete_where p).
Proof. intros w [HL HD]. split; simpl; [rewrite off_ledger|]; done. Qed.
Lemma keeps_update_where `{OffLedger A} (p : A -> bool) f : keeps (at_ledger L D) (update_where p f).
Proof. intros w [HL HD]. split; simpl; [rewrite off_ledger|]; done. Qed.
End KeepsLedger.

(** Between transactions the session's ledger is the durable one, and a commit or a
    rollback changes nothing. *)
Lemma keeps_commit L : keeps (at_ledger L L) commit.
Proof. apply triple_modify. by intros w [HL HD]. Qed.
Lemma keeps_rollback L : keeps (at_ledger L L) rollback.
Proof. apply triple_modify. by intros w [HL HD]. Qed.


(** ** Assertions that other tables do not matter to *)

Class Framed `{Config} (P : World -> Prop) : Prop := {
  framed_insert : forall A `{OffLedger A} `{!Catalogued A} `{!Loose A} `{!OffScope A} mk,
    (forall id now, row_ok (mk id now) = true) -> keeps P (db_insert mk);
  framed_save : forall A `{OffLedger A} `{!Catalogued A} `{!Loose A} `{!OffScope A} r, row_ok r = true -> keeps P (save r);
  framed_update_where : forall A `{OffLedger A} `{!Catalogued A} `{!Loose A} `{!OffScope A} (p : A -> bool) f,
    (forall r, row_ok r = true -> row_ok (f r) = true) -> keeps P (update_where p f);
  framed_delete : forall A `{OffLedger A} `{!Catalogued A} `{!Loose A} `{!OffScope A} (r : A), keeps P (db_delete r);
  framed_delete_where : forall A `{OffLedger A} `{!Catalogued A} `{!Loose A} `{!OffScope A} (p : A -> bool),
    keeps P (delete_where p);
  framed_business : forall mk : Z -> Z -> Business,
    (forall id now, row_ok (mk id now) = true) -> (forall id now, biz_id (mk id now) = id) ->
    keeps P (db_insert mk);
  framed_keys : forall w r, keys_only (w_redis w) r -> P w -> P (w <| w_redis := r |>);
  framed_enqueue : forall t p, keeps P (enqueue_job t p);
  framed_entropy : forall w f, (forall n, n <= f n) -> P w -> P (w <| w_entropy ::= f |>) }.

Class SessionFramed `{Config} (P : World -> Prop) : Prop := {
  session_framed :: Framed P;
  framed_commit : keeps P commit;
  framed_rollback : keeps P rollback;
  framed_open : forall w, P w -> P (open_session w) }.

(** Nothing in Redis matters. *)
Class RedisFree (P : World -> Prop) : Prop := {
  redis_free : forall w r, P w -> P (w <| w_redis := r |>) }.

#[global] Instance at_ledger_free L D : RedisFree (at_ledger L D).
Proof. by constructor. Qed.
#[global] Instance catalogue_free : RedisFree in_catalogue.
Proof. by constructor. Qed.
#[global] Instance bears_free ps : RedisFree (bears ps).
Proof. by constructor. Qed.
#[global] Instance scope_free : RedisFree in_scope.
Proof. by constructor. Qed.

Section RedisFreeRules.
Context (P : World -> Prop) `{!RedisFree P}.

Lemma free_redis {A} (cmd : Redis -> A * Redis) : keeps P (redis cmd).
Proof. intros w Hw. unfold redis. destruct (cmd (w_redis w)) as [a r]. by apply redis_free. Qed.
Lemma free_redis_ cmd : keeps P (redis_ cmd).
Proof. apply triple_modify. intros w Hw. exact (redis_free w (cmd (w_redis w)) Hw). Qed.

(** A job in a queue; that ids are drawn does not matter either. *)
Lemma free_enqueue `{Config} t p :
  (forall w f, P w -> P (w <| w_entropy ::= f |>)) -> keeps P (enqueue_job t p).
Proof.
  intros He. unfold enqueue_job. apply keeps_bind; [intros w Hw; exact (He w (Z.add 1) Hw)|].
  intros id. apply keeps_bind; [apply keeps_asks|]. intros rid. cbv zeta.
  apply keeps_bind; [apply free_redis_ | intros; apply keeps_ret].
Qed.
End RedisFreeRules.

#[global] Instance at_ledger_framed `{Config} L D : Framed (at_ledger L D).
Proof.
  constructor; intros; [by apply keeps_insert; exact _ | by apply keeps_save; exact _
    | by apply keeps_update_where; exact _ | by apply keeps_delete; exact _
    | by apply keeps_delete_where; exact _ | by apply keeps_insert; exact _ | done
    | by apply (free_enqueue (at_ledger L D)) | done].
Qed.
#[global] Instance at_ledger_session `{Config} L : SessionFramed (at_ledger L L).
Proof.
  constructor; [exact _ | apply keeps_commit | apply keeps_rollback|]. by intros w [HL HD].
Qed.

(** *** The catalogue *)

Section KeepsCatalogue.
Context {A : Type} `{Catalogued A}.

Lemma catalogue_keeps_insert mk :
  (forall id now, row_ok (mk id now) = true) -> keeps in_catalogue (db_insert mk).
Proof.
  intros Hr w [Hs Hd]. unfold db_insert.
  destruct (table (w_db w) !! _); [by split|]. destruct (violates _ _); [by split|].
  split; [|exact Hd]. by apply catalogue_insert.
Qed.
Lemma catalogue_keeps_save r : row_ok r = true -> keeps in_catalogue (save r).
Proof. intros Hr. apply triple_modify. intros w [Hs Hd]. split; [by apply catalogue_save | done]. Qed.
Lemma catalogue_keeps_update r : row_ok r = true -> keeps in_catalogue (db_update r).
Proof.
  intros Hr w Hw. unfold db_update. destruct (violates _ _); [done|]. by apply catalogue_keeps_save.
Qed.
Lemma catalogue_keeps_update_where (p : A -> bool) f :
  (forall r, row_ok r = true -> row_ok (f r) = true) -> keeps in_catalogue (update_where p f).
Proof.
  intros Hf. apply triple_modify. intros w [Hs Hd]. split; [|done]. apply catalogue_fmap; [done|].
  intros r Hr. destruct (p r); [by apply Hf | done].
Qed.
Lemma catalogue_keeps_delete r : keeps in_catalogue (db_delete r).
Proof.
  intros w [Hs Hd]. unfold db_delete. destruct (referenced _ _); [by split|].
  split; [|exact Hd]. apply catalogue_subset; [done|]. apply delete_subseteq.
Qed.
Lemma catalogue_keeps_delete_where (p : A -> bool) : keeps in_catalogue (delete_where p).
Proof.
  intros w [Hs Hd]. split; [|exact Hd]. apply catalogue_subset; [done|]. apply map_filter_subseteq.
Qed.
End KeepsCatalogue.

#[global] Instance catalogue_framed `{Config} : SessionFramed in_catalogue.
Proof.
  constructor; [constructor; intros|..].
  - by apply catalogue_keeps_insert.
  - by apply catalogue_keeps_save.
  - by apply catalogue_keeps_update_where.
  - apply catalogue_keeps_delete.
  - apply catalogue_keeps_delete_where.
  - by apply catalogue_keeps_insert.
  - done.
  - by apply (free_enqueue in_catalogue).
  - done.
  - apply triple_modify. by intros w [Hs Hd].
  - apply triple_modify. by intros w [Hs Hd].
  - by intros w [Hs Hd].
Qed.

(** *** The scope *)

#[global] Instance bears_framed `{Config} ps : Framed (bears ps).
Proof.
  constructor; intros.
  - intros w Hw. pose proof Hw as [[Hs Hc] Hps]. unfold db_insert.
    destruct (table _ !! _) eqn:Ek; [done|]. destruct (violates _ _); [done|].
    apply (bears_loose ps _ (w <| w_seq ::= _ |>)); [done|]. intros k r _. simpl.
    rewrite off_place. apply Forall_nil_2.
  - apply bears_save. intros db _. simpl. rewrite off_place. apply Forall_nil_2.
  - apply bears_update_where. intros r. by rewrite !off_place.
  - apply bears_delete.
  - apply bears_delete_where.
  - eapply triple_conseq; [apply (bears_insert ps mk) | done | | done]; try done.
    + intros. apply Forall_nil_2.
    + intros r w [[Hs Hps] _]. split; [done|]. by apply Forall_app in Hps as [_ Hps].
  - done.
  - by apply (free_enqueue (bears ps)).
  - done.
Qed.

#[global] Instance scope_framed `{Config} : SessionFramed in_scope.
Proof.
  assert (Hb : forall A (m : PyM A), keeps (bears []) m -> keeps in_scope m).
  { intros A m Hm. apply scope_ends. by apply ends_keeps. }
  constructor; [constructor; intros|..]; try (apply Hb).
  - by eapply framed_insert.
  - by eapply framed_save.
  - by eapply framed_update_where.
  - by eapply framed_delete.
  - by eapply framed_delete_where.
  - by eapply framed_business.
  - done.
  - apply framed_enqueue.
  - done.
  - apply triple_modify. intros w. rewrite !bears_nil. by intros [Hs Hd].
  - apply triple_modify. intros w. rewrite !bears_nil. by intros [Hs Hd].
  - by intros w [Hs Hd].
Qed.

Lemma bears_commit ps : keeps (bears ps) commit.
Proof. apply triple_modify. intros w [[Hs Hc] Hps]. by split. Qed.

(** *** The queues *)

Section QueueFrames.
Context `{Config} `{!DistinctIds}.

(** A computation that touches neither Redis nor the entropy. *)
Lemma sound_quiet {A} (m : PyM A) :
  (forall w, w_redis (m w).2 = w_redis w /\ w_entropy (m w).2 = w_entropy w) -> keeps sound_queues m.
Proof.
  intros Hm w Hw. destruct (Hm w) as [Hr He].
  assert (sound_queues (m w).2) by (apply (sound_same w); rewrite ?Hr, ?He; done).
  by destruct (m w) as [[a|e] w'].
Qed.

#[global] Instance queues_framed : SessionFramed sound_queues.
Proof.
  constructor; [constructor; intros|..]; try (apply sound_quiet; intros w; split; done).
  - apply sound_quiet. intros w. unfold db_insert.
    destruct (table (w_db w) !! _); [done|]. by destruct (violates _ _).
  - apply sound_quiet. intros w. unfold db_delete. by destruct (referenced _ _).
  - apply sound_quiet. intros w. unfold db_insert.
    destruct (table (w_db w) !! _); [done|]. by destruct (violates _ _).
  - apply (sound_same w); [|done|done]. simpl. by rewrite (keys_documents (w_redis w)).
  - eapply triple_conseq; [apply sound_enqueue | done..].
  - apply (sound_same w); [done | simpl; auto | done].
  - intros w Hw. apply (sound_same w); done.
Qed.
End QueueFrames.

(** The ids drawn only move on. *)
#[global] Instance entropy_framed `{Config} n : SessionFramed (fun w => n <= w_entropy w).
Proof.
  assert (Hq : forall A (m : PyM A), (forall w, w_entropy w <= w_entropy (m w).2) ->
    keeps (fun w => n <= w_entropy w) m).
  { intros A m Hm w Hw. specialize (Hm w). destruct (m w) as [[a|e] w']; simpl in *; lia. }
  constructor; [constructor; intros|..]; try (apply Hq; intros w; simpl; lia); try done.
  - apply Hq. intros w. unfold db_insert.
    destruct (table (w_db w) !! _); [done|]. by destruct (violates _ _).
  - apply Hq. intros w. unfold db_delete. by destruct (referenced _ _).
  - apply Hq. intros w. unfold db_insert.
    destruct (table (w_db w) !! _); [done|]. by destruct (violates _ _).
  - etransitivity; [eassumption|]. match goal with Hf : forall _, _ <= _ |- _ => exact (Hf _) end.
Qed.
#[global] Instance entropy_free n : RedisFree (fun w => n <= w_entropy w).
Proof. by constructor. Qed.

(** ** The rules, as hints *)

Section Rules.
Context `{Config} (P : World -> Prop) `{!Framed P}.

Lemma framed_db_update `{OffLedger A} `{!Catalogued A} `{!Loose A} `{!OffScope A} (r : A) :
  row_ok r = true -> keeps P (db_update r).
Proof.
  intros Hr w Hw. unfold db_update. destruct (violates _ _); [done|].
  exact (framed_save A r Hr w Hw).
Qed.
Lemma framed_read {A} (cmd : Redis -> A * Redis) :
  (forall r, keys_only r (cmd r).2) -> keeps P (redis cmd).
Proof.
  intros Hk w Hw. unfold redis. specialize (Hk (w_redis w)). destruct (cmd (w_redis w)) as [a r].
  by apply framed_keys.
Qed.
Lemma framed_command cmd : (forall r, keys_only r (cmd r)) -> keeps P (redis_ cmd).
Proof. intros Hk. apply triple_modify. intros w Hw. exact (framed_keys w _ (Hk _) Hw). Qed.
Lemma framed_uuid : keeps P fresh_uuid.
Proof. intros w Hw. apply (framed_entropy w (Z.add 1)); [lia | done]. Qed.
Lemma framed_draw {A} (f : Z -> A) : keeps P (draw f).
Proof. intros w Hw. apply (framed_entropy w Z.succ); [lia | done]. Qed.
End Rules.

Lemma framed_request `{Config} P `{!SessionFramed P} {A} (m : PyM A) : keeps P m -> keeps P (run_request m).
Proof.
  intros Hm w Hw. unfold run_request. pose proof (Hm _ (framed_open w Hw)) as Ht.
  destruct (m (open_session w)) as [[a|e] w']; by apply framed_open.
Qed.

#[export] Hint Extern 1 (keeps _ (db_insert _)) => apply keeps_insert; exact _ : ledger.
#[export] Hint Extern 1 (keeps _ (save _)) => apply keeps_save; exact _ : ledger.
#[export] Hint Extern 1 (keeps _ (db_update _)) => apply keeps_update; exact _ : ledger.
#[export] Hint Extern 1 (keeps _ (db_delete _)) => apply keeps_delete; exact _ : ledger.
#[export] Hint Extern 1 (keeps _ (update_where _ _)) => apply keeps_update_where; exact _ : ledger.
#[export] Hint Extern 1 (keeps _ (delete_where _)) => apply keeps_delete_where; exact _ : ledger.

(** A row of the catalogue that computes to a good one is written without further ado. *)
#[export] Hint Extern 2 (keeps _ (db_insert _)) =>
  first [ solve [refine (catalogue_keeps_insert _ _); intros; reflexivity]
        | solve [refine (framed_insert _ _ _); intros; reflexivity]
        | solve [refine (framed_business _ _ _); intros; reflexivity] ] : ledger.
#[export] Hint Extern 2 (keeps _ (save _)) =>
  first [refine (catalogue_keeps_save _ _) | refine (framed_save _ _ _)]; intros; reflexivity : ledger.
#[export] Hint Extern 2 (keeps _ (db_update _)) =>
  first [refine (catalogue_keeps_update _ _) | refine (framed_db_update _ _ _)]; intros; reflexivity : ledger.
#[export] Hint Extern 2 (keeps _ (update_where _ _)) =>
  first [refine (catalogue_keeps_update_where _ _ _) | refine (framed_update_where _ _ _ _)];
  intros; reflexivity
  : ledger.
#[export] Hint Extern 2 (keeps _ (db_delete _)) =>
  first [refine (catalogue_keeps_delete _) | refine (framed_delete _ _)] : ledger.
#[export] Hint Extern 2 (keeps _ (delete_where _)) =>
  first [refine (catalogue_keeps_delete_where _) | refine (framed_delete_where _ _)] : ledger.
#[export] Hint Resolve bears_commit free_redis free_redis_ framed_read framed_command framed_uuid framed_draw framed_commit
  framed_rollback framed_request : ledger.

#[export] Hint Extern 0 (Framed _) => exact _ : ledger.
#[export] Hint Extern 0 (SessionFramed _) => exact _ : ledger.
#[export] Hint Extern 0 (RedisFree _) => exact _ : ledger.

(** ** The operations around a booking *)

Section Frames.
Context `{Config} (P : World -> Prop) `{!Framed P}.

Lemma keeps_enqueue_job t p : keeps P (enqueue_job t p).
Proof. apply framed_enqueue. Qed.
Hint Resolve keeps_enqueue_job : ledger.
Lemma keeps_send_job i : keeps P (enqueue_send_notification_job i).
Proof. apply keeps_enqueue_job. Qed.
Lemma keeps_audit t a act u b s : keeps P (create_audit_log t a act u b s false).
Proof. unfold create_audit_log, when. keeps_steps. Qed.
Lemma keeps_require_business b t : keeps P (require_business b t).
Proof. unfold require_business, get_business. keeps_steps. Qed.
Lemma keeps_require_customer c b t : keeps P (require_customer_in_business c b t).
Proof. unfold require_customer_in_business, require_customer, get_customer. keeps_steps. Qed.
Lemma keeps_require_service s b t : keeps P (require_service_in_business s b t).
Proof. unfold require_service_in_business, require_service, get_service. keeps_steps. Qed.
Lemma keeps_check_staff s b t : keeps P (check_staff s b t).
Proof. unfold check_staff, require_staff_in_business, require_staff, get_staff. keeps_steps. Qed.
Lemma keeps_confirmation b z c s : keeps P (enqueue_booking_confirmation b z c s).
Proof.
  unfold enqueue_booking_confirmation, build_public_management_url, generate_booking_token.
  keeps_steps.
Qed.
Lemma keeps_cancellation b z c s : keeps P (enqueue_booking_cancellation b z c s).
Proof. unfold enqueue_booking_cancellation. keeps_steps. Qed.
Lemma keeps_offer e z c s : keeps P (enqueue_waitlist_offer e z c s).
Proof. unfold enqueue_waitlist_offer. keeps_steps. Qed.
Lemma keeps_calendar_event b z : keeps P (enqueue_calendar_event b z).
Proof. unfold enqueue_calendar_event, get_calendar_integration. keeps_steps. Qed.
Lemma keeps_event_for_booking b t :
  keeps P (get_calendar_event_for_booking b t).
Proof. unfold get_calendar_event_for_booking. keeps_steps. Qed.
Lemma keeps_double_booking s b t e x : keeps P (check_double_booking s b t e x).
Proof. unfold check_double_booking. keeps_steps. Qed.
Lemma keeps_sync_job i : keeps P (enqueue_sync_calendar_event_job i).
Proof. apply keeps_enqueue_job. Qed.
Lemma keeps_cancel_job i : keeps P (enqueue_cancel_calendar_event_job i).
Proof. apply keeps_enqueue_job. Qed.
Lemma keeps_find_entries b t s d st u :
  keeps P (find_matching_waitlist_entries b t s d st u).
Proof. unfold find_matching_waitlist_entries. keeps_steps. Qed.
End Frames.

#[export] Hint Resolve keeps_enqueue_job keeps_send_job keeps_audit keeps_require_business
  keeps_require_customer keeps_require_service keeps_check_staff keeps_confirmation
  keeps_cancellation keeps_offer keeps_calendar_event keeps_event_for_booking
  keeps_double_booking keeps_sync_job keeps_cancel_job keeps_find_entries : ledger.
