(* ===== verification/BookingRefinement.v ===== *)
(** * BookingRefinement: booking_service.py implements the booking machine

    [at_ledger L D w]: the session sees the ledger [L], the durable one is [D].
    Everything an operation does besides its ledger writes (audit rows, outbox
    rows, calendar rows, waitlist rows, Redis) keeps [at_ledger L D]; this is
    shown by the rules of [keeps] and the hint database [ledger].  Each operation
    started on a durable ledger [D] then either makes the events of the machine
    durable, or raises and leaves [D] as it was. *)

From S2P Require Import Prelude Py Effects Schema Settings Orm AuditTrail Directory Schedule JobQueue.
From S2P Require Import Frames PublicLink Notifications Calendar Waitlist Booking BookingMachine.
From S2P Require Import SessionFrames.

(** ** Ledger reads and writes *)

(** Before the commit an exception leaves the durable ledger alone. *)
Definition aborted (D : Ledger) (_ : Exn) (w : World) : Prop := ledger (w_committed w) = D.

(** A step that keeps the ledger, in a longer operation. *)
Lemma then_keeps {A B} L D (m : PyM A) (k : A -> PyM B) Q :
  keeps (at_ledger L D) m ->
  (forall a, triple (at_ledger L D) (k a) Q (aborted D)) ->
  triple (at_ledger L D) (bind m k) Q (aborted D).
Proof.
  intros Hm Hk. eapply triple_bind; [|exact Hk].
  eapply triple_conseq; [exact Hm | done | done |]. by intros e w [_ HD].
Qed.

Lemma then_ret {A B} P (a : A) (k : A -> PyM B) Q X :
  triple P (k a) Q X -> triple P (bind (ret a) k) Q X.
Proof. done. Qed.

Lemma raise_aborted {A} L D e (Q : A -> World -> Prop) :
  triple (at_ledger L D) (raise e) Q (aborted D).
Proof. apply triple_raise. by intros w [_ HD]. Qed.

Lemma then_pure {A B} L D (m : PyM A) (k : A -> PyM B) (phi : A -> Prop) Q :
  triple (at_ledger L D) m (fun a w => at_ledger L D w /\ phi a) (aborted D) ->
  (forall a, phi a -> triple (at_ledger L D) (k a) Q (aborted D)) ->
  triple (at_ledger L D) (bind m k) Q (aborted D).
Proof.
  intros Hm Hk. eapply triple_bind; [exact Hm|]. intros a w [Hw Hphi]. by apply Hk.
Qed.

(** The steps after the commit, jobs on the queue and the refreshed row, do not
    raise. *)
Definition quiet {A} (P : World -> Prop) (m : PyM A) : Prop :=
  triple P m (fun _ => P) (fun _ _ => False).

Lemma quiet_bind {A B} P (m : PyM A) (k : A -> PyM B) :
  quiet P m -> (forall a, quiet P (k a)) -> quiet P (bind m k).
Proof. intros Hm Hk. eapply triple_bind; [exact Hm | exact Hk]. Qed.
Lemma quiet_ret {A} P (a : A) : quiet P (ret a).
Proof. by apply triple_ret. Qed.
Lemma quiet_refresh `{Entity A} P (r : A) : quiet P (refresh r).
Proof. by apply triple_asks. Qed.
Lemma quiet_for_each {A} P (l : list A) body :
  (forall x, quiet P (body x)) -> quiet P (for_each l body).
Proof. intros Hb. apply triple_for_each. intros x _. apply Hb. Qed.
Lemma quiet_enqueue_job `{Config} L D t p : quiet (at_ledger L D) (enqueue_job t p).
Proof. by intros w Hw. Qed.
Lemma quiet_send_job `{Config} L D i : quiet (at_ledger L D) (enqueue_send_notification_job i).
Proof. by intros w Hw. Qed.
Lemma quiet_cancel_job `{Config} L D i :
  quiet (at_ledger L D) (enqueue_cancel_calendar_event_job i).
Proof. by intros w Hw. Qed.
Lemma quiet_confirmation_jobs `{Config} L D ids e :
  quiet (at_ledger L D) (enqueue_confirmation_jobs ids e).
Proof.
  apply quiet_bind; [|by intros u w Hw]. apply quiet_for_each. by intros i w Hw.
Qed.

#[export] Hint Resolve quiet_ret quiet_refresh quiet_for_each quiet_enqueue_job quiet_send_job
  quiet_cancel_job  quiet_confirmation_jobs : ledger.
#[export] Hint Resolve quiet_bind | 2 : ledger.
#[export] Hint Extern 3 (quiet _ (match ?x with _ => _ end)) => destruct x : ledger.

Lemma quiet_after {A} L (m : PyM A) (Q : A -> World -> Prop) X :
  quiet (at_ledger L L) m -> (forall a w, at_ledger L L w -> Q a w) ->
  triple (at_ledger L L) m Q X.
Proof. intros Hm HQ. eapply triple_conseq; [exact Hm | done | done | done]. Qed.

Lemma keeps_aborted {A} L D (m : PyM A) Q :
  keeps (at_ledger L D) m -> (forall a w, at_ledger L D w -> Q a w) ->
  triple (at_ledger L D) m Q (aborted D).
Proof. intros Hm HQ. eapply triple_conseq; [exact Hm | done | done |]. by intros e w [_ HD]. Qed.

Section LedgerWrites.
Context (L D : Ledger).

Lemma find_booking k p :
  triple (at_ledger L D) (find_pk k p)
    (fun o w => at_ledger L D w /\ forall b, o = Some b -> lg_bookings L !! k = Some b /\ p b = true)
    (aborted D).
Proof.
  apply triple_asks. intros w [HL HD]. split; [done|]. subst L. simpl.
  intros b. destruct (bookings (w_db w) !! k) as [b0|]; [|done].
  destruct (p b0) eqn:E; [|done]. by intros [= ->].
Qed.

Lemma require_booking_for_update booking_id business_id tenant_id :
  triple (at_ledger L D) (require_booking_in_business_for_update booking_id business_id tenant_id)
    (fun b w => at_ledger L D w /\ (lg_bookings L !! booking_id = Some b
       /\ bk_tenant_id b = tenant_id /\ bk_business_id b = business_id))
    (aborted D).
Proof.
  eapply then_pure; [apply find_booking|]. intros [b|] Hb; simpl.
  2:{ apply triple_raise. by intros w [_ HD]. }
  destruct (Hb b eq_refl) as [Hk Ht]. apply triple_bind with (R := fun b' w => at_ledger L D w /\ b' = b).
  { by apply triple_ret. }
  intros b' w [Hw ->]. destruct (bk_business_id b =? business_id) eqn:E; simpl.
  - bool_props. naive_solver.
  - by destruct Hw.
Qed.

Lemma require_booking_read booking_id business_id tenant_id :
  triple (at_ledger L D) (require_booking_in_business booking_id business_id tenant_id)
    (fun b w => at_ledger L D w /\ (lg_bookings L !! booking_id = Some b
       /\ bk_tenant_id b = tenant_id /\ bk_business_id b = business_id))
    (aborted D).
Proof. exact (require_booking_for_update booking_id business_id tenant_id). Qed.

Lemma find_payment p :
  triple (at_ledger L D) (first p)
    (fun o w => at_ledger L D w
       /\ o = head (List.filter p (rows_of (lg_payments L))))
    (aborted D).
Proof. apply triple_asks. intros w [HL HD]. split; [done|]. by subst L. Qed.

Lemma head_payment p q :
  keyed (lg_payments L) -> head (List.filter p (rows_of (lg_payments L))) = Some q ->
  lg_payments L !! pay_id q = Some q /\ p q = true.
Proof.
  intros Hk Hq. apply head_filter_some in Hq as [Hin Hp]. split; [|done].
  by apply (in_rows_of_keyed _ _ Hk).
Qed.

Lemma insert_booking mk :
  (forall id now, bk_id (mk id now) = id) -> keyed (lg_bookings L) ->
  triple (at_ledger L D) (db_insert mk)
    (fun b w => at_ledger (MkLedger (<[bk_id b := b]> (lg_bookings L)) (lg_payments L)) D w
       /\ (lg_bookings L !! bk_id b = None /\ slot_free (lg_bookings L) b
           /\ exists id now, b = mk id now))
    (aborted D).
Proof.
  intros Hid Hk w [HL HD]. unfold db_insert. subst L. simpl in *.
  destruct (bookings (w_db w) !! _) eqn:En; [done|].
  destruct (booking_violation _ _) eqn:Ev; [done|]. simpl.
  split; [|rewrite Hid; split; [done|]].
  - split; [|done]. unfold ledger. simpl. by rewrite Hid.
  - split; [by apply booking_violation_none | eauto].
Qed.

Lemma insert_payment mk :
  (forall id now, pay_id (mk id now) = id) ->
  triple (at_ledger L D) (db_insert mk)
    (fun p w => at_ledger (MkLedger (lg_bookings L) (<[pay_id p := p]> (lg_payments L))) D w
       /\ (lg_payments L !! pay_id p = None
           /\ (forall k q, lg_payments L !! k = Some q -> pay_id q <> pay_id p ->
                 pay_booking_id q <> pay_booking_id p)
           /\ exists id now, p = mk id now))
    (aborted D).
Proof.
  intros Hid w [HL HD]. unfold db_insert. subst L. simpl in *.
  destruct (booking_payments (w_db w) !! _) eqn:En; [done|].
  destruct (payment_violation _ _) eqn:Ev; [done|]. simpl.
  split; [|rewrite !Hid; split; [done|split; [|eauto]]].
  - split; [|done]. unfold ledger. simpl. by rewrite Hid.
  - intros k q Hq Hne. unfold payment_violation in Ev. destruct (existsb _ _) eqn:Ex; [done|].
    rewrite existsb_false in Ex. specialize (Ex q). rewrite in_rows_of in Ex.
    specialize (Ex (ex_intro _ k Hq)). rewrite Hid in Ex.
    apply andb_false_iff in Ex as [Ex|Ex]; bool_props; done.
Qed.

Lemma save_booking b X :
  triple (at_ledger L D) (save b)
    (fun _ => at_ledger (MkLedger (<[bk_id b := b]> (lg_bookings L)) (lg_payments L)) D) X.
Proof. apply triple_modify. intros w [HL HD]. by subst L. Qed.

Lemma save_payment p X :
  triple (at_ledger L D) (save p)
    (fun _ => at_ledger (MkLedger (lg_bookings L) (<[pay_id p := p]> (lg_payments L))) D) X.
Proof. apply triple_modify. intros w [HL HD]. by subst L. Qed.

Lemma commit_ledger X : triple (at_ledger L D) commit (fun _ => at_ledger L L) X.
Proof. apply triple_modify. by intros w [HL HD]. Qed.
End LedgerWrites.

(** With one payment per booking, failing the first pending payment found is
    failing all of them. *)
Lemma fail_pending_one b ps p :
  keyed ps -> ps !! pay_id p = Some p -> pending_payment_of b p = true ->
  (forall k1 k2 p1 p2, ps !! k1 = Some p1 -> ps !! k2 = Some p2 ->
     pay_booking_id p1 = pay_booking_id p2 -> k1 = k2) ->
  fail_pending b ps = <[pay_id p := fail_payment b p]> ps.
Proof.
  intros Hk Hp Hpend Hone. apply map_eq. intros k. unfold fail_pending.
  rewrite lookup_fmap, lookup_insert. case_decide as E; [subst; by rewrite Hp; simpl; rewrite Hpend|].
  destruct (ps !! k) as [q|] eqn:Eq; simpl; [|done].
  destruct (pending_payment_of b q) eqn:Epq; [|done]. destruct E.
  unfold pending_payment_of in *. bool_props. eapply Hone; eauto. congruence.
Qed.

Lemma fail_pending_none b ps :
  (forall k p, ps !! k = Some p -> pending_payment_of b p = false) -> fail_pending b ps = ps.
Proof.
  intros Hn. apply map_eq. intros k. unfold fail_pending. rewrite lookup_fmap.
  destruct (ps !! k) as [q|] eqn:Eq; simpl; [|done]. by rewrite (Hn k q Eq).
Qed.

Lemma fail_linked_payment bs ps D b :
  keyed ps ->
  (forall k1 k2 p1 p2, ps !! k1 = Some p1 -> ps !! k2 = Some p2 ->
     pay_booking_id p1 = pay_booking_id p2 -> k1 = k2) ->
  triple (at_ledger (MkLedger bs ps) D) (fail_linked_pending_payment b)
    (fun _ => at_ledger (MkLedger bs (fail_pending b ps)) D) (aborted D).
Proof.
  intros Hk Hone. eapply then_pure; [apply find_payment|].
  intros o ->. simpl. destruct (head _) as [p|] eqn:E.
  - apply (head_payment (MkLedger bs ps) _ _ Hk) in E as [Hp Hpend]. simpl in *.
    rewrite (fail_pending_one b ps p) by done.
    exact (save_payment (MkLedger bs ps) D (fail_payment b p) _).
  - rewrite head_filter_none in E. rewrite fail_pending_none; [by apply triple_ret|].
    intros k p Hp. apply E, in_rows_of. eauto.
Qed.

(** ** The operations *)

(** [implements D m spec]: started on the durable ledger [D], [m] returns a value
    with events durable that [spec] relates to it and to the new ledger, or raises
    with [D] unchanged. *)
Definition implements {A} (D : Ledger) (m : PyM A)
    (spec : A -> list BookingEvent -> Ledger -> Prop) : Prop :=
  triple (at_ledger D D) m
    (fun a w => exists es L, spec a es L /\ booking_steps es D L /\ at_ledger L L w)
    (aborted D).

Lemma then_quiet {A B} L (m : PyM A) (k : A -> PyM B) Q X :
  quiet (at_ledger L L) m -> (forall a, triple (at_ledger L L) (k a) Q X) ->
  triple (at_ledger L L) (bind m k) Q X.
Proof.
  intros Hm Hk. eapply triple_bind; [|exact Hk].
  eapply triple_conseq; [exact Hm | done | done | done].
Qed.

(** The row that [db.refresh] finds after the commit. *)
Lemma then_refresh_booking {A} L b b' (k : Booking -> PyM A) Q X :
  lg_bookings L !! bk_id b = Some b' -> triple (at_ledger L L) (k b') Q X ->
  triple (at_ledger L L) (bind (refresh b) k) Q X.
Proof.
  intros Hb Hk. eapply triple_bind with (R := fun x w => at_ledger L L w /\ x = b').
  - apply triple_asks. intros w [HL HD]. split; [done|]. subst L. simpl in *. by rewrite Hb.
  - intros x w [Hw ->]. by apply Hk.
Qed.

Lemma refresh_payment L p p' (Q : BookingPayment -> World -> Prop) X :
  lg_payments L !! pay_id p = Some p' -> (forall w, at_ledger L L w -> Q p' w) ->
  triple (at_ledger L L) (refresh p) Q X.
Proof.
  intros Hp HQ. apply triple_asks. intros w Hw. destruct (Hw) as [HL HD]. subst L. simpl in *.
  rewrite Hp. by apply HQ.
Qed.

(** An operation that returns after one event. *)
Lemma return_one {A} D L (a : A) (spec : A -> list BookingEvent -> Ledger -> Prop) ev
    (X : Exn -> World -> Prop) :
  booking_step ev D L -> spec a [ev] L ->
  triple (at_ledger L L) (ret a)
    (fun a w => exists es L', spec a es L' /\ booking_steps es D L' /\ at_ledger L' L' w) X.
Proof.
  intros Hs He. apply triple_ret. intros w Hw. exists [ev], L. auto using booking_steps_one.
Qed.

Section Operations.
Context `{Config}.

Lemma keeps_context L D b t s :
  keeps (at_ledger L D)
    (business <- require_business b t ;; service <- require_service_in_business s b t ;;
     ret (business, service)).
Proof. keeps_steps. Qed.

Lemma keeps_offer_freed_slot L D b t context :
  keeps (at_ledger L D) context -> keeps (at_ledger L D) (offer_freed_slot b t context).
Proof. intros Hc. unfold offer_freed_slot. keeps_steps. Qed.

Hint Resolve keeps_context keeps_offer_freed_slot : ledger.

(** [try: ...; db.commit() except IntegrityError: db.rollback() ...] *)
Lemma translated {A} P D (m : PyM A) Q :
  triple P m Q (aborted D) -> triple P (catch m translate_integrity_error) Q (aborted D).
Proof.
  intros Hm. eapply triple_catch; [exact Hm | | done].
  intros e m' He. destruct e; simplify_eq/=.
  apply triple_bind with (R := fun _ => at_ledger D D).
  - apply triple_modify. intros w HD. unfold aborted in HD. by split.
  - intros u. destruct (String.eqb _ _); apply raise_aborted.
Qed.

(** What a creation asks for, whatever the id and the creation time. *)
Definition requested_booking (tenant_id business_id customer_id service_id : Z)
    (staff_id : option Z) (starts_at : Z) (status : BookingStatus) (source : string)
    (b : Booking) : Prop :=
  exists ends_at id now, b = new_booking tenant_id business_id customer_id service_id staff_id
    starts_at ends_at status source id now.

Lemma write_booking_implements D tenant_id business_id customer_id service_id staff_id starts_at
    ends_at source actor_id override reason business customer svc :
  ledger_wf D ->
  implements D
    (write_booking tenant_id business_id customer_id service_id staff_id starts_at ends_at source
       actor_id override reason business customer svc)
    (fun b es L => es = [Booked b] /\ exists id now, b = new_booking tenant_id business_id
       customer_id service_id staff_id starts_at ends_at CONFIRMED source id now).
Proof.
  intros Hwf. unfold implements, write_booking.
  eapply triple_bind; [apply insert_booking; [done | apply Hwf]|].
  intros b w [Hw (Hnew & Hfree & id & now & ->)]. revert w Hw.
  set (b := new_booking _ _ _ _ _ _ _ _ _ _ _) in *. set (L := MkLedger _ _).
  assert (Hst : booking_step (Booked b) D L) by (by destruct D; apply step_booked).
  apply then_keeps; [keeps_steps|]. intros log. apply then_keeps; [keeps_steps|]. intros intents.
  apply triple_bind with (R := fun _ => at_ledger L L).
  { apply translated. apply then_keeps; [keeps_steps|]. intros event.
    eapply triple_bind; [apply commit_ledger|]. intros u. by apply triple_ret. }
  intros event. apply (then_refresh_booking L b b); [apply lookup_insert_eq|].
  apply then_quiet; [eauto with ledger|]. intros u.
  eapply return_one; [exact Hst|]. split; [done | by exists id, now].
Qed.

Lemma create_booking_implements D tenant_id business_id customer_id service_id staff_id starts_at
    source actor_id override reason :
  ledger_wf D ->
  implements D
    (create_booking tenant_id business_id customer_id service_id staff_id starts_at source
       actor_id override reason)
    (fun b es L => es = [Booked b] /\ requested_booking tenant_id business_id customer_id
       service_id staff_id starts_at CONFIRMED source b).
Proof.
  intros Hwf. unfold implements, create_booking.
  destruct (override && blank reason); [apply raise_aborted|].
  do 3 (apply then_keeps; [keeps_steps|]; intros ?).
  do 2 (apply then_keeps; [keeps_steps|]; intros ?).
  eapply triple_conseq; [by apply write_booking_implements | done | | done].
  intros b w (es & L & (-> & id & now & Hb) & Hs & Hw).
  exists [Booked b], L. split; [|done]. split; [done|]. by eexists _, id, now.
Qed.

Lemma write_hold_implements D tenant_id business_id customer_id service_id staff_id starts_at
    ends_at provider session source amount currency :
  ledger_wf D ->
  implements D
    (write_hold tenant_id business_id customer_id service_id staff_id starts_at ends_at
       provider session source amount currency)
    (fun b es L => exists id now p, es = [Held b p] /\ b = new_booking tenant_id business_id
       customer_id service_id staff_id starts_at ends_at PENDING_PAYMENT source id now
       /\ pay_amount_minor_units p = amount /\ pay_currency p = currency).
Proof.
  intros Hwf. unfold implements, write_hold.
  apply triple_bind with (R := fun b w => exists id now p L,
    b = new_booking tenant_id business_id customer_id service_id staff_id
      starts_at ends_at PENDING_PAYMENT source id now /\
    lg_bookings L !! bk_id b = Some b /\ booking_step (Held b p) D L
    /\ pay_amount_minor_units p = amount /\ pay_currency p = currency /\ at_ledger L L w).
  - apply translated. eapply triple_bind; [apply insert_booking; [done | apply Hwf]|].
    intros b w [Hw (Hnew & Hfree & id & now & ->)]. revert w Hw.
    set (b := new_booking _ _ _ _ _ _ _ _ _ _ _) in *.
    eapply triple_bind; [by apply insert_payment|]. simpl.
    intros p w [Hw (Hpnew & Hpuniq & pid & pnow & ->)]. revert w Hw.
    set (p := MkBookingPayment _ _ _ _ _ _ _ _ _ _ _ _ _ _) in *. set (L := MkLedger _ _).
    assert (Hst : booking_step (Held b p) D L).
    { destruct D. apply step_held; try done. intros k q Hq. apply Hpuniq with k; [done|].
      intros E. pose proof (wf_payments_keyed _ Hwf _ _ Hq) as Hkq. simpl in *. congruence. }
    apply then_keeps; [keeps_steps|]. intros log.
    eapply triple_bind; [apply commit_ledger|]. intros u. apply triple_ret.
    intros w Hw. exists id, now, p, L. split; [done|]. split; [apply lookup_insert_eq | auto].
  - intros b w (id & now & p & L & Hb & Hl & Hst & Ha & Hc & Hw). destruct (Hw) as [HL HD].
    unfold refresh, asks. rewrite <- HL in Hl. simpl in *. rewrite Hl. simpl.
    eexists _, L. split; [by exists id, now, p|]. auto using booking_steps_one.
Qed.

Lemma hold_implements D tenant_id business_id customer_id service_id staff_id starts_at
    provider session source :
  ledger_wf D ->
  implements D
    (create_pending_payment_hold tenant_id business_id customer_id service_id staff_id starts_at
       provider session source)
    (fun b es L => exists p, es = [Held b p] /\ requested_booking tenant_id business_id customer_id
       service_id staff_id starts_at PENDING_PAYMENT source b).
Proof.
  intros Hwf. unfold implements, create_pending_payment_hold.
  do 2 (apply then_keeps; [keeps_steps|]; intros ?). apply then_keeps; [keeps_steps|]. intros svc.
  destruct (svc_deposit_required svc), (svc_deposit_minor_units svc), (svc_currency svc);
    try apply raise_aborted.
  do 2 (apply then_keeps; [keeps_steps|]; intros ?).
  eapply triple_conseq; [by apply write_hold_implements | done | | done].
  intros b w (es & L & (id & now & p & -> & Hb & _) & Hs & Hw).
  exists [Held b p], L. split; [|done]. exists p. split; [done|]. by eexists _, id, now.
Qed.

Lemma settle_implements D b p tenant_id reference source :
  ledger_wf D -> lg_bookings D !! bk_id b = Some b -> bk_status b = PENDING_PAYMENT ->
  lg_payments D !! pay_id p = Some p -> pay_booking_id p = bk_id b ->
  pay_status p = PAYMENT_PENDING ->
  implements D (settle_payment b p tenant_id reference source)
    (fun b' es L => b' = paid b /\ exists now, es = [Paid b p reference now]).
Proof.
  intros Hwf Hb Hbs Hp Hpb Hps. unfold implements, settle_payment.
  apply then_keeps; [keeps_steps|]. intros now.
  eapply triple_bind; [apply save_payment|]. intros u.
  eapply triple_bind; [apply save_booking|]. intros u'. simpl. set (L := MkLedger _ _).
  assert (Hst : booking_step (Paid b p reference now) D L) by (by destruct D; apply step_paid).
  do 6 (apply then_keeps; [keeps_steps|]; intros ?).
  eapply triple_bind; [apply commit_ledger|]. intros u''.
  apply (then_refresh_booking L (paid b) (paid b)); [apply lookup_insert_eq|].
  apply then_quiet; [eauto with ledger|]. intros v.
  eapply return_one; [exact Hst|]. split; [done | by exists now].
Qed.

(** Confirming pays a pending hold, or does nothing at all for one already paid. *)
Definition confirm_spec (D : Ledger) (booking_id business_id tenant_id : Z)
    (reference : option string) (b : Booking) (es : list BookingEvent) (L : Ledger) : Prop :=
  bk_tenant_id b = tenant_id /\ bk_business_id b = business_id /\
  ((es = [] /\ lg_bookings D !! booking_id = Some b /\ bk_status b = CONFIRMED
   /\ exists p, lg_payments D !! pay_id p = Some p /\ pay_booking_id p = booking_id
        /\ pay_status p = PAYMENT_SUCCEEDED)
  \/ exists b0 p now, es = [Paid b0 p reference now] /\ bk_id b0 = booking_id /\ b = paid b0).

Lemma confirm_implements D booking_id business_id tenant_id reference source :
  ledger_wf D ->
  implements D (confirm_booking_payment booking_id business_id tenant_id reference source)
    (confirm_spec D booking_id business_id tenant_id reference).
Proof.
  intros Hwf. unfold implements, confirm_booking_payment.
  eapply then_pure; [apply require_booking_for_update|]. intros b (Hb & Ht & Hz).
  pose proof (wf_bookings_keyed _ Hwf _ _ Hb) as Hid. simpl in Hid. subst booking_id.
  destruct (bk_status b) eqn:Es; [| apply raise_aborted |];
    (eapply then_pure; [apply find_payment|]; intros [p|] Hp; simpl; [|apply raise_aborted];
     symmetry in Hp; apply head_payment in Hp as [Hp Hpb]; [|apply Hwf]).
  - destruct (bool_decide _) eqn:Ep; [|apply raise_aborted]. bool_props.
    apply triple_ret. intros w Hw. exists [], D. split; [do 2 (split; [done|]); left; eauto 10|].
    split; [constructor | done].
  - apply then_ret. destruct (bool_decide (pay_status p = PAYMENT_PENDING)) eqn:Ep; simpl;
      [|apply raise_aborted].
    bool_props. eapply triple_conseq; [by apply settle_implements | done | | done].
    intros b' w (es & L & (-> & now & ->) & Hs & Hw).
    exists [Paid b p reference now], L. split; [|done].
    do 2 (split; [done|]). right. eauto 10.
Qed.

(** The part of a cancellation or expiry that writes the ledger. *)
Lemma kill_booking {A} D b reason (k : PyM A) Q :
  ledger_wf D -> lg_bookings D !! bk_id b = Some b ->
  let b' := cancelled reason b in
  triple (at_ledger (MkLedger (<[bk_id b := b']> (lg_bookings D)) (fail_pending b' (lg_payments D))) D)
    k Q (aborted D) ->
  triple (at_ledger D D) (save b' ;;; fail_linked_pending_payment b' ;;; k) Q (aborted D).
Proof.
  intros Hwf Hb b' Hk. eapply triple_bind; [apply save_booking|]. intros u.
  eapply triple_bind; [apply fail_linked_payment; apply Hwf|]. intros u'. exact Hk.
Qed.

Lemma expire_implements D booking_id business_id tenant_id :
  ledger_wf D ->
  implements D (expire_pending_payment_hold booking_id business_id tenant_id)
    (fun b' es L => exists b, lg_bookings D !! booking_id = Some b /\ es = [HoldExpired b]
       /\ b' = cancelled (Some "payment_hold_expired"%string) b).
Proof.
  intros Hwf. unfold implements, expire_pending_payment_hold.
  eapply then_pure; [apply require_booking_for_update|]. intros b (Hb & Ht & Hz).
  pose proof (wf_bookings_keyed _ Hwf _ _ Hb) as Hid. simpl in Hid. subst booking_id.
  destruct (bool_decide (bk_status b = PENDING_PAYMENT)) eqn:Es; simpl; [|apply raise_aborted].
  bool_props. set (reason := Some "payment_hold_expired"%string).
  apply (kill_booking D b reason); [done | done |]. set (L := MkLedger _ _).
  assert (Hst : booking_step (HoldExpired b) D L) by (by destruct D; apply step_expired).
  do 2 (apply then_keeps; [keeps_steps|]; intros ?).
  eapply triple_bind; [apply commit_ledger|]. intros u.
  apply (then_refresh_booking L _ (cancelled reason b)); [apply lookup_insert_eq|].
  apply then_quiet; [eauto with ledger|]. intros v.
  eapply return_one; [exact Hst|]. by exists b.
Qed.

Lemma cancel_implements D booking_id business_id tenant_id reason actor_id override :
  ledger_wf D ->
  implements D (cancel_booking booking_id business_id tenant_id reason actor_id override)
    (fun b' es L => exists b, lg_bookings D !! booking_id = Some b /\ es = [Cancelled b reason]
       /\ b' = cancelled reason b).
Proof.
  intros Hwf. unfold implements, cancel_booking.
  destruct (override && blank reason); [apply raise_aborted|].
  eapply then_pure; [apply require_booking_for_update|]. intros b (Hb & Ht & Hz).
  pose proof (wf_bookings_keyed _ Hwf _ _ Hb) as Hid. simpl in Hid. subst booking_id.
  destruct (bool_decide (bk_status b = CANCELLED)) eqn:Es; [apply raise_aborted|]. bool_props.
  apply (kill_booking D b reason); [done | done |]. set (L := MkLedger _ _).
  assert (Hst : booking_step (Cancelled b reason) D L) by (by destruct D; apply step_cancelled).
  do 7 (apply then_keeps; [keeps_steps|]; intros ?).
  eapply triple_bind; [apply commit_ledger|]. intros u.
  apply (then_refresh_booking L _ (cancelled reason b)); [apply lookup_insert_eq|].
  do 3 (apply then_quiet; [eauto with ledger|]; intros ?).
  eapply return_one; [exact Hst|]. by exists b.
Qed.

Lemma refund_implements D booking_id business_id tenant_id actor_id reason :
  ledger_wf D ->
  implements D (refund_booking_payment booking_id business_id tenant_id actor_id reason)
    (fun p' es L => exists p now, es = [Refunded p now] /\ p' = refunded now p
       /\ pay_booking_id p = booking_id).
Proof.
  intros Hwf. unfold implements, refund_booking_payment.
  eapply then_pure; [apply require_booking_read|]. intros b (Hb & Ht & Hz).
  pose proof (wf_bookings_keyed _ Hwf _ _ Hb) as Hid. simpl in Hid. subst booking_id.
  eapply then_pure; [apply find_payment|]. intros [p|] Hp; simpl; [|apply raise_aborted].
  symmetry in Hp. apply head_payment in Hp as [Hp Hpb]; [|apply Hwf].
  apply then_ret.
  destruct (bool_decide (pay_status p = PAYMENT_SUCCEEDED)) eqn:Ep; simpl; [|apply raise_aborted].
  bool_props. apply then_keeps; [keeps_steps|]. intros now.
  eapply triple_bind; [apply save_payment|]. intros u. simpl. set (L := MkLedger _ _).
  assert (Hst : booking_step (Refunded p now) D L) by (by destruct D; apply step_refunded).
  apply then_keeps; [keeps_steps|]. intros log.
  eapply triple_bind; [apply commit_ledger|]. intros u'.
  apply (refresh_payment L _ (refunded now p)); [apply lookup_insert_eq|].
  intros w Hw. exists [Refunded p now], L. split; [by exists p, now|].
  auto using booking_steps_one.
Qed.
End Operations.
