(* ===== verification/Accounts.v ===== *)
(** * Accounts: the entry points of the account side, and what they leave alone

    [AccountRequest] lists the requests to the authentication, tenant, user, file and webhook
    routes; those of a signed-in user carry the bearer token and the tenant header, as the
    dependency [get_current_user] reads them.  None of them touches bookings or payments. *)

From S2P Require Import Prelude Py Effects Schema Settings Orm AuditTrail Directory JobQueue.
From S2P Require Import Frames Providers Tenancy Users RateLimit Auth UserListing PasswordReset.
From S2P Require Import AuthRoutes Uploads.
From S2P Require Import PublicLink Webhooks Notifications Calendar Waitlist Booking BookingMachine.
From S2P Require Import SessionFrames.

(** What a signed-in user can ask for. *)
Inductive UserRequest : Type :=
  | ListUsers (page_number : Z) (cursor : option (option json_object)) (q : UserQuery)
  | GetUser (user_id : Z)
  | PatchUser (user_id : Z) (u : UserAdminUpdate)
  | DeactivateUser (user_id : Z)
  | ActivateUser (user_id : Z)
  | RemoveUser (user_id : Z)
  | UploadFile (filename content_type : option string) (content : string)
  | CreatePresignedUpload (filename content_type : string)
  | CompletePresignedUpload (object_key filename content_type : string) (size_bytes : Z)
  | GetDownloadUrl (file_id : Z)
  | DeleteFile (file_id : Z)
  | ProvisionTenant (slug name : string)
  | ListTenants (page_number size : Z) (include_inactive : bool)
  | GetTenant (tenant_id : Z)
  | PatchTenant (tenant_id : Z) (name : option string) (is_active : option bool).

Inductive AccountRequest : Type :=
  | Signup (request : Peer) (salon_name : string) (slug : option string) (email password : string)
  | Register (request : Peer) (email password : string) (tenant_header : option string)
  | Login (request : Peer) (email password : string) (tenant_header : option string)
  | Me (token : string) (tenant_header : option string)
  | DemoLogin (request : Peer)
  | Refresh (request : Peer) (token : string)
  | Logout (request : Peer) (token : string)
  | RequestReset (request : Peer) (email : string) (tenant_header : option string)
  | ConfirmReset (token new_password : string)
  | InboundWebhook (raw_body : string) (request : Peer)
      (idempotency_header signature timestamp : option string)
  | AsUser (token : string) (tenant_header : option string) (r : UserRequest).

Section Accounts.
Context `{Config} `{Providers}.

(** The routes of app/api/routes/tenants.py for platform administrators. *)
Definition provision_tenant_record (current_user : User) (slug name : string) : PyM Tenant :=
  require_non_demo_user current_user ;;;
  require_permission [TENANTS_PROVISION] current_user ;;;
  provision_tenant slug name (usr_id current_user) (usr_tenant_id current_user).

Definition list_tenant_records (current_user : User) (page_number size : Z)
    (include_inactive : bool) : PyM (list Tenant) :=
  require_permission [TENANTS_LIST] current_user ;;;
  list_tenants ((page_number - 1) * size) size include_inactive.

Definition tenant_not_found {A} : PyM A := raise (HTTPException 404 "Tenant not found").

Definition get_tenant (current_user : User) (tenant_id : Z) : PyM Tenant :=
  require_permission [TENANTS_LIST] current_user ;;;
  tenant <- get_tenant_by_id tenant_id ;;
  match tenant with
  | Some t => ret t
  | None => tenant_not_found
  end.

Definition patch_tenant (current_user : User) (tenant_id : Z) (name : option string)
    (is_active : option bool) : PyM Tenant :=
  require_non_demo_user current_user ;;;
  require_permission [TENANTS_MANAGE] current_user ;;;
  if is_none is_active && is_none name
  then raise (HTTPException 400 "At least one field must be provided")
  else
    tenant <- get_tenant_by_id tenant_id ;;
    match tenant with
    | None => tenant_not_found
    | Some _ =>
        tenant <- match name with
                  | Some n => update_tenant tenant_id (Some n) None
                  | None => ret tenant
                  end ;;
        tenant <- match is_active with
                  | Some a => set_tenant_active_state tenant_id a (usr_id current_user)
                                (usr_tenant_id current_user)
                  | None => ret tenant
                  end ;;
        match tenant with
        | Some t => ret t
        | None => tenant_not_found
        end
    end.

Definition execute_user (current_user : User) (r : UserRequest) : PyM unit :=
  match r with
  | ListUsers n c q => list_users current_user n c q ;;; ret tt
  | GetUser k => get_user current_user k ;;; ret tt
  | PatchUser k u => patch_user current_user k u ;;; ret tt
  | DeactivateUser k => deactivate_user_endpoint current_user k ;;; ret tt
  | ActivateUser k => activate_user_endpoint current_user k ;;; ret tt
  | RemoveUser k => remove_user current_user k
  | UploadFile n t c => upload_file current_user n t c ;;; ret tt
  | CreatePresignedUpload n t => create_presigned_upload current_user n t ;;; ret tt
  | CompletePresignedUpload o n t s => complete_presigned_upload current_user o n t s ;;; ret tt
  | GetDownloadUrl k => get_download_url current_user k ;;; ret tt
  | DeleteFile k => delete_file current_user k
  | ProvisionTenant s n => provision_tenant_record current_user s n ;;; ret tt
  | ListTenants p s i => list_tenant_records current_user p s i ;;; ret tt
  | GetTenant k => get_tenant current_user k ;;; ret tt
  | PatchTenant k n a => patch_tenant current_user k n a ;;; ret tt
  end.

Definition execute_account (r : AccountRequest) : PyM unit :=
  match r with
  | Signup q n s e p => signup q n s e p ;;; ret tt
  | Register q e p h => register q e p h ;;; ret tt
  | Login q e p h => login q e p h ;;; ret tt
  | Me t h => me t h ;;; ret tt
  | DemoLogin q => demo_login q ;;; ret tt
  | Refresh q t => refresh_token q t ;;; ret tt
  | Logout q t => logout q t
  | RequestReset q e h => request_reset_password q e h ;;; ret tt
  | ConfirmReset t p => confirm_reset_password t p ;;; ret tt
  | InboundWebhook b c i s t => inbound_webhook b c i s t ;;; ret tt
  | AsUser t h r => current_user <- get_current_user t h ;; execute_user current_user r
  end.

(** ** The ledger and the catalogue are not touched *)

Context (P : World -> Prop) `{!SessionFramed P}.

Lemma keeps_audit_row t a act u b src c :
  keeps P (create_audit_log t a act u b src c).
Proof. unfold create_audit_log. keeps_steps. Qed.
Hint Resolve keeps_audit_row : ledger.

Lemma keeps_current_user t h : keeps P (get_current_user t h).
Proof.
  unfold get_current_user, decode_token, credentials_exception, assert_active_tenant_membership,
    get_tenant_by_id, get_active_tenant_by_slug, get_tenant_by_slug,
    assert_request_tenant_matches_user. keeps_steps.
Qed.

Lemma keeps_slug_loop b l : keeps P (unique_slug_loop b l).
Proof. induction l as [|n l IH]; simpl; unfold get_tenant_by_slug; keeps_steps. Qed.
Hint Resolve keeps_current_user keeps_slug_loop : ledger.

Lemma keeps_create_user e p t r : keeps P (create_user e p t r).
Proof.
  unfold create_user, get_user_by_email, hash_password, invalidate_users_list_cache,
    increment_cache_version. keeps_steps.
Qed.
Hint Resolve keeps_create_user : ledger.

Lemma keeps_issue u d : keeps P (issue_tokens u d).
Proof. unfold issue_tokens, create_access_token, create_refresh_token. keeps_steps. Qed.
Lemma keeps_decode_refresh t : keeps P (decode_refresh_token t).
Proof. unfold decode_refresh_token, decode_token, is_refresh_token_revoked. keeps_steps. Qed.
Lemma keeps_revoke j e n : keeps P (revoke_refresh_token j e n).
Proof. unfold revoke_refresh_token. keeps_steps. Qed.
Lemma keeps_create_tenant s n : keeps P (create_tenant s n).
Proof. unfold create_tenant, get_tenant_by_slug. keeps_steps. Qed.
Hint Resolve keeps_issue keeps_decode_refresh keeps_revoke keeps_create_tenant : ledger.

Lemma keeps_rate_limit k l s : keeps P (enforce_rate_limit_counter k l s).
Proof. unfold enforce_rate_limit_counter. keeps_steps. Qed.
Lemma keeps_store k c b : keeps P (store_response k c b).
Proof. unfold store_response, get_cached_response. keeps_steps. Qed.
Lemma keeps_verify_signature b s t k n :
  keeps P (verify_inbound_webhook_signature b s t k n).
Proof.
  unfold verify_inbound_webhook_signature, verify_timestamped_hmac_signature, compare_digest.
  keeps_steps.
Qed.
Hint Resolve keeps_rate_limit keeps_store keeps_verify_signature : ledger.

Lemma keeps_webhook b c i s t : keeps P (inbound_webhook b c i s t).
Proof.
  unfold inbound_webhook, get_idempotency_key, webhook_ingress_rate_limit,
    enforce_webhook_body_size, build_scope_key, begin_idempotent_request, get_cached_response,
    try_acquire_idempotency_lock, process_webhook, enforce_webhook_provider_rate_limit,
    persist_webhook_event, release_idempotency_lock. keeps_steps.
Qed.
Hint Resolve keeps_webhook : ledger.

Lemma keeps_invalidate t : keeps P (invalidate_users_list_cache t).
Proof. unfold invalidate_users_list_cache, increment_cache_version. keeps_steps. Qed.
Hint Resolve keeps_invalidate : ledger.

Lemma keeps_mutation t a act u : keeps P (commit_user_mutation_with_audit t a act u).
Proof. unfold commit_user_mutation_with_audit. keeps_steps. Qed.
Lemma keeps_update_user u d c : keeps P (update_user u d c).
Proof. unfold update_user. keeps_steps. Qed.
Lemma keeps_activity f u t c : keeps P (set_user_activity f u t c).
Proof. unfold set_user_activity, get_user_by_id. keeps_steps. Qed.
Hint Resolve keeps_mutation keeps_update_user keeps_activity : ledger.

Lemma keeps_listing t q c s : keeps P (get_users t q c s).
Proof.
  unfold get_users, build_users_list_cache_key, get_cache_version, get_json_cache, query_users,
    set_json_cache. keeps_steps.
Qed.
Hint Resolve keeps_listing : ledger.

Lemma keeps_file_checks :
  (forall n, keeps P (validate_upload_filename n))
  /\ (forall c, keeps P (validate_declared_content_type c))
  /\ (forall t b, keeps P (validate_content_sniff t b))
  /\ (forall b n, keeps P (run_malware_scan b n))
  /\ (forall r, keeps P (ensure_malware_scan_is_clean r))
  /\ (forall t o n, keeps P (build_object_key t o n))
  /\ (forall o k n t s st, keeps P (new_file o k n t s st)).
Proof.
  unfold validate_upload_filename, validate_declared_content_type, validate_content_type_format,
    validate_content_sniff, run_malware_scan, ensure_malware_scan_is_clean, build_object_key,
    uuid_hex, new_file. do 6 (split; [keeps_steps|]). keeps_steps.
Qed.

Lemma keeps_execute_user u r : keeps P (execute_user u r).
Proof.
  destruct keeps_file_checks as (H1 & H2 & H3 & H4 & H5 & H6 & H7).
  destruct r; unfold execute_user, list_users, get_user, patch_user, deactivate_user_endpoint,
    activate_user_endpoint, set_activity_endpoint, deactivate_user, activate_user, remove_user,
    delete_user, upload_file, storage_upload, spool_upload_stream_limited, validate_file_size,
    create_presigned_upload, storage_create_presigned_upload, verify_bucket_access,
    generate_presigned_url, complete_presigned_upload, storage_complete_presigned_upload,
    ensure_object_key_belongs_to_owner, verify_stored_object_metadata, get_object_metadata,
    assert_stored_metadata_matches, enqueue_verify_presigned_upload_job, get_download_url,
    require_uploaded_file, get_uploaded_file, storage_get_presigned_download_url,
    ensure_upload_is_downloadable, delete_file, storage_delete_uploaded_file,
    provision_tenant_record, provision_tenant, list_tenant_records, list_tenants, get_tenant,
    patch_tenant, tenant_not_found, set_tenant_active_state, update_tenant, get_tenant_by_id, get_user_by_id, require_permission, require_non_demo_user,
    forbidden, not_found; keeps_steps.
Qed.
Hint Resolve keeps_execute_user : ledger.

Lemma keeps_execute_account r : keeps P (execute_account r).
Proof.
  destruct r; unfold execute_account, signup, registration_disabled, me, refresh_token, logout,
    request_reset_password, confirm_reset_password, tenant_signup_rate_limit,
    auth_register_rate_limit, auth_login_rate_limit, auth_demo_rate_limit, auth_refresh_rate_limit,
    auth_logout_rate_limit, password_reset_rate_limit, rate_limit, signup_tenant, unique_slug, get_tenant_by_slug,
    create_business, register, login, get_request_tenant, get_active_tenant_by_slug, login_user,
    authenticate_user, get_user_by_email, demo_login, create_demo_session, get_business,
    rotate_refresh_token, get_active_user_from_refresh_payload, assert_active_tenant_membership,
    get_tenant_by_id, logout_user, request_password_reset, enqueue_password_reset_email_job,
    confirm_password_reset, raise_invalid_reset_token, hash_password,
    increment_user_token_version; keeps_steps.
Qed.

(** The tasks of the worker on the account side. *)
Lemma keeps_account_tasks :
  (forall u j, keeps P (create_password_reset_token_and_send_email u j))
  /\ (forall k, keeps P (verify_presigned_upload_in_worker k))
  /\ keeps P cleanup_expired_password_reset_tokens
  /\ keeps P cleanup_expired_idempotency_records
  /\ keeps P cleanup_old_webhook_events.
Proof.
  destruct keeps_file_checks as (H1 & H2 & H3 & H4 & H5 & H6 & H7).
  unfold create_password_reset_token_and_send_email, is_password_reset_job_done,
    is_password_reset_job_completed, is_password_reset_job_completed_in_db,
    mark_password_reset_job_completed, generate_password_reset_token, send_password_reset_email,
    send_email, verify_presigned_upload_in_worker, verify_stored_object_content,
    get_object_metadata, assert_stored_metadata_matches, download_object_body,
    cleanup_expired_password_reset_tokens, cleanup_expired_idempotency_records,
    cleanup_old_webhook_events.
  do 4 (split; [keeps_steps|]). keeps_steps.
Qed.
End Accounts.
