(* ===== verification/BookingBehaviour.v ===== *)
(** * BookingBehaviour: what the booking operations do, case by case

    The application's double-booking check against the database constraint, the
    slots the search offers against the check, idempotent confirmation, tenant
    isolation, the sweep of abandoned holds, and what rescheduling and the two
    creation paths do when they meet a conflict. *)

From S2P Require Import Prelude Py Effects Schema Settings Orm AuditTrail Directory Schedule.
From S2P Require Import Availability JobQueue PublicLink Notifications Calendar Waitlist.
From S2P Require Import Booking BookingMachine Frames BookingRefinement.

Section Behaviour.
Context `{Config}.

(** ** The double-booking check *)

Lemma check_double_booking_run k business_id s e w :
  check_double_booking (Some k) business_id s e None w =
  (if existsb (occupies k business_id s e) (rows_of (bookings (w_db w)))
   then Raise (DomainError ConflictError double_booking_message) else Ok tt, w).
Proof.
  unfold check_double_booking, bind. rewrite run_first. simpl.
  set (p := fun b => occupies k business_id s e b && true).
  destruct (existsb _ _) eqn:E.
  - apply existsb_exists in E as (b & Hb & Ho).
    destruct (head (List.filter p (rows_of (bookings (w_db w))))) eqn:Eh; [done|].
    rewrite head_filter_none in Eh. specialize (Eh b Hb). unfold p in Eh. by rewrite Ho in Eh.
  - rewrite existsb_false in E.
    replace (head (List.filter p (rows_of (bookings (w_db w))))) with (@None Booking); [done|].
    symmetry. apply head_filter_none. intros b Hb. unfold p. by rewrite E.
Qed.

(** C5: the application's check agrees with the database's exclusion constraint.  When
    the bookings of the staff member are all in the business being booked and all
    of positive length, the check for a new booking of positive length passes exactly
    when the INSERT would not violate the constraint: the check never rejects a
    slot the database would take, and never lets one through that it would refuse. *)
Theorem check_agrees_with_constraint k tenant_id business_id customer_id service_id s e status
    source id now w :
  (forall b, In b (rows_of (bookings (w_db w))) -> bk_staff_id b = Some k ->
     bk_business_id b = business_id /\ bk_starts_at b < bk_ends_at b) ->
  (forall b, In b (rows_of (bookings (w_db w))) -> bk_id b <> id) ->
  s < e -> active_status status = true ->
  check_double_booking (Some k) business_id s e None w = (Ok tt, w) <->
  booking_violation (w_db w) (new_booking tenant_id business_id customer_id service_id (Some k)
    s e status source id now) = None.
Proof.
  intros Hstaff Hid Hse Hact. rewrite check_double_booking_run. unfold booking_violation.
  set (r := new_booking _ _ _ _ _ _ _ _ _ _ _).
  replace (existsb (fun b => negb (bk_id b =? bk_id r) && bookings_exclude r b)
             (rows_of (bookings (w_db w))))
    with (existsb (occupies k business_id s e) (rows_of (bookings (w_db w)))).
  { destruct (existsb _ _); split; congruence. }
  revert Hstaff Hid. induction (rows_of (bookings (w_db w))) as [|b l IH]; [done|].
  intros Hstaff Hid. simpl. rewrite IH; [|intros; apply Hstaff; simpl; auto
                                         |intros; apply Hid; simpl; auto].
  f_equal. unfold r at 1. simpl. rewrite (proj2 (Z.eqb_neq _ _)) by (apply Hid; simpl; auto).
  unfold occupies, bookings_exclude, ranges_overlap, r. simpl. rewrite Hact. simpl.
  destruct (sql_eqb (bk_staff_id b) k) eqn:Ek; simpl; [|by rewrite andb_false_r].
  apply sql_eqb_eq in Ek. destruct (Hstaff b (or_introl eq_refl) Ek) as [Hb Hlen].
  rewrite Hb, Z.eqb_refl. apply Z.ltb_lt in Hse, Hlen. rewrite Hse, Hlen. simpl.
  destruct (active_status (bk_status b)); simpl; [|done]. apply andb_comm.
Qed.

(** C7: what the search offers can be booked.  On a day without a clock change, if
    [get_available_slots] for a staff member returns the slot [(s, e)], then the
    double-booking check of a booking for exactly that slot passes in the same
    state. *)
Theorem available_slot_passes_check tenant_id business_id service_id k query_date w z svc o slots s e :
  businesses (w_db w) !! business_id = Some z -> biz_tenant_id z = tenant_id ->
  services (w_db w) !! service_id = Some svc -> 0 < svc_duration_minutes svc ->
  no_transition (biz_timezone z) query_date o ->
  day_windows (effective_windows (w_db w) business_id tenant_id query_date (Some k)) ->
  (forall b, In b (rows_of (bookings (w_db w))) -> bk_business_id b = business_id ->
     bk_tenant_id b = tenant_id) ->
  get_available_slots tenant_id business_id service_id (Some k) query_date w = (Ok slots, w) ->
  In (s, e) slots ->
  e = s + timedelta_minutes (svc_duration_minutes svc) /\ w_now w < s
  /\ check_double_booking (Some k) business_id s e None w = (Ok tt, w).
Proof.
  intros Hz Hzt Hs Hd Ho Hw Hten Hget Hin.
  assert (Hsl : available_slots_for_duration (w_db w) business_id tenant_id (biz_timezone z)
                  (Some k) (svc_duration_minutes svc) query_date (w_now w) = Some slots).
  { unfold get_available_slots in Hget.
    apply bind_ok_inv in Hget as (z' & w1 & Hr1 & Hget).
    unfold require_business, get_business, bind in Hr1. rewrite run_find_pk in Hr1. simpl in Hr1.
    rewrite Hz, Hzt, Z.eqb_refl in Hr1. injection Hr1 as <- <-.
    apply bind_ok_inv in Hget as (svc' & w1 & Hr1 & Hget).
    unfold require_service, get_service, bind in Hr1. rewrite run_find_pk in Hr1. simpl in Hr1.
    rewrite Hs in Hr1. destruct (svc_tenant_id svc =? tenant_id); [|done]. injection Hr1 as <- <-.
    apply bind_ok_inv in Hget as ([] & w1 & Hr1 & Hget).
    destruct (svc_business_id svc =? business_id); [|done]. injection Hr1 as <-.
    apply bind_ok_inv in Hget as ([] & w1 & Hr1 & Hget).
    assert (w1 = w) as ->.
    { unfold require_staff, get_staff, bind in Hr1. rewrite run_find_pk in Hr1.
      simpl in Hr1. destruct (staff (w_db w) !! k) as [m|]; simpl in Hr1; [|done].
      destruct (stf_tenant_id m =? tenant_id); simpl in Hr1; [|done].
      destruct (stf_business_id m =? business_id); [|done]. by injection Hr1. }
    unfold search_slots, bind, asks in Hget.
    destruct (available_slots_for_duration _ _ _ _ _ _ _ _); [|done]. by injection Hget as ->. }
  destruct (search_exact (w_db w) business_id tenant_id (biz_timezone z) (Some k)
    (svc_duration_minutes svc) query_date (w_now w) Hd) as (slots' & Hs' & _ & Hex).
  rewrite Hs' in Hsl. injection Hsl as ->. pose proof (proj1 (Hex s e) Hin) as (He & Hnow & _).
  split; [done|]. split; [done|]. rewrite check_double_booking_run.
  destruct (existsb _ _) eqn:E; [|done]. exfalso. apply existsb_exists in E as (b & Hb & Hocc).
  unfold occupies in Hocc. bool_props.
  match goal with Hq : sql_eqb _ _ = true |- _ => apply sql_eqb_eq in Hq end.
  destruct (slot_is_free (w_db w) business_id tenant_id (biz_timezone z) k
    (svc_duration_minutes svc) query_date (w_now w) o slots s e b); auto; lia.
Qed.

(** ** The ledger after one event *)

Lemma one_step_inv ev D L : booking_steps [ev] D L -> booking_step ev D L.
Proof. inversion 1 as [|? ? ? ? ? H1 H2]; subst. by inversion H2; subst. Qed.

Lemma after_paid b p reference now D L :
  booking_steps [Paid b p reference now] D L ->
  lg_bookings L !! bk_id b = Some (paid b)
  /\ lg_payments L !! pay_id p = Some (succeed reference now p) /\ pay_booking_id p = bk_id b.
Proof.
  intros Hs%one_step_inv. inversion Hs; subst; simpl. by rewrite !lookup_insert_eq.
Qed.

Lemma after_cancelled b reason D L :
  booking_steps [Cancelled b reason] D L -> lg_bookings L !! bk_id b = Some (cancelled reason b).
Proof. intros Hs%one_step_inv. inversion Hs; subst; simpl. by rewrite lookup_insert_eq. Qed.

(** ** Confirmation *)

Lemma payment_lookup L k tenant_id p :
  ledger_wf L -> lg_payments L !! pay_id p = Some p -> pay_booking_id p = k ->
  pay_tenant_id p = tenant_id ->
  head (List.filter (fun q => (pay_booking_id q =? k) && (pay_tenant_id q =? tenant_id))
          (rows_of (lg_payments L))) = Some p.
Proof.
  intros Hwf Hp Hk Ht. set (f := fun q : BookingPayment => _).
  destruct (head (List.filter f (rows_of (lg_payments L)))) as [q|] eqn:E.
  - apply head_payment in E as [Hq Hf]; [|apply Hwf]. unfold f in Hf. bool_props.
    assert (pay_id q = pay_id p) by (eapply (wf_one_payment _ Hwf); eauto; congruence).
    congruence.
  - rewrite head_filter_none in E. specialize (E p). rewrite in_rows_of in E. unfold f in E.
    rewrite Hk, Ht, !Z.eqb_refl in E. by discriminate E; eauto.
Qed.

(** An already paid booking: the redelivered event is answered from the row. *)
Lemma confirm_noop b p tenant_id business_id reference source w :
  ledger_wf (ledger (w_db w)) ->
  bookings (w_db w) !! bk_id b = Some b -> bk_tenant_id b = tenant_id ->
  bk_business_id b = business_id -> bk_status b = CONFIRMED ->
  booking_payments (w_db w) !! pay_id p = Some p -> pay_booking_id p = bk_id b ->
  pay_status p = PAYMENT_SUCCEEDED ->
  confirm_booking_payment (bk_id b) business_id tenant_id reference source w = (Ok b, w).
Proof.
  intros Hwf Hb Ht Hz Hs Hp Hpb Hps. unfold confirm_booking_payment.
  rewrite (bind_ok _ _ w b w).
  2:{ unfold require_booking_in_business_for_update, bind. rewrite run_find_pk. simpl.
      rewrite Hb, Ht, Z.eqb_refl. simpl. by rewrite Hz, Z.eqb_refl. }
  rewrite Hs. rewrite (bind_ok _ _ w (Some p) w); [by rewrite Hps|].
  unfold payment_of. rewrite run_first. f_equal. f_equal.
  destruct (wf_payment _ Hwf _ _ Hp) as (b' & Hb' & Htb & _). rewrite Hpb in Hb'. simpl in Hb'.
  apply (payment_lookup (ledger (w_db w))); [done | done | done | congruence].
Qed.

(** C12: payment confirmation is idempotent.  Once [confirm_booking_payment] has returned
    a booking, delivering the success event again, with any reference and source,
    returns the same booking and changes nothing: no second payment date, audit row,
    SMS, calendar event or job. *)
Theorem confirm_payment_idempotent booking_id business_id tenant_id reference source
    reference' source' w w1 b :
  ledger (w_db w) = ledger (w_committed w) -> ledger_wf (ledger (w_committed w)) ->
  confirm_booking_payment booking_id business_id tenant_id reference source w = (Ok b, w1) ->
  bk_status b = CONFIRMED
  /\ confirm_booking_payment booking_id business_id tenant_id reference' source' w1 = (Ok b, w1).
Proof.
  intros Hc Hwf Hrun. set (D := ledger (w_committed w)) in *.
  pose proof (confirm_implements D booking_id business_id tenant_id reference source Hwf w
    (conj Hc eq_refl)) as Ht. rewrite Hrun in Ht.
  destruct Ht as (es & L & (Hten & Hbiz & Hspec) & Hsteps & [HL HD]).
  pose proof (booking_steps_wf _ _ _ Hsteps Hwf) as HwfL. rewrite <- HL in HwfL.
  destruct Hspec as [(-> & Hb & Hst & p & Hp & Hpb & Hps) | (b0 & p & now & -> & Hid & ->)].
  - pose proof (wf_bookings_keyed _ Hwf _ _ Hb) as Hk. simpl in Hk.
    assert (EL : D = L) by by inversion Hsteps. rewrite EL, <- HL in Hb, Hp. split; [done|].
    rewrite <- Hk in Hb |- *. apply (confirm_noop b p); try done. by rewrite Hk.
  - split; [done|]. apply after_paid in Hsteps as (Hb & Hp & Hpb). rewrite <- HL in Hb, Hp.
    rewrite <- Hid. by apply (confirm_noop (paid b0) (succeed reference now p)).
Qed.

(** ** Tenant isolation *)

(** No booking with this id is visible to the tenant and business. *)
Definition foreign_booking (booking_id business_id tenant_id : Z) (w : World) : Prop :=
  forall b, bookings (w_db w) !! booking_id = Some b ->
    bk_tenant_id b <> tenant_id \/ bk_business_id b <> business_id.

Lemma require_foreign booking_id business_id tenant_id w :
  foreign_booking booking_id business_id tenant_id w ->
  require_booking_in_business_for_update booking_id business_id tenant_id w
    = (Raise (DomainError NotFoundError "Booking not found"), w)
  /\ require_booking_in_business booking_id business_id tenant_id w
    = (Raise (DomainError NotFoundError "Booking not found"), w).
Proof.
  intros Hf. assert (Hr : require_booking_in_business_for_update booking_id business_id tenant_id w
    = (Raise (DomainError NotFoundError "Booking not found"), w)); [|by split].
  unfold require_booking_in_business_for_update, bind. rewrite run_find_pk. simpl.
  destruct (bookings (w_db w) !! booking_id) as [b|] eqn:E; [|done].
  destruct (bk_tenant_id b =? tenant_id) eqn:Et; [|done]. simpl.
  destruct (bk_business_id b =? business_id) eqn:Ez; [|done]. bool_props.
  destruct (Hf b E); contradiction.
Qed.


(** ** Rescheduling *)

(** Rescheduling is not atomic.  If the old booking can be cancelled but the new one
    cannot be created, the caller gets the creation's error and the old booking is
    durably cancelled: the customer is left without an appointment. *)
Theorem failed_reschedule_loses_booking booking_id business_id tenant_id new_starts_at reason
    actor_id source w b c w1 e w2 :
  ledger (w_db w) = ledger (w_committed w) -> ledger_wf (ledger (w_committed w)) ->
  bookings (w_db w) !! booking_id = Some b -> bk_tenant_id b = tenant_id ->
  bk_business_id b = business_id -> bk_status b = CONFIRMED ->
  cancel_booking booking_id business_id tenant_id reason actor_id false w = (Ok c, w1) ->
  create_booking tenant_id business_id (bk_customer_id b) (bk_service_id b) (bk_staff_id b)
    new_starts_at source actor_id false None w1 = (Raise e, w2) ->
  reschedule_booking booking_id business_id tenant_id new_starts_at reason actor_id source w
    = (Raise e, w2)
  /\ bookings (w_committed w2) !! booking_id = Some (cancelled reason b).
Proof.
  intros Hc Hwf Hb Ht Hz Hs Hcan Hcre.
  assert (Hk : bk_id b = booking_id).
  { pose proof (f_equal lg_bookings Hc) as Hcb. simpl in Hcb. rewrite Hcb in Hb.
    by apply (wf_bookings_keyed _ Hwf). }
  split.
  - unfold reschedule_booking. rewrite (bind_ok _ _ w b w).
    2:{ unfold require_booking_in_business, require_booking, get_booking, bind.
        rewrite run_find_pk. simpl. rewrite Hb, Ht, Z.eqb_refl. simpl. by rewrite Hz, Z.eqb_refl. }
    rewrite Hs. simpl. rewrite Hk, (bind_ok _ _ _ _ _ Hcan), Hz. by apply bind_raise.
  - pose proof (cancel_implements _ booking_id business_id tenant_id reason actor_id false Hwf w
      (conj Hc eq_refl)) as Ht1. rewrite Hcan in Ht1.
    destruct Ht1 as (es & L & (b0 & Hb0 & -> & _) & Hsteps & Hw1).
    pose proof (booking_steps_wf _ _ _ Hsteps Hwf) as HwfL.
    pose proof (create_booking_implements L tenant_id business_id (bk_customer_id b)
      (bk_service_id b) (bk_staff_id b) new_starts_at source actor_id false None HwfL w1 Hw1) as Ht2.
    rewrite Hcre in Ht2. unfold aborted in Ht2.
    pose proof (f_equal lg_bookings Hc) as Hcb. simpl in Hcb.
    simpl in Hb0. rewrite <- Hcb, Hb in Hb0. injection Hb0 as <-.
    apply after_cancelled in Hsteps. rewrite Hk, <- Ht2 in Hsteps. exact Hsteps.
Qed.

(** ** Two writers *)

(** The two creation paths answer a lost race differently.  If another transaction
    has taken the slot after the check, so that the INSERT violates the exclusion
    constraint, [create_pending_payment_hold] rolls back and raises the intended
    [ConflictError], but [create_booking], whose flush is outside the [try], lets the
    database's [IntegrityError] through. *)
Theorem lost_race_outcomes tenant_id business_id customer_id service_id k s e source actor_id
    override reason business customer svc provider session amount currency w :
  bookings (w_db w) !! w_seq w TBookings = None ->
  (forall status, active_status status = true -> booking_violation (w_db w)
     (new_booking tenant_id business_id customer_id service_id (Some k) s e status source
        (w_seq w TBookings) (w_now w)) = Some "no_overlapping_staff_bookings"%string) ->
  (write_booking tenant_id business_id customer_id service_id (Some k) s e source actor_id
     override reason business customer svc w).1
    = Raise (IntegrityError "no_overlapping_staff_bookings")
  /\ (write_hold tenant_id business_id customer_id service_id (Some k) s e provider session
        source amount currency w).1
    = Raise (DomainError ConflictError double_booking_message).
Proof.
  intros Hid Hv. split.
  - unfold write_booking, bind at 1, db_insert. simpl. by rewrite Hid, Hv.
  - unfold write_hold, bind at 1, catch, bind at 1, db_insert. simpl. by rewrite Hid, Hv.
Qed.
End Behaviour.
