(* ===== verification/HoldSweep.v ===== *)
(** * HoldSweep: the maintenance sweep of abandoned payment holds

    [expire_stale_payment_holds] takes a snapshot of the stale holds and expires
    them one by one, each in its own transaction; a [ConflictError] skips a hold.
    [raises_only] tracks which exceptions a step can raise: a hold that is still
    pending can fail on missing rows or constraints, never with a conflict, so the
    sweep skips nothing. *)

From S2P Require Import Prelude Py Effects Schema Settings Orm AuditTrail Directory Schedule JobQueue.
From S2P Require Import PublicLink Notifications Calendar Waitlist Booking BookingMachine.
From S2P Require Import SessionFrames BookingRefinement.

(** ** Exceptions *)

Definition raises_only {A} (P : Exn -> Prop) (m : PyM A) : Prop :=
  forall w e w', m w = (Raise e, w') -> P e.

(** Everything but the exception the sweep skips. *)
Definition no_conflict (e : Exn) : Prop :=
  match e with DomainError ConflictError _ => False | _ => True end.

Section Raises.
Context (P : Exn -> Prop).

Lemma raises_ret {A} (a : A) : raises_only P (ret a).
Proof. by intros w e w'. Qed.
Lemma raises_asks {A} (f : World -> A) : raises_only P (asks f).
Proof. by intros w e w'. Qed.
Lemma raises_modify f : raises_only P (modify f).
Proof. by intros w e w'. Qed.
Lemma raises_bind {A B} (m : PyM A) (k : A -> PyM B) :
  raises_only P m -> (forall a, raises_only P (k a)) -> raises_only P (bind m k).
Proof.
  intros Hm Hk w e w'. unfold bind. destruct (m w) as [[a|e0] w0] eqn:E.
  - apply Hk.
  - intros [= <- <-]. by eapply Hm.
Qed.
Lemma raises_for_each {A} (l : list A) body :
  (forall x, raises_only P (body x)) -> raises_only P (for_each l body).
Proof.
  intros Hb. induction l as [|x l IH]; [apply raises_ret | by apply raises_bind].
Qed.
Lemma raises_when b m : raises_only P m -> raises_only P (when b m).
Proof. intros Hm. destruct b; [done | apply raises_ret]. Qed.
Lemma raises_insert `{Entity A} mk :
  (forall c, P (IntegrityError c)) -> raises_only P (db_insert (A := A) mk).
Proof.
  intros HP w e w'. unfold db_insert. destruct (table (w_db w) !! _); [intros [= <- <-]; apply HP|].
  destruct (violates _ _); [intros [= <- <-]; apply HP | done].
Qed.
Lemma raises_require {A} msg (o : option A) :
  P (DomainError NotFoundError msg) -> raises_only P (require msg o).
Proof. intros HP w e w'. destruct o; simpl; [done|]. by intros [= <- <-]. Qed.
Lemma raises_not_found {A} msg :
  P (DomainError NotFoundError msg) -> raises_only (A := A) P (domain_error NotFoundError msg).
Proof. intros HP w e w'. by intros [= <- <-]. Qed.
End Raises.

Ltac raises_steps :=
  repeat (intros; cbv zeta;
    lazymatch goal with
    | |- raises_only _ (bind _ _) => apply raises_bind
    | |- raises_only _ (for_each _ _) => apply raises_for_each
    | |- raises_only _ (when _ _) => apply raises_when
    | |- raises_only _ (db_insert _) => apply raises_insert
    | |- raises_only _ (require _ _) => apply raises_require
    | |- raises_only _ (domain_error NotFoundError _) => apply raises_not_found
    | |- raises_only _ (match ?x with _ => _ end) => destruct x
    | |- raises_only _ _ => first [apply raises_ret | apply raises_asks | apply raises_modify
                                  | done]
    | |- _ => exact I
    end).

Section Sweep.
Context `{Config}.

(** ** One hold *)

Lemma offer_no_conflict b t context :
  raises_only no_conflict context -> raises_only no_conflict (offer_freed_slot b t context).
Proof.
  intros Hc. unfold offer_freed_slot, find_matching_waitlist_entries, require_customer_in_business,
    require_customer, get_customer, enqueue_waitlist_offer. raises_steps.
Qed.

Lemma expire_no_conflict b w e w' :
  bookings (w_db w) !! bk_id b = Some b -> bk_status b = PENDING_PAYMENT ->
  expire_pending_payment_hold (bk_id b) (bk_business_id b) (bk_tenant_id b) w = (Raise e, w') ->
  no_conflict e.
Proof.
  intros Hb Hs. unfold expire_pending_payment_hold. rewrite (bind_ok _ _ w b w).
  2:{ unfold require_booking_in_business_for_update, bind. rewrite run_find_pk. simpl.
      rewrite Hb, Z.eqb_refl. simpl. by rewrite Z.eqb_refl. }
  rewrite Hs. simpl. revert w e w' Hb.
  match goal with |- forall w e w', _ -> ?m w = _ -> _ =>
    assert (Hr : raises_only no_conflict m); [|by eauto] end.
  apply raises_bind; [raises_steps|]. intros _.
  apply raises_bind; [unfold fail_linked_pending_payment; raises_steps|]. intros _.
  apply raises_bind; [unfold create_audit_log; raises_steps|]. intros _.
  apply raises_bind.
  { apply offer_no_conflict. unfold require_business, get_business, require_service_in_business,
      require_service, get_service. raises_steps. }
  intros ids. unfold enqueue_send_notification_job, enqueue_job. raises_steps.
Qed.
Lemma sweep_one L n b w :
  ledger_wf L -> at_ledger L L w ->
  lg_bookings L !! bk_id b = Some b -> bk_status b = PENDING_PAYMENT ->
  match expire_one_hold n b w with
  | (Ok m, w') => m = n + 1 /\ exists L', booking_steps [HoldExpired b] L L' /\ at_ledger L' L' w'
  | (Raise _, w') => ledger (w_committed w') = L
  end.
Proof.
  intros Hwf Hw Hb Hs. unfold expire_one_hold, catch, bind.
  pose proof (expire_implements L (bk_id b) (bk_business_id b) (bk_tenant_id b) Hwf w Hw) as Hi.
  destruct (expire_pending_payment_hold _ _ _ w) as [[b'|e] w'] eqn:E.
  - destruct Hi as (es & L' & (b0 & Hb0 & -> & _) & Hsteps & Hw'). simpl. split; [done|].
    rewrite Hb in Hb0. injection Hb0 as <-. by exists L'.
  - assert (Hn : no_conflict e).
    { apply (expire_no_conflict b w e w'); [|done|done]. destruct Hw as [HL _]. by rewrite <- HL in Hb. }
    by destruct e; try done; destruct kind.
Qed.

Lemma expired_elsewhere b L L' k :
  booking_steps [HoldExpired b] L L' -> bk_id b <> k -> lg_bookings L' !! k = lg_bookings L !! k.
Proof.
  inversion 1 as [|? ? ? ? ? H1 H2]; subst. inversion H2; subst. inversion H1; subst. simpl.
  intros Hk. by rewrite lookup_insert_ne.
Qed.

Lemma expired_here b L L' :
  booking_steps [HoldExpired b] L L' ->
  exists b', lg_bookings L' !! bk_id b = Some b' /\ bk_status b' = CANCELLED.
Proof.
  inversion 1 as [|? ? ? ? ? H1 H2]; subst. inversion H2; subst. inversion H1; subst. simpl.
  rewrite lookup_insert_eq. eauto.
Qed.

(** ** The loop *)

Definition pending_holds (L : Ledger) (l : list Booking) : Prop :=
  NoDup (map bk_id l) /\
  forall b, In b l -> lg_bookings L !! bk_id b = Some b /\ bk_status b = PENDING_PAYMENT.

Lemma sweep_loop l L n w :
  ledger_wf L -> at_ledger L L w -> pending_holds L l ->
  match fold_m l n expire_one_hold w with
  | (Ok m, w') => m = n + Z.of_nat (length l)
      /\ exists L', booking_steps (map HoldExpired l) L L' /\ at_ledger L' L' w'
  | (Raise _, w') => exists pre suf, l = pre ++ suf
      /\ booking_steps (map HoldExpired pre) L (ledger (w_committed w'))
  end.
Proof.
  revert L n w. induction l as [|b l IH]; intros L n w Hwf Hw [Hnd Hl].
  { simpl. split; [lia|]. exists L. split; [constructor | done]. }
  cbn [fold_m]. unfold bind. destruct (Hl b (or_introl eq_refl)) as [Hb Hs].
  pose proof (sweep_one L n b w Hwf Hw Hb Hs) as H1.
  destruct (expire_one_hold n b w) as [[m|e] w1].
  - destruct H1 as [-> (L1 & Hs1 & Hw1)]. inversion Hnd as [|? ? Hnin Hnd']; subst.
    assert (Hl1 : pending_holds L1 l).
    { split; [done|]. intros b' Hb'. destruct (Hl b' (or_intror Hb')) as [Hb1 Hs'].
      split; [|done]. rewrite (expired_elsewhere _ _ _ _ Hs1); [done|].
      intros E. apply Hnin, list_elem_of_In, in_map_iff. eauto. }
    specialize (IH L1 (n + 1) w1 (booking_steps_wf _ _ _ Hs1 Hwf) Hw1 Hl1).
    destruct (fold_m l (n + 1) expire_one_hold w1) as [[m|e] w2].
    + destruct IH as [-> (L2 & Hs2 & Hw2)]. split; [simpl; lia|]. exists L2. split; [|done].
      exact (booking_steps_app [HoldExpired b] _ _ _ _ Hs1 Hs2).
    + destruct IH as (pre & suf & -> & Hs2). exists (b :: pre), suf. split; [done|].
      exact (booking_steps_app [HoldExpired b] _ _ _ _ Hs1 Hs2).
  - exists [], (b :: l). split; [done|]. rewrite H1. constructor.
Qed.

(** The sweep's effect on every row. *)
Lemma swept_rows l L L' k b :
  ledger_wf L -> pending_holds L l -> booking_steps (map HoldExpired l) L L' ->
  lg_bookings L' !! k = Some b ->
  bk_status b = CANCELLED \/ (lg_bookings L !! k = Some b /\ ~ In k (map bk_id l)).
Proof.
  revert L. induction l as [|h l IH]; intros L Hwf [Hnd Hl] Hs Hb.
  { inversion Hs; subst. right. split; [done | by intros []]. }
  inversion Hs as [|? ? ? L1 ? Hs1 Hs2]; subst. apply booking_steps_one in Hs1.
  inversion Hnd as [|? ? Hnin Hnd']; subst.
  assert (Hl1 : pending_holds L1 l).
  { split; [done|]. intros b' Hb'. destruct (Hl b' (or_intror Hb')) as [Hb1 Hs'].
    split; [|done]. rewrite (expired_elsewhere _ _ _ _ Hs1); [done|].
    intros E. apply Hnin, list_elem_of_In, in_map_iff. eauto. }
  pose proof (booking_steps_wf _ _ _ Hs1 Hwf) as Hwf1.
  destruct (IH L1 Hwf1 Hl1 Hs2 Hb) as [|[Hb1 Hn]]; [by left|].
  destruct (decide (bk_id h = k)) as [<-|Hne].
  - destruct (expired_here _ _ _ Hs1) as (b' & Hb' & Hc). left. congruence.
  - right. rewrite (expired_elsewhere _ _ _ _ Hs1 Hne) in Hb1. split; [done|]. simpl. tauto.
Qed.

Lemma rows_pending L p :
  ledger_wf L -> (forall b, p b = true -> bk_status b = PENDING_PAYMENT) ->
  pending_holds L (List.filter p (rows_of (lg_bookings L))).
Proof.
  intros Hwf Hp. split.
  - assert (Hnd : NoDup (map bk_id (rows_of (lg_bookings L)))).
    { unfold rows_of. rewrite <- list_fmap_compose.
      replace (map _ (map_to_list (lg_bookings L))) with ((map_to_list (lg_bookings L)).*1);
        [apply NoDup_fst_map_to_list|].
      apply list_fmap_ext. intros i [k b] Hi. simpl.
      apply list_elem_of_lookup_2, elem_of_map_to_list in Hi.
      symmetry. apply (wf_bookings_keyed _ Hwf _ _ Hi). }
    revert Hnd. induction (rows_of (lg_bookings L)) as [|b l IH]; [done|]. simpl. intros Hnd.
    inversion Hnd as [|? ? Hnin Hnd']; subst. destruct (p b); [|by apply IH].
    constructor; [|by apply IH]. intros Hin. apply Hnin.
    apply list_elem_of_In, in_map_iff in Hin as (x & Hx & Hin). apply in_filter in Hin as [Hin _].
    apply list_elem_of_In, in_map_iff. eauto.
  - intros b Hb. apply in_filter in Hb as [Hb Hpb]. split; [|by apply Hp].
    by apply (in_rows_of_keyed _ _ (wf_bookings_keyed _ Hwf)).
Qed.

(** The rows the sweep selects. *)
Lemma stale_rows L threshold :
  ledger_wf L ->
  let stale := List.filter (stale_hold threshold) (rows_of (lg_bookings L)) in
  pending_holds L stale
  /\ forall b, In b stale <-> lg_bookings L !! bk_id b = Some b
        /\ bk_status b = PENDING_PAYMENT /\ bk_created_at b < threshold.
Proof.
  intros Hwf stale. split.
  - apply rows_pending; [done|]. intros b Hb. unfold stale_hold in Hb. by bool_props.
  - intros b. unfold stale. rewrite in_filter, (in_rows_of_keyed _ _ (wf_bookings_keyed _ Hwf)).
    unfold stale_hold. rewrite andb_true_iff, bool_decide_eq_true, Z.ltb_lt. done.
Qed.

End Sweep.
