(* ===== verification/WaitlistOffers.v ===== *)
(** * WaitlistOffers: who gets a freed slot *)

From S2P Require Import Prelude Py Effects Schema Settings Orm Directory JobQueue Notifications Waitlist.
From S2P Require Import Booking.

Section Offers.
Context `{Config}.

(** The entries a freed slot would satisfy. *)
Definition matching (booking : Booking) (tenant_id : Z) (w : World) : list WaitlistEntry :=
  List.filter (entry_matches (bk_business_id booking) tenant_id (bk_service_id booking)
                 (utc_date (bk_starts_at booking)) (bk_staff_id booking))
    (rows_of (waitlist_entries (w_db w))).

(** A stored entry of the same business, tenant, service and (UTC) date that is still
    waiting and has no preference for another staff member. *)
Definition eligible (booking : Booking) (tenant_id : Z) (w : World) (e : WaitlistEntry) : Prop :=
  waitlist_entries (w_db w) !! wl_id e = Some e
  /\ wl_business_id e = bk_business_id booking /\ wl_tenant_id e = tenant_id
  /\ wl_service_id e = bk_service_id booking
  /\ wl_desired_date e = utc_date (bk_starts_at booking)
  /\ wl_status e = WL_WAITING
  /\ (wl_staff_id e = None \/ wl_staff_id e = bk_staff_id booking).

(** What an offer makes of an entry. *)
Definition offered (staff_id : option Z) (now : Z) (e : WaitlistEntry) : WaitlistEntry :=
  e <| wl_status := WL_OFFERED |> <| wl_offered_for_staff_id := staff_id |>
    <| wl_updated_at := now |>.

Lemma find_entries_run booking tenant_id w :
  find_matching_waitlist_entries (bk_business_id booking) tenant_id (bk_service_id booking)
    (utc_date (bk_starts_at booking)) (bk_staff_id booking) true w
  = (Ok (take 1 (sort_by wl_created_at (matching booking tenant_id w))), w).
Proof. reflexivity. Qed.

Lemma staff_preference (col staff_id : option Z) :
  match staff_id with
  | Some s => is_none col || sql_eqb col s
  | None => is_none col
  end = true <-> col = None \/ col = staff_id.
Proof.
  destruct staff_id as [s|], col as [c|]; simpl; rewrite ?Z.eqb_eq; intuition congruence.
Qed.

Lemma in_matching booking tenant_id w e :
  keyed (waitlist_entries (w_db w)) ->
  In e (matching booking tenant_id w) <-> eligible booking tenant_id w e.
Proof.
  intros Hk. unfold matching, eligible. rewrite in_filter, (in_rows_of_keyed _ _ Hk).
  unfold entry_matches. rewrite !andb_true_iff, !Z.eqb_eq, bool_decide_eq_true, staff_preference.
  change (pk e) with (wl_id e). tauto.
Qed.

(** C15: a freed slot is offered to exactly one customer, the one waiting longest.  When
    the entries' customers exist, [offer_freed_slot] returns.  Without a matching
    entry it does nothing.  Otherwise it takes a matching entry (same business,
    tenant, service and date, no other staff preference, still waiting) such that none
    was created earlier, marks it as offered for the freed staff member with the
    time of the offer, leaves every other entry as it was, and adds one pending
    SMS to that entry's customer, whose id it returns. *)
Theorem freed_slot_goes_to_longest_waiting booking tenant_id z svc w :
  keyed (waitlist_entries (w_db w)) ->
  notification_outbox (w_db w) !! w_seq w TNotificationOutbox = None ->
  (forall e, eligible booking tenant_id w e -> exists c,
     customers (w_db w) !! wl_customer_id e = Some c
     /\ cus_tenant_id c = tenant_id /\ cus_business_id c = wl_business_id e) ->
  ((forall e, ~ eligible booking tenant_id w e)
   /\ offer_freed_slot booking tenant_id (ret (z, svc)) w = (Ok [], w))
  \/ exists e c r w',
     eligible booking tenant_id w e
     /\ (forall e', eligible booking tenant_id w e' -> wl_created_at e <= wl_created_at e')
     /\ customers (w_db w) !! wl_customer_id e = Some c
     /\ offer_freed_slot booking tenant_id (ret (z, svc)) w = (Ok [ntf_id r], w')
     /\ waitlist_entries (w_db w')
        = <[wl_id e := offered (bk_staff_id booking) (w_now w) e]> (waitlist_entries (w_db w))
     /\ notification_outbox (w_db w') = <[ntf_id r := r]> (notification_outbox (w_db w))
     /\ ntf_purpose r = WAITLIST_OFFER /\ ntf_status r = NTF_PENDING
     /\ ntf_recipient_phone r = cus_phone c.
Proof.
  intros Hk Hseq Hcus. remember (offer_freed_slot booking tenant_id (ret (z, svc)) w) as res eqn:Hres.
  unfold offer_freed_slot, bind at 1 in Hres. rewrite find_entries_run in Hres.
  pose proof (fun e => in_matching booking tenant_id w e Hk) as Hmt.
  destruct (sort_by wl_created_at (matching booking tenant_id w)) as [|e l] eqn:Es.
  { left. split; [|done]. intros e He. apply Hmt in He. apply sort_by_nil in Es. by rewrite Es in He. }
  right.
  assert (Hin : eligible booking tenant_id w e).
  { apply Hmt, (in_sort_by wl_created_at). rewrite Es. by left. }
  destruct (Hcus e Hin) as (c & Hc & Hct & Hcb).
  assert (Hmin : forall e', eligible booking tenant_id w e' -> wl_created_at e <= wl_created_at e').
  { intros e' He'. eapply sort_by_head_min; [|apply Hmt; exact He']. by rewrite Es. }
  destruct Hin as (Hold & Hrest). pose proof Hrest as (_ & _ & _ & _ & Hwait & _).
  simpl in Hres. unfold require_customer_in_business, require_customer, get_customer in Hres.
  unfold bind, save, modify, find_pk, asks in Hres. simpl in Hres.
  rewrite Hc, Hct, Z.eqb_refl in Hres. simpl in Hres. rewrite Hcb, Z.eqb_refl in Hres.
  unfold enqueue_waitlist_offer, db_insert in Hres. simpl in Hres. rewrite Hseq in Hres.
  simpl in Hres.
  exists e, c, (new_intent (wl_tenant_id e) (wl_business_id e) None WAITLIST_OFFER (cus_phone c)
    ("Good news! A " ++ svc_name svc ++ " slot opened up at " ++ biz_name z
       ++ " on " ++ strftime_ymd (wl_desired_date e) ++ ". Call us to book it.")%string
    (w_seq w TNotificationOutbox) (w_now w)).
  eexists. split; [by split|]. do 2 (split; [done|]).
  split; [exact Hres|]. split; [|done]. simpl. f_equal.
  rewrite Hold. case_decide as E; [|done].
  exfalso. injection E as E. apply (f_equal wl_status) in E. by rewrite Hwait in E.
Qed.
End Offers.
