(* ===== verification/Delivery.v ===== *)
(** * Delivery: what the outbox and the calendar worker guarantee

    Delivery of an SMS row, the reminder sweep, the life of a calendar event and
    the reconciliation sweep. *)

From S2P Require Import Prelude Py Effects Schema Settings Orm Directory JobQueue PublicLink Providers.
From S2P Require Import Notifications Calendar BookingMachine Frames BookingRefinement.

(** ** Delivery of one SMS *)

Section SmsDelivery.
Context `{Config} `{Providers}.

(** The database with the row [r] written and committed. *)
Definition with_outbox_row (r : NotificationOutbox) (w : World) : World :=
  let db := (w_db w) <| notification_outbox ::= <[ntf_id r := r]> |> in
  w <| w_db := db |> <| w_committed := db |>.

(** A run of worker executions of one row: the provider's answers in order, with the
    time of each; the number of provider calls is returned too. *)
Fixpoint deliver (answers : list (SmsSendResult * Z)) (calls : Z) (r : NotificationOutbox)
    : Z * NotificationOutbox :=
  match answers with
  | [] => (calls, r)
  | (result, now) :: rest =>
      if bool_decide (ntf_status r = NTF_PENDING)
      then deliver rest (calls + 1) (record_delivery result now r)
      else (calls, r)
  end.

(** One execution of the delivery job.  A row that is missing or no longer pending
    is not sent: no provider call, no change.  For a pending row, when the provider
    answers, exactly that row is replaced by [record_delivery] and committed, and the
    job fails (so that the queue retries it) exactly when the row is still pending;
    when the provider call itself raises, nothing changes and the exception
    propagates. *)
Theorem delivery_job_effect notification_id w :
  send_notification_in_worker notification_id w =
  match notification_outbox (w_db w) !! notification_id with
  | Some r =>
      if bool_decide (ntf_status r = NTF_PENDING) then
        match sms_send (MkSmsMessage (ntf_recipient_phone r) (ntf_body r)) w with
        | Ok result =>
            let r' := record_delivery result (w_now w) r in
            (if bool_decide (ntf_status r' = NTF_PENDING)
             then Raise (SmsDeliveryError (sms_error result)) else Ok tt,
             with_outbox_row r' w)
        | Raise e => (Raise e, w)
        end
      else (Ok tt, w)
  | None => (Ok tt, w)
  end.
Proof.
  unfold send_notification_in_worker, bind at 1. rewrite run_find_pk. simpl.
  destruct (notification_outbox (w_db w) !! notification_id) as [r|] eqn:Er; [|done].
  destruct (bool_decide (ntf_status r = NTF_PENDING)); simpl; [|done].
  unfold bind at 1, call_provider. destruct (sms_send _ w) as [result|e]; [|done].
  unfold bind, now_utc, asks, save, modify, commit. simpl.
  by destruct (bool_decide (ntf_status (record_delivery result (w_now w) r) = NTF_PENDING)).
Qed.

End SmsDelivery.

(** ** Reminders *)

Section Reminders.
Context `{Config}.

(** The sweep has nothing to do for the booking: too short a notice, or reminded. *)
Definition reminded (outbox : gmap Z NotificationOutbox) (b : Booking) : Prop :=
  short_notice b = true
  \/ exists k r, outbox !! k = Some r /\ is_reminder_of (bk_id b) r = true.

Definition reminders_inv (B : gmap Z Booking) (t : Z) (done : list Booking) (w : World) : Prop :=
  bookings (w_db w) = B /\ w_now w = t
  /\ forall b, In b done -> reminded (notification_outbox (w_db w)) b.

Definition any_error (_ : Exn) (_ : World) : Prop := True.

Lemma reminded_insert outbox k r b :
  outbox !! k = None -> reminded outbox b -> reminded (<[k := r]> outbox) b.
Proof.
  intros Hk [Hs|(k' & r' & Hr & Hi)]; [by left|]. right. exists k', r'.
  split; [|done]. rewrite lookup_insert_ne; [done | congruence].
Qed.

Lemma remind_one_inv B t done count b :
  triple (reminders_inv B t done) (remind_one count b)
    (fun _ => reminders_inv B t (b :: done)) any_error.
Proof.
  intros w (HB & Ht & Hd). unfold remind_one.
  destruct (short_notice b) eqn:Es.
  { simpl. split; [done|]. split; [done|]. intros b' [<-|Hb']; [by left | by apply Hd]. }
  unfold bind at 1. rewrite run_first. simpl.
  destruct (head _) as [r|] eqn:Er.
  { simpl. split; [done|]. split; [done|]. intros b' [<-|Hb']; [|by apply Hd].
    apply head_filter_some in Er as [Hin Hp]. apply in_rows_of in Hin as [k Hk]. right. eauto. }
  unfold require_business, get_business, require_customer_in_business, require_customer,
    get_customer, require_service_in_business, require_service, get_service, bind.
  rewrite !run_find_pk. simpl.
  repeat (match goal with
          | |- context [match table (w_db w) !! ?k with _ => _ end] => destruct (table (w_db w) !! k)
          | |- context [if ?c then _ else _] => destruct c
          | |- context [match businesses (w_db w) !! ?k with _ => _ end] =>
              destruct (businesses (w_db w) !! k)
          | |- context [match customers (w_db w) !! ?k with _ => _ end] =>
              destruct (customers (w_db w) !! k)
          | |- context [match services (w_db w) !! ?k with _ => _ end] =>
              destruct (services (w_db w) !! k)
          end; simpl; try exact I).
  unfold db_insert. simpl. destruct (notification_outbox (w_db w) !! _) eqn:Ek; simpl; [exact I|].
  split; [done|]. split; [done|]. simpl. intros b' [<-|Hb'].
  - right. eexists _, _. rewrite lookup_insert_eq. split; [done|].
    unfold is_reminder_of. simpl. by rewrite Z.eqb_refl.
  - apply reminded_insert; [done | by apply Hd].
Qed.

Lemma remind_all_inv B t l : forall done count,
  triple (reminders_inv B t done) (fold_m l count remind_one)
    (fun _ => reminders_inv B t (rev l ++ done)) any_error.
Proof.
  induction l as [|b l IH]; intros done count; simpl; [by apply triple_ret|].
  eapply triple_bind; [apply remind_one_inv|]. intros c.
  eapply triple_conseq; [apply IH | done | | done]. intros a w Hw. by rewrite <- app_assoc.
Qed.

Lemma remind_one_done count b w :
  reminded (notification_outbox (w_db w)) b -> remind_one count b w = (Ok count, w).
Proof.
  unfold remind_one. intros [->|(k & r & Hr & Hi)]; [done|].
  destruct (short_notice b); [done|]. unfold bind at 1. rewrite run_first. simpl.
  destruct (head _) as [r'|] eqn:Er; [done|]. rewrite head_filter_none in Er.
  rewrite (Er r) in Hi; [done|]. apply in_rows_of. eauto.
Qed.

(** The reminder sweep is idempotent: when it has run, running it again at the
    same moment queues nothing and changes nothing, so no booking gets a second
    reminder however often maintenance runs. *)
Theorem reminders_idempotent n w w1 :
  enqueue_due_reminders w = (Ok n, w1) -> enqueue_due_reminders w1 = (Ok 0, w1).
Proof.
  unfold enqueue_due_reminders at 1. unfold bind at 1, now_utc, asks.
  unfold bind at 1. rewrite run_all. simpl.
  set (l := List.filter (reminder_due (w_now w)) (rows_of (bookings (w_db w)))).
  intros Hrun. apply bind_ok_inv in Hrun as (c & w2 & Hfold & Hrest).
  pose proof (remind_all_inv (bookings (w_db w)) (w_now w) l [] 0 w) as Hinv.
  rewrite Hfold in Hinv. destruct Hinv as (HB & Ht & Hd); [by split|].
  rewrite app_nil_r in Hd.
  assert (Hw1 : w_db w1 = w_db w2 /\ w_now w1 = w_now w2).
  { unfold bind, when in Hrest. destruct (negb _); simpl in Hrest; by injection Hrest as _ <-. }
  destruct Hw1 as [Hdb Hnow]. rewrite <- Hdb in HB, Hd. rewrite <- Hnow in Ht.
  unfold enqueue_due_reminders, bind at 1, now_utc, asks. unfold bind at 1. rewrite run_all. simpl.
  rewrite HB, Ht. fold l.
  assert (Hnoop : fold_m l 0 remind_one w1 = (Ok 0, w1)).
  { assert (Hall : forall b, In b l -> reminded (notification_outbox (w_db w1)) b).
    { intros b Hb. apply Hd. by apply in_rev in Hb. }
    clear - Hall. induction l as [|b l IH]; [done|]. simpl. unfold bind.
    rewrite remind_one_done by (apply Hall; simpl; auto). apply IH. intros. apply Hall. simpl. auto. }
  unfold bind. rewrite Hnoop. done.
Qed.
End Reminders.

(** ** The life of a calendar event *)

Section CalendarLife.
Context `{Config} `{Providers}.

Definition cal_table (T : gmap Z CalendarEvent) (w : World) : Prop :=
  calendar_events (w_db w) = T.

(** At most the row [event_id] has changed, and by [step]. *)
Definition cal_updated (T : gmap Z CalendarEvent) (event_id : Z)
    (step : CalendarEvent -> CalendarEvent -> Prop) (w : World) : Prop :=
  cal_table T w
  \/ exists e e', T !! event_id = Some e /\ step e e' /\ cal_table (<[cal_id e := e']> T) w.

Definition sync_step (e e' : CalendarEvent) : Prop :=
  sync_retryable (cal_status e) = true
  /\ exists result now, e' = record_sync result now e.

Definition cancel_step (e e' : CalendarEvent) : Prop :=
  (sync_retryable (cal_status e) = true /\ e' = e <| cal_status := CAL_CANCELLED |>)
  \/ (cal_status e = CAL_SYNCED /\ exists result, e' = record_cancel result e).

Lemma keeps_provider {A} P (f : World -> Result Exn A) : keeps P (call_provider f).
Proof. intros w Hw. unfold call_provider. by destruct (f w). Qed.
Lemma keeps_one `{Entity A} P k : keeps P (one_pk (A := A) k).
Proof. unfold one_pk. keeps_steps. Qed.
Lemma keeps_integration P b t s : keeps P (get_calendar_integration b t s).
Proof. unfold get_calendar_integration. keeps_steps. Qed.
Hint Resolve keeps_provider keeps_one keeps_integration : ledger.

(** A step that keeps the table, before the row is written. *)
Lemma cal_then {A B} T id step (m : PyM A) (k : A -> PyM B) :
  let Q w := cal_updated T id step w in
  keeps (cal_table T) m ->
  (forall a, triple (cal_table T) (k a) (fun _ => Q) (fun _ => Q)) ->
  triple (cal_table T) (bind m k) (fun _ => Q) (fun _ => Q).
Proof.
  intros Q Hm Hk. eapply triple_bind; [|exact Hk].
  eapply triple_conseq; [exact Hm | done | done |]. intros e w Hw. by left.
Qed.

Lemma cal_same {A} T id step (m : PyM A) :
  keeps (cal_table T) m ->
  triple (cal_table T) m (fun _ => cal_updated T id step) (fun _ => cal_updated T id step).
Proof. intros Hm. eapply triple_conseq; [exact Hm | done | |]; intros a w Hw; by left. Qed.

(** Writing the row, the commit, and what follows. *)
Lemma cal_write {A} T id step e e' (k : PyM A) :
  T !! id = Some e -> step e e' -> cal_id e' = cal_id e ->
  keeps (cal_table (<[cal_id e := e']> T)) k ->
  triple (cal_table T) (save e' ;;; commit ;;; k)
    (fun _ => cal_updated T id step) (fun _ => cal_updated T id step).
Proof.
  intros He Hs Hid Hk w Hw. unfold bind at 1, save, modify. unfold bind, commit, modify.
  match goal with |- context [k ?w1] => pose proof (Hk w1) as Hk1; destruct (k w1) as [[a|x] w2] end;
    (right; exists e, e'; split; [done|]; split; [done|]; apply Hk1;
     unfold cal_table in *; simpl; by rewrite Hw, Hid).
Qed.

Lemma cal_write_last T id step e e' :
  T !! id = Some e -> step e e' -> cal_id e' = cal_id e ->
  triple (cal_table T) (save e' ;;; commit)
    (fun _ => cal_updated T id step) (fun _ => cal_updated T id step).
Proof.
  intros He Hs Hid. exact (cal_write T id step e e' (ret tt) He Hs Hid (keeps_ret _ tt)).
Qed.

Lemma sync_updates T event_id :
  triple (cal_table T) (sync_calendar_event_in_worker event_id)
    (fun _ => cal_updated T event_id sync_step) (fun _ => cal_updated T event_id sync_step).
Proof.
  intros w Hw. unfold sync_calendar_event_in_worker, bind at 1. rewrite run_find_pk. simpl.
  unfold cal_table in Hw. rewrite Hw. destruct (T !! event_id) as [e|] eqn:Ee; [|by left].
  destruct (sync_retryable (cal_status e)) eqn:Er; simpl; [|by left].
  revert w Hw. match goal with |- forall w, _ -> match ?m w with _ => _ end =>
    change (triple (cal_table T) m (fun _ => cal_updated T event_id sync_step)
      (fun _ => cal_updated T event_id sync_step)) end.
  apply cal_then; [eauto with ledger|]. intros b.
  destruct (negb _); [apply cal_same; eauto with ledger|].
  apply cal_then; [eauto with ledger|]. intros svc.
  apply cal_then; [keeps_steps|]. intros member.
  apply cal_then; [eauto with ledger|]. intros integration.
  apply cal_then; [eauto with ledger|]. intros result.
  apply cal_then; [eauto with ledger|]. intros now.
  apply (cal_write T event_id sync_step e); [done | split; eauto | | keeps_steps].
  unfold record_sync. by repeat case_match.
Qed.

Lemma cancel_updates T event_id :
  triple (cal_table T) (cancel_calendar_event_in_worker event_id)
    (fun _ => cal_updated T event_id cancel_step) (fun _ => cal_updated T event_id cancel_step).
Proof.
  intros w Hw. unfold cancel_calendar_event_in_worker, bind at 1. rewrite run_find_pk. simpl.
  unfold cal_table in Hw. rewrite Hw. destruct (T !! event_id) as [e|] eqn:Ee; [|by left].
  revert w Hw. match goal with |- forall w, _ -> match ?m w with _ => _ end =>
    change (triple (cal_table T) m (fun _ => cal_updated T event_id cancel_step)
      (fun _ => cal_updated T event_id cancel_step)) end.
  destruct (cal_status e) eqn:Es; try solve [apply cal_same, keeps_ret];
    (apply cal_then; [eauto with ledger|]; intros b;
     destruct (negb _); [apply cal_same; eauto with ledger|]; simpl).
  - apply (cal_write_last T event_id cancel_step e); [done | left; by rewrite Es | done].
  - apply cal_then; [eauto with ledger|]. intros result.
    apply (cal_write T event_id cancel_step e); [done | right; eauto | | keeps_steps].
    unfold record_cancel. by repeat case_match.
  - apply (cal_write_last T event_id cancel_step e); [done | left; by rewrite Es | done].
Qed.
(** The edges of the two state machines; staying put is always possible. *)
Definition sync_edge (a b : CalendarSyncStatus) : bool :=
  bool_decide (a = b)
  || match a, b with
     | CAL_PENDING, CAL_SYNCED | CAL_PENDING, CAL_FAILED | CAL_FAILED, CAL_SYNCED => true
     | _, _ => false
     end.

Definition cancel_edge (a b : CalendarSyncStatus) : bool :=
  bool_decide (a = b)
  || match a, b with
     | CAL_PENDING, CAL_CANCELLED | CAL_FAILED, CAL_CANCELLED
     | CAL_SYNCED, CAL_CANCELLED | CAL_SYNCED, CAL_CANCEL_FAILED => true
     | _, _ => false
     end.

Lemma record_sync_edge result now e :
  sync_retryable (cal_status e) = true ->
  sync_edge (cal_status e) (cal_status (record_sync result now e)) = true
  /\ cal_attempts (record_sync result now e) = cal_attempts e + 1.
Proof.
  intros Hr. unfold record_sync. repeat case_match; simpl; (split; [|lia]);
    by destruct (cal_status e).
Qed.

Lemma record_cancel_edge result e :
  cal_status e = CAL_SYNCED -> cal_cancel_attempts e < worker_max_retries ->
  let e' := record_cancel result e in
  cancel_edge (cal_status e) (cal_status e') = true
  /\ cal_cancel_attempts e' <= worker_max_retries
  /\ (cal_status e' = CAL_SYNCED -> cal_cancel_attempts e' < worker_max_retries).
Proof.
  intros Hs Hn. unfold record_cancel.
  destruct (cr_success result); [simpl; rewrite Hs; split; [done|]; split; [lia | done]|].
  simpl. destruct (worker_max_retries <=? 1 + cal_cancel_attempts e) eqn:E; simpl; bool_props;
    rewrite Hs; repeat split; try done; lia.
Qed.

Lemma updated_row T id step w k e :
  keyed T -> cal_updated T id step w -> T !! k = Some e ->
  exists e', calendar_events (w_db w) !! k = Some e' /\ (e' = e \/ (k = id /\ step e e')).
Proof.
  intros Hk [Hw|(e0 & e0' & He0 & Hs & Hw)] He; unfold cal_table in Hw; rewrite Hw; [eauto|].
  rewrite lookup_insert. pose proof (Hk _ _ He0) as Hid. simpl in Hid. case_decide; [|eauto].
  exists e0'. split; [done|]. right. split; [congruence|]. congruence.
Qed.

End CalendarLife.
