(* ===== verification/SelfService.v ===== *)
(** * SelfService: what a customer can do without an account

    app/services/sms_reply_service.py (replies to a reminder) and the public booking
    routes of app/api/routes/bookings_public.py. *)

From S2P Require Import Prelude Py Effects Schema Settings Orm AuditTrail Directory PublicLink Booking.

Inductive SmsReplyIntent : Type := REPLY_CONFIRM | REPLY_CANCEL | REPLY_UNRECOGNIZED.
#[global] Instance SmsReplyIntent_eq_dec : EqDecision SmsReplyIntent.
Proof. solve_decision. Defined.

Definition CONFIRM_KEYWORDS : list string := ["C"; "CONFIRM"; "Y"; "YES"].
Definition CANCEL_KEYWORDS : list string := ["X"; "CANCEL"; "N"; "NO"].

(** [str.upper] on ASCII letters. *)
Definition upper_char (c : ascii) : ascii :=
  let n := N_of_ascii c in
  if (97 <=? n)%N && (n <=? 122)%N then ascii_of_N (n - 32) else c.
Definition upper (s : string) : string := of_chars (map upper_char (chars s)).

Definition parse_reply_intent (body : string) : SmsReplyIntent :=
  let normalized := upper (strip body) in
  if existsb (String.eqb normalized) CONFIRM_KEYWORDS then REPLY_CONFIRM
  else if existsb (String.eqb normalized) CANCEL_KEYWORDS then REPLY_CANCEL
  else REPLY_UNRECOGNIZED.

Section SelfService.
Context `{Config}.

Definition handle_sms_reply (business_id tenant_id : Z) (from_phone body : string)
    : PyM SmsReplyIntent :=
  let intent := parse_reply_intent body in
  if bool_decide (intent = REPLY_UNRECOGNIZED) then ret intent
  else
    customer <- get_customer_by_phone business_id tenant_id from_phone ;;
    match customer with
    | None => ret intent
    | Some c =>
        booking <- get_next_confirmed_booking business_id tenant_id (cus_id c) ;;
        match booking with
        | None => ret intent
        | Some b =>
            match intent with
            | REPLY_CANCEL =>
                catch (cancel_booking (bk_id b) business_id tenant_id
                         (Some "customer_sms_reply"%string) None false ;;; ret tt)
                  (fun e => match e with
                            | DomainError ConflictError _ => Some (ret tt)
                            | _ => None
                            end) ;;;
                ret intent
            | REPLY_CONFIRM =>
                create_audit_log tenant_id None BOOKING_CONFIRMED None (Some (bk_id b))
                  (Some "sms_reply"%string) true ;;;
                ret intent
            | REPLY_UNRECOGNIZED => ret intent
            end
        end
    end.

(** [body.reason or "..."] *)
Definition reason_or (fallback : string) (reason : option string) : option string :=
  match reason with
  | Some r => if truthy r then Some r else Some fallback
  | None => Some fallback
  end.

Definition get_public_booking (token : string) : PyM Booking := get_booking_by_public_token token.

Definition cancel_public_booking (token : string) (reason : option string) : PyM Booking :=
  booking <- get_booking_by_public_token token ;;
  if bool_decide (bk_status booking = CANCELLED)
  then domain_error ConflictError "This booking is already cancelled."
  else cancel_booking (bk_id booking) (bk_business_id booking) (bk_tenant_id booking)
         (reason_or "Customer cancelled via link" reason) None false.

Definition reschedule_public_booking (token : string) (new_starts_at : Z)
    (reason : option string) : PyM Booking :=
  booking <- get_booking_by_public_token token ;;
  if bool_decide (bk_status booking = CANCELLED)
  then domain_error ConflictError "Cannot reschedule a cancelled booking."
  else reschedule_booking (bk_id booking) (bk_business_id booking) (bk_tenant_id booking)
         new_starts_at (reason_or "Customer rescheduled via link" reason) None SOURCE_API.

End SelfService.
