(* ===== verification/IvrPrompts.v ===== *)
(** * IvrPrompts: app/core/ivr_prompts.py

    The prompt templates of the voice menu, per locale, and their interpolation.  A
    template is kept as the UTF-8 bytes of the source; interpolation only
    concatenates, so the bytes are never looked into.

    [format] models [str.format] with keyword arguments for what the templates
    use: named fields without conversion, and no escaped braces.  A field without an
    argument raises [KeyError], an unbalanced brace [ValueError]. *)

From S2P Require Import Prelude Py Effects Schema Settings.

Definition IVR_DEFAULT_LOCALE : string := "en".

(** [PromptKey], with the prefix [P_]. *)
Inductive PromptKey : Type :=
  | P_SESSION_EXPIRED
  | P_SESSION_ALREADY_COMPLETE
  | P_UNEXPECTED_STATE
  | P_TOO_MANY_INVALID_KEYS
  | P_TOO_MANY_NO_INPUT
  | P_NO_INPUT_PREFIX
  | P_NO_INPUT_GOODBYE
  | P_NO_SLOTS
  | P_NO_SERVICES
  | P_PLEASE_MAKE_A_SELECTION
  | P_MAIN_MENU_INTERNAL
  | P_MAIN_MENU_EXTERNAL
  | P_GREETING_PREFIX
  | P_SELECT_SERVICE
  | P_INVALID_SELECT_SERVICE
  | P_NO_SLOTS_FOR_SERVICE
  | P_AVAILABLE_SLOTS_FOR_SERVICE
  | P_SELECT_SLOT
  | P_INVALID_SELECT_SLOT
  | P_BOOKING_CONFIRMED
  | P_STAFF_SELECTION_PROMPT
  | P_EXTERNAL_LINK_SENT
  | P_TRANSFER_DISABLED
  | P_TRANSFER_NO_STAFF
  | P_TRANSFERRING
  | P_PRESS_1_MAIN_MENU
  | P_NO_UPCOMING_BOOKING_PREFIX
  | P_MANAGE_BOOKING_FOUND
  | P_BOOKING_CANCELLED
  | P_NO_SLOTS_TO_RESCHEDULE
  | P_SELECT_NEW_TIME
  | P_INVALID_SELECT_NEW_TIME
  | P_BOOKING_RESCHEDULED
  | P_OPTION_ITEM
  | P_STAFF_OPTION_PREFERRED
  | P_STAFF_OPTION_ANY
  | P_LABEL_MAIN_MENU
  | P_LABEL_BOOK_APPOINTMENT
  | P_LABEL_BOOKING_LINK_SMS
  | P_LABEL_SPEAK_WITH_STAFF
  | P_LABEL_MANAGE_BOOKING
  | P_LABEL_CANCEL_APPOINTMENT
  | P_LABEL_RESCHEDULE_APPOINTMENT
  | P_LABEL_ANY_AVAILABLE_STAFF.

(** [_PROMPTS["en"]] *)
Definition prompts_en (k : PromptKey) : string :=
  match k with
  | P_SESSION_EXPIRED =>
      "Your session has expired. Please call again to book an appointment."
  | P_SESSION_ALREADY_COMPLETE =>
      "This session is already complete. Please call again."
  | P_UNEXPECTED_STATE =>
      "Unexpected session state."
  | P_TOO_MANY_INVALID_KEYS =>
      "Too many invalid inputs. Your session has ended. Please call again to book an appointment."
  | P_TOO_MANY_NO_INPUT =>
      "We didn't receive any input. Your session has ended. Please call again to book an appointment."
  | P_NO_INPUT_PREFIX =>
      "We didn't hear a response. "
  | P_NO_INPUT_GOODBYE =>
      "We didn't receive your input. Goodbye."
  | P_NO_SLOTS =>
      "No slots are available. Please call back later."
  | P_NO_SERVICES =>
      "Sorry, no services are currently available. Please call back later."
  | P_PLEASE_MAKE_A_SELECTION =>
      "Please make a selection."
  | P_MAIN_MENU_INTERNAL =>
      "Welcome! Press 1 to book an appointment, press 2 to speak with a staff member, or press 3 to manage an existing appointment."
  | P_MAIN_MENU_EXTERNAL =>
      "Welcome! Press 1 to receive a booking link by SMS, press 2 to speak with a staff member, or press 3 to manage an existing appointment."
  | P_GREETING_PREFIX =>
      "Welcome back, {name}! "
  | P_SELECT_SERVICE =>
      "Please select a service: {options}."
  | P_INVALID_SELECT_SERVICE =>
      "Invalid choice. Please select a service: {options}."
  | P_NO_SLOTS_FOR_SERVICE =>
      "Sorry, there are no available slots for {service_name} in the next week. Please call back later."
  | P_AVAILABLE_SLOTS_FOR_SERVICE =>
      "Available slots for {service_name}: {options}. Press your choice."
  | P_SELECT_SLOT =>
      "Please select a slot: {options}."
  | P_INVALID_SELECT_SLOT =>
      "Invalid choice. Please select a slot: {options}."
  | P_BOOKING_CONFIRMED =>
      "Your appointment has been booked for {when}. You will receive an SMS confirmation. Thank you, goodbye!"
  | P_STAFF_SELECTION_PROMPT =>
      "Who would you like to book your {service_name} with? {options}."
  | P_EXTERNAL_LINK_SENT =>
      "We have sent you an SMS with a link to book your appointment online. Thank you, goodbye!"
  | P_TRANSFER_DISABLED =>
      "Transfer to staff is not available for this business. Press 1 to book an appointment."
  | P_TRANSFER_NO_STAFF =>
      "Sorry, no staff members are available to take your call right now. Press 1 to book an appointment."
  | P_TRANSFERRING =>
      "Transferring you to a staff member. Please hold."
  | P_PRESS_1_MAIN_MENU =>
      "Press 1 to go back to the main menu."
  | P_NO_UPCOMING_BOOKING_PREFIX =>
      "We couldn't find an upcoming appointment for this number. "
  | P_MANAGE_BOOKING_FOUND =>
      "We found your {service_name} appointment for {when}. Press 1 to cancel it, press 2 to reschedule it, or press 3 to go back to the main menu."
  | P_BOOKING_CANCELLED =>
      "Your appointment has been cancelled. Thank you, goodbye!"
  | P_NO_SLOTS_TO_RESCHEDULE =>
      "Sorry, there are no available slots to reschedule into right now. Please call back later."
  | P_SELECT_NEW_TIME =>
      "Please select a new time: {options}."
  | P_INVALID_SELECT_NEW_TIME =>
      "Invalid choice. Please select a new time: {options}."
  | P_BOOKING_RESCHEDULED =>
      "Your appointment has been rescheduled to {when}. You will receive an SMS confirmation. Thank you, goodbye!"
  | P_OPTION_ITEM =>
      "press {key} for {label}"
  | P_STAFF_OPTION_PREFERRED =>
      "press {key} for {label}, who you saw last time"
  | P_STAFF_OPTION_ANY =>
      "press 0 for any available staff member"
  | P_LABEL_MAIN_MENU =>
      "Main menu"
  | P_LABEL_BOOK_APPOINTMENT =>
      "Book an appointment"
  | P_LABEL_BOOKING_LINK_SMS =>
      "Receive a booking link by SMS"
  | P_LABEL_SPEAK_WITH_STAFF =>
      "Speak with staff"
  | P_LABEL_MANAGE_BOOKING =>
      "Manage an existing appointment"
  | P_LABEL_CANCEL_APPOINTMENT =>
      "Cancel appointment"
  | P_LABEL_RESCHEDULE_APPOINTMENT =>
      "Reschedule appointment"
  | P_LABEL_ANY_AVAILABLE_STAFF =>
      "Any available staff member"
  end.

(** [_PROMPTS["pl"]] *)
Definition prompts_pl (k : PromptKey) : string :=
  match k with
  | P_SESSION_EXPIRED =>
      "Twoja sesja wygasła. Zadzwoń ponownie, aby zarezerwować wizytę."
  | P_SESSION_ALREADY_COMPLETE =>
      "Ta sesja została już zakończona. Zadzwoń ponownie."
  | P_UNEXPECTED_STATE =>
      "Nieoczekiwany stan sesji."
  | P_TOO_MANY_INVALID_KEYS =>
      "Za dużo nieprawidłowych wyborów. Sesja została zakończona. Zadzwoń ponownie, aby zarezerwować wizytę."
  | P_TOO_MANY_NO_INPUT =>
      "Nie otrzymaliśmy żadnej odpowiedzi. Sesja została zakończona. Zadzwoń ponownie, aby zarezerwować wizytę."
  | P_NO_INPUT_PREFIX =>
      "Nie usłyszeliśmy odpowiedzi. "
  | P_NO_INPUT_GOODBYE =>
      "Nie otrzymaliśmy żadnej odpowiedzi. Do usłyszenia."
  | P_NO_SLOTS =>
      "Nie ma dostępnych terminów. Zadzwoń ponownie później."
  | P_NO_SERVICES =>
      "Przepraszamy, obecnie nie ma dostępnych usług. Zadzwoń ponownie później."
  | P_PLEASE_MAKE_A_SELECTION =>
      "Proszę wybrać jedną z opcji."
  | P_MAIN_MENU_INTERNAL =>
      "Witamy! Naciśnij 1, aby zarezerwować wizytę, naciśnij 2, aby połączyć się z pracownikiem, lub naciśnij 3, aby zarządzać istniejącą wizytą."
  | P_MAIN_MENU_EXTERNAL =>
      "Witamy! Naciśnij 1, aby otrzymać link do rezerwacji SMS-em, naciśnij 2, aby połączyć się z pracownikiem, lub naciśnij 3, aby zarządzać istniejącą wizytą."
  | P_GREETING_PREFIX =>
      "Witamy ponownie, {name}! "
  | P_SELECT_SERVICE =>
      "Proszę wybrać usługę: {options}."
  | P_INVALID_SELECT_SERVICE =>
      "Nieprawidłowy wybór. Proszę wybrać usługę: {options}."
  | P_NO_SLOTS_FOR_SERVICE =>
      "Przepraszamy, nie ma dostępnych terminów dla usługi {service_name} w najbliższym tygodniu. Zadzwoń ponownie później."
  | P_AVAILABLE_SLOTS_FOR_SERVICE =>
      "Dostępne terminy dla usługi {service_name}: {options}. Naciśnij wybraną opcję."
  | P_SELECT_SLOT =>
      "Proszę wybrać termin: {options}."
  | P_INVALID_SELECT_SLOT =>
      "Nieprawidłowy wybór. Proszę wybrać termin: {options}."
  | P_BOOKING_CONFIRMED =>
      "Twoja wizyta została zarezerwowana na {when}. Otrzymasz potwierdzenie SMS-em. Dziękujemy, do usłyszenia!"
  | P_STAFF_SELECTION_PROMPT =>
      "Z kim chcesz zarezerwować usługę {service_name}? {options}."
  | P_EXTERNAL_LINK_SENT =>
      "Wysłaliśmy Ci SMS z linkiem do rezerwacji wizyty online. Dziękujemy, do usłyszenia!"
  | P_TRANSFER_DISABLED =>
      "Połączenie z pracownikiem nie jest dostępne dla tej firmy. Naciśnij 1, aby zarezerwować wizytę."
  | P_TRANSFER_NO_STAFF =>
      "Przepraszamy, żaden pracownik nie jest obecnie dostępny, aby odebrać połączenie. Naciśnij 1, aby zarezerwować wizytę."
  | P_TRANSFERRING =>
      "Łączymy Cię z pracownikiem. Proszę czekać."
  | P_PRESS_1_MAIN_MENU =>
      "Naciśnij 1, aby wrócić do menu głównego."
  | P_NO_UPCOMING_BOOKING_PREFIX =>
      "Nie znaleźliśmy nadchodzącej wizyty dla tego numeru. "
  | P_MANAGE_BOOKING_FOUND =>
      "Znaleźliśmy Twoją wizytę na usługę {service_name} w terminie {when}. Naciśnij 1, aby ją odwołać, naciśnij 2, aby zmienić termin, lub naciśnij 3, aby wrócić do menu głównego."
  | P_BOOKING_CANCELLED =>
      "Twoja wizyta została odwołana. Dziękujemy, do usłyszenia!"
  | P_NO_SLOTS_TO_RESCHEDULE =>
      "Przepraszamy, obecnie nie ma dostępnych terminów do zmiany. Zadzwoń ponownie później."
  | P_SELECT_NEW_TIME =>
      "Proszę wybrać nowy termin: {options}."
  | P_INVALID_SELECT_NEW_TIME =>
      "Nieprawidłowy wybór. Proszę wybrać nowy termin: {options}."
  | P_BOOKING_RESCHEDULED =>
      "Twoja wizyta została przełożona na {when}. Otrzymasz potwierdzenie SMS-em. Dziękujemy, do usłyszenia!"
  | P_OPTION_ITEM =>
      "naciśnij {key} dla {label}"
  | P_STAFF_OPTION_PREFERRED =>
      "naciśnij {key} dla {label} — Twojego ostatniego wyboru"
  | P_STAFF_OPTION_ANY =>
      "naciśnij 0, aby wybrać dowolnego dostępnego pracownika"
  | P_LABEL_MAIN_MENU =>
      "Menu główne"
  | P_LABEL_BOOK_APPOINTMENT =>
      "Zarezerwuj wizytę"
  | P_LABEL_BOOKING_LINK_SMS =>
      "Otrzymaj link do rezerwacji SMS-em"
  | P_LABEL_SPEAK_WITH_STAFF =>
      "Połącz z pracownikiem"
  | P_LABEL_MANAGE_BOOKING =>
      "Zarządzaj istniejącą wizytą"
  | P_LABEL_CANCEL_APPOINTMENT =>
      "Odwołaj wizytę"
  | P_LABEL_RESCHEDULE_APPOINTMENT =>
      "Zmień termin wizyty"
  | P_LABEL_ANY_AVAILABLE_STAFF =>
      "Dowolny dostępny pracownik"
  end.

(** [_PROMPTS.get(locale, _PROMPTS[IVR_DEFAULT_LOCALE])] *)
Definition locale_table (locale : string) : PromptKey -> string :=
  if String.eqb locale "en" then prompts_en
  else if String.eqb locale "pl" then prompts_pl
  else prompts_en.

(** [locale_table.get(prompt_key) or _PROMPTS[IVR_DEFAULT_LOCALE][prompt_key]]; every
    table has every key. *)
Definition template_of (prompt_key : PromptKey) (locale : string) : string :=
  let t := locale_table locale prompt_key in
  if truthy t then t else prompts_en prompt_key.

(** A keyword argument. *)
Fixpoint kwarg (kwargs : list (string * string)) (name : string) : option string :=
  match kwargs with
  | [] => None
  | (k, v) :: rest => if String.eqb k name then Some v else kwarg rest name
  end.

(** [template.format] of [kwargs]; [field] is the (reversed) name being read inside braces. *)
Fixpoint format_chars (kwargs : list (string * string)) (field : option (list ascii))
    (l : list ascii) : Result Exn (list ascii) :=
  match l, field with
  | [], None => Ok []
  | [], Some _ => Raise (ValueError "expected '}' before end of string")
  | c :: l', None =>
      if Ascii.eqb c "{"%char then format_chars kwargs (Some []) l'
      else if Ascii.eqb c "}"%char
      then Raise (ValueError "Single '}' encountered in format string")
      else match format_chars kwargs None l' with
           | Ok t => Ok (c :: t)
           | Raise e => Raise e
           end
  | c :: l', Some name =>
      if Ascii.eqb c "}"%char then
        match kwarg kwargs (of_chars (rev name)) with
        | None => Raise (KeyError (of_chars (rev name)))
        | Some v => match format_chars kwargs None l' with
                    | Ok t => Ok (chars v ++ t)
                    | Raise e => Raise e
                    end
        end
      else format_chars kwargs (Some (c :: name)) l'
  end.

Definition format (kwargs : list (string * string)) (template : string) : Result Exn string :=
  match format_chars kwargs None (chars template) with
  | Ok t => Ok (of_chars t)
  | Raise e => Raise e
  end.

Definition resolve_prompt (prompt_key : PromptKey) (locale : string)
    (kwargs : list (string * string)) : PyM string :=
  fun w => (format kwargs (template_of prompt_key locale), w).

(** ** The fields of a template *)

(** The names a template reads, [None] if its braces are unbalanced. *)
Fixpoint template_fields (field : option (list ascii)) (l : list ascii) : option (list string) :=
  match l, field with
  | [], None => Some []
  | [], Some _ => None
  | c :: l', None =>
      if Ascii.eqb c "{"%char then template_fields (Some []) l'
      else if Ascii.eqb c "}"%char then None
      else template_fields None l'
  | c :: l', Some name =>
      if Ascii.eqb c "}"%char then cons (of_chars (rev name)) <$> template_fields None l'
      else template_fields (Some (c :: name)) l'
  end.

Lemma format_chars_total kwargs l : forall field fs,
  template_fields field l = Some fs ->
  (forall f, In f fs -> is_Some (kwarg kwargs f)) ->
  exists t, format_chars kwargs field l = Ok t.
Proof.
  induction l as [|c l IH]; intros [name|] fs Hf Hb; simpl in *; try done; [eauto|..].
  - destruct (Ascii.eqb c "}"%char); [|by eapply IH].
    destruct (template_fields None l) as [fs'|] eqn:E; [|done]. simplify_eq/=.
    destruct (Hb _ (or_introl eq_refl)) as [v ->].
    destruct (IH None fs' E (fun f Hin => Hb f (or_intror Hin))) as [t ->]. eauto.
  - destruct (Ascii.eqb c "{"%char); [by eapply IH|].
    destruct (Ascii.eqb c "}"%char); [done|]. destruct (IH None fs Hf Hb) as [t ->]. eauto.
Qed.

(** What the callers of [resolve_prompt] pass for a key. *)
Definition prompt_fields (k : PromptKey) : list string :=
  match k with
  | P_GREETING_PREFIX => ["name"]
  | P_SELECT_SERVICE | P_INVALID_SELECT_SERVICE | P_SELECT_SLOT | P_INVALID_SELECT_SLOT
  | P_SELECT_NEW_TIME | P_INVALID_SELECT_NEW_TIME => ["options"]
  | P_NO_SLOTS_FOR_SERVICE => ["service_name"]
  | P_AVAILABLE_SLOTS_FOR_SERVICE | P_STAFF_SELECTION_PROMPT => ["service_name"; "options"]
  | P_BOOKING_CONFIRMED | P_BOOKING_RESCHEDULED => ["when"]
  | P_MANAGE_BOOKING_FOUND => ["service_name"; "when"]
  | P_OPTION_ITEM | P_STAFF_OPTION_PREFERRED => ["key"; "label"]
  | _ => []
  end.

Lemma template_fields_known k locale :
  exists fs, template_fields None (chars (template_of k locale)) = Some fs
    /\ forall f, In f fs -> In f (prompt_fields k).
Proof.
  unfold template_of, locale_table.
  destruct (String.eqb locale "en"), (String.eqb locale "pl"), k; vm_compute; eauto 6.
Qed.

Lemma resolve_prompt_total prompt_key locale kwargs w :
  (forall f, In f (prompt_fields prompt_key) -> is_Some (kwarg kwargs f)) ->
  exists text, resolve_prompt prompt_key locale kwargs w = (Ok text, w).
Proof.
  intros Hk. destruct (template_fields_known prompt_key locale) as (fs & Hf & Hin).
  destruct (format_chars_total kwargs _ None fs Hf (fun f H => Hk f (Hin f H))) as [t Ht].
  unfold resolve_prompt, format. rewrite Ht. eauto.
Qed.

(** No prompt can fail or be blank.  For every key and every locale, known or not, the
    template found is not empty, and with the arguments its callers pass it is always
    rendered: the translations use no field that the original does not have, and
    an unknown locale falls back to English. *)
Theorem prompts_complete (prompt_key : PromptKey) (locale : string)
    (kwargs : list (string * string)) (w : World) :
  (forall f, In f (prompt_fields prompt_key) -> is_Some (kwarg kwargs f)) ->
  truthy (template_of prompt_key locale) = true
  /\ (locale <> "pl"%string -> template_of prompt_key locale = prompts_en prompt_key)
  /\ exists text, resolve_prompt prompt_key locale kwargs w = (Ok text, w).
Proof.
  intros Hk. split; [|split].
  - unfold template_of, locale_table.
    by destruct (String.eqb locale "en"), (String.eqb locale "pl"), prompt_key.
  - intros Hl. apply String.eqb_neq in Hl. unfold template_of, locale_table. rewrite Hl.
    by destruct (String.eqb locale "en"), (truthy _).
  - by apply resolve_prompt_total.
Qed.
