(* ===== verification/Ivr.v ===== *)
(** * Ivr: the voice menu (app/services/ivr_service.py, app/core/ivr.py)

    A call is a row of [voice_sessions] with a step; each key press runs
    [handle_keypress] in a session of its own, which moves the row to the next step
    and answers with a prompt and the keys it accepts.

    The Python object [session] is the row itself: an attribute that is read is read
    from the row as it is then ([refresh]), and an assignment rewrites the row as it
    is then ([assign]), so that a commit or rollback inside a called service is seen
    by the code after it. *)

From S2P Require Import Prelude Py Effects Schema Settings Orm Directory Availability JobQueue.
From S2P Require Import Notifications Booking IvrPrompts.

(** ** Responses ([app/core/ivr.py]) *)

Inductive IvrAction : Type := CONTINUE | END_CALL | TRANSFER.
#[global] Instance IvrAction_eq_dec : EqDecision IvrAction.
Proof. solve_decision. Defined.

Record IvrOption : Type := MkIvrOption { opt_key : string; opt_label : string }.

Record IvrResponse : Type := MkIvrResponse {
  rsp_prompt : string;
  rsp_options : list IvrOption;
  rsp_action : IvrAction;
  rsp_session_id : option Z;
  rsp_transfer_destination : option string }.

(** [IvrResponse(prompt=..., action=IvrAction.END)] and
    [IvrResponse(prompt=..., options=..., session_id=...)] *)
Definition end_response (prompt : string) (session_id : option Z) : IvrResponse :=
  MkIvrResponse prompt [] END_CALL session_id None.
Definition menu_response (prompt : string) (options : list IvrOption) (session_id : Z)
    : IvrResponse :=
  MkIvrResponse prompt options CONTINUE (Some session_id) None.

(** ** Formatting *)

Definition weekday_name (d : Z) : string :=
  nth (Z.to_nat (weekday d))
    ["Monday"; "Tuesday"; "Wednesday"; "Thursday"; "Friday"; "Saturday"; "Sunday"]%string "".
Definition month_name (m : Z) : string :=
  nth (Z.to_nat (m - 1))
    ["January"; "February"; "March"; "April"; "May"; "June"; "July"; "August"; "September";
     "October"; "November"; "December"]%string "".

(** [strftime('%-I:%M %p')] of a UTC instant. *)
Definition clock_12h (instant : Z) : string :=
  let t := instant mod day_us in
  let h := t / hour_us in
  let h12 := if h mod 12 =? 0 then 12 else h mod 12 in
  (string_of_Z h12 ++ ":" ++ pad2 (t mod hour_us / minute_us)
     ++ (if (h <? 12)%Z then " AM" else " PM"))%string.

(** [_format_slot] *)
Definition format_slot (starts_at ends_at : Z) : string :=
  let d := utc_date starts_at in
  let '(_, m, dd) := civil_of_days d in
  (weekday_name d ++ " " ++ month_name m ++ " " ++ string_of_Z dd ++ " at " ++ clock_12h starts_at
     ++ " to " ++ clock_12h ends_at ++ " UTC")%string.

Example format_slot_example :
  format_slot (combine 20000 (10 * hour_us)) (combine 20000 (13 * hour_us + 5 * minute_us))
  = "Friday October 4 at 10:00 AM to 1:05 PM UTC"%string.
Proof. vm_compute. reflexivity. Qed.

(** [tuple(IvrOption(key=str(i + 1), label=...) for i, ... in enumerate(labels))] *)
Definition numbered (labels : list string) : list IvrOption :=
  map (fun il => MkIvrOption (string_of_Z (il.1 + 1)) il.2) (enumerate_from 0 labels).

Definition slot_options (slots : list (Z * Z)) : list IvrOption :=
  numbered (map (fun '(s, e) => format_slot s e) slots).

Section Ivr.
Context `{Config}.

Definition format_option_list (options : list IvrOption) (locale : string) : PyM string :=
  parts <- map_m options (fun o =>
    resolve_prompt P_OPTION_ITEM locale [("key", opt_key o); ("label", opt_label o)]%string) ;;
  ret (join ", " parts).

(** ** The session row *)

(** [_session_locale] *)
Definition session_locale (session : VoiceSession) : string :=
  if truthy (vs_locale session) then vs_locale session else IVR_DEFAULT_LOCALE.

(** [session.x = v] *)
Definition assign (session : VoiceSession) (f : VoiceSession -> VoiceSession)
    : PyM VoiceSession :=
  current <- refresh session ;;
  save (f current) ;;;
  ret (f current).

(** [_TERMINAL_STEPS] *)
Definition terminal_step (s : IvrStep) : bool :=
  match s with
  | STEP_BOOKING_CONFIRMED | NO_SLOTS | EXPIRED | ABANDONED | EXTERNAL_LINK_SENT
  | STEP_BOOKING_CANCELLED => true
  | _ => false
  end.

Definition stale_session (now : Z) (s : VoiceSession) : bool :=
  (vs_expires_at s <=? now) && negb (terminal_step (vs_step s)).

Definition expire_stale_sessions : PyM Z :=
  now <- now_utc ;;
  rows <- all (stale_session now) ;;
  for_each rows (fun row => save (row <| vs_step := EXPIRED |>)) ;;;
  when (negb (bool_decide (rows = []))) commit ;;;
  ret (Z.of_nat (length rows)).

Definition NO_INPUT_MAX : Z := 3.
Definition INVALID_KEY_MAX : Z := 5.
Definition REPEAT_KEYS : list string := ["*"%string].

(** ** Helpers *)

(** [_lookup_returning_caller_name] *)
Definition lookup_returning_caller_name (business_id tenant_id : Z) (caller_phone : string)
    : PyM (option string) :=
  customer <- get_customer_by_phone business_id tenant_id caller_phone ;;
  match customer with
  | None => ret None
  | Some c =>
      client <- get_client_by_customer_id business_id tenant_id (cus_id c) ;;
      match client with
      | Some cl => if truthy (cli_name cl) then ret (Some (cli_name cl)) else ret (cus_name c)
      | None => ret (cus_name c)
      end
  end.

(** [_main_menu_response] *)
Definition main_menu_response (session_id : Z) (booking_mode : string)
    (greeting_name : option string) (locale : string) : PyM IvrResponse :=
  let external := String.eqb booking_mode MODE_EXTERNAL_BOOKING_LINK in
  press1_label <- resolve_prompt
    (if external then P_LABEL_BOOKING_LINK_SMS else P_LABEL_BOOK_APPOINTMENT) locale [] ;;
  prompt <- resolve_prompt
    (if external then P_MAIN_MENU_EXTERNAL else P_MAIN_MENU_INTERNAL) locale [] ;;
  prompt <- match greeting_name with
            | Some name =>
                if truthy name then
                  greeting <- resolve_prompt P_GREETING_PREFIX locale [("name"%string, name)] ;;
                  ret (greeting ++ prompt)%string
                else ret prompt
            | None => ret prompt
            end ;;
  staff_label <- resolve_prompt P_LABEL_SPEAK_WITH_STAFF locale [] ;;
  manage_label <- resolve_prompt P_LABEL_MANAGE_BOOKING locale [] ;;
  ret (menu_response prompt
         [MkIvrOption "1" press1_label; MkIvrOption "2" staff_label; MkIvrOption "3" manage_label]
         session_id).

(** The main menu of the session's business, without a greeting. *)
Definition main_menu (session : VoiceSession) : PyM IvrResponse :=
  business <- require_business (vs_business_id session) (vs_tenant_id session) ;;
  main_menu_response (vs_id session) (biz_booking_mode business) None (session_locale session).

Definition services_of (session : VoiceSession) : PyM (list Service) :=
  list_services (vs_business_id session) (vs_tenant_id session) false 0 100.

(** A prompt listing the first nine services. *)
Definition service_menu (key : PromptKey) (session : VoiceSession) (services : list Service)
    : PyM IvrResponse :=
  let options := numbered (map svc_name (take 9 services)) in
  listed <- format_option_list options (session_locale session) ;;
  prompt <- resolve_prompt key (session_locale session) [("options"%string, listed)] ;;
  ret (menu_response prompt options (vs_id session)).

(** A prompt listing slots. *)
Definition slot_menu (key : PromptKey) (session : VoiceSession)
    (extra : list (string * string)) (slots : list (Z * Z)) : PyM IvrResponse :=
  let options := slot_options slots in
  listed <- format_option_list options (session_locale session) ;;
  prompt <- resolve_prompt key (session_locale session) (extra ++ [("options"%string, listed)]) ;;
  ret (menu_response prompt options (vs_id session)).

(** [_schedulable_staff] *)
Definition schedulable_staff (business_id tenant_id : Z) : PyM (list Staff) :=
  staff_members <- list_staff business_id tenant_id false 0 100 ;;
  business_hours <- first (fun wh => (wh_business_id wh =? business_id)
    && (wh_tenant_id wh =? tenant_id) && is_none (wh_staff_id wh)) ;;
  match business_hours with
  | Some _ => ret staff_members
  | None =>
      scheduled <- all (fun wh => (wh_business_id wh =? business_id)
        && (wh_tenant_id wh =? tenant_id) && negb (is_none (wh_staff_id wh))) ;;
      ret (List.filter (fun s => existsb (fun wh => sql_eqb (wh_staff_id wh) (stf_id s)) scheduled)
             staff_members)
  end.

(** [_last_used_staff_id] *)
Definition last_used_staff_id (session : VoiceSession) : PyM (option Z) :=
  customer <- get_customer_by_phone (vs_business_id session) (vs_tenant_id session)
                (vs_caller_phone session) ;;
  match customer with
  | None => ret None
  | Some c =>
      last_booking <- get_last_staff_booking (vs_business_id session) (vs_tenant_id session)
                        (cus_id c) ;;
      ret (match last_booking with Some b => bk_staff_id b | None => None end)
  end.

(** [_reorder_preferred_staff] *)
Definition reorder_preferred_staff (session : VoiceSession) (staff_members : list Staff)
    : PyM (list Staff * option Z) :=
  preferred_id <- last_used_staff_id session ;;
  ret (match preferred_id with
       | None => (staff_members, None)
       | Some p =>
           match List.filter (fun s => stf_id s =? p) staff_members with
           | [] => (staff_members, None)
           | preferred =>
               (preferred ++ List.filter (fun s => negb (stf_id s =? p)) staff_members, Some p)
           end
       end).

(** [_staff_selection_response] *)
Definition staff_selection_response (session_id : Z) (staff_members : list Staff)
    (service_name : string) (preferred_staff_id : option Z) (locale : string)
    : PyM IvrResponse :=
  any_label <- resolve_prompt P_LABEL_ANY_AVAILABLE_STAFF locale [] ;;
  let options := numbered (map stf_name (take 9 staff_members)) ++ [MkIvrOption "0" any_label] in
  parts <- map_m (enumerate_from 0 (take 9 staff_members)) (fun im =>
    resolve_prompt
      (match preferred_staff_id with
       | Some p => if stf_id im.2 =? p then P_STAFF_OPTION_PREFERRED else P_OPTION_ITEM
       | None => P_OPTION_ITEM
       end) locale
      [("key", string_of_Z (im.1 + 1)); ("label", stf_name im.2)]%string) ;;
  any <- resolve_prompt P_STAFF_OPTION_ANY locale [] ;;
  prompt <- resolve_prompt P_STAFF_SELECTION_PROMPT locale
    [("service_name", service_name); ("options", join ", " (parts ++ [any]))]%string ;;
  ret (menu_response prompt options session_id).

(** The loop of [_find_slots] over the days left. *)
Fixpoint find_slots_loop (session : VoiceSession) (service_id : Z) (staff_id : option Z)
    (days : list Z) (collected : list (Z * Z)) : PyM (list (Z * Z)) :=
  match days with
  | [] => ret collected
  | day :: rest =>
      day_slots <- get_available_slots (vs_tenant_id session) (vs_business_id session) service_id
                     staff_id day ;;
      let collected := collected ++ day_slots in
      if ivr_max_slots <=? Z.of_nat (length collected) then ret collected
      else find_slots_loop session service_id staff_id rest collected
  end.

(** [_find_slots]; [date.today()] is the date of the server's clock, which runs in UTC. *)
Definition find_slots (session : VoiceSession) (service_id : Z) (staff_id : option Z)
    : PyM (list (Z * Z)) :=
  now <- now_utc ;;
  let days := map (fun i => utc_date now + Z.of_nat i) (seq 0 (Z.to_nat ivr_slot_search_days)) in
  collected <- find_slots_loop session service_id staff_id days [] ;;
  ret (take (Z.to_nat ivr_max_slots) collected).

(** [int(key) - 1], when it is an index into a list of the given length. *)
Definition chosen_index (key : string) (n : nat) : option nat :=
  match py_int key with
  | Some k => if (k - 1 <? 0) || (Z.of_nat n <=? k - 1) then None else Some (Z.to_nat (k - 1))
  | None => None
  end.

(** [_resolve_transfer_destination] *)
Definition resolve_transfer_destination (business : Business) (tenant_id : Z)
    : PyM (option string) :=
  let policy := biz_transfer_destination_policy business in
  if String.eqb policy POLICY_BUSINESS_PHONE then
    ret (match biz_transfer_phone_number business with
         | Some phone => if truthy phone && truthy (strip phone) then Some phone else None
         | None => None
         end)
  else if String.eqb policy POLICY_STAFF then
    eligible <- get_eligible_transfer_staff (biz_id business) tenant_id 50 ;;
    ret (match eligible with m :: _ => stf_phone m | [] => None end)
  else ret None.

(** [require_service_in_business(db, session.selected_service_id, ...)] and
    [require_booking_in_business(db, session.managed_booking_id, ...)]; no row has the
    key [None]. *)
Definition selected_service (session : VoiceSession) : PyM Service :=
  match vs_selected_service_id session with
  | Some k => require_service_in_business k (vs_business_id session) (vs_tenant_id session)
  | None => domain_error NotFoundError "Service not found"
  end.
Definition managed_booking (session : VoiceSession) : PyM Booking :=
  match vs_managed_booking_id session with
  | Some k => require_booking_in_business k (vs_business_id session) (vs_tenant_id session)
  | None => domain_error NotFoundError "Booking not found"
  end.

(** [_manage_booking_response] *)
Definition manage_booking_response (session : VoiceSession) (booking : Booking)
    : PyM IvrResponse :=
  service <- require_service_in_business (bk_service_id booking) (vs_business_id session)
               (vs_tenant_id session) ;;
  let loc := session_locale session in
  prompt <- resolve_prompt P_MANAGE_BOOKING_FOUND loc
    [("service_name", svc_name service);
     ("when", format_slot (bk_starts_at booking) (bk_ends_at booking))]%string ;;
  cancel_label <- resolve_prompt P_LABEL_CANCEL_APPOINTMENT loc [] ;;
  reschedule_label <- resolve_prompt P_LABEL_RESCHEDULE_APPOINTMENT loc [] ;;
  menu_label <- resolve_prompt P_LABEL_MAIN_MENU loc [] ;;
  ret (menu_response prompt
         [MkIvrOption "1" cancel_label; MkIvrOption "2" reschedule_label;
          MkIvrOption "3" menu_label] (vs_id session)).

Definition press_1_menu (session : VoiceSession) : PyM IvrResponse :=
  let loc := session_locale session in
  prompt <- resolve_prompt P_PRESS_1_MAIN_MENU loc [] ;;
  label <- resolve_prompt P_LABEL_MAIN_MENU loc [] ;;
  ret (menu_response prompt [MkIvrOption "1" label] (vs_id session)).

(** [if not candidates: ...] of the two slot menus of [_reprompt_for_no_input]. *)
Definition candidates_menu (key : PromptKey) (session : VoiceSession) : PyM IvrResponse :=
  match default [] (vs_slot_candidates session) with
  | [] =>
      prompt <- resolve_prompt P_NO_SLOTS (session_locale session) [] ;;
      ret (end_response prompt (Some (vs_id session)))
  | candidates => slot_menu key session [] candidates
  end.

(** [_reprompt_for_no_input] *)
Definition reprompt_for_no_input (session : VoiceSession) : PyM IvrResponse :=
  match vs_step session with
  | INCOMING => main_menu session
  | SERVICE_SELECTION =>
      services <- services_of session ;;
      service_menu P_SELECT_SERVICE session services
  | STAFF_SELECTION =>
      service <- selected_service session ;;
      staff_members <- schedulable_staff (vs_business_id session) (vs_tenant_id session) ;;
      sp <- reorder_preferred_staff session staff_members ;;
      staff_selection_response (vs_id session) sp.1 (svc_name service) sp.2
        (session_locale session)
  | SLOT_SELECTION => candidates_menu P_SELECT_SLOT session
  | TRANSFER_UNAVAILABLE => press_1_menu session
  | MANAGE_BOOKING =>
      booking <- managed_booking session ;;
      manage_booking_response session booking
  | RESCHEDULE_SLOT_SELECTION => candidates_menu P_SELECT_NEW_TIME session
  | _ =>
      prompt <- resolve_prompt P_PLEASE_MAKE_A_SELECTION (session_locale session) [] ;;
      ret (menu_response prompt [] (vs_id session))
  end.

(** [_handle_invalid_key] *)
Definition handle_invalid_key (session : VoiceSession) (reprompt : IvrResponse)
    : PyM IvrResponse :=
  s <- assign session (fun s => s <| vs_invalid_key_count ::= Z.succ |>) ;;
  if INVALID_KEY_MAX <=? vs_invalid_key_count s then
    assign session (fun s => s <| vs_step := EXPIRED |>) ;;;
    commit ;;;
    prompt <- resolve_prompt P_TOO_MANY_INVALID_KEYS (session_locale session) [] ;;
    ret (end_response prompt None)
  else
    commit ;;;
    ret reprompt.

(** [_handle_no_input] *)
Definition handle_no_input (session : VoiceSession) : PyM IvrResponse :=
  s <- assign session (fun s => s <| vs_no_input_count ::= Z.succ |>) ;;
  if NO_INPUT_MAX <=? vs_no_input_count s then
    assign session (fun s => s <| vs_step := EXPIRED |>) ;;;
    commit ;;;
    prompt <- resolve_prompt P_TOO_MANY_NO_INPUT (session_locale session) [] ;;
    ret (end_response prompt None)
  else
    commit ;;;
    reprompt <- reprompt_for_no_input s ;;
    prefix <- resolve_prompt P_NO_INPUT_PREFIX (session_locale session) [] ;;
    ret (MkIvrResponse (prefix ++ rsp_prompt reprompt)%string (rsp_options reprompt)
           (rsp_action reprompt) (rsp_session_id reprompt) (rsp_transfer_destination reprompt)).

(** A step that ends the call: [session.step = step; db.commit()] and a last prompt. *)
Definition finish (session : VoiceSession) (step : IvrStep) (key : PromptKey)
    (kwargs : list (string * string)) (session_id : option Z) : PyM IvrResponse :=
  assign session (fun s => s <| vs_step := step |>) ;;;
  commit ;;;
  prompt <- resolve_prompt key (session_locale session) kwargs ;;
  ret (end_response prompt session_id).

(** ** Step handlers *)

(** [_handle_press1_internal] *)
Definition handle_press1_internal (session : VoiceSession) : PyM IvrResponse :=
  services <- services_of session ;;
  match services with
  | [] => finish session NO_SLOTS P_NO_SERVICES [] None
  | _ =>
      assign session (fun s => s <| vs_step := SERVICE_SELECTION |>) ;;;
      commit ;;;
      service_menu P_SELECT_SERVICE session services
  end.

(** [_handle_press1_external] *)
Definition handle_press1_external (session : VoiceSession) (business : Business)
    : PyM IvrResponse :=
  let url := default ""%string (biz_external_booking_url business) in
  intent <- enqueue_external_booking_link_sms business (vs_caller_phone session) url
              (biz_external_booking_label business) ;;
  assign session (fun s => s <| vs_step := EXTERNAL_LINK_SENT |>) ;;;
  commit ;;;
  enqueue_send_notification_job (ntf_id intent) ;;;
  prompt <- resolve_prompt P_EXTERNAL_LINK_SENT (session_locale session) [] ;;
  ret (end_response prompt (Some (vs_id session))).

(** The answer when no transfer is possible. *)
Definition transfer_unavailable (session : VoiceSession) (key : PromptKey) : PyM IvrResponse :=
  let loc := session_locale session in
  assign session (fun s => s <| vs_step := TRANSFER_UNAVAILABLE |>) ;;;
  commit ;;;
  prompt <- resolve_prompt key loc [] ;;
  label <- resolve_prompt P_LABEL_BOOK_APPOINTMENT loc [] ;;
  ret (menu_response prompt [MkIvrOption "1" label] (vs_id session)).

(** [_handle_transfer_request] *)
Definition handle_transfer_request (session : VoiceSession) : PyM IvrResponse :=
  business <- require_business (vs_business_id session) (vs_tenant_id session) ;;
  if negb (biz_transfer_enabled business)
  then transfer_unavailable session P_TRANSFER_DISABLED
  else
    destination <- resolve_transfer_destination business (vs_tenant_id session) ;;
    match destination with
    | None => transfer_unavailable session P_TRANSFER_NO_STAFF
    | Some d =>
        assign session (fun s => s <| vs_step := ABANDONED |>
                                   <| vs_transfer_destination := Some d |>) ;;;
        commit ;;;
        prompt <- resolve_prompt P_TRANSFERRING (session_locale session) [] ;;
        ret (MkIvrResponse prompt [] TRANSFER (Some (vs_id session)) (Some d))
    end.

(** [_handle_transfer_unavailable] *)
Definition handle_transfer_unavailable (session : VoiceSession) (key : string)
    : PyM IvrResponse :=
  if String.eqb key "1" then
    business <- require_business (vs_business_id session) (vs_tenant_id session) ;;
    assign session (fun s => s <| vs_step := INCOMING |>) ;;;
    commit ;;;
    main_menu_response (vs_id session) (biz_booking_mode business) None (session_locale session)
  else
    reprompt <- press_1_menu session ;;
    handle_invalid_key session reprompt.

(** [_handle_manage_booking_request] *)
Definition handle_manage_booking_request (session : VoiceSession) : PyM IvrResponse :=
  customer <- get_customer_by_phone (vs_business_id session) (vs_tenant_id session)
                (vs_caller_phone session) ;;
  booking <- match customer with
             | Some c => get_next_confirmed_booking (vs_business_id session) (vs_tenant_id session)
                           (cus_id c)
             | None => ret None
             end ;;
  match booking with
  | None =>
      reprompt <- main_menu session ;;
      prefix <- resolve_prompt P_NO_UPCOMING_BOOKING_PREFIX (session_locale session) [] ;;
      ret (MkIvrResponse (prefix ++ rsp_prompt reprompt)%string (rsp_options reprompt)
             (rsp_action reprompt) (rsp_session_id reprompt) None)
  | Some b =>
      assign session (fun s => s <| vs_managed_booking_id := Some (bk_id b) |>
                                 <| vs_step := MANAGE_BOOKING |>) ;;;
      commit ;;;
      manage_booking_response session b
  end.

(** [_handle_incoming] *)
Definition handle_incoming (session : VoiceSession) (key : string) : PyM IvrResponse :=
  if String.eqb key "1" then
    business <- require_business (vs_business_id session) (vs_tenant_id session) ;;
    if String.eqb (biz_booking_mode business) MODE_EXTERNAL_BOOKING_LINK
    then handle_press1_external session business
    else handle_press1_internal session
  else if String.eqb key "2" then handle_transfer_request session
  else if String.eqb key "3" then handle_manage_booking_request session
  else
    reprompt <- main_menu session ;;
    handle_invalid_key session reprompt.

(** [_handle_manage_booking] *)
Definition handle_manage_booking (session : VoiceSession) (key : string) : PyM IvrResponse :=
  booking <- managed_booking session ;;
  if String.eqb key "1" then
    cancel_booking (bk_id booking) (vs_business_id session) (vs_tenant_id session)
      (Some "customer_ivr_cancel"%string) None false ;;;
    finish session STEP_BOOKING_CANCELLED P_BOOKING_CANCELLED [] (Some (vs_id session))
  else if String.eqb key "2" then
    slots <- find_slots session (bk_service_id booking) None ;;
    match slots with
    | [] => finish session NO_SLOTS P_NO_SLOTS_TO_RESCHEDULE [] None
    | _ =>
        assign session (fun s => s <| vs_slot_candidates := Some slots |>
                                   <| vs_step := RESCHEDULE_SLOT_SELECTION |>) ;;;
        commit ;;;
        slot_menu P_SELECT_NEW_TIME session [] slots
    end
  else if String.eqb key "3" then
    business <- require_business (vs_business_id session) (vs_tenant_id session) ;;
    assign session (fun s => s <| vs_step := INCOMING |>) ;;;
    commit ;;;
    main_menu_response (vs_id session) (biz_booking_mode business) None (session_locale session)
  else
    reprompt <- manage_booking_response session booking ;;
    handle_invalid_key session reprompt.

(** The last assignments of a call that ends with a booking. *)
Definition record_booking (session : VoiceSession) (booking_id : Z) (slot : Z * Z)
    (key : PromptKey) : PyM IvrResponse :=
  assign session (fun s => s <| vs_booking_id := Some booking_id |>
    <| vs_selected_slot_start := Some slot.1 |> <| vs_selected_slot_end := Some slot.2 |>
    <| vs_step := STEP_BOOKING_CONFIRMED |>) ;;;
  commit ;;;
  prompt <- resolve_prompt key (session_locale session)
    [("when"%string, format_slot slot.1 slot.2)] ;;
  ret (end_response prompt (Some (vs_id session))).

(** [_handle_reschedule_slot_selection] *)
Definition handle_reschedule_slot_selection (session : VoiceSession) (key : string)
    : PyM IvrResponse :=
  match vs_slot_candidates session with
  | None => finish session NO_SLOTS P_NO_SLOTS [] None
  | Some candidates =>
      match chosen_index key (length candidates) ≫= (fun i => candidates !! i) with
      | None =>
          reprompt <- slot_menu P_INVALID_SELECT_NEW_TIME session [] candidates ;;
          handle_invalid_key session reprompt
      | Some chosen =>
          new_booking <- match vs_managed_booking_id session with
            | Some k => reschedule_booking k (vs_business_id session) (vs_tenant_id session)
                chosen.1 (Some "customer_rescheduled_via_ivr"%string) None SOURCE_IVR
            | None => domain_error NotFoundError "Booking not found"
            end ;;
          record_booking session (bk_id new_booking) chosen P_BOOKING_RESCHEDULED
      end
  end.

(** [_proceed_to_slot_search] *)
Definition proceed_to_slot_search (session : VoiceSession) (service : Service)
    : PyM IvrResponse :=
  current <- refresh session ;;
  slots <- find_slots session (svc_id service) (vs_selected_staff_id current) ;;
  match slots with
  | [] =>
      finish session NO_SLOTS P_NO_SLOTS_FOR_SERVICE [("service_name"%string, svc_name service)] None
  | _ =>
      assign session (fun s => s <| vs_slot_candidates := Some slots |>
                                 <| vs_step := SLOT_SELECTION |>) ;;;
      commit ;;;
      slot_menu P_AVAILABLE_SLOTS_FOR_SERVICE session
        [("service_name"%string, svc_name service)] slots
  end.

(** [_handle_service_selection] *)
Definition handle_service_selection (session : VoiceSession) (key : string) : PyM IvrResponse :=
  services <- services_of session ;;
  match services with
  | [] => finish session NO_SLOTS P_NO_SERVICES [] None
  | _ =>
      match chosen_index key (length (take 9 services)) ≫= (fun i => services !! i) with
      | None =>
          reprompt <- service_menu P_INVALID_SELECT_SERVICE session services ;;
          handle_invalid_key session reprompt
      | Some service =>
          assign session (fun s => s <| vs_selected_service_id := Some (svc_id service) |>) ;;;
          staff_members <- schedulable_staff (vs_business_id session) (vs_tenant_id session) ;;
          match staff_members with
          | [] | [_] =>
              assign session (fun s => s <| vs_selected_staff_id := stf_id <$> head staff_members |>) ;;;
              proceed_to_slot_search session service
          | _ =>
              sp <- reorder_preferred_staff session staff_members ;;
              assign session (fun s => s <| vs_step := STAFF_SELECTION |>) ;;;
              commit ;;;
              staff_selection_response (vs_id session) sp.1 (svc_name service) sp.2
                (session_locale session)
          end
      end
  end.

(** [_handle_staff_selection] *)
Definition handle_staff_selection (session : VoiceSession) (key : string) : PyM IvrResponse :=
  service <- selected_service session ;;
  staff_members <- schedulable_staff (vs_business_id session) (vs_tenant_id session) ;;
  sp <- reorder_preferred_staff session staff_members ;;
  if String.eqb key "0" then
    assign session (fun s => s <| vs_selected_staff_id := None |>) ;;;
    proceed_to_slot_search session service
  else
    match chosen_index key (length (take 9 sp.1)) ≫= (fun i => sp.1 !! i) with
    | None =>
        reprompt <- staff_selection_response (vs_id session) sp.1 (svc_name service) sp.2
                      (session_locale session) ;;
        handle_invalid_key session reprompt
    | Some member =>
        assign session (fun s => s <| vs_selected_staff_id := Some (stf_id member) |>) ;;;
        proceed_to_slot_search session service
    end.

(** [create_booking] for the session's caller and choices. *)
Definition book_selected (session : VoiceSession) (customer : Customer) (starts_at : Z)
    : PyM Booking :=
  match vs_selected_service_id session with
  | Some service_id =>
      create_booking (vs_tenant_id session) (vs_business_id session) (cus_id customer) service_id
        (vs_selected_staff_id session) starts_at SOURCE_IVR None false None
  | None =>
      require_business (vs_business_id session) (vs_tenant_id session) ;;;
      require_customer_in_business (cus_id customer) (vs_business_id session)
        (vs_tenant_id session) ;;;
      domain_error NotFoundError "Service not found"
  end.

(** [_handle_slot_selection] *)
Definition handle_slot_selection (session : VoiceSession) (key : string) : PyM IvrResponse :=
  match vs_slot_candidates session with
  | None => finish session NO_SLOTS P_NO_SLOTS [] None
  | Some candidates =>
      match chosen_index key (length candidates) ≫= (fun i => candidates !! i) with
      | None =>
          reprompt <- slot_menu P_INVALID_SELECT_SLOT session [] candidates ;;
          handle_invalid_key session reprompt
      | Some chosen =>
          customer <- get_or_create_customer (vs_tenant_id session) (vs_business_id session)
                        (vs_caller_phone session) None ;;
          booking <- book_selected session customer chosen.1 ;;
          record_booking session (bk_id booking) chosen P_BOOKING_CONFIRMED
      end
  end.

(** ** Entry points *)

Definition start_session (business_id tenant_id : Z) (caller_phone : string)
    : PyM (VoiceSession * IvrResponse) :=
  business <- require_business business_id tenant_id ;;
  now <- now_utc ;;
  let expires_at := now + timedelta_minutes ivr_session_ttl_minutes in
  session <- db_insert (fun id created =>
    MkVoiceSession id tenant_id business_id caller_phone INCOMING (biz_language business)
      None None None None None None None 0 0 None None expires_at created created) ;;
  commit ;;;
  session <- refresh session ;;
  greeting_name <- lookup_returning_caller_name business_id tenant_id caller_phone ;;
  response <- main_menu_response (vs_id session) (biz_booking_mode business) greeting_name
                (session_locale session) ;;
  ret (session, response).

(** The dispatch of [handle_keypress] on the step of a live session. *)
Definition handle_step (session : VoiceSession) (key : string) : PyM IvrResponse :=
  match vs_step session with
  | INCOMING => handle_incoming session key
  | SERVICE_SELECTION => handle_service_selection session key
  | STAFF_SELECTION => handle_staff_selection session key
  | SLOT_SELECTION => handle_slot_selection session key
  | TRANSFER_UNAVAILABLE => handle_transfer_unavailable session key
  | MANAGE_BOOKING => handle_manage_booking session key
  | RESCHEDULE_SLOT_SELECTION => handle_reschedule_slot_selection session key
  | _ =>
      prompt <- resolve_prompt P_UNEXPECTED_STATE (session_locale session) [] ;;
      ret (end_response prompt None)
  end.

Definition handle_keypress (session_id tenant_id : Z) (key : string) : PyM IvrResponse :=
  session <- find_pk session_id (fun s => vs_tenant_id s =? tenant_id) ;;
  session <- require "Voice session not found" session ;;
  now <- now_utc ;;
  let loc := session_locale session in
  if vs_expires_at session <=? now then
    when (negb (terminal_step (vs_step session)))
      (assign session (fun s => s <| vs_step := EXPIRED |>) ;;; commit) ;;;
    prompt <- resolve_prompt P_SESSION_EXPIRED loc [] ;;
    ret (end_response prompt None)
  else if terminal_step (vs_step session) then
    prompt <- resolve_prompt P_SESSION_ALREADY_COMPLETE loc [] ;;
    ret (end_response prompt None)
  else if String.eqb key "" then handle_no_input session
  else
    (if vs_no_input_count session =? 0 then ret session
     else assign session (fun s => s <| vs_no_input_count := 0 |>)) ;;;
    if existsb (String.eqb key) REPEAT_KEYS then
      commit ;;;
      reprompt_for_no_input session
    else handle_step session key.
End Ivr.
