(* ===== verification/Twilio.v ===== *)
(** * Twilio: the webhooks of the telephone service

    app/core/twilio_security.py, app/services/twilio_voice_adapter.py and the routes of
    app/api/routes/twilio_voice.py and twilio_sms.py.  Twilio posts a form; the routes count
    it against the rate limit, check its signature and answer with TwiML, the XML the
    telephone service acts on. *)

From S2P Require Import Prelude Py Effects Schema Settings Orm AuditTrail Directory JobQueue.
From S2P Require Import Users RateLimit PublicLink Booking SelfService IvrPrompts Ivr.

(** ** TwiML *)

Definition quotation_mark : ascii := "034"%char.
Definition quoted (s : string) : string :=
  (String quotation_mark s ++ String quotation_mark EmptyString)%string.
Definition line (s : string) : string := (s ++ String "010"%char EmptyString)%string.

(** [html.escape] *)
Definition escape_html_char (c : ascii) : list ascii :=
  if Ascii.eqb c "&"%char then chars "&amp;"
  else if Ascii.eqb c "<"%char then chars "&lt;"
  else if Ascii.eqb c ">"%char then chars "&gt;"
  else if Ascii.eqb c quotation_mark then chars "&quot;"
  else if Ascii.eqb c "'"%char then chars "&#x27;"
  else [c].
Definition html_escape (s : string) : string := of_chars (flat_map escape_html_char (chars s)).

Definition TWIML_LANGUAGE_BY_LOCALE : list (string * string) := [("en", "en-US"); ("pl", "pl-PL")]%string.
Definition DEFAULT_TWIML_LANGUAGE : string := "en-US".
Definition twiml_language (locale : string) : string :=
  match find (fun kv => String.eqb kv.1 locale) TWIML_LANGUAGE_BY_LOCALE with
  | Some kv => kv.2
  | None => DEFAULT_TWIML_LANGUAGE
  end.

Definition xml_declaration : string :=
  ("<?xml version=" ++ quoted "1.0" ++ " encoding=" ++ quoted "UTF-8" ++ "?>")%string.
Definition say (language text : string) : string :=
  ("<Say language=" ++ quoted language ++ ">" ++ text ++ "</Say>")%string.

(** [x or y] of two optional strings. *)
Definition str_or (x y : option string) : option string := if opt_truthy x then x else y.

Definition ivr_to_twiml (response : IvrResponse) (gather_action_url transfer_to : option string)
    (locale : string) : PyM string :=
  let prompt := html_escape (rsp_prompt response) in
  let language := twiml_language locale in
  if bool_decide (rsp_action response = CONTINUE) && opt_truthy gather_action_url then
    let url := html_escape (default ""%string gather_action_url) in
    goodbye <- resolve_prompt P_NO_INPUT_GOODBYE locale [] ;;
    let no_input_goodbye := html_escape goodbye in
    ret (line xml_declaration
         ++ line "<Response>"
         ++ line ("  <Gather numDigits=" ++ quoted "1" ++ " action=" ++ quoted url ++ " method="
                    ++ quoted "POST" ++ ">")
         ++ line ("    " ++ say language prompt)
         ++ line "  </Gather>"
         ++ line ("  " ++ say language no_input_goodbye)
         ++ line "  <Hangup/>"
         ++ "</Response>")%string
  else if bool_decide (rsp_action response = TRANSFER) && opt_truthy transfer_to then
    let number := html_escape (default ""%string transfer_to) in
    ret (line xml_declaration
         ++ line "<Response>"
         ++ line ("  " ++ say language prompt)
         ++ line ("  <Dial>" ++ number ++ "</Dial>")
         ++ "</Response>")%string
  else
    ret (line xml_declaration
         ++ line "<Response>"
         ++ line ("  " ++ say language prompt)
         ++ line "  <Hangup/>"
         ++ "</Response>")%string.

(** ** Requests from Twilio *)

(** The address posted to, the form and the [X-Twilio-Signature] header. *)
Record TwilioRequest : Type := MkTwilioRequest {
  tw_peer : Peer;
  tw_url : string;
  tw_form : gmap string string;
  tw_signature : option string }.

(** A form parameter; an empty value counts as absent. *)
Definition form_field (request : TwilioRequest) (alias : string) : option string :=
  match tw_form request !! alias with
  | Some v => if truthy v then Some v else None
  | None => None
  end.

Definition required_field (request : TwilioRequest) (alias : string) : PyM string :=
  match form_field request alias with
  | Some v => ret v
  | None => raise (HTTPException 422 "Request validation failed")
  end.

Section Twilio.
Context `{Config}.

(** The text that is signed: the address followed by the fields in the order of their names. *)
Definition signed_form (url : string) (form_data : gmap string string) : string :=
  (url ++ String.concat "" (map (fun kv => kv.1 ++ kv.2)
                              (sort_leb (fun a b => String.leb a.1 b.1) (map_to_list form_data))))%string.

Definition verify_twilio_signature (url : string) (form_data : gmap string string)
    (signature auth_token : string) : PyM unit :=
  if negb (truthy auth_token) then ret tt
  else
    same <- compare_digest (hmac_sha1_base64 auth_token (signed_form url form_data)) signature ;;
    if negb same then raise (TwilioSignatureError "Invalid Twilio signature") else ret tt.

Definition check_signature (request : TwilioRequest) : PyM unit :=
  if negb (truthy twilio_auth_token) then ret tt
  else
    match tw_signature request with
    | None => raise (HTTPException 403 "Missing Twilio signature")
    | Some signature =>
        if negb (truthy signature) then raise (HTTPException 403 "Missing Twilio signature")
        else
          catch (verify_twilio_signature (tw_url request) (tw_form request) signature
                   twilio_auth_token)
            (fun e => match e with
                      | TwilioSignatureError _ =>
                          Some (raise (HTTPException 403 "Invalid Twilio signature"))
                      | _ => None
                      end)
    end.

(** ** twilio_sms.py *)

Definition enforce_sms_status_rate_limit (request : Peer) : PyM unit :=
  enforce_rate_limit_counter ("rate_limit:twilio_sms_status:" ++ get_client_ip request)%string
    twilio_sms_status_rate_limit_limit twilio_sms_status_rate_limit_window_seconds.

Definition enforce_sms_inbound_rate_limit (request : Peer) : PyM unit :=
  enforce_rate_limit_counter ("rate_limit:twilio_sms_inbound:" ++ get_client_ip request)%string
    twilio_sms_inbound_rate_limit_limit twilio_sms_inbound_rate_limit_window_seconds.

(** [_TWILIO_FAILED] *)
Definition TWILIO_FAILED : list string := ["failed"; "undelivered"].

Definition twilio_sms_status (request : TwilioRequest) : PyM unit :=
  sms_sid <- required_field request "SmsSid" ;;
  message_status <- required_field request "MessageStatus" ;;
  enforce_sms_status_rate_limit (tw_peer request) ;;;
  check_signature request ;;;
  notification <- first (fun n => match ntf_provider_message_id n with
                                  | Some s => String.eqb s sms_sid
                                  | None => false
                                  end) ;;
  match notification with
  | None => ret tt
  | Some n =>
      if bool_decide (ntf_status n = NTF_SENT)
         && existsb (String.eqb message_status) TWILIO_FAILED
      then
        save (n <| ntf_status := NTF_FAILED |>
                <| ntf_last_error := Some ("twilio_delivery_" ++ message_status)%string |>) ;;;
        commit
      else ret tt
  end.

Definition twilio_sms_inbound (request : TwilioRequest) (business_id : Z) : PyM unit :=
  from_phone <- required_field request "From" ;;
  let body := default ""%string (form_field request "Body") in
  enforce_sms_inbound_rate_limit (tw_peer request) ;;;
  check_signature request ;;;
  business <- get_business_global business_id ;;
  match business with
  | None => ret tt
  | Some z => handle_sms_reply business_id (biz_tenant_id z) from_phone body ;;; ret tt
  end.

(** ** twilio_voice.py *)

Definition BACKEND_UNAVAILABLE_TWIML : string :=
  (xml_declaration ++ "<Response><Say>We're experiencing technical difficulties. "
     ++ "Please call back later. Goodbye.</Say><Hangup/></Response>")%string.
Definition NOT_CONFIGURED_TWIML : string :=
  (xml_declaration ++ "<Response><Say>Sorry, this number is not configured. "
     ++ "Goodbye.</Say><Hangup/></Response>")%string.
Definition SESSION_NOT_FOUND_TWIML : string :=
  (xml_declaration ++ "<Response><Say>Session not found. Please call again."
     ++ "</Say><Hangup/></Response>")%string.

Definition enforce_voice_rate_limit (request : Peer) : PyM unit :=
  enforce_rate_limit_counter ("rate_limit:twilio_voice:" ++ get_client_ip request)%string
    twilio_voice_rate_limit_limit twilio_voice_rate_limit_window_seconds.

Definition gather_url (session_id : Z) : string :=
  (rstrip_slash twilio_voice_base_url ++ "/api/v1/webhooks/twilio/voice/"
     ++ string_of_Z session_id)%string.

(** The outer [try] of both routes. *)
Definition or_backend_unavailable (handler : PyM string) : PyM string :=
  catch handler (fun e => match e with
                          | HTTPException code _ =>
                              if code =? 503 then Some (ret BACKEND_UNAVAILABLE_TWIML) else None
                          | _ => None
                          end).

Definition twilio_voice_inbound (request : TwilioRequest) : PyM string :=
  call_sid <- required_field request "CallSid" ;;
  let caller := default ""%string (form_field request "From") in
  let called := default ""%string (form_field request "To") in
  or_backend_unavailable
    (enforce_voice_rate_limit (tw_peer request) ;;;
     check_signature request ;;;
     business <- get_business_by_inbound_phone called ;;
     match business with
     | None => ret NOT_CONFIGURED_TWIML
     | Some business =>
         existing <- first (fun s => match vs_call_sid s with
                                     | Some sid => String.eqb sid call_sid
                                     | None => false
                                     end) ;;
         match existing with
         | Some existing =>
             ivr_response <- handle_keypress (vs_id existing) (vs_tenant_id existing) "" ;;
             let transfer_to := str_or (rsp_transfer_destination ivr_response)
                                  (biz_transfer_phone_number business) in
             existing <- refresh existing ;;
             ivr_to_twiml ivr_response (Some (gather_url (vs_id existing))) transfer_to
               (vs_locale existing)
         | None =>
             started <- catch (s <- start_session (biz_id business) (biz_tenant_id business)
                                      (if truthy caller then caller else "unknown"%string) ;;
                               ret (Some s))
                          (fun e => match e with
                                    | DomainError NotFoundError _ => Some (ret None)
                                    | _ => None
                                    end) ;;
             match started with
             | None => ret NOT_CONFIGURED_TWIML
             | Some (session, ivr_response) =>
                 session <- refresh session ;;
                 db_update (session <| vs_call_sid := Some call_sid |>) ;;;
                 commit ;;;
                 ivr_to_twiml ivr_response (Some (gather_url (vs_id session)))
                   (biz_transfer_phone_number business) (vs_locale session)
             end
         end
     end).

Definition twilio_voice_keypress (request : TwilioRequest) (session_id : Z) : PyM string :=
  let digits := default ""%string (form_field request "Digits") in
  or_backend_unavailable
    (enforce_voice_rate_limit (tw_peer request) ;;;
     check_signature request ;;;
     session <- find_pk session_id (fun s => true) ;;
     match session with
     | None => ret SESSION_NOT_FOUND_TWIML
     | Some session =>
         business <- get_business_global (vs_business_id session) ;;
         pressed <- catch (r <- handle_keypress session_id (vs_tenant_id session) digits ;;
                           ret (Some r))
                      (fun e => match e with
                                | DomainError NotFoundError _ => Some (ret None)
                                | _ => None
                                end) ;;
         match pressed with
         | None => ret SESSION_NOT_FOUND_TWIML
         | Some ivr_response =>
             let transfer_to :=
               str_or (rsp_transfer_destination ivr_response)
                 (match business with
                  | Some business => biz_transfer_phone_number business
                  | None => None
                  end) in
             session <- refresh session ;;
             ivr_to_twiml ivr_response (Some (gather_url session_id)) transfer_to (vs_locale session)
         end
     end).
End Twilio.
