(* ===== verification/TwilioBehaviour.v ===== *)
(** * TwilioBehaviour: what the telephone service is told, and who may tell the routes

    The TwiML of an answer reads back as the markup of its action around the very texts the
    menu produced, whatever characters they hold; and once an auth token is configured, a
    request without the signature of its own form changes nothing. *)

From S2P Require Import Prelude Py Effects Schema Settings Orm AuditTrail Directory JobQueue.
From S2P Require Import Frames Users RateLimit PublicLink Booking SelfService IvrPrompts Ivr Twilio.

(** ** Reading XML *)

Inductive Token : Type :=
  | Markup (s : string)
  | Text (s : string).

(** The characters that the five entities of [html.escape] stand for. *)
Fixpoint unescape (l : list ascii) : list ascii :=
  match l with
  | "&"%char :: "a"%char :: "m"%char :: "p"%char :: ";"%char :: r => "&"%char :: unescape r
  | "&"%char :: "l"%char :: "t"%char :: ";"%char :: r => "<"%char :: unescape r
  | "&"%char :: "g"%char :: "t"%char :: ";"%char :: r => ">"%char :: unescape r
  | "&"%char :: "q"%char :: "u"%char :: "o"%char :: "t"%char :: ";"%char :: r =>
      quotation_mark :: unescape r
  | "&"%char :: "#"%char :: "x"%char :: "2"%char :: "7"%char :: ";"%char :: r => "'"%char :: unescape r
  | c :: r => c :: unescape r
  | [] => []
  end.

Definition is_nil {A} (l : list A) : bool := match l with [] => true | _ => false end.

(** Text up to the next tag, then the tag; the texts are unescaped, and nothing follows the
    last tag. *)
Fixpoint read_xml (fuel : nat) (l : list ascii) : option (list Token) :=
  match fuel with
  | O => None
  | S fuel =>
      match split_at "<"%char l with
      | None => if is_nil l then Some [] else None
      | Some (text, r) =>
          '(tag, rest) ← split_at ">"%char r;
          tokens ← read_xml fuel rest;
          Some ((if is_nil text then [] else [Text (of_chars (unescape text))])
                ++ Markup (of_chars tag) :: tokens)
      end
  end.

Definition read_document (s : string) : option (list Token) :=
  read_xml (S (String.length s)) (chars s).

(** The value of the second attribute of a tag. *)
Definition second_attribute (tag : string) : option string :=
  '(_, r) ← split_at quotation_mark (chars tag);
  '(_, r) ← split_at quotation_mark r;
  '(_, r) ← split_at quotation_mark r;
  '(v, _) ← split_at quotation_mark r;
  Some (of_chars (unescape v)).

(** ** What an answer means *)

Definition texts (s : string) : list Token := if truthy s then [Text s] else [].
Definition newline_text (indent : nat) : Token :=
  Text (String "010"%char (of_chars (repeat " "%char indent))).

Definition document_of (body : list Token) : list Token :=
  Markup ("?xml version=" ++ quoted "1.0" ++ " encoding=" ++ quoted "UTF-8" ++ "?")
    :: newline_text 0 :: Markup "Response" :: body ++ [newline_text 0; Markup "/Response"].
Definition spoken (indent : nat) (language text : string) : list Token :=
  newline_text indent :: Markup ("Say language=" ++ quoted language) :: texts text ++ [Markup "/Say"].
Definition hangup : list Token := [newline_text 2; Markup "Hangup/"].
Definition gather_tag (url : string) : string :=
  ("Gather numDigits=" ++ quoted "1" ++ " action=" ++ quoted (html_escape url) ++ " method="
     ++ quoted "POST")%string.

(** A menu is read out while waiting for a digit, and the call ends with a goodbye when none
    comes; a transfer dials the number; anything else is said before hanging up. *)
Definition meaning (response : IvrResponse) (gather_action_url transfer_to : option string)
    (language goodbye : string) : list Token :=
  let prompt := rsp_prompt response in
  match rsp_action response, str_or gather_action_url None, str_or transfer_to None with
  | CONTINUE, Some url, _ =>
      document_of (newline_text 2 :: Markup (gather_tag url) :: spoken 4 language prompt
                     ++ [newline_text 2; Markup "/Gather"] ++ spoken 2 language goodbye ++ hangup)
  | TRANSFER, _, Some number =>
      document_of (spoken 2 language prompt
                     ++ newline_text 2 :: Markup "Dial" :: texts number ++ [Markup "/Dial"])
  | _, _, _ => document_of (spoken 2 language prompt ++ hangup)
  end.

(** ** Escaping *)

Definition free_of (c : ascii) (l : list ascii) : bool := forallb (fun x => negb (Ascii.eqb x c)) l.

Lemma unescape_escape l : unescape (flat_map escape_html_char l) = l.
Proof.
  induction l as [|c l IH]; [done|]. cbn [flat_map].
  transitivity (c :: unescape (flat_map escape_html_char l)); [|by rewrite IH].
  generalize (flat_map escape_html_char l). intros r. clear.
  by destruct c as [[] [] [] [] [] [] [] []].
Qed.

Lemma escape_free_of c l :
  In c ["<"; ">"; quotation_mark; "'"]%char -> free_of c (flat_map escape_html_char l) = true.
Proof.
  intros Hc. unfold free_of. apply forallb_forall. intros x (y & _ & Hx)%in_flat_map.
  assert (Hf : forallb (fun x => forallb (fun c => negb (Ascii.eqb x c)) ["<"; ">"; quotation_mark; "'"]%char)
                 (escape_html_char y) = true) by (by destruct y as [[] [] [] [] [] [] [] []]).
  rewrite forallb_forall in Hf. specialize (Hf x Hx). rewrite forallb_forall in Hf. by apply Hf.
Qed.

Lemma free_of_app c a b : free_of c (a ++ b) = free_of c a && free_of c b.
Proof. apply forallb_app. Qed.
Lemma free_of_cons c x l : free_of c (x :: l) = negb (Ascii.eqb x c) && free_of c l.
Proof. done. Qed.

Lemma split_free c l r : free_of c l = true -> split_at c (l ++ c :: r) = Some (l, r).
Proof.
  induction l as [|x l IH]; simpl; [by rewrite Ascii.eqb_refl|].
  intros [Hx Hl]%andb_true_iff. apply negb_true_iff in Hx. by rewrite Hx, IH.
Qed.

Lemma escape_nil s : is_nil (flat_map escape_html_char (chars s)) = negb (truthy s).
Proof. destruct s as [|c s]; [done|]. by destruct c as [[] [] [] [] [] [] [] []]. Qed.

(** ** Reading back what was written *)

Definition render (t : Token) : list ascii :=
  match t with
  | Markup s => "<"%char :: chars s ++ [">"%char]
  | Text s => flat_map escape_html_char (chars s)
  end.

(** Texts are not empty, and each is followed by a tag. *)
Fixpoint document (after_text : bool) (tokens : list Token) : bool :=
  match tokens with
  | [] => negb after_text
  | Markup s :: r => free_of ">" (chars s) && document false r
  | Text s :: r => negb after_text && truthy s && document true r
  end.

Lemma read_render n tokens fuel :
  (length tokens < n)%nat -> (length tokens < fuel)%nat -> document false tokens = true ->
  read_xml fuel (flat_map render tokens) = Some tokens.
Proof.
  revert tokens fuel. induction n as [|n IH]; intros tokens [|fuel] Hn Hf; try lia.
  destruct tokens as [|[tag|s] r]; [done| |]; cbn [document]; intros Hd.
  - apply andb_true_iff in Hd as [Ht Hr]. cbn [flat_map render read_xml app split_at].
    rewrite Ascii.eqb_refl. rewrite <- app_assoc. cbn [app]. rewrite split_free by done. cbn [mbind option_bind].
    rewrite IH by (simpl in *; first [lia | done]). simpl. by rewrite of_chars_chars.
  - apply andb_true_iff in Hd as [Hs Hr]. cbn [negb andb] in Hs.
    destruct r as [|[tag|s'] r]; [done| |done]. cbn [document] in Hr.
    apply andb_true_iff in Hr as [Ht Hr]. cbn [flat_map render read_xml].
    change (("<"%char :: chars tag ++ [">"%char]) ++ ?l) with ("<"%char :: (chars tag ++ [">"%char]) ++ l).
    rewrite split_free by (apply escape_free_of; by left).
    rewrite <- app_assoc. cbn [app]. rewrite split_free by done. cbn [mbind option_bind].
    rewrite IH by (simpl in *; first [lia | done]). simpl.
    by rewrite escape_nil, Hs, unescape_escape, !of_chars_chars.
Qed.

Lemma render_length tokens b : document b tokens = true ->
  (length tokens <= length (flat_map render tokens))%nat.
Proof.
  revert b. induction tokens as [|[tag|s] r IH]; intros b Hd; [done| |]; cbn [document] in Hd;
    cbn [flat_map]; rewrite length_app.
  - apply andb_true_iff in Hd as [_ Hr]. specialize (IH _ Hr). simpl. lia.
  - apply andb_true_iff in Hd as [[_ Hs]%andb_true_iff Hr]. specialize (IH _ Hr).
    pose proof (escape_nil s) as He. rewrite Hs in He. simpl.
    destruct (flat_map escape_html_char (chars s)); [done|]. simpl. lia.
Qed.

Lemma read_document_render s tokens :
  chars s = flat_map render tokens -> document false tokens = true ->
  read_document s = Some tokens.
Proof.
  intros Hs Hd. unfold read_document.
  assert (String.length s = length (flat_map render tokens)) as ->.
  { rewrite <- Hs. clear. by induction s as [|c s IH]; simpl; [|f_equal]. }
  rewrite Hs. apply (read_render (S (length tokens))); [lia| |done].
  pose proof (render_length _ _ Hd). lia.
Qed.

Lemma document_texts s r : document false (texts s ++ Markup "/Say" :: r) = document false r.
Proof. unfold texts. by destruct (truthy s) eqn:E; cbn; rewrite ?E. Qed.

Lemma render_texts s : flat_map render (texts s) = flat_map escape_html_char (chars s).
Proof.
  unfold texts. destruct (truthy s) eqn:E; [by rewrite <- app_nil_r|].
  unfold truthy in E. apply negb_false_iff, String.eqb_eq in E. by subst.
Qed.

Lemma chars_html_escape s : chars (html_escape s) = flat_map escape_html_char (chars s).
Proof. apply chars_of_chars. Qed.

Lemma twiml_language_tag locale :
  twiml_language locale = "pl-PL"%string \/ twiml_language locale = "en-US"%string.
Proof.
  unfold twiml_language. cbn [find TWIML_LANGUAGE_BY_LOCALE fst]. destruct (String.eqb "en" locale); [by right|].
  destruct (String.eqb "pl" locale); [by left | by right].
Qed.

Lemma chars_quoted s : chars (quoted s) = quotation_mark :: chars s ++ [quotation_mark].
Proof. unfold quoted. by rewrite chars_app. Qed.

Lemma chars_gather_tag url :
  chars (gather_tag url)
  = chars "Gather numDigits=" ++ quotation_mark :: chars "1" ++ quotation_mark
      :: chars " action=" ++ quotation_mark :: flat_map escape_html_char (chars url)
      ++ quotation_mark :: chars " method=" ++ chars (quoted "POST").
Proof.
  unfold gather_tag. rewrite !chars_app, !chars_quoted, chars_html_escape.
  cbn [app]. by rewrite <- ?app_assoc.
Qed.

Lemma gather_tag_closed url : free_of ">" (chars (gather_tag url)) = true.
Proof.
  rewrite chars_gather_tag. rewrite free_of_app, free_of_cons, free_of_app, free_of_cons,
    free_of_app, free_of_cons, free_of_app, escape_free_of by (right; by left). done.
Qed.

Lemma gather_tag_action url : second_attribute (gather_tag url) = Some url.
Proof.
  unfold second_attribute. rewrite chars_gather_tag.
  rewrite split_free by done. cbn [mbind option_bind]. rewrite split_free by done.
  cbn [mbind option_bind]. rewrite split_free by done. cbn [mbind option_bind].
  rewrite split_free by (apply escape_free_of; do 2 right; by left).
  cbn [mbind option_bind]. by rewrite unescape_escape, of_chars_chars.
Qed.

(** ** The answers *)

Lemma document_head body :
  document false (document_of body) = document false (body ++ [newline_text 0; Markup "/Response"]).
Proof. done. Qed.

Lemma document_spoken n locale text r :
  document false (spoken n (twiml_language locale) text ++ r) = document false r.
Proof.
  unfold spoken. cbn [app]. rewrite <- app_assoc. cbn [app document].
  rewrite document_texts. by destruct (twiml_language_tag locale) as [-> | ->].
Qed.

Ltac spell_out :=
  unfold document_of, spoken, hangup, newline_text, line, say, xml_declaration;
  repeat (rewrite ?flat_map_app, ?render_texts, ?chars_app, ?chars_quoted, ?chars_html_escape;
          cbn [flat_map render app]);
  rewrite ?chars_gather_tag, ?chars_quoted.

(** Texts of the source are spelled out; the texts of the answer are left as they are. *)
Ltac compare_texts :=
  repeat match goal with
         | |- context [flat_map escape_html_char (chars ?s)] =>
             is_var s; generalize (flat_map escape_html_char (chars s)); intro
         | |- context [flat_map escape_html_char (chars (rsp_prompt ?r))] =>
             generalize (flat_map escape_html_char (chars (rsp_prompt r))); intro
         | |- context [chars (twiml_language ?l)] => generalize (chars (twiml_language l)); intro
         end;
  repeat (progress (cbn; rewrite <- ?app_assoc)); reflexivity.

Lemma continue_reads_back prompt url locale goodbye :
  read_document
    (line xml_declaration ++ line "<Response>"
     ++ line ("  <Gather numDigits=" ++ quoted "1" ++ " action=" ++ quoted (html_escape url)
                ++ " method=" ++ quoted "POST" ++ ">")
     ++ line ("    " ++ say (twiml_language locale) (html_escape prompt))
     ++ line "  </Gather>"
     ++ line ("  " ++ say (twiml_language locale) (html_escape goodbye))
     ++ line "  <Hangup/>" ++ "</Response>")
  = Some (document_of
            (newline_text 2 :: Markup (gather_tag url) :: spoken 4 (twiml_language locale) prompt
               ++ [newline_text 2; Markup "/Gather"]
               ++ spoken 2 (twiml_language locale) goodbye ++ hangup)).
Proof.
  apply read_document_render.
  - spell_out. compare_texts.
  - rewrite document_head. cbn [app document]. rewrite gather_tag_closed. cbn [andb].
    rewrite <- !app_assoc, document_spoken. cbn [app document].
    rewrite <- ?app_assoc, document_spoken. done.
Qed.

Lemma transfer_reads_back prompt number locale :
  read_document
    (line xml_declaration ++ line "<Response>"
     ++ line ("  " ++ say (twiml_language locale) (html_escape prompt))
     ++ line ("  <Dial>" ++ html_escape number ++ "</Dial>") ++ "</Response>")
  = Some (document_of (spoken 2 (twiml_language locale) prompt
                         ++ newline_text 2 :: Markup "Dial" :: texts number ++ [Markup "/Dial"])).
Proof.
  apply read_document_render.
  - spell_out. compare_texts.
  - rewrite document_head, <- app_assoc, document_spoken. cbn [app document].
    rewrite <- app_assoc. unfold texts. by destruct (truthy number) eqn:E; cbn; rewrite ?E.
Qed.

Lemma hangup_reads_back prompt locale :
  read_document
    (line xml_declaration ++ line "<Response>"
     ++ line ("  " ++ say (twiml_language locale) (html_escape prompt))
     ++ line "  <Hangup/>" ++ "</Response>")
  = Some (document_of (spoken 2 (twiml_language locale) prompt ++ hangup)).
Proof.
  apply read_document_render.
  - spell_out. compare_texts.
  - by rewrite document_head, <- app_assoc, document_spoken.
Qed.

Ltac answered reads_back :=
  eexists; split; [done|]; split; [reflexivity|]; split; [apply reads_back | apply gather_tag_action].


(** ** Who may call *)

Section Signature.
Context `{Config}.

(** The four routes, and what they answer. *)
Inductive Webhook : Type :=
  | SmsStatusHook
  | SmsInboundHook (business_id : Z)
  | VoiceHook
  | PressHook (session_id : Z).

Definition post (request : TwilioRequest) (hook : Webhook) : PyM (option string) :=
  match hook with
  | SmsStatusHook => twilio_sms_status request ;;; ret None
  | SmsInboundHook b => twilio_sms_inbound request b ;;; ret None
  | VoiceHook => twiml <- twilio_voice_inbound request ;; ret (Some twiml)
  | PressHook k => twiml <- twilio_voice_keypress request k ;; ret (Some twiml)
  end.

(** The header carries the digest, under the auth token, of this very address and form. *)
Definition signed_by_twilio (request : TwilioRequest) : Prop :=
  tw_signature request
  = Some (hmac_sha1_base64 twilio_auth_token (signed_form (tw_url request) (tw_form request))).

Lemma check_signature_refuses request w :
  truthy twilio_auth_token = true -> ~ signed_by_twilio request ->
  exists e, check_signature request w = (Raise e, w).
Proof.
  intros Ht Hs. unfold check_signature, verify_twilio_signature. rewrite Ht. cbn [negb].
  destruct (tw_signature request) as [s|] eqn:Es; [|by eexists].
  destruct (truthy s); cbn [negb]; [|by eexists].
  unfold catch, bind, compare_digest.
  destruct (_ && _); [|by eexists]. unfold ret.
  destruct (String.eqb _ s) eqn:E; [|by eexists].
  apply String.eqb_eq in E. exfalso. apply Hs. unfold signed_by_twilio. by rewrite Es, E.
Qed.

Lemma check_signature_accepts request w :
  (forall k m, is_ascii (hmac_sha1_base64 k m) = true /\ truthy (hmac_sha1_base64 k m) = true) ->
  signed_by_twilio request -> check_signature request w = (Ok tt, w).
Proof.
  intros Hb Hs. unfold check_signature, verify_twilio_signature.
  destruct (negb (truthy twilio_auth_token)) eqn:Ht; [done|]. rewrite Hs.
  destruct (Hb twilio_auth_token (signed_form (tw_url request) (tw_form request))) as [Ha ->].
  cbn [negb]. unfold catch, bind, compare_digest. rewrite Ha. cbn [andb].
  unfold ret. by rewrite String.eqb_refl.
Qed.

(** The operation ends with an exception and what is committed is [D]. *)
Definition stopped {A} (D : DB) (m : PyM A) : Prop :=
  forall w, w_committed w = D -> exists e w', m w = (Raise e, w') /\ w_committed w' = D.

Lemma stopped_after {A B} D (m : PyM A) (k : A -> PyM B) :
  keeps (fun w => w_committed w = D) m -> (forall a, stopped D (k a)) -> stopped D (bind m k).
Proof.
  intros Hm Hk w Hw. unfold bind. pose proof (Hm w Hw) as Ht.
  destruct (m w) as [[a|e] w']; [by apply Hk | by eauto].
Qed.

Lemma stopped_first {A B} D (m : PyM A) (k : A -> PyM B) : stopped D m -> stopped D (bind m k).
Proof.
  intros Hm w Hw. unfold bind. destruct (Hm w Hw) as (e & w' & -> & Hw'). by eauto.
Qed.

Lemma limit_commits_nothing D key limit window :
  keeps (fun w => w_committed w = D) (enforce_rate_limit_counter key limit window).
Proof.
  unfold enforce_rate_limit_counter. keeps_steps; intros w Hw; try done.
  - unfold redis. by destruct (incr _ _ _).
Qed.

Lemma required_field_keeps P request alias : keeps P (required_field request alias).
Proof. unfold required_field. destruct (form_field _ _); [apply keeps_ret | apply keeps_raise]. Qed.
Lemma stopped_unsigned {A} D key limit window request (k : PyM A) :
  truthy twilio_auth_token = true -> ~ signed_by_twilio request ->
  stopped D (enforce_rate_limit_counter key limit window ;;; check_signature request ;;; k).
Proof.
  intros Ht Hs. apply stopped_after; [apply limit_commits_nothing|]. intros _.
  apply stopped_first. intros w Hw.
  destruct (check_signature_refuses request w Ht Hs) as [e He]. by exists e, w.
Qed.

(** [m] is refused: with an exception, or with the apology for a broken backend. *)
Definition refused_hook (D : DB) (m : PyM (option string)) : Prop :=
  forall w, w_committed w = D -> exists r w', m w = (r, w') /\ w_committed w' = D
    /\ ((exists e, r = Raise e) \/ r = Ok (Some BACKEND_UNAVAILABLE_TWIML)).

Lemma stopped_refused D (m : PyM (option string)) : stopped D m -> refused_hook D m.
Proof. intros Hm w Hw. destruct (Hm w Hw) as (e & w' & ? & ?). exists (Raise e), w'. eauto. Qed.

Lemma unavailable_refused D (m : PyM string) :
  stopped D m -> refused_hook D (twiml <- or_backend_unavailable m ;; ret (Some twiml)).
Proof.
  intros Hm w Hw. destruct (Hm w Hw) as (e & w' & He & Hw').
  unfold bind, or_backend_unavailable, catch. rewrite He.
  destruct e; try (eexists (Raise _), w'; by eauto).
  destruct (code =? 503); [eexists (Ok _), w' | eexists (Raise _), w']; by eauto.
Qed.

(** C31: only Twilio moves the telephone.  Once an auth token is configured, a request to any of
    the four Twilio routes whose header is not the digest of its own address and form -
    missing, empty, of another form, non-ASCII - ends with an error or with the apology of
    a broken backend, whatever business or session it names, and nothing it did to the
    database is kept. *)
Theorem unsigned_twilio_refused (request : TwilioRequest) (hook : Webhook) w r w' :
  truthy twilio_auth_token = true -> ~ signed_by_twilio request ->
  run_request (post request hook) w = (r, w') ->
  w_committed w' = w_committed w
  /\ ((exists e, r = Raise e) \/ r = Ok (Some BACKEND_UNAVAILABLE_TWIML)).
Proof.
  intros Ht Hs Hrun.
  assert (Hr : refused_hook (w_committed w) (post request hook)).
  { destruct hook; unfold post.
    - apply stopped_refused, stopped_first. unfold twilio_sms_status.
      do 2 (apply stopped_after; [apply required_field_keeps|]; intros ?). by apply stopped_unsigned.
    - apply stopped_refused, stopped_first. unfold twilio_sms_inbound.
      apply stopped_after; [apply required_field_keeps|]. intros ?. by apply stopped_unsigned.
    - unfold twilio_voice_inbound, required_field.
      destruct (form_field request "CallSid") as [sid|]; [|intros w1 Hw1; eexists (Raise _), w1; by eauto].
      intros w1 Hw1. eapply unavailable_refused; [by apply stopped_unsigned | done].
    - apply unavailable_refused. by apply stopped_unsigned. }
  unfold run_request in Hrun. destruct (Hr (open_session w) eq_refl) as (r0 & w0 & E & Hc & Ho).
  rewrite E in Hrun. injection Hrun as <- <-. by split.
Qed.
End Signature.
