(* ===== verification/StartupBehaviour.v ===== *)
(** * StartupBehaviour: what a process that started can rely on

    The validated settings are a fixed point of validation, their limits are usable, and a
    production deployment carries none of the development defaults. *)

From S2P Require Import Prelude Py Effects Schema Settings Orm JobQueue Users RateLimit PublicLink.
From S2P Require Import Booking SelfService Ivr Twilio TwilioBehaviour Startup.

(** ** Usable limits *)

(** Every number that a service divides by, waits for or counts to. *)
Record usable (C : Config) : Prop := {
  limits_positive : Forall (fun n => 0 < n)
    [rate_limit_default_limit; rate_limit_default_window_seconds;
     password_reset_rate_limit_limit; password_reset_rate_limit_window_seconds;
     auth_login_rate_limit_limit; auth_login_rate_limit_window_seconds;
     auth_register_rate_limit_limit; auth_register_rate_limit_window_seconds;
     tenant_signup_rate_limit_limit; tenant_signup_rate_limit_window_seconds;
     auth_refresh_rate_limit_limit; auth_refresh_rate_limit_window_seconds;
     auth_logout_rate_limit_limit; auth_logout_rate_limit_window_seconds;
     auth_demo_rate_limit_limit; auth_demo_rate_limit_window_seconds;
     twilio_voice_rate_limit_limit; twilio_voice_rate_limit_window_seconds;
     twilio_sms_status_rate_limit_limit; twilio_sms_status_rate_limit_window_seconds;
     twilio_sms_inbound_rate_limit_limit; twilio_sms_inbound_rate_limit_window_seconds;
     webhook_ingress_rate_limit_limit; webhook_ingress_rate_limit_window_seconds;
     webhook_provider_rate_limit_limit; webhook_provider_rate_limit_window_seconds];
  durations_positive : Forall (fun n => 0 < n)
    [booking_payment_hold_minutes; reminder_lead_minutes; reminder_min_advance_minutes;
     waitlist_offer_timeout_minutes; audit_log_retention_days; worker_reconciliation_stale_minutes;
     worker_processing_visibility_timeout_seconds; worker_maintenance_interval_seconds;
     worker_queue_maintenance_interval_seconds; ivr_session_ttl_minutes;
     access_token_expire_minutes; refresh_token_expire_days; password_reset_token_expire_minutes;
     password_reset_job_completion_ttl_seconds; users_cache_ttl_seconds;
     upload_presigned_url_expire_seconds; webhook_signature_tolerance_seconds;
     webhook_event_retention_days; idempotency_ttl_seconds;
     idempotency_processing_lock_ttl_seconds];
  sizes_positive : Forall (fun n => 0 < n)
    [ivr_slot_search_days; ivr_max_slots; upload_max_size_bytes; upload_stream_chunk_size_bytes;
     webhook_max_body_bytes; worker_queue_promote_batch_size];
  retries_bounded : 0 <= worker_max_retries;
  backoff_ordered : 0 < worker_retry_backoff_base_seconds <= worker_retry_backoff_max_seconds }.

Definition within (field : string * Z * Z) : Prop := field.2 <= field.1.2.

Lemma bounds_kept s : field_errors s = [] -> Forall within (bounded_fields s).
Proof.
  intros Hf. unfold field_errors in Hf. do 5 (apply app_eq_nil in Hf as [_ Hf]).
  apply List.Forall_forall. intros [[name value] least] Hin. unfold within. cbn.
  destruct (Z.ltb_spec value least) as [E|E]; [|done]. exfalso.
  assert (Hn : In name []); [|done]. rewrite <- Hf. apply in_flat_map.
  exists (name, value, least). split; [done|]. apply Z.ltb_lt in E. cbn. rewrite E. by left.
Qed.

Lemma positive_field name v : within (name, v, 1) -> 0 < v.
Proof. unfold within. cbn. lia. Qed.

(** Picks the bound of a field out of the list. *)
Ltac in_bounds :=
  cbn; first [eapply positive_field; eassumption
             | match goal with H : within (_, ?v, 0) |- 0 <= ?v => exact H end].

Lemma usable_config base s :
  field_errors s = [] -> validate_worker_backoff s = Ok s -> usable (config_of base s).
Proof.
  intros Hf Hb. unfold validate_worker_backoff in Hb.
  destruct (_ <? _) eqn:E in Hb; [done|]. bool_props. clear Hb.
  pose proof (bounds_kept s Hf) as Hall. clear Hf. unfold bounded_fields in Hall.
  repeat (apply List.Forall_cons_iff in Hall as [? Hall]).
  split.
  - repeat constructor; in_bounds.
  - repeat constructor; in_bounds.
  - repeat constructor; in_bounds.
  - in_bounds.
  - split; [in_bounds | exact E].
Qed.

(** ** Normalization *)

Lemma map_char_idem (f : ascii -> ascii) s :
  (forall c, f (f c) = f c) -> of_chars (map f (chars (of_chars (map f (chars s))))) = of_chars (map f (chars s)).
Proof.
  intros Hf. rewrite chars_of_chars, map_map. f_equal. apply map_ext. exact Hf.
Qed.

Lemma lower_idem s : lower (lower s) = lower s.
Proof. apply map_char_idem. by intros [[] [] [] [] [] [] [] []]. Qed.
Lemma upper_idem s : upper (upper s) = upper s.
Proof. apply map_char_idem. by intros [[] [] [] [] [] [] [] []]. Qed.

Lemma drop_while_idem p l : drop_while p (drop_while p l) = drop_while p l.
Proof. induction l as [|c l IH]; simpl; [done|]. destruct (p c) eqn:E; [done|]. simpl. by rewrite E. Qed.

(** Blanks at the other end do not come back when one end is stripped. *)
Lemma drop_while_snoc p l c : p c = false -> drop_while p (l ++ [c]) = drop_while p l ++ [c].
Proof.
  intros Hc. induction l as [|x l IH]; simpl; [by rewrite Hc|]. by destruct (p x).
Qed.

Lemma drop_while_rev_stable p l :
  drop_while p (rev (drop_while p (rev (drop_while p l)))) = rev (drop_while p (rev (drop_while p l))).
Proof.
  destruct (drop_while p l) as [|c m] eqn:E; [done|].
  assert (Hc : p c = false).
  { clear -E. induction l as [|x l IH]; simpl in E; [done|]. destruct (p x) eqn:Ex; [auto|].
    by injection E as <- _. }
  cbn [rev]. rewrite drop_while_snoc by done. rewrite rev_app_distr. cbn. by rewrite Hc.
Qed.

Lemma strip_idem s : strip (strip s) = strip s.
Proof.
  unfold strip. rewrite chars_of_chars, drop_while_rev_stable, rev_involutive. f_equal. apply drop_while_rev_stable.
Qed.

Lemma normalized_idem s : normalized (normalized s) = normalized s.
Proof.
  destruct s. cbv beta iota delta -[lower upper strip].
  rewrite !lower_idem, upper_idem, strip_idem. reflexivity.
Qed.

(** ** The outcome of validation *)

(** The later validators return the settings they were given. *)
Lemma environment_same name h k s s' : validate_environment_settings name h k s = Ok s' -> s' = s.
Proof.
  unfold validate_environment_settings. destruct (member _ _); [done|].
  destruct (negb _); [by intros [= <-]|]. destruct (collect_remote_environment_errors _ _ _ _); [|done].
  by intros [= <-].
Qed.

Lemma validate_ok raw s :
  validate raw = Ok s <->
  s = with_defaults (normalized raw) /\ field_errors (normalized raw) = []
  /\ validate_staging_settings s = Ok s /\ validate_production_settings s = Ok s
  /\ validate_worker_backoff s = Ok s.
Proof.
  unfold validate. set (s0 := with_defaults (normalized raw)).
  destruct (field_errors (normalized raw)) as [|f l]; [|by split; [done | intros (_ & ? & _)]].
  split.
  - destruct (validate_staging_settings s0) as [s1|] eqn:E1; [|done].
    pose proof (environment_same _ _ _ _ _ E1) as ->.
    destruct (validate_production_settings s0) as [s2|] eqn:E2; [|done].
    pose proof (environment_same _ _ _ _ _ E2) as ->.
    intros E3. assert (s = s0) as ->; [|done].
    unfold validate_worker_backoff in E3. destruct (_ <? _); [done|]. by injection E3 as <-.
  - intros (-> & _ & -> & -> & Hb). exact Hb.
Qed.

(** The settings of a started process are their own normal form. *)
Ltac normalize_settings s :=
  destruct s; cbv beta iota zeta delta -[lower upper strip String.eqb negb field_errors];
  rewrite ?lower_idem, ?upper_idem, ?strip_idem; reflexivity.

Lemma normalized_stable s : normalized (with_defaults (normalized s)) = with_defaults (normalized s).
Proof. normalize_settings s. Qed.

Lemma with_defaults_idem s : with_defaults (with_defaults s) = with_defaults s.
Proof. normalize_settings s. Qed.

Lemma field_errors_defaults s : field_errors (with_defaults s) = field_errors s.
Proof. destruct s. reflexivity. Qed.

(** ** What is guaranteed *)

(** Validation is idempotent.  Settings that a process accepted are in normal form - lower-case
    environment, defaults that depend on it filled in - and would be accepted again
    unchanged: a deployment that copies the effective settings of a running one starts. *)
Theorem accepted_settings_are_stable raw s : validate raw = Ok s -> validate s = Ok s.
Proof.
  intros (Hs & Hf & Hst & Hp & Hb)%validate_ok. apply validate_ok.
  assert (Hn : normalized s = s) by (rewrite Hs; apply normalized_stable).
  rewrite Hn. split; [|split; [|done]].
  - rewrite Hs. by rewrite with_defaults_idem.
  - rewrite Hs. by rewrite field_errors_defaults.
Qed.

Lemma named_nil x bad : named x bad = [] -> bad = false.
Proof. by destruct bad. Qed.

(** The rules a production deployment has passed. *)
Record hardened (s : Settings) : Prop := {
  secret_long : 32 <= str_len (strip (set_secret_key s));
  secret_strong : member (lower (strip (set_secret_key s))) WEAK_SECRET_KEYS = false;
  webhook_secret_long : 32 <= str_len (strip (set_webhook_signature_secret s));
  webhook_secret_strong : member (lower (strip (set_webhook_signature_secret s))) WEAK_SECRET_KEYS = false;
  forwarded_trusted : set_rate_limit_trust_forwarded_headers s = true;
  uploads_scanned : set_upload_malware_scan_enabled s = true;
  scanner_known : is_blank (set_upload_malware_scanner_url s) = false;
  mail_configured : is_blank (set_smtp_host s) = false;
  reset_link_public : member (set_password_reset_url s) LOCAL_PASSWORD_RESET_URLS = false;
  origins_listed : set_cors_enabled s = true ->
    parse_csv_setting (set_cors_allow_origins s) <> []
    /\ member "*" (parse_csv_setting (set_cors_allow_origins s)) = false;
  twilio_token_set :
    is_blank (set_twilio_account_sid s) = false \/ is_blank (set_twilio_sms_from s) = false
    \/ is_blank (set_twilio_voice_number s) = false \/ is_blank (set_twilio_voice_base_url s) = false ->
    is_blank (set_twilio_auth_token s) = false }.

Ltac split_rules H :=
  repeat match type of H with
         | _ ++ _ = [] => let H' := fresh "Hr" in apply app_eq_nil in H as [H' H]
         end.

Lemma environment_passed name h k s :
  validate_environment_settings name h k s = Ok s -> set_environment s = name ->
  member (lower (strip (set_secret_key s))) WEAK_SECRET_KEYS = false
  /\ collect_remote_environment_errors name h k s = [].
Proof.
  unfold validate_environment_settings. intros H <-. rewrite String.eqb_refl in H.
  destruct (member _ _); [done|]. cbn [negb] in H.
  destruct (collect_remote_environment_errors _ _ _ _); [done | done].
Qed.

Lemma production_hardened s :
  validate_production_settings s = Ok s -> set_environment s = "production"%string -> hardened s.
Proof.
  intros Hp Henv. apply environment_passed in Hp as [Hweak He]; [|done].
  unfold collect_remote_environment_errors in He. cbv zeta in He. split_rules He.
  repeat match goal with H : named _ _ = [] |- _ => apply named_nil in H end.
  rewrite String.eqb_refl in *. cbn [negb andb] in *. bool_props.
  destruct (String.eqb (strip (set_webhook_signature_secret s)) "") eqn:Hblank; [done|].
  destruct (member (lower (strip (set_webhook_signature_secret s))) WEAK_SECRET_KEYS) eqn:Hwk; [done|].
  repeat match goal with H : named _ _ = [] |- _ => apply named_nil in H end. bool_props.
  split; try done.
  - intros Hc. rewrite Hc in *. cbn [andb] in *. by bool_props.
  - intros Ht. destruct (is_blank (set_twilio_auth_token s)); [|done].
    rewrite andb_true_r in *. bool_props.
    destruct Ht as [Ht|[Ht|[Ht|Ht]]]; congruence.
Qed.

(** Staging asks for less. *)
Lemma staging_asks_less s :
  collect_remote_environment_errors "production" true true s = [] ->
  collect_remote_environment_errors "staging" false false s = [].
Proof.
  assert (Happ : forall a b : list string, a = [] -> b = [] -> a ++ b = []) by (by intros ? ? -> ->).
  assert (Hname : forall x y b, named x b = [] -> named y b = []) by (by intros ? ? []).
  intros He. unfold collect_remote_environment_errors in *. cbv zeta in *. split_rules He.
  repeat (apply Happ; [first [by eapply Hname; eassumption | done]|]). done.
Qed.

Definition as_staging (s : Settings) : Settings := s <| set_environment := "staging"%string |>.

Lemma as_staging_collect name h k s :
  collect_remote_environment_errors name h k (as_staging s)
  = collect_remote_environment_errors name h k s.
Proof. destruct s. reflexivity. Qed.

Lemma as_staging_fields s : field_errors s = [] -> field_errors (as_staging s) = [].
Proof.
  intros Hf. unfold field_errors in Hf. apply app_eq_nil in Hf as [H1 [H2 H3]%app_eq_nil].
  match type of H1 with ?X = _ => match type of H3 with ?Y = _ =>
    change (field_errors (as_staging s)) with (X ++ [] ++ Y) end end.
  by rewrite H1, H3.
Qed.

Lemma as_staging_normal s :
  normalized s = s -> with_defaults s = s ->
  normalized (as_staging s) = as_staging s /\ with_defaults (as_staging s) = as_staging s.
Proof.
  intros Hn Hd. split.
  - transitivity (as_staging (normalized s)); [|by rewrite Hn].
    destruct s. cbv beta iota delta -[lower upper strip]. reflexivity.
  - assert (exists m l, set_metrics_require_auth s = Some m /\ set_legacy_routes_enabled s = Some l)
      as (m & l & Hm & Hl) by (rewrite <- Hd; eauto).
    clear Hn Hd. destruct s. cbn in Hm, Hl. subst. reflexivity.
Qed.

(** C33: a production deployment is not a development one.  When settings are accepted for
    production, the secrets have at least 32 characters and are no placeholder, uploads are
    scanned, forwarded addresses are believed (the proxy sets them), origins are listed, mail
    can be sent; every limit, duration and size the services use is positive and the back-off
    of the worker is ordered; and as soon as any part of Twilio is configured, a request
    to its routes without the signature of its own form is refused.  The same settings
    are accepted for staging. *)
Theorem production_is_hardened raw s base :
  validate raw = Ok s -> set_environment s = "production"%string ->
  hardened s /\ usable (config_of base s)
  /\ (is_blank (set_twilio_account_sid s) = false \/ is_blank (set_twilio_sms_from s) = false
      \/ is_blank (set_twilio_voice_number s) = false
      \/ is_blank (set_twilio_voice_base_url s) = false ->
      forall request w, ~ signed_by_twilio (H := config_of base s) request ->
        exists e, check_signature (H := config_of base s) request w = (Raise e, w))
  /\ validate (as_staging s) = Ok (as_staging s).
Proof.
  intros (Hs & Hf & Hst & Hp & Hb)%validate_ok Henv.
  assert (Hn : normalized s = s) by (rewrite Hs; apply normalized_stable).
  assert (Hd : with_defaults s = s) by (rewrite Hs; by rewrite with_defaults_idem).
  assert (Hfs : field_errors s = []) by (rewrite Hs; by rewrite field_errors_defaults).
  pose proof (production_hardened s Hp Henv) as Hh.
  split; [done|]. split; [by apply usable_config|]. split.
  - intros Ht request w Hsig. apply check_signature_refuses; [|done].
    pose proof (twilio_token_set s Hh Ht) as Htok. cbn [twilio_auth_token config_of].
    destruct (set_twilio_auth_token s); [discriminate Htok | done].
  - apply environment_passed in Hp as [Hweak He]; [|done].
    destruct (as_staging_normal s Hn Hd) as [Hn' Hd'].
    apply validate_ok. rewrite Hn', Hd'. split; [done|]. split; [by apply as_staging_fields|].
    split; [|split].
    + unfold validate_staging_settings, validate_environment_settings.
      rewrite as_staging_collect, (staging_asks_less s He).
      change (set_secret_key (as_staging s)) with (set_secret_key s). by rewrite Hweak.
    + unfold validate_production_settings, validate_environment_settings.
      change (set_secret_key (as_staging s)) with (set_secret_key s). by rewrite Hweak.
    + unfold validate_worker_backoff in *.
      change (set_worker_retry_backoff_max_seconds (as_staging s))
        with (set_worker_retry_backoff_max_seconds s).
      change (set_worker_retry_backoff_base_seconds (as_staging s))
        with (set_worker_retry_backoff_base_seconds s).
      by destruct (_ <? _).
Qed.

(** A production deployment that passes; nothing of Twilio is configured. *)
Definition production_settings : Settings :=
  (default_settings "0123456789abcdef0123456789abcdef")
    <| set_environment := "production"%string |>
    <| set_database_url := "postgresql://salon:pw@db.example/salon"%string |>
    <| set_smtp_host := "mail.example"%string |> <| set_smtp_username := "salon"%string |>
    <| set_smtp_password := "pw"%string |> <| set_email_from := "salon@mail.example"%string |>
    <| set_password_reset_url := "https://salon.example/reset"%string |>
    <| set_s3_endpoint_url := "https://s3.example"%string |>
    <| set_s3_access_key_id := "key"%string |> <| set_s3_secret_access_key := "key-secret"%string |>
    <| set_s3_bucket_name := "salon-files"%string |>
    <| set_redis_host := "redis.example"%string |> <| set_redis_password := "pw"%string |>
    <| set_trusted_hosts_enabled := true |> <| set_trusted_hosts := "salon.example"%string |>
    <| set_rate_limit_trust_forwarded_headers := true |>
    <| set_webhook_signature_secret := "fedcba9876543210fedcba9876543210"%string |>
    <| set_metrics_bearer_token := "metrics"%string |>
    <| set_upload_malware_scan_enabled := true |>
    <| set_upload_malware_scanner_url := "https://scanner.example"%string |>.
Definition running_production : Settings := with_defaults (normalized production_settings).

Lemma production_accepted : validate production_settings = Ok running_production.
Proof. vm_compute. reflexivity. Qed.

(** Without any Twilio setting the token is not asked for, and the routes, which exist all the
    same, then take every request for a signed one. *)
Theorem production_leaves_twilio_open base :
  exists s, validate production_settings = Ok s /\ set_environment s = "production"%string
    /\ forall request w, check_signature (H := config_of base s) request w = (Ok tt, w).
Proof.
  exists running_production. split; [apply production_accepted|]. split; [reflexivity|].
  intros request w. reflexivity.
Qed.
