(* ===== verification/Http.v ===== *)
(** * Http: from a request to a response

    app/core/exception_handlers.py, middleware.py, security_headers.py, demo_guard.py, the
    in-flight counter of shutdown.py, the request counter of metrics.py, and the stack of
    middleware that app/main.py builds.  The endpoint is a computation of the services that
    ends in a response; CORS and the trusted hosts, which belong to Starlette, may answer
    before this stack is reached. *)

From S2P Require Import Prelude Py Effects Schema Settings Orm AuditTrail Directory JobQueue.
From S2P Require Import Schedule Tenancy Users RateLimit Auth Onboarding Schemas Startup.

(** ** Responses *)

(** [ErrorResponse]; [details] are the errors of a body. *)
Record ErrorBody : Type := MkErrorBody {
  err_code : string;
  err_message : string;
  err_details : option (list FieldError) }.

(** The JSON of a response: the value of an endpoint, the error envelope, or the body of the
    demo guard. *)
Inductive Content : Type :=
  | Value (json : string)
  | ErrorContent (error : ErrorBody)
  | Detail (detail : string).

Record Response : Type := MkResponse {
  rsp_status : Z;
  rsp_headers : list (string * string);
  rsp_content : Content }.
#[global] Instance eta_Response : Eta Response := fun r =>
  MkResponse (rsp_status r) (rsp_headers r) (rsp_content r).

(** ** exception_handlers.py *)

Definition ERROR_CODES_BY_STATUS : list (Z * string) :=
  [(400, "bad_request"); (401, "unauthorized"); (403, "forbidden"); (404, "not_found");
   (405, "method_not_allowed"); (409, "conflict"); (413, "payload_too_large");
   (422, "validation_error"); (429, "rate_limit_exceeded");
   (500, "internal_server_error")]%string.

Fixpoint code_of (status : Z) (codes : list (Z * string)) : string :=
  match codes with
  | [] => "api_error"
  | (s, c) :: rest => if s =? status then c else code_of status rest
  end.
Definition get_error_code (status : Z) : string := code_of status ERROR_CODES_BY_STATUS.

Definition error_response (status : Z) (code message : string) (details : option (list FieldError))
    : Response :=
  MkResponse status [] (ErrorContent (MkErrorBody code message details)).

Definition domain_error_handler (kind : DomainErrorKind) (message : string) : Response :=
  error_response (status_code kind) (get_error_code (status_code kind)) message None.

(** The details of the modelled exceptions are strings, and they carry no headers. *)
Definition http_exception_handler (status : Z) (detail : string) : Response :=
  error_response status (get_error_code status) detail None.

Definition validation_exception_handler (errors : list FieldError) : Response :=
  error_response 422 "validation_error" "Request validation failed" (Some errors).

Definition unhandled_exception_handler : Response :=
  error_response 500 "internal_server_error" "An unexpected error occurred" None.

(** The handlers that the application registers for classes of exceptions; an exception that
    is neither of these passes through. *)
Definition registered_handler (e : Exn) : option Response :=
  match e with
  | DomainError kind message => Some (domain_error_handler kind message)
  | HTTPException status detail => Some (http_exception_handler status detail)
  | _ => None
  end.

(** ** The process *)

(** One line of [http_requests_total]: its labels. *)
Record Observation : Type := MkObservation {
  obs_method : string;
  obs_path : string;
  obs_status_code : Z }.

(** The state outside the services: the counter of shutdown.py and the requests that the
    metrics have seen, latest first. *)
Record Process : Type := MkProcess {
  p_world : World;
  p_in_flight : Z;
  p_requests : list Observation }.
#[global] Instance eta_Process : Eta Process := fun p =>
  MkProcess (p_world p) (p_in_flight p) (p_requests p).

(** An ASGI application answering a request. *)
Definition Asgi : Type := M Process Exn Response.

Definition on_world {A} (m : PyM A) : M Process Exn A := fun p =>
  let '(r, w) := m (p_world p) in (r, p <| p_world := w |>).

Definition increment_in_flight_requests : M Process Exn unit :=
  modify (fun p => p <| p_in_flight ::= Z.succ |>).
Definition decrement_in_flight_requests : M Process Exn unit :=
  modify (fun p => p <| p_in_flight ::= Z.pred |>).

Definition observe_request (method path : string) (status_code : Z) : M Process Exn unit :=
  modify (fun p => p <| p_requests ::= cons (MkObservation method path status_code) |>).

(** The scope of a request.  [rq_route] is the template of the matched route, set by the
    router; [rq_process_time] is what the clock of the middleware measures, printed. *)
Record Scope : Type := MkScope {
  rq_method : string;
  rq_path : string;
  rq_route : option string;
  rq_headers : list (string * string);
  rq_process_time : string }.

Definition get_route_path (scope : Scope) : string := default (rq_path scope) (rq_route scope).

(** [_get_header], and the lookup in the headers of a response: names ignore case. *)
Definition get_header (headers : list (string * string)) (name : string) : option string :=
  option_map snd (List.find (fun h => String.eqb (lower (fst h)) (lower name)) headers).

(** [headers.setdefault(name, value)] *)
Definition setdefault (name value : string) (headers : list (string * string))
    : list (string * string) :=
  match get_header headers name with Some _ => headers | None => headers ++ [(name, value)] end.

(** ** The middleware *)

(** [add_exception_handler]: the router and Starlette's ExceptionMiddleware. *)
Definition exception_middleware (app : Asgi) : Asgi :=
  catch app (fun e => option_map ret (registered_handler e)).

(** ServerErrorMiddleware, the outermost: it answers with the handler of [Exception].  A loop
    that never ends is no exception. *)
Definition server_error_middleware (app : Asgi) : Asgi :=
  catch app (fun e => match e with
                      | NonTermination => None
                      | _ => Some (ret unhandled_exception_handler)
                      end).

Definition DEMO_403 : Response :=
  MkResponse 403 [("content-type", "application/json"); ("content-length", "58")]%string
    (Detail "This action is disabled in public demo mode.").

Section Middleware.
Context `{Config}.

Definition demo_middleware (scope : Scope) (app : Asgi) : Asgi :=
  passed <- on_world (demo_guard (rq_method scope) (rq_path scope)
                        (get_header (rq_headers scope) "authorization")) ;;
  if (passed : bool) then app else ret DEMO_403.

(** [_get_header(headers, "X-Request-ID") or str(uuid7())] *)
Definition request_id_of (scope : Scope) : PyM string :=
  match get_header (rq_headers scope) "X-Request-ID" with
  | Some v => if truthy v then ret v else fresh_uuid
  | None => fresh_uuid
  end.

(** [RequestContextMiddleware]: [send_wrapper] adds the two headers as the response starts. *)
Definition request_context_middleware (scope : Scope) (app : Asgi) : Asgi :=
  request_id <- on_world (request_id_of scope) ;;
  token <- asks (fun p => w_request_id (p_world p)) ;;
  modify (fun p => p <| p_world ::= fun w => w <| w_request_id := Some request_id |> |>) ;;;
  increment_in_flight_requests ;;;
  finally
    (response <- app ;;
     let response := response <| rsp_headers ::= fun h =>
       h ++ [("x-request-id", request_id); ("x-process-time", rq_process_time scope)]%string |> in
     when (negb (String.eqb (rq_path scope) "/metrics"))
       (observe_request (rq_method scope) (get_route_path scope) (rsp_status response)) ;;;
     ret response)
    (decrement_in_flight_requests ;;;
     modify (fun p => p <| p_world ::= fun w => w <| w_request_id := token |> |>)).

(** [SecurityHeadersMiddleware.dispatch] *)
Definition security_headers_middleware (hsts_enabled : bool) (hsts_max_age_seconds : Z) (app : Asgi)
    : Asgi :=
  response <- app ;;
  ret (response <| rsp_headers ::= fun h =>
    let h := setdefault "X-Content-Type-Options" "nosniff" h in
    let h := setdefault "X-Frame-Options" "DENY" h in
    let h := setdefault "Referrer-Policy" "no-referrer" h in
    let h := setdefault "Permissions-Policy" "geolocation=(), microphone=(), camera=()" h in
    if hsts_enabled
    then setdefault "Strict-Transport-Security"
           ("max-age=" ++ string_of_Z hsts_max_age_seconds ++ "; includeSubDomains")%string h
    else h |>).

(** The stack of app/main.py: what is added later lies outside. *)
Definition application (s : Settings) (scope : Scope) (endpoint : PyM Response) : Asgi :=
  server_error_middleware
    ((if set_security_headers_enabled s
      then security_headers_middleware (set_hsts_enabled s) (set_hsts_max_age_seconds s)
      else fun app => app)
      (request_context_middleware scope
         (demo_middleware scope
            (exception_middleware (on_world (run_request endpoint)))))).

(** A route: its dependencies, the validation of its body, the handler; [get_db] is open
    around them. *)
Definition route {B} (dependencies : PyM unit) (body : Validated B) (handler : B -> PyM Response)
    : PyM Response :=
  dependencies ;;;
  match body with
  | Ok b => handler b
  | Raise errors => ret (validation_exception_handler errors)
  end.
End Middleware.
