(* ===== verification/HttpBehaviour.v ===== *)
(** * HttpBehaviour: every request is answered

    Whatever an endpoint does, the stack of Http.v sends one response, gives back the counter
    of requests in flight and the request id of the context, and hides the text of exceptions
    that have no handler of their own; but these are not counted. *)

From S2P Require Import Prelude Py Effects Schema Settings Orm AuditTrail Directory JobQueue.
From S2P Require Import Schedule Frames Tenancy Users RateLimit Auth Onboarding Schemas Startup Http.

(** ** Headers *)

Definition has_header (headers : list (string * string)) (name : string) : Prop :=
  get_header headers name <> None.

Lemma get_header_app h h' name :
  get_header (h ++ h') name = match get_header h name with Some v => Some v | None => get_header h' name end.
Proof.
  unfold get_header. induction h as [|x h IH]; simpl; [done|].
  by destruct (String.eqb (lower x.1) (lower name)).
Qed.

Lemma setdefault_has name value h : has_header (setdefault name value h) name.
Proof.
  unfold has_header, setdefault. destruct (get_header h name) as [v|] eqn:E; [by rewrite E|].
  rewrite get_header_app, E. unfold get_header. simpl. by rewrite String.eqb_refl.
Qed.

Lemma setdefault_incl name value h : incl h (setdefault name value h).
Proof. unfold setdefault. destruct (get_header h name); [apply incl_refl | apply incl_appl, incl_refl]. Qed.

Lemma setdefault_keeps name value h other : has_header h other -> has_header (setdefault name value h) other.
Proof.
  unfold has_header, setdefault. destruct (get_header h name); [done|]. rewrite get_header_app.
  by destruct (get_header h other).
Qed.

(** The headers of [SecurityHeadersMiddleware]. *)
Definition security_header_names (hsts_enabled : bool) : list string :=
  ["X-Content-Type-Options"; "X-Frame-Options"; "Referrer-Policy"; "Permissions-Policy"]%string
  ++ if hsts_enabled then ["Strict-Transport-Security"%string] else [].

Section Answers.
Context `{Config}.

Lemma demo_guard_looks method path authorization w :
  exists passed, demo_guard method path authorization w = (Ok passed, w).
Proof.
  unfold demo_guard. destruct (negb _); [by eexists|]. destruct (bool_decide _); [by eexists|].
  unfold is_public_demo_token. destruct authorization as [v|]; [|by eexists].
  destruct (starts_with _ _); [|by eexists].
  unfold decode_token, bind, catch, now_utc, asks, ret, raise.
  destruct (jwt_verify _ _) as [payload|]; [|by eexists].
  destruct (token_live _ payload); by eexists.
Qed.

Lemma request_id_drawn scope w :
  exists rid f, request_id_of scope w = (Ok rid, w <| w_entropy ::= f |>).
Proof.
  unfold request_id_of, fresh_uuid.
  destruct (get_header _ _) as [v|]; [destruct (truthy v)|]; try by eexists _, _.
  exists v, id. by destruct w.
Qed.

(** ** The layers, run *)

(** What the endpoint's outcome becomes inside the stack; [None] is an exception that leaves
    it. *)
Definition answer_of (outcome : Result Exn Response) : option Response :=
  match outcome with Ok response => Some response | Raise e => registered_handler e end.

Lemma run_endpoint endpoint p :
  let '(outcome, w) := run_request endpoint (p_world p) in
  exception_middleware (on_world (run_request endpoint)) p
  = (match answer_of outcome, outcome with
     | Some response, _ => Ok response
     | None, Raise e => Raise e
     | None, Ok response => Ok response
     end, p <| p_world := w |>).
Proof.
  unfold exception_middleware, on_world, catch.
  destruct (run_request endpoint (p_world p)) as [[response|e] w]; [done|]. simpl.
  by destruct (registered_handler e).
Qed.

(** The response as it leaves the request context. *)
Definition tagged (scope : Scope) (request_id : string) (response : Response) : Response :=
  response <| rsp_headers ::= fun h =>
    h ++ [("x-request-id", request_id); ("x-process-time", rq_process_time scope)]%string |>.

Definition observed (scope : Scope) (response : Response) : list Observation :=
  if String.eqb (rq_path scope) "/metrics" then []
  else [MkObservation (rq_method scope) (get_route_path scope) (rsp_status response)].

Lemma run_context scope inner p :
  exists request_id f,
    let w := (p_world p) <| w_entropy ::= f |> <| w_request_id := Some request_id |> in
    let leave q := q <| p_in_flight ::= Z.pred |>
      <| p_world ::= fun w => w <| w_request_id := w_request_id (p_world p) |> |> in
    request_context_middleware scope inner p
    = match inner (MkProcess w (Z.succ (p_in_flight p)) (p_requests p)) with
      | (Ok response, q) =>
          (Ok (tagged scope request_id response),
           leave (q <| p_requests ::= app (observed scope response) |>))
      | (Raise e, q) => (Raise e, leave q)
      end.
Proof.
  destruct (request_id_drawn scope (p_world p)) as (rid & f & Hrid). exists rid, f. cbv zeta.
  unfold request_context_middleware, on_world at 1, bind at 1. rewrite Hrid. destruct p as [w n l].
  unfold bind at 1, asks, bind at 1, modify, bind at 1, increment_in_flight_requests, modify. simpl.
  unfold finally, bind at 1, when, observe_request, decrement_in_flight_requests, modify.
  match goal with |- context [inner (MkProcess ?w1 ?n1 ?l1)] =>
    match goal with |- context [inner ?q] => change q with (MkProcess w1 n1 l1) end;
    destruct (inner (MkProcess w1 n1 l1)) as [[response|e] q']
  end; [|done].
  unfold observed. by destruct (String.eqb _ _).
Qed.

Lemma run_demo scope inner p :
  exists passed,
    demo_guard (rq_method scope) (rq_path scope) (get_header (rq_headers scope) "authorization")
      (p_world p) = (Ok passed, p_world p)
    /\ demo_middleware scope inner p = if passed : bool then inner p else (Ok DEMO_403, p).
Proof.
  unfold demo_middleware, on_world, bind.
  destruct (demo_guard_looks (rq_method scope) (rq_path scope)
    (get_header (rq_headers scope) "authorization") (p_world p)) as [passed ->].
  exists passed. split; [done|]. destruct p. by destruct passed.
Qed.

(** The security headers are added to what the application inside answers. *)
Definition secured (s : Settings) (response response' : Response) : Prop :=
  rsp_status response' = rsp_status response
  /\ rsp_content response' = rsp_content response
  /\ incl (rsp_headers response) (rsp_headers response')
  /\ (set_security_headers_enabled s = true ->
      Forall (has_header (rsp_headers response')) (security_header_names (set_hsts_enabled s))).

Lemma secured_headers hsts age inner p :
  let '(r, q) := inner p in
  match r with
  | Ok response => exists h, security_headers_middleware hsts age inner p
                             = (Ok (response <| rsp_headers := h |>), q)
      /\ incl (rsp_headers response) h /\ Forall (has_header h) (security_header_names hsts)
  | Raise e => security_headers_middleware hsts age inner p = (Raise e, q)
  end.
Proof.
  unfold security_headers_middleware, bind. destruct (inner p) as [[response|e] q]; [|done].
  eexists. split; [reflexivity|].
  split.
  - destruct hsts; repeat (eapply incl_tran; [|apply setdefault_incl]); apply incl_refl.
  - unfold security_header_names. destruct hsts; cbn [app];
      repeat apply Forall_cons_2; try apply Forall_nil_2;
      repeat first [apply setdefault_has | apply setdefault_keeps].
Qed.

(** The process after the request context. *)
Definition leave (p q : Process) : Process :=
  q <| p_in_flight ::= Z.pred |>
    <| p_world ::= fun w => w <| w_request_id := w_request_id (p_world p) |> |>.

Definition inside (scope : Scope) (endpoint : PyM Response) : Asgi :=
  request_context_middleware scope
    (demo_middleware scope (exception_middleware (on_world (run_request endpoint)))).

Lemma run_inside scope endpoint p :
  exists request_id w passed,
    w_committed w = w_committed (p_world p) /\ w_request_id w = Some request_id
    /\ (demo_guard (rq_method scope) (rq_path scope)
          (get_header (rq_headers scope) "authorization") w).1 = Ok passed
    /\ let outcome := if passed : bool then (run_request endpoint w).1 else Ok DEMO_403 in
       let w2 := if passed then (run_request endpoint w).2 else w in
       inside scope endpoint p
       = match answer_of outcome, outcome with
         | Some answer, _ =>
             (Ok (tagged scope request_id answer),
              leave p (MkProcess w2 (Z.succ (p_in_flight p)) (observed scope answer ++ p_requests p)))
         | None, Raise e => (Raise e, leave p (MkProcess w2 (Z.succ (p_in_flight p)) (p_requests p)))
         | None, Ok response => (Ok response, p)
         end.
Proof.
  destruct (run_context scope
    (demo_middleware scope (exception_middleware (on_world (run_request endpoint)))) p)
    as (rid & f & Hin). cbv zeta in Hin.
  set (w := (p_world p) <| w_entropy ::= f |> <| w_request_id := Some rid |>) in *.
  set (p1 := MkProcess w (Z.succ (p_in_flight p)) (p_requests p)) in *.
  destruct (run_demo scope (exception_middleware (on_world (run_request endpoint))) p1)
    as (passed & Hguard & Hdemo). rewrite Hdemo in Hin.
  pose proof (run_endpoint endpoint p1) as Hend. change (p_world p1) with w in Hend, Hguard.
  exists rid, w, passed. split; [done|]. split; [done|]. split; [by rewrite Hguard|].
  unfold inside. rewrite Hin. destruct passed; [|done].
  destruct (run_request endpoint w) as [[response|e] w3]; simpl in *; rewrite Hend; [done|].
  by destruct (registered_handler e).
Qed.

(** C9: every request is answered, whatever its endpoint does: a value, an error, or an exception
    that nothing handles.  The counter of requests in flight and the request id of the context are
    what they were, and what is durable is what the session of the endpoint committed.  A value or
    a handled error keeps its status and content, carries the request id that the session's jobs
    carry and the security headers, and is counted once; an unhandled exception becomes the
    response 500 with a fixed text, and this one is not counted. *)
Theorem every_request_answered (s : Settings) (scope : Scope) (endpoint : PyM Response)
    (p p' : Process) (r : Result Exn Response) :
  application s scope endpoint p = (r, p') -> r <> Raise NonTermination ->
  exists response request_id w passed,
    r = Ok response
    /\ p_in_flight p' = p_in_flight p
    /\ w_request_id (p_world p') = w_request_id (p_world p)
    /\ w_committed w = w_committed (p_world p) /\ w_request_id w = Some request_id
    /\ (demo_guard (rq_method scope) (rq_path scope)
          (get_header (rq_headers scope) "authorization") w).1 = Ok passed
    /\ w_committed (p_world p')
       = w_committed (if passed : bool then (run_request endpoint w).2 else w)
    /\ match answer_of (if passed then (run_request endpoint w).1 else Ok DEMO_403) with
       | Some answer =>
           secured s (tagged scope request_id answer) response
           /\ p_requests p' = observed scope answer ++ p_requests p
       | None => response = unhandled_exception_handler /\ p_requests p' = p_requests p
       end.
Proof.
  unfold application. fold (inside scope endpoint). intros Happ Hr.
  destruct (run_inside scope endpoint p) as (rid & w & passed & Hw & Hid & Hguard & Hin).
  cbv zeta in Hin. set (outcome := if passed then _ else _) in *.
  set (w2 := if passed then (run_request endpoint w).2 else w) in *.
  pose proof (secured_headers (set_hsts_enabled s) (set_hsts_max_age_seconds s)
    (inside scope endpoint) p) as Hs.
  unfold server_error_middleware, catch in Happ.
  destruct (answer_of outcome) as [answer|] eqn:Ha.
  - assert (Hx : exists response, r = Ok response
      /\ secured s (tagged scope rid answer) response
      /\ p' = leave p (MkProcess w2 (Z.succ (p_in_flight p)) (observed scope answer ++ p_requests p))).
    { rewrite Hin in Hs. destruct (set_security_headers_enabled s) eqn:Es.
      - destruct Hs as (h & Hs & Hi & Hf). rewrite Hs in Happ.
        injection Happ as <- <-. eexists. split; [done|]. by repeat split.
      - rewrite Hin in Happ. injection Happ as <- <-. eexists. split; [done|].
        split; [|done]. repeat split; [apply incl_refl|]. by rewrite Es. }
    destruct Hx as (response & -> & Hx & ->). exists response, rid, w, passed.
    split_and!; try done; [apply Z.pred_succ | fold outcome; by rewrite Ha].
  - destruct outcome as [response|e] eqn:Eo; [done|]. rewrite Hin in Hs.
    assert (Hx : r = Ok unhandled_exception_handler
      /\ p' = leave p (MkProcess w2 (Z.succ (p_in_flight p)) (p_requests p))).
    { destruct (set_security_headers_enabled s); [rewrite Hs in Happ | rewrite Hin in Happ];
        destruct e; injection Happ as <- <-; first [done | by exfalso; apply Hr]. }
    destruct Hx as [-> ->]. exists unhandled_exception_handler, rid, w, passed.
    split_and!; try done; [apply Z.pred_succ | fold outcome; by rewrite Eo, Ha].
Qed.
End Answers.
