(* ===== verification/Observability.v ===== *)
(** * Observability: log records, health checks, access to the metrics

    app/core/logging.py, services/health_service.py with api/routes/health.py, and
    api/dependencies/metrics_auth.py.  What a log record must not show is stated at the end. *)

From S2P Require Import Prelude Py Effects Schema Settings Orm AuditTrail Directory JobQueue.
From S2P Require Import Schedule Providers PublicLink RateLimit Auth Onboarding Schemas Uploads.
From S2P Require Import Startup Http.

(** ** Log records *)

(** The value of an attribute of a record: a string, or another object as [str] prints it. *)
Inductive LogValue : Type :=
  | LogStr (s : string)
  | LogOther (printed : string).

Definition REQUEST_LOG_FIELDS : list string :=
  ["request_id"; "method"; "path"; "status_code"; "process_time"; "job_id"; "job_type"]%string.

Definition SENSITIVE_FIELD_NAMES : list string :=
  ["password"; "new_password"; "old_password"; "token"; "access_token"; "refresh_token";
   "authorization"; "secret"; "secret_key"; "smtp_password"; "s3_secret_access_key"; "api_key";
   "email"; "recipient"]%string.

Definition REDACTED_VALUE : string := "[REDACTED]".

Definition STANDARD_LOG_RECORD_FIELDS : list string :=
  ["args"; "asctime"; "created"; "exc_info"; "exc_text"; "filename"; "funcName"; "levelname";
   "levelno"; "lineno"; "module"; "msecs"; "message"; "msg"; "name"; "pathname"; "process";
   "processName"; "relativeCreated"; "stack_info"; "thread"; "threadName"; "taskName"]%string.

(** [EMAIL_PATTERN.search(value)] for [[^@]+@[^@]+\.[^@]+]: a character before an at sign, and
    after it, before the next one, a dot that is neither the first character nor the last. *)
Definition inner_dot (domain : list ascii) : bool :=
  match domain with
  | [] => false
  | _ :: rest => existsb (Ascii.eqb "."%char) (removelast rest)
  end.
Fixpoint address_in (parts : list (list ascii)) : bool :=
  match parts with
  | local :: (domain :: _) as rest =>
      (match local with [] => false | _ => inner_dot domain end) || address_in rest
  | _ => false
  end.
Definition email_search (value : string) : bool := address_in (split_on "@"%char (chars value)).

Definition redact_sensitive_value (field_name : string) (value : LogValue) : LogValue :=
  if existsb (String.eqb (lower field_name)) SENSITIVE_FIELD_NAMES then LogStr REDACTED_VALUE
  else match value with
       | LogStr s => if email_search s then LogStr REDACTED_VALUE else value
       | LogOther _ => value
       end.

(** A record: the fixed attributes that the payload shows, and [record.__dict__]. *)
Record LogRecord : Type := MkLogRecord {
  rec_timestamp : string;
  rec_levelname : string;
  rec_name : string;
  rec_message : string;
  rec_dict : list (string * LogValue) }.

Definition dict_value (k : string) (d : list (string * LogValue)) : option LogValue :=
  option_map snd (List.find (fun kv => String.eqb (fst kv) k) d).

(** [payload[k] = v] *)
Definition dict_set (k : string) (v : LogValue) (d : list (string * LogValue))
    : list (string * LogValue) :=
  List.filter (fun kv => negb (String.eqb (fst kv) k)) d ++ [(k, v)].

Definition mem (k : string) (l : list string) : bool := existsb (String.eqb k) l.

Definition build_log_payload (r : LogRecord) : list (string * LogValue) :=
  let payload := [("timestamp", LogStr (rec_timestamp r)); ("level", LogStr (rec_levelname r));
                  ("logger", LogStr (rec_name r)); ("message", LogStr (rec_message r))]%string in
  let payload := fold_left (fun p field =>
    dict_set field
      (redact_sensitive_value field (default (LogStr "-") (dict_value field (rec_dict r)))) p)
    REQUEST_LOG_FIELDS payload in
  fold_left (fun p kv =>
    if mem (fst kv) STANDARD_LOG_RECORD_FIELDS || mem (fst kv) REQUEST_LOG_FIELDS then p
    else dict_set (fst kv) (redact_sensitive_value (fst kv) (snd kv)) p)
    (rec_dict r) payload.

(** [SensitiveDataFilter.filter] *)
Definition sensitive_data_filter (r : LogRecord) : LogRecord :=
  MkLogRecord (rec_timestamp r) (rec_levelname r) (rec_name r) (rec_message r)
    (map (fun kv => if mem (fst kv) STANDARD_LOG_RECORD_FIELDS then kv
                    else (fst kv, redact_sensitive_value (fst kv) (snd kv))) (rec_dict r)).

(** ** Health *)

Record DependencyHealth : Type := MkDependencyHealth {
  dep_ok : bool;
  dep_message : option string }.

(** The outcome of a call to a dependency that has no part in the world: [SELECT 1] and
    [PING]. *)
Record Probes : Type := MkProbes {
  probe_database : bool;
  probe_redis : bool }.

Record ReadinessHealth : Type := MkReadinessHealth {
  rdy_ok : bool;
  rdy_checks : list (string * DependencyHealth) }.

Definition dependency_health (name : string) (reachable : bool) : DependencyHealth :=
  if reachable then MkDependencyHealth true None
  else MkDependencyHealth false (Some (name ++ " unavailable")%string).

Definition check_database (p : Probes) : DependencyHealth :=
  dependency_health "database" (probe_database p).
Definition check_redis (p : Probes) : DependencyHealth := dependency_health "redis" (probe_redis p).

Section Health.
Context `{Config} `{Providers}.

Definition check_s3 (s : Settings) : PyM DependencyHealth :=
  if negb (set_readiness_check_s3_enabled s)
  then ret (MkDependencyHealth true (Some "object storage check disabled"%string))
  else catch (verify_bucket_access ;;; ret (dependency_health "object storage" true))
         (fun e => match e with
                   | NonTermination => None
                   | _ => Some (ret (dependency_health "object storage" false))
                   end).

Definition get_readiness (s : Settings) (p : Probes) : PyM ReadinessHealth :=
  let checks := [("database", check_database p); ("redis", check_redis p)]%string in
  checks <- (if set_readiness_check_s3_enabled s
             then storage <- check_s3 s ;; ret (checks ++ [("object_storage"%string, storage)])
             else ret checks) ;;
  ret (MkReadinessHealth (forallb (fun c => dep_ok (snd c)) checks) checks).

(** [readiness_response]: the status of the response. *)
Definition readiness_response (health : ReadinessHealth) : Z := if rdy_ok health then 200 else 503.

(** [check.status != "ok"] for none of the dependencies. *)
Definition all_reachable (s : Settings) (p : Probes) (w : World) : bool :=
  probe_database p && probe_redis p && (negb (set_readiness_check_s3_enabled s) || s3_head_bucket w).

(** A replica is ready exactly when every dependency that the settings name answers, and asking
    changes nothing. *)
Theorem readiness_exact (s : Settings) (p : Probes) (w : World) :
  exists health, get_readiness s p w = (Ok health, w)
    /\ readiness_response health = (if all_reachable s p w then 200 else 503)
    /\ map fst (rdy_checks health)
       = ["database"; "redis"]%string
         ++ (if set_readiness_check_s3_enabled s then ["object_storage"%string] else []).
Proof.
  unfold get_readiness, check_s3, verify_bucket_access, all_reachable, readiness_response,
    check_database, check_redis, dependency_health.
  destruct (set_readiness_check_s3_enabled s); cbn [negb orb].
  - cbv [catch bind asks ret domain_error raise]. destruct (s3_head_bucket w); cbv beta iota;
      eexists; (split; [reflexivity|]); (split; [|reflexivity]); simpl;
      by destruct (probe_database p), (probe_redis p).
  - eexists. split; [reflexivity|]. split; [|reflexivity]. simpl.
    by destruct (probe_database p), (probe_redis p).
Qed.

(** ** metrics_auth.py *)

Definition verify_metrics_access (s : Settings) (authorization : option string) : PyM unit :=
  if negb (default false (set_metrics_require_auth s)) then ret tt
  else
    let expected_token := strip (set_metrics_bearer_token s) in
    if String.eqb expected_token ""
    then raise (HTTPException 503 "Metrics authentication is not configured")
    else match authorization with
         | Some value =>
             if starts_with (chars "Bearer ") (chars value) then
               let provided_token := strip (of_chars (drop 7 (chars value))) in
               same <- compare_digest provided_token expected_token ;;
               if same then ret tt else raise (HTTPException 401 "Invalid metrics bearer token")
             else raise (HTTPException 401 "Missing metrics bearer token")
         | None => raise (HTTPException 401 "Missing metrics bearer token")
         end.
End Health.

(** ** What a log line shows *)

Definition fixed_fields : list string := ["timestamp"; "level"; "logger"; "message"]%string.

(** No secret and no address. *)
Definition harmless (kv : string * LogValue) : Prop :=
  (mem (lower (fst kv)) SENSITIVE_FIELD_NAMES = true -> snd kv = LogStr REDACTED_VALUE)
  /\ forall s, snd kv = LogStr s -> email_search s = false.

Lemma redacted_harmless k v : harmless (k, redact_sensitive_value k v).
Proof.
  unfold harmless, redact_sensitive_value, mem. cbn [fst snd].
  destruct (existsb _ _); [split; [done|]; by intros s [= <-]|]. split; [done|].
  destruct v as [s|]; [|done]. destruct (email_search s) eqn:E; intros s' [= <-]; done.
Qed.

Definition payload_ok (payload : list (string * LogValue)) : Prop :=
  Forall (fun kv => mem (fst kv) fixed_fields = true \/ harmless kv) payload.

Lemma payload_set k v p : payload_ok p -> payload_ok (dict_set k (redact_sensitive_value k v) p).
Proof.
  intros Hp. apply Forall_app. split.
  - apply List.Forall_forall. intros kv Hin. apply filter_In in Hin as [Hin _].
    by apply (proj1 (List.Forall_forall _ _) Hp).
  - constructor; [right; apply redacted_harmless | constructor].
Qed.

Lemma payload_fold {A} (l : list A) (step : list (string * LogValue) -> A -> list (string * LogValue)) p :
  (forall q x, payload_ok q -> payload_ok (step q x)) -> payload_ok p -> payload_ok (fold_left step l p).
Proof. intros Hs. revert p. induction l as [|x l IH]; intros p Hp; simpl; eauto. Qed.

(** A JSON log line never shows the value of a sensitive field or an e-mail address in any of
    its fields, the text of the message itself apart. *)
Theorem logs_are_redacted (r : LogRecord) : payload_ok (build_log_payload r).
Proof.
  unfold build_log_payload. apply payload_fold.
  - intros q kv Hq. destruct (_ || _); [done | by apply payload_set].
  - apply payload_fold; [intros q k Hq; by apply payload_set|].
    repeat constructor; by left.
Qed.
