(* ===== verification/Preflight.v ===== *)
(** * Preflight: the membership preflight report, app/ops/membership_preflight.py

    Before memberships are filled in, an operator asks which tenants can be migrated without
    a decision: those with one business, one administrator and no e-mail address that is
    also in use in another tenant.  The report reads, and masks addresses and numbers.
    Where a query gives no order, the order of the model is one of the possible ones. *)

From S2P Require Import Prelude Py Effects Schema Settings Orm.

Definition ADMIN_ROLES : list string := ["admin"; "platform_admin"].

Definition REASON_NO_BUSINESS : string := "no_business".
Definition REASON_MULTIPLE_BUSINESSES : string := "multiple_businesses".
Definition REASON_NO_ADMIN : string := "no_admin".
Definition REASON_MULTIPLE_ADMINS : string := "multiple_admins".
Definition REASON_DUPLICATE_EMAIL_ACROSS_TENANTS : string := "duplicate_email_across_tenants".

(** ** Masks *)

(** [local, _, domain = email.partition("@")] *)
Definition mask_email (email : string) : string :=
  match split_at "@" (chars email) with
  | None => "***"
  | Some (local, domain) =>
      if String.eqb (of_chars domain) "" then "***"
      else
        let visible := match local with [] => "*"%string | c :: _ => of_chars [c] end in
        (visible ++ "***@" ++ of_chars domain)%string
  end.

Definition mask_phone (phone : string) : string :=
  let l := chars phone in
  let tail := if 2 <=? Z.of_nat (length l) then drop (length l - 2) l else l in
  ("***" ++ of_chars tail)%string.

(** ** The rows of the report *)

Record TenantBusinessCount : Type := MkTenantBusinessCount {
  tbc_tenant_id : Z;
  tbc_tenant_slug : string;
  tbc_business_count : Z }.

Record DuplicateEmailGroup : Type := MkDuplicateEmailGroup {
  deg_masked_email : string;
  deg_tenant_ids : list Z }.

Record AdminUserRow : Type := MkAdminUserRow {
  adm_tenant_id : Z;
  adm_user_id : Z;
  adm_role : string;
  adm_masked_email : string }.

Record SignupOwnershipRow : Type := MkSignupOwnershipRow {
  sor_tenant_id : Z;
  sor_tenant_slug : string;
  sor_source : option string;
  sor_admin_user_count : Z }.

Record StaffContactRow : Type := MkStaffContactRow {
  scr_staff_id : Z;
  scr_tenant_id : Z;
  scr_business_id : Z;
  scr_has_phone : bool;
  scr_masked_phone : option string }.

Record OrphanStaffReference : Type := MkOrphanStaffReference {
  osr_staff_id : Z;
  osr_staff_tenant_id : Z;
  osr_business_id : Z;
  osr_business_tenant_id : Z }.

Record CalendarIntegrationSummary : Type := MkCalendarIntegrationSummary {
  cis_provider : string;
  cis_level : string;
  cis_count : Z }.

Record TenantResolution : Type := MkTenantResolution {
  trs_tenant_id : Z;
  trs_tenant_slug : string;
  trs_business_count : Z;
  trs_user_count : Z;
  trs_admin_count : Z;
  trs_reasons : list string }.

Definition is_safe (r : TenantResolution) : bool :=
  match trs_reasons r with [] => true | _ => false end.

Record MembershipPreflightReport : Type := MkMembershipPreflightReport {
  generated_at : Z;
  tenant_business_counts : list TenantBusinessCount;
  duplicate_cross_tenant_emails : list DuplicateEmailGroup;
  admin_users : list AdminUserRow;
  signup_ownership : list SignupOwnershipRow;
  staff_contact_candidates : list StaffContactRow;
  orphan_staff_references : list OrphanStaffReference;
  calendar_integrations_summary : list CalendarIntegrationSummary;
  tenant_resolutions : list TenantResolution }.

Definition safe_tenant_ids (report : MembershipPreflightReport) : list Z :=
  map trs_tenant_id (List.filter is_safe (tenant_resolutions report)).

Definition tenants_needing_manual_resolution (report : MembershipPreflightReport)
    : list TenantResolution :=
  List.filter (fun r => negb (is_safe r)) (tenant_resolutions report).

(** ** The queries *)

(** [func.count(...)] of the rows that satisfy [p]. *)
Definition count_if {A} (p : A -> bool) (l : list A) : Z := Z.of_nat (length (List.filter p l)).

Definition every {A} `{Entity A} : PyM (list A) := all (fun _ => true).

Definition count_businesses_per_tenant : PyM (list TenantBusinessCount) :=
  tenants <- every (A := Tenant) ;;
  businesses <- every (A := Business) ;;
  ret (map (fun t => MkTenantBusinessCount (ten_id t) (ten_slug t)
                       (count_if (fun b => biz_tenant_id b =? ten_id t) businesses))
         (sort_by ten_id tenants)).

(** The tenants of the users with this address, in lower case. *)
Definition tenants_of_email (users : list User) (email : string) : list Z :=
  sorted_set (map usr_tenant_id
                (List.filter (fun u => String.eqb (lower (usr_email u)) email) users)).

Definition find_duplicate_cross_tenant_emails : PyM (list DuplicateEmailGroup) :=
  users <- every (A := User) ;;
  let duplicate_emails :=
    List.filter (fun email => 1 <? Z.of_nat (length (tenants_of_email users email)))
      (remove_dups (map (fun u => lower (usr_email u)) users)) in
  ret (map (fun email => MkDuplicateEmailGroup (mask_email email) (tenants_of_email users email))
         duplicate_emails).

(** A dict of counters. *)
Definition count_by {A} (key : A -> Z) (l : list A) : gmap Z Z :=
  fold_left (fun counts x => <[key x := default 0 (counts !! key x) + 1]> counts) l ∅.

Definition count_users_per_tenant : PyM (gmap Z Z) :=
  users <- every (A := User) ;;
  ret (count_by usr_tenant_id users).

Definition list_admin_users : PyM (list AdminUserRow) :=
  rows <- all (fun u => existsb (String.eqb (usr_role u)) ADMIN_ROLES) ;;
  ret (map (fun u => MkAdminUserRow (usr_tenant_id u) (usr_id u) (usr_role u) (mask_email (usr_email u)))
         (sort_by usr_tenant_id (sort_by usr_id rows))).

Definition summarize_signup_ownership : PyM (list SignupOwnershipRow) :=
  admins <- list_admin_users ;;
  let admin_counts := count_by adm_tenant_id admins in
  tenants <- every (A := Tenant) ;;
  let slug_of k := match find (fun t => ten_id t =? k) tenants with
                   | Some t => ten_slug t
                   | None => "?"%string
                   end in
  tenant_created_logs <- all (fun l => bool_decide (aud_action l = TENANT_CREATED)) ;;
  ret (map (fun l => MkSignupOwnershipRow (aud_tenant_id l) (slug_of (aud_tenant_id l)) (aud_source l)
                       (default 0 (admin_counts !! aud_tenant_id l)))
         (sort_by aud_tenant_id tenant_created_logs)).

Definition find_staff_contact_candidates : PyM (list StaffContactRow) :=
  rows <- every (A := Staff) ;;
  ret (map (fun s => MkStaffContactRow (stf_id s) (stf_tenant_id s) (stf_business_id s)
                       (negb (is_none (stf_phone s)))
                       (if opt_truthy (stf_phone s) then mask_phone <$> stf_phone s else None))
         (sort_by stf_tenant_id (sort_by stf_id rows))).

(** The inner join with the business of the staff row. *)
Definition find_orphan_staff_references : PyM (list OrphanStaffReference) :=
  rows <- every (A := Staff) ;;
  businesses <- every (A := Business) ;;
  ret (flat_map (fun s =>
         map (fun b => MkOrphanStaffReference (stf_id s) (stf_tenant_id s) (stf_business_id s)
                         (biz_tenant_id b))
           (List.filter (fun b => (biz_id b =? stf_business_id s)
                                  && negb (stf_tenant_id s =? biz_tenant_id b)) businesses))
         (sort_by stf_id rows)).

Definition calendar_group (r : CalendarIntegration) : string * bool :=
  (ci_provider r, negb (is_none (ci_staff_id r))).

Definition provider_leb (a b : string * bool) : bool := String.leb a.1 b.1.

Definition summarize_calendar_integrations : PyM (list CalendarIntegrationSummary) :=
  rows <- every (A := CalendarIntegration) ;;
  ret (map (fun g : string * bool =>
              MkCalendarIntegrationSummary g.1 (if g.2 then "staff" else "business")%string
                (count_if (fun r => bool_decide (calendar_group r = g)) rows))
         (sort_leb provider_leb (remove_dups (map calendar_group rows)))).

(** ** The report *)

Definition resolution_reasons (business_count admin_count : Z) (duplicate : bool) : list string :=
  (if business_count =? 0 then [REASON_NO_BUSINESS]
   else if 1 <? business_count then [REASON_MULTIPLE_BUSINESSES] else [])
  ++ (if admin_count =? 0 then [REASON_NO_ADMIN]
      else if 1 <? admin_count then [REASON_MULTIPLE_ADMINS] else [])
  ++ (if duplicate then [REASON_DUPLICATE_EMAIL_ACROSS_TENANTS] else []).

Definition compute_tenant_resolutions (business_counts : list TenantBusinessCount)
    (admins : list AdminUserRow) (duplicates : list DuplicateEmailGroup) (user_counts : gmap Z Z)
    : list TenantResolution :=
  let admin_counts := count_by adm_tenant_id admins in
  let tenants_with_duplicate_emails : gset Z :=
    fold_left (fun s group => s ∪ list_to_set (deg_tenant_ids group)) duplicates ∅ in
  map (fun c =>
         let t := tbc_tenant_id c in
         let admin_count := default 0 (admin_counts !! t) in
         MkTenantResolution t (tbc_tenant_slug c) (tbc_business_count c)
           (default 0 (user_counts !! t)) admin_count
           (resolution_reasons (tbc_business_count c) admin_count
              (bool_decide (t ∈ tenants_with_duplicate_emails)))) business_counts.

Definition build_membership_preflight_report : PyM MembershipPreflightReport :=
  business_counts <- count_businesses_per_tenant ;;
  duplicates <- find_duplicate_cross_tenant_emails ;;
  admins <- list_admin_users ;;
  user_counts <- count_users_per_tenant ;;
  now <- now_utc ;;
  ownership <- summarize_signup_ownership ;;
  contacts <- find_staff_contact_candidates ;;
  orphans <- find_orphan_staff_references ;;
  calendars <- summarize_calendar_integrations ;;
  ret (MkMembershipPreflightReport now business_counts duplicates admins ownership contacts orphans
         calendars (compute_tenant_resolutions business_counts admins duplicates user_counts)).

(** ** The text *)

(** [datetime.isoformat()] of a UTC instant. *)
Definition pad6 (n : Z) : string :=
  let s := string_of_Z n in
  (of_chars (repeat "0"%char (6 - String.length s)) ++ s)%string.
Definition isoformat (instant : Z) : string :=
  let t := instant mod day_us in
  (strftime_ymd (instant / day_us) ++ "T" ++ pad2 (t / hour_us) ++ ":"
     ++ pad2 (t mod hour_us / minute_us) ++ ":" ++ pad2 (t mod minute_us / second_us)
     ++ (if (t mod second_us =? 0)%Z then "" else "." ++ pad6 (t mod second_us)) ++ "+00:00")%string.

Definition str_bool (b : bool) : string := if b then "safe" else "manual_resolution".
Definition str_count {A} (l : list A) : string := string_of_Z (Z.of_nat (length l)).

(** A heading and its lines, or a line saying there are none. *)
Definition section (title : string) (lines : list string) : list string :=
  title :: match lines with [] => ["none"%string] | _ => lines end.

Definition resolution_line (r : TenantResolution) : string :=
  ("tenant_id=" ++ string_of_Z (trs_tenant_id r) ++ " slug=" ++ trs_tenant_slug r
     ++ " businesses=" ++ string_of_Z (trs_business_count r)
     ++ " users=" ++ string_of_Z (trs_user_count r)
     ++ " admins=" ++ string_of_Z (trs_admin_count r)
     ++ " status=" ++ str_bool (is_safe r)
     ++ (match trs_reasons r with [] => "" | _ => " reasons=" ++ join "," (trs_reasons r) end))%string.

Definition admin_line (r : AdminUserRow) : string :=
  ("tenant_id=" ++ string_of_Z (adm_tenant_id r) ++ " user_id=" ++ string_of_Z (adm_user_id r)
     ++ " role=" ++ adm_role r ++ " email=" ++ adm_masked_email r)%string.

Definition duplicate_line (g : DuplicateEmailGroup) : string :=
  (deg_masked_email g ++ " tenant_ids=[" ++ join ", " (map string_of_Z (deg_tenant_ids g)) ++ "]")%string.

Definition ownership_line (r : SignupOwnershipRow) : string :=
  ("tenant_id=" ++ string_of_Z (sor_tenant_id r) ++ " slug=" ++ sor_tenant_slug r
     ++ " source=" ++ default "None" (sor_source r)
     ++ " admin_user_count=" ++ string_of_Z (sor_admin_user_count r))%string.

Definition contacts_line (rows : list StaffContactRow) : string :=
  (string_of_Z (count_if scr_has_phone rows) ++ "/" ++ str_count rows
     ++ " staff rows have a phone number")%string.

Definition orphan_line (r : OrphanStaffReference) : string :=
  ("staff_id=" ++ string_of_Z (osr_staff_id r)
     ++ " staff_tenant_id=" ++ string_of_Z (osr_staff_tenant_id r)
     ++ " business_id=" ++ string_of_Z (osr_business_id r)
     ++ " business_tenant_id=" ++ string_of_Z (osr_business_tenant_id r))%string.

Definition calendar_line (s : CalendarIntegrationSummary) : string :=
  ("provider=" ++ cis_provider s ++ " level=" ++ cis_level s
     ++ " count=" ++ string_of_Z (cis_count s))%string.

Definition render_report_text (report : MembershipPreflightReport) : string :=
  join (String "010"%char EmptyString)
    ([("Membership data preflight report (generated " ++ isoformat (generated_at report) ++ ")")%string;
      EmptyString;
      ("Tenants: " ++ str_count (tenant_business_counts report))%string;
      ("Safe tenants (single business, single admin, no cross-tenant email duplicate): "
        ++ str_count (safe_tenant_ids report))%string;
      ("Tenants needing manual resolution: "
        ++ str_count (tenants_needing_manual_resolution report))%string;
      EmptyString]
     ++ section "-- Tenant summary (businesses / users / admins) --"
          (map resolution_line (tenant_resolutions report))
     ++ EmptyString :: section "-- Admin users --" (map admin_line (admin_users report))
     ++ EmptyString :: section "-- Duplicate cross-tenant emails --"
          (map duplicate_line (duplicate_cross_tenant_emails report))
     ++ EmptyString :: section "-- Signup ownership evidence --"
          (map ownership_line (signup_ownership report))
     ++ [EmptyString; "-- Staff contact candidates --"%string;
         contacts_line (staff_contact_candidates report)]
     ++ EmptyString :: section "-- Orphan/mismatched staff references --"
          (map orphan_line (orphan_staff_references report))
     ++ EmptyString :: section "-- Existing calendar integrations --"
          (map calendar_line (calendar_integrations_summary report))).

(** ** Which tenants are safe *)

Lemma count_by_fold {A} (key : A -> Z) l (m : gmap Z Z) k :
  default 0 (fold_left (fun counts x => <[key x := default 0 (counts !! key x) + 1]> counts) l m !! k)
  = default 0 (m !! k) + count_if (fun x => key x =? k) l.
Proof.
  unfold count_if. revert m. induction l as [|x l IH]; intros m; cbn [fold_left List.filter].
  - cbn. lia.
  - rewrite IH. destruct (Z.eqb_spec (key x) k) as [E|E].
    + rewrite E, lookup_insert_eq. simpl. lia.
    + by rewrite lookup_insert_ne by done.
Qed.

Lemma count_by_count {A} (key : A -> Z) l k :
  default 0 (count_by key l !! k) = count_if (fun x => key x =? k) l.
Proof. unfold count_by. rewrite count_by_fold, lookup_empty. simpl. lia. Qed.

Lemma count_if_map {A B} (f : A -> B) (p : B -> bool) l :
  count_if p (map f l) = count_if (fun x => p (f x)) l.
Proof.
  unfold count_if. f_equal. induction l as [|x l IH]; [done|]. cbn. destruct (p (f x)); cbn; by rewrite IH.
Qed.

Lemma count_if_perm {A} (p : A -> bool) l l' : Permutation l l' -> count_if p l = count_if p l'.
Proof. intros Hp. unfold count_if. f_equal. apply Permutation_length. by apply filter_perm. Qed.

Lemma count_if_filter {A} (p q : A -> bool) l :
  count_if p (List.filter q l) = count_if (fun x => q x && p x) l.
Proof.
  unfold count_if. f_equal. induction l as [|x l IH]; [done|]. cbn.
  destruct (q x); cbn; [|done]. destruct (p x); cbn; by rewrite IH.
Qed.

Lemma in_unions (groups : list DuplicateEmailGroup) (s : gset Z) t :
  t ∈ fold_left (fun s group => s ∪ list_to_set (deg_tenant_ids group)) groups s
  <-> t ∈ s \/ exists g, In g groups /\ In t (deg_tenant_ids g).
Proof.
  revert s. induction groups as [|g groups IH]; intros s; cbn [fold_left].
  - split; [by left | intros [?|(g & [] & _)]; done].
  - rewrite IH, elem_of_union, elem_of_list_to_set, list_elem_of_In. split.
    + intros [[?|?]|(g' & Hg & Ht)]; [by left | right; exists g; split; [by left | done]|].
      right. exists g'. split; [by right | done].
    + intros [?|(g' & [->|Hg] & Ht)]; [by left; left | by left; right | right; eauto].
Qed.

Lemma in_tenants_of_email users email t :
  In t (tenants_of_email users email)
  <-> exists u, In u users /\ lower (usr_email u) = email /\ usr_tenant_id u = t.
Proof.
  unfold tenants_of_email. rewrite in_sorted_set, in_map_iff. split.
  - intros (u & <- & [Hu E]%filter_In). apply String.eqb_eq in E. eauto.
  - intros (u & Hu & <- & <-). exists u. split; [done|]. apply filter_In. by rewrite String.eqb_refl.
Qed.

Lemma tenants_of_email_nodup users email : NoDup (tenants_of_email users email).
Proof. unfold tenants_of_email, sorted_set. rewrite sort_by_perm. apply NoDup_remove_dups. Qed.

(** A list without repetitions has two elements as soon as it has two different ones. *)
Lemma another_element (l : list Z) t :
  NoDup l -> In t l -> (1 < Z.of_nat (length l) <-> exists t', In t' l /\ t' <> t).
Proof.
  intros Hnd Ht. split.
  - intros Hlen. destruct l as [|a [|b l]]; cbn in Hlen; try lia.
    apply NoDup_cons in Hnd as [Hab _]. destruct (Z.eq_dec a t) as [->|Ha].
    + exists b. split; [right; by left|]. intros ->. apply Hab. by left.
    + exists a. split; [by left | done].
  - intros (t' & Ht' & Hne). destruct l as [|a [|b l]]; [done| |cbn; lia].
    destruct Ht as [->|[]], Ht' as [->|[]]. done.
Qed.

(** A user of the tenant whose address is in use in another tenant. *)
Definition shares_email (users : list User) (t : Z) : Prop :=
  exists u v, In u users /\ In v users /\ usr_tenant_id u = t /\ usr_tenant_id v <> t
    /\ lower (usr_email u) = lower (usr_email v).

Lemma duplicates_shared users (t : Z) :
  (exists g, In g (map (fun email => MkDuplicateEmailGroup (mask_email email) (tenants_of_email users email))
                     (List.filter (fun email => 1 <? Z.of_nat (length (tenants_of_email users email)))
                        (remove_dups (map (fun u => lower (usr_email u)) users))))
             /\ In t (deg_tenant_ids g))
  <-> shares_email users t.
Proof.
  split.
  - intros (g & (email & <- & [_ Hlen]%filter_In)%in_map_iff & Ht). cbn [deg_tenant_ids] in Ht. bool_props.
    apply (another_element _ t) in Hlen as (t' & Ht' & Hne); [|apply tenants_of_email_nodup | done].
    apply in_tenants_of_email in Ht as (u & Hu & Eu & Tu).
    apply in_tenants_of_email in Ht' as (v & Hv & Ev & Tv).
    exists u, v. repeat split; try done; congruence.
  - intros (u & v & Hu & Hv & Tu & Tv & E).
    assert (Ht : In t (tenants_of_email users (lower (usr_email u)))) by (apply in_tenants_of_email; eauto).
    exists (MkDuplicateEmailGroup (mask_email (lower (usr_email u)))
              (tenants_of_email users (lower (usr_email u)))).
    split; [|exact Ht]. apply in_map_iff. eexists. split; [reflexivity|]. apply filter_In. split.
    + apply list_elem_of_In, elem_of_remove_dups, list_elem_of_In. apply in_map_iff. eauto.
    + apply Z.ltb_lt, (another_element _ t); [apply tenants_of_email_nodup | done|].
      exists (usr_tenant_id v). split; [|done]. apply in_tenants_of_email. eauto.
Qed.

(** What the classification of a tenant amounts to. *)
Definition needs_no_decision (w : World) (t : Z) : Prop :=
  let users := rows_of (users (w_db w)) in
  count_if (fun b => biz_tenant_id b =? t) (rows_of (businesses (w_db w))) = 1
  /\ count_if (fun u => existsb (String.eqb (usr_role u)) ADMIN_ROLES && (usr_tenant_id u =? t)) users = 1
  /\ ~ shares_email users t.

Lemma reasons_nil b a d : 0 <= b -> 0 <= a ->
  match resolution_reasons b a d with [] => true | _ => false end = true <-> b = 1 /\ a = 1 /\ d = false.
Proof.
  intros Hb Ha. unfold resolution_reasons.
  destruct (Z.eqb_spec b 0), (Z.ltb_spec 1 b), (Z.eqb_spec a 0), (Z.ltb_spec 1 a), d; cbn;
    split; try done; try lia; intros; repeat split; lia.
Qed.

Lemma count_if_nonneg {A} (p : A -> bool) l : 0 <= count_if p l.
Proof. unfold count_if. lia. Qed.

(** C34: the preflight report is right and changes nothing.  It lists every tenant once, in the
    order of the ids, and calls a tenant safe exactly when it has one business, one
    administrator, and no user whose address - upper and lower case taken together - also
    belongs to a user of another tenant; the others are listed for manual resolution. *)
Theorem preflight_report_exact (w : World) :
  exists report,
    build_membership_preflight_report w = (Ok report, w)
    /\ map trs_tenant_id (tenant_resolutions report)
       = map ten_id (sort_by ten_id (rows_of (tenants (w_db w))))
    /\ (forall r, In r (tenant_resolutions report) ->
          is_safe r = true <-> needs_no_decision w (trs_tenant_id r))
    /\ (forall r, In r (tenant_resolutions report) ->
          In (trs_tenant_id r) (safe_tenant_ids report)
          \/ In r (tenants_needing_manual_resolution report)).
Proof.
  eexists. split; [reflexivity|]. cbn [tenant_resolutions]. split; [|split].
  - unfold compute_tenant_resolutions. rewrite !map_map. cbn. by rewrite filter_all by done.
  - intros r Hr. unfold compute_tenant_resolutions in Hr.
    apply in_map_iff in Hr as (c & <- & Hc). apply in_map_iff in Hc as (t & <- & _).
    unfold is_safe. cbn [trs_reasons trs_tenant_id tbc_tenant_id tbc_business_count].
    rewrite !(filter_all (fun _ => true)) by done. rewrite count_by_count, count_if_map.
    rewrite (count_if_perm _ _ _ (sort_by_perm _ _)), (count_if_perm _ _ _ (sort_by_perm _ _)).
    rewrite count_if_filter. cbn [adm_tenant_id].
    rewrite reasons_nil by apply count_if_nonneg. rewrite bool_decide_eq_false, in_unions.
    rewrite duplicates_shared. unfold needs_no_decision. split.
    + intros (H1 & H2 & H3). split; [done|]. split; [done|]. intros Hs. apply H3. by right.
    + intros (H1 & H2 & H3). split; [done|]. split; [done|]. intros [He|Hs]; [|done].
      by apply elem_of_empty in He.
  - intros r Hr. unfold safe_tenant_ids, tenants_needing_manual_resolution. cbn [tenant_resolutions].
    destruct (is_safe r) eqn:E; [left; apply in_map; by apply filter_In | right; apply filter_In].
    by rewrite E.
Qed.
