(* ===== verification/Ddl.v ===== *)
(** * Ddl: the schema of the database and the operations that change it

    The migrations are written against two interfaces: [sa], the column types, options and
    constraints of SQLAlchemy, and [op], the operations of Alembic, which are the statements
    CREATE TABLE, ALTER TABLE, CREATE INDEX and so on of SQL.  A database is a set of
    tables, each with columns, constraints, indexes and rows; a cell that a row does not
    have is NULL.  An operation first changes the structure, which needs no row, and then
    the rows that are there are checked against what was added: a statement that PostgreSQL
    refuses is an error.

    The names PostgreSQL gives to unnamed constraints ([<table>_<columns>_fkey], [_key],
    [_pkey]) are those of its manual.  [onupdate] and [default] are performed by the
    application and leave no trace in the schema. *)

From S2P Require Import Prelude Py Effects Schema Orm.

(** ** Conditions *)

(** The conditions of partial indexes, CHECK and EXCLUDE constraints. *)
Inductive Expr : Type :=
  | IS_NULL (column : string)
  | IS_NOT_NULL (column : string)
  | EQ (column value : string)
  | NE (column value : string)
  | IN (column : string) (values : list string)
  | AND (a b : Expr)
  | OR (a b : Expr).

Inductive Value : Type :=
  | IntV (n : Z)
  | TextV (s : string)
  | BoolV (b : bool)
  | TimeV (instant : Z).

#[export] Instance Value_eq_dec : EqDecision Value.
Proof. solve_decision. Defined.
#[export] Instance Expr_eq_dec : EqDecision Expr.
Proof. solve_decision. Defined.

Abbreviation Row := (gmap string Value).

(** Three-valued logic: [None] is unknown. *)
Definition and3 (a b : option bool) : option bool :=
  match a, b with
  | Some false, _ | _, Some false => Some false
  | Some true, Some true => Some true
  | _, _ => None
  end.
Definition not3 (a : option bool) : option bool := negb <$> a.
Definition or3 (a b : option bool) : option bool := not3 (and3 (not3 a) (not3 b)).

Fixpoint eval (r : Row) (e : Expr) : option bool :=
  match e with
  | IS_NULL c => Some (is_none (r !! c))
  | IS_NOT_NULL c => Some (negb (is_none (r !! c)))
  | EQ c v => (fun x => bool_decide (x = TextV v)) <$> r !! c
  | NE c v => (fun x => negb (bool_decide (x = TextV v))) <$> r !! c
  | IN c vs => (fun x => existsb (fun v => bool_decide (x = TextV v)) vs) <$> r !! c
  | AND a b => and3 (eval r a) (eval r b)
  | OR a b => or3 (eval r a) (eval r b)
  end.

Definition is_true (b : option bool) : bool := match b with Some b => b | None => false end.
Definition not_false (b : option bool) : bool := match b with Some b => b | None => true end.

Fixpoint mentions (c : string) (e : Expr) : bool :=
  match e with
  | IS_NULL c' | IS_NOT_NULL c' | EQ c' _ | NE c' _ | IN c' _ => String.eqb c c'
  | AND a b | OR a b => mentions c a || mentions c b
  end.

(** ** The vocabulary of SQLAlchemy *)

Module sa.
Inductive TypeEngine : Type :=
  | Integer
  | String (length : option Z)
  | Text
  | Boolean
  | DateTime (timezone : bool)
  | Date
  | Time.

(** A [server_default]: an SQL expression, or a quoted literal. *)
Inductive Default : Type :=
  | text (sql : string)
  | literal (s : string).

Inductive ColumnOption : Type :=
  | nullable (b : bool)
  | primary_key
  | unique
  | index
  | server_default (d : Default)
  | ForeignKey (table column : string) (ondelete : option string)
  | Identity.

Inductive SchemaItem : Type :=
  | Column (name : string) (type : TypeEngine) (options : list ColumnOption)
  | ForeignKeyConstraint (columns : list string) (table : string) (referred : list string)
      (name ondelete : option string)
  | PrimaryKeyConstraint (columns : list string)
  | UniqueConstraint (columns : list string) (name : option string)
  | CheckConstraint (condition : Expr) (name : string)
  | Index (name : string) (columns : list string) (unique : bool) (postgresql_where : option Expr).

#[export] Instance TypeEngine_eq_dec : EqDecision TypeEngine.
Proof. solve_decision. Defined.
#[export] Instance Default_eq_dec : EqDecision Default.
Proof. solve_decision. Defined.
End sa.
Export (hints) sa.

(** ** The database *)

Record ColumnDef : Type := MkColumnDef {
  col_type : sa.TypeEngine;
  col_nullable : bool;
  col_default : option sa.Default }.

Inductive Constraint : Type :=
  | PrimaryKey (columns : list string)
  | Unique (columns : list string)
  | ForeignKey (columns : list string) (table : string) (referred : list string)
      (ondelete : option string)
  | Check_ (condition : Expr)
  | Exclude (equal starts ends : string) (condition : Expr).

Record IndexDef : Type := MkIndexDef {
  ix_columns : list string;
  ix_unique : bool;
  ix_where : option Expr;
  ix_using : option string }.

Record Table : Type := MkTable {
  tab_columns : gmap string ColumnDef;
  tab_constraints : gmap string Constraint;
  tab_indexes : gmap string IndexDef;
  tab_rows : list Row;
  tab_next : Z }.

Record Database : Type := MkDatabase {
  db_tables : gmap string Table;
  db_extensions : gset string }.

#[export] Instance ColumnDef_eq_dec : EqDecision ColumnDef.
Proof. solve_decision. Defined.
#[export] Instance Constraint_eq_dec : EqDecision Constraint.
Proof. solve_decision. Defined.
#[export] Instance IndexDef_eq_dec : EqDecision IndexDef.
Proof. solve_decision. Defined.
#[export] Instance Table_eq_dec : EqDecision Table.
Proof. solve_decision. Defined.
#[export] Instance Database_eq_dec : EqDecision Database.
Proof. solve_decision. Defined.

#[export] Instance Eta_Table : Eta Table := fun t =>
  MkTable (tab_columns t) (tab_constraints t) (tab_indexes t) (tab_rows t) (tab_next t).
#[export] Instance Eta_Database : Eta Database := fun db =>
  MkDatabase (db_tables db) (db_extensions db).

Definition empty_table : Table := MkTable ∅ ∅ ∅ [] 1.
Definition empty_database : Database := MkDatabase ∅ ∅.

Inductive DdlError : Type :=
  | DuplicateTable (name : string)
  | DuplicateColumn (name : string)
  | DuplicateObject (name : string)
  | UndefinedTable (name : string)
  | UndefinedColumn (name : string)
  | UndefinedObject (name : string)
  | InvalidForeignKey (name : string)
  | InvalidDefault (column : string)
  | DependentObjectsStillExist (name : string)
  | IntegrityConstraintViolation (name : string)
  | RevisionError (message : string).

Definition Outcome : Type := Result DdlError Database.

(** [m] and then [k]; an error ends the statement. *)
Definition and_then {A B} (m : Result DdlError A) (k : A -> Result DdlError B) : Result DdlError B :=
  match m with Ok a => k a | Raise e => Raise e end.
Notation "x <-- m ;; k" := (and_then m (fun x => k))
  (at level 100, m at next level, right associativity).
Definition require (b : bool) (e : DdlError) : Result DdlError unit := if b then Ok tt else Raise e.
Definition found {A} (o : option A) (e : DdlError) : Result DdlError A :=
  match o with Some a => Ok a | None => Raise e end.

Definition member_of (c : string) (l : list string) : bool := existsb (String.eqb c) l.
Definition same_columns (a b : list string) : bool :=
  (length a =? length b)%nat && forallb (fun c => member_of c b) a.

(** ** Names *)

Definition in_table (t : string) (db : Database) (f : Table -> Table) : Database :=
  db <| db_tables ::= alter f t |>.

(** Tables and indexes share one name space; a UNIQUE, PRIMARY KEY or EXCLUDE constraint has an
    index of its name. *)
Definition backed_by_index (c : Constraint) : bool :=
  match c with
  | PrimaryKey _ | Unique _ | Exclude _ _ _ _ => true
  | ForeignKey _ _ _ _ | Check_ _ => false
  end.
Definition names_relation (name : string) (t : Table) : bool :=
  negb (is_none (tab_indexes t !! name))
  || match tab_constraints t !! name with Some c => backed_by_index c | None => false end.
Definition relation_exists (name : string) (db : Database) : bool :=
  negb (is_none (db_tables db !! name))
  || existsb (fun kt => names_relation name kt.2) (map_to_list (db_tables db)).

Definition underscored (parts : list string) : string := join "_" parts.
Definition constraint_name (t : string) (c : Constraint) : string :=
  match c with
  | PrimaryKey _ => underscored [t; "pkey"]
  | Unique cols => underscored (t :: cols ++ ["key"%string])
  | ForeignKey cols _ _ _ => underscored (t :: cols ++ ["fkey"%string])
  | Check_ _ => underscored [t; "check"]
  | Exclude _ _ _ _ => underscored [t; "excl"]
  end.

(** ** Columns *)

(** The value a default gives to the rows that are already there. *)
Definition parse_literal (type : sa.TypeEngine) (s : string) : option Value :=
  match type with
  | sa.Integer => IntV <$> py_int s
  | sa.Boolean => if String.eqb s "true" then Some (BoolV true)
                  else if String.eqb s "false" then Some (BoolV false) else None
  | sa.Text | sa.String None => Some (TextV s)
  | sa.String (Some n) => if Z.of_nat (String.length s) <=? n then Some (TextV s) else None
  | sa.DateTime _ | sa.Date | sa.Time => None
  end.
Definition default_value (now : Z) (type : sa.TypeEngine) (d : sa.Default) : option Value :=
  match d with
  | sa.literal s => parse_literal type s
  | sa.text "now()" => match type with sa.DateTime _ => Some (TimeV now) | _ => None end
  | sa.text sql => match type with sa.String _ | sa.Text => None | _ => parse_literal type sql end
  end.

Definition option_nullable (options : list sa.ColumnOption) : bool :=
  fold_left (fun n o => match o with
                        | sa.nullable b => b
                        | sa.primary_key | sa.Identity => false
                        | _ => n
                        end) options true.
Definition option_default (options : list sa.ColumnOption) : option sa.Default :=
  fold_left (fun d o => match o with sa.server_default d' => Some d' | _ => d end) options None.

(** The constraints that the options of column [c] stand for. *)
Definition option_constraints (c : string) (options : list sa.ColumnOption) : list Constraint :=
  flat_map (fun o => match o with
                     | sa.primary_key => [PrimaryKey [c]]
                     | sa.unique => [Unique [c]]
                     | sa.ForeignKey t c' ondelete => [ForeignKey [c] t [c'] ondelete]
                     | _ => []
                     end) options.
(** [index=True] makes an index [ix_<table>_<column>]. *)
Definition option_indexes (t c : string) (options : list sa.ColumnOption) : list (string * IndexDef) :=
  flat_map (fun o => match o with
                     | sa.index => [(underscored ["ix"; t; c], MkIndexDef [c] false None None)]
                     | _ => []
                     end) options.

Section Statements.
Context (now : Z).

(** The structure of ADD COLUMN, without its constraints. *)
Definition put_column (t c : string) (type : sa.TypeEngine) (options : list sa.ColumnOption)
    (db : Database) : Outcome :=
  tab <-- found (db_tables db !! t) (UndefinedTable t) ;;
  _ <-- require (is_none (tab_columns tab !! c)) (DuplicateColumn c) ;;
  default <-- match option_default options with
              | None => Ok None
              | Some d => v <-- found (default_value now type d) (InvalidDefault c) ;; Ok (Some v)
              end ;;
  Ok (in_table t db (fun tab =>
        tab <| tab_columns ::= insert c (MkColumnDef type (option_nullable options)
                                           (option_default options)) |>
            <| tab_rows ::= map (match default with Some v => insert c v | None => id end) |>)).

(** ** Constraints *)

Definition type_of (tab : Table) (c : string) : option sa.TypeEngine := col_type <$> tab_columns tab !! c.

(** [cols] of the table are a key: a foreign key may refer to them. *)
Definition is_key (tab : Table) (cols : list string) : bool :=
  existsb (fun kc => match kc.2 with
                     | PrimaryKey cs | Unique cs => same_columns cols cs
                     | _ => false
                     end) (map_to_list (tab_constraints tab))
  || existsb (fun ki => ix_unique ki.2 && is_none (ix_where ki.2) && same_columns cols (ix_columns ki.2))
       (map_to_list (tab_indexes tab)).

Definition constrained_columns (c : Constraint) : list string :=
  match c with
  | PrimaryKey cols | Unique cols => cols
  | ForeignKey cols _ _ _ => cols
  | Check_ _ => []
  | Exclude equal starts ends _ => [equal; starts; ends]
  end.
Definition condition_of (c : Constraint) : option Expr :=
  match c with Check_ e | Exclude _ _ _ e => Some e | _ => None end.

Definition has_primary_key (tab : Table) : bool :=
  existsb (fun kc => match kc.2 with PrimaryKey _ => true | _ => false end)
    (map_to_list (tab_constraints tab)).

(** What a constraint asks of the structure. *)
Definition well_formed (tab : Table) (name : string) (c : Constraint) (db : Database)
    : Result DdlError unit :=
  _ <-- require (forallb (fun col => negb (is_none (tab_columns tab !! col))) (constrained_columns c))
          (UndefinedColumn name) ;;
  match c with
  | ForeignKey cols t' referred _ =>
      tab' <-- found (db_tables db !! t') (UndefinedTable t') ;;
      require (is_key tab' referred && bool_decide (map (type_of tab) cols = map (type_of tab') referred))
        (InvalidForeignKey name)
  | PrimaryKey _ => require (negb (has_primary_key tab)) (DuplicateObject name)
  | Exclude _ _ _ _ => require (bool_decide ("btree_gist"%string ∈ db_extensions db)) (UndefinedObject name)
  | _ => Ok tt
  end.

(** The columns of a primary key are NOT NULL. *)
Definition not_null (c : string) (tab : Table) : Table :=
  tab <| tab_columns ::= alter (fun d => MkColumnDef (col_type d) false (col_default d)) c |>.
Definition implied_not_null (c : Constraint) (tab : Table) : Table :=
  match c with PrimaryKey cols => fold_right not_null tab cols | _ => tab end.

Definition put_constraint (t : string) (name : option string) (c : Constraint) (db : Database) : Outcome :=
  tab <-- found (db_tables db !! t) (UndefinedTable t) ;;
  let name := default (constraint_name t c) name in
  _ <-- require (is_none (tab_constraints tab !! name)
                 && negb (backed_by_index c && relation_exists name db)) (DuplicateObject name) ;;
  _ <-- well_formed tab name c db ;;
  Ok (in_table t db (fun tab => (implied_not_null c tab) <| tab_constraints ::= insert name c |>)).

Definition put_index (name t : string) (index : IndexDef) (db : Database) : Outcome :=
  tab <-- found (db_tables db !! t) (UndefinedTable t) ;;
  _ <-- require (negb (relation_exists name db)) (DuplicateObject name) ;;
  _ <-- require (forallb (fun col => negb (is_none (tab_columns tab !! col))) (ix_columns index))
          (UndefinedColumn name) ;;
  Ok (in_table t db (fun tab => tab <| tab_indexes ::= insert name index |>)).

(** ** Removal *)

(** Some foreign key refers to columns of [t] that satisfy [p]. *)
Definition referred_to (t : string) (p : list string -> bool) (db : Database) : bool :=
  existsb (fun kt => existsb (fun kc => match kc.2 with
                                        | ForeignKey _ t' referred _ => String.eqb t' t && p referred
                                        | _ => false
                                        end) (map_to_list (tab_constraints kt.2)))
    (map_to_list (db_tables db)).

(** A table that another one refers to stays. *)
Definition remove_table (t : string) (db : Database) : Outcome :=
  _ <-- found (db_tables db !! t) (UndefinedTable t) ;;
  let rest := db <| db_tables ::= delete t |> in
  _ <-- require (negb (referred_to t (fun _ => true) rest)) (DependentObjectsStillExist t) ;;
  Ok rest.

Definition constraint_involves (c : string) (k : Constraint) : bool :=
  member_of c (constrained_columns k)
  || match condition_of k with Some e => mentions c e | None => false end.
Definition index_involves (c : string) (i : IndexDef) : bool :=
  member_of c (ix_columns i) || match ix_where i with Some e => mentions c e | None => false end.

(** The constraints and indexes that involve the column go with it. *)
Definition remove_column (t c : string) (db : Database) : Outcome :=
  tab <-- found (db_tables db !! t) (UndefinedTable t) ;;
  _ <-- require (negb (is_none (tab_columns tab !! c))) (UndefinedColumn c) ;;
  _ <-- require (negb (referred_to t (member_of c) db)) (DependentObjectsStillExist c) ;;
  Ok (in_table t db (fun tab =>
        MkTable (delete c (tab_columns tab))
          (filter (fun kc => constraint_involves c kc.2 = false) (tab_constraints tab))
          (filter (fun ki => index_involves c ki.2 = false) (tab_indexes tab))
          (map (delete c) (tab_rows tab)) (tab_next tab))).

Definition remove_index (name t : string) (db : Database) : Outcome :=
  tab <-- found (db_tables db !! t) (UndefinedTable t) ;;
  index <-- found (tab_indexes tab !! name) (UndefinedObject name) ;;
  _ <-- require (negb (ix_unique index && referred_to t (same_columns (ix_columns index)) db))
          (DependentObjectsStillExist name) ;;
  Ok (in_table t db (fun tab => tab <| tab_indexes ::= delete name |>)).

Definition remove_constraint (name t : string) (db : Database) : Outcome :=
  tab <-- found (db_tables db !! t) (UndefinedTable t) ;;
  c <-- found (tab_constraints tab !! name) (UndefinedObject name) ;;
  _ <-- require (negb (match c with
                       | PrimaryKey cols | Unique cols => referred_to t (same_columns cols) db
                       | _ => false
                       end)) (DependentObjectsStillExist name) ;;
  Ok (in_table t db (fun tab => tab <| tab_constraints ::= delete name |>)).

Definition change_column (t c : string) (f : ColumnDef -> ColumnDef) (db : Database) : Outcome :=
  tab <-- found (db_tables db !! t) (UndefinedTable t) ;;
  _ <-- require (negb (is_none (tab_columns tab !! c))) (UndefinedColumn c) ;;
  Ok (in_table t db (fun tab => tab <| tab_columns ::= alter f c |>)).

(** ** Rows *)

Definition rows_in (db : Database) (t : string) : list Row :=
  match db_tables db !! t with Some tab => tab_rows tab | None => [] end.

(** The values of the columns, if none is NULL. *)
Definition key (cols : list string) (r : Row) : option (list Value) := mapM (fun c => r !! c) cols.
Definition has_value (c : string) (r : Row) : bool := negb (is_none (r !! c)).
Definition distinct_keys (cols : list string) (rows : list Row) : bool :=
  bool_decide (NoDup (omap (key cols) rows)).

Fixpoint pairwise {A} (clash : A -> A -> bool) (l : list A) : bool :=
  match l with
  | [] => true
  | x :: l => forallb (fun y => negb (clash x y)) l && pairwise clash l
  end.

(** [EXCLUDE USING gist (equal WITH =, tstzrange(starts, ends, '[)') WITH &&) WHERE (condition)] *)
Definition rows_exclude (equal starts ends : string) (condition : Expr) (r r' : Row) : bool :=
  is_true (eval r condition) && is_true (eval r' condition)
  && match r !! equal, r' !! equal with Some v, Some v' => bool_decide (v = v') | _, _ => false end
  && match r !! starts, r !! ends, r' !! starts, r' !! ends with
     | Some (TimeV s), Some (TimeV e), Some (TimeV s'), Some (TimeV e') => ranges_overlap s e s' e'
     | _, _, _, _ => false
     end.

Definition constraint_holds (db : Database) (t : string) (c : Constraint) : bool :=
  let rows := rows_in db t in
  match c with
  | PrimaryKey cols => forallb (fun r => negb (is_none (key cols r))) rows && distinct_keys cols rows
  | Unique cols => distinct_keys cols rows
  | ForeignKey cols t' referred _ =>
      forallb (fun r => match key cols r with
                        | None => true
                        | Some k => existsb (fun r' => bool_decide (key referred r' = Some k)) (rows_in db t')
                        end) rows
  | Check_ e => forallb (fun r => not_false (eval r e)) rows
  | Exclude equal starts ends condition => pairwise (rows_exclude equal starts ends condition) rows
  end.

Definition indexed_rows (i : IndexDef) (rows : list Row) : list Row :=
  match ix_where i with
  | None => rows
  | Some e => List.filter (fun r => is_true (eval r e)) rows
  end.
Definition index_holds (db : Database) (t : string) (i : IndexDef) : bool :=
  negb (ix_unique i) || distinct_keys (ix_columns i) (indexed_rows i (rows_in db t)).
Definition no_nulls (db : Database) (t c : string) : bool := forallb (has_value c) (rows_in db t).

(** Everything the table demands of its rows. *)
Definition table_holds (db : Database) (t : string) : bool :=
  match db_tables db !! t with
  | None => true
  | Some tab =>
      forallb (fun kc => col_nullable kc.2 || no_nulls db t kc.1) (map_to_list (tab_columns tab))
      && forallb (fun kc => constraint_holds db t kc.2) (map_to_list (tab_constraints tab))
      && forallb (fun ki => index_holds db t ki.2) (map_to_list (tab_indexes tab))
  end.
End Statements.

(** ** The operations of Alembic *)

(** Statements given as SQL text. *)
Inductive Sql : Type :=
  | CREATE_EXTENSION_IF_NOT_EXISTS (name : string)
  | ADD_CONSTRAINT_EXCLUDE_USING_GIST (table name equal starts ends : string) (condition : Expr)
  | DROP_CONSTRAINT (table name : string)
  (** [INSERT INTO table (...) SELECT ... WHERE NOT EXISTS (SELECT 1 FROM table WHERE column = value)] *)
  | INSERT_IF_MISSING (table : string) (values : list (string * Value)) (column : string) (value : Value)
  (** [UPDATE table SET column = (SELECT pick FROM source WHERE by = value) WHERE column IS NULL] *)
  | UPDATE_NULL_FROM (table column pick source by_column : string) (value : Value)
  (** [UPDATE table SET column = source.pick FROM source WHERE table.on = source.by] *)
  | UPDATE_JOIN (table column pick source on_column by_column : string).

Module op.
Inductive Operation : Type :=
  | create_table (name : string) (items : list sa.SchemaItem)
  | drop_table (name : string)
  | add_column (table : string) (column : sa.SchemaItem)
  | drop_column (table column : string)
  | create_index (name table : string) (columns : list string) (unique : bool)
      (postgresql_where : option Expr) (postgresql_using : option string)
  | drop_index (name table : string)
  | alter_nullable (table column : string) (nullable : bool)
  | alter_server_default (table column : string) (server_default : option sa.Default)
  | create_foreign_key (name source referent : string) (local_cols remote_cols : list string)
  | drop_constraint (name table : string)
  | execute (statement : Sql).
End op.

(** Each operation is a sequence of steps, and each step changes one thing. *)
Inductive Step : Type :=
  | PutTable (t : string)
  | PutColumn (t c : string) (type : sa.TypeEngine) (options : list sa.ColumnOption)
  | PutConstraint (t : string) (name : option string) (c : Constraint)
  | PutIndex (name t : string) (index : IndexDef)
  | RemoveTable (t : string)
  | RemoveColumn (t c : string)
  | RemoveIndex (name t : string)
  | RemoveConstraint (name t : string)
  | ChangeColumn (t c : string) (change : ColumnDef -> ColumnDef)
  | PutExtension (name : string)
  | InsertRow (t : string) (values : list (string * Value)) (column : string) (value : Value)
  | UpdateRows (t c : string) (update : Database -> Row -> option (option Value)).

Definition set_nullable (b : bool) (d : ColumnDef) : ColumnDef := MkColumnDef (col_type d) b (col_default d).
Definition set_server_default (v : option sa.Default) (d : ColumnDef) : ColumnDef :=
  MkColumnDef (col_type d) (col_nullable d) v.

(** The rows of the subquery: none gives NULL, one its value, more an error. *)
Definition subquery (pick : string) (rows : list Row) : option (option Value) :=
  match rows with [] => Some None | [r] => Some (r !! pick) | _ => None end.
(** The value [r] gets in the column, where [None] is an error. *)
Definition update_null (c pick source by_column : string) (v : Value) (db : Database) (r : Row)
    : option (option Value) :=
  match r !! c with
  | Some v => Some (Some v)
  | None => subquery pick (List.filter (fun r' => bool_decide (r' !! by_column = Some v)) (rows_in db source))
  end.
Definition update_join (c pick source on_column by_column : string) (db : Database) (r : Row)
    : option (option Value) :=
  match r !! on_column with
  | None => Some (r !! c)
  | Some v =>
      match List.filter (fun r' => bool_decide (r' !! by_column = Some v)) (rows_in db source) with
      | [] => Some (r !! c)
      | r' :: _ => Some (r' !! pick)
      end
  end.

Definition item_steps (t : string) (item : sa.SchemaItem) : list Step :=
  match item with
  | sa.Column c type options =>
      PutColumn t c type options
      :: map (PutConstraint t None) (option_constraints c options)
      ++ map (fun ni => PutIndex ni.1 t ni.2) (option_indexes t c options)
  | sa.ForeignKeyConstraint cols t' referred name ondelete =>
      [PutConstraint t name (ForeignKey cols t' referred ondelete)]
  | sa.PrimaryKeyConstraint cols => [PutConstraint t None (PrimaryKey cols)]
  | sa.UniqueConstraint cols name => [PutConstraint t name (Unique cols)]
  | sa.CheckConstraint e name => [PutConstraint t (Some name) (Check_ e)]
  | sa.Index name cols unique e => [PutIndex name t (MkIndexDef cols unique e None)]
  end.

Definition sql_steps (s : Sql) : list Step :=
  match s with
  | CREATE_EXTENSION_IF_NOT_EXISTS name => [PutExtension name]
  | ADD_CONSTRAINT_EXCLUDE_USING_GIST t name equal starts ends e =>
      [PutConstraint t (Some name) (Exclude equal starts ends e)]
  | DROP_CONSTRAINT t name => [RemoveConstraint name t]
  | INSERT_IF_MISSING t values c v => [InsertRow t values c v]
  | UPDATE_NULL_FROM t c pick source by_column v => [UpdateRows t c (update_null c pick source by_column v)]
  | UPDATE_JOIN t c pick source on_column by_column =>
      [UpdateRows t c (update_join c pick source on_column by_column)]
  end.

Definition steps (o : op.Operation) : list Step :=
  match o with
  | op.create_table t items => PutTable t :: flat_map (item_steps t) items
  | op.drop_table t => [RemoveTable t]
  | op.add_column t item => item_steps t item
  | op.drop_column t c => [RemoveColumn t c]
  | op.create_index name t cols unique e method => [PutIndex name t (MkIndexDef cols unique e method)]
  | op.drop_index name t => [RemoveIndex name t]
  | op.alter_nullable t c b => [ChangeColumn t c (set_nullable b)]
  | op.alter_server_default t c d => [ChangeColumn t c (set_server_default d)]
  | op.create_foreign_key name t t' cols referred =>
      [PutConstraint t (Some name) (ForeignKey cols t' referred None)]
  | op.drop_constraint name t => [RemoveConstraint name t]
  | op.execute s => sql_steps s
  end.

(** ** Running them *)

Section Running.
Context (now : Z).

Fixpoint map_option {A B} (f : A -> option B) (l : list A) : option (list B) :=
  match l with
  | [] => Some []
  | x :: l => match f x, map_option f l with Some y, Some ys => Some (y :: ys) | _, _ => None end
  end.

(** A row with the given values, the next number and the defaults of the other columns. *)
Definition new_row (tab : Table) (values : list (string * Value)) : Row :=
  let defaults : Row :=
    omap (fun d => col_default d ≫= default_value now (col_type d)) (tab_columns tab) in
  (list_to_map values : Row) ∪ ({["id" := IntV (tab_next tab)]} ∪ defaults).

Definition insert_row (t : string) (values : list (string * Value)) (c : string) (v : Value)
    (db : Database) : Outcome :=
  _ <-- found (db_tables db !! t) (UndefinedTable t) ;;
  if existsb (fun r => bool_decide (r !! c = Some v)) (rows_in db t) then Ok db
  else Ok (in_table t db (fun tab =>
             tab <| tab_rows ::= fun rows => rows ++ [new_row tab values] |> <| tab_next ::= Z.succ |>)).

Definition update_rows (t c : string) (update : Database -> Row -> option (option Value))
    (db : Database) : Outcome :=
  tab <-- found (db_tables db !! t) (UndefinedTable t) ;;
  _ <-- require (negb (is_none (tab_columns tab !! c))) (UndefinedColumn c) ;;
  rows <-- found (map_option (fun r => (fun v => partial_alter (fun _ => v) c r) <$> update db r)
                    (tab_rows tab)) (IntegrityConstraintViolation t) ;;
  Ok (in_table t db (fun tab => tab <| tab_rows := rows |>)).

Definition structure (s : Step) (db : Database) : Outcome :=
  match s with
  | PutTable t =>
      _ <-- require (negb (relation_exists t db)) (DuplicateTable t) ;;
      Ok (db <| db_tables ::= insert t empty_table |>)
  | PutColumn t c type options => put_column now t c type options db
  | PutConstraint t name c => put_constraint t name c db
  | PutIndex name t index => put_index name t index db
  | RemoveTable t => remove_table t db
  | RemoveColumn t c => remove_column t c db
  | RemoveIndex name t => remove_index name t db
  | RemoveConstraint name t => remove_constraint name t db
  | ChangeColumn t c f => change_column t c f db
  | PutExtension name => Ok (db <| db_extensions ::= union {[ name ]} |>)
  | InsertRow t values c v => insert_row t values c v db
  | UpdateRows t c update => update_rows t c update db
  end.

(** The rows satisfy what the step added. *)
Definition rows_accepted (s : Step) (db : Database) : bool :=
  match s with
  | PutColumn t c _ options => option_nullable options || no_nulls db t c
  | PutConstraint t _ c => constraint_holds db t c
  | PutIndex _ t index => index_holds db t index
  | ChangeColumn t c _ =>
      match db_tables db !! t ≫= fun tab => tab_columns tab !! c with
      | Some d => col_nullable d || no_nulls db t c
      | None => true
      end
  | InsertRow t _ _ _ | UpdateRows t _ _ => table_holds db t
  | PutTable _ | RemoveTable _ | RemoveColumn _ _ | RemoveIndex _ _ | RemoveConstraint _ _
  | PutExtension _ => true
  end.

Definition table_of_step (s : Step) : string :=
  match s with
  | PutTable t | PutColumn t _ _ _ | PutConstraint t _ _ | PutIndex _ t _ | RemoveTable t
  | RemoveColumn t _ | RemoveIndex _ t | RemoveConstraint _ t | ChangeColumn t _ _
  | InsertRow t _ _ _ | UpdateRows t _ _ => t
  | PutExtension name => name
  end.

Definition run_step (s : Step) (db : Database) : Outcome :=
  db' <-- structure s db ;;
  _ <-- require (rows_accepted s db') (IntegrityConstraintViolation (table_of_step s)) ;;
  Ok db'.

Fixpoint run_steps (l : list Step) (db : Database) : Outcome :=
  match l with
  | [] => Ok db
  | s :: l => db' <-- run_step s db ;; run_steps l db'
  end.

(** The body of [upgrade] or [downgrade]. *)
Definition perform (body : list op.Operation) (db : Database) : Outcome :=
  run_steps (flat_map steps body) db.
End Running.

(** ** Declared schemas *)

Definition adds_foreign_key (s : Step) : bool :=
  match s with PutConstraint _ _ (ForeignKey _ _ _ _) => true | _ => false end.

(** [Base.metadata.create_all]: the tables of the models.  SQLAlchemy creates a table after those
    it refers to; adding the foreign keys last gives the same schema. *)
Definition create_all (metadata : list (string * list sa.SchemaItem)) (db : Database) : Outcome :=
  let all_steps := flat_map steps (map (fun ti => op.create_table ti.1 ti.2) metadata) in
  run_steps 0 (List.filter (fun s => negb (adds_foreign_key s)) all_steps
               ++ List.filter adds_foreign_key all_steps) db.

(** ** The history *)

Record Revision : Type := MkRevision {
  revision : string;
  down_revision : option string;
  upgrade : list op.Operation;
  downgrade : list op.Operation }.

(** The database with the revision it is at, the row of [alembic_version]. *)
Record Deployment : Type := MkDeployment {
  version_num : option string;
  database : Database }.

Definition fresh : Deployment := MkDeployment None empty_database.

Section History.
Context (now : Z) (scripts : list Revision).

Definition successors (v : option string) : list Revision :=
  List.filter (fun r => bool_decide (down_revision r = v)) scripts.

(** One revision up; [None] at the head. *)
Definition upgrade_next (d : Deployment) : Result DdlError (option Deployment) :=
  match successors (version_num d) with
  | [] => Ok None
  | [r] => db <-- perform now (upgrade r) (database d) ;; Ok (Some (MkDeployment (Some (revision r)) db))
  | _ => Raise (RevisionError "Multiple head revisions are present")
  end.

(** [alembic upgrade head]: all revisions in one transaction, so an error leaves the database as
    it was.  A script is run at most once. *)
Fixpoint upgrade_loop (fuel : nat) (d : Deployment) : Result DdlError Deployment :=
  match fuel with
  | O => Raise (RevisionError "Cycle is detected in revisions")
  | S fuel =>
      next <-- upgrade_next d ;;
      match next with None => Ok d | Some d' => upgrade_loop fuel d' end
  end.
Definition upgrade_head (d : Deployment) : Result DdlError Deployment :=
  upgrade_loop (S (length scripts)) d.

(** [alembic downgrade -1] *)
Definition downgrade_one (d : Deployment) : Result DdlError Deployment :=
  match List.filter (fun r => bool_decide (Some (revision r) = version_num d)) scripts with
  | [r] => db <-- perform now (downgrade r) (database d) ;; Ok (MkDeployment (down_revision r) db)
  | _ => Raise (RevisionError "Can't locate revision")
  end.
End History.
