(* ===== verification/DdlBehaviour.v ===== *)
(** * DdlBehaviour: schema changes on databases that hold data

    The structure of a step does not look at rows: it commutes with forgetting them.  What can
    still go wrong is a row that does not satisfy what the step adds.  [safe] decides, from
    the structure and from what is known about the rows - tables just created are empty,
    columns just added are NULL or filled with their default, keys are distinct - that no
    row can; then a run that succeeds on the bare structure succeeds on every database with
    it.  [run_keeps_cells] says which cells survive a run. *)

From S2P Require Import Prelude Py Effects Ddl.

(** ** Forgetting the rows *)

Definition erase_table (tab : Table) : Table :=
  MkTable (tab_columns tab) (tab_constraints tab) (tab_indexes tab) [] 1.
Definition erase (db : Database) : Database :=
  MkDatabase (erase_table <$> db_tables db) (db_extensions db).

Definition outcome_map {A B} (f : A -> B) (o : Result DdlError A) : Result DdlError B :=
  match o with Ok a => Ok (f a) | Raise e => Raise e end.

Lemma erase_lookup db t : db_tables (erase db) !! t = erase_table <$> db_tables db !! t.
Proof. apply lookup_fmap. Qed.

Lemma existsb_map_to_list_fmap {A B} (f : A -> B) (m : gmap string A) (p : string * B -> bool) :
  existsb p (map_to_list (f <$> m)) = existsb (fun kx => p (kx.1, f kx.2)) (map_to_list m).
Proof.
  rewrite map_to_list_fmap. induction (map_to_list m) as [|[k x] l IH]; [done|]. cbn. by rewrite IH.
Qed.

Lemma relation_exists_erase name db : relation_exists name (erase db) = relation_exists name db.
Proof.
  unfold relation_exists. rewrite erase_lookup. f_equal.
  - by destruct (db_tables db !! name).
  - unfold erase. cbn [db_tables]. by rewrite existsb_map_to_list_fmap.
Qed.

Lemma referred_to_erase t p db : referred_to t p (erase db) = referred_to t p db.
Proof. unfold referred_to, erase. cbn [db_tables]. by rewrite existsb_map_to_list_fmap. Qed.

Lemma erase_in_table t f g db :
  (forall tab, erase_table (f tab) = g (erase_table tab)) ->
  in_table t (erase db) g = erase (in_table t db f).
Proof.
  intros Hfg. unfold in_table, erase, update_field. cbn. f_equal. apply map_eq. intros k.
  rewrite lookup_fmap. destruct (decide (k = t)) as [->|Hne].
  - rewrite !lookup_alter_eq, lookup_fmap. destruct (_ !! t); cbn; [|done]. by rewrite Hfg.
  - rewrite !lookup_alter_ne by done. by rewrite lookup_fmap.
Qed.

(** The steps that do not change data. *)
Definition schema_step (s : Step) : bool :=
  match s with InsertRow _ _ _ _ | UpdateRows _ _ _ => false | _ => true end.

Lemma well_formed_erase tab name c db :
  well_formed (erase_table tab) name c (erase db) = well_formed tab name c db.
Proof.
  unfold well_formed. destruct c; cbn [erase_table tab_columns tab_constraints]; try done.
  rewrite erase_lookup. by destruct (db_tables db !! table).
Qed.

Ltac bare :=
  unfold put_column, put_constraint, put_index, remove_table, remove_column, remove_index,
    remove_constraint, change_column;
  rewrite ?erase_lookup, ?relation_exists_erase, ?referred_to_erase.

Lemma implied_not_null_erase c tab :
  erase_table (implied_not_null c tab) = implied_not_null c (erase_table tab).
Proof.
  destruct c; try done. cbn [implied_not_null]. induction columns as [|c cols IH]; [done|]. cbn.
  unfold not_null in *. rewrite <- IH. reflexivity.
Qed.

(** A step does to the structure what it does to the database. *)
Lemma structure_erase now s db :
  schema_step s = true -> structure now s (erase db) = outcome_map erase (structure now s db).
Proof.
  destruct s; intros Hs; try discriminate Hs; cbn [structure]; bare; clear Hs.
  - destruct (relation_exists t db); cbn; [done|]. unfold erase, update_field. cbn. do 2 f_equal.
    by rewrite fmap_insert.
  - destruct (db_tables db !! t) as [tab|]; cbn; [|done].
    destruct (tab_columns tab !! c); cbn; [done|].
    destruct (option_default options) as [d|]; cbn.
    + destruct (default_value now type d); cbn; [|done]. f_equal. by apply erase_in_table.
    + f_equal. by apply erase_in_table.
  - destruct (db_tables db !! t) as [tab|]; cbn; [|done].
    rewrite ?relation_exists_erase. destruct (_ && _); cbn; [|done].
    rewrite well_formed_erase. destruct (well_formed _ _ _ _); cbn; [|done]. f_equal.
    apply erase_in_table. intros tab'. unfold update_field. cbn. unfold erase_table at 1. cbn.
    pose proof (implied_not_null_erase c tab') as E. unfold erase_table at 1 in E. cbn in E.
    by rewrite <- E.
  - destruct (db_tables db !! t) as [tab|]; cbn; [|done].
    destruct (relation_exists name db); cbn; [done|].
    destruct (forallb _ _); cbn; [|done]. f_equal. by apply erase_in_table.
  - destruct (db_tables db !! t) as [tab|]; cbn; [|done].
    assert (E : (erase db) <| db_tables ::= delete t |> = erase (db <| db_tables ::= delete t |>)).
    { unfold erase, update_field. cbn. by rewrite fmap_delete. }
    rewrite E, referred_to_erase. by destruct (referred_to _ _ _).
  - destruct (db_tables db !! t) as [tab|]; cbn; [|done].
    destruct (tab_columns tab !! c); cbn; [|done]. destruct (referred_to _ _ _); cbn; [done|].
    f_equal. by apply erase_in_table.
  - destruct (db_tables db !! t) as [tab|]; cbn; [|done].
    destruct (tab_indexes tab !! name); cbn; [|done]. rewrite ?referred_to_erase.
    destruct (_ && _); cbn; [done|]. f_equal. by apply erase_in_table.
  - destruct (db_tables db !! t) as [tab|]; cbn; [|done].
    destruct (tab_constraints tab !! name) as [k|]; cbn; [|done].
    destruct k; cbn; rewrite ?referred_to_erase; try (destruct (referred_to _ _ _); cbn; [done|]);
      f_equal; by apply erase_in_table.
  - destruct (db_tables db !! t) as [tab|]; cbn; [|done].
    destruct (tab_columns tab !! c); cbn; [|done]. f_equal. by apply erase_in_table.
  - unfold erase, update_field. cbn. done.
Qed.

(** ** What a step does to a table *)

(** The value that a new column has in the rows that are already there. *)
Definition fill (now : Z) (type : sa.TypeEngine) (options : list sa.ColumnOption) : option Value :=
  option_default options ≫= default_value now type.
Definition fill_row (c : string) (v : option Value) (r : Row) : Row :=
  match v with Some v => <[c := v]> r | None => r end.

Definition alter_table (now : Z) (s : Step) (tab : Table) : Table :=
  match s with
  | PutColumn _ c type options =>
      MkTable (<[c := MkColumnDef type (option_nullable options) (option_default options)]> (tab_columns tab))
        (tab_constraints tab) (tab_indexes tab)
        (map (fill_row c (fill now type options)) (tab_rows tab)) (tab_next tab)
  | PutConstraint t name c =>
      let tab' := implied_not_null c tab in
      MkTable (tab_columns tab') (<[default (constraint_name t c) name := c]> (tab_constraints tab'))
        (tab_indexes tab') (tab_rows tab') (tab_next tab')
  | PutIndex name _ index =>
      MkTable (tab_columns tab) (tab_constraints tab) (<[name := index]> (tab_indexes tab))
        (tab_rows tab) (tab_next tab)
  | RemoveColumn _ c =>
      MkTable (delete c (tab_columns tab))
        (filter (fun kc => constraint_involves c kc.2 = false) (tab_constraints tab))
        (filter (fun ki => index_involves c ki.2 = false) (tab_indexes tab))
        (map (delete c) (tab_rows tab)) (tab_next tab)
  | RemoveIndex name _ =>
      MkTable (tab_columns tab) (tab_constraints tab) (delete name (tab_indexes tab))
        (tab_rows tab) (tab_next tab)
  | RemoveConstraint name _ =>
      MkTable (tab_columns tab) (delete name (tab_constraints tab)) (tab_indexes tab)
        (tab_rows tab) (tab_next tab)
  | ChangeColumn _ c f =>
      MkTable (alter f c (tab_columns tab)) (tab_constraints tab) (tab_indexes tab)
        (tab_rows tab) (tab_next tab)
  | _ => tab
  end.

Definition effect (now : Z) (s : Step) (t : string) (o : option Table) : option Table :=
  match s with
  | PutExtension _ => o
  | PutTable t' => if decide (t = t') then Some empty_table else o
  | RemoveTable t' => if decide (t = t') then None else o
  | _ => if decide (t = table_of_step s) then alter_table now s <$> o else o
  end.

Lemma lookup_in_table t t' f db :
  db_tables (in_table t' db f) !! t
  = if decide (t = t') then f <$> db_tables db !! t else db_tables db !! t.
Proof.
  unfold in_table, update_field. cbn. destruct (decide (t = t')) as [->|].
  - by rewrite lookup_alter_eq.
  - by rewrite lookup_alter_ne.
Qed.

Lemma and_then_ok {A B} (m : Result DdlError A) (k : A -> Result DdlError B) b :
  and_then m k = Ok b -> exists a, m = Ok a /\ k a = Ok b.
Proof. destruct m; [eauto | discriminate]. Qed.
Lemma require_ok b e u : require b e = Ok u -> b = true.
Proof. by destruct b. Qed.
Lemma found_ok {A} (o : option A) e a : found o e = Ok a -> o = Some a.
Proof. by destruct o; intros [= ->]. Qed.

Ltac split_outcome :=
  repeat match goal with
  | H : and_then _ _ = Ok _ |- _ => apply and_then_ok in H as (? & ? & H)
  | H : require _ _ = Ok _ |- _ => apply require_ok in H
  | H : found _ _ = Ok _ |- _ => apply found_ok in H
  | H : Ok _ = Ok _ |- _ => injection H as H
  | H : Raise _ = Ok _ |- _ => discriminate H
  end.

(** Two functions on tables that agree have the same effect. *)
Lemma effect_fmap f g t t' db :
  (forall tab, f tab = g tab) ->
  db_tables (in_table t' db f) !! t = if decide (t = t') then g <$> db_tables db !! t else db_tables db !! t.
Proof.
  intros Hfg. rewrite lookup_in_table. destruct (decide (t = t')); [|done].
  destruct (_ !! t); cbn; [by rewrite Hfg | done].
Qed.

Lemma structure_lookup now s db db' t :
  schema_step s = true -> structure now s db = Ok db' ->
  db_tables db' !! t = effect now s t (db_tables db !! t).
Proof.
  destruct s; intros Hs Hok; try discriminate Hs; clear Hs; cbn [structure] in Hok; cbn [effect table_of_step].
  all: unfold put_column, put_constraint, put_index, remove_table, remove_column, remove_index,
         remove_constraint, change_column in Hok; split_outcome; subst.
  2: { rename x1 into d. apply effect_fmap. intros tab. unfold update_field. cbn. f_equal.
       unfold fill_row, fill. destruct (option_default options); split_outcome; subst.
       - cbn [mbind option_bind]. by match goal with H : default_value _ _ _ = _ |- _ => rewrite H end.
       - reflexivity. }
  all: try (apply effect_fmap; intros tab; by unfold update_field).
  - unfold update_field. cbn. destruct (decide (t = t0)) as [->|].
    + by rewrite lookup_insert_eq.
    + by rewrite lookup_insert_ne.
  - unfold update_field. cbn. destruct (decide (t = t0)) as [->|].
    + by rewrite lookup_delete_eq.
    + by rewrite lookup_delete_ne.
  - done.
Qed.

(** ** Valid data *)

Definition key_columns (c : Constraint) : option (list string) :=
  match c with PrimaryKey cols | Unique cols => Some cols | _ => None end.

(** The rows have cells of the columns only, no NULL where that is not allowed, and the keys tell
    them apart. *)
Record table_valid (tab : Table) : Prop := MkTableValid {
  cells_known : forall r c, In r (tab_rows tab) -> is_Some (r !! c) -> is_Some (tab_columns tab !! c);
  cells_filled : forall c d r, tab_columns tab !! c = Some d -> col_nullable d = false ->
    In r (tab_rows tab) -> is_Some (r !! c);
  keys_known : forall name k cols c, tab_constraints tab !! name = Some k ->
    key_columns k = Some cols -> In c cols -> is_Some (tab_columns tab !! c);
  keys_distinct : forall name k cols, tab_constraints tab !! name = Some k ->
    key_columns k = Some cols -> distinct_keys cols (tab_rows tab) = true }.

Definition valid (db : Database) : Prop :=
  forall t tab, db_tables db !! t = Some tab -> table_valid tab.

Lemma empty_table_valid : table_valid empty_table.
Proof. split; intros *; try done; by rewrite lookup_empty. Qed.

Lemma has_value_true c r : has_value c r = true <-> is_Some (r !! c).
Proof. unfold has_value, is_none. destruct (r !! c); split; intros H; try done; by destruct H. Qed.

Lemma no_nulls_filled db t c tab :
  db_tables db !! t = Some tab -> no_nulls db t c = true ->
  forall r, In r (tab_rows tab) -> is_Some (r !! c).
Proof.
  unfold no_nulls, rows_in. intros ->. rewrite forallb_forall. intros H r Hr.
  by apply has_value_true, H.
Qed.

Lemma key_ext cols r r' : (forall c, In c cols -> r !! c = r' !! c) -> key cols r = key cols r'.
Proof.
  unfold key. induction cols as [|c cols IH]; intros H; [done|]. cbn.
  rewrite (H c) by (by left). rewrite IH by (intros; apply H; by right). done.
Qed.

Lemma distinct_keys_map cols (f : Row -> Row) rows :
  (forall r c, In c cols -> f r !! c = r !! c) -> distinct_keys cols (map f rows) = distinct_keys cols rows.
Proof.
  intros H. unfold distinct_keys. apply bool_decide_ext.
  enough (omap (key cols) (map f rows) = omap (key cols) rows) as -> by done.
  induction rows as [|r rows IH]; [done|]. cbn. rewrite IH. by rewrite (key_ext cols (f r) r) by auto.
Qed.

(** Fewer rows are NULL in all of the key's columns than in some of them. *)
Lemma key_subset cols cols' r k :
  (forall c, In c cols -> In c cols') -> key cols' r = Some k -> is_Some (key cols r).
Proof.
  unfold key. intros Hsub Hk. apply mapM_is_Some. apply mk_is_Some in Hk.
  apply mapM_is_Some in Hk. apply Forall_forall. intros c Hc.
  rewrite Forall_forall in Hk. apply Hk. rewrite list_elem_of_In in Hc |- *. by apply Hsub.
Qed.

Lemma key_cells cols r r' : is_Some (key cols r) -> key cols r = key cols r' ->
  forall c, In c cols -> r !! c = r' !! c.
Proof.
  unfold key. induction cols as [|c cols IH]; intros Hs E c0 Hc; [done|].
  cbn in Hs, E. destruct (r !! c) as [v|] eqn:E1; [|by destruct Hs].
  destruct (r' !! c) as [v'|] eqn:E2; [|cbn in E; destruct (mapM _ cols); cbn in E; [discriminate|by destruct Hs]].
  cbn in *. destruct (mapM (fun c => r !! c) cols) as [ks|] eqn:E3; [|by destruct Hs].
  destruct (mapM (fun c => r' !! c) cols) as [ks'|] eqn:E4; [|discriminate].
  cbn in E. injection E as -> ->. destruct Hc as [<-|Hc]; [congruence|].
  apply IH; [by eexists | congruence | done].
Qed.

Lemma distinct_keys_superset cols cols' rows :
  (forall c, In c cols -> In c cols') -> distinct_keys cols rows = true -> distinct_keys cols' rows = true.
Proof.
  intros Hsub. unfold distinct_keys. rewrite !bool_decide_eq_true.
  induction rows as [|r rows IH]; [done|]. cbn. intros Hd.
  destruct (key cols' r) as [k'|] eqn:Ek'.
  - destruct (key_subset _ _ _ _ Hsub Ek') as [k Ek]. rewrite Ek in Hd.
    apply NoDup_cons in Hd as [Hk Hd]. apply NoDup_cons. split; [|by apply IH].
    intros (r' & Hr' & E)%list_elem_of_omap. apply Hk, list_elem_of_omap. exists r'. split; [done|].
    rewrite <- Ek. symmetry. apply key_ext. intros c Hc.
    apply (key_cells cols' r r'); [by rewrite Ek' | by rewrite Ek', E | by apply Hsub].
  - apply IH. destruct (key cols r); [by apply NoDup_cons in Hd as [_ Hd] | done].
Qed.

Lemma implied_fields k tab :
  tab_constraints (implied_not_null k tab) = tab_constraints tab
  /\ tab_indexes (implied_not_null k tab) = tab_indexes tab
  /\ tab_rows (implied_not_null k tab) = tab_rows tab
  /\ tab_next (implied_not_null k tab) = tab_next tab.
Proof. destruct k; try done. cbn. by induction columns as [|c cols IH]. Qed.

Lemma implied_columns k tab c :
  (is_Some (tab_columns (implied_not_null k tab) !! c) <-> is_Some (tab_columns tab !! c))
  /\ ((forall cols, k = PrimaryKey cols -> ~ In c cols) ->
      tab_columns (implied_not_null k tab) !! c = tab_columns tab !! c).
Proof.
  destruct k; try done. cbn [implied_not_null].
  enough (H : (is_Some (tab_columns (fold_right not_null tab columns) !! c) <-> is_Some (tab_columns tab !! c))
              /\ (~ In c columns -> tab_columns (fold_right not_null tab columns) !! c = tab_columns tab !! c)).
  { destruct H as [? H]. split; [done|]. intros Hc. apply H. by apply Hc. }
  induction columns as [|c' cols [IH1 IH2]]; [done|]. cbn. unfold not_null, update_field. cbn.
  destruct (decide (c = c')) as [->|Hne].
  - rewrite lookup_alter_eq, fmap_is_Some. split; [done|]. intros H. destruct H. by left.
  - rewrite lookup_alter_ne by done. split; [done|]. intros H. apply IH2. intros Hc. apply H. by right.
Qed.

Lemma run_step_ok now s db db' :
  run_step now s db = Ok db' -> structure now s db = Ok db' /\ rows_accepted s db' = true.
Proof. unfold run_step. intros H. split_outcome. by subst. Qed.

Lemma in_rows_map {A} (f : Row -> Row) rows (P : Row -> A -> Prop) :
  (forall r a, In r rows -> P (f r) a) -> forall r a, In r (map f rows) -> P r a.
Proof. intros H r a (r0 & <- & Hr)%in_map_iff. by apply H. Qed.

Lemma lookup_fill_row c v r c' :
  fill_row c v r !! c' = if decide (c' = c) then (match v with Some v => Some v | None => r !! c end) else r !! c'.
Proof.
  unfold fill_row. destruct v; destruct (decide (c' = c)) as [->|]; try done.
  - by rewrite lookup_insert_eq.
  - by rewrite lookup_insert_ne.
Qed.

Lemma put_column_valid now t c type options tab :
  let tab' := alter_table now (PutColumn t c type options) tab in
  table_valid tab -> tab_columns tab !! c = None ->
  (option_nullable options = true \/ forall r, In r (tab_rows tab') -> is_Some (r !! c)) ->
  table_valid tab'.
Proof.
  intros tab' Hv Hfresh Hnull. unfold tab' in *. cbn [alter_table tab_rows] in Hnull.
  split; cbn [alter_table tab_rows tab_columns tab_constraints].
  - intros r c' (r0 & <- & Hr)%in_map_iff. rewrite lookup_fill_row.
    destruct (decide (c' = c)) as [->|Hne]; [by rewrite lookup_insert_eq|].
    rewrite lookup_insert_ne by done. by apply (cells_known tab Hv).
  - intros c' d r. destruct (decide (c' = c)) as [->|Hne].
    + rewrite lookup_insert_eq. intros [= <-] Hn Hr. destruct Hnull as [Hnull|Hnull]; [|by apply Hnull].
      cbn in Hn. congruence.
    + rewrite lookup_insert_ne by done. intros Hd Hn (r0 & <- & Hr)%in_map_iff.
      rewrite lookup_fill_row, decide_False by done. by apply (cells_filled tab Hv c' d).
  - intros name k cols c' Hk Hc Hin. rewrite lookup_insert_ne.
    + by eapply (keys_known tab Hv).
    + intros <-. destruct (keys_known tab Hv name k cols c Hk Hc Hin). congruence.
  - intros name k cols Hk Hc. rewrite distinct_keys_map; [by eapply (keys_distinct tab Hv)|].
    intros r c' Hin. rewrite lookup_fill_row, decide_False; [done|].
    intros ->. destruct (keys_known tab Hv name k cols c Hk Hc Hin). congruence.
Qed.

Lemma put_constraint_valid now t name k tab :
  let tab' := alter_table now (PutConstraint t name k) tab in
  table_valid tab ->
  forallb (fun col => negb (is_none (tab_columns tab !! col))) (constrained_columns k) = true ->
  (forall cols r, k = PrimaryKey cols -> In r (tab_rows tab) -> is_Some (key cols r)) ->
  (forall cols, key_columns k = Some cols -> distinct_keys cols (tab_rows tab) = true) ->
  table_valid tab'.
Proof.
  intros tab' Hv Hcols Hnn Hd. unfold tab'. cbn [alter_table].
  destruct (implied_fields k tab) as (Ec & _ & Er & _).
  split; cbn [tab_rows tab_columns tab_constraints]; rewrite ?Er, ?Ec.
  - intros r c Hr Hc. apply implied_columns. by apply (cells_known tab Hv r).
  - intros c d r Hc Hn Hr.
    destruct k; try (rewrite (proj2 (implied_columns _ tab c)) in Hc by done; by eapply (cells_filled tab Hv)).
    destruct (in_dec String.string_dec c columns) as [Hin|Hout].
    + destruct (Hnn columns r eq_refl Hr) as [ks Hk]. unfold key in Hk. apply mk_is_Some, mapM_is_Some in Hk.
      rewrite Forall_forall in Hk. apply Hk. by apply list_elem_of_In.
    + rewrite (proj2 (implied_columns _ tab c)) in Hc by (by intros ? [= <-]).
      by eapply (cells_filled tab Hv).
  - intros name' k' cols c Hk Hc Hin. apply implied_columns.
    apply lookup_insert_Some in Hk as [[_ <-]|[_ Hk]]; [|by eapply (keys_known tab Hv)].
    rewrite forallb_forall in Hcols. destruct (tab_columns tab !! c) eqn:E; [done|].
    assert (Hin' : In c (constrained_columns k)) by (destruct k; try discriminate Hc; by injection Hc as ->).
    apply Hcols in Hin'. by rewrite E in Hin'.
  - intros name' k' cols Hk Hc. apply lookup_insert_Some in Hk as [[_ <-]|[_ Hk]]; [by apply Hd|].
    by eapply (keys_distinct tab Hv).
Qed.

Lemma in_member_of c l : In c l -> member_of c l = true.
Proof. intros H. apply existsb_exists. exists c. by rewrite String.eqb_refl. Qed.

Lemma remove_column_valid now t c tab :
  table_valid tab -> table_valid (alter_table now (RemoveColumn t c) tab).
Proof.
  intros Hv. split; cbn [alter_table tab_rows tab_columns tab_constraints].
  - intros r c' (r0 & <- & Hr)%in_map_iff. destruct (decide (c' = c)) as [->|Hne].
    + rewrite lookup_delete_eq. by intros [].
    + rewrite !lookup_delete_ne by done. by apply (cells_known tab Hv).
  - intros c' d r Hd Hn (r0 & <- & Hr)%in_map_iff. apply lookup_delete_Some in Hd as [Hne Hd].
    rewrite lookup_delete_ne by done. by eapply (cells_filled tab Hv).
  - intros name k cols c' [Hk Hc']%map_lookup_filter_Some Hc Hin. cbn in Hc'.
    rewrite lookup_delete_ne; [by eapply (keys_known tab Hv)|].
    intros <-. unfold constraint_involves in Hc'. apply orb_false_elim in Hc' as [Hc' _].
    rewrite in_member_of in Hc'; [done|]. destruct k; try discriminate Hc; by injection Hc as ->.
  - intros name k cols [Hk Hc']%map_lookup_filter_Some Hc. cbn in Hc'.
    rewrite distinct_keys_map; [by eapply (keys_distinct tab Hv)|].
    intros r c' Hin. rewrite lookup_delete_ne; [done|].
    intros <-. unfold constraint_involves in Hc'. apply orb_false_elim in Hc' as [Hc' _].
    rewrite in_member_of in Hc'; [done|]. destruct k; try discriminate Hc; by injection Hc as ->.
Qed.

(** Fewer constraints, or other indexes, demand no more of the rows. *)
Lemma weaken_valid tab tab' :
  table_valid tab ->
  tab_columns tab' = tab_columns tab -> tab_rows tab' = tab_rows tab ->
  (forall name k, tab_constraints tab' !! name = Some k -> tab_constraints tab !! name = Some k) ->
  table_valid tab'.
Proof.
  intros Hv Ec Er Hk. split; rewrite ?Ec, ?Er.
  - apply (cells_known tab Hv).
  - apply (cells_filled tab Hv).
  - intros name k cols c H. by eapply (keys_known tab Hv), Hk.
  - intros name k cols H. by eapply (keys_distinct tab Hv), Hk.
Qed.

Lemma change_column_valid now t c f tab :
  let tab' := alter_table now (ChangeColumn t c f) tab in
  table_valid tab ->
  (forall d, tab_columns tab' !! c = Some d -> col_nullable d = true
             \/ forall r, In r (tab_rows tab') -> is_Some (r !! c)) ->
  table_valid tab'.
Proof.
  intros tab' Hv Hn. unfold tab' in *. cbn [alter_table tab_rows tab_columns] in Hn.
  split; cbn [alter_table tab_rows tab_columns tab_constraints].
  - intros r c' Hr Hc. rewrite lookup_alter_is_Some. by apply (cells_known tab Hv r).
  - intros c' d r Hd Hf Hr. destruct (decide (c' = c)) as [->|Hne].
    + destruct (Hn d Hd) as [Hn'|Hn']; [congruence | by apply Hn'].
    + rewrite lookup_alter_ne in Hd by done. by eapply (cells_filled tab Hv).
  - intros name k cols c' Hk Hc Hin. rewrite lookup_alter_is_Some. by eapply (keys_known tab Hv).
  - apply (keys_distinct tab Hv).
Qed.

Lemma constraint_accepted db t k tab :
  db_tables db !! t = Some tab -> constraint_holds db t k = true ->
  (forall cols r, k = PrimaryKey cols -> In r (tab_rows tab) -> is_Some (key cols r))
  /\ (forall cols, key_columns k = Some cols -> distinct_keys cols (tab_rows tab) = true).
Proof.
  unfold constraint_holds, rows_in. intros ->. destruct k; intros H; try (by split; intros ? * [=]).
  - apply andb_true_iff in H as [H1 H2]. rewrite forallb_forall in H1. split.
    + intros cols r [= <-] Hr. apply H1 in Hr. by destruct (key _ _).
    + by intros cols [= <-].
  - split; [by intros ? ? [=] | by intros cols [= <-]].
Qed.

(** Every step that is accepted leaves valid data. *)
Theorem run_step_valid now s db db' :
  schema_step s = true -> valid db -> run_step now s db = Ok db' -> valid db'.
Proof.
  intros Hs Hv [Hst Hacc]%run_step_ok t tab' Ht.
  pose proof (structure_lookup now s db db' t Hs Hst) as E. rewrite Ht in E.
  destruct (decide (t = table_of_step s)) as [->|Hne].
  2: { destruct s; cbn [effect table_of_step] in *;
         rewrite ?decide_False in E by done; symmetry in E; by apply Hv in E. }
  destruct s; try discriminate Hs; cbn [effect table_of_step] in E, Ht;
    rewrite ?decide_True in E by done; cbn [rows_accepted] in Hacc; cbn [structure] in Hst.
  all: try (symmetry in E; apply fmap_Some in E as (tab & Htab & ->); pose proof (Hv _ _ Htab) as Hvt).
  - injection E as ->. apply empty_table_valid.
  - apply put_column_valid; [done| |].
    + unfold put_column in Hst. rewrite Htab in Hst. cbn in Hst. split_outcome. by destruct (_ !! c).
    + apply orb_true_iff in Hacc as [?|Hn]; [by left|]. right. by apply (no_nulls_filled _ _ _ _ Ht).
  - destruct (constraint_accepted _ _ _ _ Ht Hacc) as [H1 H2]. cbn [alter_table tab_rows] in H1, H2.
    destruct (implied_fields c tab) as (_ & _ & Er & _). rewrite Er in H1, H2.
    apply put_constraint_valid; try done.
    unfold put_constraint in Hst. rewrite Htab in Hst. cbn in Hst. split_outcome.
    match goal with H : well_formed _ _ _ _ = _ |- _ => unfold well_formed in H end. by split_outcome.
  - by apply (weaken_valid tab).
  - done.
  - by apply remove_column_valid.
  - by apply (weaken_valid tab).
  - apply (weaken_valid tab); try done. cbn. intros n k Hk. by apply lookup_delete_Some in Hk as [_ Hk].
  - apply change_column_valid; [done|]. intros d Hd. rewrite Ht in Hacc. cbn [mbind option_bind] in Hacc.
    rewrite Hd in Hacc. apply orb_true_iff in Hacc as [?|Hn]; [by left|].
    right. by apply (no_nulls_filled _ _ _ _ Ht).
  - symmetry in E. by apply Hv in E.
Qed.

(** ** Steps that no row can stop *)

(** What is known about the rows: tables without any, columns that are NULL in all of them and
    columns that are NULL in none. *)
Record Known : Type := MkKnown {
  no_rows : list string;
  all_null : list (string * string);
  filled : list (string * string) }.

Definition pair_in (x : string * string) (l : list (string * string)) : bool :=
  existsb (fun y => String.eqb x.1 y.1 && String.eqb x.2 y.2) l.
Definition without (x : string * string) (l : list (string * string)) : list (string * string) :=
  List.filter (fun y => negb (String.eqb x.1 y.1 && String.eqb x.2 y.2)) l.

Record knows (k : Known) (db : Database) : Prop := {
  knows_empty : forall t, In t (no_rows k) -> rows_in db t = [];
  knows_null : forall t c r, In (t, c) (all_null k) -> In r (rows_in db t) -> r !! c = None;
  knows_filled : forall t c r, In (t, c) (filled k) -> In r (rows_in db t) -> is_Some (r !! c) }.

Definition learn (s : Step) (k : Known) : Known :=
  match s with
  | PutTable t => MkKnown (t :: no_rows k) (all_null k) (filled k)
  | PutColumn t c _ options =>
      match option_default options with
      | None => MkKnown (no_rows k) ((t, c) :: all_null k) (without (t, c) (filled k))
      | Some _ => MkKnown (no_rows k) (without (t, c) (all_null k)) ((t, c) :: filled k)
      end
  | RemoveColumn t c => MkKnown (no_rows k) (all_null k) (without (t, c) (filled k))
  | _ => k
  end.

(** A key of the table is among the columns. *)
Definition includes_key (cols : list string) (tab : Table) : bool :=
  existsb (fun kc => match key_columns kc.2 with
                     | Some ks => forallb (fun c => member_of c cols) ks
                     | None => false
                     end) (map_to_list (tab_constraints tab)).
Definition distinct_anyway (t : string) (cols : list string) (k : Known) (db : Database) : bool :=
  existsb (fun c => pair_in (t, c) (all_null k)) cols
  || match db_tables db !! t with Some tab => includes_key cols tab | None => false end.

Definition safe (k : Known) (db : Database) (s : Step) : bool :=
  schema_step s
  && (member_of (table_of_step s) (no_rows k)
      || match s with
         | PutColumn _ _ _ options => option_nullable options || negb (is_none (option_default options))
         | PutConstraint t _ c =>
             match c with
             | ForeignKey cols _ _ _ => existsb (fun c => pair_in (t, c) (all_null k)) cols
             | Unique cols => distinct_anyway t cols k db
             | _ => false
             end
         | PutIndex _ t index => negb (ix_unique index) || distinct_anyway t (ix_columns index) k db
         | ChangeColumn t c f =>
             match db_tables db !! t ≫= fun tab => tab_columns tab !! c with
             | Some d => col_nullable (f d) || pair_in (t, c) (filled k)
             | None => true
             end
         | _ => true
         end).

Lemma pair_in_In t c l : pair_in (t, c) l = true -> In (t, c) l.
Proof.
  intros ([t' c'] & Hin & E)%existsb_exists. cbn in E. apply andb_true_iff in E as [E1 E2].
  apply String.eqb_eq in E1 as <-. by apply String.eqb_eq in E2 as <-.
Qed.
Lemma without_In x y l : In y (without x l) -> In y l /\ y <> x.
Proof.
  intros [H E]%filter_In. split; [done|]. intros ->. by rewrite !String.eqb_refl in E.
Qed.
Lemma member_of_In c l : member_of c l = true -> In c l.
Proof. intros (c' & Hin & E)%existsb_exists. by apply String.eqb_eq in E as <-. Qed.

(** The rows of a table after a step. *)
Definition row_effect (now : Z) (s : Step) (t : string) (r : Row) : Row :=
  match s with
  | PutColumn t' c type options => if decide (t = t') then fill_row c (fill now type options) r else r
  | RemoveColumn t' c => if decide (t = t') then delete c r else r
  | _ => r
  end.
Definition replaces_table (t : string) (s : Step) : bool :=
  match s with PutTable t' | RemoveTable t' => String.eqb t t' | _ => false end.

Lemma map_same (rows : list Row) (f : Row -> Row) : (forall r, f r = r) -> map f rows = rows.
Proof. intros H. induction rows as [|r rows IH]; [done|]. cbn. by rewrite H, IH. Qed.

Lemma effect_rows now s t tab :
  schema_step s = true -> replaces_table t s = false ->
  exists tab', effect now s t (Some tab) = Some tab'
    /\ tab_rows tab' = map (row_effect now s t) (tab_rows tab) /\ tab_next tab' = tab_next tab.
Proof.
  intros Hs Hr. destruct s; try discriminate Hs; cbn [effect table_of_step row_effect replaces_table] in *.
  1,5: apply String.eqb_neq in Hr; rewrite decide_False by done; eexists; split; [done|];
       by rewrite map_same.
  all: try (destruct (decide (t = _)) as [E|E]); cbn [fmap option_fmap option_map];
    eexists; (split; [done|]); cbn [alter_table tab_rows tab_next];
    try (by rewrite map_same);
    try (by split; [apply map_ext; intros r; unfold row_effect; first [by rewrite decide_True | by rewrite decide_False]|]).
  - split; [|done]. rewrite map_same; [done|]. intros r. unfold row_effect. by rewrite decide_False.
  - destruct (implied_fields c tab) as (_ & _ & -> & ->). by rewrite map_same.
  - split; [|done]. rewrite map_same; [done|]. intros r. unfold row_effect. by rewrite decide_False.
Qed.

Lemma rows_in_step now s db db' t :
  schema_step s = true -> structure now s db = Ok db' ->
  rows_in db' t = if replaces_table t s then [] else map (row_effect now s t) (rows_in db t).
Proof.
  intros Hs Hst. unfold rows_in. rewrite (structure_lookup now s db db' t Hs Hst).
  destruct (replaces_table t s) eqn:Er.
  - destruct s; try discriminate Er; cbn in Er |- *; apply String.eqb_eq in Er as <-;
      by rewrite decide_True.
  - destruct (db_tables db !! t) as [tab|] eqn:Et.
    + destruct (effect_rows now s t tab Hs Er) as (tab' & -> & -> & _). done.
    + destruct s; try discriminate Hs; cbn [effect table_of_step replaces_table] in *;
        try (apply String.eqb_neq in Er; rewrite decide_False by done; done);
        try (by destruct (decide (t = _))). done.
Qed.

Lemma in_rows_step now s db db' t r :
  schema_step s = true -> structure now s db = Ok db' -> In r (rows_in db' t) ->
  replaces_table t s = false /\ exists r0, In r0 (rows_in db t) /\ r = row_effect now s t r0.
Proof.
  intros Hs Hst. rewrite (rows_in_step now s db db' t Hs Hst).
  destruct (replaces_table t s); [done|]. intros (r0 & <- & Hr)%in_map_iff. split; [done|]. by exists r0.
Qed.

(** The cell of the column after the step. *)
Lemma row_effect_other now s t c r :
  (forall c', s <> RemoveColumn t c') -> (forall c' ty o, s <> PutColumn t c' ty o) ->
  row_effect now s t r !! c = r !! c.
Proof.
  intros H1 H2. destruct s; try done; cbn; destruct (decide (t = _)) as [->|]; try done.
  - by destruct (H2 c0 type options).
  - by destruct (H1 c0).
Qed.

Lemma put_column_default now t c ty options db db' :
  structure now (PutColumn t c ty options) db = Ok db' ->
  option_default options = None \/ is_Some (fill now ty options).
Proof.
  cbn. unfold put_column, fill. intros H. split_outcome.
  destruct (option_default options); [right | by left]. split_outcome. cbn. by eexists.
Qed.

Lemma fresh_column now t c ty options db db' r :
  valid db -> structure now (PutColumn t c ty options) db = Ok db' -> In r (rows_in db t) ->
  r !! c = None.
Proof.
  cbn. unfold put_column, rows_in. intros Hv H Hr. split_outcome.
  match goal with H : db_tables db !! t = Some ?tab |- _ => rewrite H in Hr; apply Hv in H as Hvt end.
  destruct (r !! c) eqn:E; [|done]. destruct (cells_known _ Hvt r c Hr) as [d Hd]; [by eexists|].
  match goal with H : is_none _ = true |- _ => by rewrite Hd in H end.
Qed.

Lemma knows_step now s k db db' :
  schema_step s = true -> valid db -> structure now s db = Ok db' -> knows k db ->
  knows (learn s k) db'.
Proof.
  intros Hs Hv Hst [He Hn Hf].
  assert (Hnil : forall t, In t (no_rows k) -> rows_in db' t = []).
  { intros t Ht. rewrite (rows_in_step now s db db' t Hs Hst), (He t Ht).
    by destruct (replaces_table t s). }
  assert (Hnull : forall t c r, In (t, c) (all_null k) -> In r (rows_in db' t) ->
            (forall ty o, s = PutColumn t c ty o -> option_default o = None) -> r !! c = None).
  { intros t c r Hin Hr Hd. destruct (in_rows_step now s db db' t r Hs Hst Hr) as (_ & r0 & Hr0 & ->).
    specialize (Hn t c r0 Hin Hr0). destruct s; try done; cbn; destruct (decide (t = _)) as [<-|]; try done.
    - rewrite lookup_fill_row. destruct (decide (c = c0)) as [<-|]; [|done].
      unfold fill. by rewrite (Hd type options).
    - apply lookup_delete_None. by right. }
  assert (Hfill : forall t c r, In (t, c) (filled k) -> In r (rows_in db' t) ->
            s <> RemoveColumn t c -> is_Some (r !! c)).
  { intros t c r Hin Hr Hd. destruct (in_rows_step now s db db' t r Hs Hst Hr) as (_ & r0 & Hr0 & ->).
    specialize (Hf t c r0 Hin Hr0). destruct s; try done; cbn; destruct (decide (t = _)) as [<-|]; try done.
    - rewrite lookup_fill_row. destruct (decide (c = c0)) as [<-|]; [|done]. by destruct (fill _ _ _).
    - rewrite lookup_delete_ne; [done|]. by intros ->. }
  destruct s; try discriminate Hs; cbn [learn].
  all: try (by split; [exact Hnil | by intros; eapply Hnull | by intros; eapply Hfill]).
  - split; cbn; [|by intros; eapply Hnull | by intros; eapply Hfill].
    intros t' [<-|Ht']; [|by apply Hnil]. rewrite (rows_in_step now _ db db' t Hs Hst). cbn.
    by rewrite String.eqb_refl.
  - pose proof (put_column_default _ _ _ _ _ _ _ Hst) as Hd.
    assert (Hnew : forall r, In r (rows_in db' t) -> exists r0, In r0 (rows_in db t)
                     /\ r !! c = match fill now type options with Some v => Some v | None => r0 !! c end).
    { intros r Hr. destruct (in_rows_step now _ db db' t r Hs Hst Hr) as (_ & r0 & Hr0 & ->). exists r0.
      split; [done|]. cbn. rewrite decide_True, lookup_fill_row, decide_True by done. done. }
    destruct (option_default options) as [d|] eqn:Ed.
    + destruct Hd as [[=]|[v Hfv]]. split; cbn; [exact Hnil | |].
      * intros t' c' r [Hin Hne]%without_In Hr. eapply Hnull; [done..|]. intros ty o [= <- <- _ _]. done.
      * intros t' c' r [[= <- <-]|Hin] Hr; [|by eapply Hfill].
        destruct (Hnew r Hr) as (r0 & _ & ->). rewrite Hfv. by eexists.
    + split; cbn; [exact Hnil | | intros t' c' r [Hin Hne]%without_In Hr; by eapply Hfill].
      intros t' c' r [[= <- <-]|Hin] Hr; [|eapply Hnull; [done..|]; intros ty o E; injection E as _ _ _ <-; done].
      destruct (Hnew r Hr) as (r0 & Hr0 & ->). unfold fill. rewrite Ed. cbn.
      by apply (fresh_column now t c type options db db').
  - split; cbn; [exact Hnil | by intros; eapply Hnull |].
    intros t' c' r [Hin Hne]%without_In Hr. eapply Hfill; [done..|]. by intros [= <- <-].
Qed.

Lemma distinct_keys_filter cols (p : Row -> bool) rows :
  distinct_keys cols rows = true -> distinct_keys cols (List.filter p rows) = true.
Proof.
  unfold distinct_keys. rewrite !bool_decide_eq_true. induction rows as [|r rows IH]; [done|]. cbn.
  intros Hd. destruct (p r); cbn.
  - destruct (key cols r) as [k|]; [|by apply IH]. apply NoDup_cons in Hd as [Hk Hd].
    apply NoDup_cons. split; [|by apply IH].
    intros (r' & Hr' & E)%list_elem_of_omap. apply Hk, list_elem_of_omap. exists r'. split; [|done].
    apply list_elem_of_In in Hr'. apply filter_In in Hr' as [Hr' _]. by apply list_elem_of_In.
  - apply IH. destruct (key cols r); [by apply NoDup_cons in Hd as [_ Hd] | done].
Qed.

Lemma key_null cols c r : In c cols -> r !! c = None -> key cols r = None.
Proof.
  intros Hc Hr. destruct (key cols r) eqn:E; [|done].
  unfold key in E. apply mk_is_Some, mapM_is_Some in E. rewrite Forall_forall in E.
  destruct (E c) as [v Hv]; [by apply list_elem_of_In | congruence].
Qed.

Lemma distinct_keys_null cols c rows :
  In c cols -> (forall r, In r rows -> r !! c = None) -> distinct_keys cols rows = true.
Proof.
  intros Hc H. unfold distinct_keys. rewrite bool_decide_eq_true.
  enough (omap (key cols) rows = []) as -> by constructor.
  induction rows as [|r rows IH]; [done|]. cbn.
  rewrite (key_null cols c r Hc) by (apply H; by left). apply IH. intros r' Hr'. apply H. by right.
Qed.

Lemma distinct_anyway_distinct t cols k db :
  valid db -> knows k db -> distinct_anyway t cols k (erase db) = true ->
  distinct_keys cols (rows_in db t) = true.
Proof.
  intros Hv Hk [(c & Hc & Hin)%existsb_exists|Hkey]%orb_true_iff.
  - apply pair_in_In in Hin. apply (distinct_keys_null cols c); [done|].
    intros r. by apply (knows_null k db Hk).
  - rewrite erase_lookup in Hkey. unfold rows_in. destruct (db_tables db !! t) as [tab|] eqn:Et; [|done].
    cbn in Hkey. apply existsb_exists in Hkey as ([name q] & Hq & Hsub). cbn in Hsub.
    apply list_elem_of_In, elem_of_map_to_list in Hq.
    destruct (key_columns q) as [ks|] eqn:Eq; [|done]. rewrite forallb_forall in Hsub.
    apply (distinct_keys_superset ks); [intros c Hc; by apply member_of_In, Hsub|].
    by eapply (keys_distinct tab (Hv _ _ Et)).
Qed.

Lemma existsb_null t cols k db :
  knows k db -> existsb (fun c => pair_in (t, c) (all_null k)) cols = true ->
  forall r, In r (rows_in db t) -> key cols r = None.
Proof.
  intros Hk (c & Hc & Hin)%existsb_exists r Hr. apply pair_in_In in Hin.
  apply (key_null cols c); [done|]. by apply (knows_null k db Hk t c r).
Qed.

(** Nothing is demanded of a table without rows. *)
Lemma no_rows_accepted s db : rows_in db (table_of_step s) = [] -> schema_step s = true ->
  rows_accepted s db = true.
Proof.
  intros He Hs. destruct s; try discriminate Hs; cbn [rows_accepted table_of_step] in *; try done.
  - unfold no_nulls. rewrite He. apply orb_true_r.
  - unfold constraint_holds. rewrite He. by destruct c.
  - unfold index_holds, indexed_rows. rewrite He. destruct (ix_unique index); [|done].
    by destruct (ix_where index).
  - destruct (_ ≫= _); [|done]. unfold no_nulls. rewrite He. apply orb_true_r.
Qed.

(** A safe step is accepted whatever the rows are. *)
Lemma safe_accepted now s k db db' :
  valid db -> knows k db -> safe k (erase db) s = true -> structure now s db = Ok db' ->
  rows_accepted s db' = true.
Proof.
  intros Hv Hk [Hs [Ht|Hc]%orb_true_iff]%andb_true_iff Hst.
  { apply no_rows_accepted; [|done]. rewrite (rows_in_step now s db db' _ Hs Hst).
    apply member_of_In in Ht. rewrite (knows_empty k db Hk _ Ht). by destruct (replaces_table _ _). }
  pose proof (fun t => rows_in_step now s db db' t Hs Hst) as Hrows.
  destruct s; try discriminate Hs; cbn [rows_accepted] in *; try done.
  - apply orb_true_iff in Hc as [->|Hd]; [done|]. apply orb_true_iff. right.
    unfold no_nulls. rewrite (Hrows t). cbn. apply forallb_forall.
    intros r (r0 & <- & Hr)%in_map_iff. apply has_value_true.
    destruct (put_column_default _ _ _ _ _ _ _ Hst) as [E|[v E]]; [by rewrite E in Hd|].
    cbn. rewrite decide_True, E by done. cbn. rewrite lookup_insert_eq. by eexists.
  - assert (E : rows_in db' t = rows_in db t) by (rewrite (Hrows t); cbn; by apply map_same).
    unfold constraint_holds. rewrite E. destruct c; try discriminate Hc.
    + by eapply distinct_anyway_distinct.
    + apply forallb_forall. intros r Hr. by rewrite (existsb_null _ _ _ _ Hk Hc r Hr).
  - assert (E : rows_in db' t = rows_in db t) by (rewrite (Hrows t); cbn; by apply map_same).
    unfold index_holds. rewrite E. apply orb_true_iff in Hc as [->|Hc]; [done|].
    apply orb_true_iff. right. unfold indexed_rows.
    pose proof (distinct_anyway_distinct _ _ _ _ Hv Hk Hc) as Hd.
    destruct (ix_where index); [by apply distinct_keys_filter | done].
  - assert (E : rows_in db' t = rows_in db t) by (rewrite (Hrows t); cbn; by apply map_same).
    rewrite (structure_lookup now _ db db' t Hs Hst). cbn. rewrite decide_True by done.
    rewrite erase_lookup in Hc. destruct (db_tables db !! t) as [tab|]; [|done]. cbn in Hc |- *.
    rewrite lookup_alter_eq. destruct (tab_columns tab !! c); [|done]. cbn in Hc |- *.
    apply orb_true_iff in Hc as [->|Hf]; [done|]. apply orb_true_iff. right.
    unfold no_nulls. rewrite E. apply forallb_forall. intros r Hr. apply has_value_true.
    apply pair_in_In in Hf. by apply (knows_filled k db Hk t c r).
Qed.

(** ** Runs *)

(** The structure after the steps, and what is then known, if every step is safe. *)
Fixpoint safe_run (now : Z) (k : Known) (l : list Step) (db : Database) : option (Known * Database) :=
  match l with
  | [] => Some (k, db)
  | s :: l =>
      if safe k db s then
        match structure now s db with
        | Ok db' => safe_run now (learn s k) l db'
        | Raise _ => None
        end
      else None
  end.

(** A safe run on the structure is a run on every database with it. *)
Theorem safe_run_runs now l k db k' sch :
  valid db -> knows k db -> safe_run now k l (erase db) = Some (k', sch) ->
  exists db', run_steps now l db = Ok db' /\ erase db' = sch /\ valid db' /\ knows k' db'.
Proof.
  revert k db. induction l as [|s l IH]; intros k db Hv Hk; cbn.
  - intros [= <- <-]. by exists db.
  - destruct (safe k (erase db) s) eqn:Hsafe; [|done].
    assert (Hs : schema_step s = true) by (by apply andb_true_iff in Hsafe as [? _]).
    rewrite structure_erase by done. destruct (structure now s db) as [db1|] eqn:Hst; [|done]. cbn.
    pose proof (safe_accepted now s k db db1 Hv Hk Hsafe Hst) as Hacc.
    assert (Hrun : run_step now s db = Ok db1) by (unfold run_step; rewrite Hst; cbn; by rewrite Hacc).
    intros Hsr. rewrite Hrun. cbn. eapply IH; [| |exact Hsr].
    + by eapply run_step_valid.
    + by eapply knows_step.
Qed.

Lemma safe_run_prefix now k l l' db o :
  safe_run now k (l ++ l') db = Some o -> is_Some (safe_run now k l db).
Proof.
  revert k db. induction l as [|s l IH]; intros k db; cbn; [by eexists|].
  destruct (safe k db s); [|done]. destruct (structure now s db); [|done]. apply IH.
Qed.

Definition known_from (db : Database) : Known :=
  MkKnown [] []
    (flat_map (fun kt => map (fun kc => (kt.1, kc.1))
                           (List.filter (fun kc => negb (col_nullable kc.2)) (map_to_list (tab_columns kt.2))))
       (map_to_list (db_tables db))).

Lemma knows_from db : valid db -> knows (known_from (erase db)) db.
Proof.
  intros Hv. split; [done..|]. intros t c r Hin Hr.
  apply in_flat_map in Hin as ([t' tab'] & Ht & Hin). cbn in Hin.
  apply list_elem_of_In, elem_of_map_to_list in Ht. rewrite erase_lookup in Ht.
  apply in_map_iff in Hin as ([c' d] & [= -> ->] & [Hc Hn]%filter_In).
  apply list_elem_of_In, elem_of_map_to_list in Hc. cbn in Hn.
  unfold rows_in in Hr. destruct (db_tables db !! t) as [tab|] eqn:Et; [|done].
  injection Ht as <-. cbn in Hc. eapply (cells_filled tab (Hv _ _ Et)); [done| |done].
  by destruct (col_nullable d).
Qed.

(** ** What a run keeps *)

Definition touched (t : string) (l : list Step) : list string :=
  flat_map (fun s => match s with
                     | PutColumn t' c _ _ | RemoveColumn t' c => if String.eqb t t' then [c] else []
                     | _ => []
                     end) l.

(** The same rows, up to the cells of some columns. *)
Definition same_cells (except : list string) (rows rows' : list Row) : Prop :=
  Forall2 (fun r r' => forall c, ~ In c except -> r' !! c = r !! c) rows rows'.

Lemma same_cells_refl rows : same_cells [] rows rows.
Proof. unfold same_cells. induction rows; constructor; done. Qed.

Lemma same_cells_trans e e' a b c : same_cells e a b -> same_cells e' b c -> same_cells (e ++ e') a c.
Proof.
  unfold same_cells. intros H. revert c. induction H as [|r r' a b Hr H IH]; intros c Hc; inversion Hc; subst.
  - constructor.
  - constructor; [|by apply IH]. intros col Hcol. rewrite in_app_iff in Hcol.
    match goal with H : forall c, ~ In c e' -> _ |- _ => rewrite H by tauto end. apply Hr. tauto.
Qed.

Lemma same_cells_step now s t rows :
  same_cells (touched t [s]) rows (map (row_effect now s t) rows).
Proof.
  unfold same_cells. induction rows as [|r rows IH]; constructor; [|done]. intros c Hc.
  destruct s; cbn in Hc |- *; try done; destruct (decide (t = _)) as [->|]; try done;
    rewrite String.eqb_refl in Hc; cbn in Hc.
  - rewrite lookup_fill_row. destruct (decide (c = c0)) as [->|]; [|done]. destruct Hc. by left.
  - rewrite lookup_delete_ne; [done|]. intros ->. apply Hc. by left.
Qed.

(** Tables that are not replaced keep their rows, but for the columns added or removed. *)
Theorem run_keeps_cells now l db db' t tab :
  forallb schema_step l = true -> existsb (replaces_table t) l = false ->
  run_steps now l db = Ok db' -> db_tables db !! t = Some tab ->
  exists tab', db_tables db' !! t = Some tab' /\ same_cells (touched t l) (tab_rows tab) (tab_rows tab')
    /\ tab_next tab' = tab_next tab.
Proof.
  revert db tab. induction l as [|s l IH]; intros db tab; cbn [forallb existsb run_steps].
  - intros _ _ [= <-] Ht. exists tab. split; [done|]. split; [apply same_cells_refl | done].
  - intros [Hs Hl]%andb_true_iff [Hr Hrs]%orb_false_elim Hrun Ht.
    apply and_then_ok in Hrun as (db1 & [Hst _]%run_step_ok & Hrun).
    pose proof (structure_lookup now s db db1 t Hs Hst) as E. rewrite Ht in E.
    destruct (effect_rows now s t tab Hs Hr) as (tab1 & Ee & Er & En). rewrite Ee in E.
    destruct (IH db1 tab1 Hl Hrs Hrun E) as (tab' & Ht' & Hsame & Hn). exists tab'. split; [done|].
    split; [|congruence]. unfold touched in *. cbn [flat_map].
    eapply same_cells_trans; [|exact Hsame]. rewrite Er.
    pose proof (same_cells_step now s t (tab_rows tab)) as H. cbn in H. by rewrite app_nil_r in H.
Qed.

(** No table is replaced and no column that was there is touched. *)
Definition leaves_alone (l : list Step) (db : Database) : bool :=
  forallb schema_step l
  && forallb (fun kt => negb (existsb (replaces_table kt.1) l)
                        && forallb (fun c => is_none (tab_columns kt.2 !! c)) (touched kt.1 l))
       (map_to_list (db_tables db)).

(** Every row is still there and says the same in the columns there were. *)
Definition data_kept (db db' : Database) : Prop :=
  forall t tab, db_tables db !! t = Some tab ->
    exists tab', db_tables db' !! t = Some tab'
      /\ Forall2 (fun r r' => forall c, is_Some (tab_columns tab !! c) -> r' !! c = r !! c)
           (tab_rows tab) (tab_rows tab')
      /\ tab_next tab' = tab_next tab.

Lemma leaves_alone_kept now l db db' :
  leaves_alone l (erase db) = true -> run_steps now l db = Ok db' -> data_kept db db'.
Proof.
  intros [Hs Hl]%andb_true_iff Hrun t tab Ht. rewrite forallb_forall in Hl.
  assert (Hin : In (t, erase_table tab) (map_to_list (db_tables (erase db)))).
  { apply list_elem_of_In, elem_of_map_to_list. by rewrite erase_lookup, Ht. }
  apply Hl in Hin. cbn in Hin. apply andb_true_iff in Hin as [Hr%negb_true_iff Hc].
  destruct (run_keeps_cells now l db db' t tab Hs Hr Hrun Ht) as (tab' & Ht' & Hsame & Hn).
  exists tab'. split; [done|]. split; [|done]. eapply Forall2_impl; [exact Hsame|].
  intros r r' H c [d Hd]. apply H. intros Hin. rewrite forallb_forall in Hc. apply Hc in Hin.
  by rewrite Hd in Hin.
Qed.

(** Data kept under the same structure is the same data. *)
Lemma kept_same_tables db db' :
  valid db -> valid db' -> data_kept db db' -> db_tables (erase db') = db_tables (erase db) ->
  db_tables db' = db_tables db.
Proof.
  intros Hv Hv' Hk E. apply map_eq. intros t.
  assert (Et : erase_table <$> db_tables db' !! t = erase_table <$> db_tables db !! t)
    by (by rewrite <- !erase_lookup, E).
  destruct (db_tables db !! t) as [tab|] eqn:Ht.
  - destruct (Hk t tab Ht) as (tab' & Ht' & Hrows & Hn). rewrite Ht' in Et |- *. f_equal.
    cbn in Et. injection Et as Ec Ek Ei. destruct tab as [cs ks is_ rs n], tab' as [cs' ks' is' rs' n'].
    cbn in *. subst. f_equal. apply (list_eq_same_length _ _ (length rs)); [done| |].
    + symmetry. by eapply Forall2_length.
    + intros i r' r _ Hr' Hr. apply map_eq. intros c.
      pose proof (Forall2_lookup_lr _ _ _ _ _ _ Hrows Hr Hr') as H.
      destruct (cs !! c) eqn:Ecs; [by apply H|].
      destruct (r' !! c) eqn:E1.
      { destruct (cells_known _ (Hv' _ _ Ht') r' c) as [? Hc]; cbn in *; [|by eexists|congruence].
        by eapply list_elem_of_In, list_elem_of_lookup_2. }
      destruct (r !! c) eqn:E2; [|done].
      destruct (cells_known _ (Hv _ _ Ht) r c) as [? Hc]; cbn in *; [|by eexists|congruence].
      by eapply list_elem_of_In, list_elem_of_lookup_2.
  - by destruct (db_tables db' !! t).
Qed.

(** ** Checking validity *)

Definition check_table (tab : Table) : bool :=
  forallb (fun r => forallb (fun kv => negb (is_none (tab_columns tab !! kv.1))) (map_to_list r)) (tab_rows tab)
  && forallb (fun kc => col_nullable kc.2 || forallb (has_value kc.1) (tab_rows tab))
       (map_to_list (tab_columns tab))
  && forallb (fun kq => match key_columns kq.2 with
                        | Some cols => forallb (fun c => negb (is_none (tab_columns tab !! c))) cols
                                       && distinct_keys cols (tab_rows tab)
                        | None => true
                        end) (map_to_list (tab_constraints tab)).

Lemma forallb_map_to_list {A} (p : string * A -> bool) (m : gmap string A) k x :
  forallb p (map_to_list m) = true -> m !! k = Some x -> p (k, x) = true.
Proof.
  rewrite forallb_forall. intros H Hk. apply H, list_elem_of_In. by apply elem_of_map_to_list.
Qed.

Lemma check_table_valid tab : check_table tab = true -> table_valid tab.
Proof.
  intros [[Hr Hc]%andb_true_iff Hk]%andb_true_iff. rewrite forallb_forall in Hr. split.
  - intros r c Hin [v Hv]. pose proof (forallb_map_to_list _ _ _ _ (Hr r Hin) Hv) as H. cbn in H.
    by destruct (tab_columns tab !! c).
  - intros c d r Hd Hn Hin. pose proof (forallb_map_to_list _ _ _ _ Hc Hd) as H. cbn in H.
    rewrite Hn in H. cbn in H. rewrite forallb_forall in H. by apply has_value_true, H.
  - intros name k cols c Hq Hcols Hin. pose proof (forallb_map_to_list _ _ _ _ Hk Hq) as H. cbn in H.
    rewrite Hcols in H. apply andb_true_iff in H as [H _]. rewrite forallb_forall in H.
    apply H in Hin. by destruct (tab_columns tab !! c).
  - intros name k cols Hq Hcols. pose proof (forallb_map_to_list _ _ _ _ Hk Hq) as H. cbn in H.
    rewrite Hcols in H. by apply andb_true_iff in H as [_ H].
Qed.

Lemma check_valid db :
  forallb (fun kt => check_table kt.2) (map_to_list (db_tables db)) = true -> valid db.
Proof.
  intros H t tab Ht. apply check_table_valid. exact (forallb_map_to_list _ _ _ _ H Ht).
Qed.
