(* ===== verification/Migrations.v ===== *)
(** * Migrations: the history of the schema, alembic/versions

    Every script of alembic/versions, operation by operation, in the order of the directory.
    The texts of [op.execute] are statements of [Ddl.Sql]; [existing_type], which only other
    databases read, is left out. *)

From S2P Require Import Prelude Ddl.

#[local] Open Scope string_scope.

(** versions/1a2b3c4d5e6f_add_appointment_domain_tables.py: add appointment domain tables *)
Definition upgrade_1a2b3c4d5e6f : list op.Operation :=
  [ op.create_table "businesses"
    [ sa.Column "id" sa.Integer [sa.nullable false];
      sa.Column "tenant_id" sa.Integer [sa.nullable false];
      sa.Column "name" (sa.String (Some 255)) [sa.nullable false];
      sa.Column "timezone" (sa.String (Some 64)) [sa.nullable false];
      sa.Column "phone" (sa.String (Some 32)) [sa.nullable true];
      sa.Column "is_active" sa.Boolean [sa.nullable false; sa.server_default (sa.text "true")];
      sa.Column "created_at" (sa.DateTime true)
          [sa.server_default (sa.text "now()"); sa.nullable false];
      sa.ForeignKeyConstraint ["tenant_id"] "tenants" ["id"] (Some "fk_businesses_tenant_id")
          None;
      sa.PrimaryKeyConstraint ["id"] ];
    op.create_index "ix_businesses_tenant_id" "businesses" ["tenant_id"] false None None;
    op.create_table "staff"
    [ sa.Column "id" sa.Integer [sa.nullable false];
      sa.Column "tenant_id" sa.Integer [sa.nullable false];
      sa.Column "business_id" sa.Integer [sa.nullable false];
      sa.Column "name" (sa.String (Some 255)) [sa.nullable false];
      sa.Column "phone" (sa.String (Some 32)) [sa.nullable true];
      sa.Column "is_active" sa.Boolean [sa.nullable false; sa.server_default (sa.text "true")];
      sa.Column "created_at" (sa.DateTime true)
          [sa.server_default (sa.text "now()"); sa.nullable false];
      sa.ForeignKeyConstraint ["tenant_id"] "tenants" ["id"] (Some "fk_staff_tenant_id") None;
      sa.ForeignKeyConstraint ["business_id"] "businesses" ["id"] (Some "fk_staff_business_id")
          None;
      sa.PrimaryKeyConstraint ["id"] ];
    op.create_index "ix_staff_tenant_id" "staff" ["tenant_id"] false None None;
    op.create_index "ix_staff_business_id" "staff" ["business_id"] false None None;
    op.create_table "services"
    [ sa.Column "id" sa.Integer [sa.nullable false];
      sa.Column "tenant_id" sa.Integer [sa.nullable false];
      sa.Column "business_id" sa.Integer [sa.nullable false];
      sa.Column "name" (sa.String (Some 255)) [sa.nullable false];
      sa.Column "duration_minutes" sa.Integer [sa.nullable false];
      sa.Column "is_active" sa.Boolean [sa.nullable false; sa.server_default (sa.text "true")];
      sa.Column "price_minor_units" sa.Integer [sa.nullable true];
      sa.Column "currency" (sa.String (Some 3)) [sa.nullable true];
      sa.Column "created_at" (sa.DateTime true)
          [sa.server_default (sa.text "now()"); sa.nullable false];
      sa.ForeignKeyConstraint ["tenant_id"] "tenants" ["id"] (Some "fk_services_tenant_id") None;
      sa.ForeignKeyConstraint ["business_id"] "businesses" ["id"]
          (Some "fk_services_business_id") None;
      sa.PrimaryKeyConstraint ["id"] ];
    op.create_index "ix_services_tenant_id" "services" ["tenant_id"] false None None;
    op.create_index "ix_services_business_id" "services" ["business_id"] false None None;
    op.create_table "working_hours"
    [ sa.Column "id" sa.Integer [sa.nullable false];
      sa.Column "tenant_id" sa.Integer [sa.nullable false];
      sa.Column "business_id" sa.Integer [sa.nullable false];
      sa.Column "staff_id" sa.Integer [sa.nullable true];
      sa.Column "day_of_week" sa.Integer [sa.nullable false];
      sa.Column "start_time" sa.Time [sa.nullable false];
      sa.Column "end_time" sa.Time [sa.nullable false];
      sa.ForeignKeyConstraint ["tenant_id"] "tenants" ["id"] (Some "fk_working_hours_tenant_id")
          None;
      sa.ForeignKeyConstraint ["business_id"] "businesses" ["id"]
          (Some "fk_working_hours_business_id") None;
      sa.ForeignKeyConstraint ["staff_id"] "staff" ["id"] (Some "fk_working_hours_staff_id") None;
      sa.PrimaryKeyConstraint ["id"] ];
    op.create_index "ix_working_hours_tenant_id" "working_hours" ["tenant_id"] false None None;
    op.create_index "ix_working_hours_business_id" "working_hours" ["business_id"] false None
        None;
    op.create_index "ix_working_hours_staff_id" "working_hours" ["staff_id"] false None None;
    op.create_table "availability_exceptions"
    [ sa.Column "id" sa.Integer [sa.nullable false];
      sa.Column "tenant_id" sa.Integer [sa.nullable false];
      sa.Column "business_id" sa.Integer [sa.nullable false];
      sa.Column "staff_id" sa.Integer [sa.nullable true];
      sa.Column "date" sa.Date [sa.nullable false];
      sa.Column "is_closed" sa.Boolean [sa.nullable false; sa.server_default (sa.text "true")];
      sa.Column "start_time" sa.Time [sa.nullable true];
      sa.Column "end_time" sa.Time [sa.nullable true];
      sa.Column "reason" (sa.String (Some 255)) [sa.nullable true];
      sa.ForeignKeyConstraint ["tenant_id"] "tenants" ["id"]
          (Some "fk_availability_exceptions_tenant_id") None;
      sa.ForeignKeyConstraint ["business_id"] "businesses" ["id"]
          (Some "fk_availability_exceptions_business_id") None;
      sa.ForeignKeyConstraint ["staff_id"] "staff" ["id"]
          (Some "fk_availability_exceptions_staff_id") None;
      sa.PrimaryKeyConstraint ["id"] ];
    op.create_index "ix_availability_exceptions_tenant_id" "availability_exceptions"
        ["tenant_id"] false None None;
    op.create_index "ix_availability_exceptions_business_id" "availability_exceptions"
        ["business_id"] false None None;
    op.create_index "ix_availability_exceptions_staff_id" "availability_exceptions" ["staff_id"]
        false None None;
    op.create_index "ix_availability_exceptions_date" "availability_exceptions" ["date"] false
        None None;
    op.create_table "customers"
    [ sa.Column "id" sa.Integer [sa.nullable false];
      sa.Column "tenant_id" sa.Integer [sa.nullable false];
      sa.Column "business_id" sa.Integer [sa.nullable false];
      sa.Column "phone" (sa.String (Some 32)) [sa.nullable false];
      sa.Column "phone_normalized" (sa.String (Some 32)) [sa.nullable false];
      sa.Column "name" (sa.String (Some 255)) [sa.nullable true];
      sa.Column "created_at" (sa.DateTime true)
          [sa.server_default (sa.text "now()"); sa.nullable false];
      sa.ForeignKeyConstraint ["tenant_id"] "tenants" ["id"] (Some "fk_customers_tenant_id") None;
      sa.ForeignKeyConstraint ["business_id"] "businesses" ["id"]
          (Some "fk_customers_business_id") None;
      sa.UniqueConstraint ["business_id"; "phone_normalized"]
          (Some "uq_customers_business_phone");
      sa.PrimaryKeyConstraint ["id"] ];
    op.create_index "ix_customers_tenant_id" "customers" ["tenant_id"] false None None;
    op.create_index "ix_customers_business_id" "customers" ["business_id"] false None None;
    op.create_table "bookings"
    [ sa.Column "id" sa.Integer [sa.nullable false];
      sa.Column "tenant_id" sa.Integer [sa.nullable false];
      sa.Column "business_id" sa.Integer [sa.nullable false];
      sa.Column "customer_id" sa.Integer [sa.nullable false];
      sa.Column "service_id" sa.Integer [sa.nullable false];
      sa.Column "staff_id" sa.Integer [sa.nullable true];
      sa.Column "starts_at" (sa.DateTime true) [sa.nullable false];
      sa.Column "ends_at" (sa.DateTime true) [sa.nullable false];
      sa.Column "status" (sa.String (Some 32))
          [sa.nullable false; sa.server_default (sa.literal "confirmed")];
      sa.Column "source" (sa.String (Some 32))
          [sa.nullable false; sa.server_default (sa.literal "api")];
      sa.Column "cancel_reason" (sa.String (Some 255)) [sa.nullable true];
      sa.Column "created_at" (sa.DateTime true)
          [sa.server_default (sa.text "now()"); sa.nullable false];
      sa.ForeignKeyConstraint ["tenant_id"] "tenants" ["id"] (Some "fk_bookings_tenant_id") None;
      sa.ForeignKeyConstraint ["business_id"] "businesses" ["id"]
          (Some "fk_bookings_business_id") None;
      sa.ForeignKeyConstraint ["customer_id"] "customers" ["id"] (Some "fk_bookings_customer_id")
          None;
      sa.ForeignKeyConstraint ["service_id"] "services" ["id"] (Some "fk_bookings_service_id")
          None;
      sa.ForeignKeyConstraint ["staff_id"] "staff" ["id"] (Some "fk_bookings_staff_id") None;
      sa.PrimaryKeyConstraint ["id"] ];
    op.create_index "ix_bookings_tenant_id" "bookings" ["tenant_id"] false None None;
    op.create_index "ix_bookings_business_id" "bookings" ["business_id"] false None None;
    op.create_index "ix_bookings_customer_id" "bookings" ["customer_id"] false None None;
    op.create_index "ix_bookings_staff_id_starts_at" "bookings" ["staff_id"; "starts_at"] false
        None None ].
Definition downgrade_1a2b3c4d5e6f : list op.Operation :=
  [ op.drop_table "bookings";
    op.drop_table "customers";
    op.drop_table "availability_exceptions";
    op.drop_table "working_hours";
    op.drop_table "services";
    op.drop_table "staff";
    op.drop_table "businesses" ].
Definition revision_1a2b3c4d5e6f : Revision :=
  MkRevision "1a2b3c4d5e6f" (Some "b3c4d5e6f7a8")
    upgrade_1a2b3c4d5e6f downgrade_1a2b3c4d5e6f.

(** versions/2b3c4d5e6f7a_add_booking_no_overlap_constraint.py: add no-overlap exclusion constraint on bookings *)
Definition upgrade_2b3c4d5e6f7a : list op.Operation :=
  [ op.execute (CREATE_EXTENSION_IF_NOT_EXISTS "btree_gist");
    op.execute (ADD_CONSTRAINT_EXCLUDE_USING_GIST "bookings" "no_overlapping_staff_bookings"
        "staff_id" "starts_at" "ends_at"
        (AND (EQ "status" "confirmed") (IS_NOT_NULL "staff_id"))) ].
Definition downgrade_2b3c4d5e6f7a : list op.Operation :=
  [ op.execute (DROP_CONSTRAINT "bookings" "no_overlapping_staff_bookings") ].
Definition revision_2b3c4d5e6f7a : Revision :=
  MkRevision "2b3c4d5e6f7a" (Some "1a2b3c4d5e6f")
    upgrade_2b3c4d5e6f7a downgrade_2b3c4d5e6f7a.

(** versions/32e2a5c45a2d_add_booking_audit_log.py: add target_booking_id to audit_logs for booking lifecycle audit trail *)
Definition upgrade_32e2a5c45a2d : list op.Operation :=
  [ op.add_column "audit_logs" (sa.Column "target_booking_id" sa.Integer
      [sa.ForeignKey "bookings" "id" None; sa.nullable true]);
    op.add_column "audit_logs" (sa.Column "source" (sa.String None) [sa.nullable true]);
    op.create_index "ix_audit_logs_target_booking_id" "audit_logs" ["target_booking_id"] false
        None None ].
Definition downgrade_32e2a5c45a2d : list op.Operation :=
  [ op.drop_index "ix_audit_logs_target_booking_id" "audit_logs";
    op.drop_column "audit_logs" "source";
    op.drop_column "audit_logs" "target_booking_id" ].
Definition revision_32e2a5c45a2d : Revision :=
  MkRevision "32e2a5c45a2d" (Some "2b3c4d5e6f7a")
    upgrade_32e2a5c45a2d downgrade_32e2a5c45a2d.

(** versions/3a9f1c7d8e20_add_password_reset_tokens.py: add password reset tokens *)
Definition upgrade_3a9f1c7d8e20 : list op.Operation :=
  [ op.create_table "password_reset_tokens"
    [ sa.Column "id" sa.Integer [sa.nullable false];
      sa.Column "user_id" sa.Integer [sa.nullable false];
      sa.Column "token_hash" (sa.String None) [sa.nullable false];
      sa.Column "expires_at" (sa.DateTime true) [sa.nullable false];
      sa.Column "used_at" (sa.DateTime true) [sa.nullable true];
      sa.Column "created_at" (sa.DateTime true)
          [sa.server_default (sa.text "now()"); sa.nullable false];
      sa.ForeignKeyConstraint ["user_id"] "users" ["id"] None (Some "CASCADE");
      sa.PrimaryKeyConstraint ["id"] ];
    op.create_index "ix_password_reset_tokens_id" "password_reset_tokens" ["id"] false None None;
    op.create_index "ix_password_reset_tokens_user_id" "password_reset_tokens" ["user_id"] false
        None None;
    op.create_index "ix_password_reset_tokens_token_hash" "password_reset_tokens" ["token_hash"]
        true None None;
    op.create_index "ix_password_reset_tokens_expires_at" "password_reset_tokens" ["expires_at"]
        false None None ].
Definition downgrade_3a9f1c7d8e20 : list op.Operation :=
  [ op.drop_index "ix_password_reset_tokens_expires_at" "password_reset_tokens";
    op.drop_index "ix_password_reset_tokens_token_hash" "password_reset_tokens";
    op.drop_index "ix_password_reset_tokens_user_id" "password_reset_tokens";
    op.drop_index "ix_password_reset_tokens_id" "password_reset_tokens";
    op.drop_table "password_reset_tokens" ].
Definition revision_3a9f1c7d8e20 : Revision :=
  MkRevision "3a9f1c7d8e20" (Some "7f4e8b9a2c10")
    upgrade_3a9f1c7d8e20 downgrade_3a9f1c7d8e20.

(** versions/4d5e6f7a8b90_allow_system_audit_logs.py: allow system audit logs *)
Definition upgrade_4d5e6f7a8b90 : list op.Operation :=
  [ op.alter_nullable "audit_logs" "admin_id" true ].
Definition downgrade_4d5e6f7a8b90 : list op.Operation :=
  [ op.alter_nullable "audit_logs" "admin_id" false ].
Definition revision_4d5e6f7a8b90 : Revision :=
  MkRevision "4d5e6f7a8b90" (Some "9b2c4d6e8f10")
    upgrade_4d5e6f7a8b90 downgrade_4d5e6f7a8b90.

(** versions/648d963688dd_add_user_role.py: create initial tables *)
Definition upgrade_648d963688dd : list op.Operation :=
  [ op.create_table "users"
    [ sa.Column "id" sa.Integer [sa.nullable false];
      sa.Column "email" (sa.String None) [sa.nullable false];
      sa.Column "hashed_password" (sa.String None) [sa.nullable false];
      sa.Column "is_active" sa.Boolean [sa.nullable true];
      sa.Column "role" (sa.String None) [sa.nullable false];
      sa.PrimaryKeyConstraint ["id"] ];
    op.create_index "ix_users_id" "users" ["id"] false None None;
    op.create_index "ix_users_email" "users" ["email"] true None None ].
Definition downgrade_648d963688dd : list op.Operation :=
  [ op.drop_index "ix_users_email" "users";
    op.drop_index "ix_users_id" "users";
    op.drop_table "users" ].
Definition revision_648d963688dd : Revision :=
  MkRevision "648d963688dd" None
    upgrade_648d963688dd downgrade_648d963688dd.

(** versions/7f4e8b9a2c10_add_audit_log_query_indexes.py: add audit log query indexes *)
Definition upgrade_7f4e8b9a2c10 : list op.Operation :=
  [ op.create_index "ix_audit_logs_action" "audit_logs" ["action"] false None None;
    op.create_index "ix_audit_logs_admin_id" "audit_logs" ["admin_id"] false None None;
    op.create_index "ix_audit_logs_target_user_id" "audit_logs" ["target_user_id"] false None
        None;
    op.create_index "ix_audit_logs_created_at" "audit_logs" ["created_at"] false None None ].
Definition downgrade_7f4e8b9a2c10 : list op.Operation :=
  [ op.drop_index "ix_audit_logs_created_at" "audit_logs";
    op.drop_index "ix_audit_logs_target_user_id" "audit_logs";
    op.drop_index "ix_audit_logs_admin_id" "audit_logs";
    op.drop_index "ix_audit_logs_action" "audit_logs" ].
Definition revision_7f4e8b9a2c10 : Revision :=
  MkRevision "7f4e8b9a2c10" (Some "f963f3c8b3a4")
    upgrade_7f4e8b9a2c10 downgrade_7f4e8b9a2c10.

(** versions/9b2c4d6e8f10_add_uploaded_files.py: add uploaded files *)
Definition upgrade_9b2c4d6e8f10 : list op.Operation :=
  [ op.create_table "uploaded_files"
    [ sa.Column "id" sa.Integer [sa.nullable false];
      sa.Column "owner_id" sa.Integer [sa.nullable false];
      sa.Column "object_key" (sa.String None) [sa.nullable false];
      sa.Column "filename" (sa.String None) [sa.nullable false];
      sa.Column "content_type" (sa.String None) [sa.nullable false];
      sa.Column "size_bytes" sa.Integer [sa.nullable false];
      sa.Column "created_at" (sa.DateTime true)
          [sa.server_default (sa.text "now()"); sa.nullable false];
      sa.ForeignKeyConstraint ["owner_id"] "users" ["id"] None (Some "CASCADE");
      sa.PrimaryKeyConstraint ["id"];
      sa.UniqueConstraint ["object_key"] None ];
    op.create_index "ix_uploaded_files_id" "uploaded_files" ["id"] false None None;
    op.create_index "ix_uploaded_files_owner_id" "uploaded_files" ["owner_id"] false None None;
    op.create_index "ix_uploaded_files_created_at" "uploaded_files" ["created_at"] false None
        None ].
Definition downgrade_9b2c4d6e8f10 : list op.Operation :=
  [ op.drop_index "ix_uploaded_files_created_at" "uploaded_files";
    op.drop_index "ix_uploaded_files_owner_id" "uploaded_files";
    op.drop_index "ix_uploaded_files_id" "uploaded_files";
    op.drop_table "uploaded_files" ].
Definition revision_9b2c4d6e8f10 : Revision :=
  MkRevision "9b2c4d6e8f10" (Some "3a9f1c7d8e20")
    upgrade_9b2c4d6e8f10 downgrade_9b2c4d6e8f10.

(** versions/a1b2c3d4e5f6_add_multi_tenancy_foundation.py: add multi-tenancy foundation *)
Definition upgrade_a1b2c3d4e5f6 : list op.Operation :=
  [ op.create_table "tenants"
    [ sa.Column "id" sa.Integer [sa.Identity; sa.nullable false];
      sa.Column "slug" (sa.String None) [sa.nullable false];
      sa.Column "name" (sa.String None) [sa.nullable false];
      sa.Column "is_active" sa.Boolean [sa.nullable false; sa.server_default (sa.text "true")];
      sa.PrimaryKeyConstraint ["id"];
      sa.UniqueConstraint ["slug"] None ];
    op.create_index "ix_tenants_id" "tenants" ["id"] false None None;
    op.create_index "ix_tenants_slug" "tenants" ["slug"] true None None;
    op.execute (INSERT_IF_MISSING "tenants"
        [("slug", TextV "default"); ("name", TextV "Default Tenant"); ("is_active", BoolV true)]
        "slug" (TextV "default"));
    op.add_column "users" (sa.Column "tenant_id" sa.Integer [sa.nullable true]);
    op.execute (UPDATE_NULL_FROM "users" "tenant_id" "id" "tenants" "slug" (TextV "default"));
    op.alter_nullable "users" "tenant_id" false;
    op.create_foreign_key "fk_users_tenant_id_tenants" "users" "tenants" ["tenant_id"] ["id"];
    op.create_index "ix_users_tenant_id" "users" ["tenant_id"] false None None;
    op.drop_index "ix_users_email" "users";
    op.create_index "ix_users_tenant_id_email" "users" ["tenant_id"; "email"] true None None;
    op.add_column "audit_logs" (sa.Column "tenant_id" sa.Integer [sa.nullable true]);
    op.execute (UPDATE_NULL_FROM "audit_logs" "tenant_id" "id" "tenants" "slug"
        (TextV "default"));
    op.alter_nullable "audit_logs" "tenant_id" false;
    op.create_foreign_key "fk_audit_logs_tenant_id_tenants" "audit_logs" "tenants" ["tenant_id"]
        ["id"];
    op.create_index "ix_audit_logs_tenant_id" "audit_logs" ["tenant_id"] false None None;
    op.add_column "uploaded_files" (sa.Column "tenant_id" sa.Integer [sa.nullable true]);
    op.execute (UPDATE_JOIN "uploaded_files" "tenant_id" "tenant_id" "users" "owner_id" "id");
    op.execute (UPDATE_NULL_FROM "uploaded_files" "tenant_id" "id" "tenants" "slug"
        (TextV "default"));
    op.alter_nullable "uploaded_files" "tenant_id" false;
    op.create_foreign_key "fk_uploaded_files_tenant_id_tenants" "uploaded_files" "tenants"
        ["tenant_id"] ["id"];
    op.create_index "ix_uploaded_files_tenant_id" "uploaded_files" ["tenant_id"] false None None
        ].
Definition downgrade_a1b2c3d4e5f6 : list op.Operation :=
  [ op.drop_index "ix_uploaded_files_tenant_id" "uploaded_files";
    op.drop_constraint "fk_uploaded_files_tenant_id_tenants" "uploaded_files";
    op.drop_column "uploaded_files" "tenant_id";
    op.drop_index "ix_audit_logs_tenant_id" "audit_logs";
    op.drop_constraint "fk_audit_logs_tenant_id_tenants" "audit_logs";
    op.drop_column "audit_logs" "tenant_id";
    op.drop_index "ix_users_tenant_id_email" "users";
    op.create_index "ix_users_email" "users" ["email"] true None None;
    op.drop_index "ix_users_tenant_id" "users";
    op.drop_constraint "fk_users_tenant_id_tenants" "users";
    op.drop_column "users" "tenant_id";
    op.drop_index "ix_tenants_slug" "tenants";
    op.drop_index "ix_tenants_id" "tenants";
    op.drop_table "tenants" ].
Definition revision_a1b2c3d4e5f6 : Revision :=
  MkRevision "a1b2c3d4e5f6" (Some "4d5e6f7a8b90")
    upgrade_a1b2c3d4e5f6 downgrade_a1b2c3d4e5f6.

(** versions/a2b3c4d5e6f7_add_upload_verification_status.py: add uploaded file verification status *)
Definition upgrade_a2b3c4d5e6f7 : list op.Operation :=
  [ op.add_column "uploaded_files"
      (sa.Column "verification_status" (sa.String None)
      [sa.nullable false; sa.server_default (sa.literal "verified")]) ].
Definition downgrade_a2b3c4d5e6f7 : list op.Operation :=
  [ op.drop_column "uploaded_files" "verification_status" ].
Definition revision_a2b3c4d5e6f7 : Revision :=
  MkRevision "a2b3c4d5e6f7" (Some "f1a2b3c4d5e6")
    upgrade_a2b3c4d5e6f7 downgrade_a2b3c4d5e6f7.

(** versions/ad7b35681f01_add_notification_outbox.py: add notification outbox *)
Definition upgrade_ad7b35681f01 : list op.Operation :=
  [ op.create_table "notification_outbox"
    [ sa.Column "id" sa.Integer [sa.nullable false];
      sa.Column "tenant_id" sa.Integer [sa.nullable false];
      sa.Column "business_id" sa.Integer [sa.nullable false];
      sa.Column "booking_id" sa.Integer [sa.nullable true];
      sa.Column "channel" (sa.String (Some 32)) [sa.nullable false];
      sa.Column "purpose" (sa.String (Some 64)) [sa.nullable false];
      sa.Column "recipient_phone" (sa.String (Some 32)) [sa.nullable false];
      sa.Column "body" sa.Text [sa.nullable false];
      sa.Column "status" (sa.String (Some 32)) [sa.nullable false];
      sa.Column "attempts" sa.Integer [sa.nullable false; sa.server_default (sa.literal "0")];
      sa.Column "last_error" (sa.String (Some 500)) [sa.nullable true];
      sa.Column "created_at" (sa.DateTime true)
          [sa.server_default (sa.text "now()"); sa.nullable false];
      sa.Column "sent_at" (sa.DateTime true) [sa.nullable true];
      sa.ForeignKeyConstraint ["tenant_id"] "tenants" ["id"]
          (Some "fk_notification_outbox_tenant_id") None;
      sa.ForeignKeyConstraint ["business_id"] "businesses" ["id"]
          (Some "fk_notification_outbox_business_id") None;
      sa.ForeignKeyConstraint ["booking_id"] "bookings" ["id"]
          (Some "fk_notification_outbox_booking_id") None;
      sa.PrimaryKeyConstraint ["id"] ];
    op.create_index "ix_notification_outbox_tenant_id" "notification_outbox" ["tenant_id"] false
        None None;
    op.create_index "ix_notification_outbox_business_id" "notification_outbox" ["business_id"]
        false None None;
    op.create_index "ix_notification_outbox_booking_id" "notification_outbox" ["booking_id"]
        false None None;
    op.create_index "ix_notification_outbox_status" "notification_outbox" ["status"] false None
        None ].
Definition downgrade_ad7b35681f01 : list op.Operation :=
  [ op.drop_index "ix_notification_outbox_status" "notification_outbox";
    op.drop_index "ix_notification_outbox_booking_id" "notification_outbox";
    op.drop_index "ix_notification_outbox_business_id" "notification_outbox";
    op.drop_index "ix_notification_outbox_tenant_id" "notification_outbox";
    op.drop_table "notification_outbox" ].
Definition revision_ad7b35681f01 : Revision :=
  MkRevision "ad7b35681f01" (Some "32e2a5c45a2d")
    upgrade_ad7b35681f01 downgrade_ad7b35681f01.

(** versions/b1c2d3e4f5a6_add_calendar_integrations.py: add calendar integrations *)
Definition upgrade_b1c2d3e4f5a6 : list op.Operation :=
  [ op.create_table "calendar_integrations"
    [ sa.Column "id" sa.Integer [sa.nullable false];
      sa.Column "tenant_id" sa.Integer [sa.nullable false];
      sa.Column "business_id" sa.Integer [sa.nullable false];
      sa.Column "staff_id" sa.Integer [sa.nullable true];
      sa.Column "provider" (sa.String (Some 64)) [sa.nullable false];
      sa.Column "calendar_id" (sa.String (Some 255)) [sa.nullable true];
      sa.Column "is_active" sa.Boolean [sa.nullable false; sa.server_default (sa.text "true")];
      sa.Column "created_at" (sa.DateTime true)
          [sa.server_default (sa.text "now()"); sa.nullable false];
      sa.Column "updated_at" (sa.DateTime true)
          [sa.server_default (sa.text "now()"); sa.nullable false];
      sa.ForeignKeyConstraint ["tenant_id"] "tenants" ["id"] None None;
      sa.ForeignKeyConstraint ["business_id"] "businesses" ["id"] None None;
      sa.ForeignKeyConstraint ["staff_id"] "staff" ["id"] None None;
      sa.PrimaryKeyConstraint ["id"] ];
    op.create_index "ix_calendar_integrations_tenant_id" "calendar_integrations" ["tenant_id"]
        false None None;
    op.create_index "uix_calendar_integrations_business_level" "calendar_integrations"
        ["business_id"] true (Some (IS_NULL "staff_id")) None;
    op.create_index "uix_calendar_integrations_staff_level" "calendar_integrations"
        ["business_id"; "staff_id"] true (Some (IS_NOT_NULL "staff_id")) None ].
Definition downgrade_b1c2d3e4f5a6 : list op.Operation :=
  [ op.drop_index "uix_calendar_integrations_staff_level" "calendar_integrations";
    op.drop_index "uix_calendar_integrations_business_level" "calendar_integrations";
    op.drop_index "ix_calendar_integrations_tenant_id" "calendar_integrations";
    op.drop_table "calendar_integrations" ].
Definition revision_b1c2d3e4f5a6 : Revision :=
  MkRevision "b1c2d3e4f5a6" (Some "ad7b35681f01")
    upgrade_b1c2d3e4f5a6 downgrade_b1c2d3e4f5a6.

(** versions/b3c4d5e6f7a8_drop_redundant_indexes.py: drop redundant indexes *)
Definition upgrade_b3c4d5e6f7a8 : list op.Operation :=
  [ op.drop_index "ix_audit_logs_id" "audit_logs";
    op.drop_index "ix_users_id" "users";
    op.drop_index "ix_users_tenant_id" "users";
    op.drop_index "ix_tenants_id" "tenants";
    op.drop_index "ix_tenants_slug" "tenants";
    op.drop_index "ix_idempotency_records_id" "idempotency_records";
    op.drop_index "ix_idempotency_records_scope_key" "idempotency_records";
    op.drop_index "ix_idempotency_records_created_at" "idempotency_records";
    op.drop_index "ix_webhook_events_id" "webhook_events";
    op.drop_index "ix_webhook_events_provider" "webhook_events";
    op.drop_index "ix_uploaded_files_id" "uploaded_files";
    op.drop_index "ix_uploaded_files_owner_id" "uploaded_files";
    op.drop_index "ix_uploaded_files_created_at" "uploaded_files";
    op.drop_index "ix_password_reset_tokens_id" "password_reset_tokens";
    op.drop_index "ix_password_reset_job_completions_id" "password_reset_job_completions";
    op.drop_index "ix_password_reset_job_completions_job_id" "password_reset_job_completions" ].
Definition downgrade_b3c4d5e6f7a8 : list op.Operation :=
  [ op.create_index "ix_password_reset_job_completions_job_id" "password_reset_job_completions"
      ["job_id"] true None None;
    op.create_index "ix_password_reset_job_completions_id" "password_reset_job_completions"
        ["id"] false None None;
    op.create_index "ix_password_reset_tokens_id" "password_reset_tokens" ["id"] false None None;
    op.create_index "ix_uploaded_files_created_at" "uploaded_files" ["created_at"] false None
        None;
    op.create_index "ix_uploaded_files_owner_id" "uploaded_files" ["owner_id"] false None None;
    op.create_index "ix_uploaded_files_id" "uploaded_files" ["id"] false None None;
    op.create_index "ix_webhook_events_provider" "webhook_events" ["provider"] false None None;
    op.create_index "ix_webhook_events_id" "webhook_events" ["id"] false None None;
    op.create_index "ix_idempotency_records_created_at" "idempotency_records" ["created_at"]
        false None None;
    op.create_index "ix_idempotency_records_scope_key" "idempotency_records" ["scope_key"] true
        None None;
    op.create_index "ix_idempotency_records_id" "idempotency_records" ["id"] false None None;
    op.create_index "ix_tenants_slug" "tenants" ["slug"] true None None;
    op.create_index "ix_tenants_id" "tenants" ["id"] false None None;
    op.create_index "ix_users_tenant_id" "users" ["tenant_id"] false None None;
    op.create_index "ix_users_id" "users" ["id"] false None None;
    op.create_index "ix_audit_logs_id" "audit_logs" ["id"] false None None ].
Definition revision_b3c4d5e6f7a8 : Revision :=
  MkRevision "b3c4d5e6f7a8" (Some "a2b3c4d5e6f7")
    upgrade_b3c4d5e6f7a8 downgrade_b3c4d5e6f7a8.

(** versions/c2d3e4f5a6b7_add_calendar_events.py: add calendar events *)
Definition upgrade_c2d3e4f5a6b7 : list op.Operation :=
  [ op.create_table "calendar_events"
    [ sa.Column "id" sa.Integer [sa.nullable false];
      sa.Column "tenant_id" sa.Integer [sa.nullable false];
      sa.Column "business_id" sa.Integer [sa.nullable false];
      sa.Column "booking_id" sa.Integer [sa.nullable false];
      sa.Column "provider" (sa.String (Some 64)) [sa.nullable false];
      sa.Column "provider_event_id" (sa.String (Some 255)) [sa.nullable true];
      sa.Column "status" (sa.String (Some 32))
          [sa.nullable false; sa.server_default (sa.literal "pending")];
      sa.Column "attempts" sa.Integer [sa.nullable false; sa.server_default (sa.text "0")];
      sa.Column "last_error" (sa.String (Some 500)) [sa.nullable true];
      sa.Column "created_at" (sa.DateTime true)
          [sa.server_default (sa.text "now()"); sa.nullable false];
      sa.Column "synced_at" (sa.DateTime true) [sa.nullable true];
      sa.ForeignKeyConstraint ["tenant_id"] "tenants" ["id"] None None;
      sa.ForeignKeyConstraint ["business_id"] "businesses" ["id"] None None;
      sa.ForeignKeyConstraint ["booking_id"] "bookings" ["id"] None None;
      sa.PrimaryKeyConstraint ["id"];
      sa.UniqueConstraint ["booking_id"] (Some "uq_calendar_events_booking_id") ];
    op.create_index "ix_calendar_events_tenant_id" "calendar_events" ["tenant_id"] false None
        None;
    op.create_index "ix_calendar_events_business_id" "calendar_events" ["business_id"] false None
        None;
    op.create_index "ix_calendar_events_status" "calendar_events" ["status"] false None None ].
Definition downgrade_c2d3e4f5a6b7 : list op.Operation :=
  [ op.drop_index "ix_calendar_events_status" "calendar_events";
    op.drop_index "ix_calendar_events_business_id" "calendar_events";
    op.drop_index "ix_calendar_events_tenant_id" "calendar_events";
    op.drop_table "calendar_events" ].
Definition revision_c2d3e4f5a6b7 : Revision :=
  MkRevision "c2d3e4f5a6b7" (Some "b1c2d3e4f5a6")
    upgrade_c2d3e4f5a6b7 downgrade_c2d3e4f5a6b7.

(** versions/c3d4e5f6a7b8_add_idempotency_and_webhook_events.py: add idempotency and webhook events *)
Definition upgrade_c3d4e5f6a7b8 : list op.Operation :=
  [ op.create_table "idempotency_records"
    [ sa.Column "id" sa.Integer [sa.nullable false];
      sa.Column "scope_key" (sa.String None) [sa.nullable false];
      sa.Column "status_code" sa.Integer [sa.nullable false];
      sa.Column "response_body" sa.Text [sa.nullable false];
      sa.Column "created_at" (sa.DateTime true)
          [sa.server_default (sa.text "now()"); sa.nullable false];
      sa.Column "expires_at" (sa.DateTime true) [sa.nullable false];
      sa.PrimaryKeyConstraint ["id"];
      sa.UniqueConstraint ["scope_key"] None ];
    op.create_index "ix_idempotency_records_id" "idempotency_records" ["id"] false None None;
    op.create_index "ix_idempotency_records_scope_key" "idempotency_records" ["scope_key"] true
        None None;
    op.create_index "ix_idempotency_records_created_at" "idempotency_records" ["created_at"]
        false None None;
    op.create_index "ix_idempotency_records_expires_at" "idempotency_records" ["expires_at"]
        false None None;
    op.create_table "webhook_events"
    [ sa.Column "id" sa.Integer [sa.nullable false];
      sa.Column "provider" (sa.String None) [sa.nullable false];
      sa.Column "event_id" (sa.String None) [sa.nullable false];
      sa.Column "payload_hash" (sa.String None) [sa.nullable false];
      sa.Column "received_at" (sa.DateTime true)
          [sa.server_default (sa.text "now()"); sa.nullable false];
      sa.PrimaryKeyConstraint ["id"];
      sa.UniqueConstraint ["provider"; "event_id"] (Some "uq_webhook_events_provider_event_id") ];
    op.create_index "ix_webhook_events_id" "webhook_events" ["id"] false None None;
    op.create_index "ix_webhook_events_provider" "webhook_events" ["provider"] false None None;
    op.create_index "ix_webhook_events_received_at" "webhook_events" ["received_at"] false None
        None ].
Definition downgrade_c3d4e5f6a7b8 : list op.Operation :=
  [ op.drop_index "ix_webhook_events_received_at" "webhook_events";
    op.drop_index "ix_webhook_events_provider" "webhook_events";
    op.drop_index "ix_webhook_events_id" "webhook_events";
    op.drop_table "webhook_events";
    op.drop_index "ix_idempotency_records_expires_at" "idempotency_records";
    op.drop_index "ix_idempotency_records_created_at" "idempotency_records";
    op.drop_index "ix_idempotency_records_scope_key" "idempotency_records";
    op.drop_index "ix_idempotency_records_id" "idempotency_records";
    op.drop_table "idempotency_records" ].
Definition revision_c3d4e5f6a7b8 : Revision :=
  MkRevision "c3d4e5f6a7b8" (Some "a1b2c3d4e5f6")
    upgrade_c3d4e5f6a7b8 downgrade_c3d4e5f6a7b8.

(** versions/d4e5f6a7b8c9_add_user_token_version.py: add user token_version for access token invalidation *)
Definition upgrade_d4e5f6a7b8c9 : list op.Operation :=
  [ op.add_column "users" (sa.Column "token_version" sa.Integer
      [sa.nullable false; sa.server_default (sa.literal "0")]);
    op.alter_server_default "users" "token_version" None ].
Definition downgrade_d4e5f6a7b8c9 : list op.Operation :=
  [ op.drop_column "users" "token_version" ].
Definition revision_d4e5f6a7b8c9 : Revision :=
  MkRevision "d4e5f6a7b8c9" (Some "c3d4e5f6a7b8")
    upgrade_d4e5f6a7b8c9 downgrade_d4e5f6a7b8c9.

(** versions/demo_user_flag.py: add is_demo_user flag to users *)
Definition upgrade_demo_user_flag_a1b2c3d4 : list op.Operation :=
  [ op.add_column "users" (sa.Column "is_demo_user" sa.Boolean
      [sa.nullable false; sa.server_default (sa.text "false")]) ].
Definition downgrade_demo_user_flag_a1b2c3d4 : list op.Operation :=
  [ op.drop_column "users" "is_demo_user" ].
Definition revision_demo_user_flag_a1b2c3d4 : Revision :=
  MkRevision "demo_user_flag_a1b2c3d4" (Some "sac009_staff_inv")
    upgrade_demo_user_flag_a1b2c3d4 downgrade_demo_user_flag_a1b2c3d4.

(** versions/e5f6a7b8c9d0_add_password_reset_job_completions.py: add password reset job completions *)
Definition upgrade_e5f6a7b8c9d0 : list op.Operation :=
  [ op.create_table "password_reset_job_completions"
    [ sa.Column "id" sa.Integer [sa.nullable false];
      sa.Column "job_id" (sa.String None) [sa.nullable false];
      sa.Column "completed_at" (sa.DateTime true)
          [sa.server_default (sa.text "now()"); sa.nullable false];
      sa.PrimaryKeyConstraint ["id"];
      sa.UniqueConstraint ["job_id"] None ];
    op.create_index "ix_password_reset_job_completions_id" "password_reset_job_completions"
        ["id"] false None None;
    op.create_index "ix_password_reset_job_completions_job_id" "password_reset_job_completions"
        ["job_id"] true None None ].
Definition downgrade_e5f6a7b8c9d0 : list op.Operation :=
  [ op.drop_index "ix_password_reset_job_completions_job_id" "password_reset_job_completions";
    op.drop_index "ix_password_reset_job_completions_id" "password_reset_job_completions";
    op.drop_table "password_reset_job_completions" ].
Definition revision_e5f6a7b8c9d0 : Revision :=
  MkRevision "e5f6a7b8c9d0" (Some "d4e5f6a7b8c9")
    upgrade_e5f6a7b8c9d0 downgrade_e5f6a7b8c9d0.

(** versions/f1a2b3c4d5e6_add_user_email_search_indexes.py: add user email search indexes *)
Definition upgrade_f1a2b3c4d5e6 : list op.Operation :=
  [ op.execute (CREATE_EXTENSION_IF_NOT_EXISTS "pg_trgm");
    op.create_index "ix_users_email_trgm" "users" ["email"] false None (Some "gin gin_trgm_ops")
        ].
Definition downgrade_f1a2b3c4d5e6 : list op.Operation :=
  [ op.drop_index "ix_users_email_trgm" "users" ].
Definition revision_f1a2b3c4d5e6 : Revision :=
  MkRevision "f1a2b3c4d5e6" (Some "e5f6a7b8c9d0")
    upgrade_f1a2b3c4d5e6 downgrade_f1a2b3c4d5e6.

(** versions/f5e4d3c2b1a0_add_calendar_event_cancel_attempts.py: add calendar_event cancel_attempts column *)
Definition upgrade_f5e4d3c2b1a0 : list op.Operation :=
  [ op.add_column "calendar_events"
      (sa.Column "cancel_attempts" sa.Integer
      [sa.nullable false; sa.server_default (sa.text "0")]) ].
Definition downgrade_f5e4d3c2b1a0 : list op.Operation :=
  [ op.drop_column "calendar_events" "cancel_attempts" ].
Definition revision_f5e4d3c2b1a0 : Revision :=
  MkRevision "f5e4d3c2b1a0" (Some "c2d3e4f5a6b7")
    upgrade_f5e4d3c2b1a0 downgrade_f5e4d3c2b1a0.

(** versions/f963f3c8b3a4_add_audit_logs.py: add audit logs *)
Definition upgrade_f963f3c8b3a4 : list op.Operation :=
  [ op.create_table "audit_logs"
    [ sa.Column "id" sa.Integer [sa.nullable false];
      sa.Column "admin_id" sa.Integer [sa.nullable false];
      sa.Column "action" (sa.String None) [sa.nullable false];
      sa.Column "target_user_id" sa.Integer [sa.nullable true];
      sa.Column "created_at" (sa.DateTime true)
          [sa.server_default (sa.text "now()"); sa.nullable true];
      sa.ForeignKeyConstraint ["admin_id"] "users" ["id"] None None;
      sa.PrimaryKeyConstraint ["id"] ];
    op.create_index "ix_audit_logs_id" "audit_logs" ["id"] false None None;
    op.alter_nullable "users" "is_active" false ].
Definition downgrade_f963f3c8b3a4 : list op.Operation :=
  [ op.alter_nullable "users" "is_active" true;
    op.drop_index "ix_audit_logs_id" "audit_logs";
    op.drop_table "audit_logs" ].
Definition revision_f963f3c8b3a4 : Revision :=
  MkRevision "f963f3c8b3a4" (Some "648d963688dd")
    upgrade_f963f3c8b3a4 downgrade_f963f3c8b3a4.

(** versions/g001a2b3c4d5_add_voice_sessions.py: add voice_sessions table *)
Definition upgrade_g001a2b3c4d5 : list op.Operation :=
  [ op.create_table "voice_sessions"
    [ sa.Column "id" sa.Integer [sa.nullable false];
      sa.Column "tenant_id" sa.Integer [sa.nullable false];
      sa.Column "business_id" sa.Integer [sa.nullable false];
      sa.Column "caller_phone" (sa.String (Some 32)) [sa.nullable false];
      sa.Column "step" (sa.String (Some 32)) [sa.nullable false];
      sa.Column "selected_service_id" sa.Integer [sa.nullable true];
      sa.Column "selected_staff_id" sa.Integer [sa.nullable true];
      sa.Column "selected_slot_start" (sa.DateTime true) [sa.nullable true];
      sa.Column "selected_slot_end" (sa.DateTime true) [sa.nullable true];
      sa.Column "booking_id" sa.Integer [sa.nullable true];
      sa.Column "slot_candidates" sa.Text [sa.nullable true];
      sa.Column "expires_at" (sa.DateTime true) [sa.nullable false];
      sa.Column "created_at" (sa.DateTime true)
          [sa.server_default (sa.text "now()"); sa.nullable false];
      sa.Column "updated_at" (sa.DateTime true)
          [sa.server_default (sa.text "now()"); sa.nullable false];
      sa.ForeignKeyConstraint ["booking_id"] "bookings" ["id"] None None;
      sa.ForeignKeyConstraint ["business_id"] "businesses" ["id"] None None;
      sa.ForeignKeyConstraint ["selected_service_id"] "services" ["id"] None None;
      sa.ForeignKeyConstraint ["selected_staff_id"] "staff" ["id"] None None;
      sa.ForeignKeyConstraint ["tenant_id"] "tenants" ["id"] None None;
      sa.PrimaryKeyConstraint ["id"] ];
    op.create_index "ix_voice_sessions_tenant_id" "voice_sessions" ["tenant_id"] false None None;
    op.create_index "ix_voice_sessions_business_id" "voice_sessions" ["business_id"] false None
        None;
    op.create_index "ix_voice_sessions_step" "voice_sessions" ["step"] false None None;
    op.create_index "ix_voice_sessions_expires_at" "voice_sessions" ["expires_at"] false None
        None ].
Definition downgrade_g001a2b3c4d5 : list op.Operation :=
  [ op.drop_index "ix_voice_sessions_expires_at" "voice_sessions";
    op.drop_index "ix_voice_sessions_step" "voice_sessions";
    op.drop_index "ix_voice_sessions_business_id" "voice_sessions";
    op.drop_index "ix_voice_sessions_tenant_id" "voice_sessions";
    op.drop_table "voice_sessions" ].
Definition revision_g001a2b3c4d5 : Revision :=
  MkRevision "g001a2b3c4d5" (Some "f5e4d3c2b1a0")
    upgrade_g001a2b3c4d5 downgrade_g001a2b3c4d5.

(** versions/h001a2b3c4d5_add_twilio_tracking_fields.py: add twilio tracking fields: call_sid and provider_message_id *)
Definition upgrade_h001a2b3c4d5 : list op.Operation :=
  [ op.add_column "voice_sessions"
      (sa.Column "call_sid" (sa.String (Some 64)) [sa.nullable true]);
    op.create_index "ix_voice_sessions_call_sid" "voice_sessions" ["call_sid"] true
        (Some (IS_NOT_NULL "call_sid")) None;
    op.add_column "notification_outbox"
        (sa.Column "provider_message_id" (sa.String (Some 128)) [sa.nullable true]);
    op.create_index "ix_notification_outbox_provider_message_id" "notification_outbox"
        ["provider_message_id"] false None None ].
Definition downgrade_h001a2b3c4d5 : list op.Operation :=
  [ op.drop_index "ix_notification_outbox_provider_message_id" "notification_outbox";
    op.drop_column "notification_outbox" "provider_message_id";
    op.drop_index "ix_voice_sessions_call_sid" "voice_sessions";
    op.drop_column "voice_sessions" "call_sid" ].
Definition revision_h001a2b3c4d5 : Revision :=
  MkRevision "h001a2b3c4d5" (Some "g001a2b3c4d5")
    upgrade_h001a2b3c4d5 downgrade_h001a2b3c4d5.

(** versions/i001a2b3c4d5_add_transfer_settings.py: add transfer settings to businesses *)
Definition upgrade_i001a2b3c4d5 : list op.Operation :=
  [ op.add_column "businesses" (sa.Column "transfer_enabled" sa.Boolean
      [sa.nullable false; sa.server_default (sa.literal "false")]);
    op.add_column "businesses" (sa.Column "transfer_destination_policy" (sa.String (Some 32))
        [sa.nullable false; sa.server_default (sa.literal "business_phone")]) ].
Definition downgrade_i001a2b3c4d5 : list op.Operation :=
  [ op.drop_column "businesses" "transfer_destination_policy";
    op.drop_column "businesses" "transfer_enabled" ].
Definition revision_i001a2b3c4d5 : Revision :=
  MkRevision "i001a2b3c4d5" (Some "h001a2b3c4d5")
    upgrade_i001a2b3c4d5 downgrade_i001a2b3c4d5.

(** versions/i001b2c3d4e5_add_business_transfer_hours.py: add business_transfer_hours table *)
Definition upgrade_i001b2c3d4e5 : list op.Operation :=
  [ op.create_table "business_transfer_hours"
    [ sa.Column "id" sa.Integer [sa.nullable false];
      sa.Column "tenant_id" sa.Integer [sa.ForeignKey "tenants" "id" None; sa.nullable false];
      sa.Column "business_id" sa.Integer
          [sa.ForeignKey "businesses" "id" None; sa.nullable false];
      sa.Column "day_of_week" sa.Integer [sa.nullable false];
      sa.Column "start_time" sa.Time [sa.nullable false];
      sa.Column "end_time" sa.Time [sa.nullable false];
      sa.PrimaryKeyConstraint ["id"];
      sa.UniqueConstraint ["business_id"; "day_of_week"; "start_time"]
          (Some "uq_bth_business_day_start") ];
    op.create_index "ix_business_transfer_hours_tenant_id" "business_transfer_hours"
        ["tenant_id"] false None None;
    op.create_index "ix_business_transfer_hours_business_id" "business_transfer_hours"
        ["business_id"] false None None ].
Definition downgrade_i001b2c3d4e5 : list op.Operation :=
  [ op.drop_index "ix_business_transfer_hours_business_id" "business_transfer_hours";
    op.drop_index "ix_business_transfer_hours_tenant_id" "business_transfer_hours";
    op.drop_table "business_transfer_hours" ].
Definition revision_i001b2c3d4e5 : Revision :=
  MkRevision "i001b2c3d4e5" (Some "i001a2b3c4d5")
    upgrade_i001b2c3d4e5 downgrade_i001b2c3d4e5.

(** versions/i003a2b3c4d5_add_transfer_destination_to_voice_sessions.py: add transfer_destination to voice_sessions *)
Definition upgrade_i003a2b3c4d5 : list op.Operation :=
  [ op.add_column "voice_sessions"
      (sa.Column "transfer_destination" (sa.String (Some 32)) [sa.nullable true]) ].
Definition downgrade_i003a2b3c4d5 : list op.Operation :=
  [ op.drop_column "voice_sessions" "transfer_destination" ].
Definition revision_i003a2b3c4d5 : Revision :=
  MkRevision "i003a2b3c4d5" (Some "i001b2c3d4e5")
    upgrade_i003a2b3c4d5 downgrade_i003a2b3c4d5.

(** versions/k001_add_booking_mode_and_subscription_plan.py: add booking_mode and subscription_plan to businesses *)
Definition upgrade_k001a2b3c4d5e : list op.Operation :=
  [ op.add_column "businesses" (sa.Column "booking_mode" (sa.String (Some 32))
      [sa.nullable false; sa.server_default (sa.literal "internal_booking")]);
    op.add_column "businesses" (sa.Column "external_booking_url" (sa.String (Some 512))
        [sa.nullable true]);
    op.add_column "businesses" (sa.Column "external_booking_label" (sa.String (Some 128))
        [sa.nullable true]);
    op.add_column "businesses" (sa.Column "external_booking_provider" (sa.String (Some 32))
        [sa.nullable true]);
    op.add_column "businesses" (sa.Column "subscription_plan" (sa.String (Some 32))
        [sa.nullable false; sa.server_default (sa.literal "full_booking")]) ].
Definition downgrade_k001a2b3c4d5e : list op.Operation :=
  map (fun col => op.drop_column "businesses" col)
    ["subscription_plan"; "external_booking_provider"; "external_booking_label";
        "external_booking_url"; "booking_mode"].
Definition revision_k001a2b3c4d5e : Revision :=
  MkRevision "k001a2b3c4d5e" (Some "i003a2b3c4d5")
    upgrade_k001a2b3c4d5e downgrade_k001a2b3c4d5e.

(** versions/l001_add_owner_leads.py: add owner_leads table for pilot lead intake *)
Definition upgrade_l001a2b3c4d5e : list op.Operation :=
  [ op.create_table "owner_leads"
    [ sa.Column "id" sa.Integer [sa.primary_key; sa.nullable false];
      sa.Column "business_name" (sa.String (Some 255)) [sa.nullable false];
      sa.Column "owner_name" (sa.String (Some 255)) [sa.nullable true];
      sa.Column "email" (sa.String (Some 254)) [sa.nullable false];
      sa.Column "phone_number" (sa.String (Some 32)) [sa.nullable false];
      sa.Column "phone_normalized" (sa.String (Some 32)) [sa.nullable false];
      sa.Column "city" (sa.String (Some 128)) [sa.nullable true];
      sa.Column "booking_mode_interest" (sa.String (Some 32)) [sa.nullable false];
      sa.Column "external_booking_url" (sa.String (Some 512)) [sa.nullable true];
      sa.Column "message" sa.Text [sa.nullable true];
      sa.Column "status" (sa.String (Some 32))
          [sa.nullable false; sa.server_default (sa.literal "new")];
      sa.Column "created_at" (sa.DateTime true)
          [sa.server_default (sa.text "now()"); sa.nullable false];
      sa.Column "updated_at" (sa.DateTime true)
          [sa.server_default (sa.text "now()"); sa.nullable false] ];
    op.create_index "ix_owner_leads_status" "owner_leads" ["status"] false None None;
    op.create_index "ix_owner_leads_created_at" "owner_leads" ["created_at"] false None None ].
Definition downgrade_l001a2b3c4d5e : list op.Operation :=
  [ op.drop_index "ix_owner_leads_created_at" "owner_leads";
    op.drop_index "ix_owner_leads_status" "owner_leads";
    op.drop_table "owner_leads" ].
Definition revision_l001a2b3c4d5e : Revision :=
  MkRevision "l001a2b3c4d5e" (Some "k001a2b3c4d5e")
    upgrade_l001a2b3c4d5e downgrade_l001a2b3c4d5e.

(** versions/p1003_add_managed_booking_id_to_voice_sessions.py: add managed_booking_id to voice_sessions (P1-003) *)
Definition upgrade_p1003a2b3c4d5e : list op.Operation :=
  [ op.add_column "voice_sessions"
      (sa.Column "managed_booking_id" sa.Integer
      [sa.ForeignKey "bookings" "id" None; sa.nullable true]) ].
Definition downgrade_p1003a2b3c4d5e : list op.Operation :=
  [ op.drop_column "voice_sessions" "managed_booking_id" ].
Definition revision_p1003a2b3c4d5e : Revision :=
  MkRevision "p1003a2b3c4d5e" (Some "p1006a2b3c4d5e")
    upgrade_p1003a2b3c4d5e downgrade_p1003a2b3c4d5e.

(** versions/p1005_add_no_input_count_to_voice_sessions.py: add no_input_count to voice_sessions (P1-005) *)
Definition upgrade_p1005a2b3c4d5e : list op.Operation :=
  [ op.add_column "voice_sessions"
      (sa.Column "no_input_count" sa.Integer
      [sa.nullable false; sa.server_default (sa.literal "0")]) ].
Definition downgrade_p1005a2b3c4d5e : list op.Operation :=
  [ op.drop_column "voice_sessions" "no_input_count" ].
Definition revision_p1005a2b3c4d5e : Revision :=
  MkRevision "p1005a2b3c4d5e" (Some "l001a2b3c4d5e")
    upgrade_p1005a2b3c4d5e downgrade_p1005a2b3c4d5e.

(** versions/p1006_add_invalid_key_count_to_voice_sessions.py: add invalid_key_count to voice_sessions (P1-006) *)
Definition upgrade_p1006a2b3c4d5e : list op.Operation :=
  [ op.add_column "voice_sessions"
      (sa.Column "invalid_key_count" sa.Integer
      [sa.nullable false; sa.server_default (sa.literal "0")]) ].
Definition downgrade_p1006a2b3c4d5e : list op.Operation :=
  [ op.drop_column "voice_sessions" "invalid_key_count" ].
Definition revision_p1006a2b3c4d5e : Revision :=
  MkRevision "p1006a2b3c4d5e" (Some "p1005a2b3c4d5e")
    upgrade_p1006a2b3c4d5e downgrade_p1006a2b3c4d5e.

(** versions/p2001_add_clients_table.py: add clients table (P2-001) *)
Definition upgrade_p2001a2b3c4d5e : list op.Operation :=
  [ op.create_table "clients"
    [ sa.Column "id" sa.Integer [sa.primary_key];
      sa.Column "tenant_id" sa.Integer [sa.ForeignKey "tenants" "id" None; sa.nullable false];
      sa.Column "business_id" sa.Integer
          [sa.ForeignKey "businesses" "id" None; sa.nullable false];
      sa.Column "customer_id" sa.Integer [sa.ForeignKey "customers" "id" None; sa.nullable true];
      sa.Column "name" (sa.String (Some 255)) [sa.nullable false];
      sa.Column "email" (sa.String (Some 255)) [sa.nullable true];
      sa.Column "phone" (sa.String (Some 32)) [sa.nullable true];
      sa.Column "notes" sa.Text [sa.nullable true];
      sa.Column "created_at" (sa.DateTime true)
          [sa.server_default (sa.text "now()"); sa.nullable false];
      sa.Column "updated_at" (sa.DateTime true)
          [sa.server_default (sa.text "now()"); sa.nullable false];
      sa.UniqueConstraint ["business_id"; "customer_id"] (Some "uq_clients_business_customer") ];
    op.create_index "ix_clients_tenant_id" "clients" ["tenant_id"] false None None;
    op.create_index "ix_clients_business_id" "clients" ["business_id"] false None None ].
Definition downgrade_p2001a2b3c4d5e : list op.Operation :=
  [ op.drop_index "ix_clients_business_id" "clients";
    op.drop_index "ix_clients_tenant_id" "clients";
    op.drop_table "clients" ].
Definition revision_p2001a2b3c4d5e : Revision :=
  MkRevision "p2001a2b3c4d5e" (Some "p1003a2b3c4d5e")
    upgrade_p2001a2b3c4d5e downgrade_p2001a2b3c4d5e.

(** versions/p2008_add_booking_line_items_table.py: add booking_line_items table (P2-008) *)
Definition upgrade_p2008a2b3c4d5e : list op.Operation :=
  [ op.create_table "booking_line_items"
    [ sa.Column "id" sa.Integer [sa.primary_key];
      sa.Column "tenant_id" sa.Integer [sa.ForeignKey "tenants" "id" None; sa.nullable false];
      sa.Column "business_id" sa.Integer
          [sa.ForeignKey "businesses" "id" None; sa.nullable false];
      sa.Column "booking_id" sa.Integer [sa.ForeignKey "bookings" "id" None; sa.nullable false];
      sa.Column "service_id" sa.Integer [sa.ForeignKey "services" "id" None; sa.nullable false];
      sa.Column "position" sa.Integer [sa.nullable false];
      sa.Column "duration_minutes" sa.Integer [sa.nullable false];
      sa.Column "created_at" (sa.DateTime true)
          [sa.server_default (sa.text "now()"); sa.nullable false];
      sa.UniqueConstraint ["booking_id"; "position"]
          (Some "uq_booking_line_items_booking_position") ];
    op.create_index "ix_booking_line_items_tenant_id" "booking_line_items" ["tenant_id"] false
        None None;
    op.create_index "ix_booking_line_items_business_id" "booking_line_items" ["business_id"]
        false None None;
    op.create_index "ix_booking_line_items_booking_id" "booking_line_items" ["booking_id"] false
        None None ].
Definition downgrade_p2008a2b3c4d5e : list op.Operation :=
  [ op.drop_index "ix_booking_line_items_booking_id" "booking_line_items";
    op.drop_index "ix_booking_line_items_business_id" "booking_line_items";
    op.drop_index "ix_booking_line_items_tenant_id" "booking_line_items";
    op.drop_table "booking_line_items" ].
Definition revision_p2008a2b3c4d5e : Revision :=
  MkRevision "p2008a2b3c4d5e" (Some "p2001a2b3c4d5e")
    upgrade_p2008a2b3c4d5e downgrade_p2008a2b3c4d5e.

(** versions/p2010_add_waitlist_entries_table.py: add waitlist_entries table (P2-010) *)
Definition upgrade_p2010a2b3c4d5e : list op.Operation :=
  [ op.create_table "waitlist_entries"
    [ sa.Column "id" sa.Integer [sa.primary_key];
      sa.Column "tenant_id" sa.Integer [sa.ForeignKey "tenants" "id" None; sa.nullable false];
      sa.Column "business_id" sa.Integer
          [sa.ForeignKey "businesses" "id" None; sa.nullable false];
      sa.Column "customer_id" sa.Integer [sa.ForeignKey "customers" "id" None; sa.nullable false];
      sa.Column "service_id" sa.Integer [sa.ForeignKey "services" "id" None; sa.nullable false];
      sa.Column "staff_id" sa.Integer [sa.ForeignKey "staff" "id" None; sa.nullable true];
      sa.Column "desired_date" sa.Date [sa.nullable false];
      sa.Column "status" (sa.String (Some 32))
          [sa.nullable false; sa.server_default (sa.literal "waiting")];
      sa.Column "created_at" (sa.DateTime true)
          [sa.server_default (sa.text "now()"); sa.nullable false];
      sa.Column "updated_at" (sa.DateTime true)
          [sa.server_default (sa.text "now()"); sa.nullable false] ];
    op.create_index "ix_waitlist_entries_tenant_id" "waitlist_entries" ["tenant_id"] false None
        None;
    op.create_index "ix_waitlist_entries_business_id" "waitlist_entries" ["business_id"] false
        None None;
    op.create_index "ix_waitlist_entries_status" "waitlist_entries" ["status"] false None None;
    op.create_index "ix_waitlist_entries_business_service_date" "waitlist_entries"
        ["business_id"; "service_id"; "desired_date"] false None None ].
Definition downgrade_p2010a2b3c4d5e : list op.Operation :=
  [ op.drop_index "ix_waitlist_entries_business_service_date" "waitlist_entries";
    op.drop_index "ix_waitlist_entries_status" "waitlist_entries";
    op.drop_index "ix_waitlist_entries_business_id" "waitlist_entries";
    op.drop_index "ix_waitlist_entries_tenant_id" "waitlist_entries";
    op.drop_table "waitlist_entries" ].
Definition revision_p2010a2b3c4d5e : Revision :=
  MkRevision "p2010a2b3c4d5e" (Some "p2008a2b3c4d5e")
    upgrade_p2010a2b3c4d5e downgrade_p2010a2b3c4d5e.

(** versions/p2012_add_waitlist_offered_for_staff_id.py: add waitlist_entries.offered_for_staff_id (P2-012) *)
Definition upgrade_p2012a2b3c4d5e : list op.Operation :=
  [ op.add_column "waitlist_entries"
      (sa.Column "offered_for_staff_id" sa.Integer
      [sa.ForeignKey "staff" "id" None; sa.nullable true]) ].
Definition downgrade_p2012a2b3c4d5e : list op.Operation :=
  [ op.drop_column "waitlist_entries" "offered_for_staff_id" ].
Definition revision_p2012a2b3c4d5e : Revision :=
  MkRevision "p2012a2b3c4d5e" (Some "p2010a2b3c4d5e")
    upgrade_p2012a2b3c4d5e downgrade_p2012a2b3c4d5e.

(** versions/p3005_add_recurring_staff_blocks_table.py: add recurring_staff_blocks table (P3-005) *)
Definition upgrade_p3005a2b3c4d5e : list op.Operation :=
  [ op.create_table "recurring_staff_blocks"
    [ sa.Column "id" sa.Integer [sa.primary_key];
      sa.Column "tenant_id" sa.Integer [sa.ForeignKey "tenants" "id" None; sa.nullable false];
      sa.Column "business_id" sa.Integer
          [sa.ForeignKey "businesses" "id" None; sa.nullable false];
      sa.Column "staff_id" sa.Integer [sa.ForeignKey "staff" "id" None; sa.nullable true];
      sa.Column "day_of_week" sa.Integer [sa.nullable false];
      sa.Column "start_time" sa.Time [sa.nullable false];
      sa.Column "end_time" sa.Time [sa.nullable false];
      sa.Column "reason" (sa.String (Some 255)) [sa.nullable true] ];
    op.create_index "ix_recurring_staff_blocks_tenant_id" "recurring_staff_blocks" ["tenant_id"]
        false None None;
    op.create_index "ix_recurring_staff_blocks_business_id" "recurring_staff_blocks"
        ["business_id"] false None None;
    op.create_index "ix_recurring_staff_blocks_staff_id" "recurring_staff_blocks" ["staff_id"]
        false None None;
    op.create_index "ix_recurring_staff_blocks_day_of_week" "recurring_staff_blocks"
        ["day_of_week"] false None None ].
Definition downgrade_p3005a2b3c4d5e : list op.Operation :=
  [ op.drop_index "ix_recurring_staff_blocks_day_of_week" "recurring_staff_blocks";
    op.drop_index "ix_recurring_staff_blocks_staff_id" "recurring_staff_blocks";
    op.drop_index "ix_recurring_staff_blocks_business_id" "recurring_staff_blocks";
    op.drop_index "ix_recurring_staff_blocks_tenant_id" "recurring_staff_blocks";
    op.drop_table "recurring_staff_blocks" ].
Definition revision_p3005a2b3c4d5e : Revision :=
  MkRevision "p3005a2b3c4d5e" (Some "p2012a2b3c4d5e")
    upgrade_p3005a2b3c4d5e downgrade_p3005a2b3c4d5e.

(** versions/p3008_add_pending_payment_state.py: add deposits/payment-holds: Service deposit fields, booking_payments *)
Definition upgrade_p3008a2b3c4d5e : list op.Operation :=
  [ op.add_column "services" (sa.Column "deposit_required" sa.Boolean
      [sa.nullable false; sa.server_default (sa.text "false")]);
    op.add_column "services" (sa.Column "deposit_minor_units" sa.Integer [sa.nullable true]);
    op.create_table "booking_payments"
    [ sa.Column "id" sa.Integer [sa.primary_key];
      sa.Column "tenant_id" sa.Integer [sa.ForeignKey "tenants" "id" None; sa.nullable false];
      sa.Column "business_id" sa.Integer
          [sa.ForeignKey "businesses" "id" None; sa.nullable false];
      sa.Column "booking_id" sa.Integer [sa.ForeignKey "bookings" "id" None; sa.nullable false];
      sa.Column "provider" (sa.String (Some 64)) [sa.nullable false];
      sa.Column "provider_session_id" (sa.String (Some 255)) [sa.nullable true];
      sa.Column "provider_payment_id" (sa.String (Some 255)) [sa.nullable true];
      sa.Column "amount_minor_units" sa.Integer [sa.nullable false];
      sa.Column "currency" (sa.String (Some 3)) [sa.nullable false];
      sa.Column "status" (sa.String (Some 32))
          [sa.nullable false; sa.server_default (sa.literal "pending")];
      sa.Column "failure_reason" (sa.String (Some 500)) [sa.nullable true];
      sa.Column "created_at" (sa.DateTime true)
          [sa.server_default (sa.text "now()"); sa.nullable false];
      sa.Column "paid_at" (sa.DateTime true) [sa.nullable true];
      sa.Column "refunded_at" (sa.DateTime true) [sa.nullable true];
      sa.UniqueConstraint ["booking_id"] (Some "uq_booking_payments_booking_id") ];
    op.create_index "ix_booking_payments_tenant_id" "booking_payments" ["tenant_id"] false None
        None;
    op.create_index "ix_booking_payments_business_id" "booking_payments" ["business_id"] false
        None None;
    op.create_index "ix_booking_payments_status" "booking_payments" ["status"] false None None;
    op.execute (DROP_CONSTRAINT "bookings" "no_overlapping_staff_bookings");
    op.execute (ADD_CONSTRAINT_EXCLUDE_USING_GIST "bookings" "no_overlapping_staff_bookings"
        "staff_id" "starts_at" "ends_at"
        (AND (IN "status" ["confirmed"; "pending_payment"]) (IS_NOT_NULL "staff_id"))) ].
Definition downgrade_p3008a2b3c4d5e : list op.Operation :=
  [ op.execute (DROP_CONSTRAINT "bookings" "no_overlapping_staff_bookings");
    op.execute (ADD_CONSTRAINT_EXCLUDE_USING_GIST "bookings" "no_overlapping_staff_bookings"
        "staff_id" "starts_at" "ends_at"
        (AND (EQ "status" "confirmed") (IS_NOT_NULL "staff_id")));
    op.drop_index "ix_booking_payments_status" "booking_payments";
    op.drop_index "ix_booking_payments_business_id" "booking_payments";
    op.drop_index "ix_booking_payments_tenant_id" "booking_payments";
    op.drop_table "booking_payments";
    op.drop_column "services" "deposit_minor_units";
    op.drop_column "services" "deposit_required" ].
Definition revision_p3008a2b3c4d5e : Revision :=
  MkRevision "p3008a2b3c4d5e" (Some "p3013a2b3c4d5e")
    upgrade_p3008a2b3c4d5e downgrade_p3008a2b3c4d5e.

(** versions/p3009b2c3d4e5f_add_business_language_and_voice_session_locale.py: add Business.language and VoiceSession.locale for per-business IVR *)
Definition upgrade_p3009b2c3d4e5f : list op.Operation :=
  [ op.add_column "businesses" (sa.Column "language" (sa.String (Some 8))
      [sa.nullable false; sa.server_default (sa.literal "en")]);
    op.add_column "voice_sessions" (sa.Column "locale" (sa.String (Some 8))
        [sa.nullable false; sa.server_default (sa.literal "en")]) ].
Definition downgrade_p3009b2c3d4e5f : list op.Operation :=
  [ op.drop_column "voice_sessions" "locale";
    op.drop_column "businesses" "language" ].
Definition revision_p3009b2c3d4e5f : Revision :=
  MkRevision "p3009b2c3d4e5f" (Some "p3010a2b3c4d5e")
    upgrade_p3009b2c3d4e5f downgrade_p3009b2c3d4e5f.

(** versions/p3010a2b3c4d5e_add_calendar_integration_visibility.py: add CalendarIntegration.visibility for private/public outbound sync *)
Definition upgrade_p3010a2b3c4d5e : list op.Operation :=
  [ op.add_column "calendar_integrations"
      (sa.Column "visibility" (sa.String (Some 16))
      [sa.nullable false; sa.server_default (sa.literal "public")]) ].
Definition downgrade_p3010a2b3c4d5e : list op.Operation :=
  [ op.drop_column "calendar_integrations" "visibility" ].
Definition revision_p3010a2b3c4d5e : Revision :=
  MkRevision "p3010a2b3c4d5e" (Some "p3008a2b3c4d5e")
    upgrade_p3010a2b3c4d5e downgrade_p3010a2b3c4d5e.

(** versions/p3013_add_reconciled_at_columns.py: add reconciled_at columns to notification_outbox and calendar_events (P3-013) *)
Definition upgrade_p3013a2b3c4d5e : list op.Operation :=
  [ op.add_column "notification_outbox"
      (sa.Column "reconciled_at" (sa.DateTime true) [sa.nullable true]);
    op.add_column "calendar_events"
        (sa.Column "reconciled_at" (sa.DateTime true) [sa.nullable true]) ].
Definition downgrade_p3013a2b3c4d5e : list op.Operation :=
  [ op.drop_column "calendar_events" "reconciled_at";
    op.drop_column "notification_outbox" "reconciled_at" ].
Definition revision_p3013a2b3c4d5e : Revision :=
  MkRevision "p3013a2b3c4d5e" (Some "p3005a2b3c4d5e")
    upgrade_p3013a2b3c4d5e downgrade_p3013a2b3c4d5e.

(** versions/p4001_add_owner_notification_and_transfer_phones.py: add owner_notification_phone and transfer_phone_number to businesses *)
Definition upgrade_p4001a2b3c4d5e : list op.Operation :=
  [ op.add_column "businesses" (sa.Column "owner_notification_phone" (sa.String (Some 32))
      [sa.nullable true]);
    op.add_column "businesses" (sa.Column "transfer_phone_number" (sa.String (Some 32))
        [sa.nullable true]) ].
Definition downgrade_p4001a2b3c4d5e : list op.Operation :=
  [ op.drop_column "businesses" "transfer_phone_number";
    op.drop_column "businesses" "owner_notification_phone" ].
Definition revision_p4001a2b3c4d5e : Revision :=
  MkRevision "p4001a2b3c4d5e" (Some "demo_user_flag_a1b2c3d4")
    upgrade_p4001a2b3c4d5e downgrade_p4001a2b3c4d5e.

(** versions/sac003a2b3c4d5e6_add_business_memberships_table.py: add business_memberships table (SAC-003) *)
Definition upgrade_sac003a2b3c4d5e6 : list op.Operation :=
  [ op.create_index "uix_businesses_tenant_id_id" "businesses" ["tenant_id"; "id"] true None None;
    op.create_index "uix_users_tenant_id_id" "users" ["tenant_id"; "id"] true None None;
    op.create_index "uix_staff_business_id_id" "staff" ["business_id"; "id"] true None None;
    op.create_table "business_memberships"
    [ sa.Column "id" sa.Integer [sa.primary_key];
      sa.Column "tenant_id" sa.Integer [sa.ForeignKey "tenants" "id" None; sa.nullable false];
      sa.Column "business_id" sa.Integer [sa.nullable false];
      sa.Column "user_id" sa.Integer [sa.nullable false];
      sa.Column "staff_id" sa.Integer [sa.nullable true];
      sa.Column "role" (sa.String (Some 16)) [sa.nullable false];
      sa.Column "status" (sa.String (Some 16))
          [sa.nullable false; sa.server_default (sa.literal "active")];
      sa.Column "invited_at" (sa.DateTime true) [sa.nullable true];
      sa.Column "accepted_at" (sa.DateTime true) [sa.nullable true];
      sa.Column "revoked_at" (sa.DateTime true) [sa.nullable true];
      sa.Column "invited_by_user_id" sa.Integer [sa.nullable true];
      sa.Column "revoked_by_user_id" sa.Integer [sa.nullable true];
      sa.Column "created_at" (sa.DateTime true)
          [sa.server_default (sa.text "now()"); sa.nullable false];
      sa.Column "updated_at" (sa.DateTime true)
          [sa.server_default (sa.text "now()"); sa.nullable false];
      sa.CheckConstraint (OR (NE "role" "staff") (IS_NOT_NULL "staff_id"))
          "ck_business_memberships_staff_role_requires_staff_id";
      sa.CheckConstraint (IN "role" ["owner"; "admin"; "staff"])
          "ck_business_memberships_role_valid";
      sa.CheckConstraint (IN "status" ["invited"; "active"; "suspended"; "revoked"])
          "ck_business_memberships_status_valid";
      sa.ForeignKeyConstraint ["tenant_id"; "business_id"] "businesses" ["tenant_id"; "id"]
          (Some "fk_business_memberships_business_same_tenant") None;
      sa.ForeignKeyConstraint ["tenant_id"; "user_id"] "users" ["tenant_id"; "id"]
          (Some "fk_business_memberships_user_same_tenant") None;
      sa.ForeignKeyConstraint ["business_id"; "staff_id"] "staff" ["business_id"; "id"]
          (Some "fk_business_memberships_staff_same_business") None;
      sa.ForeignKeyConstraint ["tenant_id"; "invited_by_user_id"] "users" ["tenant_id"; "id"]
          (Some "fk_business_memberships_invited_by_same_tenant") None;
      sa.ForeignKeyConstraint ["tenant_id"; "revoked_by_user_id"] "users" ["tenant_id"; "id"]
          (Some "fk_business_memberships_revoked_by_same_tenant") None ];
    op.create_index "uix_business_memberships_business_user" "business_memberships"
        ["business_id"; "user_id"] true None None;
    op.create_index "uix_business_memberships_business_staff_active" "business_memberships"
        ["business_id"; "staff_id"] true
        (Some (AND (IS_NOT_NULL "staff_id") (EQ "status" "active"))) None;
    op.create_index "ix_business_memberships_tenant_business_status" "business_memberships"
        ["tenant_id"; "business_id"; "status"] false None None;
    op.create_index "ix_business_memberships_user_id" "business_memberships" ["user_id"] false
        None None;
    op.create_index "ix_business_memberships_staff_id" "business_memberships" ["staff_id"] false
        None None ].
Definition downgrade_sac003a2b3c4d5e6 : list op.Operation :=
  [ op.drop_index "ix_business_memberships_staff_id" "business_memberships";
    op.drop_index "ix_business_memberships_user_id" "business_memberships";
    op.drop_index "ix_business_memberships_tenant_business_status" "business_memberships";
    op.drop_index "uix_business_memberships_business_staff_active" "business_memberships";
    op.drop_index "uix_business_memberships_business_user" "business_memberships";
    op.drop_table "business_memberships";
    op.drop_index "uix_staff_business_id_id" "staff";
    op.drop_index "uix_users_tenant_id_id" "users";
    op.drop_index "uix_businesses_tenant_id_id" "businesses" ].
Definition revision_sac003a2b3c4d5e6 : Revision :=
  MkRevision "sac003a2b3c4d5e6" (Some "p3009b2c3d4e5f")
    upgrade_sac003a2b3c4d5e6 downgrade_sac003a2b3c4d5e6.

(** versions/sac009_staff_inv.py: stub: sac009_staff_inv applied directly to production outside repo workflow *)
Definition upgrade_sac009_staff_inv : list op.Operation :=
  [].
Definition downgrade_sac009_staff_inv : list op.Operation :=
  [].
Definition revision_sac009_staff_inv : Revision :=
  MkRevision "sac009_staff_inv" (Some "sac003a2b3c4d5e6")
    upgrade_sac009_staff_inv downgrade_sac009_staff_inv.

Definition versions : list Revision :=
  [ revision_1a2b3c4d5e6f;
    revision_2b3c4d5e6f7a;
    revision_32e2a5c45a2d;
    revision_3a9f1c7d8e20;
    revision_4d5e6f7a8b90;
    revision_648d963688dd;
    revision_7f4e8b9a2c10;
    revision_9b2c4d6e8f10;
    revision_a1b2c3d4e5f6;
    revision_a2b3c4d5e6f7;
    revision_ad7b35681f01;
    revision_b1c2d3e4f5a6;
    revision_b3c4d5e6f7a8;
    revision_c2d3e4f5a6b7;
    revision_c3d4e5f6a7b8;
    revision_d4e5f6a7b8c9;
    revision_demo_user_flag_a1b2c3d4;
    revision_e5f6a7b8c9d0;
    revision_f1a2b3c4d5e6;
    revision_f5e4d3c2b1a0;
    revision_f963f3c8b3a4;
    revision_g001a2b3c4d5;
    revision_h001a2b3c4d5;
    revision_i001a2b3c4d5;
    revision_i001b2c3d4e5;
    revision_i003a2b3c4d5;
    revision_k001a2b3c4d5e;
    revision_l001a2b3c4d5e;
    revision_p1003a2b3c4d5e;
    revision_p1005a2b3c4d5e;
    revision_p1006a2b3c4d5e;
    revision_p2001a2b3c4d5e;
    revision_p2008a2b3c4d5e;
    revision_p2010a2b3c4d5e;
    revision_p2012a2b3c4d5e;
    revision_p3005a2b3c4d5e;
    revision_p3008a2b3c4d5e;
    revision_p3009b2c3d4e5f;
    revision_p3010a2b3c4d5e;
    revision_p3013a2b3c4d5e;
    revision_p4001a2b3c4d5e;
    revision_sac003a2b3c4d5e6;
    revision_sac009_staff_inv ].
