(* ===== verification/Metadata.v ===== *)
(** * Metadata: the tables as the models declare them

    The columns and [__table_args__] of every class of app/models.  A column whose annotation
    does not allow [None] and that says nothing about NULL is NOT NULL. *)

From S2P Require Import Prelude Ddl.

#[local] Open Scope string_scope.

(** models/audit_log.py, [AuditLog] *)
Definition table_audit_logs : list sa.SchemaItem :=
  [ sa.Column "id" sa.Integer [sa.primary_key];
    sa.Column "tenant_id" sa.Integer
        [sa.ForeignKey "tenants" "id" None; sa.nullable false; sa.index];
    sa.Column "admin_id" sa.Integer [sa.ForeignKey "users" "id" None; sa.nullable true; sa.index];
    sa.Column "action" (sa.String None) [sa.nullable false; sa.index];
    sa.Column "target_user_id" sa.Integer [sa.nullable true; sa.index];
    sa.Column "target_booking_id" sa.Integer
        [sa.ForeignKey "bookings" "id" None; sa.nullable true; sa.index];
    sa.Column "source" (sa.String None) [sa.nullable true];
    sa.Column "created_at" (sa.DateTime true) [sa.server_default (sa.text "now()"); sa.index] ].

(** models/availability_exception.py, [AvailabilityException] *)
Definition table_availability_exceptions : list sa.SchemaItem :=
  [ sa.Column "id" sa.Integer [sa.primary_key];
    sa.Column "tenant_id" sa.Integer [sa.ForeignKey "tenants" "id" None; sa.nullable false];
    sa.Column "business_id" sa.Integer [sa.ForeignKey "businesses" "id" None; sa.nullable false];
    sa.Column "staff_id" sa.Integer [sa.ForeignKey "staff" "id" None; sa.nullable true];
    sa.Column "date" sa.Date [sa.nullable false];
    sa.Column "is_closed" sa.Boolean [sa.nullable false];
    sa.Column "start_time" sa.Time [sa.nullable true];
    sa.Column "end_time" sa.Time [sa.nullable true];
    sa.Column "reason" (sa.String (Some 255)) [sa.nullable true];
    sa.Index "ix_availability_exceptions_tenant_id" ["tenant_id"] false None;
    sa.Index "ix_availability_exceptions_business_id" ["business_id"] false None;
    sa.Index "ix_availability_exceptions_staff_id" ["staff_id"] false None;
    sa.Index "ix_availability_exceptions_date" ["date"] false None ].

(** models/booking.py, [Booking] *)
Definition table_bookings : list sa.SchemaItem :=
  [ sa.Column "id" sa.Integer [sa.primary_key];
    sa.Column "tenant_id" sa.Integer [sa.ForeignKey "tenants" "id" None; sa.nullable false];
    sa.Column "business_id" sa.Integer [sa.ForeignKey "businesses" "id" None; sa.nullable false];
    sa.Column "customer_id" sa.Integer [sa.ForeignKey "customers" "id" None; sa.nullable false];
    sa.Column "service_id" sa.Integer [sa.ForeignKey "services" "id" None; sa.nullable false];
    sa.Column "staff_id" sa.Integer [sa.ForeignKey "staff" "id" None; sa.nullable true];
    sa.Column "starts_at" (sa.DateTime true) [sa.nullable false];
    sa.Column "ends_at" (sa.DateTime true) [sa.nullable false];
    sa.Column "status" (sa.String (Some 32)) [sa.nullable false];
    sa.Column "source" (sa.String (Some 32)) [sa.nullable false];
    sa.Column "cancel_reason" (sa.String (Some 255)) [sa.nullable true];
    sa.Column "created_at" (sa.DateTime true)
        [sa.server_default (sa.text "now()"); sa.nullable false];
    sa.Index "ix_bookings_tenant_id" ["tenant_id"] false None;
    sa.Index "ix_bookings_business_id" ["business_id"] false None;
    sa.Index "ix_bookings_customer_id" ["customer_id"] false None;
    sa.Index "ix_bookings_staff_id_starts_at" ["staff_id"; "starts_at"] false None ].

(** models/booking_line_item.py, [BookingLineItem] *)
Definition table_booking_line_items : list sa.SchemaItem :=
  [ sa.Column "id" sa.Integer [sa.primary_key];
    sa.Column "tenant_id" sa.Integer [sa.ForeignKey "tenants" "id" None; sa.nullable false];
    sa.Column "business_id" sa.Integer [sa.ForeignKey "businesses" "id" None; sa.nullable false];
    sa.Column "booking_id" sa.Integer [sa.ForeignKey "bookings" "id" None; sa.nullable false];
    sa.Column "service_id" sa.Integer [sa.ForeignKey "services" "id" None; sa.nullable false];
    sa.Column "position" sa.Integer [sa.nullable false];
    sa.Column "duration_minutes" sa.Integer [sa.nullable false];
    sa.Column "created_at" (sa.DateTime true)
        [sa.server_default (sa.text "now()"); sa.nullable false];
    sa.UniqueConstraint ["booking_id"; "position"]
        (Some "uq_booking_line_items_booking_position");
    sa.Index "ix_booking_line_items_tenant_id" ["tenant_id"] false None;
    sa.Index "ix_booking_line_items_business_id" ["business_id"] false None;
    sa.Index "ix_booking_line_items_booking_id" ["booking_id"] false None ].

(** models/booking_payment.py, [BookingPayment] *)
Definition table_booking_payments : list sa.SchemaItem :=
  [ sa.Column "id" sa.Integer [sa.primary_key];
    sa.Column "tenant_id" sa.Integer [sa.ForeignKey "tenants" "id" None; sa.nullable false];
    sa.Column "business_id" sa.Integer [sa.ForeignKey "businesses" "id" None; sa.nullable false];
    sa.Column "booking_id" sa.Integer [sa.ForeignKey "bookings" "id" None; sa.nullable false];
    sa.Column "provider" (sa.String (Some 64)) [sa.nullable false];
    sa.Column "provider_session_id" (sa.String (Some 255)) [sa.nullable true];
    sa.Column "provider_payment_id" (sa.String (Some 255)) [sa.nullable true];
    sa.Column "amount_minor_units" sa.Integer [sa.nullable false];
    sa.Column "currency" (sa.String (Some 3)) [sa.nullable false];
    sa.Column "status" (sa.String (Some 32)) [sa.nullable false];
    sa.Column "failure_reason" (sa.String (Some 500)) [sa.nullable true];
    sa.Column "created_at" (sa.DateTime true)
        [sa.server_default (sa.text "now()"); sa.nullable false];
    sa.Column "paid_at" (sa.DateTime true) [sa.nullable true];
    sa.Column "refunded_at" (sa.DateTime true) [sa.nullable true];
    sa.UniqueConstraint ["booking_id"] (Some "uq_booking_payments_booking_id");
    sa.Index "ix_booking_payments_tenant_id" ["tenant_id"] false None;
    sa.Index "ix_booking_payments_business_id" ["business_id"] false None;
    sa.Index "ix_booking_payments_status" ["status"] false None ].

(** models/business.py, [Business] *)
Definition table_businesses : list sa.SchemaItem :=
  [ sa.Column "id" sa.Integer [sa.primary_key];
    sa.Column "tenant_id" sa.Integer [sa.ForeignKey "tenants" "id" None; sa.nullable false];
    sa.Column "name" (sa.String (Some 255)) [sa.nullable false];
    sa.Column "timezone" (sa.String (Some 64)) [sa.nullable false];
    sa.Column "language" (sa.String (Some 8)) [sa.nullable false];
    sa.Column "phone" (sa.String (Some 32)) [sa.nullable true];
    sa.Column "owner_notification_phone" (sa.String (Some 32)) [sa.nullable true];
    sa.Column "transfer_phone_number" (sa.String (Some 32)) [sa.nullable true];
    sa.Column "is_active" sa.Boolean [sa.nullable false];
    sa.Column "transfer_enabled" sa.Boolean [sa.nullable false];
    sa.Column "transfer_destination_policy" (sa.String (Some 32)) [sa.nullable false];
    sa.Column "booking_mode" (sa.String (Some 32)) [sa.nullable false];
    sa.Column "external_booking_url" (sa.String (Some 512)) [sa.nullable true];
    sa.Column "external_booking_label" (sa.String (Some 128)) [sa.nullable true];
    sa.Column "external_booking_provider" (sa.String (Some 32)) [sa.nullable true];
    sa.Column "subscription_plan" (sa.String (Some 32)) [sa.nullable false];
    sa.Column "created_at" (sa.DateTime true)
        [sa.server_default (sa.text "now()"); sa.nullable false];
    sa.Index "ix_businesses_tenant_id" ["tenant_id"] false None;
    sa.Index "uix_businesses_tenant_id_id" ["tenant_id"; "id"] true None ].

(** models/business_membership.py, [BusinessMembership] *)
Definition table_business_memberships : list sa.SchemaItem :=
  [ sa.Column "id" sa.Integer [sa.primary_key];
    sa.Column "tenant_id" sa.Integer [sa.ForeignKey "tenants" "id" None; sa.nullable false];
    sa.Column "business_id" sa.Integer [sa.nullable false];
    sa.Column "user_id" sa.Integer [sa.nullable false];
    sa.Column "staff_id" sa.Integer [sa.nullable true];
    sa.Column "role" (sa.String (Some 16)) [sa.nullable false];
    sa.Column "status" (sa.String (Some 16)) [sa.nullable false];
    sa.Column "invited_at" (sa.DateTime true) [sa.nullable true];
    sa.Column "accepted_at" (sa.DateTime true) [sa.nullable true];
    sa.Column "revoked_at" (sa.DateTime true) [sa.nullable true];
    sa.Column "invited_by_user_id" sa.Integer [sa.nullable true];
    sa.Column "revoked_by_user_id" sa.Integer [sa.nullable true];
    sa.Column "created_at" (sa.DateTime true)
        [sa.server_default (sa.text "now()"); sa.nullable false];
    sa.Column "updated_at" (sa.DateTime true)
        [sa.server_default (sa.text "now()"); sa.nullable false];
    sa.Index "uix_business_memberships_business_user" ["business_id"; "user_id"] true None;
    sa.Index "uix_business_memberships_business_staff_active" ["business_id"; "staff_id"] true
        (Some (AND (IS_NOT_NULL "staff_id") (EQ "status" "active")));
    sa.Index "ix_business_memberships_tenant_business_status"
        ["tenant_id"; "business_id"; "status"] false None;
    sa.Index "ix_business_memberships_user_id" ["user_id"] false None;
    sa.Index "ix_business_memberships_staff_id" ["staff_id"] false None;
    sa.CheckConstraint (OR (NE "role" "staff") (IS_NOT_NULL "staff_id"))
        "ck_business_memberships_staff_role_requires_staff_id";
    sa.CheckConstraint (IN "role" ["owner"; "admin"; "staff"])
        "ck_business_memberships_role_valid";
    sa.CheckConstraint (IN "status" ["invited"; "active"; "suspended"; "revoked"])
        "ck_business_memberships_status_valid";
    sa.ForeignKeyConstraint ["tenant_id"; "business_id"] "businesses" ["tenant_id"; "id"]
        (Some "fk_business_memberships_business_same_tenant") None;
    sa.ForeignKeyConstraint ["tenant_id"; "user_id"] "users" ["tenant_id"; "id"]
        (Some "fk_business_memberships_user_same_tenant") None;
    sa.ForeignKeyConstraint ["business_id"; "staff_id"] "staff" ["business_id"; "id"]
        (Some "fk_business_memberships_staff_same_business") None;
    sa.ForeignKeyConstraint ["tenant_id"; "invited_by_user_id"] "users" ["tenant_id"; "id"]
        (Some "fk_business_memberships_invited_by_same_tenant") None;
    sa.ForeignKeyConstraint ["tenant_id"; "revoked_by_user_id"] "users" ["tenant_id"; "id"]
        (Some "fk_business_memberships_revoked_by_same_tenant") None ].

(** models/business_transfer_hours.py, [BusinessTransferHours] *)
Definition table_business_transfer_hours : list sa.SchemaItem :=
  [ sa.Column "id" sa.Integer [sa.primary_key];
    sa.Column "tenant_id" sa.Integer [sa.ForeignKey "tenants" "id" None; sa.nullable false];
    sa.Column "business_id" sa.Integer [sa.ForeignKey "businesses" "id" None; sa.nullable false];
    sa.Column "day_of_week" sa.Integer [sa.nullable false];
    sa.Column "start_time" sa.Time [sa.nullable false];
    sa.Column "end_time" sa.Time [sa.nullable false];
    sa.UniqueConstraint ["business_id"; "day_of_week"; "start_time"]
        (Some "uq_bth_business_day_start");
    sa.Index "ix_business_transfer_hours_tenant_id" ["tenant_id"] false None;
    sa.Index "ix_business_transfer_hours_business_id" ["business_id"] false None ].

(** models/calendar_event.py, [CalendarEvent] *)
Definition table_calendar_events : list sa.SchemaItem :=
  [ sa.Column "id" sa.Integer [sa.primary_key];
    sa.Column "tenant_id" sa.Integer [sa.ForeignKey "tenants" "id" None; sa.nullable false];
    sa.Column "business_id" sa.Integer [sa.ForeignKey "businesses" "id" None; sa.nullable false];
    sa.Column "booking_id" sa.Integer [sa.ForeignKey "bookings" "id" None; sa.nullable false];
    sa.Column "provider" (sa.String (Some 64)) [sa.nullable false];
    sa.Column "provider_event_id" (sa.String (Some 255)) [sa.nullable true];
    sa.Column "status" (sa.String (Some 32)) [sa.nullable false];
    sa.Column "attempts" sa.Integer [sa.nullable false];
    sa.Column "cancel_attempts" sa.Integer [sa.nullable false];
    sa.Column "last_error" (sa.String (Some 500)) [sa.nullable true];
    sa.Column "created_at" (sa.DateTime true)
        [sa.server_default (sa.text "now()"); sa.nullable false];
    sa.Column "synced_at" (sa.DateTime true) [sa.nullable true];
    sa.Column "reconciled_at" (sa.DateTime true) [sa.nullable true];
    sa.UniqueConstraint ["booking_id"] (Some "uq_calendar_events_booking_id");
    sa.Index "ix_calendar_events_tenant_id" ["tenant_id"] false None;
    sa.Index "ix_calendar_events_business_id" ["business_id"] false None;
    sa.Index "ix_calendar_events_status" ["status"] false None ].

(** models/calendar_integration.py, [CalendarIntegration] *)
Definition table_calendar_integrations : list sa.SchemaItem :=
  [ sa.Column "id" sa.Integer [sa.primary_key];
    sa.Column "tenant_id" sa.Integer [sa.ForeignKey "tenants" "id" None; sa.nullable false];
    sa.Column "business_id" sa.Integer [sa.ForeignKey "businesses" "id" None; sa.nullable false];
    sa.Column "staff_id" sa.Integer [sa.ForeignKey "staff" "id" None; sa.nullable true];
    sa.Column "provider" (sa.String (Some 64)) [sa.nullable false];
    sa.Column "calendar_id" (sa.String (Some 255)) [sa.nullable true];
    sa.Column "is_active" sa.Boolean [sa.nullable false];
    sa.Column "visibility" (sa.String (Some 16)) [sa.nullable false];
    sa.Column "created_at" (sa.DateTime true)
        [sa.server_default (sa.text "now()"); sa.nullable false];
    sa.Column "updated_at" (sa.DateTime true)
        [sa.server_default (sa.text "now()"); sa.nullable false];
    sa.Index "uix_calendar_integrations_business_level" ["business_id"] true
        (Some (IS_NULL "staff_id"));
    sa.Index "uix_calendar_integrations_staff_level" ["business_id"; "staff_id"] true
        (Some (IS_NOT_NULL "staff_id"));
    sa.Index "ix_calendar_integrations_tenant_id" ["tenant_id"] false None ].

(** models/client.py, [Client] *)
Definition table_clients : list sa.SchemaItem :=
  [ sa.Column "id" sa.Integer [sa.primary_key];
    sa.Column "tenant_id" sa.Integer [sa.ForeignKey "tenants" "id" None; sa.nullable false];
    sa.Column "business_id" sa.Integer [sa.ForeignKey "businesses" "id" None; sa.nullable false];
    sa.Column "customer_id" sa.Integer [sa.ForeignKey "customers" "id" None; sa.nullable true];
    sa.Column "name" (sa.String (Some 255)) [sa.nullable false];
    sa.Column "email" (sa.String (Some 255)) [sa.nullable true];
    sa.Column "phone" (sa.String (Some 32)) [sa.nullable true];
    sa.Column "notes" sa.Text [sa.nullable true];
    sa.Column "created_at" (sa.DateTime true)
        [sa.server_default (sa.text "now()"); sa.nullable false];
    sa.Column "updated_at" (sa.DateTime true)
        [sa.server_default (sa.text "now()"); sa.nullable false];
    sa.UniqueConstraint ["business_id"; "customer_id"] (Some "uq_clients_business_customer");
    sa.Index "ix_clients_tenant_id" ["tenant_id"] false None;
    sa.Index "ix_clients_business_id" ["business_id"] false None ].

(** models/customer.py, [Customer] *)
Definition table_customers : list sa.SchemaItem :=
  [ sa.Column "id" sa.Integer [sa.primary_key];
    sa.Column "tenant_id" sa.Integer [sa.ForeignKey "tenants" "id" None; sa.nullable false];
    sa.Column "business_id" sa.Integer [sa.ForeignKey "businesses" "id" None; sa.nullable false];
    sa.Column "phone" (sa.String (Some 32)) [sa.nullable false];
    sa.Column "phone_normalized" (sa.String (Some 32)) [sa.nullable false];
    sa.Column "name" (sa.String (Some 255)) [sa.nullable true];
    sa.Column "created_at" (sa.DateTime true)
        [sa.server_default (sa.text "now()"); sa.nullable false];
    sa.UniqueConstraint ["business_id"; "phone_normalized"] (Some "uq_customers_business_phone");
    sa.Index "ix_customers_tenant_id" ["tenant_id"] false None;
    sa.Index "ix_customers_business_id" ["business_id"] false None ].

(** models/idempotency_record.py, [IdempotencyRecord] *)
Definition table_idempotency_records : list sa.SchemaItem :=
  [ sa.Column "id" sa.Integer [sa.primary_key];
    sa.Column "scope_key" (sa.String None) [sa.unique; sa.nullable false];
    sa.Column "status_code" sa.Integer [sa.nullable false];
    sa.Column "response_body" sa.Text [sa.nullable false];
    sa.Column "created_at" (sa.DateTime true)
        [sa.server_default (sa.text "now()"); sa.nullable false];
    sa.Column "expires_at" (sa.DateTime true) [sa.nullable false; sa.index] ].

(** models/notification_outbox.py, [NotificationOutbox] *)
Definition table_notification_outbox : list sa.SchemaItem :=
  [ sa.Column "id" sa.Integer [sa.primary_key];
    sa.Column "tenant_id" sa.Integer [sa.ForeignKey "tenants" "id" None; sa.nullable false];
    sa.Column "business_id" sa.Integer [sa.ForeignKey "businesses" "id" None; sa.nullable false];
    sa.Column "booking_id" sa.Integer [sa.ForeignKey "bookings" "id" None; sa.nullable true];
    sa.Column "channel" (sa.String (Some 32)) [sa.nullable false];
    sa.Column "purpose" (sa.String (Some 64)) [sa.nullable false];
    sa.Column "recipient_phone" (sa.String (Some 32)) [sa.nullable false];
    sa.Column "body" sa.Text [sa.nullable false];
    sa.Column "status" (sa.String (Some 32)) [sa.nullable false];
    sa.Column "attempts" sa.Integer [sa.nullable false];
    sa.Column "last_error" (sa.String (Some 500)) [sa.nullable true];
    sa.Column "provider_message_id" (sa.String (Some 128)) [sa.nullable true];
    sa.Column "created_at" (sa.DateTime true)
        [sa.server_default (sa.text "now()"); sa.nullable false];
    sa.Column "sent_at" (sa.DateTime true) [sa.nullable true];
    sa.Column "reconciled_at" (sa.DateTime true) [sa.nullable true];
    sa.Index "ix_notification_outbox_tenant_id" ["tenant_id"] false None;
    sa.Index "ix_notification_outbox_business_id" ["business_id"] false None;
    sa.Index "ix_notification_outbox_booking_id" ["booking_id"] false None;
    sa.Index "ix_notification_outbox_status" ["status"] false None ].

(** models/owner_lead.py, [OwnerLead] *)
Definition table_owner_leads : list sa.SchemaItem :=
  [ sa.Column "id" sa.Integer [sa.primary_key];
    sa.Column "business_name" (sa.String (Some 255)) [sa.nullable false];
    sa.Column "owner_name" (sa.String (Some 255)) [sa.nullable true];
    sa.Column "email" (sa.String (Some 254)) [sa.nullable false];
    sa.Column "phone_number" (sa.String (Some 32)) [sa.nullable false];
    sa.Column "phone_normalized" (sa.String (Some 32)) [sa.nullable false];
    sa.Column "city" (sa.String (Some 128)) [sa.nullable true];
    sa.Column "booking_mode_interest" (sa.String (Some 32)) [sa.nullable false];
    sa.Column "external_booking_url" (sa.String (Some 512)) [sa.nullable true];
    sa.Column "message" sa.Text [sa.nullable true];
    sa.Column "status" (sa.String (Some 32))
        [sa.nullable false; sa.server_default (sa.literal "new")];
    sa.Column "created_at" (sa.DateTime true)
        [sa.server_default (sa.text "now()"); sa.nullable false];
    sa.Column "updated_at" (sa.DateTime true)
        [sa.server_default (sa.text "now()"); sa.nullable false];
    sa.Index "ix_owner_leads_status" ["status"] false None;
    sa.Index "ix_owner_leads_created_at" ["created_at"] false None ].

(** models/password_reset_job_completion.py, [PasswordResetJobCompletion] *)
Definition table_password_reset_job_completions : list sa.SchemaItem :=
  [ sa.Column "id" sa.Integer [sa.primary_key];
    sa.Column "job_id" (sa.String None) [sa.unique; sa.nullable false];
    sa.Column "completed_at" (sa.DateTime true)
        [sa.server_default (sa.text "now()"); sa.nullable false] ].

(** models/password_reset_token.py, [PasswordResetToken] *)
Definition table_password_reset_tokens : list sa.SchemaItem :=
  [ sa.Column "id" sa.Integer [sa.primary_key];
    sa.Column "user_id" sa.Integer [sa.ForeignKey "users" "id" (Some "CASCADE");
        sa.nullable false; sa.index];
    sa.Column "token_hash" (sa.String None) [sa.nullable false];
    sa.Column "expires_at" (sa.DateTime true) [sa.nullable false; sa.index];
    sa.Column "used_at" (sa.DateTime true) [sa.nullable true];
    sa.Column "created_at" (sa.DateTime true)
        [sa.server_default (sa.text "now()"); sa.nullable false];
    sa.Index "ix_password_reset_tokens_token_hash" ["token_hash"] true None ].

(** models/recurring_staff_block.py, [RecurringStaffBlock] *)
Definition table_recurring_staff_blocks : list sa.SchemaItem :=
  [ sa.Column "id" sa.Integer [sa.primary_key];
    sa.Column "tenant_id" sa.Integer [sa.ForeignKey "tenants" "id" None; sa.nullable false];
    sa.Column "business_id" sa.Integer [sa.ForeignKey "businesses" "id" None; sa.nullable false];
    sa.Column "staff_id" sa.Integer [sa.ForeignKey "staff" "id" None; sa.nullable true];
    sa.Column "day_of_week" sa.Integer [sa.nullable false];
    sa.Column "start_time" sa.Time [sa.nullable false];
    sa.Column "end_time" sa.Time [sa.nullable false];
    sa.Column "reason" (sa.String (Some 255)) [sa.nullable true];
    sa.Index "ix_recurring_staff_blocks_tenant_id" ["tenant_id"] false None;
    sa.Index "ix_recurring_staff_blocks_business_id" ["business_id"] false None;
    sa.Index "ix_recurring_staff_blocks_staff_id" ["staff_id"] false None;
    sa.Index "ix_recurring_staff_blocks_day_of_week" ["day_of_week"] false None ].

(** models/service.py, [Service] *)
Definition table_services : list sa.SchemaItem :=
  [ sa.Column "id" sa.Integer [sa.primary_key];
    sa.Column "tenant_id" sa.Integer [sa.ForeignKey "tenants" "id" None; sa.nullable false];
    sa.Column "business_id" sa.Integer [sa.ForeignKey "businesses" "id" None; sa.nullable false];
    sa.Column "name" (sa.String (Some 255)) [sa.nullable false];
    sa.Column "duration_minutes" sa.Integer [sa.nullable false];
    sa.Column "is_active" sa.Boolean [sa.nullable false];
    sa.Column "price_minor_units" sa.Integer [sa.nullable true];
    sa.Column "currency" (sa.String (Some 3)) [sa.nullable true];
    sa.Column "deposit_required" sa.Boolean [sa.nullable false];
    sa.Column "deposit_minor_units" sa.Integer [sa.nullable true];
    sa.Column "created_at" (sa.DateTime true)
        [sa.server_default (sa.text "now()"); sa.nullable false];
    sa.Index "ix_services_tenant_id" ["tenant_id"] false None;
    sa.Index "ix_services_business_id" ["business_id"] false None ].

(** models/staff.py, [Staff] *)
Definition table_staff : list sa.SchemaItem :=
  [ sa.Column "id" sa.Integer [sa.primary_key];
    sa.Column "tenant_id" sa.Integer [sa.ForeignKey "tenants" "id" None; sa.nullable false];
    sa.Column "business_id" sa.Integer [sa.ForeignKey "businesses" "id" None; sa.nullable false];
    sa.Column "name" (sa.String (Some 255)) [sa.nullable false];
    sa.Column "phone" (sa.String (Some 32)) [sa.nullable true];
    sa.Column "is_active" sa.Boolean [sa.nullable false];
    sa.Column "created_at" (sa.DateTime true)
        [sa.server_default (sa.text "now()"); sa.nullable false];
    sa.Index "ix_staff_tenant_id" ["tenant_id"] false None;
    sa.Index "ix_staff_business_id" ["business_id"] false None;
    sa.Index "uix_staff_business_id_id" ["business_id"; "id"] true None ].

(** models/tenant.py, [Tenant] *)
Definition table_tenants : list sa.SchemaItem :=
  [ sa.Column "id" sa.Integer [sa.primary_key];
    sa.Column "slug" (sa.String None) [sa.unique; sa.nullable false];
    sa.Column "name" (sa.String None) [sa.nullable false];
    sa.Column "is_active" sa.Boolean [sa.nullable false] ].

(** models/uploaded_file.py, [UploadedFile] *)
Definition table_uploaded_files : list sa.SchemaItem :=
  [ sa.Column "id" sa.Integer [sa.primary_key];
    sa.Column "tenant_id" sa.Integer
        [sa.ForeignKey "tenants" "id" None; sa.nullable false; sa.index];
    sa.Column "owner_id" sa.Integer
        [sa.ForeignKey "users" "id" (Some "CASCADE"); sa.nullable false];
    sa.Column "object_key" (sa.String None) [sa.nullable false; sa.unique];
    sa.Column "filename" (sa.String None) [sa.nullable false];
    sa.Column "content_type" (sa.String None) [sa.nullable false];
    sa.Column "size_bytes" sa.Integer [sa.nullable false];
    sa.Column "verification_status" (sa.String None)
        [sa.nullable false; sa.server_default (sa.literal "verified")];
    sa.Column "created_at" (sa.DateTime true)
        [sa.server_default (sa.text "now()"); sa.nullable false] ].

(** models/user.py, [User] *)
Definition table_users : list sa.SchemaItem :=
  [ sa.Column "id" sa.Integer [sa.primary_key];
    sa.Column "tenant_id" sa.Integer [sa.ForeignKey "tenants" "id" None; sa.nullable false];
    sa.Column "email" (sa.String None) [sa.nullable false];
    sa.Column "hashed_password" (sa.String None) [sa.nullable false];
    sa.Column "is_active" sa.Boolean [sa.nullable false];
    sa.Column "role" (sa.String None) [sa.nullable false];
    sa.Column "token_version" sa.Integer [sa.nullable false];
    sa.Column "is_demo_user" sa.Boolean [sa.nullable false];
    sa.Index "ix_users_tenant_id_email" ["tenant_id"; "email"] true None;
    sa.Index "uix_users_tenant_id_id" ["tenant_id"; "id"] true None ].

(** models/voice_session.py, [VoiceSession] *)
Definition table_voice_sessions : list sa.SchemaItem :=
  [ sa.Column "id" sa.Integer [sa.primary_key];
    sa.Column "tenant_id" sa.Integer [sa.ForeignKey "tenants" "id" None; sa.nullable false];
    sa.Column "business_id" sa.Integer [sa.ForeignKey "businesses" "id" None; sa.nullable false];
    sa.Column "caller_phone" (sa.String (Some 32)) [sa.nullable false];
    sa.Column "step" (sa.String (Some 32)) [sa.nullable false];
    sa.Column "locale" (sa.String (Some 8)) [sa.nullable false];
    sa.Column "selected_service_id" sa.Integer
        [sa.ForeignKey "services" "id" None; sa.nullable true];
    sa.Column "selected_staff_id" sa.Integer [sa.ForeignKey "staff" "id" None; sa.nullable true];
    sa.Column "selected_slot_start" (sa.DateTime true) [sa.nullable true];
    sa.Column "selected_slot_end" (sa.DateTime true) [sa.nullable true];
    sa.Column "booking_id" sa.Integer [sa.ForeignKey "bookings" "id" None; sa.nullable true];
    sa.Column "managed_booking_id" sa.Integer
        [sa.ForeignKey "bookings" "id" None; sa.nullable true];
    sa.Column "slot_candidates" sa.Text [sa.nullable true];
    sa.Column "no_input_count" sa.Integer [sa.nullable false; sa.server_default (sa.literal "0")];
    sa.Column "invalid_key_count" sa.Integer
        [sa.nullable false; sa.server_default (sa.literal "0")];
    sa.Column "call_sid" (sa.String (Some 64)) [sa.nullable true; sa.unique];
    sa.Column "transfer_destination" (sa.String (Some 32)) [sa.nullable true];
    sa.Column "expires_at" (sa.DateTime true) [sa.nullable false];
    sa.Column "created_at" (sa.DateTime true)
        [sa.server_default (sa.text "now()"); sa.nullable false];
    sa.Column "updated_at" (sa.DateTime true)
        [sa.server_default (sa.text "now()"); sa.nullable false];
    sa.Index "ix_voice_sessions_tenant_id" ["tenant_id"] false None;
    sa.Index "ix_voice_sessions_business_id" ["business_id"] false None;
    sa.Index "ix_voice_sessions_step" ["step"] false None;
    sa.Index "ix_voice_sessions_expires_at" ["expires_at"] false None ].

(** models/waitlist_entry.py, [WaitlistEntry] *)
Definition table_waitlist_entries : list sa.SchemaItem :=
  [ sa.Column "id" sa.Integer [sa.primary_key];
    sa.Column "tenant_id" sa.Integer [sa.ForeignKey "tenants" "id" None; sa.nullable false];
    sa.Column "business_id" sa.Integer [sa.ForeignKey "businesses" "id" None; sa.nullable false];
    sa.Column "customer_id" sa.Integer [sa.ForeignKey "customers" "id" None; sa.nullable false];
    sa.Column "service_id" sa.Integer [sa.ForeignKey "services" "id" None; sa.nullable false];
    sa.Column "staff_id" sa.Integer [sa.ForeignKey "staff" "id" None; sa.nullable true];
    sa.Column "offered_for_staff_id" sa.Integer
        [sa.ForeignKey "staff" "id" None; sa.nullable true];
    sa.Column "desired_date" sa.Date [sa.nullable false];
    sa.Column "status" (sa.String (Some 32)) [sa.nullable false];
    sa.Column "created_at" (sa.DateTime true)
        [sa.server_default (sa.text "now()"); sa.nullable false];
    sa.Column "updated_at" (sa.DateTime true)
        [sa.server_default (sa.text "now()"); sa.nullable false];
    sa.Index "ix_waitlist_entries_tenant_id" ["tenant_id"] false None;
    sa.Index "ix_waitlist_entries_business_id" ["business_id"] false None;
    sa.Index "ix_waitlist_entries_status" ["status"] false None;
    sa.Index "ix_waitlist_entries_business_service_date"
        ["business_id"; "service_id"; "desired_date"] false None ].

(** models/webhook_event.py, [WebhookEvent] *)
Definition table_webhook_events : list sa.SchemaItem :=
  [ sa.Column "id" sa.Integer [sa.primary_key];
    sa.Column "provider" (sa.String None) [sa.nullable false];
    sa.Column "event_id" (sa.String None) [sa.nullable false];
    sa.Column "payload_hash" (sa.String None) [sa.nullable false];
    sa.Column "received_at" (sa.DateTime true)
        [sa.server_default (sa.text "now()"); sa.nullable false; sa.index];
    sa.UniqueConstraint ["provider"; "event_id"] (Some "uq_webhook_events_provider_event_id") ].

(** models/working_hours.py, [WorkingHours] *)
Definition table_working_hours : list sa.SchemaItem :=
  [ sa.Column "id" sa.Integer [sa.primary_key];
    sa.Column "tenant_id" sa.Integer [sa.ForeignKey "tenants" "id" None; sa.nullable false];
    sa.Column "business_id" sa.Integer [sa.ForeignKey "businesses" "id" None; sa.nullable false];
    sa.Column "staff_id" sa.Integer [sa.ForeignKey "staff" "id" None; sa.nullable true];
    sa.Column "day_of_week" sa.Integer [sa.nullable false];
    sa.Column "start_time" sa.Time [sa.nullable false];
    sa.Column "end_time" sa.Time [sa.nullable false];
    sa.Index "ix_working_hours_tenant_id" ["tenant_id"] false None;
    sa.Index "ix_working_hours_business_id" ["business_id"] false None;
    sa.Index "ix_working_hours_staff_id" ["staff_id"] false None ].

Definition metadata : list (string * list sa.SchemaItem) :=
  [ ("audit_logs", table_audit_logs);
    ("availability_exceptions", table_availability_exceptions);
    ("bookings", table_bookings);
    ("booking_line_items", table_booking_line_items);
    ("booking_payments", table_booking_payments);
    ("businesses", table_businesses);
    ("business_memberships", table_business_memberships);
    ("business_transfer_hours", table_business_transfer_hours);
    ("calendar_events", table_calendar_events);
    ("calendar_integrations", table_calendar_integrations);
    ("clients", table_clients);
    ("customers", table_customers);
    ("idempotency_records", table_idempotency_records);
    ("notification_outbox", table_notification_outbox);
    ("owner_leads", table_owner_leads);
    ("password_reset_job_completions", table_password_reset_job_completions);
    ("password_reset_tokens", table_password_reset_tokens);
    ("recurring_staff_blocks", table_recurring_staff_blocks);
    ("services", table_services);
    ("staff", table_staff);
    ("tenants", table_tenants);
    ("uploaded_files", table_uploaded_files);
    ("users", table_users);
    ("voice_sessions", table_voice_sessions);
    ("waitlist_entries", table_waitlist_entries);
    ("webhook_events", table_webhook_events);
    ("working_hours", table_working_hours) ].
