(* ===== verification/MigrationBehaviour.v ===== *)
(** * MigrationBehaviour: the history of the schema at work

    [history] walks the scripts from the empty database.  Everything below about single
    revisions is a computation on the structures it passes through ([checked_revisions]),
    which the theorems of DdlBehaviour.v carry over to databases that hold data. *)

From S2P Require Import Prelude Py Effects Ddl DdlBehaviour Migrations Metadata.

(** ** The line of revisions *)

(** The scripts from a version on, if they form a line. *)
Fixpoint path (fuel : nat) (scripts : list Revision) (v : option string) : option (list Revision) :=
  match fuel with
  | O => None
  | S fuel =>
      match successors scripts v with
      | [] => Some []
      | [r] => cons r <$> path fuel scripts (Some (revision r))
      | _ => None
      end
  end.
Definition path_steps (p : list Revision) : list Step :=
  flat_map (fun r => flat_map steps (upgrade r)) p.
Definition last_version (v : option string) (p : list Revision) : option string :=
  fold_left (fun _ r => Some (revision r)) p v.

Lemma run_steps_app now l l' db :
  run_steps now (l ++ l') db = (db' <-- run_steps now l db ;; run_steps now l' db').
Proof.
  revert db. induction l as [|s l IH]; intros db; [done|]. cbn.
  destruct (run_step now s db); [|done]. cbn. apply IH.
Qed.

(** Upgrading to the head is running the scripts of the path. *)
Lemma upgrade_loop_path now scripts fuel d p :
  path fuel scripts (version_num d) = Some p ->
  upgrade_loop now scripts fuel d
  = (db <-- run_steps now (path_steps p) (database d) ;;
     Ok (MkDeployment (last_version (version_num d) p) db)).
Proof.
  revert d p. induction fuel as [|fuel IH]; intros d p; [done|]. cbn. unfold upgrade_next.
  destruct (successors scripts (version_num d)) as [|r [|]]; [| |done].
  - intros [= <-]. by destruct d.
  - destruct (path fuel scripts (Some (revision r))) as [p'|] eqn:Ep; [|done]. intros [= <-].
    unfold path_steps. cbn [flat_map]. rewrite run_steps_app. unfold perform.
    destruct (run_steps now (flat_map steps (upgrade r)) (database d)) as [db|]; [|done]. cbn.
    rewrite (IH (MkDeployment (Some (revision r)) db) p') by exact Ep. done.
Qed.

Definition remaining (scripts : list Revision) (v : option string) : option (list Revision) :=
  path (S (length scripts)) scripts v.

Lemma upgrade_head_path now scripts v db p :
  remaining scripts v = Some p ->
  upgrade_head now scripts (MkDeployment v db)
  = (db' <-- run_steps now (path_steps p) db ;; Ok (MkDeployment (last_version v p) db')).
Proof. intros Hp. exact (upgrade_loop_path now scripts _ (MkDeployment v db) p Hp). Qed.

(** Every revision with the database it is applied to, from the empty one. *)
Fixpoint walk (now : Z) (fuel : nat) (d : Deployment) : list (Revision * Database) :=
  match fuel with
  | O => []
  | S fuel =>
      match successors versions (version_num d) with
      | [r] =>
          (r, database d)
          :: match perform now (upgrade r) (database d) with
             | Ok db => walk now fuel (MkDeployment (Some (revision r)) db)
             | Raise _ => []
             end
      | _ => []
      end
  end.
Definition history (now : Z) : list (Revision * Database) := walk now (length versions) fresh.

Definition head_revision : string := "p4001a2b3c4d5e".
Definition head (now : Z) : Database :=
  match upgrade_head now versions fresh with Ok d => database d | Raise _ => empty_database end.

(** The revisions whose upgrade can be stopped by rows or rewrites them: NOT NULL on a column
    that may hold NULL, the tenants, and the exclusion constraint, twice. *)
Definition data_dependent : list string :=
  ["f963f3c8b3a4"; "a1b2c3d4e5f6"; "2b3c4d5e6f7a"; "p3008a2b3c4d5e"]%string.

Definition up_and_down (r : Revision) : list Step :=
  flat_map steps (upgrade r) ++ flat_map steps (downgrade r).

Definition check_revision (now : Z) (rb : Revision * Database) : bool :=
  let sch := erase rb.2 in
  leaves_alone (flat_map steps (upgrade rb.1)) sch
  && leaves_alone (up_and_down rb.1) sch
  && match safe_run now (known_from sch) (up_and_down rb.1) sch with
     | Some (_, sch') => bool_decide (db_tables sch' = db_tables sch)
     | None => false
     end.

Definition check_path (now : Z) (rb : Revision * Database) (p : list Revision) : bool :=
  let sch := erase rb.2 in
  leaves_alone (path_steps p) sch
  && match safe_run now (known_from sch) (path_steps p) sch with
     | Some (_, sch') => bool_decide (sch' = erase (head now))
     | None => false
     end
  && bool_decide (last_version (down_revision rb.1) p = Some head_revision).

Definition dependent (r : Revision) : bool := member_of (revision r) data_dependent.

Lemma history_checked now :
  forallb (fun rb => if dependent rb.1 then true else check_revision now rb) (history now) = true.
Proof. vm_compute. reflexivity. Qed.

Lemma paths_checked now :
  forallb (fun rb => match remaining versions (down_revision rb.1) with
                     | Some p => if existsb dependent p then true else check_path now rb p
                     | None => false
                     end) (history now) = true.
Proof. vm_compute. reflexivity. Qed.

(** The scripts form one line, which runs through every one of them. *)
Lemma one_line now :
  remaining versions None = Some (map fst (history now))
  /\ Permutation (map revision (map fst (history now))) (map revision versions).
Proof. split; [vm_compute; reflexivity|]. apply (bool_decide_unpack _). vm_compute. exact I. Qed.

Lemma perform_app now r db :
  run_steps now (up_and_down r) db = (db' <-- perform now (upgrade r) db ;; perform now (downgrade r) db').
Proof. apply run_steps_app. Qed.

Lemma erase_erase db : erase (erase db) = erase db.
Proof.
  unfold erase. cbn. f_equal. rewrite <- map_fmap_compose. by apply map_fmap_ext.
Qed.

Lemma dependent_in r : dependent r = true <-> In (revision r) data_dependent.
Proof. split; [apply member_of_In | apply in_member_of]. Qed.

(** C36: a revision can be deployed and taken back with the data in place.  Take any database that
    has the structure the history reaches before a revision - all but the four that rewrite
    or restrict existing rows - and holds any valid rows.  The upgrade succeeds and leaves
    valid data in which every row still says what it said; and the downgrade then succeeds and
    gives every table back exactly, rows included. *)
Theorem revision_roundtrip now r before db :
  In (r, before) (history now) -> ~ In (revision r) data_dependent ->
  erase db = erase before -> valid db ->
  exists db1 db2,
    perform now (upgrade r) db = Ok db1 /\ valid db1 /\ data_kept db db1
    /\ perform now (downgrade r) db1 = Ok db2 /\ db_tables db2 = db_tables db.
Proof.
  intros Hin Hd Hsch Hv. pose proof (history_checked now) as Hall. rewrite forallb_forall in Hall.
  specialize (Hall _ Hin). cbn [fst snd] in Hall.
  destruct (dependent r) eqn:Edep; [by apply dependent_in in Edep|]. rename Hall into Hc.
  unfold check_revision in Hc. cbn [fst snd] in Hc. rewrite <- Hsch in Hc.
  apply andb_true_iff in Hc as [[Hup Hboth]%andb_true_iff Hrun].
  destruct (safe_run _ _ _ _) as [[k' sch']|] eqn:Hsr; [|done]. apply bool_decide_eq_true in Hrun.
  destruct (safe_run_prefix _ _ _ _ _ _ Hsr) as [[k1 sch1] Hsr1].
  destruct (safe_run_runs now _ _ db k1 sch1 Hv (knows_from db Hv) Hsr1) as (db0 & H0 & _ & Hv1 & _).
  destruct (safe_run_runs now _ _ db k' sch' Hv (knows_from db Hv) Hsr) as (db2 & H2 & He & Hv2 & _).
  pose proof (leaves_alone_kept now _ db db2 Hboth H2) as Hkept.
  rewrite perform_app in H2. apply and_then_ok in H2 as (db1 & H1 & H2).
  exists db1, db2. split; [done|]. split; [|split; [|split; [done|]]].
  - pose proof (eq_trans (eq_sym H1) H0) as E. injection E as ->. exact Hv1.
  - exact (leaves_alone_kept now _ db db1 Hup H1).
  - apply kept_same_tables; try done. by rewrite He.
Qed.

(** C37: a deployment reaches the head with its data.  From every version after which no revision
    depends on data - since the payment holds - alembic upgrade head succeeds on whatever
    valid rows there are, ends at the head revision with the structure a fresh installation
    has, and every row still says what it said. *)
Theorem deployment_keeps_data now r before p db :
  In (r, before) (history now) -> remaining versions (down_revision r) = Some p ->
  (forall r', In r' p -> ~ In (revision r') data_dependent) ->
  erase db = erase before -> valid db ->
  exists db',
    upgrade_head now versions (MkDeployment (down_revision r) db)
      = Ok (MkDeployment (Some head_revision) db')
    /\ valid db' /\ data_kept db db' /\ erase db' = erase (head now).
Proof.
  intros Hin Hp Hd Hsch Hv. pose proof (paths_checked now) as Hall. rewrite forallb_forall in Hall.
  specialize (Hall _ Hin). cbn [fst snd] in Hall. rewrite Hp in Hall.
  destruct (existsb dependent p) eqn:Edep.
  { apply existsb_exists in Edep as (r' & Hr' & E%dependent_in). by destruct (Hd r' Hr'). }
  unfold check_path in Hall. cbn [fst snd] in Hall. rewrite <- Hsch in Hall.
  apply andb_true_iff in Hall as [[Hup Hrun]%andb_true_iff Hlast]. apply bool_decide_eq_true in Hlast.
  destruct (safe_run _ _ _ _) as [[k' sch']|] eqn:Hsr; [|done]. apply bool_decide_eq_true in Hrun.
  destruct (safe_run_runs now _ _ db k' sch' Hv (knows_from db Hv) Hsr) as (db' & H & He & Hv' & _).
  exists db'. split; [|split; [done|split; [by eapply leaves_alone_kept | congruence]]].
  rewrite (upgrade_head_path now versions (down_revision r) db p Hp), H. cbn [and_then]. by rewrite Hlast.
Qed.

(** ** The schema of the models *)

(** What a table demands of its rows. *)
Inductive Demand : Type :=
  | NotNull (c : string)
  | Holds (k : Constraint)
  | UniqueOn (cols : list string) (condition : option Expr).
#[export] Instance Demand_eq_dec : EqDecision Demand.
Proof. solve_decision. Defined.

Definition demands (tab : Table) : list Demand :=
  map (fun kc => NotNull kc.1)
    (List.filter (fun kc => negb (col_nullable kc.2)) (map_to_list (tab_columns tab)))
  ++ map (fun kc => Holds kc.2) (map_to_list (tab_constraints tab))
  ++ map (fun ki => UniqueOn (ix_columns ki.2) (ix_where ki.2))
       (List.filter (fun ki => ix_unique ki.2) (map_to_list (tab_indexes tab))).

Definition met (db : Database) (t : string) (d : Demand) : bool :=
  match d with
  | NotNull c => no_nulls db t c
  | Holds k => constraint_holds db t k
  | UniqueOn cols e => index_holds db t (MkIndexDef cols true e None)
  end.

Lemma forallb_filter_map {A B} (p : B -> bool) (f : A -> B) (q g : A -> bool) l :
  (forall x, g x = negb (q x) || p (f x)) -> forallb g l = forallb p (map f (List.filter q l)).
Proof.
  intros H. induction l as [|x l IH]; [done|]. cbn. rewrite IH, H. by destruct (q x).
Qed.

Lemma forallb_map {A B} (p : B -> bool) (f : A -> B) l :
  forallb p (map f l) = forallb (fun x => p (f x)) l.
Proof. induction l as [|x l IH]; [done|]. cbn. by rewrite IH. Qed.

(** A table holds exactly if its demands are met. *)
Lemma table_holds_demands db t tab :
  db_tables db !! t = Some tab -> table_holds db t = forallb (met db t) (demands tab).
Proof.
  intros Ht. unfold table_holds, demands. rewrite Ht, !forallb_app, <- andb_assoc. f_equal; [|f_equal].
  - apply forallb_filter_map. intros [c d]. cbn. by destruct (col_nullable d).
  - by rewrite forallb_map.
  - apply forallb_filter_map. intros [n i]. cbn. unfold index_holds. cbn. by destruct (ix_unique i).
Qed.

(** A key over one column and a partial one over its values that are not NULL are the same. *)
Definition over_values (c : string) : Demand := UniqueOn [c] (Some (IS_NOT_NULL c)).
Definition same_demand (d d' : Demand) : bool :=
  bool_decide (d = d')
  || match d, d' with
     | Holds (Unique [c]), _ => bool_decide (d' = over_values c)
     | _, Holds (Unique [c]) => bool_decide (d = over_values c)
     | _, _ => false
     end.

Lemma omap_cons {A B} (f : A -> option B) x l :
  omap f (x :: l) = match f x with Some y => y :: omap f l | None => omap f l end.
Proof. done. Qed.

Lemma over_values_met db t c : met db t (over_values c) = met db t (Holds (Unique [c])).
Proof.
  assert (E : forall rows, omap (key [c]) (List.filter (fun r => is_true (eval r (IS_NOT_NULL c))) rows)
                = omap (key [c]) rows).
  { induction rows as [|r rows IH]; [done|]. rewrite (omap_cons _ r rows). cbn [List.filter].
    assert (Er : is_true (eval r (IS_NOT_NULL c)) = negb (is_none (r !! c))) by done.
    assert (Ek : key [c] r = (fun v => [v]) <$> r !! c) by (unfold key; cbn; by destruct (r !! c)).
    rewrite Er, Ek, <- IH. destruct (r !! c) eqn:Ev; cbn [is_none negb]; [|done].
    rewrite omap_cons, Ek. cbn. done. }
  unfold over_values, met, index_holds, constraint_holds, distinct_keys, indexed_rows.
  cbn [ix_unique ix_where ix_columns negb orb]. by rewrite E.
Qed.

Lemma same_demand_met db t d d' : same_demand d d' = true -> met db t d = met db t d'.
Proof.
  intros [->%bool_decide_eq_true|H]%orb_true_iff; [done|].
  destruct d as [| [ | [|c [|]] | | | ] |], d' as [| [ | [|c' [|]] | | | ] |]; try discriminate H;
    apply bool_decide_eq_true in H; rewrite ?H; first [injection H as ->|idtac];
    by rewrite <- over_values_met.
Qed.

Definition covers (l l' : list Demand) : bool := forallb (fun d => existsb (same_demand d) l') l.

Lemma covers_met db t l l' : covers l l' = true -> forallb (met db t) l' = true -> forallb (met db t) l = true.
Proof.
  unfold covers. rewrite !forallb_forall. intros Hc Hl d Hd.
  apply Hc in Hd as (d' & Hd' & Hs)%existsb_exists. rewrite (same_demand_met _ _ _ _ Hs). by apply Hl.
Qed.

Lemma covers_same db t l l' :
  covers l l' = true -> covers l' l = true -> forallb (met db t) l = forallb (met db t) l'.
Proof.
  intros H1 H2. apply eq_true_iff_eq. split; by apply covers_met.
Qed.

(** The same structure with other rows. *)
Definition with_rows (rows : string -> list Row) (db : Database) : Database :=
  MkDatabase (map_imap (fun t tab => Some (tab <| tab_rows := rows t |>)) (db_tables db))
    (db_extensions db).

Lemma with_rows_lookup rows db t :
  db_tables (with_rows rows db) !! t = (fun tab => tab <| tab_rows := rows t |>) <$> db_tables db !! t.
Proof. unfold with_rows. cbn. rewrite map_lookup_imap. by destruct (db_tables db !! t). Qed.

Lemma met_ext db db' t d : (forall t, rows_in db t = rows_in db' t) -> met db t d = met db' t d.
Proof.
  intros H. destruct d; cbn; unfold no_nulls, index_holds; rewrite <- ?H; try done.
  unfold constraint_holds. rewrite <- H. destruct k; try done. by rewrite <- H.
Qed.

Lemma all_met_ext db db' t l :
  (forall t, rows_in db t = rows_in db' t) -> forallb (met db t) l = forallb (met db' t) l.
Proof. intros H. induction l as [|d l IH]; [done|]. cbn. by rewrite IH, (met_ext db db' t d H). Qed.

Definition no_overlap : Constraint :=
  Exclude "staff_id" "starts_at" "ends_at"
    (AND (IN "status" ["confirmed"; "pending_payment"]) (IS_NOT_NULL "staff_id"))%string.
Definition extra (t : string) : list Demand := if String.eqb t "bookings" then [Holds no_overlap] else [].

Definition shape (tab : Table) : gmap string (sa.TypeEngine * bool) :=
  (fun d => (col_type d, col_nullable d)) <$> tab_columns tab.

Definition tables_agree (t : string) (tab tab' : Table) : bool :=
  covers (demands tab) (demands tab' ++ extra t) && covers (demands tab' ++ extra t) (demands tab)
  && bool_decide (shape tab = shape tab').
Definition schemas_agree (db db' : Database) : bool :=
  forallb (fun kt => match db_tables db' !! kt.1 with
                     | Some tab' => tables_agree kt.1 kt.2 tab'
                     | None => false
                     end) (map_to_list (db_tables db))
  && forallb (fun kt => negb (is_none (db_tables db !! kt.1))) (map_to_list (db_tables db')).

Lemma schemas_agree_tables db db' t :
  schemas_agree db db' = true ->
  match db_tables db !! t, db_tables db' !! t with
  | Some tab, Some tab' => tables_agree t tab tab' = true
  | None, None => True
  | _, _ => False
  end.
Proof.
  intros [H1 H2]%andb_true_iff. rewrite forallb_forall in H1, H2.
  destruct (db_tables db !! t) as [tab|] eqn:E.
  - specialize (H1 (t, tab) (proj1 (list_elem_of_In _ _) (proj2 (elem_of_map_to_list _ _ _) E))).
    cbn in H1. by destruct (db_tables db' !! t).
  - destruct (db_tables db' !! t) as [tab'|] eqn:E'; [|done].
    specialize (H2 (t, tab') (proj1 (list_elem_of_In _ _) (proj2 (elem_of_map_to_list _ _ _) E'))).
    cbn in H2. by rewrite E in H2.
Qed.

Lemma schemas_agree_holds db db' rows t :
  schemas_agree db db' = true ->
  table_holds (with_rows rows db) t
  = table_holds (with_rows rows db') t && forallb (met (with_rows rows db') t) (extra t).
Proof.
  intros Hag.
  assert (Hrows : forall t, rows_in (with_rows rows db) t = rows_in (with_rows rows db') t).
  { intros t'. unfold rows_in. rewrite !with_rows_lookup. pose proof (schemas_agree_tables _ _ t' Hag) as H.
    by destruct (db_tables db !! t'), (db_tables db' !! t'). }
  pose proof (schemas_agree_tables _ _ t Hag) as H.
  destruct (db_tables db !! t) as [tab|] eqn:E, (db_tables db' !! t) as [tab'|] eqn:E'; try done.
  - unfold tables_agree in H. apply andb_true_iff in H as [[H1 H2]%andb_true_iff _].
    rewrite (table_holds_demands (with_rows rows db) t (tab <| tab_rows := rows t |>))
      by (by rewrite with_rows_lookup, E).
    rewrite (table_holds_demands (with_rows rows db') t (tab' <| tab_rows := rows t |>))
      by (by rewrite with_rows_lookup, E').
    change (demands (tab <| tab_rows := rows t |>)) with (demands tab).
    change (demands (tab' <| tab_rows := rows t |>)) with (demands tab').
    rewrite <- forallb_app, (covers_same _ _ _ _ H1 H2). by apply all_met_ext.
  - assert (Hn : rows_in (with_rows rows db') t = []) by (unfold rows_in; by rewrite with_rows_lookup, E').
    unfold table_holds. rewrite !with_rows_lookup, E, E'. cbn. unfold extra.
    destruct (String.eqb t "bookings"); [|done]. cbn. unfold constraint_holds. by rewrite Hn.
Qed.

Definition models : Database :=
  match create_all metadata empty_database with Ok db => db | Raise _ => empty_database end.

Lemma models_created : create_all metadata empty_database = Ok models.
Proof.
  assert (H : match create_all metadata empty_database with Ok _ => true | Raise _ => false end = true)
    by (vm_compute; reflexivity).
  unfold models. by destruct (create_all metadata empty_database).
Qed.
Lemma head_agrees now : schemas_agree (head now) models = true.
Proof. vm_compute. reflexivity. Qed.
Lemma head_reached now : upgrade_head now versions fresh = Ok (MkDeployment (Some head_revision) (head now)).
Proof.
  assert (H : match upgrade_head now versions fresh with
              | Ok d => bool_decide (version_num d = Some head_revision)
              | Raise _ => false
              end = true) by (vm_compute; reflexivity).
  unfold head. destruct (upgrade_head now versions fresh) as [[v db]|]; [|done].
  apply bool_decide_eq_true in H. cbn in H. by rewrite H.
Qed.

Definition column_shape (db : Database) (t c : string) : option (sa.TypeEngine * bool) :=
  db_tables db !! t ≫= fun tab => shape tab !! c.

(** C35: the migrations build what the models declare.  Running every script of alembic/versions once,
    in their one order, on an empty database succeeds and ends at the head; the result has the
    tables of the models with the same columns, types and NOT NULLs, and accepts the same rows as
    the schema the models declare - keys, foreign keys, checks - except that it also excludes
    overlapping bookings of a staff member, which no model can express. *)
Theorem migrations_build_models now :
  Permutation (map revision (map fst (history now))) (map revision versions)
  /\ upgrade_head now versions fresh = Ok (MkDeployment (Some head_revision) (head now))
  /\ create_all metadata empty_database = Ok models
  /\ (forall t c, column_shape (head now) t c = column_shape models t c)
  /\ (forall rows t, table_holds (with_rows rows (head now)) t
                     = table_holds (with_rows rows models) t
                       && forallb (met (with_rows rows models) t) (extra t)).
Proof.
  split; [apply one_line|]. split; [apply head_reached|]. split; [apply models_created|]. split.
  - intros t c. unfold column_shape. pose proof (schemas_agree_tables _ _ t (head_agrees now)) as H.
    destruct (db_tables (head now) !! t), (db_tables models !! t); try done.
    apply andb_true_iff in H as [_ H%bool_decide_eq_true]. cbn. by rewrite H.
  - intros rows t. apply schemas_agree_holds, head_agrees.
Qed.

(** ** An example

    Two databases of a salon with two members of staff: one at the payment holds, before
    everything that came later, and one before the memberships. *)

Lemma erase_with_rows rows db : erase (with_rows rows db) = erase db.
Proof.
  unfold erase. cbn. f_equal. apply map_eq. intros t. rewrite !lookup_fmap, map_lookup_imap.
  by destruct (db_tables db !! t).
Qed.

Definition salon_rows (t : string) : list Row :=
  if String.eqb t "tenants" then
    [{["id" := IntV 1; "slug" := TextV "salon"; "name" := TextV "Salon"; "is_active" := BoolV true]}]
  else if String.eqb t "staff" then
    map (fun k => {["id" := IntV k; "tenant_id" := IntV 1; "business_id" := IntV 7; "name" := TextV "Eva";
                    "is_active" := BoolV true; "created_at" := TimeV 5]}) [1; 2]
  else [].

Definition step_of_history (i : nat) : Revision * Database :=
  nth i (history 0) (revision_648d963688dd, empty_database).
Definition salon_at (i : nat) : Database := with_rows salon_rows (step_of_history i).2.
Definition since_holds : list Revision :=
  match remaining versions (down_revision (step_of_history 37).1) with Some p => p | None => [] end.

Lemma in_history i : (i <? length (history 0))%nat = true -> In (step_of_history i) (history 0).
Proof. intros Hi. apply nth_In. by apply Nat.ltb_lt. Qed.
Lemma holds_in_history : In ((step_of_history 37).1, (step_of_history 37).2) (history 0).
Proof. rewrite <- surjective_pairing. apply in_history. vm_compute. reflexivity. Qed.
Lemma memberships_in_history : In ((step_of_history 39).1, (step_of_history 39).2) (history 0).
Proof. rewrite <- surjective_pairing. apply in_history. vm_compute. reflexivity. Qed.
Lemma holds_valid : valid (salon_at 37).
Proof. apply check_valid. vm_compute. reflexivity. Qed.
Lemma memberships_valid : valid (salon_at 39).
Proof. apply check_valid. vm_compute. reflexivity. Qed.
Lemma holds_remaining : remaining versions (down_revision (step_of_history 37).1) = Some since_holds.
Proof.
  assert (H : is_none (remaining versions (down_revision (step_of_history 37).1)) = false)
    by (vm_compute; reflexivity).
  unfold since_holds. by destruct (remaining versions _).
Qed.
Lemma nothing_dependent_since r : In r since_holds -> ~ In (revision r) data_dependent.
Proof.
  assert (H : forallb (fun r => negb (dependent r)) since_holds = true) by (vm_compute; reflexivity).
  rewrite forallb_forall in H. intros Hr Hd%dependent_in. apply H in Hr. by rewrite Hd in Hr.
Qed.
Lemma memberships_not_dependent : ~ In (revision (step_of_history 39).1) data_dependent.
Proof. rewrite <- dependent_in. vm_compute. discriminate. Qed.
Lemma last_revisions : map revision since_holds
  = ["p3010a2b3c4d5e"; "p3009b2c3d4e5f"; "sac003a2b3c4d5e6"; "sac009_staff_inv";
     "demo_user_flag_a1b2c3d4"; "p4001a2b3c4d5e"]%string.
Proof. vm_compute. reflexivity. Qed.

Lemma revision_roundtrip_witness :
  exists db1 db2,
    perform 0 (upgrade (step_of_history 39).1) (salon_at 39) = Ok db1 /\ valid db1
    /\ data_kept (salon_at 39) db1
    /\ perform 0 (downgrade (step_of_history 39).1) db1 = Ok db2
    /\ db_tables db2 = db_tables (salon_at 39).
Proof.
  pose proof (revision_roundtrip 0 _ _ (salon_at 39) memberships_in_history memberships_not_dependent
    (erase_with_rows _ _) memberships_valid) as Ht. exact Ht.
Defined.

Lemma deployment_keeps_data_witness :
  exists db',
    upgrade_head 0 versions (MkDeployment (down_revision (step_of_history 37).1) (salon_at 37))
      = Ok (MkDeployment (Some head_revision) db')
    /\ valid db' /\ data_kept (salon_at 37) db' /\ erase db' = erase (head 0).
Proof.
  pose proof (deployment_keeps_data 0 _ _ since_holds (salon_at 37) holds_in_history holds_remaining
    nothing_dependent_since (erase_with_rows _ _) holds_valid) as Ht. exact Ht.
Defined.
