(* ===== verification/StoredConstraints.v ===== *)
(** * StoredConstraints: the constraints of Orm.v are those of the migrations

    [Orm.violates] says which rows the database refuses.  Here every entity is stored as a
    row of its table - the columns that keys, checks and the exclusion constraint read - and
    the refusals are compared with the demands of the schema at the head of the history. *)

From S2P Require Import Prelude Py Effects Schema Orm Ddl DdlBehaviour Migrations Metadata.
From S2P Require Import MigrationBehaviour BookingMachine.

(** ** Rows *)

Definition store (cells : list (string * option Value)) : Row :=
  foldr (fun kv r => partial_alter (fun _ => kv.2) kv.1 r) ∅ cells.

Lemma lookup_store cells c :
  store cells !! c = match find (fun kv => String.eqb kv.1 c) cells with Some kv => kv.2 | None => None end.
Proof.
  induction cells as [|[c' v] cells IH]; [done|]. cbn [store foldr find fst snd].
  destruct (String.eqb_spec c' c) as [->|Hne].
  - by rewrite lookup_partial_alter_eq.
  - by rewrite lookup_partial_alter_ne.
Qed.

Definition int (n : Z) : option Value := Some (IntV n).
Definition text (s : string) : option Value := Some (TextV s).
Definition time (t : Z) : option Value := Some (TimeV t).

(** An entity as a row of a table. *)
Class Stored (A : Type) : Type := {
  stored_in : string;
  cells : A -> list (string * option Value) }.

Definition booking_status_text (s : BookingStatus) : string :=
  match s with CONFIRMED => "confirmed" | CANCELLED => "cancelled" | PENDING_PAYMENT => "pending_payment" end.
Definition role_text (r : MembershipRole) : string :=
  match r with OWNER => "owner" | ADMIN => "admin" | STAFF => "staff" end.
Definition status_text (s : MembershipStatus) : string :=
  match s with
  | INVITED => "invited" | ACTIVE => "active" | SUSPENDED => "suspended" | REVOKED => "revoked"
  end.

#[export] Instance Stored_Tenant : Stored Tenant := {|
  stored_in := "tenants"; cells r := [("id", int (ten_id r)); ("slug", text (ten_slug r))] |}.
#[export] Instance Stored_User : Stored User := {|
  stored_in := "users";
  cells r := [("id", int (usr_id r)); ("tenant_id", int (usr_tenant_id r)); ("email", text (usr_email r))] |}.
#[export] Instance Stored_BusinessMembership : Stored BusinessMembership := {|
  stored_in := "business_memberships";
  cells r := [("id", int (mem_id r)); ("business_id", int (mem_business_id r));
              ("user_id", int (mem_user_id r)); ("staff_id", IntV <$> mem_staff_id r);
              ("role", text (role_text (mem_role r))); ("status", text (status_text (mem_status r)))] |}.
#[export] Instance Stored_Business : Stored Business := {|
  stored_in := "businesses"; cells r := [("id", int (biz_id r)); ("tenant_id", int (biz_tenant_id r))] |}.
#[export] Instance Stored_Staff : Stored Staff := {|
  stored_in := "staff"; cells r := [("id", int (stf_id r)); ("business_id", int (stf_business_id r))] |}.
#[export] Instance Stored_Service : Stored Service := {|
  stored_in := "services"; cells r := [("id", int (svc_id r))] |}.
#[export] Instance Stored_Customer : Stored Customer := {|
  stored_in := "customers";
  cells r := [("id", int (cus_id r)); ("business_id", int (cus_business_id r));
              ("phone_normalized", text (cus_phone_normalized r))] |}.
#[export] Instance Stored_Client : Stored Client := {|
  stored_in := "clients";
  cells r := [("id", int (cli_id r)); ("business_id", int (cli_business_id r));
              ("customer_id", IntV <$> cli_customer_id r)] |}.
#[export] Instance Stored_WorkingHours : Stored WorkingHours := {|
  stored_in := "working_hours"; cells r := [("id", int (wh_id r))] |}.
#[export] Instance Stored_AvailabilityException : Stored AvailabilityException := {|
  stored_in := "availability_exceptions"; cells r := [("id", int (exc_id r))] |}.
#[export] Instance Stored_RecurringStaffBlock : Stored RecurringStaffBlock := {|
  stored_in := "recurring_staff_blocks"; cells r := [("id", int (blk_id r))] |}.
#[export] Instance Stored_BusinessTransferHours : Stored BusinessTransferHours := {|
  stored_in := "business_transfer_hours";
  cells r := [("id", int (bth_id r)); ("business_id", int (bth_business_id r));
              ("day_of_week", int (bth_day_of_week r)); ("start_time", time (bth_start_time r))] |}.
#[export] Instance Stored_Booking : Stored Booking := {|
  stored_in := "bookings";
  cells r := [("id", int (bk_id r)); ("staff_id", IntV <$> bk_staff_id r);
              ("starts_at", time (bk_starts_at r)); ("ends_at", time (bk_ends_at r));
              ("status", text (booking_status_text (bk_status r)))] |}.
#[export] Instance Stored_BookingLineItem : Stored BookingLineItem := {|
  stored_in := "booking_line_items";
  cells r := [("id", int (li_id r)); ("booking_id", int (li_booking_id r)); ("position", int (li_position r))] |}.
#[export] Instance Stored_BookingPayment : Stored BookingPayment := {|
  stored_in := "booking_payments"; cells r := [("id", int (pay_id r)); ("booking_id", int (pay_booking_id r))] |}.
#[export] Instance Stored_WaitlistEntry : Stored WaitlistEntry := {|
  stored_in := "waitlist_entries"; cells r := [("id", int (wl_id r))] |}.
#[export] Instance Stored_NotificationOutbox : Stored NotificationOutbox := {|
  stored_in := "notification_outbox"; cells r := [("id", int (ntf_id r))] |}.
#[export] Instance Stored_CalendarEvent : Stored CalendarEvent := {|
  stored_in := "calendar_events"; cells r := [("id", int (cal_id r)); ("booking_id", int (cal_booking_id r))] |}.
#[export] Instance Stored_CalendarIntegration : Stored CalendarIntegration := {|
  stored_in := "calendar_integrations";
  cells r := [("id", int (ci_id r)); ("business_id", int (ci_business_id r));
              ("staff_id", IntV <$> ci_staff_id r)] |}.
#[export] Instance Stored_AuditLog : Stored AuditLog := {|
  stored_in := "audit_logs"; cells r := [("id", int (aud_id r))] |}.
#[export] Instance Stored_VoiceSession : Stored VoiceSession := {|
  stored_in := "voice_sessions"; cells r := [("id", int (vs_id r)); ("call_sid", TextV <$> vs_call_sid r)] |}.
#[export] Instance Stored_PasswordResetToken : Stored PasswordResetToken := {|
  stored_in := "password_reset_tokens";
  cells r := [("id", int (prt_id r)); ("token_hash", text (prt_token_hash r))] |}.
#[export] Instance Stored_PasswordResetJobCompletion : Stored PasswordResetJobCompletion := {|
  stored_in := "password_reset_job_completions";
  cells r := [("id", int (prc_id r)); ("job_id", text (prc_job_id r))] |}.
#[export] Instance Stored_IdempotencyRecord : Stored IdempotencyRecord := {|
  stored_in := "idempotency_records";
  cells r := [("id", int (idm_id r)); ("scope_key", text (idm_scope_key r))] |}.
#[export] Instance Stored_WebhookEvent : Stored WebhookEvent := {|
  stored_in := "webhook_events";
  cells r := [("id", int (whk_id r)); ("provider", text (whk_provider r)); ("event_id", text (whk_event_id r))] |}.
#[export] Instance Stored_UploadedFile : Stored UploadedFile := {|
  stored_in := "uploaded_files"; cells r := [("id", int (upl_id r)); ("object_key", text (upl_object_key r))] |}.
#[export] Instance Stored_OwnerLead : Stored OwnerLead := {|
  stored_in := "owner_leads"; cells r := [("id", int (lead_id r))] |}.

(** ** The demands of the head *)

Definition relates_rows (d : Demand) : bool :=
  match d with Holds (Unique _) | Holds (Exclude _ _ _ _) | UniqueOn _ _ => true | _ => false end.
Definition checks_row (d : Demand) : bool := match d with Holds (Check_ _) => true | _ => false end.

Definition demands_at (now : Z) (t : string) (p : Demand -> bool) : list Demand :=
  match db_tables (head now) !! t with Some tab => List.filter p (demands tab) | None => [] end.

(** The table at the head, with just these rows, meets the demands. *)
Definition accepts (now : Z) (t : string) (p : Demand -> bool) (rows : list Row) : bool :=
  forallb (met (with_rows (fun _ => rows) (head now)) t) (demands_at now t p).

Definition same_key (cols : list string) (r r' : Row) : bool :=
  forallb (fun c => match r !! c, r' !! c with
                    | Some v, Some v' => bool_decide (v = v')
                    | _, _ => false
                    end) cols.

Definition pair_meets (r r' : Row) (d : Demand) : bool :=
  match d with
  | Holds (Unique cols) | UniqueOn cols None => negb (same_key cols r r')
  | UniqueOn cols (Some e) => negb (is_true (eval r e) && is_true (eval r' e) && same_key cols r r')
  | Holds (Exclude equal starts ends e) => negb (rows_exclude equal starts ends e r r')
  | _ => true
  end.
Definition row_meets (r : Row) (d : Demand) : bool :=
  match d with Holds (Check_ e) => not_false (eval r e) | _ => true end.

Lemma same_key_spec cols r r' :
  same_key cols r r' = match key cols r, key cols r' with Some k, Some k' => bool_decide (k = k') | _, _ => false end.
Proof.
  unfold key, same_key. induction cols as [|c cols IH]; [done|]. cbn [forallb]. rewrite IH. cbn.
  destruct (r !! c) as [v|], (r' !! c) as [v'|]; cbn; try done.
  - destruct (mapM _ cols) as [k|]; cbn; [|apply andb_false_r].
    destruct (mapM (fun c => r' !! c) cols) as [k'|]; cbn; [|apply andb_false_r].
    destruct (decide (v = v')) as [->|Hv].
    + rewrite bool_decide_true by done. cbn. apply bool_decide_ext. split; [congruence | by intros [= ->]].
    + rewrite bool_decide_false by done. cbn. symmetry. apply bool_decide_eq_false. congruence.
  - by destruct (mapM _ cols).
Qed.

Lemma distinct_pair cols r r' : distinct_keys cols [r; r'] = negb (same_key cols r r').
Proof.
  rewrite same_key_spec. unfold distinct_keys. rewrite !omap_cons.
  destruct (key cols r) as [k|], (key cols r') as [k'|]; cbn;
    try done; try (by apply bool_decide_eq_true; first [apply NoDup_singleton | constructor]).
  destruct (decide (k = k')) as [->|Hk].
  - rewrite (bool_decide_true (k' = k')) by done. cbn. apply bool_decide_eq_false.
    intros [Hin _]%NoDup_cons. apply Hin. by left.
  - rewrite (bool_decide_false (k = k')) by done. cbn. apply bool_decide_eq_true, NoDup_cons.
    split; [by rewrite list_elem_of_singleton | apply NoDup_singleton].
Qed.

Lemma distinct_one cols r : distinct_keys cols [r] = true.
Proof.
  unfold distinct_keys. rewrite omap_cons. apply bool_decide_eq_true.
  destruct (key cols r); cbn; first [apply NoDup_singleton | constructor].
Qed.

Lemma forallb_demands_at now t p f g :
  (forall d, p d = true -> f d = g d) ->
  forallb f (demands_at now t p) = forallb g (demands_at now t p).
Proof.
  intros H. unfold demands_at. destruct (_ !! t) as [tab|]; [|done].
  induction (demands tab) as [|d l IH]; [done|]. cbn. destruct (p d) eqn:E; [|done]. cbn. by rewrite IH, H.
Qed.

Section Head.
Context (now : Z) (t : string).
Hypothesis exists_t : is_none (db_tables (head now) !! t) = false.

Lemma head_rows rows : rows_in (with_rows (fun _ => rows) (head now)) t = rows.
Proof. unfold rows_in. rewrite with_rows_lookup. by destruct (db_tables (head now) !! t). Qed.

Lemma met_pair r r' d :
  relates_rows d = true -> met (with_rows (fun _ => [r; r']) (head now)) t d = pair_meets r r' d.
Proof.
  destruct d as [c|[| | | |]|cols e]; intros Hd; try discriminate Hd; cbn [met pair_meets].
  - unfold constraint_holds. rewrite head_rows. apply distinct_pair.
  - unfold constraint_holds. rewrite head_rows. cbn. by rewrite !andb_true_r.
  - unfold index_holds, indexed_rows. rewrite head_rows. cbn [ix_unique ix_columns ix_where negb orb].
    destruct e as [e|]; [|apply distinct_pair]. cbn [List.filter].
    destruct (is_true (eval r e)), (is_true (eval r' e)); cbn [andb negb];
      [apply distinct_pair | apply distinct_one | apply distinct_one | done].
Qed.

Lemma met_row r d :
  checks_row d = true -> met (with_rows (fun _ => [r]) (head now)) t d = row_meets r d.
Proof.
  destruct d as [c|[| | | |]|cols e]; intros Hd; try discriminate Hd; cbn [met row_meets].
  unfold constraint_holds. rewrite head_rows. cbn. by rewrite andb_true_r.
Qed.

Lemma accepts_pair r r' : accepts now t relates_rows [r; r'] = forallb (pair_meets r r') (demands_at now t relates_rows).
Proof. apply forallb_demands_at, met_pair. Qed.
Lemma accepts_row r : accepts now t checks_row [r] = forallb (row_meets r) (demands_at now t checks_row).
Proof. apply forallb_demands_at, met_row. Qed.
End Head.

(** ** Orm.v agrees *)

(** A row is refused by the model exactly when the checks refuse it or, next to another row, a key
    or the exclusion constraint does. *)
Definition constraints_agree (now : Z) (A : Type) `{Entity A, Stored A} : Prop :=
  forall (db : DB) (a : A),
    is_none (violates db a)
    = accepts now stored_in checks_row [store (cells a)]
      && forallb (fun b => (pk b =? pk a)
                           || accepts now stored_in relates_rows [store (cells b); store (cells a)])
           (rows_of (table db)).

Lemma eq_int a b : bool_decide (IntV a = IntV b) = (a =? b).
Proof. destruct (Z.eqb_spec a b) as [->|H]; [by rewrite bool_decide_true | apply bool_decide_eq_false; congruence]. Qed.
Lemma eq_text a b : bool_decide (TextV a = TextV b) = String.eqb a b.
Proof. destruct (String.eqb_spec a b) as [->|H]; [by rewrite bool_decide_true | apply bool_decide_eq_false; congruence]. Qed.
Lemma eq_time a b : bool_decide (TimeV a = TimeV b) = (a =? b).
Proof. destruct (Z.eqb_spec a b) as [->|H]; [by rewrite bool_decide_true | apply bool_decide_eq_false; congruence]. Qed.

Lemma none_existsb {A} (f : A -> bool) l (name : string) :
  is_none (if existsb f l then Some name else None) = forallb (fun b => negb (f b)) l.
Proof. induction l as [|b l IH]; [done|]. cbn. by destruct (f b). Qed.

Lemma forallb_pointwise {A} (f g : A -> bool) l : (forall b, f b = g b) -> forallb f l = forallb g l.
Proof. intros H. induction l as [|b l IH]; [done|]. cbn. by rewrite IH, H. Qed.

Lemma forallb_constant {A} (l : list A) : forallb (fun _ => true) l = true.
Proof. by induction l. Qed.

Lemma agree_intro now A `{Entity A, Stored A} D C :
  is_none (db_tables (head now) !! stored_in) = false ->
  demands_at now stored_in relates_rows = D -> demands_at now stored_in checks_row = C ->
  (forall (db : DB) (a : A),
     is_none (violates db a)
     = forallb (row_meets (store (cells a))) C
       && forallb (fun b => (pk b =? pk a) || forallb (pair_meets (store (cells b)) (store (cells a))) D)
            (rows_of (table db))) ->
  constraints_agree now A.
Proof.
  intros Hex HD HC Hag db a. rewrite Hag. apply (f_equal2 andb).
  - by rewrite accepts_row, HC.
  - apply forallb_pointwise. intros b. by rewrite accepts_pair, HD.
Qed.

(** From the goal of [agree_intro] to an equation between conditions on two rows. *)
Ltac agree :=
  eapply agree_intro;
  [vm_compute; reflexivity | vm_compute; reflexivity | vm_compute; reflexivity | intros db a];
  unfold violates, pk, table, cells.
Ltac read_cells :=
  unfold same_key, rows_exclude, row_meets; cbn [forallb eval]; rewrite ?lookup_store;
  cbn -[Z.eqb bool_decide ranges_overlap sql_eqb];
  rewrite ?eq_int, ?eq_text, ?eq_time; cbn -[Z.eqb ranges_overlap sql_eqb bool_decide].
Ltac by_atoms :=
  repeat match goal with
  | |- context [Z.eqb ?x ?y] => destruct (Z.eqb x y)
  | |- context [String.eqb ?x ?y] => destruct (String.eqb x y)
  | |- context [ranges_overlap ?s ?e ?s' ?e'] => destruct (ranges_overlap s e s' e')
  end; try reflexivity.
Ltac agree_on_pairs :=
  rewrite ?none_existsb; cbn [forallb andb]; apply forallb_pointwise; intros b;
  cbn [forallb pair_meets]; read_cells; by_atoms.

Ltac agree_freely :=
  cbn [forallb andb]; symmetry; apply forallb_forall; intros b _;
  cbn [forallb pair_meets]; read_cells; by_atoms.

Lemma Business_free now : constraints_agree now Business.
Proof. agree. cbn [Entity_Business Stored_Business]. agree_freely. Qed.
Lemma Staff_free now : constraints_agree now Staff.
Proof. agree. cbn [Entity_Staff Stored_Staff]. agree_freely. Qed.
Lemma Service_free now : constraints_agree now Service.
Proof. agree. cbn [Entity_Service Stored_Service]. agree_freely. Qed.
Lemma WorkingHours_free now : constraints_agree now WorkingHours.
Proof. agree. cbn [Entity_WorkingHours Stored_WorkingHours]. agree_freely. Qed.
Lemma AvailabilityException_free now : constraints_agree now AvailabilityException.
Proof. agree. cbn [Entity_AvailabilityException Stored_AvailabilityException]. agree_freely. Qed.
Lemma RecurringStaffBlock_free now : constraints_agree now RecurringStaffBlock.
Proof. agree. cbn [Entity_RecurringStaffBlock Stored_RecurringStaffBlock]. agree_freely. Qed.
Lemma WaitlistEntry_free now : constraints_agree now WaitlistEntry.
Proof. agree. cbn [Entity_WaitlistEntry Stored_WaitlistEntry]. agree_freely. Qed.
Lemma NotificationOutbox_free now : constraints_agree now NotificationOutbox.
Proof. agree. cbn [Entity_NotificationOutbox Stored_NotificationOutbox]. agree_freely. Qed.
Lemma AuditLog_free now : constraints_agree now AuditLog.
Proof. agree. cbn [Entity_AuditLog Stored_AuditLog]. agree_freely. Qed.
Lemma OwnerLead_free now : constraints_agree now OwnerLead.
Proof. agree. cbn [Entity_OwnerLead Stored_OwnerLead]. agree_freely. Qed.
Lemma Tenant_keyed now : constraints_agree now Tenant.
Proof. agree. cbn [Entity_Tenant Stored_Tenant]. unfold tenant_violation, taken. agree_on_pairs. Qed.
Lemma User_keyed now : constraints_agree now User.
Proof. agree. cbn [Entity_User Stored_User]. unfold user_violation, taken. agree_on_pairs. Qed.
Lemma Customer_keyed now : constraints_agree now Customer.
Proof. agree. cbn [Entity_Customer Stored_Customer]. unfold customer_violation, taken. agree_on_pairs. Qed.
Lemma BusinessTransferHours_keyed now : constraints_agree now BusinessTransferHours.
Proof. agree. cbn [Entity_BusinessTransferHours Stored_BusinessTransferHours]. unfold transfer_hours_violation, taken. agree_on_pairs. Qed.
Lemma BookingLineItem_keyed now : constraints_agree now BookingLineItem.
Proof. agree. cbn [Entity_BookingLineItem Stored_BookingLineItem]. unfold line_item_violation, taken. agree_on_pairs. Qed.
Lemma BookingPayment_keyed now : constraints_agree now BookingPayment.
Proof. agree. cbn [Entity_BookingPayment Stored_BookingPayment]. unfold payment_violation, taken. agree_on_pairs. Qed.
Lemma CalendarEvent_keyed now : constraints_agree now CalendarEvent.
Proof. agree. cbn [Entity_CalendarEvent Stored_CalendarEvent]. unfold calendar_event_violation, taken. agree_on_pairs. Qed.
Lemma PasswordResetToken_keyed now : constraints_agree now PasswordResetToken.
Proof. agree. cbn [Entity_PasswordResetToken Stored_PasswordResetToken]. unfold reset_token_violation, taken. agree_on_pairs. Qed.
Lemma PasswordResetJobCompletion_keyed now : constraints_agree now PasswordResetJobCompletion.
Proof. agree. cbn [Entity_PasswordResetJobCompletion Stored_PasswordResetJobCompletion]. unfold completion_violation, taken. agree_on_pairs. Qed.
Lemma IdempotencyRecord_keyed now : constraints_agree now IdempotencyRecord.
Proof. agree. cbn [Entity_IdempotencyRecord Stored_IdempotencyRecord]. unfold idempotency_violation, taken. agree_on_pairs. Qed.
Lemma WebhookEvent_keyed now : constraints_agree now WebhookEvent.
Proof. agree. cbn [Entity_WebhookEvent Stored_WebhookEvent]. unfold webhook_event_violation, taken. agree_on_pairs. Qed.
Lemma UploadedFile_keyed now : constraints_agree now UploadedFile.
Proof. agree. cbn [Entity_UploadedFile Stored_UploadedFile]. unfold uploaded_file_violation, taken. agree_on_pairs. Qed.
Ltac for_each_other :=
  rewrite ?none_existsb; cbn [forallb andb]; apply forallb_pointwise; intros b; cbn [forallb pair_meets].

Lemma Client_keyed now : constraints_agree now Client.
Proof.
  agree. cbn [Entity_Client Stored_Client]. unfold client_violation. for_each_other.
  destruct (cli_customer_id a), (cli_customer_id b); read_cells; cbn [sql_eqb]; by_atoms.
Qed.

Lemma VoiceSession_keyed now : constraints_agree now VoiceSession.
Proof.
  agree. cbn [Entity_VoiceSession Stored_VoiceSession]. unfold voice_session_violation, taken.
  destruct (vs_call_sid a) as [sid|].
  - for_each_other. destruct (vs_call_sid b); read_cells; by_atoms.
  - cbn [is_none forallb andb]. symmetry. apply forallb_forall. intros b _. cbn [forallb pair_meets].
    destruct (vs_call_sid b); read_cells; by_atoms.
Qed.

Lemma CalendarIntegration_keyed now : constraints_agree now CalendarIntegration.
Proof.
  agree. cbn [Entity_CalendarIntegration Stored_CalendarIntegration].
  unfold calendar_integration_violation, taken.
  destruct (ci_staff_id a) as [s|]; for_each_other;
    destruct (ci_staff_id b); read_cells; cbn [sql_eqb]; by_atoms.
Qed.

Lemma Booking_excluded now : constraints_agree now Booking.
Proof.
  agree. cbn [Entity_Booking Stored_Booking]. unfold booking_violation. for_each_other.
  unfold bookings_exclude. rewrite (ranges_overlap_sym (bk_starts_at a)).
  destruct (bk_staff_id a), (bk_staff_id b), (bk_status a), (bk_status b); read_cells; cbn [sql_eqb]; by_atoms.
Qed.

Lemma none_of_two {A} (f g : A -> bool) (l : list A) (name : string) (o : option string) :
  is_none o = forallb (fun b => negb (g b)) l ->
  is_none (match (if existsb f l then Some name else None) with Some c => Some c | None => o end)
  = forallb (fun b => negb (f b) && negb (g b)) l.
Proof.
  intros Ho. transitivity (forallb (fun b => negb (f b)) l && is_none o).
  - rewrite <- (none_existsb f l name). by destruct (existsb f l).
  - rewrite Ho. clear. induction l as [|b l IH]; [done|]. cbn. rewrite <- IH. by destruct (f b), (g b); cbn; rewrite ?andb_false_r.
Qed.

Lemma BusinessMembership_keyed now : constraints_agree now BusinessMembership.
Proof.
  agree. cbn [Entity_BusinessMembership Stored_BusinessMembership]. unfold membership_violation, taken.
  destruct (bool_decide (mem_role a = STAFF) && is_none (mem_staff_id a)) eqn:Echeck.
  { apply andb_true_iff in Echeck as [->%bool_decide_eq_true Hs]. destruct (mem_staff_id a); [done|].
    destruct (mem_status a); cbn [forallb]; read_cells; reflexivity. }
  assert (Hrow : forallb (row_meets (store (cells a)))
    [Holds (Check_ (OR (NE "role" "staff") (IS_NOT_NULL "staff_id")));
     Holds (Check_ (IN "status" ["invited"; "active"; "suspended"; "revoked"]));
     Holds (Check_ (IN "role" ["owner"; "admin"; "staff"]))] = true).
  { cbn [cells Stored_BusinessMembership forallb].
    destruct (mem_role a), (mem_staff_id a), (mem_status a); read_cells; try reflexivity;
      by rewrite bool_decide_true in Echeck. }
  cbn [cells Stored_BusinessMembership] in Hrow. rewrite Hrow. clear Hrow. cbn [andb].
  rewrite (none_of_two _ (fun m => match mem_staff_id a, mem_status a with
                                   | Some s, ACTIVE =>
                                       negb (mem_id m =? mem_id a) && (mem_business_id m =? mem_business_id a)
                                       && sql_eqb (mem_staff_id m) s && bool_decide (mem_status m = ACTIVE)
                                   | _, _ => false
                                   end)).
  - apply forallb_pointwise. intros b. cbn [forallb pair_meets].
    destruct (mem_staff_id a), (mem_staff_id b), (mem_status a), (mem_status b); read_cells; cbn [sql_eqb];
      by_atoms.
  - destruct (mem_staff_id a); [|by rewrite forallb_constant].
    destruct (mem_status a); try (by rewrite forallb_constant). apply none_existsb.
Qed.

(** C38: the model of the database refuses the rows the deployed database refuses.  For each of the 27
    tables, a row is rejected by [Orm.violates] - as the services meet it when they flush - exactly
    when the keys, the partial unique indexes, the checks and the exclusion constraint that the
    migrations leave at the head reject it next to the rows that are there. *)
Theorem constraints_are_migrated now :
  constraints_agree now Tenant /\ constraints_agree now User /\ constraints_agree now BusinessMembership /\
  constraints_agree now Business /\ constraints_agree now Staff /\ constraints_agree now Service /\
  constraints_agree now Customer /\ constraints_agree now Client /\ constraints_agree now WorkingHours /\
  constraints_agree now AvailabilityException /\ constraints_agree now RecurringStaffBlock /\ constraints_agree now BusinessTransferHours /\
  constraints_agree now Booking /\ constraints_agree now BookingLineItem /\ constraints_agree now BookingPayment /\
  constraints_agree now WaitlistEntry /\ constraints_agree now NotificationOutbox /\ constraints_agree now CalendarEvent /\
  constraints_agree now CalendarIntegration /\ constraints_agree now AuditLog /\ constraints_agree now VoiceSession /\
  constraints_agree now PasswordResetToken /\ constraints_agree now PasswordResetJobCompletion /\ constraints_agree now IdempotencyRecord /\
  constraints_agree now WebhookEvent /\ constraints_agree now UploadedFile /\ constraints_agree now OwnerLead.
Proof.
  split; [exact (Tenant_keyed now)|].
  split; [exact (User_keyed now)|].
  split; [exact (BusinessMembership_keyed now)|].
  split; [exact (Business_free now)|].
  split; [exact (Staff_free now)|].
  split; [exact (Service_free now)|].
  split; [exact (Customer_keyed now)|].
  split; [exact (Client_keyed now)|].
  split; [exact (WorkingHours_free now)|].
  split; [exact (AvailabilityException_free now)|].
  split; [exact (RecurringStaffBlock_free now)|].
  split; [exact (BusinessTransferHours_keyed now)|].
  split; [exact (Booking_excluded now)|].
  split; [exact (BookingLineItem_keyed now)|].
  split; [exact (BookingPayment_keyed now)|].
  split; [exact (WaitlistEntry_free now)|].
  split; [exact (NotificationOutbox_free now)|].
  split; [exact (CalendarEvent_keyed now)|].
  split; [exact (CalendarIntegration_keyed now)|].
  split; [exact (AuditLog_free now)|].
  split; [exact (VoiceSession_keyed now)|].
  split; [exact (PasswordResetToken_keyed now)|].
  split; [exact (PasswordResetJobCompletion_keyed now)|].
  split; [exact (IdempotencyRecord_keyed now)|].
  split; [exact (WebhookEvent_keyed now)|].
  split; [exact (UploadedFile_keyed now)|].
  exact (OwnerLead_free now).
Qed.
