(* ===== verification/Routes.v ===== *)
(** * Routes: the endpoints of a business

    app/api/routes/ bookings.py, businesses.py, services.py, staff.py, clients.py,
    customers.py, working_hours.py, availability.py, availability_exceptions.py,
    recurring_staff_blocks.py, business_transfer_hours.py, ivr.py, onboarding.py,
    owner_leads.py and admin.py.  A handler takes the user that [get_current_user] found, and
    the members of the validated body; its dependencies run in the order of FastAPI: those of
    the router, those of the decorator, those of the parameters. *)

From S2P Require Import Prelude Py Effects Schema Settings Orm AuditTrail Directory Schedule JobQueue.
From S2P Require Import Tenancy Users RateLimit Auth Availability Booking IvrPrompts Ivr Onboarding.

Section Routes.
Context `{Config}.

(** ** The dependencies *)

(** The router's guard, the decorator's guard and the role that a changing endpoint of a business
    asks for. *)
Definition admin_write {A} (current_user : User) (business_id : Z) (handler : PyM A) : PyM A :=
  require_demo_business_access business_id current_user ;;;
  require_non_demo_user current_user ;;;
  require_business_role ADMIN business_id current_user ;;;
  handler.

(** The same with the tenant-wide role of the user. *)
Definition role_write {A} (current_user : User) (business_id : Z) (handler : PyM A) : PyM A :=
  require_demo_business_access business_id current_user ;;;
  require_non_demo_user current_user ;;;
  require_role "admin" current_user ;;;
  handler.

(** Endpoints outside the router of a business. *)
Definition tenant_write {A} (current_user : User) (handler : PyM A) : PyM A :=
  require_non_demo_user current_user ;;;
  require_role "admin" current_user ;;;
  handler.

Definition business_read {A} (current_user : User) (business_id : Z) (handler : PyM A) : PyM A :=
  require_demo_business_access business_id current_user ;;;
  handler.

(** [skip = (page - 1) * size] *)
Definition skip_of (page_number size : Z) : Z := (page_number - 1) * size.

(** ** bookings.py *)

Definition create_booking_endpoint (current_user : User)
    (business_id customer_id service_id : Z) (staff_id : option Z) (starts_at : Z) (source : string)
    : PyM Booking :=
  admin_write current_user business_id
    (create_booking (usr_tenant_id current_user) business_id customer_id service_id staff_id
       starts_at source (Some (usr_id current_user)) false None).

Definition override_create_booking_endpoint (current_user : User)
    (business_id customer_id service_id : Z) (staff_id : option Z) (starts_at : Z) (source : string)
    (reason : string) : PyM Booking :=
  admin_write current_user business_id
    (create_booking (usr_tenant_id current_user) business_id customer_id service_id staff_id
       starts_at source (Some (usr_id current_user)) true (Some reason)).

Definition list_bookings_endpoint (current_user : User) (business_id : Z)
    (status_filter : option BookingStatus) (staff_id : option Z) (page_number size : Z)
    : PyM (list Booking) :=
  business_read current_user business_id
    (list_bookings business_id (usr_tenant_id current_user) status_filter staff_id
       (skip_of page_number size) size).

Definition get_booking_endpoint (current_user : User) (business_id booking_id : Z) : PyM Booking :=
  business_read current_user business_id
    (require_booking_in_business booking_id business_id (usr_tenant_id current_user)).

Definition cancel_booking_endpoint (current_user : User) (business_id booking_id : Z)
    (reason : option string) : PyM Booking :=
  admin_write current_user business_id
    (cancel_booking booking_id business_id (usr_tenant_id current_user) reason
       (Some (usr_id current_user)) false).

Definition override_cancel_booking_endpoint (current_user : User) (business_id booking_id : Z)
    (reason : string) : PyM Booking :=
  admin_write current_user business_id
    (cancel_booking booking_id business_id (usr_tenant_id current_user) (Some reason)
       (Some (usr_id current_user)) true).

(** The decorator has no guard against the demo user. *)
Definition refund_booking_payment_endpoint (current_user : User) (business_id booking_id : Z)
    (reason : option string) : PyM BookingPayment :=
  require_demo_business_access business_id current_user ;;;
  require_business_role ADMIN business_id current_user ;;;
  refund_booking_payment booking_id business_id (usr_tenant_id current_user)
    (Some (usr_id current_user)) reason.

Definition reschedule_booking_endpoint (current_user : User) (business_id booking_id : Z)
    (new_starts_at : Z) (reason : option string) : PyM Booking :=
  admin_write current_user business_id
    (reschedule_booking booking_id business_id (usr_tenant_id current_user) new_starts_at reason
       (Some (usr_id current_user)) SOURCE_API).

(** ** businesses.py *)

Definition create_business_endpoint (current_user : User) (name timezone : string)
    (f : BusinessFields) : PyM Business :=
  tenant_write current_user (create_business (usr_tenant_id current_user) name timezone f).

Definition list_businesses_endpoint (current_user : User) (include_inactive : bool)
    (page_number size : Z) : PyM (list Business) :=
  list_businesses (usr_tenant_id current_user) include_inactive (skip_of page_number size) size
    (usr_is_demo_user current_user).

Definition get_business_endpoint (current_user : User) (business_id : Z) : PyM Business :=
  business_read current_user business_id (require_business business_id (usr_tenant_id current_user)).

Definition update_business_endpoint (current_user : User) (business_id : Z) (u : BusinessUpdate)
    : PyM Business :=
  tenant_write current_user (update_business business_id (usr_tenant_id current_user) u).

(** ** services.py *)

Definition create_service_endpoint (current_user : User) (business_id : Z) (name : string)
    (duration_minutes : Z) (price : option Z) (currency : option string) (deposit_required : bool)
    (deposit : option Z) : PyM Service :=
  admin_write current_user business_id
    (create_service (usr_tenant_id current_user) business_id name duration_minutes price currency
       deposit_required deposit).

Definition list_services_endpoint (current_user : User) (business_id : Z) (include_inactive : bool)
    (page_number size : Z) : PyM (list Service) :=
  business_read current_user business_id
    (list_services business_id (usr_tenant_id current_user) include_inactive
       (skip_of page_number size) size).

Definition get_service_endpoint (current_user : User) (business_id service_id : Z) : PyM Service :=
  business_read current_user business_id
    (require_service_in_business service_id business_id (usr_tenant_id current_user)).

Definition delete_service_endpoint (current_user : User) (business_id service_id : Z) : PyM unit :=
  admin_write current_user business_id
    (delete_service service_id (usr_tenant_id current_user) business_id).

Definition update_service_endpoint (current_user : User) (business_id service_id : Z)
    (u : ServiceUpdate) : PyM Service :=
  admin_write current_user business_id
    (update_service service_id business_id (usr_tenant_id current_user) u).

(** ** staff.py *)

Definition create_staff_endpoint (current_user : User) (business_id : Z) (name : string)
    (phone : option string) : PyM Staff :=
  admin_write current_user business_id
    (create_staff (usr_tenant_id current_user) business_id name phone).

Definition list_staff_endpoint (current_user : User) (business_id : Z) (include_inactive : bool)
    (page_number size : Z) : PyM (list Staff) :=
  business_read current_user business_id
    (list_staff business_id (usr_tenant_id current_user) include_inactive
       (skip_of page_number size) size).

Definition get_staff_endpoint (current_user : User) (business_id staff_id : Z) : PyM Staff :=
  business_read current_user business_id
    (require_staff_in_business staff_id business_id (usr_tenant_id current_user)).

Definition update_staff_endpoint (current_user : User) (business_id staff_id : Z)
    (name phone : option string) (is_active : option bool) : PyM Staff :=
  admin_write current_user business_id
    (update_staff staff_id business_id (usr_tenant_id current_user) name phone is_active).

(** ** clients.py and customers.py *)

Definition mask_client (client : Client) (is_demo : bool) : Client :=
  if negb is_demo then client
  else client
    <| cli_phone := if opt_truthy (cli_phone client) then Some "***"%string else cli_phone client |>
    <| cli_email := if opt_truthy (cli_email client) then Some "***@***.***"%string
                    else cli_email client |>.

Definition create_client_endpoint (current_user : User) (business_id : Z) (name : string)
    (customer_id : option Z) (email phone notes : option string) : PyM Client :=
  role_write current_user business_id
    (create_client (usr_tenant_id current_user) business_id name customer_id email phone notes).

Definition list_clients_endpoint (current_user : User) (business_id page_number size : Z)
    : PyM (list Client) :=
  business_read current_user business_id
    (rows <- list_clients business_id (usr_tenant_id current_user) (skip_of page_number size) size ;;
     ret (map (fun c => mask_client c (usr_is_demo_user current_user)) rows)).

Definition get_client_endpoint (current_user : User) (business_id client_id : Z) : PyM Client :=
  business_read current_user business_id
    (row <- require_client_in_business client_id business_id (usr_tenant_id current_user) ;;
     ret (mask_client row (usr_is_demo_user current_user))).

Definition get_client_bookings_endpoint (current_user : User)
    (business_id client_id page_number size : Z) : PyM (list Booking) :=
  business_read current_user business_id
    (get_bookings_for_client client_id business_id (usr_tenant_id current_user)
       (skip_of page_number size) size).

Definition update_client_endpoint (current_user : User) (business_id client_id : Z)
    (name email phone notes : option string) : PyM Client :=
  role_write current_user business_id
    (update_client client_id business_id (usr_tenant_id current_user) name email phone notes).

Definition gdpr_delete_customer_endpoint (current_user : User) (business_id customer_id : Z)
    : PyM Customer :=
  tenant_write current_user
    (gdpr_delete_customer customer_id business_id (usr_tenant_id current_user)
       (Some (usr_id current_user))).

(** ** working_hours.py, availability.py and availability_exceptions.py *)

Definition create_working_hours_endpoint (current_user : User) (business_id : Z)
    (staff_id : option Z) (day_of_week start_time end_time : Z) : PyM WorkingHours :=
  admin_write current_user business_id
    (create_working_hours (usr_tenant_id current_user) business_id staff_id day_of_week start_time
       end_time).

Definition list_working_hours_endpoint (current_user : User) (business_id : Z)
    (staff_id : option Z) : PyM (list WorkingHours) :=
  business_read current_user business_id
    (list_working_hours business_id (usr_tenant_id current_user) staff_id).

Definition get_working_hours_endpoint (current_user : User) (business_id wh_id : Z)
    : PyM WorkingHours :=
  business_read current_user business_id
    (require_working_hours_in_business wh_id business_id (usr_tenant_id current_user)).

Definition update_working_hours_endpoint (current_user : User) (business_id wh_id : Z)
    (start_time end_time : option Z) : PyM WorkingHours :=
  admin_write current_user business_id
    (update_working_hours wh_id (usr_tenant_id current_user) business_id start_time end_time).

Definition delete_working_hours_endpoint (current_user : User) (business_id wh_id : Z) : PyM unit :=
  admin_write current_user business_id
    (delete_working_hours wh_id (usr_tenant_id current_user) business_id).

(** The router of the availability search has no guard for the demo user. *)
Definition get_availability (current_user : User) (business_id service_id query_date : Z)
    (staff_id : option Z) : PyM (list (Z * Z)) :=
  get_available_slots (usr_tenant_id current_user) business_id service_id staff_id query_date.

Definition create_exception_endpoint (current_user : User) (business_id : Z)
    (staff_id : option Z) (date : Z) (is_closed : bool) (start_time end_time : option Z)
    (reason : option string) : PyM AvailabilityException :=
  admin_write current_user business_id
    (create_availability_exception (usr_tenant_id current_user) business_id staff_id date is_closed
       start_time end_time reason).

Definition list_exceptions_endpoint (current_user : User) (business_id : Z)
    (staff_id from_date to_date : option Z) : PyM (list AvailabilityException) :=
  business_read current_user business_id
    (list_availability_exceptions business_id (usr_tenant_id current_user) staff_id from_date
       to_date).

Definition get_exception_endpoint (current_user : User) (business_id exception_id : Z)
    : PyM AvailabilityException :=
  business_read current_user business_id
    (require_availability_exception_in_business exception_id business_id
       (usr_tenant_id current_user)).

Definition delete_exception_endpoint (current_user : User) (business_id exception_id : Z)
    : PyM unit :=
  admin_write current_user business_id
    (delete_availability_exception exception_id (usr_tenant_id current_user) business_id).

(** ** recurring_staff_blocks.py and business_transfer_hours.py *)

Definition create_recurring_staff_block_endpoint (current_user : User) (business_id : Z)
    (staff_id : option Z) (day_of_week start_time end_time : Z) (reason : option string)
    : PyM RecurringStaffBlock :=
  admin_write current_user business_id
    (create_recurring_staff_block (usr_tenant_id current_user) business_id staff_id day_of_week
       start_time end_time reason).

Definition list_recurring_staff_blocks_endpoint (current_user : User) (business_id : Z)
    (staff_id day_of_week : option Z) : PyM (list RecurringStaffBlock) :=
  business_read current_user business_id
    (list_recurring_staff_blocks business_id (usr_tenant_id current_user) staff_id day_of_week).

Definition get_recurring_staff_block_endpoint (current_user : User) (business_id block_id : Z)
    : PyM RecurringStaffBlock :=
  business_read current_user business_id
    (require_recurring_staff_block_in_business block_id business_id (usr_tenant_id current_user)).

Definition delete_recurring_staff_block_endpoint (current_user : User) (business_id block_id : Z)
    : PyM unit :=
  admin_write current_user business_id
    (delete_recurring_staff_block block_id (usr_tenant_id current_user) business_id).

Definition create_transfer_hours_endpoint (current_user : User)
    (business_id day_of_week start_time end_time : Z) : PyM BusinessTransferHours :=
  role_write current_user business_id
    (create_transfer_hours (usr_tenant_id current_user) business_id day_of_week start_time end_time).

Definition list_transfer_hours_endpoint (current_user : User) (business_id : Z)
    : PyM (list BusinessTransferHours) :=
  business_read current_user business_id
    (list_transfer_hours business_id (usr_tenant_id current_user)).

Definition get_transfer_hours_endpoint (current_user : User) (business_id entry_id : Z)
    : PyM BusinessTransferHours :=
  business_read current_user business_id
    (require_transfer_hours entry_id business_id (usr_tenant_id current_user)).

Definition delete_transfer_hours_endpoint (current_user : User) (business_id entry_id : Z)
    : PyM unit :=
  role_write current_user business_id
    (delete_transfer_hours entry_id business_id (usr_tenant_id current_user)).

(** ** ivr.py, onboarding.py, owner_leads.py and admin.py *)

Definition simulate_call (current_user : User) (business_id : Z) (caller_phone : string)
    : PyM IvrResponse :=
  require_role "admin" current_user ;;;
  started <- start_session business_id (usr_tenant_id current_user) caller_phone ;;
  ret started.2.

Definition simulate_press (current_user : User) (session_id : Z) (key : string) : PyM IvrResponse :=
  require_role "admin" current_user ;;;
  handle_keypress session_id (usr_tenant_id current_user) key.

Definition onboarding_setup (current_user : User) (body : OnboardingSetupRequest)
    : PyM OnboardingSetupResponse :=
  tenant_write current_user (setup_business_onboarding (usr_tenant_id current_user) body).

Definition submit_owner_lead (request : Peer) (body : OwnerLeadCreate) : PyM OwnerLead :=
  rate_limit (Some 5) (Some 3600) "rate_limit:owner_lead" request ;;;
  create_owner_lead body.

Definition list_leads (current_user : User) (status_filter : option LeadStatus)
    (page_number size : Z) : PyM (list OwnerLead) :=
  require_role "admin" current_user ;;;
  list_owner_leads status_filter (skip_of page_number size) size.

Definition get_lead (current_user : User) (lead_id : Z) : PyM OwnerLead :=
  require_role "admin" current_user ;;;
  require_owner_lead lead_id.

Definition patch_lead_status (current_user : User) (lead_id : Z) (status : LeadStatus)
    : PyM OwnerLead :=
  tenant_write current_user (update_owner_lead_status lead_id status).

(** The message and the address of the caller. *)
Definition admin_panel (current_user : User) : PyM (string * string) :=
  require_permission [ADMIN_ACCESS] current_user ;;;
  ret ("Welcome admin"%string, usr_email current_user).

Definition list_audit_logs (current_user : User) (page_number size : Z)
    (action : option AuditAction) (admin_id target_user_id : option Z) : PyM (list AuditLog) :=
  require_permission [AUDIT_LOGS_LIST] current_user ;;;
  get_audit_logs (usr_tenant_id current_user) (skip_of page_number size) size action admin_id
    target_user_id.
End Routes.
