(* ===== verification/IvrCalls.v ===== *)
(** * IvrCalls: what a key press can do to a call

    The step graph of the voice menu, the bounds on silent and invalid input, and the
    booking that a call ends with. *)

From S2P Require Import Prelude Py Effects Schema Settings Orm AuditTrail Directory Schedule Availability.
From S2P Require Import JobQueue PublicLink Notifications Calendar Waitlist Booking.
From S2P Require Import BookingMachine Frames SessionFrames BookingRefinement IvrPrompts Ivr.

(** The definitions of the menu, down to [assign], [handle_invalid_key] and the services. *)
Ltac unfold_menu :=
  unfold handle_step, handle_incoming, handle_press1_external, handle_press1_internal,
    handle_transfer_request, transfer_unavailable, resolve_transfer_destination,
    get_eligible_transfer_staff, handle_transfer_unavailable, handle_manage_booking_request,
    get_next_confirmed_booking, handle_manage_booking,
    handle_reschedule_slot_selection, handle_service_selection, handle_staff_selection,
    handle_slot_selection, proceed_to_slot_search, book_selected, record_booking,
    enqueue_external_booking_link_sms,
    reprompt_for_no_input, candidates_menu, press_1_menu,
    schedulable_staff, reorder_preferred_staff, last_used_staff_id, get_last_staff_booking,
    get_customer_by_phone, list_staff,
    manage_booking_response, managed_booking, selected_service, slot_menu, service_menu,
    services_of, list_services, main_menu, main_menu_response, staff_selection_response,
    format_option_list, finish, customer_by_phone, require_booking_in_business,
    require_booking, get_booking.

Ltac unfold_ivr := unfold_menu; unfold get_or_create_customer, customer_by_phone.

Lemma keeps_prompt P k loc kw : keeps P (resolve_prompt k loc kw).
Proof. intros w Hw. unfold resolve_prompt. by destruct (format kw _). Qed.
#[export] Hint Resolve keeps_prompt : ledger.

(** ** Operations that do not touch the calls *)

(** A property of the table of calls, in the session and durably. *)
Definition on_calls (P : gmap Z VoiceSession -> Prop) (w : World) : Prop :=
  P (voice_sessions (w_db w)) /\ P (voice_sessions (w_committed w)).

Class OffCalls (A : Type) `{Entity A} : Prop := {
  off_calls : forall f db, voice_sessions (on_table f db) = voice_sessions db }.
#[global] Instance OffCalls_Customer : OffCalls Customer.
Proof. by constructor. Qed.
#[global] Instance OffCalls_Booking : OffCalls Booking.
Proof. by constructor. Qed.
#[global] Instance OffCalls_Payment : OffCalls BookingPayment.
Proof. by constructor. Qed.
#[global] Instance OffCalls_Waitlist : OffCalls WaitlistEntry.
Proof. by constructor. Qed.
#[global] Instance OffCalls_Outbox : OffCalls NotificationOutbox.
Proof. by constructor. Qed.
#[global] Instance OffCalls_Event : OffCalls CalendarEvent.
Proof. by constructor. Qed.
#[global] Instance OffCalls_Audit : OffCalls AuditLog.
Proof. by constructor. Qed.

Section OffCallsRules.
Context (P : gmap Z VoiceSession -> Prop).

Lemma calls_insert `{OffCalls A} mk : keeps (on_calls P) (db_insert (A := A) mk).
Proof.
  intros w [H1 H2]. unfold db_insert.
  destruct (table (w_db w) !! _); [by split|]. destruct (violates _ _); [by split|].
  split; simpl; [rewrite off_calls|]; done.
Qed.
Lemma calls_save `{OffCalls A} (r : A) : keeps (on_calls P) (save r).
Proof. apply triple_modify. intros w [H1 H2]. split; simpl; [rewrite off_calls|]; done. Qed.
Lemma calls_redis {A} (cmd : Redis -> A * Redis) : keeps (on_calls P) (redis cmd).
Proof. intros w Hw. unfold redis. by destruct (cmd (w_redis w)). Qed.
Lemma calls_redis_ cmd : keeps (on_calls P) (redis_ cmd).
Proof. by apply triple_modify. Qed.
Lemma calls_uuid `{Config} : keeps (on_calls P) fresh_uuid.
Proof. by intros w Hw. Qed.
Lemma calls_commit : keeps (on_calls P) commit.
Proof. apply triple_modify. by intros w [H1 H2]. Qed.
Lemma calls_rollback : keeps (on_calls P) rollback.
Proof. apply triple_modify. by intros w [H1 H2]. Qed.
End OffCallsRules.

#[export] Hint Resolve calls_redis calls_redis_ calls_uuid calls_commit calls_rollback : ledger.
#[export] Hint Extern 1 (keeps (on_calls _) (db_insert _)) => apply calls_insert; exact _ : ledger.
#[export] Hint Extern 1 (keeps (on_calls _) (save _)) => apply calls_save; exact _ : ledger.

Section CallsFrames.
Context `{Config} (P : gmap Z VoiceSession -> Prop).

Lemma calls_create_booking t b c s st at_ src a o r :
  keeps (on_calls P) (create_booking t b c s st at_ src a o r).
Proof.
  unfold create_booking, write_booking, translate_integrity_error, enqueue_confirmation_jobs,
    check_double_booking, require_business, get_business, require_customer_in_business,
    require_customer, get_customer, require_service_in_business, require_service, get_service,
    check_staff, require_staff_in_business, require_staff, get_staff, create_audit_log,
    enqueue_booking_confirmation, build_public_management_url, generate_booking_token,
    enqueue_calendar_event, get_calendar_integration, enqueue_send_notification_job,
    enqueue_sync_calendar_event_job, enqueue_job.
  keeps_steps.
Qed.

Lemma calls_cancel_booking k b t r a o : keeps (on_calls P) (cancel_booking k b t r a o).
Proof.
  unfold cancel_booking, require_booking_in_business_for_update, fail_linked_pending_payment,
    offer_freed_slot, find_matching_waitlist_entries, enqueue_waitlist_offer,
    enqueue_booking_cancellation, get_calendar_event_for_booking,
    require_business, get_business, require_customer_in_business,
    require_customer, get_customer, require_service_in_business, require_service, get_service,
    create_audit_log, enqueue_send_notification_job, enqueue_cancel_calendar_event_job, enqueue_job.
  keeps_steps.
Qed.
End CallsFrames.
#[export] Hint Resolve calls_create_booking calls_cancel_booking : ledger.

Section CallsMore.
Context `{Config} (P : gmap Z VoiceSession -> Prop).

Lemma calls_require_business b t : keeps (on_calls P) (require_business b t).
Proof. unfold require_business, get_business. keeps_steps. Qed.
Lemma calls_require_service s b t : keeps (on_calls P) (require_service_in_business s b t).
Proof. unfold require_service_in_business, require_service, get_service. keeps_steps. Qed.
Lemma calls_require_customer c b t : keeps (on_calls P) (require_customer_in_business c b t).
Proof. unfold require_customer_in_business, require_customer, get_customer. keeps_steps. Qed.
Lemma calls_send_job i : keeps (on_calls P) (enqueue_send_notification_job i).
Proof. unfold enqueue_send_notification_job, enqueue_job. keeps_steps. Qed.
Hint Resolve calls_require_business : ledger.

Lemma calls_reschedule k b t n r a s : keeps (on_calls P) (reschedule_booking k b t n r a s).
Proof.
  unfold reschedule_booking, require_booking_in_business, require_booking, get_booking,
    create_audit_log.
  keeps_steps.
Qed.

Lemma calls_find_slots svs s st : keeps (on_calls P) (find_slots svs s st).
Proof.
  unfold find_slots. apply keeps_bind; [eauto with ledger|]. intros now. cbv zeta.
  apply keeps_bind; [|eauto with ledger]. generalize (@nil (Z * Z)).
  induction (map _ _) as [|d ds IH]; intros acc; simpl; [eauto with ledger|].
  unfold get_available_slots, require_service, get_service, require_staff, get_staff, search_slots.
  keeps_steps.
Qed.
End CallsMore.
#[export] Hint Resolve calls_require_business calls_require_service calls_require_customer
  calls_send_job calls_reschedule calls_find_slots : ledger.

(** ** The step graph *)

(** The steps one key press can move a call to. *)
Definition ivr_edge (from to : IvrStep) : bool :=
  match from, to with
  | INCOMING, (SERVICE_SELECTION | NO_SLOTS | EXTERNAL_LINK_SENT | TRANSFER_UNAVAILABLE
               | ABANDONED | MANAGE_BOOKING | EXPIRED) => true
  | SERVICE_SELECTION, (STAFF_SELECTION | SLOT_SELECTION | NO_SLOTS | EXPIRED) => true
  | STAFF_SELECTION, (SLOT_SELECTION | NO_SLOTS | EXPIRED) => true
  | SLOT_SELECTION, (STEP_BOOKING_CONFIRMED | NO_SLOTS | EXPIRED) => true
  | TRANSFER_UNAVAILABLE, (INCOMING | EXPIRED) => true
  | MANAGE_BOOKING, (STEP_BOOKING_CANCELLED | RESCHEDULE_SLOT_SELECTION | NO_SLOTS | INCOMING
                     | EXPIRED) => true
  | RESCHEDULE_SLOT_SELECTION, (STEP_BOOKING_CONFIRMED | NO_SLOTS | EXPIRED) => true
  | _, _ => false
  end.

(** What stays the same for the whole call. *)
Definition same_call (s s' : VoiceSession) : Prop :=
  vs_id s' = vs_id s /\ vs_tenant_id s' = vs_tenant_id s /\ vs_business_id s' = vs_business_id s
  /\ vs_caller_phone s' = vs_caller_phone s /\ vs_locale s' = vs_locale s
  /\ vs_call_sid s' = vs_call_sid s /\ vs_expires_at s' = vs_expires_at s
  /\ vs_created_at s' = vs_created_at s.

Definition moved (s s' : VoiceSession) : Prop :=
  same_call s s' /\ (vs_step s' = vs_step s \/ ivr_edge (vs_step s) (vs_step s') = true).

(** The counters of a call, which are below their limits as long as it is live. *)
Definition counters_ok (s : VoiceSession) : Prop :=
  0 <= vs_no_input_count s <= NO_INPUT_MAX /\ 0 <= vs_invalid_key_count s <= INVALID_KEY_MAX
  /\ (terminal_step (vs_step s) = false ->
      vs_no_input_count s < NO_INPUT_MAX /\ vs_invalid_key_count s < INVALID_KEY_MAX).

(** During a key press that is not counted, and after any key press. *)
Definition pressed (s s' : VoiceSession) : Prop :=
  moved s s' /\ vs_invalid_key_count s' = vs_invalid_key_count s
  /\ (vs_no_input_count s' = vs_no_input_count s \/ vs_no_input_count s' = 0).
Definition after_press (s s' : VoiceSession) : Prop :=
  moved s s' /\ counters_ok s' /\ vs_invalid_key_count s <= vs_invalid_key_count s'.

(** The row of the call [s] satisfies [R], and the other rows are those of [V]. *)
Definition call_row (R : VoiceSession -> Prop) (s : VoiceSession) (V : gmap Z VoiceSession)
    (V' : gmap Z VoiceSession) : Prop :=
  (exists s', V' !! vs_id s = Some s' /\ R s') /\ forall k, k <> vs_id s -> V' !! k = V !! k.

Section KeyPress.
Context `{Config} (s : VoiceSession) (V : gmap Z VoiceSession).
Context (Hlive : terminal_step (vs_step s) = false) (Hcount : counters_ok s).

Abbreviation during := (on_calls (call_row (pressed s) s V)).
Abbreviation after := (on_calls (call_row (after_press s) s V)).

Lemma pressed_after s' : pressed s s' -> after_press s s'.
Proof.
  intros (Hm & Hi & Hn). destruct Hcount as (H1 & H2 & H3). destruct (H3 Hlive) as [H4 H5].
  split; [done|]. unfold counters_ok. rewrite Hi. split; [|lia].
  destruct Hn as [->| ->]; unfold NO_INPUT_MAX in *; repeat split; lia.
Qed.

Lemma during_after w : during w -> after w.
Proof.
  intros [[(s1 & Hs1 & Hp1) Ho1] [(s2 & Hs2 & Hp2) Ho2]].
  split; (split; [|done]); eauto using pressed_after.
Qed.

(** A key press step by step. *)
Definition settles {A} (m : PyM A) : Prop := triple during m (fun _ => after) (fun _ => after).

Lemma settles_keeps {A} (m : PyM A) : keeps during m -> settles m.
Proof. intros Hm. eapply triple_conseq; [exact Hm | done | |]; intros; by apply during_after. Qed.

Lemma settles_bind {A B} (m : PyM A) (k : A -> PyM B) :
  keeps during m -> (forall a, settles (k a)) -> settles (bind m k).
Proof.
  intros Hm Hk. eapply triple_bind; [|exact Hk].
  eapply triple_conseq; [exact Hm | done | done |]. intros; by apply during_after.
Qed.

(** Writing the row in the session. *)
Lemma row_written (R : VoiceSession -> Prop) now (r : VoiceSession) V' :
  vs_id r = vs_id s -> (forall t, R (r <| vs_updated_at := t |>)) -> R r ->
  (forall k, k <> vs_id s -> V' !! k = V !! k) ->
  call_row R s V (<[pk r := touch now (V' !! pk r) r]> V').
Proof.
  intros Hid Ht HR Ho. change (pk r) with (vs_id r). rewrite Hid. split.
  - eexists. split; [apply lookup_insert_eq|]. simpl. case_decide; [done | apply Ht].
  - intros k Hk. rewrite lookup_insert_ne by done. by apply Ho.
Qed.

(** A flushed row is the assigned one up to its time stamp, which does not matter. *)
Definition stamped (a r : VoiceSession) : Prop := exists t, r = a <| vs_updated_at := t |>.

Lemma pressed_stamped a r : pressed s a -> stamped a r -> pressed s r.
Proof. by intros Ha [t ->]. Qed.
Lemma after_stamped a r : after_press s a -> stamped a r -> after_press s r.
Proof. by intros Ha [t ->]. Qed.

(** Between an assignment and the commit: the row in the session satisfies [R]. *)
Definition pending (R : VoiceSession -> Prop) (w : World) : Prop :=
  call_row R s V (voice_sessions (w_db w))
  /\ call_row (pressed s) s V (voice_sessions (w_committed w)).

Lemma pending_mono (R R' : VoiceSession -> Prop) w :
  (forall r, R r -> R' r) -> pending R w -> pending R' w.
Proof. intros HR [[(s1 & Hs1 & Hp1) Ho1] Hc]. split; [|done]. split; eauto. Qed.

Lemma assign_pending (R : VoiceSession -> Prop) f :
  (forall cur, R cur -> vs_id (f cur) = vs_id s) ->
  triple (pending R) (assign s f)
    (fun a w => pending (stamped a) w /\ exists cur, R cur /\ a = f cur) (fun _ _ => False).
Proof.
  intros Hf w [[(s1 & Hs1 & Hp1) Ho1] Hc]. unfold assign, bind, refresh, asks, save, modify, ret.
  simpl. rewrite Hs1. simpl. split; [|eauto]. split; [|done].
  simpl. apply row_written; [by apply Hf | by eexists | | done].
  exists (vs_updated_at (f s1)). by destruct (f s1).
Qed.

Lemma keeps_assign f :
  (forall cur, pressed s cur -> pressed s (f cur)) -> keeps during (assign s f).
Proof.
  intros Hf. eapply triple_conseq; [apply (assign_pending (pressed s)) | done | | done].
  - intros cur Hc. by destruct (Hf cur Hc) as [[[? _] _] _].
  - intros a w [Hw (cur & Hc & ->)]. eapply pending_mono; [|exact Hw].
    intros r. apply pressed_stamped. by apply Hf.
Qed.

Lemma commit_pending R :
  triple (pending R) commit (fun _ => on_calls (call_row R s V)) (fun _ _ => False).
Proof. apply triple_modify. by intros w [Hw _]. Qed.

(** A counter goes up, and when it reaches its limit the call ends: the row goes from
    [R] through [Q] to [R']. *)
Lemma limit_triple {A} (R Q R' : VoiceSession -> Prop) (reached : VoiceSession -> bool)
    (f : VoiceSession -> VoiceSession) (last rest : VoiceSession -> PyM A) :
  (forall cur, R cur -> Q (f cur)) -> (forall r, Q r -> vs_id r = vs_id s) ->
  (forall a r, Q a -> stamped a r -> Q r) -> (forall a r, R' a -> stamped a r -> R' r) ->
  (forall r, Q r -> R' (r <| vs_step := EXPIRED |>)) ->
  (forall r, Q r -> reached r = false -> R' r) ->
  (forall r, keeps (on_calls (call_row R' s V)) (last r)) ->
  (forall r, keeps (on_calls (call_row R' s V)) (rest r)) ->
  triple (pending R)
    (r <- assign s f ;;
     if reached r
     then assign s (fun s => s <| vs_step := EXPIRED |>) ;;; commit ;;; last r
     else commit ;;; rest r)
    (fun _ => on_calls (call_row R' s V)) (fun _ => on_calls (call_row R' s V)).
Proof.
  intros Hf Hid HQ HR' Hexp Hr Hlast Hrest. eapply triple_bind.
  { eapply triple_conseq; [apply (assign_pending R) | done | done | done]. eauto. }
  intros r w [Hw (cur & Hcur & ->)]. apply Hf in Hcur. set (r := f cur) in *.
  destruct (reached r) eqn:E.
  - assert (Hw' : pending Q w) by (eapply pending_mono; [|exact Hw]; eauto).
    clear Hw. revert w Hw'. apply triple_bind with (R := fun _ => pending R').
    { eapply triple_conseq; [apply (assign_pending Q) | done | | done]; [done|].
      intros a w [Hw (c & Hc & ->)]. eapply pending_mono; [|exact Hw]. eauto. }
    intros ?. eapply triple_bind; [eapply triple_conseq; [apply commit_pending | done..]|].
    intros ?. apply Hlast.
  - assert (Hw' : pending R' w) by (eapply pending_mono; [|exact Hw]; eauto).
    clear Hw. revert w Hw'.
    eapply triple_bind; [eapply triple_conseq; [apply commit_pending | done..]|].
    intros ?. apply Hrest.
Qed.

(** A counted press: one counter goes up, and at its limit the call ends. *)
Lemma live_edge_expired : ivr_edge (vs_step s) EXPIRED = true.
Proof using Hlive. by destruct (vs_step s). Qed.

Definition counted (invalid no_input : Z) (r : VoiceSession) : Prop :=
  moved s r /\ vs_invalid_key_count r = vs_invalid_key_count s + invalid
  /\ (vs_no_input_count r = vs_no_input_count s + no_input \/ vs_no_input_count r = no_input).

Lemma counted_below i n r :
  0 <= i <= 1 -> 0 <= n <= 1 -> counted i n r ->
  vs_invalid_key_count r < INVALID_KEY_MAX -> vs_no_input_count r < NO_INPUT_MAX ->
  after_press s r.
Proof using Hcount.
  intros Hi Hn (Hm & H1 & H2) H3 H4. destruct Hcount as (H5 & H6 & _).
  split; [done|]. unfold counters_ok. repeat split; destruct H2; lia.
Qed.

Lemma counted_expired i n r :
  0 <= i <= 1 -> 0 <= n <= 1 -> counted i n r -> after_press s (r <| vs_step := EXPIRED |>).
Proof using Hcount Hlive.
  intros Hi Hn ((Hsc & _) & H1 & H2). destruct Hcount as (H5 & H6 & H7).
  destruct (H7 Hlive) as [H8 H9]. split; [split; [done|]; right; apply live_edge_expired|].
  unfold counters_ok, NO_INPUT_MAX, INVALID_KEY_MAX in *. simpl.
  repeat split; destruct H2; try lia; done.
Qed.

Lemma counted_stamped i n a r : counted i n a -> stamped a r -> counted i n r.
Proof. by intros Ha [t ->]. Qed.

(** What the two counting handlers have in common. *)
Lemma settles_limit {A} i n (reached : VoiceSession -> bool) (f : VoiceSession -> VoiceSession)
    (last rest : VoiceSession -> PyM A) :
  0 <= i <= 1 -> 0 <= n <= 1 ->
  (forall cur, pressed s cur -> counted i n (f cur)) ->
  (forall r, counted i n r -> reached r = false ->
     vs_invalid_key_count r < INVALID_KEY_MAX /\ vs_no_input_count r < NO_INPUT_MAX) ->
  (forall r, keeps after (last r)) -> (forall r, keeps after (rest r)) ->
  settles (r <- assign s f ;;
           if reached r
           then assign s (fun s => s <| vs_step := EXPIRED |>) ;;; commit ;;; last r
           else commit ;;; rest r).
Proof using Hcount Hlive.
  intros Hi Hn Hf Hr Hlast Hrest. unfold settles.
  apply (limit_triple (pressed s) (counted i n) (after_press s)); eauto using counted_stamped,
    after_stamped, counted_expired.
  - intros r Hc. apply Hc.
  - intros r Hc E. destruct (Hr r Hc E). by apply (counted_below i n).
Qed.

Lemma invalid_key_settles reprompt : settles (handle_invalid_key s reprompt).
Proof using Hcount Hlive.
  apply (settles_limit 1 0 (fun r => INVALID_KEY_MAX <=? vs_invalid_key_count r)
    _ (fun _ => prompt <- _ ;; ret (end_response prompt None)) (fun _ => ret reprompt));
    [lia | lia | | | intros r; keeps_steps | intros r; keeps_steps].
  - intros cur (Hm & Hi & Hn). split; [done|]. simpl. split; lia.
  - intros r (_ & _ & Hn) Hr. destruct Hcount as (? & ? & Hc). destruct (Hc Hlive). bool_props.
    unfold NO_INPUT_MAX in *. split; [done|]. destruct Hn; lia.
Qed.

Lemma no_input_settles : settles (handle_no_input s).
Proof using Hcount Hlive.
  apply (settles_limit 0 1 (fun r => NO_INPUT_MAX <=? vs_no_input_count r)
    _ (fun _ => prompt <- _ ;; ret (end_response prompt None))
    (fun r => reprompt <- reprompt_for_no_input r ;; _));
    [lia | lia | | | intros r; keeps_steps | intros r; unfold_ivr; keeps_steps].
  - intros cur (Hm & Hi & Hn). split; [done|]. simpl. split; lia.
  - intros r (_ & Hi & _) Hr. destruct Hcount as (? & ? & Hc). destruct (Hc Hlive). bool_props. lia.
Qed.

(** An assignment along an edge of the graph (or to other fields). *)
Ltac solve_pressed :=
  let cur := fresh in
  intros cur ((Hsc & Hst) & Hi & Hn); split; [split; [exact Hsc|] | split; [exact Hi | exact Hn]];
  first [exact Hst
        | right; match goal with E : vs_step s = _ |- _ => rewrite E end; reflexivity].

Hint Extern 1 (keeps _ (assign _ _)) => apply keeps_assign; solve_pressed : ledger.

Ltac settle_steps :=
  repeat (intros; cbv zeta;
    lazymatch goal with
    | |- settles (handle_invalid_key _ _) => apply invalid_key_settles
    | |- settles (bind _ _) => apply settles_bind
    | |- settles (match ?x with _ => _ end) => destruct x
    | |- settles _ => apply settles_keeps
    | |- _ => solve [keeps_steps]
    end).

Lemma step_settles key : settles (handle_step s key).
Proof using Hcount Hlive.
  unfold handle_step. destruct (ex_intro (eq (vs_step s)) _ eq_refl) as [st Hstep].
  rewrite Hstep. destruct st; unfold_ivr; settle_steps.
Qed.

(** After a silence the call is over, or the silence is counted. *)
Definition silenced (r : VoiceSession) : Prop :=
  vs_tenant_id r = vs_tenant_id s /\ vs_id r = vs_id s
  /\ (terminal_step (vs_step r) = true
      \/ vs_no_input_count r = vs_no_input_count s + 1 /\ vs_no_input_count r < NO_INPUT_MAX).

Lemma silence_counted :
  triple (pending (eq s)) (handle_no_input s)
    (fun _ => on_calls (call_row silenced s V)) (fun _ => on_calls (call_row silenced s V)).
Proof.
  apply (limit_triple (eq s)
    (fun r => vs_tenant_id r = vs_tenant_id s /\ vs_id r = vs_id s
              /\ vs_no_input_count r = vs_no_input_count s + 1)
    silenced (fun r => NO_INPUT_MAX <=? vs_no_input_count r)
    _ (fun _ => prompt <- _ ;; ret (end_response prompt None))
    (fun r => reprompt <- reprompt_for_no_input r ;; _)).
  - intros cur <-. by repeat split.
  - by intros r (_ & ? & _).
  - by intros b r Hb [t ->].
  - by intros b r Hb [t ->].
  - intros r (? & ? & _). split; [done|]. split; [done|]. by left.
  - intros r (? & ? & ?) Hr. bool_props. split; [done|]. split; [done|]. by right.
  - intros r. keeps_steps.
  - intros r. unfold_ivr. keeps_steps.
Qed.

(** A key press on a live call whose time is not up. *)
Definition live_press (key : string) : PyM IvrResponse :=
  if String.eqb key "" then handle_no_input s
  else
    (if vs_no_input_count s =? 0 then ret s
     else assign s (fun s => s <| vs_no_input_count := 0 |>)) ;;;
    if existsb (String.eqb key) REPEAT_KEYS then commit ;;; reprompt_for_no_input s
    else handle_step s key.

Lemma live_press_settles key : settles (live_press key).
Proof using Hcount Hlive.
  unfold live_press. destruct (String.eqb key ""); [apply no_input_settles|].
  apply settles_bind.
  { destruct (vs_no_input_count s =? 0); [eauto with ledger|].
    apply keeps_assign. intros cur ((Hsc & Hst) & Hi & Hn).
    split; [by split|]. split; [exact Hi | by right]. }
  intros _. destruct (existsb _ _); [|apply step_settles].
  apply settles_keeps. unfold_ivr. keeps_steps.
Qed.
End KeyPress.

Lemma moved_refl s : moved s s.
Proof. split; [done | by left]. Qed.
Lemma pressed_refl s : pressed s s.
Proof. split; [apply moved_refl|]. split; [done | by left]. Qed.

Section Calls.
Context `{Config}.

(** The four cases of [handle_keypress] on the call [s]. *)
Lemma keypress_cases session_id tenant_id key w s :
  voice_sessions (w_db w) !! session_id = Some s ->
  handle_keypress session_id tenant_id key w
  = if negb (vs_tenant_id s =? tenant_id)
    then (Raise (DomainError NotFoundError "Voice session not found"), w)
    else if vs_expires_at s <=? w_now w then
      (when (negb (terminal_step (vs_step s)))
         (assign s (fun s => s <| vs_step := EXPIRED |>) ;;; commit) ;;;
       prompt <- resolve_prompt P_SESSION_EXPIRED (session_locale s) [] ;;
       ret (end_response prompt None)) w
    else if terminal_step (vs_step s) then
      (prompt <- resolve_prompt P_SESSION_ALREADY_COMPLETE (session_locale s) [] ;;
       ret (end_response prompt None)) w
    else live_press s key w.
Proof.
  intros Hs. unfold handle_keypress.
  destruct (vs_tenant_id s =? tenant_id) eqn:Et; simpl.
  2:{ unfold bind at 1. rewrite run_find_pk. simpl. by rewrite Hs, Et. }
  rewrite (bind_ok _ _ w (Some s) w) by (rewrite run_find_pk; simpl; by rewrite Hs, Et).
  rewrite (bind_ok _ _ w s w) by done. rewrite (bind_ok _ _ w (w_now w) w) by done. cbv zeta.
  destruct (vs_expires_at s <=? w_now w); [done|].
  destruct (terminal_step (vs_step s)); [done|]. unfold live_press.
  by destruct (String.eqb key "").
Qed.

(** A last prompt leaves the world alone. *)
Lemma prompt_run k loc kw (f : string -> IvrResponse) w :
  exists r, (prompt <- resolve_prompt k loc kw ;; ret (f prompt)) w = (r, w).
Proof. unfold bind, resolve_prompt. destruct (format kw _); simpl; eauto. Qed.

(** The row written when the time is up. *)
Lemma expire_run s w :
  voice_sessions (w_db w) !! vs_id s = Some s -> terminal_step (vs_step s) = false ->
  (assign s (fun s => s <| vs_step := EXPIRED |>) ;;; commit) w
  = (Ok tt, let db := (w_db w) <| voice_sessions ::= <[vs_id s :=
       s <| vs_step := EXPIRED |> <| vs_updated_at := w_now w |>]> |> in
     w <| w_db := db |> <| w_committed := db |>).
Proof.
  intros Hs Hl. unfold assign, bind, refresh, asks, save, commit, ret. simpl. rewrite Hs.
  unfold modify. destruct w as [db ? ? ? ? ? ?], db.
  cbv beta iota delta [update_field] in *. simpl in *. rewrite Hs.
  case_decide as E; [|done].
  apply (f_equal (fmap vs_step)) in E. simpl in E. injection E as E. by rewrite E in Hl.
Qed.

Lemma expired_counters s :
  counters_ok s -> counters_ok (s <| vs_step := EXPIRED |>).
Proof. intros (H1 & H2 & _). by split. Qed.

(** C19: every call follows the menu.  Whatever key is pressed, and whether the request
    succeeds or fails, the durable row of the call is still there, belongs to the same
    caller and business with the same expiry, and its step is either unchanged or one
    the graph allows from there; a finished call is never changed again; once its time
    is up the call is finished by the next key; its counters of silent and invalid
    input never pass their limits and are below them while the call is live;
    and no other call is touched. *)
Theorem keypress_follows_graph session_id tenant_id key w s :
  voice_sessions (w_committed w) !! session_id = Some s -> vs_id s = session_id ->
  vs_tenant_id s = tenant_id -> counters_ok s ->
  let w' := (run_request (handle_keypress session_id tenant_id key) w).2 in
  (exists s', voice_sessions (w_committed w') !! session_id = Some s'
     /\ same_call s s'
     /\ (vs_step s' = vs_step s \/ ivr_edge (vs_step s) (vs_step s') = true)
     /\ counters_ok s' /\ vs_invalid_key_count s <= vs_invalid_key_count s'
     /\ (terminal_step (vs_step s) = true -> s' = s)
     /\ (vs_expires_at s <= w_now w -> terminal_step (vs_step s') = true))
  /\ forall k, k <> session_id ->
       voice_sessions (w_committed w') !! k = voice_sessions (w_committed w) !! k.
Proof.
  intros Hs Hid Ht Hc. cbv zeta. unfold run_request.
  rewrite (keypress_cases _ _ _ _ s) by exact Hs.
  rewrite Ht, Z.eqb_refl. cbn [negb]. set (w0 := open_session w).
  change (w_now w0) with (w_now w). subst session_id.
  destruct (vs_expires_at s <=? w_now w) eqn:Ee; bool_props.
  - destruct (terminal_step (vs_step s)) eqn:El; cbn [negb when].
    + edestruct (prompt_run P_SESSION_EXPIRED) as [r Hr]. unfold bind at 1. simpl.
      unfold bind, ret in Hr |- *. erewrite Hr. simpl. split; [|done].
      exists s. split; [exact Hs|]. do 2 (split; [by auto|]). split; [exact Hc|]. by split; [lia|].
    + rewrite (bind_ok _ _ w0 tt _ (expire_run s w0 Hs El)).
      edestruct (prompt_run P_SESSION_EXPIRED) as [r Hr]. erewrite Hr. simpl.
      split; [|intros k Hk; by rewrite lookup_insert_ne].
      eexists. split; [apply lookup_insert_eq|]. split; [done|].
      split; [right; simpl; by destruct (vs_step s)|].
      split; [exact (expired_counters s Hc)|]. by split; [simpl; lia|].
  - destruct (terminal_step (vs_step s)) eqn:El.
    + edestruct (prompt_run P_SESSION_ALREADY_COMPLETE) as [r Hr]. erewrite Hr. simpl.
      split; [|done]. exists s. split; [exact Hs|]. do 2 (split; [by auto|]).
      split; [exact Hc|]. by split; [lia|].
    + assert (Hd : on_calls (call_row (pressed s) s (voice_sessions (w_committed w))) w0).
      { split; (split; [|done]); exists s; split; auto using pressed_refl. }
      pose proof (live_press_settles s _ El Hc key w0 Hd) as Ha.
      assert (Hw : on_calls (call_row (after_press s) s (voice_sessions (w_committed w)))
                     (live_press s key w0).2) by (by destruct (live_press s key w0) as [[a|e] w1]).
      destruct (live_press s key w0) as [r w1]. simpl in *.
      destruct Hw as [_ [(s' & Hs' & (Hsc & Hst) & Hc' & Hi) Ho]]. split; [|exact Ho].
      exists s'. do 5 (split; [done|]). split; [done|]. intros Hx. lia.
Qed.

(** One silent key press. *)
Definition stay_silent (session_id tenant_id : Z) (w : World) : World :=
  (run_request (handle_keypress session_id tenant_id "") w).2.

Lemma stay_silent_run session_id tenant_id w s :
  voice_sessions (w_committed w) !! session_id = Some s -> vs_id s = session_id ->
  vs_tenant_id s = tenant_id ->
  exists s', voice_sessions (w_committed (stay_silent session_id tenant_id w)) !! session_id = Some s'
    /\ vs_id s' = session_id /\ vs_tenant_id s' = tenant_id
    /\ (terminal_step (vs_step s) = true -> s' = s)
    /\ (terminal_step (vs_step s') = true
        \/ vs_no_input_count s' = vs_no_input_count s + 1 /\ vs_no_input_count s' < NO_INPUT_MAX).
Proof.
  intros Hs Hid Ht. unfold stay_silent, run_request.
  rewrite (keypress_cases _ _ _ _ s) by exact Hs.
  rewrite Ht, Z.eqb_refl. cbn [negb]. set (w0 := open_session w).
  change (w_now w0) with (w_now w). subst session_id.
  destruct (terminal_step (vs_step s)) eqn:El; cbn [negb when].
  - assert (Hsame : forall k, exists r,
      (if vs_expires_at s <=? w_now w
       then ret tt ;;; prompt <- resolve_prompt P_SESSION_EXPIRED (session_locale s) [] ;;
            ret (end_response prompt None)
       else prompt <- resolve_prompt k (session_locale s) [] ;; ret (end_response prompt None)) w0
      = (r, w0)).
    { intros k. destruct (vs_expires_at s <=? w_now w); apply prompt_run. }
    destruct (Hsame P_SESSION_ALREADY_COMPLETE) as [r Hr].
    destruct (vs_expires_at s <=? w_now w); rewrite Hr; simpl; exists s; split_and!; auto.
  - destruct (vs_expires_at s <=? w_now w).
    + rewrite (bind_ok _ _ w0 tt _ (expire_run s w0 Hs El)).
      edestruct (prompt_run P_SESSION_EXPIRED) as [r Hr]. erewrite Hr. simpl.
      eexists. split; [apply lookup_insert_eq|]. split_and!; simpl; try done; try (by left).
    + assert (Hp : pending s (voice_sessions (w_committed w)) (eq s) w0).
      { split; (split; [|done]); exists s; split; auto using pressed_refl. }
      pose proof (silence_counted s _ w0 Hp) as Ha. unfold live_press. simpl.
      destruct (handle_no_input s w0) as [[a|e] w1];
        destruct Ha as [_ [(s' & Hs' & H1 & H2 & H3) _]]; exists s'; simpl;
        (split; [exact Hs'|]); split_and!; try congruence; auto.
Qed.

(** Silence ends the call.  If the caller says nothing three times in a row, the call is
    finished, wherever in the menu it was and whether or not the requests themselves
    succeed. *)
Theorem three_silences_end_call session_id tenant_id w s :
  voice_sessions (w_committed w) !! session_id = Some s -> vs_id s = session_id ->
  vs_tenant_id s = tenant_id -> counters_ok s ->
  exists s', voice_sessions (w_committed (Nat.iter 3 (stay_silent session_id tenant_id) w))
               !! session_id = Some s'
    /\ terminal_step (vs_step s') = true.
Proof.
  intros Hs Hid Ht (Hn & _).
  change (Nat.iter 3 (stay_silent session_id tenant_id) w)
    with (stay_silent session_id tenant_id (stay_silent session_id tenant_id
            (stay_silent session_id tenant_id w))).
  assert (Hdone : forall w s, voice_sessions (w_committed w) !! session_id = Some s ->
    vs_id s = session_id -> vs_tenant_id s = tenant_id -> terminal_step (vs_step s) = true ->
    voice_sessions (w_committed (stay_silent session_id tenant_id w)) !! session_id = Some s).
  { intros w0 s0 H0 Hi0 Ht0 Hl0.
    destruct (stay_silent_run _ _ _ _ H0 Hi0 Ht0) as (s' & Hs' & _ & _ & He & _).
    by rewrite Hs', He. }
  destruct (stay_silent_run _ _ _ _ Hs Hid Ht) as (s1 & Hs1 & Hid1 & Ht1 & _ & [Hl1|[Hn1 _]]).
  { exists s1. split; [|done]. by do 2 (apply Hdone; try done). }
  destruct (stay_silent_run _ _ _ _ Hs1 Hid1 Ht1) as (s2 & Hs2 & Hid2 & Ht2 & _ & [Hl2|[Hn2 _]]).
  { exists s2. split; [|done]. by apply Hdone. }
  destruct (stay_silent_run _ _ _ _ Hs2 Hid2 Ht2) as (s3 & Hs3 & _ & _ & _ & [Hl3|[Hn3 Hlt]]).
  - by exists s3.
  - unfold NO_INPUT_MAX in Hlt. lia.
Qed.

(** ** The booking a call ends with *)

Definition has_phone (tenant_id business_id : Z) (phone : string) (c : Customer) : Prop :=
  cus_business_id c = business_id /\ cus_tenant_id c = tenant_id
  /\ cus_phone_normalized c = normalize_phone phone.

Abbreviation gives m phi := (triple (fun _ => True) m (fun a _ => phi a) (fun _ _ => True)).

Lemma gives_any {A} (m : PyM A) : gives m (fun _ => True).
Proof. intros w _. by destruct (m w) as [[]]. Qed.

Lemma found_customer tenant_id business_id phone :
  gives (customer_by_phone business_id tenant_id (normalize_phone phone))
    (fun o => forall c, o = Some c -> has_phone tenant_id business_id phone c).
Proof.
  apply triple_asks. intros w _ c Hc. apply head_filter_some in Hc as [_ Hf]. bool_props.
  match goal with Hq : String.eqb _ _ = true |- _ => apply String.eqb_eq in Hq end. done.
Qed.

(** The customer returned has the number asked for. *)
Lemma customer_of_phone tenant_id business_id phone name :
  gives (get_or_create_customer tenant_id business_id phone name)
    (has_phone tenant_id business_id phone).
Proof.
  unfold get_or_create_customer. eapply triple_bind; [apply gives_any|]. intros z. cbv zeta.
  eapply triple_bind; [eapply triple_conseq; [apply found_customer | done..]|].
  intros [c|]; [apply triple_ret; eauto|].
  apply triple_catch with (Y := fun _ _ => True).
  - intros w _. unfold bind, db_insert. simpl. destruct (_ !! _); [done|].
    by destruct (customer_violation _ _).
  - intros e m' He. destruct e; simplify_eq/=. eapply triple_bind; [apply gives_any|]. intros ?.
    eapply triple_bind; [eapply triple_conseq; [apply found_customer | done..]|].
    intros [c|]; [apply triple_ret; eauto | by apply triple_raise].
  - done.
Qed.

(** The call's row exists. *)
Definition has_call (s : VoiceSession) (V : gmap Z VoiceSession) : Prop :=
  exists s1, V !! vs_id s = Some s1 /\ vs_id s1 = vs_id s.

(** An assignment and its commit. *)
Lemma assign_commit_run s f w s1 :
  voice_sessions (w_db w) !! vs_id s = Some s1 -> vs_id s1 = vs_id s -> vs_id (f s1) = vs_id s1 ->
  exists w1, (assign s f ;;; commit) w = (Ok tt, w1)
    /\ ledger (w_committed w1) = ledger (w_db w)
    /\ exists t, voice_sessions (w_committed w1) !! vs_id s = Some ((f s1) <| vs_updated_at := t |>).
Proof.
  intros Hs1 Hid Hf. eexists. split.
  { unfold assign, bind at 1 2, refresh, asks. simpl. rewrite Hs1. reflexivity. }
  split; [done|]. simpl. rewrite Hf, Hid, lookup_insert_eq. rewrite Hs1.
  case_decide; [|by eexists]. exists (vs_updated_at (f s1)). by destruct (f s1).
Qed.

Lemma record_booking_run s booking_id slot key w :
  has_call s (voice_sessions (w_db w)) -> prompt_fields key = ["when"%string] ->
  exists r w' s', record_booking s booking_id slot key w = (Ok r, w')
    /\ rsp_action r = END_CALL
    /\ ledger (w_committed w') = ledger (w_db w)
    /\ voice_sessions (w_committed w') !! vs_id s = Some s'
    /\ vs_booking_id s' = Some booking_id /\ vs_step s' = STEP_BOOKING_CONFIRMED
    /\ vs_selected_slot_start s' = Some slot.1 /\ vs_selected_slot_end s' = Some slot.2.
Proof.
  intros (s1 & Hs1 & Hid) Hk.
  set (f := fun s : VoiceSession => s <| vs_booking_id := Some booking_id |>
    <| vs_selected_slot_start := Some slot.1 |> <| vs_selected_slot_end := Some slot.2 |>
    <| vs_step := STEP_BOOKING_CONFIRMED |>).
  destruct (assign_commit_run s f w s1 Hs1 Hid) as (w1 & Ha & Hl & t & Hs'); [done|].
  destruct (resolve_prompt_total key (session_locale s)
    [("when"%string, format_slot slot.1 slot.2)] w1) as [text Ht].
  { rewrite Hk. intros f' [<-|[]]. by eexists. }
  exists (end_response text (Some (vs_id s))), w1, ((f s1) <| vs_updated_at := t |>).
  split; [|by auto 10].
  unfold record_booking. fold f.
  unfold bind in Ha |- *. destruct (assign s f w) as [[a|e] w2]; [|done].
  destruct (commit w2) as [[u|e] w3]; [|done]. injection Ha as _ ->. by rewrite Ht.
Qed.

(** [create_booking] for the caller. *)
Lemma book_selected_spec D s c starts_at :
  ledger_wf D ->
  triple (fun w => at_ledger D D w /\ on_calls (has_call s) w) (book_selected s c starts_at)
    (fun b w => (exists L, booking_steps [Booked b] D L /\ at_ledger L L w) /\ on_calls (has_call s) w
       /\ exists service_id, vs_selected_service_id s = Some service_id
       /\ requested_booking (vs_tenant_id s) (vs_business_id s) (cus_id c) service_id
            (vs_selected_staff_id s) starts_at CONFIRMED SOURCE_IVR b)
    (fun _ w => ledger (w_committed w) = D).
Proof.
  intros Hwf. unfold book_selected. destruct (vs_selected_service_id s) as [k|].
  - eapply triple_conseq; [apply triple_and; [by apply create_booking_implements
      | apply (calls_create_booking (has_call s))] | done | |].
    + intros b w [(es & L & (-> & Hr) & Hs & Hw) Hc]. eauto 10.
    + by intros e w [Ha _].
  - eapply triple_conseq; [apply triple_and; [|apply gives_any] | by intros w [Hw _]; split
      | | intros e w [Ha _]; exact Ha].
    { apply then_keeps; [keeps_steps|]. intros ?. apply then_keeps; [keeps_steps|]. intros ?.
      apply (raise_aborted _ _ _ (fun _ _ => False)). }
    by intros b w [[] _].
Qed.


(** ** The slots a call offers *)

Lemma find_slots_loop_run s service_id staff_id days (f : Z -> list (Z * Z)) w acc :
  (forall day, In day days ->
     get_available_slots (vs_tenant_id s) (vs_business_id s) service_id staff_id day w
     = (Ok (f day), w)) ->
  exists l, find_slots_loop s service_id staff_id days acc w = (Ok l, w)
    /\ take (Z.to_nat ivr_max_slots) l
       = take (Z.to_nat ivr_max_slots) (acc ++ concat (map f days)).
Proof.
  revert acc. induction days as [|d days IH]; intros acc Hd; simpl.
  { exists acc. by rewrite app_nil_r. }
  rewrite (bind_ok _ _ w (f d) w) by (apply Hd; by left). cbv zeta.
  destruct (ivr_max_slots <=? _) eqn:E; bool_props.
  - exists (acc ++ f d). split; [done|]. rewrite app_assoc.
    rewrite (take_app_le (acc ++ f d)) by lia. done.
  - destruct (IH (acc ++ f d)) as (l & Hl & Ht); [by intros; apply Hd; right|].
    exists l. rewrite Ht, app_assoc. done.
Qed.

(** The voice menu offers the next free slots.  When the searches for the coming days
    succeed, [_find_slots] returns the first [ivr_max_slots] of the available slots of
    today and the following days, in order, although it stops searching as soon as it
    has enough; and it changes nothing. *)
Theorem menu_offers_next_slots s service_id staff_id (f : Z -> list (Z * Z)) w :
  (forall day, utc_date (w_now w) <= day < utc_date (w_now w) + ivr_slot_search_days ->
     get_available_slots (vs_tenant_id s) (vs_business_id s) service_id staff_id day w
     = (Ok (f day), w)) ->
  find_slots s service_id staff_id w
  = (Ok (take (Z.to_nat ivr_max_slots)
          (concat (map (fun i => f (utc_date (w_now w) + Z.of_nat i))
                     (seq 0 (Z.to_nat ivr_slot_search_days))))), w).
Proof.
  intros Hd. unfold find_slots. rewrite (bind_ok _ _ w (w_now w) w) by done. cbv zeta.
  edestruct (find_slots_loop_run s service_id staff_id
    (map (fun i => utc_date (w_now w) + Z.of_nat i) (seq 0 (Z.to_nat ivr_slot_search_days)))
    f w []) as (l & Hl & Ht).
  { intros day Hin. apply in_map_iff in Hin as (i & <- & Hi). apply in_seq in Hi.
    apply Hd. lia. }
  rewrite (bind_ok _ _ w l w Hl), Ht. simpl. by rewrite map_map.
Qed.
End Calls.
