(* ===== verification/Worker.v ===== *)
(** * Worker: app/worker.py

    One tick of the background worker: poll the queues in a fixed order, run the
    job's handler in a session of its own, then acknowledge, schedule a retry or
    move the job to the failed list; and the periodic maintenance.

    What [str(exc)] gives for an exception is a parameter, [ExnText]. *)

From S2P Require Import Prelude Py Effects Schema Settings Orm AuditTrail JobQueue Providers.
From S2P Require Import Frames Users Auth PasswordReset Uploads PublicLink Webhooks.
From S2P Require Import Notifications Calendar Waitlist Booking Ivr.

Definition KNOWN_JOB_TYPES : list string :=
  [SEND_PASSWORD_RESET_EMAIL_JOB; SEND_NOTIFICATION_JOB; VERIFY_PRESIGNED_UPLOAD_JOB;
   SYNC_CALENDAR_EVENT_JOB; CANCEL_CALENDAR_EVENT_JOB].

(** [job.payload[k]] *)
Fixpoint payload_get (k : string) (p : list (string * Z)) : PyM Z :=
  match p with
  | [] => raise (KeyError k)
  | (k', v) :: rest => if String.eqb k k' then ret v else payload_get k rest
  end.

(** [str(exc)] *)
Class ExnText : Type := { str_exn : Exn -> string }.

(** [db = SessionLocal(); try: ... finally: db.close()] *)
Definition in_session {A} (m : PyM A) : PyM A := run_request m.

Section Worker.
Context `{Config} `{Providers} `{ExnText}.

Definition handle_job (job : Job) : PyM unit :=
  if String.eqb (job_type job) SEND_PASSWORD_RESET_EMAIL_JOB then
    user_id <- payload_get "user_id" (job_payload job) ;;
    in_session (create_password_reset_token_and_send_email user_id (Some (job_id job)))
  else if String.eqb (job_type job) SEND_NOTIFICATION_JOB then
    notification_id <- payload_get "notification_id" (job_payload job) ;;
    in_session (send_notification_in_worker notification_id)
  else if String.eqb (job_type job) VERIFY_PRESIGNED_UPLOAD_JOB then
    uploaded_file_id <- payload_get "uploaded_file_id" (job_payload job) ;;
    in_session (verify_presigned_upload_in_worker uploaded_file_id)
  else if String.eqb (job_type job) SYNC_CALENDAR_EVENT_JOB then
    event_id <- payload_get "event_id" (job_payload job) ;;
    in_session (sync_calendar_event_in_worker event_id)
  else if String.eqb (job_type job) CANCEL_CALENDAR_EVENT_JOB then
    event_id <- payload_get "event_id" (job_payload job) ;;
    in_session (cancel_calendar_event_in_worker event_id)
  else raise (UnknownJobTypeError (job_type job)).

(** The polling loop: the first non-empty queue gives the job. *)
Fixpoint poll (job_types : list string) : PyM (option Job) :=
  match job_types with
  | [] => ret None
  | t :: rest =>
      job <- dequeue_job (queue_name_for_job_type t) ;;
      match job with
      | Some j => ret (Some j)
      | None => poll rest
      end
  end.

(** The [except] clauses of [process_next_job]. *)
Definition on_job_error (job : Job) (e : Exn) : option (PyM bool) :=
  match e with
  | NonTermination => None
  | UnknownJobTypeError _ =>
      Some (move_job_to_failed_queue job (Some (str_exn e)) ;;; ret true)
  | _ =>
      Some (if job_attempts job <? worker_max_retries
            then schedule_retry job (str_exn e) ;;; ret true
            else move_job_to_failed_queue job (Some (str_exn e)) ;;; ret true)
  end.

(** What happens to a dequeued job: [ack_job] is outside the [try]. *)
Definition run_job (job : Job) : PyM bool :=
  fun w => match handle_job job w with
           | (Ok _, w') => (ack_job job ;;; ret true) w'
           | (Raise e, w') =>
               match on_job_error job e with
               | Some handler => handler w'
               | None => (Raise e, w')
               end
           end.

Definition process_next_job : PyM bool :=
  job <- poll KNOWN_JOB_TYPES ;;
  match job with
  | None => ret false
  | Some j => run_job j
  end.

Definition maintenance_tasks : PyM unit :=
  cleanup_expired_password_reset_tokens ;;;
  cleanup_expired_idempotency_records ;;;
  cleanup_old_webhook_events ;;;
  cleanup_old_audit_logs ;;;
  expire_stale_sessions ;;;
  enqueue_due_reminders ;;;
  expire_stale_waitlist_offers ;;;
  reconcile_stale_notifications ;;;
  reconcile_stale_calendar_events ;;;
  expire_stale_payment_holds ;;;
  ret tt.

Definition run_scheduled_maintenance : PyM bool :=
  if negb worker_maintenance_enabled then ret false
  else
    acquired <- try_acquire_maintenance_lock worker_maintenance_interval_seconds ;;
    if negb acquired then ret false
    else in_session maintenance_tasks ;;; get_failed_queue_depth ;;; ret true.

(** The body of [maybe_run_queue_maintenance]. *)
Definition run_queue_maintenance : PyM unit :=
  reclaim_stale_processing_jobs ;;;
  promote_delayed_jobs (Some worker_queue_promote_batch_size) ;;;
  ret tt.
End Worker.

(** ** What becomes of a dequeued job *)

Section JobOutcome.
Context `{Config} `{Providers} `{ExnText}.

(** A handler works on the database and on plain keys of Redis, never on the queues. *)
Definition queues_are (lists : gmap string (list raw_job)) (zsets : gmap string (list (raw_job * Z)))
    (r : Redis) : Prop := r_lists r = lists /\ r_zsets r = zsets.

Lemma handlers_leave_queues l z j :
  keeps (fun w => queues_are l z (w_redis w)) (handle_job j).
Proof.
  assert (Hd : forall A (f : Z -> A), keeps (fun w => queues_are l z (w_redis w)) (draw f))
    by by intros A f w Hw.
  assert (Hp : forall A (f : World -> Result Exn A),
    keeps (fun w => queues_are l z (w_redis w)) (call_provider f)).
  { intros A f w Hw. unfold call_provider. by destruct (f w). }
  assert (Hk : forall A `{Entity A} k, keeps (fun w => queues_are l z (w_redis w)) (one_pk (A := A) k)).
  { intros A HA k. unfold one_pk. keeps_steps. }
  assert (Hg : forall k p, keeps (fun w => queues_are l z (w_redis w)) (payload_get k p)).
  { intros k p. induction p as [|[k' v] p IH]; simpl; keeps_steps. }
  assert (Hm : forall k, keeps (fun w => queues_are l z (w_redis w))
                           (mark_password_reset_job_completed k)).
  { intros k. unfold mark_password_reset_job_completed. redis_steps.
    by apply (redis_command (queues_are l z)). }
  unfold handle_job, in_session. redis_steps; try apply Hg; apply (redis_request (queues_are l z)).
  - unfold create_password_reset_token_and_send_email, is_password_reset_job_done,
      is_password_reset_job_completed, is_password_reset_job_completed_in_db,
      generate_password_reset_token, send_password_reset_email, send_email.
    redis_steps; first [apply Hd | apply Hm].
  - unfold send_notification_in_worker. redis_steps; apply Hp.
  - unfold verify_presigned_upload_in_worker, verify_stored_object_content, get_object_metadata,
      assert_stored_metadata_matches, download_object_body, validate_content_sniff,
      run_malware_scan, ensure_malware_scan_is_clean. redis_steps.
  - unfold sync_calendar_event_in_worker, get_calendar_integration.
    redis_steps; first [apply Hp | by apply Hk].
  - unfold cancel_calendar_event_in_worker. redis_steps; first [apply Hp | by apply Hk].
Qed.

Lemma in_set_score raw score l : (raw, score) ∈ set_score raw score l.
Proof.
  induction l as [|m l IH]; simpl; [by left|]. case_decide; [by left | by right].
Qed.

Lemma ack_removes j w :
  in_processing j w ->
  exists w', (ack_job j ;;; ret true) w = (Ok true, w')
    /\ to_json j :: documents (w_redis w') ≡ₚ documents (w_redis w).
Proof.
  intros Hin. pose proof (documents_lrem _ _ _ Hin) as Hd.
  unfold ack_job, bind, redis. destruct (lrem _ _ _) as [x r]. eexists. split; [reflexivity|].
  exact Hd.
Qed.

Lemma retry_run j message w :
  exists w', (schedule_retry j message ;;; ret true) w = (Ok true, w')
    /\ (schedule_retry j message w).2 = w'
    /\ let j' := with_error message (with_next_attempt j) in
       (to_json j', w_now w + timedelta_seconds (calculate_retry_delay_seconds (job_attempts j + 1)))
         ∈ get_zset worker_delayed_queue_name (w_redis w').
Proof.
  unfold schedule_retry, bind, now_utc, asks, redis, redis_, modify, ret. simpl.
  destruct (lrem _ _ _) as [x r]. simpl. eexists. split; [reflexivity|]. split; [reflexivity|].
  simpl. unfold zadd, get_zset, set_zset. simpl. rewrite lookup_insert_eq. simpl.
  rewrite (Z.add_comm 1). apply in_set_score.
Qed.

Lemma failed_run j message w :
  exists w', (move_job_to_failed_queue j (Some message) ;;; ret true) w = (Ok true, w')
    /\ (move_job_to_failed_queue j (Some message) w).2 = w'
    /\ head (get_list worker_failed_queue_name (w_redis w'))
       = Some (to_json (with_error message (with_failed_at (w_now w) j))).
Proof.
  unfold move_job_to_failed_queue, bind, now_utc, asks, redis, redis_, modify, ret. simpl.
  destruct (lrem _ _ _) as [x r]. simpl. eexists. split; [reflexivity|]. split; [reflexivity|].
  simpl. unfold lpush, get_list, set_list. simpl. by rewrite lookup_insert_eq.
Qed.

(** Whether an exception is retried. *)
Definition retried (j : Job) (e : Exn) : bool :=
  match e with UnknownJobTypeError _ => false | _ => job_attempts j <? worker_max_retries end.

Lemma retried_handler j e :
  e <> NonTermination ->
  on_job_error j e = Some (if retried j e then schedule_retry j (str_exn e) ;;; ret true
                           else move_job_to_failed_queue j (Some (str_exn e)) ;;; ret true).
Proof. unfold on_job_error, retried. by destruct e; try destruct (_ <? _). Qed.

Lemma queues_same w w1 j :
  queues_are (r_lists (w_redis w)) (r_zsets (w_redis w)) (w_redis w1) ->
  queues_ok (w_redis w) -> in_processing j w ->
  job_ids (w_redis w1) = job_ids (w_redis w) /\ queues_ok (w_redis w1) /\ in_processing j w1.
Proof.
  intros [Hl Hz] Hok Hin. unfold in_processing, queues_ok, job_ids, documents, get_list, get_zset in *.
  by rewrite Hl, Hz.
Qed.

(** C17: the worker never loses a job and never retries one for ever.  Take a job being
    processed whose handler ends.  Handled, the job is
    removed and every other job is kept.  If the handler raised, all jobs are kept and
    this one is either scheduled once more, with its attempt count increased and the
    back-off delay for that count, which happens only while the count is below
    [worker_max_retries], or put at the head of the failed list with the error and the
    time: at the latest when the count has reached the maximum, and at once for an
    unknown job type. *)
Theorem job_outcome j w r w1 :
  queues_ok (w_redis w) -> in_processing j w ->
  handle_job j w = (r, w1) -> r <> Raise NonTermination ->
  exists w', run_job j w = (Ok true, w') /\
  match r with
  | Ok _ => job_id j :: job_ids (w_redis w') ≡ₚ job_ids (w_redis w)
  | Raise e =>
      job_ids (w_redis w') ≡ₚ job_ids (w_redis w)
      /\ if retried j e
         then job_attempts j < worker_max_retries
              /\ (to_json (with_error (str_exn e) (with_next_attempt j)),
                  w_now w1 + timedelta_seconds (calculate_retry_delay_seconds (job_attempts j + 1)))
                 ∈ get_zset worker_delayed_queue_name (w_redis w')
         else head (get_list worker_failed_queue_name (w_redis w'))
              = Some (to_json (with_error (str_exn e) (with_failed_at (w_now w1) j)))
  end.
Proof.
  intros Hok Hin Hrun Hnt. unfold run_job. rewrite Hrun.
  assert (Hq : queues_are (r_lists (w_redis w)) (r_zsets (w_redis w)) (w_redis w1)).
  { pose proof (handlers_leave_queues _ _ j w (conj eq_refl eq_refl)) as Hq. rewrite Hrun in Hq.
    by destruct r. }
  destruct (queues_same w w1 j Hq Hok Hin) as (Hids & [Hh Hnd]%queues_ok_holds & Hin1).
  rewrite <- Hids. destruct r as [u|e].
  - destruct (ack_removes j w1 Hin1) as (w' & Hw' & Hd). exists w'. split; [done|].
    unfold job_ids. rewrite <- Hd. simpl. by rewrite raw_id_to_json.
  - rewrite retried_handler by congruence. destruct (retried j e) eqn:Er.
    + destruct (retry_run j (str_exn e) w1) as (w' & Hw' & Hw'' & Hz). exists w'.
      split; [done|]. split; [|split; [|exact Hz]].
      * pose proof (schedule_retry_holds _ j (str_exn e) Hnd w1 (conj Hh Hin1)) as Ht.
        destruct (schedule_retry j (str_exn e) w1) as [[a|x] w2]; [|done]. simpl in Hw''. subst w2.
        apply Ht.
      * unfold retried in Er. destruct e; bool_props; done.
    + destruct (failed_run j (str_exn e) w1) as (w' & Hw' & Hw'' & Hf). exists w'.
      split; [done|]. split; [|exact Hf].
      pose proof (move_to_failed_holds _ j (Some (str_exn e)) w1 (conj Hh Hin1)) as Ht.
      destruct (move_job_to_failed_queue j (Some (str_exn e)) w1) as [[a|x] w2]; [|done].
      simpl in Hw''. subst w2. apply Ht.
Qed.
End JobOutcome.
