(* ===== verification/System.v ===== *)
(** * System: every entry point of the modelled program, and what no sequence of
    them can break

    [Request] lists the operations that a client, the voice channel, an SMS or the
    worker can trigger; [execute] runs one in a session of its own.  [evolves]
    says that an operation only changes the durable ledger through events of the
    booking machine, whatever it returns or raises. *)

From S2P Require Import Prelude Py Effects Schema Settings Orm AuditTrail Directory Schedule JobQueue.
From S2P Require Import PublicLink Providers Notifications Calendar Waitlist Booking.
From S2P Require Import BookingMachine Frames SessionFrames BookingRefinement SelfService Availability IvrPrompts Ivr.
From S2P Require Import Tenancy Auth RateLimit Twilio IvrCalls Onboarding Seeds Accounts Worker.

(** ** Operations that evolve the ledger *)

Definition evolved (D : Ledger) (w : World) : Prop :=
  exists es, booking_steps es D (ledger (w_committed w)).

(** On return the session is clean, so that a further operation can follow. *)
Definition evolves {A} (m : PyM A) : Prop :=
  forall D, ledger_wf D ->
    triple (at_ledger D D) m
      (fun _ w => exists es L, booking_steps es D L /\ at_ledger L L w)
      (fun _ w => evolved D w).

(** The last operation of a request may leave unsaved changes: they are discarded. *)
Definition durably {A} (m : PyM A) : Prop :=
  forall D, ledger_wf D ->
    triple (at_ledger D D) m (fun _ w => evolved D w) (fun _ w => evolved D w).

Create HintDb evolve.

Lemma at_ledger_evolved es D L w : booking_steps es D L -> at_ledger L L w -> evolved D w.
Proof. intros Hs [_ HL]. exists es. by rewrite HL. Qed.

Lemma unchanged_evolved D w : ledger (w_committed w) = D -> evolved D w.
Proof. intros <-. exists []. constructor. Qed.

Lemma evolves_durably {A} (m : PyM A) : evolves m -> durably m.
Proof.
  intros Hm D Hwf. eapply triple_conseq; [by apply Hm | done | | done].
  intros a w (es & L & Hs & Hw). by eapply at_ledger_evolved.
Qed.

Lemma evolves_keeps {A} (m : PyM A) : (forall L, keeps (at_ledger L L) m) -> evolves m.
Proof.
  intros Hk D Hwf. eapply triple_conseq; [apply (Hk D) | done | |].
  - intros a w Hw. exists [], D. split; [constructor | done].
  - intros e w [_ HD]. by apply unchanged_evolved.
Qed.

Lemma evolves_implements {A} (m : PyM A) spec :
  (forall D, ledger_wf D -> implements D m (spec D)) -> evolves m.
Proof.
  intros Hi D Hwf. eapply triple_conseq; [by apply Hi | done | |].
  - intros a w (es & L & _ & Hs & Hw). eauto.
  - intros e w Ha. by apply unchanged_evolved.
Qed.

Lemma evolved_trans es D L w : booking_steps es D L -> evolved L w -> evolved D w.
Proof. intros Hs [es' Hs']. exists (es ++ es'). by eapply booking_steps_app. Qed.

Lemma evolves_bind {A B} (m : PyM A) (k : A -> PyM B) :
  evolves m -> (forall a, evolves (k a)) -> evolves (bind m k).
Proof.
  intros Hm Hk D Hwf. eapply triple_bind; [by apply Hm|]. intros a w (es & L & Hs & Hw).
  pose proof (Hk a L (booking_steps_wf _ _ _ Hs Hwf) w Hw) as Ht.
  destruct (k a w) as [[b|e] w'].
  - destruct Ht as (es' & L' & Hs' & Hw'). eauto using booking_steps_app.
  - by eapply evolved_trans.
Qed.

Lemma durably_bind {A B} (m : PyM A) (k : A -> PyM B) :
  evolves m -> (forall a, durably (k a)) -> durably (bind m k).
Proof.
  intros Hm Hk D Hwf. eapply triple_bind; [by apply Hm|]. intros a w (es & L & Hs & Hw).
  pose proof (Hk a L (booking_steps_wf _ _ _ Hs Hwf) w Hw) as Ht.
  destruct (k a w) as [[b|e] w']; by eapply evolved_trans.
Qed.

Lemma evolves_fold_m {A B} (l : list A) (body : B -> A -> PyM B) acc :
  (forall b x, evolves (body b x)) -> evolves (fold_m l acc body).
Proof.
  intros Hb. revert acc. induction l as [|x l IH]; intros acc; simpl.
  - apply evolves_keeps. eauto with ledger.
  - by apply evolves_bind.
Qed.

(** A handler that rolls back starts from the durable state. *)
Lemma evolves_catch_rollback {A} (m : PyM A) (h : Exn -> option (PyM A)) :
  evolves m ->
  (forall e m', h e = Some m' -> exists a, m' = (rollback ;;; ret a)) ->
  evolves (catch m h).
Proof.
  intros Hm Hh D Hwf. eapply triple_catch; [by apply Hm | | done].
  intros e m' He. destruct (Hh e m' He) as [a ->]. intros w [es Hs]. simpl.
  eexists es, _. split; [exact Hs|]. by split.
Qed.

(** A handler that swallows the exception ends the request. *)
Lemma durably_catch_swallow {A} (m : PyM A) (h : Exn -> option (PyM A)) :
  durably m -> (forall e m', h e = Some m' -> exists a, m' = ret a) -> durably (catch m h).
Proof.
  intros Hm Hh D Hwf. eapply triple_catch; [by apply Hm, Hwf | | done].
  intros e m' He. destruct (Hh e m' He) as [a ->]. by intros w Hw.
Qed.

Lemma durably_ret_after {A B} (m : PyM A) (b : B) : durably m -> durably (m ;;; ret b).
Proof.
  intros Hm D Hwf. eapply triple_bind; [by apply Hm|]. intros a. by apply triple_ret.
Qed.

(** Whatever follows only looks at the state. *)
Lemma durably_then {A B} (m : PyM A) (k : A -> PyM B) :
  durably m -> (forall P a, keeps P (k a)) -> durably (bind m k).
Proof.
  intros Hm Hk D Hwf. eapply triple_bind; [by apply Hm|]. intros a. apply (Hk (evolved D)).
Qed.

(** One session: it starts on the durable state and what is not committed is gone. *)
Lemma run_request_evolved {A} (m : PyM A) w :
  durably m -> ledger_wf (ledger (w_committed w)) ->
  evolved (ledger (w_committed w)) (run_request m w).2.
Proof.
  intros Hm Hwf. unfold run_request.
  pose proof (Hm _ Hwf (open_session w) (conj eq_refl eq_refl)) as Ht.
  by destruct (m (open_session w)) as [[a|e] w'].
Qed.

(** ** The operations *)

Ltac frame_op := apply evolves_keeps; intros; keeps_steps.

Ltac unfold_twilio :=
  unfold required_field, enforce_voice_rate_limit, enforce_sms_status_rate_limit,
    enforce_sms_inbound_rate_limit, enforce_rate_limit_counter.

(** What can be asked of the system. *)
Inductive Request : Type :=
  | CreateBusiness (tenant_id : Z) (name timezone : string) (f : BusinessFields)
  | UpdateBusiness (business_id tenant_id : Z) (u : BusinessUpdate)
  | CreateService (tenant_id business_id : Z) (name : string) (duration_minutes : Z)
      (price : option Z) (currency : option string) (deposit_required : bool) (deposit : option Z)
  | UpdateService (service_id business_id tenant_id : Z) (u : ServiceUpdate)
  | DeleteService (service_id tenant_id business_id : Z)
  | CreateStaff (tenant_id business_id : Z) (name : string) (phone : option string)
  | UpdateStaff (staff_id business_id tenant_id : Z) (name phone : option string)
      (is_active : option bool)
  | GetOrCreateCustomer (tenant_id business_id : Z) (phone : string) (name : option string)
  | UpdateCustomer (customer_id business_id tenant_id : Z) (name : option string)
  | GdprDeleteCustomer (customer_id business_id tenant_id : Z) (actor_id : option Z)
  | CreateClient (tenant_id business_id : Z) (name : string) (customer_id : option Z)
      (email phone notes : option string)
  | UpdateClient (client_id business_id tenant_id : Z) (name email phone notes : option string)
  | CreateWorkingHours (tenant_id business_id : Z) (staff_id : option Z) (day start end_ : Z)
  | UpdateWorkingHours (wh_id tenant_id business_id : Z) (start end_ : option Z)
  | DeleteWorkingHours (wh_id tenant_id business_id : Z)
  | CreateException (tenant_id business_id : Z) (staff_id : option Z) (date : Z)
      (is_closed : bool) (start end_ : option Z) (reason : option string)
  | CreateBlock (tenant_id business_id : Z) (staff_id : option Z) (day start end_ : Z)
      (reason : option string)
  | DeleteException (exception_id tenant_id business_id : Z)
  | DeleteBlock (block_id tenant_id business_id : Z)
  | CreateTransferHours (tenant_id business_id day start end_ : Z)
  | DeleteTransferHours (entry_id business_id tenant_id : Z)
  | CreateWaitlistEntry (tenant_id business_id customer_id service_id date : Z)
      (staff_id : option Z)
  | UpdateWaitlistEntry (entry_id tenant_id : Z) (status : WaitlistEntryStatus)
  | CreateBooking (tenant_id business_id customer_id service_id : Z) (staff_id : option Z)
      (starts_at : Z) (source : string) (actor_id : option Z) (override : bool)
      (reason : option string)
  | CreateHold (tenant_id business_id customer_id service_id : Z) (staff_id : option Z)
      (starts_at : Z) (provider : string) (session : option string) (source : string)
  | ConfirmPayment (booking_id business_id tenant_id : Z) (reference : option string)
      (source : string)
  | ExpireHold (booking_id business_id tenant_id : Z)
  | RefundPayment (booking_id business_id tenant_id : Z) (actor_id : option Z)
      (reason : option string)
  | CancelBooking (booking_id business_id tenant_id : Z) (reason : option string)
      (actor_id : option Z) (override : bool)
  | RescheduleBooking (booking_id business_id tenant_id new_starts_at : Z)
      (reason : option string) (actor_id : option Z) (source : string)
  | AddLineItem (booking_id tenant_id service_id : Z)
  | SmsInbound (request : TwilioRequest) (business_id : Z)
  | PublicCancel (token : string) (reason : option string)
  | PublicReschedule (token : string) (new_starts_at : Z) (reason : option string)
  | SmsStatus (request : TwilioRequest)
  | VoiceInbound (request : TwilioRequest)
  | VoiceKeypress (request : TwilioRequest) (session_id : Z)
  | StartCall (business_id tenant_id : Z) (caller_phone : string)
  | KeyPress (session_id tenant_id : Z) (key : string)
  | OnboardBusiness (tenant_id : Z) (request : OnboardingSetupRequest)
  | SubmitLead (body : OwnerLeadCreate)
  | UpdateLeadStatus (lead_id : Z) (status : LeadStatus)
  | Account (r : AccountRequest).

(** The bodies of the operations, for the proofs about a request. *)
Ltac unfold_directory :=
  unfold create_business, update_business, create_service, update_service,
    delete_service, create_staff, update_staff, get_or_create_customer, update_customer,
    gdpr_delete_customer, customer_by_phone, check_deposit_fields, require_staff_in_business,
    require_staff, get_staff, create_client, update_client, require_client_in_business,
    require_client, get_client, require_customer_in_business, require_customer, get_customer,
    setup_business_onboarding, get_reusable_signup_business, create_owner_lead,
    update_owner_lead_status, require_owner_lead, get_owner_lead.
Ltac unfold_schedule :=
  unfold create_working_hours, create_availability_exception, ensure_no_conflicting_exception,
    check_exception_overlap, create_recurring_staff_block, ensure_no_conflicting_block,
    create_waitlist_entry, require_customer, get_customer, require_service, get_service,
    require_staff, get_staff, update_waitlist_entry_status, require_waitlist_entry,
    get_waitlist_entry, add_booking_line_item, require_booking, get_booking,
    update_working_hours, delete_working_hours, require_working_hours_in_business,
    require_working_hours, get_working_hours, delete_availability_exception,
    require_availability_exception_in_business, require_availability_exception,
    get_availability_exception, delete_recurring_staff_block,
    require_recurring_staff_block_in_business, require_recurring_staff_block,
    get_recurring_staff_block, create_transfer_hours, delete_transfer_hours,
    require_transfer_hours, get_transfer_hours.

Section Requests.
Context `{Config} `{Providers}.

Definition execute (r : Request) : PyM unit :=
  match r with
  | CreateBusiness t n z f => create_business t n z f ;;; ret tt
  | UpdateBusiness b t u => update_business b t u ;;; ret tt
  | CreateService t b n d p c q a => create_service t b n d p c q a ;;; ret tt
  | UpdateService s b t u => update_service s b t u ;;; ret tt
  | DeleteService s t b => delete_service s t b ;;; ret tt
  | CreateStaff t b n p => create_staff t b n p ;;; ret tt
  | UpdateStaff s b t n p a => update_staff s b t n p a ;;; ret tt
  | GetOrCreateCustomer t b p n => get_or_create_customer t b p n ;;; ret tt
  | UpdateCustomer c b t n => update_customer c b t n ;;; ret tt
  | GdprDeleteCustomer c b t a => gdpr_delete_customer c b t a ;;; ret tt
  | CreateClient t b n c e p o => create_client t b n c e p o ;;; ret tt
  | UpdateClient c b t n e p o => update_client c b t n e p o ;;; ret tt
  | CreateWorkingHours t b s d x y => create_working_hours t b s d x y ;;; ret tt
  | UpdateWorkingHours h t b x y => update_working_hours h t b x y ;;; ret tt
  | DeleteWorkingHours h t b => delete_working_hours h t b
  | CreateException t b s d c x y r => create_availability_exception t b s d c x y r ;;; ret tt
  | CreateBlock t b s d x y r => create_recurring_staff_block t b s d x y r ;;; ret tt
  | DeleteException e t b => delete_availability_exception e t b
  | DeleteBlock k t b => delete_recurring_staff_block k t b
  | CreateTransferHours t b d x y => create_transfer_hours t b d x y ;;; ret tt
  | DeleteTransferHours e b t => delete_transfer_hours e b t
  | CreateWaitlistEntry t b c s d st => create_waitlist_entry t b c s d st ;;; ret tt
  | UpdateWaitlistEntry e t s => update_waitlist_entry_status e t s ;;; ret tt
  | CreateBooking t b c s st at_ src a o r => create_booking t b c s st at_ src a o r ;;; ret tt
  | CreateHold t b c s st at_ p ses src =>
      create_pending_payment_hold t b c s st at_ p ses src ;;; ret tt
  | ConfirmPayment k b t p s => confirm_booking_payment k b t p s ;;; ret tt
  | ExpireHold k b t => expire_pending_payment_hold k b t ;;; ret tt
  | RefundPayment k b t a r => refund_booking_payment k b t a r ;;; ret tt
  | CancelBooking k b t r a o => cancel_booking k b t r a o ;;; ret tt
  | RescheduleBooking k b t n r a s => reschedule_booking k b t n r a s ;;; ret tt
  | AddLineItem k t s => add_booking_line_item k t s ;;; ret tt
  | SmsInbound r b => twilio_sms_inbound r b
  | PublicCancel k r => cancel_public_booking k r ;;; ret tt
  | PublicReschedule k n r => reschedule_public_booking k n r ;;; ret tt
  | SmsStatus r => twilio_sms_status r
  | VoiceInbound r => twilio_voice_inbound r ;;; ret tt
  | VoiceKeypress r k => twilio_voice_keypress r k ;;; ret tt
  | StartCall b t p => start_session b t p ;;; ret tt
  | KeyPress s t k => handle_keypress s t k ;;; ret tt
  | OnboardBusiness t r => setup_business_onboarding t r ;;; ret tt
  | SubmitLead b => create_owner_lead b ;;; ret tt
  | UpdateLeadStatus k s => update_owner_lead_status k s ;;; ret tt
  | Account r => execute_account r
  end.

(** *** Operations outside the ledger *)

Lemma evolves_directory r :
  match r with
  | CreateBusiness _ _ _ _ | UpdateBusiness _ _ _ | CreateService _ _ _ _ _ _ _ _
  | UpdateService _ _ _ _ | DeleteService _ _ _ | CreateStaff _ _ _ _ | UpdateStaff _ _ _ _ _ _
  | GetOrCreateCustomer _ _ _ _ | UpdateCustomer _ _ _ _ | GdprDeleteCustomer _ _ _ _
  | CreateClient _ _ _ _ _ _ _ | UpdateClient _ _ _ _ _ _ _ | OnboardBusiness _ _ | SubmitLead _
  | UpdateLeadStatus _ _ => True
  | _ => False
  end -> evolves (execute r).
Proof.
  destruct r; try done; intros _; unfold execute;
    unfold_directory;
    frame_op.
Qed.

Lemma evolves_schedule r :
  match r with
  | CreateWorkingHours _ _ _ _ _ _ | CreateException _ _ _ _ _ _ _ _ | CreateBlock _ _ _ _ _ _ _
  | CreateWaitlistEntry _ _ _ _ _ _ | UpdateWaitlistEntry _ _ _ | AddLineItem _ _ _
  | UpdateWorkingHours _ _ _ _ _ | DeleteWorkingHours _ _ _ | DeleteException _ _ _
  | DeleteBlock _ _ _ | CreateTransferHours _ _ _ _ _ | DeleteTransferHours _ _ _ => True
  | _ => False
  end -> evolves (execute r).
Proof.
  destruct r; try done; intros _; unfold execute;
    unfold_schedule;
    frame_op.
Qed.
(** *** Operations on the ledger *)

Lemma evolves_cancel k b t r a o : evolves (cancel_booking k b t r a o).
Proof. eapply evolves_implements. intros D. apply cancel_implements. Qed.

Lemma evolves_create t b c s st at_ src a o r : evolves (create_booking t b c s st at_ src a o r).
Proof. eapply evolves_implements. intros D. apply create_booking_implements. Qed.

Lemma evolves_expire k b t : evolves (expire_pending_payment_hold k b t).
Proof. eapply evolves_implements. intros D. apply expire_implements. Qed.

Lemma evolves_reschedule k b t n r a s : evolves (reschedule_booking k b t n r a s).
Proof.
  unfold reschedule_booking. apply evolves_bind.
  { unfold require_booking_in_business, require_booking, get_booking. frame_op. }
  intros old. destruct (negb _); [frame_op|].
  apply evolves_bind; [apply evolves_cancel|]. intros _.
  apply evolves_bind; [apply evolves_create|]. intros new. frame_op.
Qed.

Lemma evolves_sweep : evolves expire_stale_payment_holds.
Proof.
  unfold expire_stale_payment_holds. apply evolves_bind; [frame_op|]. intros now.
  apply evolves_bind; [frame_op|]. intros stale. apply evolves_fold_m. intros n b.
  apply evolves_catch_rollback.
  - apply evolves_bind; [apply evolves_expire|]. intros _. frame_op.
  - intros e m' He. destruct e; try done; destruct kind; simplify_eq/=. eauto.
Qed.

Lemma evolves_public_lookup token : evolves (get_booking_by_public_token token).
Proof.
  unfold get_booking_by_public_token, verify_booking_token, compare_digest. frame_op.
Qed.

Lemma durably_sms_reply b t f m : durably (handle_sms_reply b t f m).
Proof.
  unfold handle_sms_reply. destruct (bool_decide _); [apply evolves_durably; frame_op|].
  apply durably_bind; [unfold get_customer_by_phone, customer_by_phone; frame_op|]. intros [c|];
    [|apply evolves_durably; frame_op].
  apply durably_bind; [unfold get_next_confirmed_booking; frame_op|]. intros [k|];
    [|apply evolves_durably; frame_op].
  destruct (parse_reply_intent m); [apply evolves_durably; frame_op| |apply evolves_durably; frame_op].
  apply durably_ret_after, durably_catch_swallow.
  - apply evolves_durably, evolves_bind; [apply evolves_cancel|]. intros _. frame_op.
  - intros e m' He. destruct e; try done; destruct kind; simplify_eq/=. eauto.
Qed.

(** *** The voice menu *)

Lemma keeps_find_slots P svs s st : keeps P (find_slots svs s st).
Proof.
  unfold find_slots. apply keeps_bind; [eauto with ledger|]. intros now. cbv zeta.
  apply keeps_bind; [|eauto with ledger]. generalize (@nil (Z * Z)).
  induction (map _ _) as [|d ds IH]; intros acc; simpl; [eauto with ledger|].
  unfold get_available_slots, require_service, get_service, require_staff, get_staff, search_slots.
  keeps_steps.
Qed.
Hint Resolve keeps_find_slots : ledger.

Ltac evolve_steps :=
  repeat (intros; cbv zeta;
    lazymatch goal with
    | |- evolves (bind _ _) => apply evolves_bind
    | |- evolves (cancel_booking _ _ _ _ _ _) => apply evolves_cancel
    | |- evolves (create_booking _ _ _ _ _ _ _ _ _ _) => apply evolves_create
    | |- evolves (reschedule_booking _ _ _ _ _ _ _) => apply evolves_reschedule
    | |- evolves (match ?x with _ => _ end) => destruct x
    | |- _ => solve [frame_op]
    end).

Lemma evolves_start_session b t p : evolves (start_session b t p).
Proof.
  unfold start_session, lookup_returning_caller_name, get_client_by_customer_id. unfold_ivr.
  frame_op.
Qed.

Lemma evolves_handle_keypress k t key : evolves (handle_keypress k t key).
Proof.
  unfold handle_keypress, handle_no_input. unfold_ivr. unfold handle_invalid_key, assign. evolve_steps.
Qed.

Lemma keeps_ivr_to_twiml P r url number locale : keeps P (ivr_to_twiml r url number locale).
Proof.
  unfold ivr_to_twiml. destruct (_ && _); [|destruct (_ && _); apply keeps_ret].
  apply keeps_bind; [|intros; apply keeps_ret]. intros w Hw. unfold resolve_prompt.
  by destruct (format _ _).
Qed.

(** *** The webhooks of Twilio *)

Lemma keeps_check_signature P r : keeps P (check_signature r).
Proof.
  unfold check_signature, verify_twilio_signature, compare_digest.
  destruct (negb _); [apply keeps_ret|]. destruct (tw_signature r); [|apply keeps_raise].
  destruct (negb _); [apply keeps_raise|]. apply keeps_catch.
  - apply keeps_bind; [destruct (_ && _); [apply keeps_ret | apply keeps_raise]|].
    intros same. destruct (negb same); [apply keeps_raise | apply keeps_ret].
  - intros e m. destruct e; try done. intros [= <-]. apply keeps_raise.
Qed.
Hint Resolve keeps_check_signature keeps_ivr_to_twiml : ledger.

Lemma durably_sms_inbound r b : durably (twilio_sms_inbound r b).
Proof.
  unfold twilio_sms_inbound. unfold_twilio. cbv zeta.
  apply durably_bind; [frame_op|]. intros from. apply durably_bind; [frame_op|]. intros _.
  apply durably_bind; [frame_op|]. intros _. apply durably_bind; [frame_op|].
  intros [z|]; [apply durably_ret_after, durably_sms_reply | apply evolves_durably; frame_op].
Qed.

Lemma evolves_sms_status r : evolves (twilio_sms_status r).
Proof. unfold twilio_sms_status. unfold_twilio. frame_op. Qed.

Lemma durably_or_unavailable m : durably m -> durably (or_backend_unavailable m).
Proof.
  intros Hm. apply durably_catch_swallow; [done|]. intros e m' He.
  destruct e; try done. destruct (code =? 503); [|done]. injection He as <-. by eexists.
Qed.

Lemma durably_voice_inbound r : durably (twilio_voice_inbound r).
Proof.
  unfold twilio_voice_inbound. unfold_twilio. cbv zeta.
  apply durably_bind; [frame_op|]. intros sid. apply durably_or_unavailable, evolves_durably.
  apply evolves_bind; [frame_op|]. intros _. apply evolves_bind; [frame_op|]. intros _.
  apply evolves_bind; [unfold get_business_by_inbound_phone; frame_op|]. intros [z|]; [|frame_op].
  apply evolves_bind; [frame_op|]. intros [s|].
  - apply evolves_bind; [apply evolves_handle_keypress|]. intros rsp. frame_op.
  - unfold start_session, lookup_returning_caller_name, get_client_by_customer_id. unfold_ivr.
    frame_op.
Qed.

Lemma durably_voice_keypress r k : durably (twilio_voice_keypress r k).
Proof.
  unfold twilio_voice_keypress. unfold_twilio. cbv zeta. apply durably_or_unavailable.
  apply durably_bind; [frame_op|]. intros _. apply durably_bind; [frame_op|]. intros _.
  apply durably_bind; [frame_op|]. intros [s|]; [|apply evolves_durably; frame_op].
  apply durably_bind; [frame_op|]. intros z. apply durably_then.
  - apply durably_catch_swallow.
    + apply evolves_durably, evolves_bind; [apply evolves_handle_keypress|]. intros rsp. frame_op.
    + intros e m' He. destruct e; try done; destruct kind; simplify_eq/=. eauto.
  - intros P [rsp|]; [|apply keeps_ret].
    apply keeps_bind; [apply keeps_asks|]. intros s'. apply keeps_ivr_to_twiml.
Qed.

Lemma evolves_booking r :
  match r with
  | CreateBooking _ _ _ _ _ _ _ _ _ _ | CreateHold _ _ _ _ _ _ _ _ _ | ConfirmPayment _ _ _ _ _
  | ExpireHold _ _ _ | RefundPayment _ _ _ _ _ | CancelBooking _ _ _ _ _ _
  | RescheduleBooking _ _ _ _ _ _ _ | PublicCancel _ _ | PublicReschedule _ _ _ => True
  | _ => False
  end -> evolves (execute r).
Proof.
  destruct r; try done; intros _; unfold execute;
    (apply evolves_bind; [|intros _; frame_op]).
  - apply evolves_create.
  - eapply evolves_implements. intros D. apply hold_implements.
  - eapply evolves_implements. intros D. apply confirm_implements.
  - apply evolves_expire.
  - eapply evolves_implements. intros D. apply refund_implements.
  - apply evolves_cancel.
  - apply evolves_reschedule.
  - apply evolves_bind; [apply evolves_public_lookup|]. intros bk.
    destruct (bool_decide _); [frame_op | apply evolves_cancel].
  - apply evolves_bind; [apply evolves_public_lookup|]. intros bk.
    destruct (bool_decide _); [frame_op | apply evolves_reschedule].
Qed.

Lemma execute_durably r : durably (execute r).
Proof.
  destruct r; try (by apply evolves_durably, evolves_directory);
    try (by apply evolves_durably, evolves_schedule);
    try (by apply evolves_durably, evolves_booking); unfold execute.
  - apply durably_sms_inbound.
  - apply evolves_durably, evolves_sms_status.
  - apply durably_ret_after, durably_voice_inbound.
  - apply durably_ret_after, durably_voice_keypress.
  - apply durably_ret_after, evolves_durably, evolves_start_session.
  - apply durably_ret_after, evolves_durably, evolves_handle_keypress.
  - apply evolves_durably, evolves_keeps. intros L. apply keeps_execute_account, _.
Qed.
End Requests.

(** ** The worker *)

(** Worker steps leave no open session behind, whatever they return or raise. *)
Definition settled {A} (m : PyM A) : Prop :=
  forall D, ledger_wf D ->
    let Q w := exists es L, booking_steps es D L /\ at_ledger L L w in
    triple (at_ledger D D) m (fun _ => Q) (fun _ => Q).

Lemma settled_keeps {A} (m : PyM A) : (forall L, keeps (at_ledger L L) m) -> settled m.
Proof.
  intros Hk D Hwf Q. eapply triple_conseq; [apply (Hk D) | done | |];
    intros a w Hw; exists [], D; (split; [constructor | done]).
Qed.

Lemma settled_session {A} (m : PyM A) : durably m -> settled (run_request m).
Proof.
  intros Hm D Hwf Q w [HL HD]. unfold run_request.
  pose proof (Hm D Hwf (open_session w) (conj HD HD)) as Ht.
  destruct (m (open_session w)) as [[a|e] w']; destruct Ht as [es Hs]; exists es, (ledger (w_committed w'));
    (split; [exact Hs | by split]).
Qed.

Lemma settled_bind {A B} (m : PyM A) (k : A -> PyM B) :
  settled m -> (forall a, settled (k a)) -> settled (bind m k).
Proof.
  intros Hm Hk D Hwf Q. eapply triple_bind; [by apply Hm|]. intros a w (es & L & Hs & Hw).
  pose proof (Hk a L (booking_steps_wf _ _ _ Hs Hwf) w Hw) as Ht.
  destruct (k a w) as [[b|e] w']; destruct Ht as (es' & L' & Hs' & Hw');
    exists (es ++ es'), L'; eauto using booking_steps_app.
Qed.

Section WorkerSteps.
Context `{Config} `{Providers} `{ExnText}.

Lemma keeps_call {A} P (f : World -> Result Exn A) : keeps P (call_provider f).
Proof. intros w Hw. unfold call_provider. by destruct (f w). Qed.
Lemma keeps_one_pk `{Entity A} P k : keeps P (one_pk (A := A) k).
Proof. unfold one_pk. keeps_steps. Qed.
Lemma keeps_payload P k p : keeps P (payload_get k p).
Proof. induction p as [|[k' v] p IH]; simpl; keeps_steps. Qed.
Hint Resolve keeps_call keeps_one_pk keeps_payload : ledger.

Section JobFrames.
Context (P : World -> Prop) `{!SessionFramed P}.

Lemma keeps_send n : keeps P (send_notification_in_worker n).
Proof. unfold send_notification_in_worker. keeps_steps. Qed.
Lemma keeps_sync n : keeps P (sync_calendar_event_in_worker n).
Proof. unfold sync_calendar_event_in_worker, get_calendar_integration. keeps_steps. Qed.
Lemma keeps_cancel_event n : keeps P (cancel_calendar_event_in_worker n).
Proof. unfold cancel_calendar_event_in_worker. keeps_steps. Qed.
Hint Resolve keeps_send keeps_sync keeps_cancel_event : ledger.

Lemma keeps_handle_job j : keeps P (handle_job j).
Proof.
  destruct (keeps_account_tasks P) as (Hr & Hu & _). unfold handle_job, in_session. keeps_steps.
Qed.

Section QueueMoves.
Context `{!RedisFree P}.

Lemma keeps_dequeue q : keeps P (dequeue_job q).
Proof. unfold dequeue_job. keeps_steps. Qed.

Lemma keeps_poll ts : keeps P (poll ts).
Proof.
  induction ts as [|t ts IH]; simpl; [eauto with ledger|].
  apply keeps_bind; [apply keeps_dequeue|]. intros [j|]; [eauto with ledger | exact IH].
Qed.

Lemma keeps_on_error j e m : on_job_error j e = Some m -> keeps P m.
Proof.
  unfold on_job_error. destruct e; intros [= <-];
    unfold move_job_to_failed_queue, schedule_retry; keeps_steps.
Qed.

Lemma keeps_process : keeps P process_next_job.
Proof.
  unfold process_next_job. apply keeps_bind; [apply keeps_poll|].
  intros [j|]; [|eauto with ledger]. intros w Hw. unfold run_job.
  pose proof (keeps_handle_job j w Hw) as Ht. destruct (handle_job j w) as [[[]|e] w'].
  - apply (keeps_bind P (ack_job j) (fun _ => ret true)); [|eauto with ledger | done].
    unfold ack_job. keeps_steps.
  - destruct (on_job_error j e) as [m|] eqn:E; [|done]. by apply (keeps_on_error _ _ _ E).
Qed.
End QueueMoves.

Lemma keeps_reminders : keeps P enqueue_due_reminders.
Proof. unfold enqueue_due_reminders, remind_one. keeps_steps. Qed.
Lemma keeps_expire_offers :
  (forall e : WaitlistEntry, keeps P (save e)) -> keeps P expire_stale_waitlist_offers.
Proof.
  intros Hs.
  unfold expire_stale_waitlist_offers, lock_stale_offered_entries, expire_offer,
    escalate_to_next_waiting_entry. keeps_steps.
Qed.
Lemma keeps_reconcile :
  keeps P reconcile_stale_notifications
  /\ keeps P reconcile_stale_calendar_events.
Proof.
  unfold reconcile_stale_notifications, reconcile_stale_calendar_events.
  split; keeps_steps.
Qed.

End JobFrames.

Lemma evolves_maintenance : evolves maintenance_tasks.
Proof.
  unfold maintenance_tasks.
  do 3 (apply evolves_bind; [apply evolves_keeps; intros L; apply (keeps_account_tasks (at_ledger L L))|]; intros _).
  apply evolves_bind; [unfold cleanup_old_audit_logs; frame_op|]. intros _.
  apply evolves_bind; [unfold expire_stale_sessions; frame_op|]. intros _.
  apply evolves_bind; [apply evolves_keeps; intros L; apply keeps_reminders, _|]. intros _.
  apply evolves_bind; [apply evolves_keeps; intros L; apply keeps_expire_offers; eauto with ledger|]. intros _.
  do 2 (apply evolves_bind; [apply evolves_keeps; intros L; apply (keeps_reconcile (at_ledger L L))|]; intros _).
  apply evolves_bind; [apply evolves_sweep|]. intros _. frame_op.
Qed.

Lemma settled_maintenance : settled run_scheduled_maintenance.
Proof.
  unfold run_scheduled_maintenance. destruct (negb _); [apply settled_keeps; eauto with ledger|].
  apply settled_bind.
  { apply settled_keeps. unfold try_acquire_maintenance_lock. intros L. keeps_steps. }
  intros [|]; simpl; [|apply settled_keeps; eauto with ledger].
  apply settled_bind; [apply settled_session, evolves_durably, evolves_maintenance|]. intros _.
  apply settled_keeps. intros L. unfold get_failed_queue_depth. keeps_steps.
Qed.

(** The seed of the demo salon, run before a deployment. *)
Lemma keeps_default_tenant P `{!SessionFramed P} c : keeps P (ensure_default_tenant c).
Proof. unfold ensure_default_tenant, get_tenant_by_slug. keeps_steps. Qed.
Lemma keeps_seed_user P `{!SessionFramed P} t : keeps P (seed_demo_user t).
Proof. unfold seed_demo_user, hash_password. keeps_steps. Qed.
Hint Resolve keeps_default_tenant keeps_seed_user : ledger.

Lemma keeps_dev_seed P `{!SessionFramed P} environment : keeps P (seed_dev_main environment).
Proof. unfold seed_dev_main, seed_dev_users, hash_password. keeps_steps. Qed.

(** Everything that only moves jobs between the lists of Redis. *)
Lemma keeps_queue_maintenance P `{!RedisFree P} : keeps P run_queue_maintenance.
Proof.
  unfold run_queue_maintenance, reclaim_stale_processing_jobs, promote_delayed_jobs, reclaim_one,
    promote_one. keeps_steps.
Qed.
Lemma keeps_failed_jobs P `{!RedisFree P} command : keeps P (worker_failed_jobs_main command).
Proof.
  assert (Hl : forall n limit k, keeps P (requeue_failed_loop n limit k)).
  { induction n as [|n IH]; intros limit k; simpl; keeps_steps. }
  unfold worker_failed_jobs_main, list_failed_jobs, requeue_failed_jobs. keeps_steps.
Qed.

Lemma settled_script script : settled (run_script script).
Proof.
  apply settled_keeps. intros L. destruct script; simpl; (apply keeps_bind; [|intros; apply keeps_ret]).
  - apply framed_request; [exact _|].
    unfold seed_demo_main, seed_all, seed_demo, seed_demo_business, find_demo_business, seed_staff,
      seed_services, seed_hours, seed_each. keeps_steps.
  - apply framed_request; [exact _|]. apply keeps_dev_seed, _.
  - apply framed_request; [exact _|]. apply keeps_default_tenant, _.
  - apply keeps_failed_jobs, _.
Qed.

(** ** Runs of the system *)

(** One step: a request, a job, the maintenance sweep, the upkeep of
    the queues, a script, or time passing. *)
Inductive system_step : World -> World -> Prop :=
  | step_request r w : system_step w (run_request (execute r) w).2
  | step_job w : system_step w (process_next_job w).2
  | step_maintenance w : system_step w (run_scheduled_maintenance w).2
  | step_queue w : system_step w (run_queue_maintenance w).2
  | step_script script w : system_step w (run_script script w).2
  | step_time w t : w_now w <= t -> system_step w (w <| w_now := t |>).

(** Any number of steps. *)
Inductive system_run : World -> World -> Prop :=
  | run_nil w : system_run w w
  | run_cons w1 w2 w3 : system_step w1 w2 -> system_run w2 w3 -> system_run w1 w3.

Lemma system_step_evolves w w' D :
  system_step w w' -> ledger_wf D -> at_ledger D D w ->
  exists es L, booking_steps es D L /\ at_ledger L L w'.
Proof.
  intros Hs Hwf Hw. destruct Hs as [r w|w|w|w|script w|w t Ht].
  - pose proof (settled_session _ (execute_durably r) D Hwf w Hw) as H'.
    by destruct (run_request (execute r) w) as [[a|e] w'].
  - pose proof (settled_keeps _ (fun L => keeps_process (at_ledger L L)) D Hwf w Hw) as H'.
    by destruct (process_next_job w) as [[a|e] w'].
  - pose proof (settled_maintenance D Hwf w Hw) as H'.
    by destruct (run_scheduled_maintenance w) as [[a|e] w'].
  - pose proof (settled_keeps _ (fun L => keeps_queue_maintenance (at_ledger L L)) D Hwf w Hw) as H'.
    by destruct (run_queue_maintenance w) as [[a|e] w'].
  - pose proof (settled_script script D Hwf w Hw) as H'.
    by destruct (run_script script w) as [[a|e] w'].
  - exists [], D. split; [constructor | done].
Qed.

Lemma system_run_evolves w w' D :
  system_run w w' -> ledger_wf D -> at_ledger D D w ->
  exists es L, booking_steps es D L /\ at_ledger L L w'.
Proof.
  intros Hr. revert D. induction Hr as [w|w1 w2 w3 Hs Hr IH]; intros D Hwf Hw.
  - exists [], D. split; [constructor | done].
  - destruct (system_step_evolves _ _ _ Hs Hwf Hw) as (es & L & Hes & HL).
    destruct (IH L (booking_steps_wf _ _ _ Hes Hwf) HL) as (es' & L' & Hes' & HL').
    exists (es ++ es'), L'. eauto using booking_steps_app.
Qed.
End WorkerSteps.

(** ** What no run can break *)

Section Safety.
Context `{Config} `{Providers} `{ExnText}.

(** A world between requests whose durable ledger satisfies the invariant. *)
Definition consistent (w : World) : Prop :=
  ledger (w_db w) = ledger (w_committed w) /\ ledger_wf (ledger (w_committed w)).

Lemma consistent_run w w' : consistent w -> system_run w w' ->
  exists es, booking_steps es (ledger (w_committed w)) (ledger (w_committed w')) /\ consistent w'.
Proof.
  intros [Hc Hwf] Hr.
  destruct (system_run_evolves w w' (ledger (w_committed w)) Hr Hwf (conj Hc eq_refl))
    as (es & L & Hs & [HL HD]).
  exists es. rewrite HD. split; [done|]. split; [congruence|].
  rewrite HD. by eapply booking_steps_wf.
Qed.

(** The exclusion constraint, read back as a statement about slots. *)
Lemma active_bookings_disjoint (w : World) k1 k2 b1 b2 s :
  consistent w ->
  bookings (w_committed w) !! k1 = Some b1 -> bookings (w_committed w) !! k2 = Some b2 ->
  k1 <> k2 ->
  bk_staff_id b1 = Some s -> bk_staff_id b2 = Some s ->
  active_status (bk_status b1) = true -> active_status (bk_status b2) = true ->
  bk_starts_at b1 < bk_ends_at b1 -> bk_starts_at b2 < bk_ends_at b2 ->
  bk_ends_at b1 <= bk_starts_at b2 \/ bk_ends_at b2 <= bk_starts_at b1.
Proof.
  intros [_ Hwf] Hb1 Hb2 Hne Hs1 Hs2 Ha1 Ha2 Hl1 Hl2.
  pose proof (wf_no_overlap _ Hwf k1 k2 b1 b2 Hb1 Hb2 Hne) as Hx.
  unfold bookings_exclude, ranges_overlap in Hx. rewrite Ha1, Ha2, Hs1, Hs2 in Hx. simpl in Hx.
  rewrite Z.eqb_refl in Hx. simpl in Hx.
  rewrite (proj2 (Z.ltb_lt _ _) Hl1), (proj2 (Z.ltb_lt _ _) Hl2) in Hx. simpl in Hx.
  apply andb_false_iff in Hx as [Hx|Hx]; bool_props; lia.
Qed.

(** C3: payments and bookings never disagree.  After any run every payment belongs to
    an existing booking of the same tenant and business, is the only payment of that
    booking, and its status fits: pending exactly while the booking awaits payment,
    failed only for a cancelled booking, succeeded or refunded only for a booking that
    has left the payment stage, with the dates of payment and refund set
    accordingly; and every booking awaiting payment has a pending payment. *)
Theorem payments_agree_with_bookings (w w' : World) :
  consistent w -> system_run w w' ->
  (forall k p, booking_payments (w_committed w') !! k = Some p ->
     exists b, bookings (w_committed w') !! pay_booking_id p = Some b
       /\ pay_tenant_id p = bk_tenant_id b /\ pay_business_id p = bk_business_id b
       /\ (pay_status p = PAYMENT_PENDING <-> bk_status b = PENDING_PAYMENT)
       /\ (pay_status p = PAYMENT_FAILED -> bk_status b = CANCELLED)
       /\ (pay_paid_at p <> None <->
             pay_status p = PAYMENT_SUCCEEDED \/ pay_status p = PAYMENT_REFUNDED)
       /\ (pay_refunded_at p <> None <-> pay_status p = PAYMENT_REFUNDED)
       /\ (forall k' p', booking_payments (w_committed w') !! k' = Some p' ->
             pay_booking_id p' = pay_booking_id p -> k' = k))
  /\ (forall k b, bookings (w_committed w') !! k = Some b -> bk_status b = PENDING_PAYMENT ->
        exists kp p, booking_payments (w_committed w') !! kp = Some p
          /\ pay_booking_id p = k /\ pay_status p = PAYMENT_PENDING).
Proof.
  intros Hc Hr. destruct (consistent_run _ _ Hc Hr) as (_ & _ & _ & Hwf). split.
  - intros k p Hp. destruct (wf_payment _ Hwf k p Hp) as (b & Hb & Ht & Hz & Ha).
    exists b. do 3 (split; [done|]). unfold payment_agrees in Ha.
    do 4 (split; [destruct (pay_status p); destruct Ha as (? & ? & ?); intuition congruence|]).
    intros k' p' Hp' He. by eapply (wf_one_payment _ Hwf).
  - apply (wf_hold _ Hwf).
Qed.

(** C4: the life of a booking.  Over any run an existing booking is never deleted, its
    slot (staff, start, end), customer, service, tenant and business never change, and
    its status only moves forward: a hold is confirmed or cancelled, a confirmed
    booking is cancelled, a cancelled booking is frozen for good. *)
Theorem booking_life_cycle (w w' : World) k b :
  consistent w -> system_run w w' -> bookings (w_committed w) !! k = Some b ->
  exists b', bookings (w_committed w') !! k = Some b'
    /\ same_slot b b'
    /\ status_leq (bk_status b) (bk_status b') = true
    /\ (bk_status b = CANCELLED -> b' = b).
Proof.
  intros Hc Hr Hb. destruct (consistent_run _ _ Hc Hr) as (es & Hs & _).
  by eapply (booking_steps_progress _ _ _ _ _ Hs (proj2 Hc)).
Qed.

End Safety.
