(* ===== verification/CatalogueBehaviour.v ===== *)
(** * CatalogueBehaviour: requests that pass their schema keep the catalogue good

    The catalogue of Catalogue.v is kept by every request whose body its schema accepts, by
    every job and by the maintenance sweep; so no run of the program stores a service without
    a duration, an inverted opening time or two special hours that collide, and every search
    for a slot comes to an end. *)

From S2P Require Import Prelude Py Effects Schema Settings Orm AuditTrail Directory Schedule JobQueue.
From S2P Require Import PublicLink Providers Notifications Calendar Waitlist Booking.
From S2P Require Import BookingMachine Frames SessionFrames BookingRefinement SelfService Availability.
From S2P Require Import IvrPrompts Ivr RateLimit Twilio IvrCalls Onboarding Schemas Catalogue.
From S2P Require Import Tenancy Seeds SeedsBehaviour Accounts Worker System.

(** ** Reading *)

(** What is read from the catalogue is good. *)
Definition reads_good `{Catalogued A} (m : PyM A) : Prop :=
  triple in_catalogue m (fun r w => in_catalogue w /\ row_ok r = true) (fun _ => in_catalogue).

Lemma find_good `{Catalogued A} k (p : A -> bool) msg :
  reads_good (o <- find_pk k p ;; require msg o).
Proof.
  intros w Hw. unfold bind, find_pk, asks. destruct (table (w_db w) !! k) as [r|] eqn:Hr; [|exact Hw].
  destruct (p r); [|exact Hw]. split; [done|]. exact (row_stored _ _ _ (proj1 Hw) Hr).
Qed.

Lemma checked_good `{Catalogued A} (m : PyM A) (c : A -> bool) (e : Exn) :
  reads_good m -> reads_good (r <- m ;; if c r then ret r else raise e).
Proof.
  intros Hm. eapply triple_bind; [exact Hm|]. intros r w [Hw Hr]. destruct (c r); by simpl.
Qed.

Lemma keeps_good `{Catalogued A} {B} (m : PyM A) (k : A -> PyM B) :
  reads_good m -> (forall r, row_ok r = true -> keeps in_catalogue (k r)) ->
  keeps in_catalogue (bind m k).
Proof.
  intros Hm Hk. eapply triple_bind; [exact Hm|]. intros r w [Hw Hr]. exact (Hk r Hr w Hw).
Qed.

(** *** Bookings *)

Lemma good_booking k b t : reads_good (require_booking_in_business k b t).
Proof. apply checked_good. unfold require_booking, get_booking. apply find_good. Qed.

Lemma good_booking_lock k b t : reads_good (require_booking_in_business_for_update k b t).
Proof.
  intros w Hw. unfold require_booking_in_business_for_update, bind, find_pk, asks, require.
  destruct (table (w_db w) !! k) as [r|] eqn:Hr; [|exact Hw].
  destruct (_ =? t); [|exact Hw]. simpl. destruct (_ =? b); [|exact Hw].
  split; [done|]. exact (row_stored _ _ _ (proj1 Hw) Hr).
Qed.

Lemma good_service k b t : reads_good (require_service_in_business k b t).
Proof. apply checked_good. unfold require_service, get_service. apply find_good. Qed.

(** A booking made for a good service has a good length. *)
Lemma booked_length t b c s st x status src id now (v : Service) :
  service_ok v = true ->
  booking_ok (new_booking t b c s st x (x + timedelta_minutes (svc_duration_minutes v)) status src
    id now) = true.
Proof.
  unfold service_ok. intros Hv. do 4 apply andb_prop in Hv as [Hv _]. apply passes_between in Hv.
  unfold booking_ok, timedelta_minutes, minute_us, second_us. simpl. apply andb_true_intro.
  split; apply Z.leb_le; lia.
Qed.

(** ** Operations outside the catalogue *)

Ltac unfold_bookings :=
  unfold refund_booking_payment, payment_of, add_booking_line_item, cancel_public_booking,
    reschedule_public_booking, get_booking_by_public_token, verify_booking_token, compare_digest,
    require_booking, get_booking, create_waitlist_entry, require_customer, get_customer,
    require_service, get_service, require_staff, get_staff, update_waitlist_entry_status,
    require_waitlist_entry, get_waitlist_entry.
Ltac unfold_calls :=
  unfold twilio_sms_inbound, twilio_sms_status, twilio_voice_inbound, twilio_voice_keypress,
    or_backend_unavailable, get_business_by_inbound_phone; unfold_twilio.

Section Outside.
Context `{Config} `{Providers}.

Lemma catalogue_offer b t context :
  keeps in_catalogue context -> keeps in_catalogue (offer_freed_slot b t context).
Proof. intros Hc. unfold offer_freed_slot. keeps_steps. Qed.
Hint Resolve catalogue_offer : ledger.

Lemma catalogue_booking_read k b t : keeps in_catalogue (require_booking_in_business k b t).
Proof. unfold require_booking_in_business, require_booking, get_booking. keeps_steps. Qed.
Hint Resolve catalogue_booking_read : ledger.

(** A booking that was read may be written back with another status. *)
Hint Extern 3 (keeps in_catalogue (save _)) => apply catalogue_keeps_save; assumption : ledger.

Lemma catalogue_cancel k b t r a o : keeps in_catalogue (cancel_booking k b t r a o).
Proof.
  unfold cancel_booking, fail_linked_pending_payment. destruct (_ && _); [apply keeps_domain_error|].
  apply keeps_good; [apply good_booking_lock|]. keeps_steps.
Qed.
Lemma catalogue_expire k b t : keeps in_catalogue (expire_pending_payment_hold k b t).
Proof.
  unfold expire_pending_payment_hold, fail_linked_pending_payment.
  apply keeps_good; [apply good_booking_lock|]. keeps_steps.
Qed.
Lemma catalogue_confirm k b t p s : keeps in_catalogue (confirm_booking_payment k b t p s).
Proof.
  unfold confirm_booking_payment, settle_payment, payment_of, enqueue_confirmation_jobs.
  apply keeps_good; [apply good_booking_lock|]. keeps_steps.
Qed.

Lemma catalogue_new_booking t b c s st x status src (v : Service) :
  service_ok v = true ->
  keeps in_catalogue (db_insert (new_booking t b c s st x
    (x + timedelta_minutes (svc_duration_minutes v)) status src)).
Proof. intros Hv. apply catalogue_keeps_insert. intros id now. by apply booked_length. Qed.
Hint Resolve catalogue_new_booking : ledger.

Lemma catalogue_create t b c s st x src a o r :
  keeps in_catalogue (create_booking t b c s st x src a o r).
Proof.
  unfold create_booking, write_booking, translate_integrity_error, enqueue_confirmation_jobs.
  destruct (_ && _); [apply keeps_domain_error|].
  do 2 (apply keeps_bind; [keeps_steps|]; intros ?).
  apply keeps_good; [apply good_service|]. keeps_steps.
Qed.
Lemma catalogue_hold t b c s st x p i src :
  keeps in_catalogue (create_pending_payment_hold t b c s st x p i src).
Proof.
  unfold create_pending_payment_hold, write_hold, translate_integrity_error.
  do 2 (apply keeps_bind; [keeps_steps|]; intros _).
  apply keeps_good; [apply good_service|]. keeps_steps.
Qed.
Hint Resolve catalogue_cancel catalogue_create catalogue_expire catalogue_confirm catalogue_hold
  : ledger.

Lemma catalogue_reschedule k b t n r a s :
  keeps in_catalogue (reschedule_booking k b t n r a s).
Proof. unfold reschedule_booking. keeps_steps. Qed.
Hint Resolve catalogue_reschedule : ledger.

Lemma catalogue_sweep : keeps in_catalogue expire_stale_payment_holds.
Proof. unfold expire_stale_payment_holds, expire_one_hold. keeps_steps. Qed.

Lemma catalogue_sms_reply b t f m : keeps in_catalogue (handle_sms_reply b t f m).
Proof.
  unfold handle_sms_reply, get_customer_by_phone, customer_by_phone, get_next_confirmed_booking.
  keeps_steps.
Qed.
Hint Resolve catalogue_sms_reply keeps_find_slots keeps_check_signature keeps_ivr_to_twiml : ledger.

Lemma catalogue_keypress k t key : keeps in_catalogue (handle_keypress k t key).
Proof.
  unfold handle_keypress, handle_no_input. unfold_ivr. unfold handle_invalid_key, assign. keeps_steps.
Qed.
Lemma catalogue_start_session b t p : keeps in_catalogue (start_session b t p).
Proof.
  unfold start_session, lookup_returning_caller_name, get_client_by_customer_id. unfold_ivr.
  keeps_steps.
Qed.
Hint Resolve catalogue_keypress catalogue_start_session : ledger.

Lemma catalogue_bookings r :
  match r with
  | CreateBooking _ _ _ _ _ _ _ _ _ _ | CreateHold _ _ _ _ _ _ _ _ _ | ConfirmPayment _ _ _ _ _
  | ExpireHold _ _ _ | RefundPayment _ _ _ _ _ | CancelBooking _ _ _ _ _ _
  | RescheduleBooking _ _ _ _ _ _ _ | AddLineItem _ _ _ | PublicCancel _ _
  | PublicReschedule _ _ _ | CreateWaitlistEntry _ _ _ _ _ _ | UpdateWaitlistEntry _ _ _ => True
  | _ => False
  end -> keeps in_catalogue (execute r).
Proof.
  destruct r; try done; intros _; unfold execute; unfold_bookings; keeps_steps.
Qed.

Lemma catalogue_calls r :
  match r with
  | SmsInbound _ _ | SmsStatus _ | VoiceInbound _ | VoiceKeypress _ _ | StartCall _ _ _
  | KeyPress _ _ _ => True
  | _ => False
  end -> keeps in_catalogue (execute r).
Proof.
  destruct r; try done; intros _; unfold execute; unfold_calls; keeps_steps.
Qed.

(** People, leads and deletions. *)
Lemma catalogue_directory r :
  match r with
  | DeleteService _ _ _ | CreateStaff _ _ _ _ | UpdateStaff _ _ _ _ _ _
  | GetOrCreateCustomer _ _ _ _ | UpdateCustomer _ _ _ _ | GdprDeleteCustomer _ _ _ _
  | CreateClient _ _ _ _ _ _ _ | UpdateClient _ _ _ _ _ _ _ | DeleteWorkingHours _ _ _
  | DeleteTransferHours _ _ _ | SubmitLead _ | UpdateLeadStatus _ _ => True
  | _ => False
  end -> keeps in_catalogue (execute r).
Proof.
  destruct r; try done; intros _; unfold execute;
    unfold delete_service, create_staff, update_staff, get_or_create_customer, update_customer,
      gdpr_delete_customer, customer_by_phone, require_staff_in_business,
      require_staff, get_staff, create_client, update_client, require_client_in_business,
      require_client, get_client, require_customer, get_customer, delete_working_hours,
      require_working_hours_in_business, require_working_hours, get_working_hours,
      delete_transfer_hours, require_transfer_hours, get_transfer_hours, create_owner_lead,
      update_owner_lead_status, require_owner_lead, get_owner_lead;
    keeps_steps.
Qed.
End Outside.

(** ** Operations of the catalogue *)

(** What is durable is good; the session may hold changes that will be discarded. *)
Definition durable_catalogue (w : World) : Prop := catalogue_ok (w_committed w).

Definition secures {A} (m : PyM A) : Prop :=
  triple in_catalogue m (fun _ => durable_catalogue) (fun _ => durable_catalogue).

Lemma keeps_secures {A} (m : PyM A) : keeps in_catalogue m -> secures m.
Proof. intros Hm. eapply triple_conseq; [exact Hm | done | |]; by intros ? w [_ Hd]. Qed.

Lemma secures_then {A B} (m : PyM A) (k : A -> PyM B) :
  secures m -> (forall P a, keeps P (k a)) -> secures (bind m k).
Proof.
  intros Hm Hk. eapply triple_bind; [exact Hm|]. intros a. apply (Hk durable_catalogue).
Qed.

(** Assignments to a row, a check of the new row, and the commit. *)
Lemma save_checked `{Catalogued A} (r : A) (check : PyM unit) :
  (forall P, keeps P check) ->
  triple (fun _ => True) check (fun _ _ => row_ok r = true) (fun _ _ => True) ->
  secures (save r ;;; check ;;; commit ;;; ret r).
Proof.
  intros Hc Hr.
  apply triple_bind with
    (R := fun _ w => durable_catalogue w /\ (row_ok r = true -> catalogue_ok (w_db w))).
  { apply triple_modify. intros w [Hs Hd]. split; [done|]. intros Hok. by apply catalogue_save. }
  intros u. eapply triple_bind with (R := fun _ w => catalogue_ok (w_db w)).
  - intros w Hw. pose proof (Hc (eq w) w eq_refl) as Hk. pose proof (Hr w I) as Hi.
    destruct (check w) as [[[]|e] w']; subst w'; [by apply Hw | by apply Hw].
  - intros u'. by intros w Hw.
Qed.

Lemma secures_read `{Catalogued A} {B} (m : PyM A) (k : A -> PyM B) :
  reads_good m -> (forall r, row_ok r = true -> secures (k r)) -> secures (bind m k).
Proof.
  intros Hm Hk. eapply triple_bind.
  - eapply triple_conseq; [exact Hm | done | intros r w H'; exact H' | by intros e w [_ Hd]].
  - intros r w [Hw Hr]. exact (Hk r Hr w Hw).
Qed.

(** *** Businesses and services *)

Lemma business_ok_intro b :
  passes (one_of BusinessLanguage) (biz_language b) = true ->
  passes (one_of TransferDestinationPolicy) (biz_transfer_destination_policy b) = true ->
  passes (one_of BookingMode) (biz_booking_mode b) = true ->
  passes (nullable (one_of ExternalBookingProvider)) (biz_external_booking_provider b) = true ->
  passes (one_of SubscriptionPlan) (biz_subscription_plan b) = true ->
  (exists url, validate_booking_url (biz_external_booking_url b) = Ok url) ->
  is_external (biz_booking_mode b) && negb (opt_truthy (biz_external_booking_url b)) = false ->
  business_ok b = true.
Proof.
  intros H1 H2 H3 H4 H5 [url H6] H7. unfold business_ok, url_required. by rewrite H1, H2, H3, H4, H5, H6, H7.
Qed.

Lemma business_ok_elim b :
  business_ok b = true ->
  passes (one_of BusinessLanguage) (biz_language b) = true
  /\ passes (one_of TransferDestinationPolicy) (biz_transfer_destination_policy b) = true
  /\ passes (one_of BookingMode) (biz_booking_mode b) = true
  /\ passes (nullable (one_of ExternalBookingProvider)) (biz_external_booking_provider b) = true
  /\ passes (one_of SubscriptionPlan) (biz_subscription_plan b) = true
  /\ (exists url, validate_booking_url (biz_external_booking_url b) = Ok url)
  /\ is_external (biz_booking_mode b) && negb (opt_truthy (biz_external_booking_url b)) = false.
Proof.
  unfold business_ok, url_required. intros Hb.
  repeat apply andb_prop in Hb as [Hb ?]. repeat (split; [done|]).
  split; [|by apply negb_true_iff].
  destruct (validate_booking_url _) as [url|]; [by exists url | done].
Qed.

Lemma created_business_ok n z f n0 z0 f0 t id now :
  validate_BusinessCreate n0 z0 f0 = Ok (n, z, f) ->
  business_ok (MkBusiness id t n z (bf_language f) (bf_phone f) (bf_owner_notification_phone f)
    (bf_transfer_phone_number f) true (bf_transfer_enabled f) (bf_transfer_destination_policy f)
    (bf_booking_mode f) (bf_external_booking_url f) (bf_external_booking_label f)
    (bf_external_booking_provider f) (bf_subscription_plan f) now) = true.
Proof.
  unfold validate_BusinessCreate.
  destruct (field_after "external_booking_url" _ _ _) as [ue url] eqn:Eu.
  destruct (field_after "external_booking_label" _ _ _) as [le label] eqn:El.
  intros Hv. validated Hv. simplify_eq.
  apply field_after_ok, validated_url_again in Eu.
  apply business_ok_intro; simpl; try done; [by eexists|].
  exact (Hr _ (or_introl eq_refl)).
Qed.

Lemma updated_business_ok b u0 u :
  validate_BusinessUpdate u0 = Ok u -> business_ok b = true ->
  business_ok (MkBusiness (biz_id b) (biz_tenant_id b)
    (or_keep (bu_name u) (biz_name b)) (or_keep (bu_timezone u) (biz_timezone b))
    (or_keep (bu_language u) (biz_language b)) (or_keep_opt (bu_phone u) (biz_phone b))
    (or_keep_opt (bu_owner_notification_phone u) (biz_owner_notification_phone b))
    (or_keep_opt (bu_transfer_phone_number u) (biz_transfer_phone_number b))
    (or_keep (bu_is_active u) (biz_is_active b))
    (or_keep (bu_transfer_enabled u) (biz_transfer_enabled b))
    (or_keep (bu_transfer_destination_policy u) (biz_transfer_destination_policy b))
    (or_keep (bu_booking_mode u) (biz_booking_mode b))
    (or_keep_opt (bu_external_booking_url u) (biz_external_booking_url b))
    (or_keep_opt (bu_external_booking_label u) (biz_external_booking_label b))
    (or_keep_opt (bu_external_booking_provider u) (biz_external_booking_provider b))
    (or_keep (bu_subscription_plan u) (biz_subscription_plan b)) (biz_created_at b)) = true.
Proof.
  unfold validate_BusinessUpdate.
  destruct (field_after "external_booking_url" _ _ _) as [ue url] eqn:Eu.
  destruct (field_after "external_booking_label" _ _ _) as [le label] eqn:El.
  intros Hv (B1 & B2 & B3 & B4 & B5 & B6 & B7)%business_ok_elim. validated Hv. simplify_eq.
  apply field_after_ok in Eu. pose proof (validated_url_again _ _ Eu) as Ea.
  pose proof (Hr _ (or_introl eq_refl)) as Hx. unfold url_required in Hx. simpl in Hx.
  apply business_ok_intro; simpl; try (by apply passes_keep); try (by apply passes_keep_opt).
  - destruct url as [v|]; simpl; [by exists (Some v) | exact B6].
  - destruct url as [v|]; simpl.
    + destruct (validated_url_truthy _ _ Ea) as [Ht _]. simpl in Ht. rewrite Ht. apply andb_false_r.
    + destruct (bu_booking_mode u0) as [m|]; simpl in *; [|exact B7].
      destruct (is_external m); [done | reflexivity].
Qed.

Lemma service_ok_intro s :
  passes (between 1 480) (svc_duration_minutes s) = true ->
  passes (nullable (at_least 0)) (svc_price_minor_units s) = true ->
  passes (nullable (length_between 3 3)) (svc_currency s) = true ->
  passes (nullable (at_least 0)) (svc_deposit_minor_units s) = true ->
  deposit_fields_ok s = true -> service_ok s = true.
Proof. intros H1 H2 H3 H4 H5. unfold service_ok. by rewrite H1, H2, H3, H4, H5. Qed.

Section Catalogue.
Context `{Config}.

Lemma secures_create_business t n z f n0 z0 f0 :
  validate_BusinessCreate n0 z0 f0 = Ok (n, z, f) -> keeps in_catalogue (create_business t n z f).
Proof.
  intros Hv. unfold create_business. keeps_steps. apply catalogue_keeps_insert. intros id now.
  by eapply created_business_ok.
Qed.

Lemma secures_update_business k t u0 u :
  validate_BusinessUpdate u0 = Ok u -> secures (update_business k t u).
Proof.
  intros Hv. unfold update_business. apply secures_read.
  { unfold require_business, get_business. apply find_good. }
  intros b Hb. cbv zeta. apply keeps_secures. keeps_steps. apply catalogue_keeps_save.
  by eapply updated_business_ok.
Qed.

Lemma secures_create_service t b n d p c q a :
  validate_ServiceCreate n d p c q a = Ok tt -> keeps in_catalogue (create_service t b n d p c q a).
Proof.
  intros Hv. validated Hv. unfold create_service, check_deposit_fields. keeps_steps.
  apply catalogue_keeps_insert. intros id now. apply service_ok_intro; simpl; try done.
  unfold deposit_fields_ok. simpl. apply negb_true_iff. exact (Hr _ (or_introl eq_refl)).
Qed.

Lemma secures_update_service k b t u :
  validate_ServiceUpdate u = Ok tt -> secures (update_service k b t u).
Proof.
  intros Hv. validated Hv. unfold update_service. apply secures_read.
  { unfold require_service_in_business. apply checked_good.
    unfold require_service, get_service. apply find_good. }
  intros s Hs. cbv zeta. simpl in Hs. unfold service_ok in Hs.
  repeat apply andb_prop in Hs as [Hs ?].
  apply save_checked; unfold check_deposit_fields.
  { intros P. keeps_steps. }
  intros w _. match goal with |- context [if ?c then _ else _] => destruct c eqn:Ed end; [|done].
  by apply service_ok_intro; simpl; first [done | apply passes_keep | apply passes_keep_opt].
Qed.

(** *** Opening times *)

Lemma window_valid day start_time end_time :
  passes (between 0 6) day = true -> (end_after_start start_time end_time).1 = false ->
  weekly_window_valid day start_time end_time = true.
Proof.
  intros Hd Hx. apply passes_between in Hd. unfold end_after_start in Hx. simpl in Hx.
  unfold weekly_window_valid. bool_props. repeat (apply andb_true_intro; split); lia.
Qed.

Lemma secures_create_hours t b st d x y :
  validate_WorkingHoursCreate d x y = Ok tt ->
  keeps in_catalogue (create_working_hours t b st d x y).
Proof.
  intros Hv. validated Hv. unfold create_working_hours. keeps_steps.
  apply catalogue_keeps_insert. intros id now. apply window_valid; [done|].
  exact (Hr _ (or_introl eq_refl)).
Qed.

Lemma secures_create_transfer t b d x y :
  validate_BusinessTransferHoursCreate d x y = Ok tt ->
  keeps in_catalogue (create_transfer_hours t b d x y).
Proof.
  intros Hv. validated Hv. unfold create_transfer_hours. keeps_steps.
  apply catalogue_keeps_insert. intros id now. apply window_valid; [done|].
  exact (Hr _ (or_introl eq_refl)).
Qed.

Lemma secures_update_hours k t b x y : secures (update_working_hours k t b x y).
Proof.
  unfold update_working_hours. apply secures_read.
  { unfold require_working_hours_in_business. apply checked_good.
    unfold require_working_hours, get_working_hours. apply find_good. }
  intros h Hh. cbv zeta. apply save_checked; [intros P; keeps_steps|].
  intros w _. destruct (_ <=? _) eqn:E; [done|]. simpl in *.
  unfold hours_ok, weekly_window_valid in *. simpl. bool_props.
  repeat (apply andb_true_intro; split); lia.
Qed.

(** *** Exceptions and blocks: no two rows of one scope collide *)

Lemma windows_overlap_sym s1 e1 s2 e2 : windows_overlap s1 e1 s2 e2 = windows_overlap s2 e2 s1 e1.
Proof. unfold windows_overlap. apply andb_comm. Qed.

Lemma optZ_eqb_sym a b : optZ_eqb a b = optZ_eqb b a.
Proof. destruct a, b; simpl; try done. apply Z.eqb_sym. Qed.

Lemma exceptions_compatible_sym a b : exceptions_compatible a b -> exceptions_compatible b a.
Proof.
  unfold exceptions_compatible, exception_scope. intros Hc Hs.
  rewrite (Z.eqb_sym (exc_business_id b)), (Z.eqb_sym (exc_tenant_id b)), optZ_eqb_sym,
    (Z.eqb_sym (exc_date b)) in Hs.
  destruct (Hc Hs) as (Ha & Hb & Hw). split; [done|]. split; [done|].
  intros. rewrite windows_overlap_sym. eauto.
Qed.
Lemma blocks_compatible_sym a b : blocks_compatible a b -> blocks_compatible b a.
Proof.
  unfold blocks_compatible, block_scope. intros Hc Hs. rewrite windows_overlap_sym. apply Hc.
  by rewrite (Z.eqb_sym (blk_business_id a)), (Z.eqb_sym (blk_tenant_id a)), optZ_eqb_sym,
    (Z.eqb_sym (blk_day_of_week a)).
Qed.

Lemma table_all_insert {A} (ok : A -> bool) (t : gmap Z A) k r :
  table_all ok t -> ok r = true -> table_all ok (<[k := r]> t).
Proof.
  intros Ht Hr j s. rewrite lookup_insert_Some. intros [[_ <-]|[_ Hs]]; [done | by apply (Ht j)].
Qed.
Lemma table_pairs_insert {A} (R : A -> A -> Prop) (t : gmap Z A) k r :
  (forall a b, R a b -> R b a) -> table_pairs R t -> (forall j a, t !! j = Some a -> R a r) ->
  table_pairs R (<[k := r]> t).
Proof.
  intros Hsym Ht Hr i j a b. rewrite !lookup_insert_Some.
  intros [[<- <-]|[Hi Ha]] [[<- <-]|[Hj Hb]] Hne; [done | eauto | eauto | eauto].
Qed.
Lemma table_all_delete {A} (ok : A -> bool) (t : gmap Z A) k :
  table_all ok t -> table_all ok (base.delete k t).
Proof. intros Ht j s [_ Hs]%lookup_delete_Some. by apply (Ht j). Qed.
Lemma table_pairs_delete {A} (R : A -> A -> Prop) (t : gmap Z A) k :
  table_pairs R t -> table_pairs R (base.delete k t).
Proof. intros Ht i j a b [_ Ha]%lookup_delete_Some [_ Hb]%lookup_delete_Some. by apply (Ht i j). Qed.

Lemma insert_exception mk :
  (forall id now, exception_ok (mk id now) = true) ->
  triple (fun w => in_catalogue w /\ forall k a id now,
            availability_exceptions (w_db w) !! k = Some a -> exceptions_compatible a (mk id now))
    (db_insert mk) (fun _ => in_catalogue) (fun _ => in_catalogue).
Proof.
  intros Hok w [[Hs Hd] Hc]. unfold db_insert. destruct (table _ !! _); [by split|].
  destruct (violates _ _); [by split|]. split; [|exact Hd].
  destruct Hs as [? ? ? ? He Hp ? ? ?]. constructor; try done; simpl.
  - by apply table_all_insert.
  - apply table_pairs_insert; [apply exceptions_compatible_sym | done|].
    intros j a Ha. by eapply Hc.
Qed.

Lemma insert_block mk :
  (forall id now, block_ok (mk id now) = true) ->
  triple (fun w => in_catalogue w /\ forall k a id now,
            recurring_staff_blocks (w_db w) !! k = Some a -> blocks_compatible a (mk id now))
    (db_insert mk) (fun _ => in_catalogue) (fun _ => in_catalogue).
Proof.
  intros Hok w [[Hs Hd] Hc]. unfold db_insert. destruct (table _ !! _); [by split|].
  destruct (violates _ _); [by split|]. split; [|exact Hd].
  destruct Hs as [? ? ? ? ? ? Hb Hp ?]. constructor; try done; simpl.
  - by apply table_all_insert.
  - apply table_pairs_insert; [apply blocks_compatible_sym | done|].
    intros j a Ha. by eapply Hc.
Qed.

Lemma delete_exception (e : AvailabilityException) : keeps in_catalogue (db_delete e).
Proof.
  intros w [Hs Hd]. unfold db_delete. destruct (referenced _ _); [by split|]. split; [|exact Hd].
  destruct Hs as [? ? ? ? He Hp ? ? ?].
  constructor; try done; simpl; [by apply table_all_delete | by apply table_pairs_delete].
Qed.
Lemma delete_block (b : RecurringStaffBlock) : keeps in_catalogue (db_delete b).
Proof.
  intros w [Hs Hd]. unfold db_delete. destruct (referenced _ _); [by split|]. split; [|exact Hd].
  destruct Hs as [? ? ? ? ? ? Hb Hp ?].
  constructor; try done; simpl; [by apply table_all_delete | by apply table_pairs_delete].
Qed.

(** A loop whose rounds only look. *)
Lemma for_each_looks {S E A} (l : list A) (body : A -> M S E unit) w :
  (forall x, (body x w).2 = w) ->
  (for_each l body w).2 = w
  /\ ((for_each l body w).1 = Ok tt -> forall x, In x l -> (body x w).1 = Ok tt).
Proof.
  intros Hb. induction l as [|x l [IH1 IH2]]; simpl; [done|].
  unfold bind. pose proof (Hb x) as Hx. destruct (body x w) as [[[]|e] w'] eqn:Eb; simpl in *; subst w'.
  - split; [done|]. intros Hok y [<-|Hy]; [by rewrite Eb | by apply IH2].
  - by split.
Qed.

Lemma check_overlap_looks x y e w : (check_exception_overlap x y e w).2 = w.
Proof.
  unfold check_exception_overlap. by repeat first
    [match goal with |- context [match ?o with _ => _ end] => destruct o end | reflexivity].
Qed.

Lemma check_overlap_passes s e (a : AvailabilityException) s1 e1 w :
  exc_start_time a = Some s1 -> exc_end_time a = Some e1 ->
  (check_exception_overlap (Some s) (Some e) a w).1 = Ok tt ->
  windows_overlap s1 e1 s e = false.
Proof.
  unfold check_exception_overlap, windows_overlap. intros -> ->.
  destruct (s1 <? e); [|done]. by destruct (s <? e1).
Qed.

Lemma ensured_exception b t st d closed x y :
  exception_request_valid closed x y = true ->
  triple in_catalogue (ensure_no_conflicting_exception b t st d closed x y)
    (fun _ w => in_catalogue w /\ forall k a id reason,
       availability_exceptions (w_db w) !! k = Some a ->
       exceptions_compatible a (MkAvailabilityException id t b st d closed x y reason))
    (fun _ => in_catalogue).
Proof.
  intros Hv w Hw. unfold ensure_no_conflicting_exception, bind at 1, all, asks. cbv beta iota.
  set (existing := List.filter _ _).
  assert (Hin : forall k a, availability_exceptions (w_db w) !! k = Some a ->
    exception_scope b t st d a = true -> In a existing).
  { intros k a Ha Hs. apply filter_In. split; [|done]. apply in_rows_of. by exists k. }
  destruct existing as [|e0 l] eqn:El.
  { split; [done|]. intros k a id reason Ha Hs. by destruct (Hin k a Ha Hs). }
  rewrite <- El in *. clear El e0 l. destruct (closed || existsb exc_is_closed existing) eqn:Ec; [done|].
  apply orb_false_elim in Ec as [-> Ec]. rewrite existsb_false in Ec.
  destruct (for_each_looks existing (check_exception_overlap x y) w
    (fun e => check_overlap_looks x y e w)) as [Hst Hall].
  destruct (for_each existing _ w) as [[[]|e] w']; simpl in Hst; subst w'; [|done].
  split; [done|]. intros k a id reason Ha Hs. pose proof (Hin k a Ha Hs) as Ha'.
  split; [by apply Ec|]. split; [done|]. simpl. intros s e s' e' H1 H2 -> ->.
  eapply check_overlap_passes; [done | done | by apply Hall].
Qed.

Lemma ensured_block b t st d x y :
  triple in_catalogue (ensure_no_conflicting_block b t st d x y)
    (fun _ w => in_catalogue w /\ forall k a id reason,
       recurring_staff_blocks (w_db w) !! k = Some a ->
       blocks_compatible a (MkRecurringStaffBlock id t b st d x y reason))
    (fun _ => in_catalogue).
Proof.
  intros w Hw. unfold ensure_no_conflicting_block, bind at 1, all, asks. cbv beta iota.
  destruct (existsb _ _) eqn:Ex; [done|]. rewrite existsb_false in Ex. split; [done|].
  intros k a id reason Ha Hs. apply Ex, filter_In. split; [apply in_rows_of; by exists k | done].
Qed.

Lemma secures_create_exception t b st d closed x y reason :
  validate_AvailabilityExceptionCreate closed x y reason = Ok tt ->
  keeps in_catalogue (create_availability_exception t b st d closed x y reason).
Proof.
  intros Hv. validated Hv.
  assert (Hok : exception_request_valid closed x y = true).
  { pose proof (Hr _ (or_introl eq_refl)) as Hx. unfold exception_request_valid.
    destruct closed, x, y; simpl in *; try done. bool_props. lia. }
  unfold create_availability_exception. apply keeps_bind; [eauto with ledger|]. intros _.
  apply keeps_bind; [eauto with ledger|]. intros _.
  eapply triple_bind; [by apply ensured_exception|]. intros u.
  eapply triple_bind; [|intros e; apply (keeps_bind in_catalogue); eauto with ledger].
  eapply triple_conseq; [by apply insert_exception | | done | done].
  intros w [Hw Hc]. split; [done|]. intros k a id _ Ha. by eapply Hc.
Qed.

Lemma secures_create_block t b st d x y reason :
  validate_RecurringStaffBlockCreate d x y reason = Ok tt ->
  keeps in_catalogue (create_recurring_staff_block t b st d x y reason).
Proof.
  intros Hv. validated Hv.
  assert (Hok : weekly_window_valid d x y = true)
    by (apply window_valid; [done | exact (Hr _ (or_introl eq_refl))]).
  unfold create_recurring_staff_block. apply keeps_bind; [eauto with ledger|]. intros _.
  apply keeps_bind; [eauto with ledger|]. intros _.
  eapply triple_bind; [by apply ensured_block|]. intros u.
  eapply triple_bind; [|intros e; apply (keeps_bind in_catalogue); eauto with ledger].
  eapply triple_conseq; [by apply insert_block | | done | done].
  intros w [Hw Hc]. split; [done|]. intros k a id _ Ha. by eapply Hc.
Qed.
End Catalogue.

(** *** Onboarding *)

Section OnboardingRequests.
Context `{Config}.

Lemma described_ok spec b :
  validate_OnboardingBusinessSpec spec = Ok spec -> business_ok b = true ->
  business_ok (described spec b) = true.
Proof.
  intros Hv (B1 & B2 & B3 & B4 & B5 & B6 & B7)%business_ok_elim. validated Hv.
  apply business_ok_intro; simpl; try done.
  - pose proof (Hr _ (or_introl eq_refl)) as Hu.
    destruct (validate_booking_url _) as [v|m]; [by exists v | done].
  - exact (Hr _ (or_intror (or_introl eq_refl))).
Qed.

Lemma reusable_good t :
  triple in_catalogue (get_reusable_signup_business t)
    (fun o w => in_catalogue w /\ forall b, o = Some b -> business_ok b = true)
    (fun _ => in_catalogue).
Proof.
  intros w Hw. unfold get_reusable_signup_business, bind at 1, first at 1, asks at 1. cbv beta iota.
  destruct (head _); [|by split]. unfold bind at 1, all, asks at 1. cbv beta iota.
  destruct (List.filter _ _) as [|b [|]] eqn:Eb; [by split | | by split].
  assert (Hb : business_ok b = true).
  { assert (Hin : In b [b]) by by left. rewrite <- Eb in Hin. apply filter_In in Hin as [Hin _].
    apply in_rows_of in Hin as (k & Hk). exact (row_stored _ _ _ (proj1 Hw) Hk). }
  unfold bind, first, asks, ret. destruct (_ || _); (split; [done|]); [done | by intros b' [= <-]].
Qed.

Lemma keeps_each_row `{Catalogued A} {B} (l : list B) (mk : B -> Z -> Z -> A) :
  (forall x id now, In x l -> row_ok (mk x id now) = true) ->
  keeps in_catalogue (for_each l (fun x => db_insert (mk x) ;;; ret tt)).
Proof.
  intros Hl. apply triple_for_each. intros x Hx. apply (keeps_bind in_catalogue).
  - apply catalogue_keeps_insert. intros. by apply Hl.
  - intros. apply keeps_ret.
Qed.

Lemma onboarding_service_ok i t b id now :
  validate_OnboardingServiceItem i = Ok i ->
  service_ok (MkService id t b (obv_name i) (obv_duration_minutes i) true
    (obv_price_minor_units i) (obv_currency i) false None now) = true.
Proof. intros Hv. validated Hv. by apply service_ok_intro. Qed.

Lemma onboarding_hours_ok i t b id :
  validate_OnboardingWorkingHoursItem i = Ok i ->
  hours_ok (MkWorkingHours id t b None (obw_day_of_week i) (obw_start_time i) (obw_end_time i))
  = true.
Proof.
  intros Hv. validated Hv. apply window_valid; [done|]. exact (Hr _ (or_introl eq_refl)).
Qed.

(** The validators of the parts hand the body through. *)
Lemma spec_validated s v : validate_OnboardingBusinessSpec s = Ok v -> v = s.
Proof. intros Hv. by apply model_ok in Hv as (_ & -> & _). Qed.

Lemma secures_onboarding t req :
  validate_OnboardingSetupRequest req = Ok req ->
  keeps in_catalogue (setup_business_onboarding t req).
Proof.
  intros Hv. validated Hv.
  match goal with H : nested _ _ = [] |- _ => apply nested_nil in H as [spec Hspec]; [|apply model_fails] end.
  pose proof (spec_validated _ _ Hspec) as ->.
  assert (Hs : forall i, In i (ob_services req) -> validate_OnboardingServiceItem i = Ok i).
  { intros i Hi. destruct (items_nil "services" validate_OnboardingServiceItem (ob_services req) i)
      as [v Hi']; [done | intros y; apply model_fails | done|].
    rewrite Hi'. by apply model_ok in Hi' as (_ & -> & _). }
  assert (Hh : forall i, In i (ob_working_hours req) -> validate_OnboardingWorkingHoursItem i = Ok i).
  { intros i Hi.
    destruct (items_nil "working_hours" validate_OnboardingWorkingHoursItem (ob_working_hours req) i)
      as [v Hi']; [done | intros y; apply model_fails | done|].
    rewrite Hi'. by apply model_ok in Hi' as (_ & -> & _). }
  unfold setup_business_onboarding. cbv zeta. eapply triple_bind; [apply reusable_good|].
  intros reusable w [Hw Hb]. revert w Hw.
  apply (keeps_bind in_catalogue).
  { destruct reusable as [b|].
    - apply keeps_bind; [|eauto with ledger]. apply catalogue_keeps_save. apply described_ok; [done|].
      by apply Hb.
    - apply catalogue_keeps_insert. intros. by apply described_ok. }
  intros b. apply (keeps_bind in_catalogue); [keeps_steps|]. intros _.
  apply (keeps_bind in_catalogue).
  { apply keeps_each_row. intros. by apply onboarding_service_ok, Hs. }
  intros _. apply (keeps_bind in_catalogue).
  { apply keeps_each_row. intros. by apply onboarding_hours_ok, Hh. }
  intros _. keeps_steps.
Qed.
End OnboardingRequests.

(** *** The seed of the demo salon *)

Section SeedRequests.
Context `{Config} `{Providers}.

Lemma demo_good t :
  triple in_catalogue (find_demo_business t)
    (fun o w => in_catalogue w /\ forall b, o = Some b -> business_ok b = true) (fun _ => in_catalogue).
Proof.
  intros w Hw. rewrite run_find_demo. split; [done|]. intros b Hb.
  apply the_demo_stored in Hb as [(k & Hk) _]. exact (cat_businesses _ (proj1 Hw) _ _ Hk).
Qed.

Lemma keeps_seed_each `{Catalogued A} {S} (specs : list S) ex label (mk : S -> Z -> Z -> A) :
  (forall s id now, In s specs -> row_ok (mk s id now) = true) ->
  keeps in_catalogue (seed_each specs ex label mk).
Proof.
  intros Hs. apply triple_map_m. intros s Hin. destruct (ex s); [apply keeps_ret|].
  apply (keeps_bind in_catalogue); [|intros; apply keeps_ret]. apply catalogue_keeps_insert. eauto.
Qed.

(** The rows of the seed are good ones. *)
Lemma demo_services_ok s t b id now :
  In s DEMO_SERVICES ->
  service_ok (MkService id t b (sd_service_name s) (sd_duration_minutes s) true
    (Some (sd_price_minor_units s)) (Some (sd_currency s)) false None now) = true.
Proof. by intros [<-|[<-|[<-|[]]]]. Qed.
Lemma demo_hours_ok h t b id :
  In h ALL_HOURS -> hours_ok (MkWorkingHours id t b None h.1.1 h.1.2 h.2) = true.
Proof. by intros [<-|[<-|[<-|[<-|[<-|[<-|[]]]]]]]. Qed.

Lemma catalogue_seed environment voice :
  keeps in_catalogue (run_request (seed_demo_main environment voice)).
Proof.
  apply framed_request; [exact _|]. unfold seed_demo_main. destruct (negb _); [apply keeps_ret|].
  apply keeps_catch; [|intros e m' He; destruct e; simplify_eq/=; apply keeps_ret].
  apply keeps_bind; [|intros; apply keeps_ret]. unfold seed_all.
  apply keeps_bind; [apply keeps_default_tenant, _|]. intros t0. apply keeps_bind;
    [|intros; apply keeps_bind; [apply keeps_seed_user, _ | intros; apply keeps_ret]].
  unfold seed_demo. apply keeps_bind; [apply keeps_default_tenant, _|]. intros t. cbv zeta.
  apply keeps_bind.
  - unfold seed_demo_business. eapply triple_bind; [apply demo_good|]. intros [b|] w [Hw Hb]; revert w Hw.
    + apply (keeps_bind in_catalogue); [|intros; keeps_steps]. apply catalogue_keeps_save.
      exact (Hb b eq_refl).
    + apply (keeps_bind in_catalogue); [|intros; keeps_steps]. apply catalogue_keeps_insert. reflexivity.
  - intros b. unfold seed_staff, seed_services, seed_hours.
    repeat first [apply keeps_seed_each | apply keeps_bind; [|intros ?] | solve [keeps_steps] | cbv zeta].
    all: intros; simpl; first [done | by apply demo_services_ok | by apply demo_hours_ok].
Qed.

Lemma catalogue_script script : keeps in_catalogue (run_script script).
Proof.
  destruct script; simpl; (apply keeps_bind; [|intros; apply keeps_ret]).
  - apply catalogue_seed.
  - apply framed_request; [exact _|]. apply keeps_dev_seed, _.
  - apply framed_request; [exact _|]. apply keeps_default_tenant, _.
  - apply keeps_failed_jobs, _.
Qed.
End SeedRequests.

(** ** Runs *)

(** The request reached its handler: the validator of its body accepted some body and handed
    on the values of the request.  Requests that do not write to the catalogue are not
    restricted. *)
Definition accepted (r : Request) : Prop :=
  match r with
  | CreateBusiness _ n z f => exists n0 z0 f0, validate_BusinessCreate n0 z0 f0 = Ok (n, z, f)
  | UpdateBusiness _ _ u => exists u0, validate_BusinessUpdate u0 = Ok u
  | CreateService _ _ n d p c q a => validate_ServiceCreate n d p c q a = Ok tt
  | UpdateService _ _ _ u => validate_ServiceUpdate u = Ok tt
  | CreateWorkingHours _ _ _ d x y => validate_WorkingHoursCreate d x y = Ok tt
  | CreateException _ _ _ _ c x y rs => validate_AvailabilityExceptionCreate c x y rs = Ok tt
  | CreateBlock _ _ _ d x y rs => validate_RecurringStaffBlockCreate d x y rs = Ok tt
  | CreateTransferHours _ _ d x y => validate_BusinessTransferHoursCreate d x y = Ok tt
  | OnboardBusiness _ req => validate_OnboardingSetupRequest req = Ok req
  | _ => True
  end.

Section Runs.
Context `{Config} `{Providers} `{ExnText}.

Lemma execute_secures r : accepted r -> secures (execute r).
Proof.
  intros Ha. destruct r; try (by apply keeps_secures, catalogue_bookings);
    try (by apply keeps_secures, catalogue_calls);
    try (by apply keeps_secures, catalogue_directory); simpl in Ha; unfold execute;
    try (apply secures_then; [|intros; apply keeps_ret]).
  - destruct Ha as (n0 & z0 & f0 & Ha). by eapply keeps_secures, secures_create_business.
  - destruct Ha as (u0 & Ha). by eapply secures_update_business.
  - by apply keeps_secures, secures_create_service.
  - by apply secures_update_service.
  - by apply keeps_secures, secures_create_hours.
  - apply secures_update_hours.
  - by apply keeps_secures, secures_create_exception.
  - by apply keeps_secures, secures_create_block.
  - apply keeps_secures. unfold delete_availability_exception,
      require_availability_exception_in_business, require_availability_exception,
      get_availability_exception. keeps_steps. apply delete_exception.
  - apply keeps_secures. unfold delete_recurring_staff_block,
      require_recurring_staff_block_in_business, require_recurring_staff_block,
      get_recurring_staff_block. keeps_steps. apply delete_block.
  - by apply keeps_secures, secures_create_transfer.
  - by apply keeps_secures, secures_onboarding.
  - apply keeps_secures, keeps_execute_account, _.
Qed.

Lemma secures_request {A} (m : PyM A) w :
  secures m -> in_catalogue w -> in_catalogue (run_request m w).2.
Proof.
  intros Hm [Hs Hd]. unfold run_request. pose proof (Hm (open_session w) (conj Hd Hd)) as Ht.
  destruct (m (open_session w)) as [[a|e] w']; by split.
Qed.

Lemma catalogue_maintenance : keeps in_catalogue run_scheduled_maintenance.
Proof.
  destruct (keeps_account_tasks in_catalogue) as (_ & _ & H3 & H4 & H5).
  destruct (keeps_reconcile in_catalogue) as [H6 H7].
  pose proof (keeps_reminders in_catalogue) as H8.
  assert (keeps in_catalogue expire_stale_waitlist_offers) as H9
    by (apply keeps_expire_offers; eauto with ledger). pose proof catalogue_sweep as H10.
  unfold run_scheduled_maintenance, maintenance_tasks, try_acquire_maintenance_lock,
    get_failed_queue_depth, cleanup_old_audit_logs, expire_stale_sessions, in_session.
  keeps_steps. apply framed_request; [exact _|]. keeps_steps.
Qed.

(** A run whose requests passed their validators. *)
Inductive accepted_run : World -> World -> Prop :=
  | accepted_nil w : accepted_run w w
  | accepted_request w r w' :
      accepted r -> accepted_run (run_request (execute r) w).2 w' -> accepted_run w w'
  | accepted_job w w' : accepted_run (process_next_job w).2 w' -> accepted_run w w'
  | accepted_maintenance w w' : accepted_run (run_scheduled_maintenance w).2 w' -> accepted_run w w'
  | accepted_queue w w' : accepted_run (run_queue_maintenance w).2 w' -> accepted_run w w'
  | accepted_script script w w' : accepted_run (run_script script w).2 w' -> accepted_run w w'
  | accepted_time w t w' :
      w_now w <= t -> accepted_run (w <| w_now := t |>) w' -> accepted_run w w'.

Lemma accepted_run_keeps w w' : accepted_run w w' -> in_catalogue w -> in_catalogue w'.
Proof.
  induction 1 as [|w r w' Ha _ IH|w w' _ IH|w w' _ IH|w w' _ IH|script w w' _ IH|w t w' _ _ IH]; intros Hw;
    [done | apply IH..].
  - by apply secures_request; [apply execute_secures|].
  - apply keeps_final; [by apply (keeps_process in_catalogue) | done].
  - apply keeps_final; [apply catalogue_maintenance | done].
  - apply keeps_final; [by apply (keeps_queue_maintenance in_catalogue) | done].
  - apply keeps_final; [apply catalogue_script | done].
  - exact Hw.
Qed.

(** ** Searches end *)

Lemma search_ends business business_id tenant_id staff_id minutes query_date w :
  0 < minutes ->
  exists slots,
    search_slots business business_id tenant_id staff_id minutes query_date w = (Ok slots, w)
    /\ forall s e, In (s, e) slots -> e = s + timedelta_minutes minutes.
Proof.
  intros Hd. unfold search_slots, bind, asks.
  destruct (search_exact (w_db w) business_id tenant_id (biz_timezone business) staff_id minutes
    query_date (w_now w) Hd) as (slots & -> & _ & Hex).
  exists slots. split; [done|]. intros s e Hin. by apply Hex in Hin as [He _].
Qed.

Lemma find_row `{Entity A} k (p : A -> bool) msg w :
  let o := (x <- find_pk k p ;; require msg x) w in
  o.2 = w /\ ((exists r, o.1 = Ok r /\ table (w_db w) !! k = Some r)
             \/ o.1 = Raise (DomainError NotFoundError msg)).
Proof.
  unfold bind, find_pk, asks, require, domain_error, raise, ret.
  destruct (table (w_db w) !! k) as [r|]; [destruct (p r)|]; simpl; eauto.
Qed.

Lemma search_on_catalogue t b svc st d w :
  catalogue_ok (w_db w) ->
  match (get_available_slots t b svc st d w).1 with
  | Ok slots => forall s e, In (s, e) slots ->
                  exists minutes, 1 <= minutes <= 480 /\ e = s + timedelta_minutes minutes
  | Raise e => exists msg, e = DomainError NotFoundError msg
  end.
Proof.
  intros Hc. unfold get_available_slots, require_business, get_business, require_service, get_service.
  unfold bind at 1.
  destruct (find_row (A := Business) b (fun z => biz_tenant_id z =? t) "Business not found" w)
    as [Hw [(z & Hz & _)|Hz]];
    destruct (bind _ _ w) as [r1 w1]; simpl in Hw, Hz; subst; [|by eexists].
  unfold bind at 1.
  destruct (find_row (A := Service) svc (fun z => svc_tenant_id z =? t) "Service not found" w)
    as [Hw [(v & Hv & Hk)|Hv]];
    destruct (bind _ _ w) as [r2 w2]; simpl in Hw, Hv; subst; [|by eexists].
  pose proof (cat_services _ Hc _ _ Hk) as Hok. unfold service_ok in Hok.
  do 4 apply andb_prop in Hok as [Hok _]. apply passes_between in Hok.
  unfold bind at 1. destruct (svc_business_id v =? b); [|by eexists]. cbn [ret].
  destruct (search_ends z b t st (svc_duration_minutes v) d w) as (slots & Hs & Hin); [lia|].
  unfold bind at 1. destruct st as [k|].
  - unfold require_staff, get_staff, bind at 1.
    destruct (find_row (A := Staff) k (fun m => stf_tenant_id m =? t) "Staff member not found" w)
      as [Hw [(m & Hm & _)|Hm]];
      destruct (bind _ _ w) as [r3 w3]; simpl in Hw, Hm; subst; [|by eexists].
    destruct (stf_business_id m =? b); [|by eexists]. cbn [ret]. rewrite Hs. simpl.
    intros s e Hse. eauto.
  - cbn [ret]. rewrite Hs. simpl. intros s e Hse. eauto.
Qed.


(** ** Nobody is booked twice *)

Lemma accepted_run_system w w' : accepted_run w w' -> system_run w w'.
Proof.
  induction 1 as [|w r w' _ _ IH|w w' _ IH|w w' _ IH|w w' _ IH|script w w' _ IH|w t w' Ht _ IH];
    [constructor | eapply run_cons; [|exact IH]..]; by constructor.
Qed.

(** C1: no staff member is ever double-booked.  After any sequence of requests that passed
    their schemas, jobs and maintenance sweeps, whether they succeed or fail, every booking of
    the durable database takes between one minute and eight hours, and two different bookings
    that hold a slot (confirmed or awaiting payment) with the same staff member do not overlap
    in time. *)
Theorem no_double_booking_ever (w w' : World) k1 k2 b1 b2 s :
  consistent w -> in_catalogue w -> accepted_run w w' ->
  bookings (w_committed w') !! k1 = Some b1 -> bookings (w_committed w') !! k2 = Some b2 ->
  bk_starts_at b1 + timedelta_minutes 1 <= bk_ends_at b1 <= bk_starts_at b1 + timedelta_minutes 480
  /\ (k1 <> k2 -> bk_staff_id b1 = Some s -> bk_staff_id b2 = Some s ->
      active_status (bk_status b1) = true -> active_status (bk_status b2) = true ->
      bk_ends_at b1 <= bk_starts_at b2 \/ bk_ends_at b2 <= bk_starts_at b1).
Proof.
  intros Hc Hw Hr Hb1 Hb2.
  destruct (consistent_run _ _ Hc (accepted_run_system _ _ Hr)) as (_ & _ & Hc').
  destruct (accepted_run_keeps _ _ Hr Hw) as [_ Hd].
  pose proof (cat_bookings _ Hd _ _ Hb1) as Ho1. pose proof (cat_bookings _ Hd _ _ Hb2) as Ho2.
  unfold booking_ok, timedelta_minutes, minute_us, second_us in *. bool_props. split; [lia|]. intros.
  eapply active_bookings_disjoint; eauto; lia.
Qed.
End Runs.
