(* ===== verification/QueueRuns.v ===== *)
(** * QueueRuns: the queues over whole runs

    Whatever requests, jobs, sweeps and scripts run, the queues stay sound (QueueInvariant.v):
    the hypotheses of the theorems on single jobs hold at every moment of a run. *)

From S2P Require Import Prelude Py Effects Schema Settings Orm AuditTrail Directory Schedule JobQueue.
From S2P Require Import Frames Providers Tenancy Users QueueInvariant RateLimit Auth PasswordReset Uploads.
From S2P Require Import Onboarding Seeds Schemas PublicLink Webhooks Notifications Calendar Waitlist.
From S2P Require Import Booking BookingMachine SessionFrames Accounts SelfService IvrPrompts Ivr Twilio.
From S2P Require Import IvrCalls Worker System CatalogueBehaviour.

Section QueueRuns.
Context `{Config} `{Providers} `{!DistinctIds}.

(** ** Tables do not matter *)

Lemma sound_insert `{Entity A} (mk : Z -> Z -> A) : keeps sound_queues (db_insert mk).
Proof.
  apply sound_quiet. intros w. unfold db_insert.
  destruct (table (w_db w) !! _); [done|]. by destruct (violates _ _).
Qed.
Lemma sound_save `{Entity A} (r : A) : keeps sound_queues (save r).
Proof. by apply sound_quiet. Qed.
Lemma sound_update `{Entity A} (r : A) : keeps sound_queues (db_update r).
Proof. apply sound_quiet. intros w. unfold db_update. by destruct (violates _ _). Qed.
Lemma sound_delete `{Entity A} (r : A) : keeps sound_queues (db_delete r).
Proof. apply sound_quiet. intros w. unfold db_delete. by destruct (referenced _ _). Qed.
Lemma sound_delete_where `{Entity A} (p : A -> bool) : keeps sound_queues (delete_where p).
Proof. by apply sound_quiet. Qed.
Lemma sound_update_where `{Entity A} (p : A -> bool) f : keeps sound_queues (update_where p f).
Proof. by apply sound_quiet. Qed.
Hint Extern 0 (keeps sound_queues (db_insert _)) => apply sound_insert : ledger.
Hint Extern 0 (keeps sound_queues (save _)) => apply sound_save : ledger.
Hint Extern 0 (keeps sound_queues (db_update _)) => apply sound_update : ledger.
Hint Extern 0 (keeps sound_queues (db_delete _)) => apply sound_delete : ledger.
Hint Extern 0 (keeps sound_queues (delete_where _)) => apply sound_delete_where : ledger.
Hint Extern 0 (keeps sound_queues (update_where _ _)) => apply sound_update_where : ledger.

(** ** Requests *)

Lemma sound_offer b t context :
  keeps sound_queues context -> keeps sound_queues (offer_freed_slot b t context).
Proof. intros Hc. unfold offer_freed_slot. keeps_steps. Qed.
Hint Resolve sound_offer : ledger.

Lemma sound_cancel k b t r a o : keeps sound_queues (cancel_booking k b t r a o).
Proof.
  unfold cancel_booking, fail_linked_pending_payment, require_booking_in_business_for_update.
  keeps_steps.
Qed.
Lemma sound_expire k b t : keeps sound_queues (expire_pending_payment_hold k b t).
Proof.
  unfold expire_pending_payment_hold, fail_linked_pending_payment,
    require_booking_in_business_for_update. keeps_steps.
Qed.
Lemma sound_confirm k b t p s : keeps sound_queues (confirm_booking_payment k b t p s).
Proof.
  unfold confirm_booking_payment, settle_payment, payment_of, enqueue_confirmation_jobs,
    require_booking_in_business_for_update. keeps_steps.
Qed.
Lemma sound_create t b c s st x src a o r :
  keeps sound_queues (create_booking t b c s st x src a o r).
Proof.
  unfold create_booking, write_booking, translate_integrity_error, enqueue_confirmation_jobs.
  keeps_steps.
Qed.
Lemma sound_hold t b c s st x p i src :
  keeps sound_queues (create_pending_payment_hold t b c s st x p i src).
Proof. unfold create_pending_payment_hold, write_hold, translate_integrity_error. keeps_steps. Qed.
Hint Resolve sound_cancel sound_create sound_expire sound_confirm sound_hold : ledger.

Lemma sound_reschedule k b t n r a s : keeps sound_queues (reschedule_booking k b t n r a s).
Proof.
  unfold reschedule_booking, require_booking_in_business, require_booking, get_booking. keeps_steps.
Qed.
Lemma sound_sweep : keeps sound_queues expire_stale_payment_holds.
Proof. unfold expire_stale_payment_holds, expire_one_hold. keeps_steps. Qed.
Hint Resolve sound_reschedule sound_sweep : ledger.

Lemma sound_sms_reply b t f m : keeps sound_queues (handle_sms_reply b t f m).
Proof.
  unfold handle_sms_reply, get_customer_by_phone, customer_by_phone, get_next_confirmed_booking.
  keeps_steps.
Qed.
Hint Resolve sound_sms_reply keeps_find_slots keeps_check_signature keeps_ivr_to_twiml : ledger.

Lemma sound_keypress k t key : keeps sound_queues (handle_keypress k t key).
Proof.
  unfold handle_keypress, handle_no_input. unfold_ivr. unfold handle_invalid_key, assign. keeps_steps.
Qed.
Lemma sound_start_session b t p : keeps sound_queues (start_session b t p).
Proof.
  unfold start_session, lookup_returning_caller_name, get_client_by_customer_id. unfold_ivr.
  keeps_steps.
Qed.
Hint Resolve sound_keypress sound_start_session : ledger.

Lemma execute_sound r : keeps sound_queues (execute r).
Proof.
  destruct r; unfold execute;
    try (unfold_bookings; unfold_calls; unfold_directory; unfold_schedule; solve [keeps_steps]).
  apply keeps_execute_account, _.
Qed.

(** ** The worker *)

Context `{ExnText}.

Lemma sound_poll types :
  triple sound_queues (poll types)
    (fun o w => sound_queues w /\ match o with Some j => in_processing j w | None => True end) no_error.
Proof.
  induction types as [|t types IH]; simpl; [by apply triple_ret|].
  eapply triple_bind; [apply sound_dequeue|].
  intros [j|]; [by apply triple_ret|]. intros w [Hw _]. exact (IH w Hw).
Qed.

(** A handler works beside the queues; the ids it draws are new. *)
Lemma sound_handler j :
  let Q w := sound_queues w /\ in_processing j w in
  triple Q (handle_job j) (fun _ => Q) (fun _ => Q).
Proof.
  intros Q w [Hw Hin].
  pose proof (handlers_leave_queues _ _ j w (conj eq_refl eq_refl)) as Hq.
  pose proof (keeps_handle_job (fun w' => w_entropy w <= w_entropy w') j w (Z.le_refl _)) as He.
  assert (Hf : sound_queues (handle_job j w).2 /\ in_processing j (handle_job j w).2).
  { assert (Hk : keys_only (w_redis w) (w_redis (handle_job j w).2)) by (by destruct (handle_job j w) as [[]]).
    split; [apply (sound_same w); [by rewrite (keys_documents _ _ Hk) | by destruct (handle_job j w) as [[]] | done]|].
    unfold in_processing, get_list. by rewrite (proj1 Hk). }
  by destruct (handle_job j w) as [[u|e] w'].
Qed.

(** The worker survives every job: only a handler that never returns ends it. *)
Lemma sound_process :
  triple sound_queues process_next_job (fun _ => sound_queues)
    (fun e w => sound_queues w /\ e = NonTermination).
Proof.
  unfold process_next_job. eapply triple_bind.
  { eapply triple_conseq; [apply sound_poll | done | intros o w Hw; exact Hw | done]. }
  intros [j|]; [|apply triple_ret; by intros w [? _]]. intros w Hw. unfold run_job.
  pose proof (sound_handler j w Hw) as Hh. destruct (handle_job j w) as [[u|e] w'].
  - pose proof (sound_ack j w' Hh) as Ha. unfold bind. by destruct (ack_job j w') as [[]].
  - destruct (on_job_error j e) as [m|] eqn:Em.
    + assert (Hm : triple (fun w => sound_queues w /\ in_processing j w) m (fun _ => sound_queues) no_error).
      { assert (Hr : forall x, triple (fun w => sound_queues w /\ in_processing j w)
          (schedule_retry j x ;;; ret true) (fun _ => sound_queues) no_error).
        { intros x. eapply triple_bind; [apply sound_retry | intros a; by apply triple_ret]. }
        assert (Hf : forall x, triple (fun w => sound_queues w /\ in_processing j w)
          (move_job_to_failed_queue j x ;;; ret true) (fun _ => sound_queues) no_error).
        { intros x. eapply triple_bind; [apply sound_failed | intros a; by apply triple_ret]. }
        unfold on_job_error in Em. destruct e; simplify_eq/=; repeat case_match; auto. }
      specialize (Hm w' Hh). by destruct (m w') as [[]].
    + split; [apply Hh|]. unfold on_job_error in Em. by destruct e.
Qed.

Lemma sound_upkeep : triple sound_queues run_queue_maintenance (fun _ => sound_queues) no_error.
Proof.
  unfold run_queue_maintenance. eapply triple_bind; [apply sound_reclaim|]. intros n.
  eapply triple_bind; [apply sound_promote|]. intros m. by apply triple_ret.
Qed.

Lemma sound_maintenance : keeps sound_queues run_scheduled_maintenance.
Proof.
  destruct (keeps_account_tasks sound_queues) as (_ & _ & H3 & H4 & H5).
  destruct (keeps_reconcile sound_queues) as [H6 H7].
  pose proof (keeps_reminders sound_queues) as H8.
  assert (keeps sound_queues expire_stale_waitlist_offers) as H9
    by (apply keeps_expire_offers; eauto with ledger).
  unfold run_scheduled_maintenance, maintenance_tasks, try_acquire_maintenance_lock,
    get_failed_queue_depth, cleanup_old_audit_logs, expire_stale_sessions, in_session.
  keeps_steps. apply framed_request; [exact _|]. keeps_steps.
Qed.

Lemma keeps_no_error {A} (m : PyM A) :
  triple sound_queues m (fun _ => sound_queues) no_error -> keeps sound_queues m.
Proof. intros Hm. by eapply triple_conseq; [exact Hm|..]. Qed.

Context (separate_failed_queue : forall t, queue_name_for_job_type t <> worker_failed_queue_name).

Lemma sound_script script : keeps sound_queues (run_script script).
Proof.
  destruct script; simpl; (apply keeps_bind; [|intros; apply keeps_ret]).
  - apply framed_request; [exact _|].
    unfold seed_demo_main, seed_all, seed_demo, seed_demo_business, find_demo_business, seed_staff,
      seed_services, seed_hours, seed_each.
    pose proof (keeps_default_tenant sound_queues). pose proof (keeps_seed_user sound_queues).
    keeps_steps.
  - apply framed_request; [exact _|]. apply keeps_dev_seed, _.
  - apply framed_request; [exact _|]. apply keeps_default_tenant, _.
  - unfold worker_failed_jobs_main. destruct command; (apply keeps_bind; [|intros; apply keeps_ret]);
      apply keeps_no_error; [apply sound_list | by apply sound_requeue].
Qed.

Lemma sound_run w w' : system_run w w' -> sound_queues w -> sound_queues w'.
Proof.
  intros Hr. induction Hr as [w|w1 w2 w3 Hs _ IH]; [done|]. intros Hw. apply IH.
  destruct Hs as [r w|w|w|w|script w|w t _]; [| | | | |exact Hw].
  - apply (keeps_final _ _ _ (framed_request _ _ (execute_sound r)) Hw).
  - pose proof (sound_process w Hw) as Ht. destruct (process_next_job w) as [[b|e] w']; [done | apply Ht].
  - apply (keeps_final _ _ _ sound_maintenance Hw).
  - apply (keeps_final _ _ _ (keeps_no_error _ sound_upkeep) Hw).
  - apply (keeps_final _ _ _ (sound_script script) Hw).
Qed.

(** C99: no run spoils the queues.  Whatever requests, jobs, sweeps, upkeep of the queues and
    scripts run, whether they succeed or fail, every document that Redis then holds in a queue
    parses as a job and prints back as itself, no job is held twice, and every id was drawn
    before, so a new job never takes the id of another.  Hence the worker can always go on:
    polling, running and settling a job never raises, and neither does the upkeep of the queues;
    only a handler that never returns would stop it. *)
Theorem queues_stay_sound (w w' : World) :
  sound_queues w -> system_run w w' ->
  (forall raw, raw ∈ documents (w_redis w') -> exists j, from_json raw = Ok j /\ to_json j = raw)
  /\ NoDup (job_ids (w_redis w'))
  /\ (forall id, id ∈ job_ids (w_redis w') -> exists n, n < w_entropy w' /\ id = uuid_str n)
  /\ (forall e, (process_next_job w').1 = Raise e -> e = NonTermination)
  /\ (run_queue_maintenance w').1 = Ok tt.
Proof.
  intros Hw Hr. pose proof (sound_run _ _ Hr Hw) as Hw'. pose proof Hw' as [[Hv Hnd] Hi].
  split; [|split; [exact Hnd | split; [exact Hi | split]]].
  - intros raw Hraw. destruct (Hv raw Hraw) as [j ->]. exists j. split; [apply from_to_json | done].
  - intros e He. pose proof (sound_process w' Hw') as Ht.
    destruct (process_next_job w') as [[b|x] w2]; [done|]. simpl in He. destruct Ht as [_ ->]. congruence.
  - pose proof (sound_upkeep w' Hw') as Ht. by destruct (run_queue_maintenance w') as [[[]|e] w2].
Qed.
End QueueRuns.
