(* ===== verification/ScopeBehaviour.v ===== *)
(** * ScopeBehaviour: no reference ever crosses the border of a salon

    Every request, job and sweep keeps [in_scope]: each row it writes names a business of its
    tenant, and customers, services and staff members of that business.  The checks that
    establish this are spread over the services; here each of them is what lets the next row
    be written. *)

From S2P Require Import Prelude Py Effects Schema Settings Orm AuditTrail Directory Schedule JobQueue.
From S2P Require Import PublicLink Providers Notifications Calendar Waitlist Booking.
From S2P Require Import BookingMachine Frames SessionFrames BookingRefinement SelfService Availability.
From S2P Require Import IvrPrompts Ivr RateLimit Twilio IvrCalls Onboarding Catalogue Scope.
From S2P Require Import Tenancy Seeds SeedsBehaviour Accounts Worker System.

(** ** What the checks of the services teach *)

Section Learning.
Context `{Config}.

Lemma learn_found `{Located A} k (p : A -> bool) msg :
  learns (o <- find_pk k p ;; require msg o) self.
Proof.
  eapply reads_learns; [apply reads_find|]. intros r db Hdb [Hr _]. by eapply located_stored.
Qed.

Lemma learn_checked `{Located A} (m : PyM A) (c : A -> bool) e :
  learns m self -> learns (r <- m ;; if c r then ret r else raise e) self.
Proof.
  intros Hm. eapply reads_learns; [apply reads_checked, Hm|]. intros r db Hdb [Hr _]. by apply Hr.
Qed.

Lemma learn_first `{Located A} (p : A -> bool) :
  learns (first p) (fun o => match o with Some r => self r | None => [] end).
Proof.
  intros w. unfold first, asks. split; [done|]. intros Hs.
  destruct (head _) as [r|] eqn:E; [|apply Forall_nil_2].
  apply head_filter_some in E as [Hin _]. apply in_rows_of in Hin as [k Hk].
  by eapply located_stored.
Qed.

(** The business of a path is the tenant's. *)
Lemma learn_business b t :
  learns (require_business b t) (fun z => MkPlacement t b None None None :: business_self z).
Proof.
  eapply reads_learns; [apply reads_find|]. intros z db Hdb [Hz Ht]. bool_props.
  pose proof (located_stored db b z Hdb Hz) as Hst. simpl in Hst.
  pose proof (sc_businesses _ Hdb _ _ Hz) as Hid. simpl in Hid, Ht. subst b t.
  constructor; [by apply stands_one | exact Hst].
Qed.

Lemma learn_customer c t :
  learns (require_customer c t)
    (fun r => MkPlacement t (cus_business_id r) (Some c) None None :: customer_self r).
Proof.
  eapply reads_learns; [apply reads_find|]. intros r db Hdb [Hr Ht]. bool_props.
  pose proof (located_stored db c r Hdb Hr) as Hst. simpl in Hst.
  pose proof (proj1 (sc_customers _ Hdb) _ _ Hr) as Hid. simpl in Hid, Ht. subst c t.
  constructor; [by apply stands_one | exact Hst].
Qed.
Lemma learn_service s t :
  learns (require_service s t)
    (fun r => MkPlacement t (svc_business_id r) None (Some s) None :: service_self r).
Proof.
  eapply reads_learns; [apply reads_find|]. intros r db Hdb [Hr Ht]. bool_props.
  pose proof (located_stored db s r Hdb Hr) as Hst. simpl in Hst.
  pose proof (proj1 (sc_services _ Hdb) _ _ Hr) as Hid. simpl in Hid, Ht. subst s t.
  constructor; [by apply stands_one | exact Hst].
Qed.
Lemma learn_staff m t :
  learns (require_staff m t)
    (fun r => MkPlacement t (stf_business_id r) None None (Some m) :: staff_self r).
Proof.
  eapply reads_learns; [apply reads_find|]. intros r db Hdb [Hr Ht]. bool_props.
  pose proof (located_stored db m r Hdb Hr) as Hst. simpl in Hst.
  pose proof (proj1 (sc_staff _ Hdb) _ _ Hr) as Hid. simpl in Hid, Ht. subst m t.
  constructor; [by apply stands_one | exact Hst].
Qed.

(** The second check: the row is of the business of the path. *)
Lemma learn_in_business {A} (m : PyM A) (c : A -> Z) b e pf pf' :
  learns m pf -> (forall r, c r = b -> pf r = pf' r) ->
  learns (r <- m ;; if c r =? b then ret r else raise e) pf'.
Proof.
  intros Hm Hp. eapply reads_learns; [apply reads_checked, Hm|].
  intros r db Hdb [Hr Hc]. bool_props. rewrite <- (Hp r Hc). by apply Hr.
Qed.

Lemma learn_customer_in c b t :
  learns (require_customer_in_business c b t)
    (fun r => MkPlacement t b (Some c) None None :: customer_self r).
Proof. eapply learn_in_business; [apply learn_customer|]. by intros r <-. Qed.
Lemma learn_service_in s b t :
  learns (require_service_in_business s b t)
    (fun r => MkPlacement t b None (Some s) None :: service_self r).
Proof. eapply learn_in_business; [apply learn_service|]. by intros r <-. Qed.
Lemma learn_staff_in m b t :
  learns (require_staff_in_business m b t)
    (fun r => MkPlacement t b None None (Some m) :: staff_self r).
Proof. eapply learn_in_business; [apply learn_staff|]. by intros r <-. Qed.

(** Checks that follow do not make it forgotten. *)
Lemma learn_then {A B} (m : PyM A) (k : A -> PyM B) pf p :
  learns m pf -> (forall r, In p (pf r)) -> (forall r, reads (k r) (fun _ _ => True)) ->
  learns (bind m k) (fun _ => [p]).
Proof.
  intros Hm Hp Hk w. unfold bind. specialize (Hm w). destruct (m w) as [[r|e] w']; [|done].
  destruct Hm as [-> Hr]. specialize (Hk r w). destruct (k r w) as [[b|e] w'']; [|done].
  destruct Hk as [-> _]. split; [done|]. intros Hs. apply stands_one.
  specialize (Hr Hs). unfold stands in Hr. rewrite Forall_forall in Hr. apply Hr, list_elem_of_In, Hp.
Qed.

(** A staff member that was named is one of the business. *)
Definition named_staff (t b : Z) (st : option Z) : list Placement :=
  match st with Some _ => [MkPlacement t b None None st] | None => [] end.

Lemma learn_check_staff st b t : learns (check_staff st b t) (fun _ => named_staff t b st).
Proof.
  destruct st as [m|]; [|by intros w; split; [|intros; apply Forall_nil_2]].
  eapply learn_then; [apply learn_staff_in | intros r; by left | by intros r w].
Qed.

(** [create_waitlist_entry] checks its staff member in line. *)
Lemma learn_preferred_staff st b t :
  learns (match st with
          | Some s => member <- require_staff s t ;;
              if stf_business_id member =? b then ret tt
              else domain_error NotFoundError "Staff member not found"
          | None => ret tt
          end) (fun _ => named_staff t b st).
Proof.
  destruct st as [m|]; [|by intros w; split; [|intros; apply Forall_nil_2]].
  intros w. unfold bind. pose proof (learn_staff m t w) as Hm.
  destruct (require_staff m t w) as [[r|e] w']; [|done]. destruct Hm as [-> Hm].
  destruct (stf_business_id r =? b) eqn:E; [|done]. bool_props. subst b. split; [done|].
  intros Hs. apply stands_one. by apply Hm, Forall_cons in Hs as [Hs _].
Qed.

Lemma learn_booking k t : learns (require_booking k t) booking_place.
Proof. exact (learn_found (A := Booking) _ _ _). Qed.
Lemma learn_booking_in k b t : learns (require_booking_in_business k b t) booking_place.
Proof. eapply learn_in_business; [apply learn_booking | done]. Qed.

(** The booking that was locked, of the tenant that asks for it. *)
Lemma read_booking_lock k b t :
  reads (require_booking_in_business_for_update k b t)
    (fun r db => bookings db !! k = Some r /\ bk_tenant_id r = t /\ bk_business_id r = b).
Proof.
  intros w. unfold require_booking_in_business_for_update, bind, find_pk, asks, require.
  destruct (table (w_db w) !! k) as [r|] eqn:Hr; [|done].
  destruct (bk_tenant_id r =? t) eqn:Et; [|done]. simpl.
  destruct (bk_business_id r =? b) eqn:Eb; [|done]. bool_props. done.
Qed.
Lemma learn_booking_lock k b t :
  learns (require_booking_in_business_for_update k b t) booking_place.
Proof.
  eapply reads_learns; [apply read_booking_lock|]. intros r db Hdb [Hr _].
  exact (sc_bookings _ Hdb _ _ Hr).
Qed.
End Learning.

#[export] Hint Resolve learn_found learn_checked learn_first : learn.
#[export] Hint Resolve learn_business learn_customer learn_service learn_staff learn_customer_in
  learn_service_in learn_staff_in learn_check_staff learn_booking learn_booking_in
  learn_booking_lock | 0 : learn.

(** ** Automation *)

(** The same place, up to equations between columns. *)
Ltac same_place :=
  repeat match goal with
         | Hf : forall k, ?o = Some k -> _, Hk : ?o = Some _ |- _ => specialize (Hf _ Hk)
         end;
  match goal with
  | Hp : business_at ?db ?t ?b |- business_at ?db ?t' ?b' =>
      replace t' with t by congruence; replace b' with b by congruence; exact Hp
  | Hp : ?at_ ?db ?t ?b ?k |- ?at_ ?db ?t' ?b' ?k' =>
      replace t' with t by congruence; replace b' with b by congruence;
      replace k' with k by congruence; exact Hp
  end.

(** Placements that follow from those that stand. *)
Ltac standing :=
  intros; unfold stands in *; cbn in *; unfold client_place, hours_place, exception_place,
    block_place, transfer_place, booking_place, line_item_place, waitlist_place, customer_place,
    service_place, staff_place, customer_self, service_self, staff_self, business_self,
    named_staff in *; cbn in *;
  repeat match goal with Hf : Forall _ (_ :: _) |- _ => apply Forall_cons in Hf as [? Hf] end;
  repeat first [apply Forall_nil_2 | apply Forall_cons; split];
  try assumption;
  unfold placed in *; cbn in *; destruct_and?;
  repeat match goal with Hf : forall k, Some _ = Some k -> _ |- _ => specialize (Hf _ eq_refl) end;
  repeat split; intros; simplify_eq; first [done | same_place | eauto].

#[export] Hint Extern 1 (keeps (bears _) (save _)) => apply bears_save; solve [standing] : ledger.
#[export] Hint Extern 1 (keeps (bears _) (db_update _)) => apply bears_update; solve [standing] : ledger.
#[export] Hint Extern 1 (keeps (bears _) (db_delete _)) => apply bears_delete : ledger.
#[export] Hint Extern 1 (keeps in_scope (db_delete _)) => apply scope_ends, ends_keeps, bears_delete : ledger.

(** The rules of [ends], learning from every check. *)
Ltac scope_steps :=
  repeat (intros; cbv zeta;
    lazymatch goal with
    | |- ends _ (bind (db_insert _) _) =>
        eapply ends_insert; [intros; reflexivity | solve [standing] | ]
    | |- ends _ (bind (if ?x =? ?y then ret tt else _) _) =>
        apply ends_test; intros ?%Z.eqb_eq
    | |- ends _ (bind _ _) =>
        first [ eapply ends_learn; [solve [eauto with learn]|]
              | apply ends_bind; [solve [keeps_steps]|] ]
    | |- ends _ (match ?x with _ => _ end) => destruct x
    | |- _ => apply ends_keeps; solve [keeps_steps]
    end); intros; cbv zeta.

Section Operations.
Context `{Config} `{Providers}.

(** ** Directory *)

Lemma scope_update_business b t u : keeps in_scope (update_business b t u).
Proof. apply scope_ends. unfold update_business. scope_steps. Qed.

Lemma scope_create_service t b n d p c q a : keeps in_scope (create_service t b n d p c q a).
Proof. apply scope_ends. unfold create_service, check_deposit_fields. scope_steps. Qed.

Lemma scope_update_service s b t u : keeps in_scope (update_service s b t u).
Proof. apply scope_ends. unfold update_service, check_deposit_fields. scope_steps. Qed.

Lemma scope_create_staff t b n p : keeps in_scope (create_staff t b n p).
Proof. apply scope_ends. unfold create_staff. scope_steps. Qed.

Lemma scope_update_staff s b t n p a : keeps in_scope (update_staff s b t n p a).
Proof. apply scope_ends. unfold update_staff. scope_steps. Qed.

Lemma scope_customer t b p n : keeps in_scope (get_or_create_customer t b p n).
Proof.
  apply scope_ends. unfold get_or_create_customer, customer_by_phone. scope_steps.
  apply ends_catch; [scope_steps|]. intros e m' He. destruct e; simplify_eq/=. keeps_steps.
Qed.

Lemma scope_update_customer c b t n : keeps in_scope (update_customer c b t n).
Proof. apply scope_ends. unfold update_customer. scope_steps. Qed.

Lemma scope_gdpr c b t a : keeps in_scope (gdpr_delete_customer c b t a).
Proof. apply scope_ends. unfold gdpr_delete_customer. scope_steps. Qed.

Lemma scope_create_client t b n c e p o : keeps in_scope (create_client t b n c e p o).
Proof.
  apply scope_ends. unfold create_client. destruct c as [k|]; [|scope_steps].
  eapply ends_learn; [eauto with learn|]. intros z. eapply ends_learn.
  - eapply learn_then; [apply learn_customer_in | intros r; by left|].
    intros r w. unfold bind, first, asks. by destruct (head _).
  - scope_steps.
Qed.

Lemma scope_update_client k b t n e p o : keeps in_scope (update_client k b t n e p o).
Proof.
  apply scope_ends. unfold update_client, require_client_in_business, require_client, get_client.
  scope_steps.
Qed.

(** ** Opening times *)

Lemma scope_create_hours t b st d x y : keeps in_scope (create_working_hours t b st d x y).
Proof. apply scope_ends. unfold create_working_hours. destruct st; scope_steps. Qed.

Lemma scope_update_hours k t b x y : keeps in_scope (update_working_hours k t b x y).
Proof.
  apply scope_ends. unfold update_working_hours, require_working_hours_in_business,
    require_working_hours, get_working_hours. scope_steps.
Qed.

Lemma scope_create_exception t b st d c x y r :
  keeps in_scope (create_availability_exception t b st d c x y r).
Proof.
  apply scope_ends. unfold create_availability_exception, ensure_no_conflicting_exception,
    check_exception_overlap. destruct st; scope_steps.
Qed.

Lemma scope_create_block t b st d x y r :
  keeps in_scope (create_recurring_staff_block t b st d x y r).
Proof.
  apply scope_ends. unfold create_recurring_staff_block, ensure_no_conflicting_block. destruct st; scope_steps.
Qed.

Lemma scope_create_transfer t b d x y : keeps in_scope (create_transfer_hours t b d x y).
Proof.
  apply scope_ends. unfold create_transfer_hours. scope_steps.
  apply ends_catch; [scope_steps|]. intros e m' He. destruct e; simplify_eq/=. keeps_steps.
Qed.

(** ** Onboarding *)

Lemma learn_reusable t :
  learns (get_reusable_signup_business t)
    (fun o => match o with Some z => MkPlacement t (biz_id z) None None None :: business_self z
                         | None => [] end).
Proof.
  intros w. unfold get_reusable_signup_business, bind, first, all, asks, ret.
  destruct (head (List.filter _ (rows_of (table (w_db w))))); [|by split; [|intros; apply Forall_nil_2]].
  cbv beta iota. destruct (List.filter _ _) as [|z [|]] eqn:Ez;
    try (by split; [|intros; apply Forall_nil_2]).
  assert (Hz : In z [z]) by by left. rewrite <- Ez in Hz. apply filter_In in Hz as [Hz Ht].
  apply in_rows_of in Hz as [k Hk]. bool_props. split; [done|]. intros Hs.
  destruct (_ || _); [apply Forall_nil_2|].
  pose proof (located_stored _ _ _ Hs Hk) as Hst. simpl in Hst. subst t.
  constructor; [by apply stands_one | exact Hst].
Qed.

Lemma bears_each_row `{Located A} {C} ps (l : list C) (mk : C -> Z -> Z -> A) :
  (forall x id now, pk (mk x id now) = id) ->
  (forall x db id now, stands db ps -> stands db (place (mk x id now))) ->
  keeps (bears ps) (for_each l (fun x => db_insert (mk x) ;;; ret tt)).
Proof.
  intros Hid Hpl. apply keeps_for_each. intros x. eapply triple_bind.
  - apply (bears_insert ps (mk x)); eauto.
  - intros r. apply triple_ret. intros w [[Hs Hps] _]. split; [done|]. by apply Forall_app in Hps as [_ ?].
Qed.

Lemma scope_onboarding t req : keeps in_scope (setup_business_onboarding t req).
Proof.
  apply scope_ends. unfold setup_business_onboarding. cbv zeta.
  eapply ends_learn; [apply learn_reusable|]. intros reusable.
  apply (triple_bind _ _ _ (fun z => bears [MkPlacement t (biz_id z) None None None])).
  - destruct reusable as [z|].
    + apply triple_bind with (R := fun _ => bears [MkPlacement t (biz_id z) None None None]);
        [|intros u; by apply triple_ret].
      eapply triple_conseq; [apply bears_save | done | | by intros ? ? [? _]]; [standing|].
      intros u w [Hs Hps]. split; [done|]. apply stands_one. by apply Forall_cons in Hps as [Hps _].
    + eapply triple_conseq; [apply bears_insert | done | | by intros ? ? [? _]]; [done | standing|].
      intros r w [[Hs Hps] (id & now & ->)]. split; [done|]. by apply Forall_app in Hps as [Hps _].
  - intros z. match goal with |- triple _ ?m _ _ =>
      change (ends [MkPlacement t (biz_id z) None None None] m) end.
    do 3 (apply ends_bind; [apply bears_each_row; [done | standing]|]; intros _).
    scope_steps.
Qed.

(** ** The waitlist *)

Lemma read_matching b t s d st u :
  reads (find_matching_waitlist_entries b t s d st u)
    (fun l db => forall e, In e l -> (exists k, waitlist_entries db !! k = Some e)
       /\ wl_tenant_id e = t /\ wl_business_id e = b).
Proof.
  intros w. unfold find_matching_waitlist_entries, bind, all, asks, ret. split; [done|].
  intros e He.
  assert (Hin : In e (sort_by wl_created_at
    (List.filter (entry_matches b t s d st) (rows_of (table (w_db w)))))).
  { destruct u; [|done]. simpl in He. destruct (sort_by _ _) as [|x l]; [done|].
    destruct He as [<-|He]; [by left|]. by destruct l. }
  rewrite in_sort_by in Hin. apply filter_In in Hin as [Hin Hm]. apply in_rows_of in Hin.
  split; [exact Hin|]. unfold entry_matches in Hm. bool_props. done.
Qed.

(** A row of the waitlist that is offered what its business has. *)
Lemma bears_offer ps b t context :
  bk_tenant_id b = t -> (forall db, stands db ps -> stands db (booking_place b)) ->
  (forall qs, keeps (bears qs) context) -> keeps (bears ps) (offer_freed_slot b t context).
Proof.
  intros Ht Hb Hc. unfold offer_freed_slot.
  apply (keeps_known ps _ _ _ (fun l => match l with e :: _ => waitlist_place e | [] => [] end)
           (read_matching _ _ _ _ _ _)).
  { intros [|e l] db Hdb Hl; [apply Forall_nil_2|]. destruct (Hl e) as [(k & Hk) _]; [by left|].
    exact (sc_waitlist _ Hdb _ _ Hk). }
  intros [|e l] [db Hl]; [keeps_steps|]. destruct (Hl e) as (_ & He1 & He2); [by left|].
  apply keeps_bind; [|keeps_steps; apply Hc]. apply bears_save. intros db' Hst.
  apply Forall_app in Hst as [Hw Hst]. apply Hb, stands_one in Hst. revert Hw.
  standing; rewrite ?Ht in *; rewrite ?He1, ?He2 in *; eauto.
Qed.

Lemma scope_create_entry t b c s d st : keeps in_scope (create_waitlist_entry t b c s d st).
Proof.
  apply scope_ends. unfold create_waitlist_entry. do 2 (eapply ends_learn; [eauto with learn|]; intros).
  apply ends_test; intros Hc%Z.eqb_eq. eapply ends_learn; [eauto with learn|]; intros v.
  apply ends_test; intros Hv%Z.eqb_eq. eapply ends_learn; [apply learn_preferred_staff|]; intros u.
  destruct st; scope_steps.
Qed.

Lemma scope_update_entry k t st : keeps in_scope (update_waitlist_entry_status k t st).
Proof.
  apply scope_ends. unfold update_waitlist_entry_status, require_waitlist_entry, get_waitlist_entry.
  scope_steps.
Qed.

Lemma bears_escalate ps e :
  (forall db, stands db ps -> stands db (waitlist_place e)) ->
  keeps (bears ps) (escalate_to_next_waiting_entry e).
Proof.
  intros He. unfold escalate_to_next_waiting_entry.
  apply (keeps_known ps _ _ _ (fun l => match l with x :: _ => waitlist_place x | [] => [] end)
           (read_matching _ _ _ _ _ _)).
  { intros [|x l] db Hdb Hl; [apply Forall_nil_2|]. destruct (Hl x) as [(k & Hk) _]; [by left|].
    exact (sc_waitlist _ Hdb _ _ Hk). }
  intros [|x l] [db Hl]; [keeps_steps|]. destruct (Hl x) as (_ & Hx1 & Hx2); [by left|].
  apply keeps_bind; [|keeps_steps]. apply bears_save. intros db' Hst.
  apply Forall_app in Hst as [Hw Hst]. apply He in Hst. revert Hw. standing.
Qed.

Lemma scope_expire_offers : keeps in_scope expire_stale_waitlist_offers.
Proof.
  apply scope_ends, ends_keeps. unfold expire_stale_waitlist_offers, lock_stale_offered_entries.
  apply keeps_bind; [keeps_steps|]. intros now. cbv zeta.
  apply (keeps_known [] _ _ (fun l db => forall e, In e l -> exists k, waitlist_entries db !! k = Some e)
           (flat_map waitlist_place)).
  { intros w. split; [done|]. intros e [He _]%filter_In. by apply in_rows_of. }
  { intros l db Hdb Hl. induction l as [|e l IH]; [apply Forall_nil_2|]. apply Forall_app. split.
    - destruct (Hl e) as [k Hk]; [by left|]. exact (sc_waitlist _ Hdb _ _ Hk).
    - apply IH. intros x Hx. apply Hl. by right. }
  intros l _. assert (Hf : keeps (bears (flat_map waitlist_place l ++ [])) (fold_m l [] expire_offer)).
  { apply triple_fold_m. intros ids e He.
    assert (Hst : forall db, stands db (flat_map waitlist_place l ++ []) -> stands db (waitlist_place e)).
    { intros db Hdb. unfold stands in *. rewrite Forall_forall in *. intros p Hp. apply Hdb.
      rewrite app_nil_r. apply list_elem_of_In, in_flat_map. exists e.
      split; [done | by apply list_elem_of_In]. }
    unfold expire_offer. apply (keeps_bind (bears _)); [by apply bears_save|]. intros u.
    apply keeps_bind; [|keeps_steps]. by apply bears_escalate. }
  destruct l; [keeps_steps|]. apply keeps_bind; [exact Hf|]. keeps_steps.
Qed.

(** ** Bookings *)

Lemma place_of_locked (b : Booking) db k t z :
  scoped db -> bookings db !! k = Some b /\ bk_tenant_id b = t /\ bk_business_id b = z ->
  stands db (booking_place b).
Proof. intros Hdb [Hb _]. exact (sc_bookings _ Hdb _ _ Hb). Qed.

Lemma scope_cancel k b t r a o : keeps in_scope (cancel_booking k b t r a o).
Proof.
  apply scope_ends. unfold cancel_booking, fail_linked_pending_payment.
  destruct (_ && _); [apply ends_keeps; keeps_steps|].
  eapply (ends_known _ _ _ _ booking_place);
    [apply read_booking_lock | intros bk db; by apply place_of_locked|].
  intros bk (db & _ & Ht & _). apply ends_keeps.
  keeps_steps; try (apply bears_offer; [done | standing | keeps_steps]).
Qed.

Lemma scope_expire k b t : keeps in_scope (expire_pending_payment_hold k b t).
Proof.
  apply scope_ends. unfold expire_pending_payment_hold, fail_linked_pending_payment.
  eapply (ends_known _ _ _ _ booking_place);
    [apply read_booking_lock | intros bk db; by apply place_of_locked|].
  intros bk (db & _ & Ht & _). apply ends_keeps.
  keeps_steps; try (apply bears_offer; [done | standing | keeps_steps]).
Qed.

Lemma scope_confirm k b t p s : keeps in_scope (confirm_booking_payment k b t p s).
Proof.
  apply scope_ends. unfold confirm_booking_payment, settle_payment, payment_of,
    enqueue_confirmation_jobs.
  eapply ends_learn; [apply learn_booking_lock|]. intros bk. apply ends_keeps. keeps_steps.
Qed.

Lemma scope_refund k b t a r : keeps in_scope (refund_booking_payment k b t a r).
Proof.
  apply scope_ends. unfold refund_booking_payment, payment_of. scope_steps.
Qed.

Lemma scope_line_item k t s : keeps in_scope (add_booking_line_item k t s).
Proof.
  apply scope_ends. unfold add_booking_line_item.
  eapply (ends_known _ _ _ (fun r db => bookings db !! k = Some r /\ (bk_tenant_id r =? t) = true)
            booking_place); [exact (reads_find (A := Booking) _ _ _) | intros r db Hdb [Hr _]; exact (sc_bookings _ Hdb _ _ Hr)|].
  intros bk (db & _ & Ht). bool_props. eapply ends_learn; [eauto with learn|]. intros v.
  destruct (svc_business_id v =? bk_business_id bk) eqn:E; cbn [negb];
    [|apply ends_keeps; keeps_steps]. bool_props. scope_steps.
Qed.

Lemma scope_create t b c s st x src a o r :
  keeps in_scope (create_booking t b c s st x src a o r).
Proof.
  apply scope_ends. unfold create_booking, write_booking, translate_integrity_error,
    enqueue_confirmation_jobs. destruct st; scope_steps.
  all: apply ends_then; [apply ends_catch; [apply ends_keeps; keeps_steps|] | keeps_steps].
  all: intros e m' He; destruct e; simplify_eq/=; keeps_steps.
Qed.

Lemma scope_hold t b c s st x p i src :
  keeps in_scope (create_pending_payment_hold t b c s st x p i src).
Proof.
  apply scope_ends. unfold create_pending_payment_hold, write_hold, translate_integrity_error.
  destruct st; scope_steps.
  all: apply ends_then; [apply ends_catch; [scope_steps|] | keeps_steps].
  all: intros e m' He; destruct e; simplify_eq/=; keeps_steps.
Qed.
Hint Resolve scope_cancel scope_create scope_expire scope_customer : ledger.

Lemma scope_reschedule k b t n r a s : keeps in_scope (reschedule_booking k b t n r a s).
Proof.
  unfold reschedule_booking, require_booking_in_business, require_booking, get_booking. keeps_steps.
Qed.
Hint Resolve scope_reschedule : ledger.

Lemma scope_sweep : keeps in_scope expire_stale_payment_holds.
Proof. unfold expire_stale_payment_holds, expire_one_hold. keeps_steps. Qed.

(** ** Calls and messages *)

Lemma scope_sms_reply b t f m : keeps in_scope (handle_sms_reply b t f m).
Proof.
  unfold handle_sms_reply, get_customer_by_phone, customer_by_phone, get_next_confirmed_booking.
  keeps_steps.
Qed.
Hint Resolve scope_sms_reply keeps_find_slots keeps_check_signature keeps_ivr_to_twiml : ledger.

Lemma scope_keypress k t key : keeps in_scope (handle_keypress k t key).
Proof.
  unfold handle_keypress, handle_no_input. unfold_menu. unfold handle_invalid_key, assign. keeps_steps.
Qed.
Lemma scope_start_session b t p : keeps in_scope (start_session b t p).
Proof.
  unfold start_session, lookup_returning_caller_name, get_client_by_customer_id. unfold_menu.
  keeps_steps.
Qed.
Hint Resolve scope_keypress scope_start_session : ledger.

Lemma scope_calls r :
  match r with
  | SmsInbound _ _ | SmsStatus _ | VoiceInbound _ | VoiceKeypress _ _ | StartCall _ _ _
  | KeyPress _ _ _ => True
  | _ => False
  end -> keeps in_scope (execute r).
Proof.
  destruct r; try done; intros _; unfold execute, twilio_sms_inbound, twilio_sms_status,
    twilio_voice_inbound, twilio_voice_keypress, or_backend_unavailable,
    get_business_by_inbound_phone; unfold_twilio; keeps_steps.
Qed.

(** ** Every request *)

Lemma scope_delete_service s t b : keeps in_scope (delete_service s t b).
Proof.
  unfold delete_service. apply keeps_bind; [keeps_steps|]. intros v. apply keeps_bind; [keeps_steps|].
  intros [bk|]; [keeps_steps|]. apply keeps_bind; [|keeps_steps].
  intros w [Hs Hc]. unfold db_delete. simpl. destruct (service_referenced _ _) eqn:E; [by split|].
  split; [by apply service_deleted | exact Hc].
Qed.

Lemma scope_create_business t n z f : keeps in_scope (create_business t n z f).
Proof. apply scope_ends. unfold create_business. scope_steps. Qed.

Lemma scope_rest r :
  match r with
  | DeleteWorkingHours _ _ _ | DeleteException _ _ _ | DeleteBlock _ _ _
  | DeleteTransferHours _ _ _ | SubmitLead _ | UpdateLeadStatus _ _ => True
  | _ => False
  end -> keeps in_scope (execute r).
Proof.
  destruct r; try done; intros _; unfold execute;
    unfold delete_working_hours, require_working_hours_in_business,
      require_working_hours, get_working_hours, delete_availability_exception,
      require_availability_exception_in_business, require_availability_exception,
      get_availability_exception, delete_recurring_staff_block,
      require_recurring_staff_block_in_business, require_recurring_staff_block,
      get_recurring_staff_block, delete_transfer_hours, require_transfer_hours, get_transfer_hours,
      create_owner_lead, update_owner_lead_status, require_owner_lead, get_owner_lead;
    keeps_steps.
Qed.

Lemma scope_public_lookup token P : keeps P (get_booking_by_public_token token).
Proof.
  unfold get_booking_by_public_token, verify_booking_token, compare_digest, require_booking,
    get_booking. keeps_steps.
Qed.
Hint Resolve scope_public_lookup scope_create_business scope_update_business scope_create_service scope_update_service
  scope_delete_service scope_create_staff scope_update_staff scope_update_customer scope_gdpr
  scope_create_client scope_update_client scope_create_hours scope_update_hours
  scope_create_exception scope_create_block scope_create_transfer scope_onboarding
  scope_create_entry scope_update_entry scope_confirm scope_refund scope_line_item scope_hold
  : ledger.

Lemma execute_scope r : keeps in_scope (execute r).
Proof.
  destruct r; try (by apply scope_rest); try (by apply scope_calls);
    try solve [unfold execute, cancel_public_booking, reschedule_public_booking; keeps_steps].
  unfold execute. apply keeps_execute_account, _.
Qed.

Lemma scope_maintenance `{ExnText} : keeps in_scope run_scheduled_maintenance.
Proof.
  destruct (keeps_account_tasks in_scope) as (_ & _ & H3 & H4 & H5).
  destruct (keeps_reconcile in_scope) as [H6 H7].
  pose proof (keeps_reminders in_scope) as H8.
  pose proof scope_expire_offers as H9. pose proof scope_sweep as H10.
  unfold run_scheduled_maintenance, maintenance_tasks, try_acquire_maintenance_lock,
    get_failed_queue_depth, cleanup_old_audit_logs, expire_stale_sessions, in_session.
  keeps_steps. apply framed_request; [exact _|]. keeps_steps.
Qed.

Lemma bears_seed_each `{Located A} {S} ps (specs : list S) ex label (mk : S -> Z -> Z -> A) :
  (forall s id now, pk (mk s id now) = id) ->
  (forall s db id now, stands db ps -> stands db (place (mk s id now))) ->
  keeps (bears ps) (seed_each specs ex label mk).
Proof.
  intros Hid Hpl. apply keeps_map_m. intros s. destruct (ex s); [apply keeps_ret|].
  eapply triple_bind; [apply (bears_insert ps (mk s)); eauto|].
  intros r. apply triple_ret. intros w [[Hs Hps] _]. split; [done|]. by apply Forall_app in Hps as [_ ?].
Qed.

Definition salon_place (t b : Z) : list Placement := [MkPlacement t b None None None].

Lemma refreshed_salon t x (X : Exn -> World -> Prop) :
  triple (bears (salon_place t (biz_id x))) (refresh x) (fun r => bears (salon_place t (biz_id r))) X.
Proof.
  apply triple_asks. intros w [[Hs Hc] Hps]. split; [done|]. simpl.
  destruct (businesses (w_db w) !! biz_id x) as [r|] eqn:Er; [|exact Hps]. simpl.
  pose proof (sc_businesses _ Hs _ _ Er) as Hid. simpl in Hid. by rewrite Hid.
Qed.

Lemma demo_found t :
  triple in_scope (find_demo_business t)
    (fun o w => match o with
                | Some b => biz_tenant_id b = t /\ bears (salon_place t (biz_id b)) w
                | None => in_scope w
                end) (fun _ => in_scope).
Proof.
  intros w Hw. rewrite run_find_demo. destruct (the_demo (w_db w) t) as [b|] eqn:Eb; [|done].
  apply the_demo_stored in Eb as [(k & Hk) <-]. split; [done|]. split; [done|].
  exact (located_stored (A := Business) _ _ _ (proj1 Hw) Hk).
Qed.

Lemma scope_demo_business t phone :
  triple in_scope (seed_demo_business t phone)
    (fun r => bears (salon_place t (biz_id r.1))) (fun _ => in_scope).
Proof.
  assert (Hto : forall x msgs, triple (bears (salon_place t (biz_id x)))
    (commit ;;; biz <- refresh x ;; ret (biz, msgs))
    (fun r : Business * list string => bears (salon_place t (biz_id r.1))) (fun _ => in_scope)).
  { intros x msgs. eapply triple_bind.
    - eapply triple_conseq; [apply bears_commit | done | intros u w Hw; exact Hw | by intros ? ? [? _]].
    - intros u. eapply triple_bind; [apply refreshed_salon|]. intros r. by apply triple_ret. }
  unfold seed_demo_business. eapply triple_bind; [apply demo_found|]. intros [b|]; cbv zeta.
  - intros w [Ht Hw]. revert w Hw. eapply triple_bind.
    + eapply triple_conseq; [apply bears_save | done | intros u w Hw; exact Hw | by intros ? ? [? _]].
      unfold salon_place. rewrite <- Ht. standing.
    + intros u. exact (Hto (synced phone b) _).
  - eapply triple_bind.
    + eapply triple_conseq; [apply (bears_insert []) | | intros r w Hw; exact Hw | by intros ? ? [? _]];
        [done | standing | intros w; by rewrite bears_nil].
    + intros r w [[Hw Hps] (id & now & ->)]. apply Hto. split; [done|].
      by apply Forall_app in Hps as [Hps _].
Qed.

Lemma scope_seed environment voice : keeps in_scope (run_request (seed_demo_main environment voice)).
Proof.
  apply framed_request; [exact _|]. unfold seed_demo_main. destruct (negb _); [apply keeps_ret|].
  apply keeps_catch; [|intros e m' He; destruct e; simplify_eq/=; apply keeps_ret].
  apply keeps_bind; [|intros; apply keeps_ret]. unfold seed_all.
  apply keeps_bind; [apply keeps_default_tenant, _|]. intros t0. apply keeps_bind;
    [|intros; apply keeps_bind; [apply keeps_seed_user, _ | intros; apply keeps_ret]].
  unfold seed_demo. apply keeps_bind; [apply keeps_default_tenant, _|]. intros t. cbv zeta.
  eapply triple_bind; [apply scope_demo_business|]. intros b.
  match goal with |- triple _ ?m _ _ => change (ends (salon_place (ten_id t) (biz_id b.1)) m) end.
  unfold seed_staff, seed_services, seed_hours.
  repeat first [ apply bears_seed_each; [done | unfold salon_place; standing]
               | apply ends_bind; [|intros ?] | apply keeps_bind; [|intros ?]
               | solve [keeps_steps] | apply ends_keeps; solve [keeps_steps] | cbv zeta ].
Qed.

Lemma scope_script script : keeps in_scope (run_script script).
Proof.
  destruct script; simpl; (apply keeps_bind; [|intros; apply keeps_ret]).
  - apply scope_seed.
  - apply framed_request; [exact _|]. apply keeps_dev_seed, _.
  - apply framed_request; [exact _|]. apply keeps_default_tenant, _.
  - apply keeps_failed_jobs, _.
Qed.

(** ** Runs *)

Lemma scope_run `{ExnText} w w' : system_run w w' -> in_scope w -> in_scope w'.
Proof.
  intros Hr. induction Hr as [w|w1 w2 w3 Hs _ IH]; [done|]. intros Hw. apply IH.
  destruct Hs as [r w|w|w|w|script w|w t _]; [| | | | |exact Hw].
  - apply (keeps_final _ _ _ (framed_request _ _ (execute_scope r)) Hw).
  - apply (keeps_final _ _ _ (keeps_process in_scope) Hw).
  - apply (keeps_final _ _ _ scope_maintenance Hw).
  - apply (keeps_final _ _ _ (keeps_queue_maintenance in_scope) Hw).
  - apply (keeps_final _ _ _ (scope_script script) Hw).
Qed.

(** A stored reference is found again. *)
Lemma found_again `{Entity A} k (p : A -> bool) msg w r :
  table (w_committed w) !! k = Some r -> p r = true ->
  (run_request (o <- find_pk k p ;; require msg o) w).1 = Ok r.
Proof.
  intros Hr Hp. unfold run_request, bind, find_pk, asks, require. simpl. by rewrite Hr, Hp.
Qed.

Lemma business_found w t b :
  business_at (w_committed w) t b -> exists z, (run_request (require_business b t) w).1 = Ok z.
Proof.
  intros (z & Hz & Ht). exists z. apply found_again; [exact Hz | by apply Z.eqb_eq].
Qed.

Lemma staff_found w t b st :
  (forall k, st = Some k -> staff_at (w_committed w) t b k) ->
  (run_request (check_staff st b t) w).1 = Ok tt.
Proof.
  destruct st as [m|]; [|done]. intros Hm. destruct (Hm m eq_refl) as (r & Hr & Ht & Hb).
  unfold run_request, check_staff, require_staff_in_business, require_staff, get_staff, bind,
    find_pk, asks, require. simpl. rewrite Hr. subst t b. rewrite Z.eqb_refl. simpl.
  by rewrite Z.eqb_refl.
Qed.

Lemma customer_found_again w t b k :
  customer_at (w_committed w) t b k ->
  exists c, (run_request (require_customer_in_business k b t) w).1 = Ok c.
Proof.
  intros (r & Hr & Ht & Hb). exists r. unfold run_request, require_customer_in_business,
    require_customer, get_customer, bind, find_pk, asks, require. simpl. rewrite Hr. subst t b.
  rewrite Z.eqb_refl. simpl. by rewrite Z.eqb_refl.
Qed.

Lemma service_found_again w t b k :
  service_at (w_committed w) t b k ->
  exists v, (run_request (require_service_in_business k b t) w).1 = Ok v.
Proof.
  intros (r & Hr & Ht & Hb). exists r. unfold run_request, require_service_in_business,
    require_service, get_service, bind, find_pk, asks, require. simpl. rewrite Hr. subst t b.
  rewrite Z.eqb_refl. simpl. by rewrite Z.eqb_refl.
Qed.

(** C10: no reference ever crosses the border of a tenant or of a business.  After any run,
    requests of every tenant mixed, each booking and each waitlist entry of the durable
    database belongs to a business of its tenant and names a customer, a service and, if any, a
    staff member of that same business; so do the client profiles and the opening times; and
    the lookups with which a stored booking is confirmed, cancelled or rescheduled never answer
    404. *)
Theorem references_stay_in_salon `{ExnText} (w w' : World) :
  in_scope w -> system_run w w' ->
  let db := w_committed w' in
  (forall k b, bookings db !! k = Some b ->
     let t := bk_tenant_id b in let z := bk_business_id b in
     business_at db t z /\ customer_at db t z (bk_customer_id b)
     /\ service_at db t z (bk_service_id b)
     /\ (forall m, bk_staff_id b = Some m -> staff_at db t z m)
     /\ (exists business, (run_request (require_business z t) w').1 = Ok business)
     /\ (exists customer,
           (run_request (require_customer_in_business (bk_customer_id b) z t) w').1 = Ok customer)
     /\ (exists service,
           (run_request (require_service_in_business (bk_service_id b) z t) w').1 = Ok service)
     /\ (run_request (check_staff (bk_staff_id b) z t) w').1 = Ok tt)
  /\ (forall k e, waitlist_entries db !! k = Some e ->
     let t := wl_tenant_id e in let z := wl_business_id e in
     business_at db t z /\ customer_at db t z (wl_customer_id e)
     /\ service_at db t z (wl_service_id e)
     /\ (forall m, wl_staff_id e = Some m \/ wl_offered_for_staff_id e = Some m ->
           staff_at db t z m))
  /\ (forall k c, clients db !! k = Some c ->
     business_at db (cli_tenant_id c) (cli_business_id c)
     /\ (forall j, cli_customer_id c = Some j ->
           customer_at db (cli_tenant_id c) (cli_business_id c) j))
  /\ (forall k h, working_hours db !! k = Some h ->
     business_at db (wh_tenant_id h) (wh_business_id h)
     /\ (forall m, wh_staff_id h = Some m -> staff_at db (wh_tenant_id h) (wh_business_id h) m))
  /\ (forall k x, availability_exceptions db !! k = Some x ->
     business_at db (exc_tenant_id x) (exc_business_id x)
     /\ (forall m, exc_staff_id x = Some m -> staff_at db (exc_tenant_id x) (exc_business_id x) m))
  /\ (forall k x, recurring_staff_blocks db !! k = Some x ->
     business_at db (blk_tenant_id x) (blk_business_id x)
     /\ (forall m, blk_staff_id x = Some m -> staff_at db (blk_tenant_id x) (blk_business_id x) m)).
Proof.
  intros Hw Hr db. destruct (scope_run w w' Hr Hw) as [_ Hdb]. fold db in Hdb.
  split_and!.
  - intros k b Hb t z. pose proof (sc_bookings _ Hdb _ _ Hb) as Hst.
    apply stands_one in Hst as (Hp1 & Hp2 & Hp3 & Hp4). simpl in *.
    specialize (Hp2 _ eq_refl). specialize (Hp3 _ eq_refl).
    split_and!; try done;
      [by apply business_found | by apply customer_found_again | by apply service_found_again
      | by apply staff_found].
  - intros k e He t z. pose proof (sc_waitlist _ Hdb _ _ He) as Hst. unfold stands in Hst.
    apply Forall_cons in Hst as [(Hp1 & Hp2 & Hp3 & Hp4) Hst].
    apply Forall_singleton in Hst as (_ & _ & _ & Hp5). simpl in *.
    split_and!; [done | by apply Hp2 | by apply Hp3 | intros m [Hm|Hm]; [by apply Hp4 | by apply Hp5]].
  - intros k c Hc. pose proof (sc_clients _ Hdb _ _ Hc) as Hst.
    apply stands_one in Hst as (Hp1 & Hp2 & _). by split.
  - intros k h Hh. pose proof (sc_hours _ Hdb _ _ Hh) as Hst.
    apply stands_one in Hst as (Hp1 & _ & _ & Hp4). by split.
  - intros k x Hx. pose proof (sc_exceptions _ Hdb _ _ Hx) as Hst.
    apply stands_one in Hst as (Hp1 & _ & _ & Hp4). by split.
  - intros k x Hx. pose proof (sc_blocks _ Hdb _ _ Hx) as Hst.
    apply stands_one in Hst as (Hp1 & _ & _ & Hp4). by split.
Qed.
End Operations.
