(* ===== verification/WorkerLoop.v ===== *)
(** * WorkerLoop: the process around the worker

    [run_worker] of app/worker.py with the shutdown flags of app/core/shutdown.py.  A round of
    the loop is modelled with what happens outside it: the signals that arrive, the readings of
    [time.monotonic], and the work of the other processes on the shared world.  Stated at the
    end: how a signal ends the loop, and that no job can end it. *)

From S2P Require Import Prelude Py Effects Schema Settings Orm AuditTrail JobQueue Providers.
From S2P Require Import Frames Users QueueInvariant Worker System CatalogueBehaviour QueueRuns.

(** ** The process *)

(** The globals of the two modules: the timestamps of the last maintenance, and the events
    [_worker_shutdown_requested] and [_worker_job_in_progress]. *)
Record WorkerProcess : Type := MkWorkerProcess {
  wk_world : World;
  wk_last_maintenance_attempt_at : Z;
  wk_last_queue_maintenance_at : Z;
  wk_shutdown_requested : bool;
  wk_job_in_progress : bool }.
#[global] Instance eta_WorkerProcess : Eta WorkerProcess := fun p =>
  MkWorkerProcess (wk_world p) (wk_last_maintenance_attempt_at p) (wk_last_queue_maintenance_at p)
    (wk_shutdown_requested p) (wk_job_in_progress p).

Definition WorkerM : Type -> Type := M WorkerProcess Exn.

Definition in_worker {A} (m : PyM A) : WorkerM A := fun p =>
  let '(r, w) := m (wk_world p) in (r, p <| wk_world := w |>).

(** The handler of SIGTERM and SIGINT. *)
Definition request_worker_shutdown : WorkerM unit :=
  modify (fun p => p <| wk_shutdown_requested := true |>).
Definition worker_shutdown_requested : WorkerM bool := asks wk_shutdown_requested.
Definition mark_worker_job_started : WorkerM unit :=
  modify (fun p => p <| wk_job_in_progress := true |>).
Definition mark_worker_job_finished : WorkerM unit :=
  modify (fun p => p <| wk_job_in_progress := false |>).

(** How [wait_for_worker_job_completion] ends: at once, after some polls, or with a warning at
    the deadline. *)
Inductive Wait : Type := NothingRunning | JobCompleted | GraceElapsed.

(** [polls] rounds of a tenth of a second fit before the deadline. *)
Fixpoint wait_loop (polls : nat) : WorkerM Wait :=
  match polls with
  | O => ret GraceElapsed
  | S n =>
      running <- asks wk_job_in_progress ;;
      if running : bool then wait_loop n else ret JobCompleted
  end.
Definition wait_for_worker_job_completion (polls : nat) : WorkerM Wait :=
  running <- asks wk_job_in_progress ;;
  if running : bool then wait_loop polls else ret NothingRunning.

Section WorkerLoop.
Context `{Config} `{Providers} `{ExnText}.

(** ** Maintenance when it is due *)

Definition maybe_run_scheduled_maintenance (current_time : Z) : WorkerM bool :=
  last <- asks wk_last_maintenance_attempt_at ;;
  if current_time - last <? timedelta_seconds worker_maintenance_interval_seconds then ret false
  else
    modify (fun p => p <| wk_last_maintenance_attempt_at := current_time |>) ;;;
    in_worker run_scheduled_maintenance.

Definition maybe_run_queue_maintenance (current_time : Z) : WorkerM unit :=
  last <- asks wk_last_queue_maintenance_at ;;
  if current_time - last <? timedelta_seconds worker_queue_maintenance_interval_seconds then ret tt
  else
    modify (fun p => p <| wk_last_queue_maintenance_at := current_time |>) ;;;
    in_worker run_queue_maintenance.

(** ** One job *)

(** The [try] of [process_next_job]: whether the handler succeeded; what it raised has become
    a retry or a failed job. *)
Definition attempt_job (job : Job) : PyM bool := fun w =>
  match handle_job job w with
  | (Ok _, w') => (Ok true, w')
  | (Raise e, w') =>
      match on_job_error job e with
      | Some handler => (handler ;;; ret false) w'
      | None => (Raise e, w')
      end
  end.

(** [process_next_job] with its marks: the job counts as in progress until its outcome is
    settled, and is acknowledged after that. *)
Definition process_next_job_marked : WorkerM bool :=
  job <- in_worker (poll KNOWN_JOB_TYPES) ;;
  match job with
  | None => ret false
  | Some j =>
      mark_worker_job_started ;;;
      handled <- finally (in_worker (attempt_job j)) mark_worker_job_finished ;;
      if handled : bool then in_worker (ack_job j) ;;; ret true else ret true
  end.

(** ** The loop *)

(** What happens outside in one round: the other processes, a signal before the round (that is,
    during the job of the last one), the clock, a signal during the maintenance, the clock. *)
Record Round : Type := MkRound {
  rd_meanwhile : World -> World;
  rd_signal : bool;
  rd_maintenance_clock : Z;
  rd_signal_in_maintenance : bool;
  rd_queue_clock : Z }.

Inductive LoopEnd : Type := StillRunning | ShutDown.

Definition begin_round (r : Round) : WorkerM unit :=
  modify (fun p => p <| wk_world ::= rd_meanwhile r |>) ;;;
  when (rd_signal r) request_worker_shutdown.

(** One pass of the loop, from the test of its condition; [true] goes on. *)
Definition worker_round (r : Round) : WorkerM bool :=
  begin_round r ;;;
  stop <- worker_shutdown_requested ;;
  if stop : bool then ret false
  else
    maybe_run_scheduled_maintenance (rd_maintenance_clock r) ;;;
    when (rd_signal_in_maintenance r) request_worker_shutdown ;;;
    stop <- worker_shutdown_requested ;;
    if stop : bool then ret false
    else
      maybe_run_queue_maintenance (rd_queue_clock r) ;;;
      process_next_job_marked ;;;
      ret true.

Fixpoint worker_loop (rounds : list Round) : WorkerM LoopEnd :=
  match rounds with
  | [] => ret StillRunning
  | r :: rest =>
      continue <- worker_round r ;;
      if continue : bool then worker_loop rest else ret ShutDown
  end.

(** [run_worker]: [None] is a worker that still runs after these rounds. *)
Definition run_worker (polls : nat) (rounds : list Round) : WorkerM (option Wait) :=
  ended <- worker_loop rounds ;;
  match ended with
  | StillRunning => ret None
  | ShutDown => wait <- wait_for_worker_job_completion polls ;; ret (Some wait)
  end.

(** ** The marks do not change what a job does *)

Lemma run_job_attempt j w :
  run_job j w = (handled <- attempt_job j ;; if handled : bool then ack_job j ;;; ret true else ret true) w.
Proof.
  unfold run_job, attempt_job, bind. destruct (handle_job j w) as [[u|e] w']; [done|].
  destruct (on_job_error j e) as [m|] eqn:Em; [|done].
  assert (exists x : PyM Job, m = (x ;;; ret true)) as [x ->].
  { unfold on_job_error in Em. destruct e; simplify_eq/=; repeat case_match; by eexists. }
  unfold bind. by destruct (x w') as [[job|e'] w2].
Qed.

Lemma marked_process p :
  wk_job_in_progress p = false ->
  process_next_job_marked p
  = (let '(r, w) := process_next_job (wk_world p) in (r, p <| wk_world := w |>)).
Proof.
  destruct p as [w a b s g]. intros Hg. simpl in Hg. subst g.
  unfold process_next_job_marked, process_next_job. generalize (poll KNOWN_JOB_TYPES). intros polled.
  unfold bind, in_worker, finally, mark_worker_job_started, mark_worker_job_finished, modify. simpl.
  destruct (polled w) as [[[j|]|e] w1]; [|done..]. simpl.
  rewrite run_job_attempt. unfold bind.
  destruct (attempt_job j w1) as [[[|]|e] w2]; [|done..]. simpl.
  by destruct (ack_job j w2) as [[u|e] w3].
Qed.

(** ** The loop as a run of the system *)

Lemma accepted_trans w1 w2 w3 : accepted_run w1 w2 -> accepted_run w2 w3 -> accepted_run w1 w3.
Proof. induction 1; intros Hr; [done | econstructor; by eauto..]. Qed.

(** What the other processes do is a run of the system too. *)
Definition legal (r : Round) : Prop := forall w, accepted_run w (rd_meanwhile r w).

Lemma loop_app before after p :
  worker_loop (before ++ after) p
  = match worker_loop before p with
    | (Ok StillRunning, q) => worker_loop after q
    | ended => ended
    end.
Proof.
  revert p. induction before as [|r before IH]; intros p; simpl; [done|].
  unfold bind. destruct (worker_round r p) as [[[|]|e] q]; [apply IH | done..].
Qed.

(** The round of a signal is the last: no job is taken in it. *)
Lemma signalled_round r p :
  rd_signal r || rd_signal_in_maintenance r = true ->
  let w := rd_meanwhile r (wk_world p) in
  let '(res, q) := worker_round r p in
  (wk_world q = w \/ wk_world q = (run_scheduled_maintenance w).2)
  /\ (res = Ok false \/ exists e, res = Raise e /\ (run_scheduled_maintenance w).1 = Raise e)
  /\ (rd_signal r = true -> res = Ok false /\ wk_world q = w).
Proof.
  destruct p as [w a b s g]. intros Hs. cbv zeta.
  unfold worker_round, begin_round, worker_shutdown_requested, maybe_run_scheduled_maintenance, bind,
    modify, asks, in_worker, request_worker_shutdown, ret. simpl.
  destruct (rd_signal r); simpl in *; [by eauto 6|]. rewrite Hs. simpl.
  destruct s; simpl; [split; [by left | split; [by left | done]]|].
  destruct (_ <? _); simpl; [split; [by left | split; [by left | done]]|].
  destruct (run_scheduled_maintenance (rd_meanwhile r w)) as [[u|e] w2]; simpl.
  - split; [by right | split; [by left | done]].
  - split; [by right | split; [right; by exists e | done]].
Qed.

Context `{!DistinctIds}.
Context (separate_failed_queue : forall t, queue_name_for_job_type t <> worker_failed_queue_name).

(** Started in [w0], the process is between two jobs. *)
Section FromStart.
Context (w0 : World) (sound_start : sound_queues w0).

Definition between_jobs (p : WorkerProcess) : Prop :=
  wk_job_in_progress p = false /\ accepted_run w0 (wk_world p).

(** What can end the process: a maintenance task, or a call that never returns. *)
Definition cause (e : Exn) : Prop :=
  e = NonTermination \/ exists w, accepted_run w0 w /\ (run_scheduled_maintenance w).1 = Raise e.
Definition ended (e : Exn) (p : WorkerProcess) : Prop := between_jobs p /\ cause e.

Lemma still_sound w : accepted_run w0 w -> sound_queues w.
Proof. intros Hr. by apply (sound_run separate_failed_queue w0 w (accepted_run_system _ _ Hr)). Qed.

Lemma between_modify f :
  (forall p, between_jobs p -> between_jobs (f p)) -> triple between_jobs (modify f) (fun _ => between_jobs) ended.
Proof. intros Hf p Hp. by apply Hf. Qed.

Lemma between_signal b : triple between_jobs (when b request_worker_shutdown) (fun _ => between_jobs) ended.
Proof. destruct b; [by apply between_modify | by apply triple_ret]. Qed.

Lemma between_worker {A} (m : PyM A) :
  (forall w, accepted_run w0 w -> accepted_run w (m w).2
             /\ match (m w).1 with Ok _ => True | Raise e => cause e end) ->
  triple between_jobs (in_worker m) (fun _ => between_jobs) ended.
Proof.
  intros Hm p [Hj Hr]. unfold in_worker. destruct (Hm _ Hr) as [Hw Hc].
  destruct (m (wk_world p)) as [[x|e] w]; simpl in *;
    repeat split; try done; by eapply accepted_trans.
Qed.

Lemma between_scheduled clock :
  triple between_jobs (maybe_run_scheduled_maintenance clock) (fun _ => between_jobs) ended.
Proof.
  unfold maybe_run_scheduled_maintenance.
  eapply triple_bind; [by apply triple_asks with (Q := fun _ => between_jobs)|]. intros last.
  destruct (_ <? _); [by apply triple_ret|].
  eapply triple_bind; [by apply between_modify|]. intros u. apply between_worker. intros w Hw.
  split; [apply accepted_maintenance; constructor|].
  destruct (run_scheduled_maintenance w) as [[x|e] w'] eqn:E; [done|]. right. exists w. by rewrite E.
Qed.

Lemma between_queue clock :
  triple between_jobs (maybe_run_queue_maintenance clock) (fun _ => between_jobs) ended.
Proof.
  unfold maybe_run_queue_maintenance.
  eapply triple_bind; [by apply triple_asks with (Q := fun _ => between_jobs)|]. intros last.
  destruct (_ <? _); [by apply triple_ret|].
  eapply triple_bind; [by apply between_modify|]. intros u. apply between_worker. intros w Hw.
  split; [apply accepted_queue; constructor|].
  pose proof (sound_upkeep w (still_sound w Hw)) as Hu.
  by destruct (run_queue_maintenance w) as [[x|e] w'].
Qed.

Lemma between_job : triple between_jobs process_next_job_marked (fun _ => between_jobs) ended.
Proof.
  intros p Hp. rewrite marked_process by apply Hp. revert p Hp.
  change (triple between_jobs (in_worker process_next_job) (fun _ => between_jobs) ended).
  apply between_worker. intros w Hw. split; [apply accepted_job; constructor|].
  pose proof (sound_process w (still_sound w Hw)) as Ht.
  destruct (process_next_job w) as [[x|e] w']; [done|]. left. apply Ht.
Qed.

Lemma between_round r : legal r -> triple between_jobs (worker_round r) (fun _ => between_jobs) ended.
Proof.
  intros Hl. assert (Hasks : triple between_jobs worker_shutdown_requested (fun _ => between_jobs) ended)
    by (by apply triple_asks).
  unfold worker_round, begin_round. eapply triple_bind.
  { eapply triple_bind; [|intros u; apply between_signal]. apply between_modify.
    intros p [Hj Hr]. split; [done|]. eapply accepted_trans; [exact Hr | apply Hl]. }
  intros u. eapply triple_bind; [exact Hasks|]. intros [|]; [by apply triple_ret|].
  eapply triple_bind; [apply between_scheduled|]. intros x.
  eapply triple_bind; [apply between_signal|]. intros y.
  eapply triple_bind; [exact Hasks|]. intros [|]; [by apply triple_ret|].
  eapply triple_bind; [apply between_queue|]. intros z.
  eapply triple_bind; [apply between_job|]. intros b. by apply triple_ret.
Qed.

Lemma between_loop rounds :
  Forall legal rounds -> triple between_jobs (worker_loop rounds) (fun _ => between_jobs) ended.
Proof.
  induction 1 as [|r rounds Hl _ IH]; simpl; [by apply triple_ret|].
  eapply triple_bind; [by apply between_round|]. intros [|]; [exact IH | by apply triple_ret].
Qed.
End FromStart.

(** C99: the worker ends in good order, and no job can end it.  Let a signal arrive in some
    round, before its job or during its maintenance.  Then the worker ends in that round: it
    takes no further job, and no job is left in progress, so it never waits for one; or it has
    ended before, and then by an exception of a maintenance task (or in a call that never
    returns), never because of a job.  Whatever the other processes did meanwhile, its work on
    the database is a run of the system, to which the theorems on runs apply. *)
Theorem worker_shuts_down (polls : nat) (before rest : list Round) (r : Round) (p : WorkerProcess) :
  Forall legal (before ++ [r]) -> sound_queues (wk_world p) -> wk_job_in_progress p = false ->
  rd_signal r || rd_signal_in_maintenance r = true ->
  let '(res, q) := run_worker polls (before ++ r :: rest) p in
  accepted_run (wk_world p) (wk_world q)
  /\ wk_job_in_progress q = false
  /\ match res with
     | Ok ended => ended = Some NothingRunning
     | Raise e => e = NonTermination
         \/ exists w, accepted_run (wk_world p) w /\ (run_scheduled_maintenance w).1 = Raise e
     end
  /\ forall p1, worker_loop before p = (Ok StillRunning, p1) ->
       let w := rd_meanwhile r (wk_world p1) in
       wk_world q = w \/ wk_world q = (run_scheduled_maintenance w).2.
Proof.
  intros Hl Hw Hj Hs.
  assert (Heq : worker_loop (before ++ r :: rest) p = worker_loop (before ++ [r]) p
                /\ (worker_loop (before ++ [r]) p).1 <> Ok StillRunning).
  { rewrite !loop_app. destruct (worker_loop before p) as [[[|]|e] p1]; try done. simpl. unfold bind.
    pose proof (signalled_round r p1 Hs) as Hr. destruct (worker_round r p1) as [res q].
    by destruct Hr as (_ & [->|(e & -> & _)] & _). }
  destruct Heq as [Heq Hend].
  pose proof (between_loop (wk_world p) Hw (before ++ [r]) Hl p (conj Hj (accepted_nil _))) as Ht.
  assert (Hlast : forall p1, worker_loop before p = (Ok StillRunning, p1) ->
    let w := rd_meanwhile r (wk_world p1) in
    wk_world (worker_loop (before ++ [r]) p).2 = w
    \/ wk_world (worker_loop (before ++ [r]) p).2 = (run_scheduled_maintenance w).2).
  { intros p1 Hp1. rewrite loop_app, Hp1. simpl. unfold bind.
    pose proof (signalled_round r p1 Hs) as Hr. destruct (worker_round r p1) as [[[|]|e] q];
      by destruct Hr as (Hr & _). }
  unfold run_worker, bind. rewrite Heq.
  destruct (worker_loop (before ++ [r]) p) as [[[|]|e] q]; simpl in *; [done| |].
  - destruct Ht as [Hq Hr]. unfold wait_for_worker_job_completion, bind, asks. rewrite Hq. simpl. eauto.
  - destruct Ht as [[Hq Hr] Hc]. eauto.
Qed.
End WorkerLoop.
