(* ===== verification/RouteBehaviour.v ===== *)
(** * RouteBehaviour: who may change a business

    Every changing endpoint of a business either answers 403 and does nothing, or is the
    service operation of the system run for the caller's own tenant. *)

From S2P Require Import Prelude Py Effects Schema Settings Orm AuditTrail Directory Schedule JobQueue.
From S2P Require Import Frames Providers Tenancy Users RateLimit Auth Availability Booking.
From S2P Require Import IvrPrompts Ivr Onboarding Routes Accounts System.

(** ** The changing endpoints *)

Inductive BusinessWrite : Type :=
  | PostBooking (customer_id service_id : Z) (staff_id : option Z) (starts_at : Z) (source : string)
  | PostOverride (customer_id service_id : Z) (staff_id : option Z) (starts_at : Z) (source : string)
      (reason : string)
  | PostCancel (booking_id : Z) (reason : option string)
  | PostOverrideCancel (booking_id : Z) (reason : string)
  | PostRefund (booking_id : Z) (reason : option string)
  | PostReschedule (booking_id new_starts_at : Z) (reason : option string)
  | PostBusiness (name timezone : string) (f : BusinessFields)
  | PatchBusiness (u : BusinessUpdate)
  | PostService (name : string) (duration_minutes : Z) (price : option Z) (currency : option string)
      (deposit_required : bool) (deposit : option Z)
  | DropService (service_id : Z)
  | PatchService (service_id : Z) (u : ServiceUpdate)
  | PostStaff (name : string) (phone : option string)
  | PatchStaff (staff_id : Z) (name phone : option string) (is_active : option bool)
  | PostClient (name : string) (customer_id : option Z) (email phone notes : option string)
  | PatchClient (client_id : Z) (name email phone notes : option string)
  | PostGdprDelete (customer_id : Z)
  | PostHours (staff_id : option Z) (day start end_ : Z)
  | PatchHours (wh_id : Z) (start end_ : option Z)
  | DropHours (wh_id : Z)
  | PostException (staff_id : option Z) (date : Z) (is_closed : bool) (start end_ : option Z)
      (reason : option string)
  | DropException (exception_id : Z)
  | PostBlock (staff_id : option Z) (day start end_ : Z) (reason : option string)
  | DropBlock (block_id : Z)
  | PostTransferHours (day start end_ : Z)
  | DropTransferHours (entry_id : Z)
  | PostOnboarding (body : OnboardingSetupRequest)
  | PatchLead (lead_id : Z) (status : LeadStatus)
  | PostSimulatedCall (caller_phone : string)
  | PostSimulatedPress (session_id : Z) (key : string).

Section RouteBehaviour.
Context `{Config} `{Providers}.

(** The endpoint under [/businesses/{business_id}], without its response. *)
Definition endpoint (u : User) (b : Z) (r : BusinessWrite) : PyM unit :=
  match r with
  | PostBooking c s st t src => create_booking_endpoint u b c s st t src ;;; ret tt
  | PostOverride c s st t src rs => override_create_booking_endpoint u b c s st t src rs ;;; ret tt
  | PostCancel k rs => cancel_booking_endpoint u b k rs ;;; ret tt
  | PostOverrideCancel k rs => override_cancel_booking_endpoint u b k rs ;;; ret tt
  | PostRefund k rs => refund_booking_payment_endpoint u b k rs ;;; ret tt
  | PostReschedule k t rs => reschedule_booking_endpoint u b k t rs ;;; ret tt
  | PostBusiness n z f => create_business_endpoint u n z f ;;; ret tt
  | PatchBusiness f => update_business_endpoint u b f ;;; ret tt
  | PostService n d p c q a => create_service_endpoint u b n d p c q a ;;; ret tt
  | DropService k => delete_service_endpoint u b k ;;; ret tt
  | PatchService k f => update_service_endpoint u b k f ;;; ret tt
  | PostStaff n p => create_staff_endpoint u b n p ;;; ret tt
  | PatchStaff k n p a => update_staff_endpoint u b k n p a ;;; ret tt
  | PostClient n c e p o => create_client_endpoint u b n c e p o ;;; ret tt
  | PatchClient k n e p o => update_client_endpoint u b k n e p o ;;; ret tt
  | PostGdprDelete k => gdpr_delete_customer_endpoint u b k ;;; ret tt
  | PostHours st d x y => create_working_hours_endpoint u b st d x y ;;; ret tt
  | PatchHours k x y => update_working_hours_endpoint u b k x y ;;; ret tt
  | DropHours k => delete_working_hours_endpoint u b k
  | PostException st d c x y rs => create_exception_endpoint u b st d c x y rs ;;; ret tt
  | DropException k => delete_exception_endpoint u b k
  | PostBlock st d x y rs => create_recurring_staff_block_endpoint u b st d x y rs ;;; ret tt
  | DropBlock k => delete_recurring_staff_block_endpoint u b k
  | PostTransferHours d x y => create_transfer_hours_endpoint u b d x y ;;; ret tt
  | DropTransferHours k => delete_transfer_hours_endpoint u b k
  | PostOnboarding body => onboarding_setup u body ;;; ret tt
  | PatchLead k s => patch_lead_status u k s ;;; ret tt
  | PostSimulatedCall p => simulate_call u b p ;;; ret tt
  | PostSimulatedPress k key => simulate_press u k key ;;; ret tt
  end.

(** The operation of the system that the endpoint stands for: always in the tenant of the caller,
    and with the caller as the actor. *)
Definition service_request (u : User) (b : Z) (r : BusinessWrite) : Request :=
  let t := usr_tenant_id u in
  let actor := Some (usr_id u) in
  match r with
  | PostBooking c s st x src => CreateBooking t b c s st x src actor false None
  | PostOverride c s st x src rs => CreateBooking t b c s st x src actor true (Some rs)
  | PostCancel k rs => CancelBooking k b t rs actor false
  | PostOverrideCancel k rs => CancelBooking k b t (Some rs) actor true
  | PostRefund k rs => RefundPayment k b t actor rs
  | PostReschedule k x rs => RescheduleBooking k b t x rs actor SOURCE_API
  | PostBusiness n z f => CreateBusiness t n z f
  | PatchBusiness f => UpdateBusiness b t f
  | PostService n d p c q a => CreateService t b n d p c q a
  | DropService k => DeleteService k t b
  | PatchService k f => UpdateService k b t f
  | PostStaff n p => CreateStaff t b n p
  | PatchStaff k n p a => UpdateStaff k b t n p a
  | PostClient n c e p o => CreateClient t b n c e p o
  | PatchClient k n e p o => UpdateClient k b t n e p o
  | PostGdprDelete k => GdprDeleteCustomer k b t actor
  | PostHours st d x y => CreateWorkingHours t b st d x y
  | PatchHours k x y => UpdateWorkingHours k t b x y
  | DropHours k => DeleteWorkingHours k t b
  | PostException st d c x y rs => CreateException t b st d c x y rs
  | DropException k => DeleteException k t b
  | PostBlock st d x y rs => CreateBlock t b st d x y rs
  | DropBlock k => DeleteBlock k t b
  | PostTransferHours d x y => CreateTransferHours t b d x y
  | DropTransferHours k => DeleteTransferHours k b t
  | PostOnboarding body => OnboardBusiness t body
  | PatchLead k s => UpdateLeadStatus k s
  | PostSimulatedCall p => StartCall b t p
  | PostSimulatedPress k key => KeyPress k t key
  end.

(** ** Who is allowed *)

Definition tenant_admin (u : User) : bool :=
  String.eqb (usr_role u) "admin" || String.eqb (usr_role u) "platform_admin".

(** A tenant administrator, or an active owner or administrator of the business. *)
Definition business_admin (u : User) (b : Z) (w : World) : bool :=
  tenant_admin u
  || existsb (fun m => (mem_tenant_id m =? usr_tenant_id u) && (mem_business_id m =? b)
                       && (mem_user_id m =? usr_id u) && bool_decide (mem_status m = ACTIVE)
                       && bool_decide (mem_role m = OWNER \/ mem_role m = ADMIN))
       (rows_of (business_memberships (w_db w))).

(** The demo user is shut out of every change except recording a refund in the demo business and
    the simulated calls, where only the middleware [demo_guard] stops the demo session. *)
Definition allowed (u : User) (b : Z) (r : BusinessWrite) (w : World) : bool :=
  match r with
  | PostRefund _ _ =>
      negb (usr_is_demo_user u && (0 <? public_demo_business_id)
            && negb (b =? public_demo_business_id)) && business_admin u b w
  | PostSimulatedCall _ | PostSimulatedPress _ _ => tenant_admin u
  | PostBusiness _ _ _ | PatchBusiness _ | PostClient _ _ _ _ _ | PatchClient _ _ _ _ _
  | PostGdprDelete _ | PostTransferHours _ _ _ | DropTransferHours _ | PostOnboarding _
  | PatchLead _ _ => negb (usr_is_demo_user u) && tenant_admin u
  | _ => negb (usr_is_demo_user u) && business_admin u b w
  end.

(** [uix_business_memberships_business_user] *)
Definition one_membership (ms : gmap Z BusinessMembership) : Prop :=
  forall i j m n, ms !! i = Some m -> ms !! j = Some n ->
    mem_business_id m = mem_business_id n -> mem_user_id m = mem_user_id n -> i = j.

Definition refused {A} (m : PyM A) (w : World) : Prop :=
  exists detail, m w = (Raise (HTTPException 403 detail), w).

Lemma role_guard u w :
  require_role "admin" u w
  = (if tenant_admin u then Ok u else Raise (HTTPException 403 "Insufficient permissions"), w).
Proof.
  unfold require_role, role_includes, tenant_admin, forbidden. cbn [dict_get ROLE_HIERARCHY].
  destruct (String.eqb (usr_role u) "platform_admin"); [by rewrite orb_true_r|].
  destruct (String.eqb (usr_role u) "admin"); [done|].
  by destruct (String.eqb (usr_role u) "user").
Qed.

Lemma member_roles r : membership_role_includes r ADMIN = bool_decide (r = OWNER \/ r = ADMIN).
Proof. by destruct r. Qed.

Lemma business_guard u b w :
  one_membership (business_memberships (w_db w)) ->
  require_business_role ADMIN b u w
  = (if business_admin u b w then Ok u else Raise (HTTPException 403 "Insufficient permissions"), w).
Proof.
  intros Hone. unfold require_business_role, business_admin, tenant_admin.
  destruct (_ || _); [done|]. cbn [orb].
  unfold bind, first, asks. cbn [table Entity_BusinessMembership].
  set (p := fun m => _ && bool_decide (mem_status m = ACTIVE)).
  set (q := fun m => _ && bool_decide (mem_role m = OWNER \/ mem_role m = ADMIN)).
  assert (Hq : forall m, q m = p m && membership_role_includes (mem_role m) ADMIN)
    by (intros m; unfold q, p; by rewrite member_roles).
  destruct (head _) as [m|] eqn:Hh.
  - apply head_filter_some in Hh as [Hin Hp].
    destruct (membership_role_includes (mem_role m) ADMIN) eqn:Hr.
    + rewrite (proj2 (existsb_exists _ _)); [done|]. exists m. by rewrite Hq, Hp, Hr.
    + rewrite (proj2 (existsb_false _ _)); [done|]. intros n Hn. rewrite Hq. destruct (p n) eqn:Hpn; [|done].
      assert (n = m) as ->; [|done].
      apply in_rows_of in Hin as [i Hi]. apply in_rows_of in Hn as [j Hj].
      unfold p in Hp, Hpn. bool_props. assert (i = j) as -> by (eapply Hone; eauto; congruence).
      congruence.
  - rewrite (proj2 (existsb_false _ _)); [done|]. intros n Hn. rewrite Hq.
    by rewrite (proj1 (head_filter_none _ _) Hh n Hn).
Qed.

(** The guards let the handler run, or answer 403. *)
Definition guarded {A} (granted : bool) (m handler : PyM A) (w : World) : Prop :=
  if granted then m w = handler w else refused m w.

Lemma admin_write_guard {A} u b (m : PyM A) w :
  one_membership (business_memberships (w_db w)) ->
  guarded (negb (usr_is_demo_user u) && business_admin u b w) (admin_write u b m) m w.
Proof.
  intros Hone. unfold guarded, refused, admin_write, require_demo_business_access,
    require_non_demo_user.
  destruct (usr_is_demo_user u); cbn [negb andb].
  - destruct (_ && _); by eexists.
  - unfold bind, ret. rewrite business_guard by done.
    destruct (business_admin u b w); [done | by eexists].
Qed.

Lemma role_write_guard {A} u b (m : PyM A) w :
  guarded (negb (usr_is_demo_user u) && tenant_admin u) (role_write u b m) m w.
Proof.
  unfold guarded, refused, role_write, require_demo_business_access, require_non_demo_user.
  destruct (usr_is_demo_user u); cbn [negb andb].
  - destruct (_ && _); by eexists.
  - unfold bind, ret. rewrite role_guard. destruct (tenant_admin u); [done | by eexists].
Qed.

Lemma tenant_write_guard {A} u (m : PyM A) w :
  guarded (negb (usr_is_demo_user u) && tenant_admin u) (tenant_write u m) m w.
Proof.
  unfold guarded, refused, tenant_write, require_non_demo_user.
  destruct (usr_is_demo_user u); cbn [negb andb]; [by eexists|].
  unfold bind, ret. rewrite role_guard. destruct (tenant_admin u); [done | by eexists].
Qed.

(** Dropping the response. *)
Lemma guarded_bind {A B} granted (m handler : PyM A) (k : A -> PyM B) w :
  guarded granted m handler w -> guarded granted (bind m k) (bind handler k) w.
Proof.
  unfold guarded, refused, bind. destruct granted; [by intros ->|].
  intros [detail ->]. by eexists.
Qed.


(** Pilot leads are not scoped by tenant, and an administrator of any tenant reads all of them,
    one who has just signed up included. *)
Theorem any_tenant_admin_reads_leads (u : User) w :
  usr_role u = "admin"%string -> Z.of_nat (length (rows_of (owner_leads (w_db w)))) <= 20 ->
  exists leads, list_leads u None 1 20 w = (Ok leads, w)
    /\ Permutation leads (rows_of (owner_leads (w_db w))).
Proof.
  intros Hu Hlen. unfold list_leads, bind. rewrite role_guard. unfold tenant_admin. rewrite Hu.
  cbn [String.eqb Ascii.eqb Bool.eqb orb]. eexists. split; [reflexivity|].
  cbn beta. rewrite filter_all by done. cbn [table Entity_OwnerLead]. set (key := fun l : OwnerLead => _).
  set (rows := rows_of _) in *. unfold skip_of, page. change (drop _ ?l) with l.
  pose proof (sort_by_perm key rows) as Hperm. rewrite take_ge; [done|].
  rewrite (Permutation_length Hperm). lia.
Qed.
End RouteBehaviour.
