(* ===== verification/RouteReads.v ===== *)
(** * RouteReads: what the reading endpoints of a business return

    app/api/routes/: every endpoint that lists or fetches bookings, services, staff, clients,
    opening hours, exceptions, blocks or transfer hours looks at the state without changing
    it, and answers with rows of the tenant of the caller and of the business in the path. *)

From S2P Require Import Prelude Py Effects Schema Settings Orm AuditTrail Directory Schedule JobQueue.
From S2P Require Import Tenancy Users RateLimit Auth Availability Booking IvrPrompts Ivr Onboarding Routes.

(** ** The reading endpoints *)

Inductive BusinessRead : Type :=
  | GetBookings (status_filter : option BookingStatus) (staff_id : option Z) (page_number size : Z)
  | GetBooking (booking_id : Z)
  | GetServices (include_inactive : bool) (page_number size : Z)
  | GetService (service_id : Z)
  | GetStaffList (include_inactive : bool) (page_number size : Z)
  | GetStaff (staff_id : Z)
  | GetClients (page_number size : Z)
  | GetClient (client_id : Z)
  | GetClientBookings (client_id page_number size : Z)
  | GetHoursList (staff_id : option Z)
  | GetHours (wh_id : Z)
  | GetExceptions (staff_id from_date to_date : option Z)
  | GetException (exception_id : Z)
  | GetBlocks (staff_id day_of_week : option Z)
  | GetBlock (block_id : Z)
  | GetTransferHoursList
  | GetTransferHours (entry_id : Z).

(** The tenant and the business a row belongs to. *)
Class Scoped (A : Type) : Type := scope_of : A -> Z * Z.
#[global] Instance Scoped_Booking : Scoped Booking :=
  fun r => (bk_tenant_id r, bk_business_id r).
#[global] Instance Scoped_Service : Scoped Service :=
  fun r => (svc_tenant_id r, svc_business_id r).
#[global] Instance Scoped_Staff : Scoped Staff :=
  fun r => (stf_tenant_id r, stf_business_id r).
#[global] Instance Scoped_Client : Scoped Client :=
  fun r => (cli_tenant_id r, cli_business_id r).
#[global] Instance Scoped_WorkingHours : Scoped WorkingHours :=
  fun r => (wh_tenant_id r, wh_business_id r).
#[global] Instance Scoped_AvailabilityException : Scoped AvailabilityException :=
  fun r => (exc_tenant_id r, exc_business_id r).
#[global] Instance Scoped_RecurringStaffBlock : Scoped RecurringStaffBlock :=
  fun r => (blk_tenant_id r, blk_business_id r).
#[global] Instance Scoped_BusinessTransferHours : Scoped BusinessTransferHours :=
  fun r => (bth_tenant_id r, bth_business_id r).

Section RouteReads.
Context `{Config}.

(** The tenant and the business of every row of the answer. *)
Definition scopes {A} `{Scoped A} (m : PyM (list A)) : PyM (list (Z * Z)) :=
  rows <- m ;; ret (map scope_of rows).

Definition scope {A} `{Scoped A} (m : PyM A) : PyM (list (Z * Z)) :=
  row <- m ;; ret [scope_of row].

Definition answer_scopes (u : User) (b : Z) (r : BusinessRead) : PyM (list (Z * Z)) :=
  match r with
  | GetBookings s st n k => scopes (list_bookings_endpoint u b s st n k)
  | GetBooking k => scope (get_booking_endpoint u b k)
  | GetServices i n k => scopes (list_services_endpoint u b i n k)
  | GetService k => scope (get_service_endpoint u b k)
  | GetStaffList i n k => scopes (list_staff_endpoint u b i n k)
  | GetStaff k => scope (get_staff_endpoint u b k)
  | GetClients n k => scopes (list_clients_endpoint u b n k)
  | GetClient k => scope (get_client_endpoint u b k)
  | GetClientBookings c n k => scopes (get_client_bookings_endpoint u b c n k)
  | GetHoursList st => scopes (list_working_hours_endpoint u b st)
  | GetHours k => scope (get_working_hours_endpoint u b k)
  | GetExceptions st x y => scopes (list_exceptions_endpoint u b st x y)
  | GetException k => scope (get_exception_endpoint u b k)
  | GetBlocks st d => scopes (list_recurring_staff_blocks_endpoint u b st d)
  | GetBlock k => scope (get_recurring_staff_block_endpoint u b k)
  | GetTransferHoursList => scopes (list_transfer_hours_endpoint u b)
  | GetTransferHours k => scope (get_transfer_hours_endpoint u b k)
  end.

(** ** Reading *)

(** [m] only looks at the state, and what it returns satisfies [P]. *)
Definition fetches {A} (P : A -> Prop) (m : PyM A) : Prop :=
  forall w, exists r, m w = (r, w) /\ (forall a, r = Ok a -> P a).

Lemma fetches_ret {A} (P : A -> Prop) a : P a -> fetches P (ret a).
Proof. intros Ha w. eexists. split; [done|]. by intros ? [= <-]. Qed.

Lemma fetches_raise {A} (P : A -> Prop) e : fetches P (raise e).
Proof. intros w. by eexists. Qed.

Lemma fetches_bind {A B} (P : A -> Prop) (Q : B -> Prop) (m : PyM A) (k : A -> PyM B) :
  fetches P m -> (forall a, P a -> fetches Q (k a)) -> fetches Q (bind m k).
Proof.
  intros Hm Hk w. unfold bind. destruct (Hm w) as (r & -> & Hr).
  destruct r as [a|e]; [by apply Hk, Hr | by eexists].
Qed.

Lemma fetches_all `{Entity A} (p : A -> bool) :
  fetches (fun l => forall x, In x l -> p x = true) (all p).
Proof.
  intros w. eexists. split; [reflexivity|]. intros l [= <-] x Hx. by apply filter_In in Hx as [_ ?].
Qed.

Lemma fetches_find `{Entity A} k (p : A -> bool) :
  fetches (fun o => forall x, o = Some x -> p x = true) (find_pk k p).
Proof.
  intros w. eexists. split; [reflexivity|]. intros o [= <-] x.
  destruct (table (w_db w) !! k) as [r|]; [|done]. destruct (p r) eqn:E; [|done]. by intros [= <-].
Qed.

Lemma fetches_require `{Entity A} msg k (p : A -> bool) :
  fetches (fun x => p x = true) (o <- find_pk k p ;; require msg o).
Proof.
  eapply fetches_bind; [apply fetches_find|]. intros [x|] Hx; [|apply fetches_raise].
  by apply fetches_ret, Hx.
Qed.

Lemma fetches_test `{Entity A} msg msg' k (p q : A -> bool) :
  fetches (fun x => p x = true /\ q x = true)
    (r <- (o <- find_pk k p ;; require msg o) ;;
     if q r then ret r else domain_error NotFoundError msg').
Proof.
  eapply fetches_bind; [apply fetches_require|]. intros r Hr. cbn beta in Hr.
  destruct (q r) eqn:E; [by apply fetches_ret | apply fetches_raise].
Qed.

Lemma in_page {A} skip limit (l : list A) x : In x (page skip limit l) -> In x l.
Proof.
  unfold page. intros Hx. rewrite <- (firstn_skipn (Z.to_nat skip) l). apply in_or_app. right.
  set (l' := skipn _ l) in *. rewrite <- (firstn_skipn (Z.to_nat limit) l').
  apply in_or_app. by left.
Qed.

(** Rows of one tenant and one business. *)
Definition of_scope {A} `{Scoped A} (t b : Z) (x : A) : Prop := scope_of x = (t, b).

Lemma scopes_fetched {A} `{Scoped A} t b (m : PyM (list A)) :
  fetches (fun l => forall x, In x l -> of_scope t b x) m ->
  fetches (fun l => forall s, In s l -> s = (t, b)) (scopes m).
Proof.
  intros Hm. eapply fetches_bind; [exact Hm|]. intros l Hl. apply fetches_ret.
  intros s (x & <- & Hx)%in_map_iff. by apply Hl.
Qed.

Lemma scope_fetched {A} `{Scoped A} t b (m : PyM A) :
  fetches (of_scope t b) m -> fetches (fun l => forall s, In s l -> s = (t, b)) (scope m).
Proof.
  intros Hm. eapply fetches_bind; [exact Hm|]. intros x Hx. apply fetches_ret.
  by intros s [<-|[]].
Qed.

Lemma business_read_fetched {A} (P : A -> Prop) u b (m : PyM A) :
  fetches P m -> fetches P (business_read u b m).
Proof.
  intros Hm. unfold business_read, require_demo_business_access.
  eapply (fetches_bind (fun _ => True)); [|by intros].
  destruct (_ && _); [apply fetches_raise | by apply fetches_ret].
Qed.

Lemma fetches_weaken {A} (P Q : A -> Prop) (m : PyM A) :
  fetches P m -> (forall a, P a -> Q a) -> fetches Q m.
Proof. intros Hm HPQ w. destruct (Hm w) as (r & Hr & HP). exists r. eauto. Qed.

Ltac scoped :=
  bool_props; cbv beta delta [of_scope scope_of Scoped_Booking Scoped_Service Scoped_Staff
    Scoped_Client Scoped_WorkingHours Scoped_AvailabilityException Scoped_RecurringStaffBlock
    Scoped_BusinessTransferHours]; congruence.

Ltac read_rows :=
  eapply fetches_bind; [apply fetches_all|]; intros ? Hrows; cbn beta in Hrows; apply fetches_ret;
  let x := fresh "x" in let Hx := fresh "Hx" in
  intros x Hx; try (apply in_page in Hx); rewrite ?in_sort_by in Hx;
  apply Hrows in Hx; scoped.

Ltac read_row :=
  eapply fetches_weaken; [apply fetches_test || apply fetches_require|];
  intros ? Hrow; cbn beta in Hrow;
  lazymatch type of Hrow with _ /\ _ => destruct Hrow | _ => idtac end; scoped.

Lemma mask_client_scope c is_demo : scope_of (mask_client c is_demo) = scope_of c.
Proof. unfold mask_client. by destruct is_demo. Qed.

Lemma answers_fetched u b r :
  fetches (fun l => forall s, In s l -> s = (usr_tenant_id u, b)) (answer_scopes u b r).
Proof.
  destruct r; cbn [answer_scopes]; (apply scopes_fetched || apply scope_fetched);
    apply business_read_fetched.
  all: try (read_rows; fail).
  all: try (read_row; fail).
  - (* the list of clients *)
    apply (fetches_bind (fun l => forall x, In x l -> of_scope (usr_tenant_id u) b x));
      [read_rows|]. intros l Hl. apply fetches_ret. intros x (c & <- & Hc)%in_map_iff.
    unfold of_scope. rewrite mask_client_scope. by apply Hl.
  - (* a client *)
    apply (fetches_bind (of_scope (usr_tenant_id u) b)); [read_row|]. intros c Hc.
    apply fetches_ret. unfold of_scope. by rewrite mask_client_scope.
  - (* the bookings of a client *)
    eapply fetches_bind; [apply fetches_test|]. intros c _.
    destruct (cli_customer_id c); [read_rows|]. by apply fetches_ret.
Qed.

(** C22: reading stays in the tenant.  Whatever user asks and whatever business the path names,
    a reading endpoint leaves the whole state as it was, and each row it returns - on any page,
    with any filter - belongs to the tenant of the user and to that business. *)
Theorem reads_stay_in_tenant (u : User) b r w rows w' :
  answer_scopes u b r w = (rows, w') ->
  w' = w /\ forall l s, rows = Ok l -> In s l -> s = (usr_tenant_id u, b).
Proof.
  intros Hrun. destruct (answers_fetched u b r w) as (res & Heq & Hres).
  rewrite Heq in Hrun. injection Hrun as <- <-. split; [done|]. intros l s -> Hs. by eapply Hres.
Qed.
End RouteReads.
