(* ===== verification/Witnesses.v ===== *)
(** * Witnesses: the theorems at work on a small salon

    A demo tenant is built by running the modelled requests from an empty database:
    a business with a service that takes a deposit, one staff member with weekly
    hours, two customers and a few bookings.  Each lemma below applies one theorem of the
    development to a state of this run, so that its hypotheses are seen to hold
    together on a real execution. *)

From S2P Require Import Prelude Py Effects Schema Settings Orm AuditTrail Directory Schedule.
From S2P Require Import Availability JobQueue PublicLink Providers Notifications Calendar.
From S2P Require Import Waitlist Booking BookingMachine Frames BookingRefinement BookingBehaviour.
From S2P Require Import HoldSweep WaitlistOffers Delivery SelfService IvrPrompts Ivr IvrCalls.
From S2P Require Import Schemas Catalogue Worker System CatalogueBehaviour RateLimit Auth Startup Http.
From S2P Require Import HttpBehaviour Scope ScopeBehaviour Seeds SeedsBehaviour.

#[local] Instance demo_config : Config := default_config.
#[local] Instance demo_providers : Providers := null_providers.
#[local] Instance demo_text : ExnText := {| str_exn _ := "error"%string |}.

(** ** The run *)

(** 2024-10-03 12:00 UTC, a Thursday; the bookings are for Friday. *)
Definition demo_now : Z := combine 19999 (12 * hour_us).
Definition friday (hour : Z) : Z := combine 20000 (hour * hour_us).

Definition demo_start : World :=
  MkWorld empty_db empty_db (fun _ => 1) (MkRedis ∅ ∅ ∅) demo_now 0 None.

Definition demo_fields : BusinessFields :=
  MkBusinessFields "en" None (Some "+48999"%string) None false POLICY_BUSINESS_PHONE
    INTERNAL_BOOKING None None None "full_booking".

Definition run_all_requests (rs : list Request) (w : World) : World :=
  fold_left (fun w r => (run_request (execute r) w).2) rs w.

Definition demo_setup : list Request :=
  [CreateBusiness 1 "Salon" "UTC" demo_fields;
   CreateService 1 1 "Haircut" 60 (Some 10000) (Some "PLN"%string) true (Some 2000);
   CreateStaff 1 1 "Anna" None;
   GetOrCreateCustomer 1 1 "+48 111" (Some "Jan"%string);
   GetOrCreateCustomer 1 1 "+48 222" None;
   CreateWorkingHours 1 1 (Some 1) 4 (9 * hour_us) (17 * hour_us)].

Definition book (customer hour : Z) : Request :=
  CreateBooking 1 1 customer 1 (Some 1) (friday hour) SOURCE_API None false None.
Definition hold (customer hour : Z) : Request :=
  CreateHold 1 1 customer 1 (Some 1) (friday hour) "stripe" None SOURCE_API.

(** The salon with one confirmed booking (1, at 10:00) and one hold (2, at 12:00). *)
Definition demo : World := run_all_requests (demo_setup ++ [book 1 10; hold 2 12]) demo_start.

Definition demo_booking : Booking :=
  new_booking 1 1 1 1 (Some 1) (friday 10) (friday 11) CONFIRMED SOURCE_API 1 demo_now.
Definition demo_hold : Booking :=
  new_booking 1 1 2 1 (Some 1) (friday 12) (friday 13) PENDING_PAYMENT SOURCE_API 2 demo_now.

Lemma run_requests_run rs w : system_run w (run_all_requests rs w).
Proof.
  revert w. induction rs as [|r rs IH]; intros w; [constructor|].
  econstructor; [apply step_request | apply IH].
Qed.

Lemma demo_start_consistent : consistent demo_start.
Proof. split; [done | apply empty_ledger_wf]. Qed.

Lemma demo_consistent : consistent demo.
Proof.
  by destruct (consistent_run _ _ demo_start_consistent
    (run_requests_run (demo_setup ++ [book 1 10; hold 2 12]) demo_start)) as (es & _ & Hc).
Qed.

Lemma demo_booking_rows : rows_of (bookings (w_db demo)) = [demo_hold; demo_booking].
Proof. vm_compute. reflexivity. Qed.

Lemma demo_windows :
  effective_windows (w_db demo) 1 1 20000 (Some 1) = [(9 * hour_us, 17 * hour_us)].
Proof. vm_compute. reflexivity. Qed.

(** Hypotheses that are computed. *)
Ltac computed := vm_compute; first [reflexivity | discriminate | lia | auto].

Example demo_rows :
  bookings (w_committed demo) !! 1 = Some demo_booking
  /\ bookings (w_committed demo) !! 2 = Some demo_hold
  /\ bookings (w_committed demo) !! 3 = None.
Proof. vm_compute. auto. Qed.

(** ** The system *)

Lemma payments_agree_with_bookings_witness :
  exists kp p, booking_payments (w_committed demo) !! kp = Some p
    /\ pay_booking_id p = 2 /\ pay_status p = PAYMENT_PENDING.
Proof.
  apply (proj2 (payments_agree_with_bookings demo_start demo demo_start_consistent
    (run_requests_run (demo_setup ++ [book 1 10; hold 2 12]) demo_start)) 2 demo_hold); computed.
Defined.

(** The hold is paid, then the booking is cancelled. *)
Definition demo_later : World :=
  run_all_requests [ConfirmPayment 2 1 1 (Some "pi_1"%string) "stripe_webhook";
                    CancelBooking 2 1 1 None None false] demo.

Lemma booking_life_cycle_witness :
  exists b', bookings (w_committed demo_later) !! 2 = Some b'
    /\ same_slot demo_hold b'
    /\ status_leq (bk_status demo_hold) (bk_status b') = true
    /\ (bk_status demo_hold = CANCELLED -> b' = demo_hold).
Proof.
  apply (booking_life_cycle demo demo_later 2 demo_hold demo_consistent
    (run_requests_run _ demo)). computed.
Defined.


(** ** Booking *)

Lemma check_agrees_with_constraint_witness :
  check_double_booking (Some 1) 1 (friday 14) (friday 15) None demo = (Ok tt, demo) <->
  booking_violation (w_db demo) (new_booking 1 1 1 1 (Some 1) (friday 14) (friday 15) CONFIRMED
    SOURCE_API 3 demo_now) = None.
Proof.
  apply (check_agrees_with_constraint 1 1 1 1 1 (friday 14) (friday 15) CONFIRMED SOURCE_API 3
    demo_now demo).
  - intros b Hb _. rewrite demo_booking_rows in Hb. destruct Hb as [<-|[<-|[]]]; computed.
  - intros b Hb. rewrite demo_booking_rows in Hb. destruct Hb as [<-|[<-|[]]]; computed.
  - computed.
  - computed.
Defined.

Definition demo_business : Business :=
  MkBusiness 1 1 "Salon" "UTC" "en" None (Some "+48999"%string) None true false
    POLICY_BUSINESS_PHONE INTERNAL_BOOKING None None None "full_booking" demo_now.
Definition demo_service : Service :=
  MkService 1 1 1 "Haircut" 60 true (Some 10000) (Some "PLN"%string) true (Some 2000) demo_now.

(** Friday's free hours: 10:00 and 12:00 are taken. *)
Definition demo_slots : list (Z * Z) :=
  map (fun h => (friday h, friday (h + 1))) [9; 11; 13; 14; 15; 16].

Lemma available_slot_passes_check_witness :
  friday 12 = friday 11 + timedelta_minutes 60 /\ demo_now < friday 11
  /\ check_double_booking (Some 1) 1 (friday 11) (friday 12) None demo = (Ok tt, demo).
Proof.
  apply (available_slot_passes_check 1 1 1 1 20000 demo demo_business demo_service 0 demo_slots).
  - computed.
  - computed.
  - computed.
  - computed.
  - intros local _. reflexivity.
  - rewrite demo_windows. intros s e [[= <- <-]|[]]. vm_compute. split; discriminate.
  - intros b Hb _. rewrite demo_booking_rows in Hb. destruct Hb as [<-|[<-|[]]]; computed.
  - vm_compute. reflexivity.
  - vm_compute. auto.
Defined.


Definition demo_paid : World :=
  (confirm_booking_payment 2 1 1 (Some "pi_1"%string) "stripe_webhook" demo).2.

Lemma confirm_payment_idempotent_witness :
  bk_status (paid demo_hold) = CONFIRMED
  /\ confirm_booking_payment 2 1 1 None "stripe_retry" demo_paid = (Ok (paid demo_hold), demo_paid).
Proof.
  apply (confirm_payment_idempotent 2 1 1 (Some "pi_1"%string) "stripe_webhook" None "stripe_retry"
    demo demo_paid (paid demo_hold) (proj1 demo_consistent) (proj2 demo_consistent)).
  vm_compute. reflexivity.
Defined.


(** Friday 12:00 is taken by the hold: moving booking 1 there fails. *)
Definition demo_cancelled : World := (cancel_booking 1 1 1 None None false demo).2.
Definition demo_lost : World :=
  (create_booking 1 1 1 1 (Some 1) (friday 12) SOURCE_API None false None demo_cancelled).2.

Lemma failed_reschedule_loses_booking_witness :
  reschedule_booking 1 1 1 (friday 12) None None SOURCE_API demo
    = (Raise (DomainError ConflictError double_booking_message), demo_lost)
  /\ bookings (w_committed demo_lost) !! 1 = Some (cancelled None demo_booking).
Proof.
  apply (failed_reschedule_loses_booking 1 1 1 (friday 12) None None SOURCE_API demo demo_booking
    (cancelled None demo_booking) demo_cancelled
    (DomainError ConflictError double_booking_message) demo_lost
    (proj1 demo_consistent) (proj2 demo_consistent)); vm_compute; reflexivity.
Defined.

Lemma lost_race_outcomes_witness :
  (write_booking 1 1 1 1 (Some 1) (friday 12) (friday 13) SOURCE_API None false None
     demo_business (MkCustomer 1 1 1 "+48 111" "+48111" None demo_now) demo_service demo).1
    = Raise (IntegrityError "no_overlapping_staff_bookings")
  /\ (write_hold 1 1 1 1 (Some 1) (friday 12) (friday 13) "stripe" None SOURCE_API 2000 "PLN" demo).1
    = Raise (DomainError ConflictError double_booking_message).
Proof.
  apply (lost_race_outcomes 1 1 1 1 1 (friday 12) (friday 13)).
  - computed.
  - intros [| |]; vm_compute; intros Hs; first [reflexivity | discriminate Hs].
Defined.

(** An hour later the hold of 12:00 is stale. *)
Definition demo_hour_later : World := demo <| w_now := demo_now + hour_us |>.

Lemma demo_hour_later_consistent : consistent demo_hour_later.
Proof.
  assert (Hr : system_run demo demo_hour_later).
  { apply run_cons with demo_hour_later; [|constructor]. apply step_time. vm_compute. discriminate. }
  by destruct (consistent_run _ _ demo_consistent Hr) as (es & _ & Hc).
Qed.


(** The sweep of that moment expires one hold. *)
Example demo_swept :
  (expire_stale_payment_holds demo_hour_later).1 = Ok 1.
Proof. vm_compute. reflexivity. Qed.

(** ** Waitlist, delivery and calendar *)

(** Customer 2 waits for any slot on Friday. *)
Definition demo_waiting : World :=
  run_all_requests [CreateWaitlistEntry 1 1 2 1 20000 None] demo.
Definition demo_entry : WaitlistEntry :=
  MkWaitlistEntry 1 1 1 2 1 None None 20000 WL_WAITING demo_now demo_now.
Definition demo_customer : Customer :=
  MkCustomer 2 1 1 "+48 222" "+48222" None demo_now.

Lemma demo_waiting_entries : waitlist_entries (w_db demo_waiting) = {[1 := demo_entry]}.
Proof. vm_compute. reflexivity. Qed.
Lemma demo_waiting_eligible e : eligible demo_booking 1 demo_waiting e -> e = demo_entry.
Proof.
  intros [He _]. rewrite demo_waiting_entries in He. by apply lookup_singleton_Some in He as [_ <-].
Qed.

Lemma freed_slot_goes_to_longest_waiting_witness :
  ((forall e, ~ eligible demo_booking 1 demo_waiting e)
   /\ offer_freed_slot demo_booking 1 (ret (demo_business, demo_service)) demo_waiting
      = (Ok [], demo_waiting))
  \/ exists e c r w',
     eligible demo_booking 1 demo_waiting e
     /\ (forall e', eligible demo_booking 1 demo_waiting e' ->
           wl_created_at e <= wl_created_at e')
     /\ customers (w_db demo_waiting) !! wl_customer_id e = Some c
     /\ offer_freed_slot demo_booking 1 (ret (demo_business, demo_service)) demo_waiting
        = (Ok [ntf_id r], w')
     /\ waitlist_entries (w_db w')
        = <[wl_id e := offered (Some 1) (w_now demo_waiting) e]> (waitlist_entries (w_db demo_waiting))
     /\ notification_outbox (w_db w') = <[ntf_id r := r]> (notification_outbox (w_db demo_waiting))
     /\ ntf_purpose r = WAITLIST_OFFER /\ ntf_status r = NTF_PENDING
     /\ ntf_recipient_phone r = cus_phone c.
Proof.
  apply (freed_slot_goes_to_longest_waiting demo_booking 1 demo_business demo_service demo_waiting).
  - rewrite demo_waiting_entries. intros k e He. apply lookup_singleton_Some in He as [<- <-].
    reflexivity.
  - computed.
  - intros e He. apply demo_waiting_eligible in He. rewrite He. exists demo_customer. computed.
Defined.

Definition demo_intent : NotificationOutbox :=
  new_intent 1 1 (Some 1) BOOKING_CONFIRMATION "+48 111" "Hello" 1 demo_now.
Definition sms_failure : SmsSendResult := MkSmsSendResult false None (Some "busy"%string).
Definition sms_ok : SmsSendResult := MkSmsSendResult true (Some "SM1"%string) None.


(** A booking for the week after, seen the day before. *)
Definition demo_eve : World :=
  (run_all_requests [CreateBooking 1 1 1 1 (Some 1) (combine 20010 (10 * hour_us)) SOURCE_API None
                      false None] demo)
  <| w_now := combine 20009 (12 * hour_us) |>.
Definition demo_reminded : World := (enqueue_due_reminders demo_eve).2.

Lemma reminders_idempotent_witness :
  enqueue_due_reminders demo_eve = (Ok 1, demo_reminded)
  /\ enqueue_due_reminders demo_reminded = (Ok 0, demo_reminded).
Proof.
  assert (Hr : enqueue_due_reminders demo_eve = (Ok 1, demo_reminded))
    by (vm_compute; reflexivity).
  split; [exact Hr|]. exact (reminders_idempotent 1 demo_eve demo_reminded Hr).
Defined.

Definition demo_event : CalendarEvent :=
  MkCalendarEvent 1 1 1 1 "null" None CAL_PENDING 0 0 None demo_now None None.

Lemma demo_events : calendar_events (w_db demo) = {[1 := demo_event]}.
Proof. vm_compute. reflexivity. Qed.


(** ** The queue and the worker *)

(** The three jobs of booking 1: customer and owner SMS, calendar sync. *)
Definition demo_job (i : Z) (type key : string) (id : Z) (started : option Z) : Job :=
  MkJob ("job-" ++ string_of_Z i)%string type [(key, id)] 0 None None None started.
Definition sms_job (i id : Z) (started : option Z) : Job :=
  demo_job i SEND_NOTIFICATION_JOB "notification_id" id started.
Definition sync_job : Job := demo_job 2 SYNC_CALENDAR_EVENT_JOB "event_id" 1 None.
Definition sms_queue : string := "app_jobs:send_notification".

Lemma demo_documents :
  documents (w_redis demo) = [to_json (sms_job 1 2 None); to_json (sms_job 0 1 None); to_json sync_job].
Proof. vm_compute. reflexivity. Qed.

Lemma jobs_ok r l :
  documents r = map to_json l -> bool_decide (NoDup (map job_id l)) = true -> queues_ok r.
Proof.
  intros Hd Hn. apply bool_decide_eq_true in Hn. split.
  - rewrite Hd. intros raw Hr. apply list_elem_of_fmap in Hr as (j & -> & _). eauto.
  - unfold job_ids. rewrite Hd, map_map.
    erewrite map_ext; [exact Hn|]. intros j. apply raw_id_to_json.
Qed.

Lemma demo_queues_ok : queues_ok (w_redis demo).
Proof. apply (jobs_ok _ [sms_job 1 2 None; sms_job 0 1 None; sync_job]); vm_compute; reflexivity. Qed.

Lemma queue_operations_conserve_jobs_witness :
  (run_queue_op (Dequeue sms_queue) demo).1 = Ok tt
  /\ queues_ok (w_redis (run_queue_op (Dequeue sms_queue) demo).2)
  /\ job_ids (w_redis (run_queue_op (Dequeue sms_queue) demo).2) ≡ₚ job_ids (w_redis demo).
Proof.
  apply (queue_operations_conserve_jobs (Dequeue sms_queue) demo).
  - intros t. vm_compute. discriminate.
  - exact demo_queues_ok.
  - exact I.
Defined.

Lemma dequeue_takes_oldest_witness :
  exists w', let j' := with_processing_started_at (w_now demo) (sms_job 0 1 None) in
    dequeue_job sms_queue demo = (Ok (Some j'), w')
    /\ get_list sms_queue (w_redis w') = [to_json (sms_job 1 2 None)]
    /\ get_list worker_processing_queue_name (w_redis w')
       = to_json j' :: get_list worker_processing_queue_name (w_redis demo).
Proof.
  apply (dequeue_takes_oldest sms_queue [to_json (sms_job 1 2 None)] (sms_job 0 1 None) demo).
  - vm_compute. discriminate.
  - vm_compute. reflexivity.
Defined.

(** The first SMS job is being processed. *)
Definition demo_processing : World := (dequeue_job sms_queue demo).2.
Definition processing_job : Job := sms_job 0 1 (Some demo_now).

Lemma demo_processing_ok : queues_ok (w_redis demo_processing).
Proof.
  apply (jobs_ok _ [processing_job; sms_job 1 2 None; sync_job]); vm_compute; reflexivity.
Qed.

Lemma reclaim_leaves_only_fresh_jobs_witness :
  exists n w', reclaim_stale_processing_jobs demo_processing = (Ok n, w')
    /\ forall raw, raw ∈ get_list worker_processing_queue_name (w_redis w') ->
         exists j, raw = to_json j /\ job_is_stale (w_now demo_processing) j = false.
Proof.
  apply (reclaim_leaves_only_fresh_jobs demo_processing).
  - intros t. vm_compute. discriminate.
  - exact demo_processing_ok.
Defined.

Lemma retry_delay_bounds_witness :
  worker_retry_backoff_base_seconds <= calculate_retry_delay_seconds 3
    <= worker_retry_backoff_max_seconds
  /\ calculate_retry_delay_seconds 3 <= calculate_retry_delay_seconds (3 + 1)
  /\ (0 < 3 -> calculate_retry_delay_seconds (3 + 1)
              = Z.min (2 * calculate_retry_delay_seconds 3) worker_retry_backoff_max_seconds).
Proof. apply (retry_delay_bounds 3). vm_compute. split; [reflexivity | discriminate]. Defined.

(** With no SMS provider configured the delivery fails and is retried. *)
Definition demo_handled : World := (handle_job processing_job demo_processing).2.
Definition demo_sms_error : Exn := SmsDeliveryError (Some "sms_provider_not_configured"%string).

Lemma demo_handled_run :
  handle_job processing_job demo_processing = (Raise demo_sms_error, demo_handled).
Proof. vm_compute. reflexivity. Qed.


Lemma demo_in_processing : in_processing processing_job demo_processing.
Proof. vm_compute. left. Qed.

Lemma demo_retried : retried processing_job demo_sms_error = true.
Proof. vm_compute. reflexivity. Qed.

Lemma job_outcome_witness :
  exists w', run_job processing_job demo_processing = (Ok true, w')
    /\ job_ids (w_redis w') ≡ₚ job_ids (w_redis demo_processing)
    /\ job_attempts processing_job < worker_max_retries
    /\ (to_json (with_error (str_exn demo_sms_error) (with_next_attempt processing_job)),
        w_now demo_handled
        + timedelta_seconds (calculate_retry_delay_seconds (job_attempts processing_job + 1)))
       ∈ get_zset worker_delayed_queue_name (w_redis w').
Proof.
  pose proof (job_outcome processing_job demo_processing (Raise demo_sms_error) demo_handled
    demo_processing_ok demo_in_processing demo_handled_run
    ltac:(discriminate)) as Ho.
  cbv beta iota in Ho. rewrite demo_retried in Ho. exact Ho.
Defined.

(** ** Public links *)

Lemma demo_hmac_ascii k m : is_ascii (hmac_sha256_hex k m) = true.
Proof.
  unfold is_ascii. apply forallb_forall. intros c Hc.
  pose proof (string_of_Z_chars (fold_left (fun h c => (h * 257 + Z.of_N (N_of_ascii c)) mod 1000000007)
    (chars (k ++ m)%string) 7)) as Hn.
  rewrite Forall_forall in Hn. specialize (Hn c). rewrite list_elem_of_In in Hn.
  specialize (Hn Hc). destruct c as [[] [] [] [] [] [] [] []]; done.
Qed.

(** One day after the link was made. *)
Definition demo_next_day : World := demo <| w_now := demo_now + day_us |>.

Lemma token_roundtrip_witness :
  exists token, generate_booking_token 1 demo = (Ok token, demo)
    /\ verify_booking_token token demo_next_day
       = (if w_now demo_next_day <=? (w_now demo / second_us + BOOKING_TOKEN_TTL_SECONDS) * second_us
          then Ok 1 else Raise (ValueError "Token has expired"), demo_next_day).
Proof. exact (token_roundtrip 1 demo demo_next_day demo_hmac_ascii). Defined.

Definition demo_token : string := render_token 1 1800000000.

Lemma demo_token_verifies : verify_booking_token demo_token demo = (Ok 1, demo).
Proof. unfold demo_token. rewrite verify_render_token by exact demo_hmac_ascii. f_equal. Qed.

Lemma token_tamper_proof_witness :
  exists raw_id raw_exp sig exp_unix,
    split_token demo_token = Some (raw_id, raw_exp, sig)
    /\ py_int raw_id = Some 1 /\ py_int raw_exp = Some exp_unix
    /\ sig = sign 1 exp_unix
    /\ w_now demo <= exp_unix * second_us
    /\ (sig = sign 2 1800000000 ->
        (1 = 2 /\ exp_unix = 1800000000)
        \/ exists m m', m <> m' /\ hmac_sha256_hex signing_key m = hmac_sha256_hex signing_key m').
Proof. exact (token_tamper_proof demo_token 1 2 1800000000 demo demo demo_token_verifies). Defined.

(** Both bookings cancelled. *)
Definition demo_emptied : World :=
  run_all_requests [CancelBooking 1 1 1 None None false; CancelBooking 2 1 1 None None false] demo.

Lemma demo_emptied_rows :
  rows_of (bookings (w_db demo_emptied)) = [cancelled None demo_hold; cancelled None demo_booking].
Proof. vm_compute. reflexivity. Qed.

Lemma demo_emptied_booking :
  bookings (w_db demo_emptied) !! 1 = Some (cancelled None demo_booking).
Proof. vm_compute. reflexivity. Qed.

Lemma token_survives_cancellation_witness :
  exists token, generate_booking_token 1 demo = (Ok token, demo)
    /\ get_booking_by_public_token token demo_emptied
       = (Ok (cancelled None demo_booking), demo_emptied).
Proof.
  eexists. split; [reflexivity|].
  apply (token_survives_cancellation _ (cancelled None demo_booking) demo demo_emptied demo_hmac_ascii);
    [reflexivity | computed | exact demo_emptied_booking | reflexivity].
Defined.

(** A signature part holding the byte 233. *)
Definition bad_token : string := ("1.1800000000." ++ String (ascii_of_nat 233) "")%string.

Lemma non_ascii_signature_escapes_witness :
  get_booking_by_public_token bad_token demo = (Raise TypeError, demo).
Proof.
  apply (non_ascii_signature_escapes bad_token "1" "1800000000"
    (String (ascii_of_nat 233) "") 1 1800000000 demo); vm_compute; reflexivity.
Defined.

(** ** Services and customers *)

(** The salon before its first customer. *)
Definition demo_opened : World := run_all_requests (firstn 1 demo_setup) demo_start.

Lemma demo_opened_customers : customers (w_db demo_opened) = ∅.
Proof. vm_compute. reflexivity. Qed.

Lemma demo_opened_clean : w_db demo_opened = w_committed demo_opened.
Proof. vm_compute. reflexivity. Qed.

Definition demo_called : World :=
  (get_or_create_customer 1 1 "+48 123" (Some "Jan"%string) demo_opened).2.
Definition demo_caller : Customer :=
  MkCustomer 1 1 1 "+48 123" "+48123" (Some "Jan"%string) demo_now.

Lemma demo_call :
  get_or_create_customer 1 1 "+48 123" (Some "Jan"%string) demo_opened = (Ok demo_caller, demo_called).
Proof. vm_compute. reflexivity. Qed.

Lemma get_or_create_customer_idempotent_witness :
  customers_unique (customers (w_db demo_called))
  /\ get_or_create_customer 1 1 "+48-12-3" None demo_called = (Ok demo_caller, demo_called).
Proof.
  apply (get_or_create_customer_idempotent 1 1 "+48 123" "+48-12-3" (Some "Jan"%string) None
    demo_opened demo_called demo_caller).
  - rewrite demo_opened_customers. intros k c E. discriminate E.
  - rewrite demo_opened_customers. intros k k' c c' E. discriminate E.
  - exact demo_call.
  - exact demo_opened_clean.
  - vm_compute. reflexivity.
Defined.

Lemma demo_emptied_cancelled k b :
  bookings (w_db demo_emptied) !! k = Some b -> bk_service_id b = 1 -> bk_status b = CANCELLED.
Proof.
  intros Hb _. pose proof (proj2 (in_rows_of _ _) (ex_intro _ k Hb)) as Hin.
  rewrite demo_emptied_rows in Hin. by destruct Hin as [<-|[<-|[]]].
Qed.

Lemma demo_emptied_service : services (w_db demo_emptied) !! 1 = Some demo_service.
Proof. vm_compute. reflexivity. Qed.

Lemma cancelled_bookings_block_deletion_witness :
  delete_service 1 1 1 demo_emptied
    = (Raise (IntegrityError "fk_bookings_service_id"), demo_emptied).
Proof.
  apply (cancelled_bookings_block_deletion 1 1 1 demo_emptied demo_service 1
    (cancelled None demo_booking) demo_emptied_service eq_refl eq_refl eq_refl
    demo_emptied_booking eq_refl demo_emptied_cancelled).
Defined.

(** ** Availability at its edges *)

Lemma zero_duration_never_returns_witness :
  slots_loop 1000 "UTC" (combine 20000 (fst (9 * hour_us, 17 * hour_us))) (timedelta_minutes 0)
    (combine 20000 (snd (9 * hour_us, 17 * hour_us))) = None.
Proof.
  apply (zero_duration_never_returns 1000 "UTC" 20000 (9 * hour_us, 17 * hour_us)).
  vm_compute. discriminate.
Defined.

(** Anna works on Fridays only. *)
Lemma demo_saturday_closed : weekly_hours (w_db demo) 1 1 (weekday 20001) (Some 1) = [].
Proof. vm_compute. reflexivity. Qed.

Lemma special_hours_need_weekly_hours_witness :
  available_slots_for_duration (w_db demo) 1 1 "UTC" (Some 1) 60 20001 demo_now = Some [].
Proof. exact (special_hours_need_weekly_hours _ _ _ "UTC" _ 60 20001 demo_now demo_saturday_closed). Defined.

(** A zone whose clocks go forward at 03:00. *)
Definition spring_config : Config :=
  config_with_offset (fun local => if local <? combine 20000 (3 * hour_us) then hour_us else 2 * hour_us).

Lemma clock_change_slot_overruns_window_witness :
  exists slot_start,
    @slots_in_window spring_config 20000 (hour_us, 4 * hour_us) 180 "Europe/Warsaw" = Some [slot_start]
    /\ @to_utc spring_config "Europe/Warsaw" (combine 20000 (4 * hour_us))
       < slot_start + timedelta_minutes 180.
Proof.
  apply (@clock_change_slot_overruns_window spring_config "Europe/Warsaw" 20000). reflexivity.
Defined.

(** ** The voice menu *)

Lemma prompts_complete_witness :
  truthy (template_of P_GREETING_PREFIX "de") = true
  /\ ("de"%string <> "pl"%string ->
      template_of P_GREETING_PREFIX "de" = prompts_en P_GREETING_PREFIX)
  /\ exists text, resolve_prompt P_GREETING_PREFIX "de" [("name", "Jan")]%string demo
                   = (Ok text, demo).
Proof.
  apply (prompts_complete P_GREETING_PREFIX "de" [("name", "Jan")]%string demo).
  intros f [<-|[]]. vm_compute. eauto.
Defined.

(** A caller who has chosen the service and hears the free slots of Friday. *)
Definition demo_calling : World :=
  run_all_requests [StartCall 1 1 "+48 111"; KeyPress 1 1 "1"; KeyPress 1 1 "1"] demo.

Definition offered_slots : list (Z * Z) :=
  map (fun h => (friday h, friday (h + 1))) [9; 11; 13; 14; 15].
Definition demo_session : VoiceSession :=
  MkVoiceSession 1 1 1 "+48 111" SLOT_SELECTION "en" (Some 1) (Some 1) None None None None
    (Some offered_slots) 0 0 None None (demo_now + timedelta_minutes 10) demo_now demo_now.

Lemma demo_call_row : voice_sessions (w_committed demo_calling) !! 1 = Some demo_session.
Proof. vm_compute. reflexivity. Qed.
Lemma demo_call_session_row : voice_sessions (w_db demo_calling) !! 1 = Some demo_session.
Proof. vm_compute. reflexivity. Qed.
Lemma demo_session_counters : counters_ok demo_session.
Proof. repeat split; vm_compute; congruence. Qed.
Lemma demo_call_consistent : consistent demo_calling.
Proof.
  by destruct (consistent_run _ _ demo_consistent (run_requests_run
    [StartCall 1 1 "+48 111"; KeyPress 1 1 "1"; KeyPress 1 1 "1"] demo)) as (es & _ & Hc).
Qed.

Lemma keypress_follows_graph_witness :
  let w' := (run_request (handle_keypress 1 1 "7") demo_calling).2 in
  (exists s', voice_sessions (w_committed w') !! 1 = Some s'
     /\ same_call demo_session s'
     /\ (vs_step s' = vs_step demo_session
         \/ ivr_edge (vs_step demo_session) (vs_step s') = true)
     /\ counters_ok s' /\ vs_invalid_key_count demo_session <= vs_invalid_key_count s'
     /\ (terminal_step (vs_step demo_session) = true -> s' = demo_session)
     /\ (vs_expires_at demo_session <= w_now demo_calling -> terminal_step (vs_step s') = true))
  /\ forall k, k <> 1 ->
       voice_sessions (w_committed w') !! k = voice_sessions (w_committed demo_calling) !! k.
Proof.
  exact (keypress_follows_graph 1 1 "7" demo_calling demo_session demo_call_row eq_refl eq_refl
    demo_session_counters).
Defined.

Lemma three_silences_end_call_witness :
  exists s', voice_sessions (w_committed (Nat.iter 3 (stay_silent 1 1) demo_calling)) !! 1 = Some s'
    /\ terminal_step (vs_step s') = true.
Proof.
  exact (three_silences_end_call 1 1 demo_calling demo_session demo_call_row eq_refl eq_refl
    demo_session_counters).
Defined.

Lemma demo_has_call : on_calls (has_call demo_session) demo_calling.
Proof.
  split; exists demo_session; split;
    [exact demo_call_session_row | reflexivity | exact demo_call_row | reflexivity].
Qed.

Definition demo_slot : Z * Z := (friday 13, friday 14).
Lemma demo_choice : chosen_index "3" (length offered_slots) = Some 2%nat.
Proof. vm_compute. reflexivity. Qed.
Lemma demo_choice_slot : offered_slots !! 2%nat = Some demo_slot.
Proof. vm_compute. reflexivity. Qed.

Lemma demo_offer : vs_slot_candidates demo_session = Some offered_slots.
Proof. reflexivity. Qed.


(** The booking does go through. *)
Example demo_call_books :
  match (handle_slot_selection demo_session "3" demo_calling).1 with
  | Ok r => rsp_prompt r
  | Raise _ => ""%string
  end = "Your appointment has been booked for Friday October 4 at 1:00 PM to 2:00 PM UTC. You will receive an SMS confirmation. Thank you, goodbye!"%string.
Proof. vm_compute. reflexivity. Qed.

(** Anna works on Fridays only, and the search covers seven days from Thursday on. *)
Definition next_free (day : Z) : list (Z * Z) :=
  if day =? 20000 then offered_slots ++ [(friday 16, friday 17)] else [].

Lemma demo_days day :
  utc_date (w_now demo_calling) <= day < utc_date (w_now demo_calling) + ivr_slot_search_days ->
  get_available_slots 1 1 1 (Some 1) day demo_calling = (Ok (next_free day), demo_calling).
Proof.
  replace (utc_date (w_now demo_calling)) with 19999 by (vm_compute; reflexivity).
  change ivr_slot_search_days with 7. intros Hd.
  assert (Hx : day = 19999 \/ day = 20000 \/ day = 20001 \/ day = 20002 \/ day = 20003
               \/ day = 20004 \/ day = 20005) by lia.
  destruct Hx as [->|[->|[->|[->|[->|[->| ->]]]]]]; vm_compute; reflexivity.
Qed.

Lemma menu_offers_next_slots_witness :
  find_slots demo_session 1 (Some 1) demo_calling
  = (Ok (take (Z.to_nat ivr_max_slots)
          (concat (map (fun i => next_free (utc_date (w_now demo_calling) + Z.of_nat i))
                     (seq 0 (Z.to_nat ivr_slot_search_days))))), demo_calling).
Proof. exact (menu_offers_next_slots demo_session 1 (Some 1) next_free demo_calling demo_days). Defined.

(** ** The catalogue *)

Lemma accepted_requests rs w : Forall accepted rs -> accepted_run w (run_all_requests rs w).
Proof.
  intros Hrs. revert w. induction Hrs as [|r rs Hr _ IH]; intros w; [constructor|].
  econstructor; [exact Hr | apply IH].
Qed.

Lemma demo_accepted : Forall accepted (demo_setup ++ [book 1 10; hold 2 12]).
Proof.
  repeat constructor; try exact I. by exists "Salon"%string, "UTC"%string, demo_fields.
Qed.

(** Christmas opening hours in two parts, a lunch break, a link, and a longer haircut. *)
Definition demo_catalogue : list Request :=
  demo_setup
  ++ [CreateException 1 1 None 20000 false (Some (10 * hour_us)) (Some (12 * hour_us)) None;
      CreateException 1 1 None 20000 false (Some (13 * hour_us)) (Some (15 * hour_us)) None;
      CreateException 1 1 None 20000 true None None None;
      CreateBlock 1 1 None 4 (12 * hour_us) (13 * hour_us) (Some "lunch"%string);
      UpdateBusiness 1 1 (MkBusinessUpdate None None None None None None None None None
        (Some MODE_EXTERNAL_BOOKING_LINK) (Some "https://booksy.example/salon"%string)
        None None None);
      UpdateService 1 1 1 (MkServiceUpdate None (Some 90) None None None None None)].

Lemma demo_catalogue_accepted : Forall accepted demo_catalogue.
Proof.
  unfold demo_catalogue, demo_setup. cbn [app].
  repeat match goal with |- Forall _ (_ :: _) => apply Forall_cons_2 end;
    try exact I; try reflexivity; try apply Forall_nil_2; simpl.
  - by exists "Salon"%string, "UTC"%string, demo_fields.
  - by exists (MkBusinessUpdate None None None None None None None None None
      (Some MODE_EXTERNAL_BOOKING_LINK) (Some " https://booksy.example/salon"%string)
      None None None).
Qed.

Definition demo_listed : World := run_all_requests demo_catalogue demo_start.

Lemma demo_listed_rows :
  length (rows_of (availability_exceptions (w_committed demo_listed))) = 2%nat
  /\ map svc_duration_minutes (rows_of (services (w_committed demo_listed))) = [90].
Proof. vm_compute. auto. Qed.

Lemma no_double_booking_ever_witness :
  bookings (w_committed demo) !! 1 = Some demo_booking
  /\ bookings (w_committed demo) !! 2 = Some demo_hold
  /\ (bk_ends_at demo_booking <= bk_starts_at demo_hold
      \/ bk_ends_at demo_hold <= bk_starts_at demo_booking).
Proof.
  split; [computed|]. split; [computed|].
  apply (no_double_booking_ever demo_start demo 1 2 demo_booking demo_hold 1);
    first [apply demo_start_consistent | split; apply empty_catalogue_ok
          | apply (accepted_requests (demo_setup ++ [book 1 10; hold 2 12])); apply demo_accepted
          | computed].
Defined.


(** ** The scope *)

Lemma references_stay_in_salon_witness :
  bookings (w_committed demo) !! 1 = Some demo_booking
  /\ staff_at (w_committed demo) 1 1 1 /\ customer_at (w_committed demo) 1 1 1.
Proof.
  split; [computed|].
  destruct (references_stay_in_salon demo_start demo) as [Hb _];
    [split; apply empty_scoped | exact (run_requests_run (demo_setup ++ [book 1 10; hold 2 12]) demo_start)|].
  destruct (Hb 1 demo_booking) as (_ & Hc & _ & Hs & _); [computed|].
  split; [by apply Hs | exact Hc].
Defined.

(** ** The seed *)

Definition demo_seeding : Result Exn ScriptEnd * World :=
  run_request (seed_demo_main "production" " +48500 ") demo_start.

Definition demo_seed_log : SeedResults :=
  [("business", ["created: Glamour Studio Demo"]);
   ("staff", ["created: Anna Kowalska"; "created: Bartek Nowak"; "created: Celina Wiśniewska"]);
   ("services", ["created: Haircut"; "created: Coloring"; "created: Manicure"]);
   ("hours", ["created: day 0"; "created: day 1"; "created: day 2"; "created: day 3";
              "created: day 4"; "created: day 5"]);
   ("demo_user", ["created: demo@voxslot.demo (id=1)"])]%string.

Lemma demo_seeding_log : demo_seeding.1 = Ok (Seeded demo_seed_log).
Proof. vm_compute. reflexivity. Qed.

(** On Friday a haircut of half an hour fits sixteen times. *)
Example seeded_salon_is_open :
  match (run_request (get_available_slots 1 1 1 (Some 1) 20000) demo_seeding.2).1 with
  | Ok slots => length slots = 16%nat
  | Raise _ => False
  end.
Proof. vm_compute. reflexivity. Qed.


(** ** Responses *)

(** The deletion of a service whose bookings are cancelled ends in an exception that nothing
    handles. *)
Definition demo_scope : Scope :=
  MkScope "DELETE" "/api/v1/businesses/1/services/1"
    (Some "/api/v1/businesses/{business_id}/services/{service_id}"%string)
    [("X-Request-ID", "req-1")]%string "0.01".
Definition demo_deletion : PyM Response :=
  delete_service 1 1 1 ;;; ret (MkResponse 204 [] (Value "")).
Definition demo_application : Result Exn Response * Process :=
  application (default_settings "key") demo_scope demo_deletion (MkProcess demo_emptied 3 []).

Lemma demo_answer : demo_application.1 = Ok unhandled_exception_handler.
Proof. vm_compute. reflexivity. Qed.

Lemma every_request_answered_witness :
  demo_application.1 = Ok unhandled_exception_handler /\ p_in_flight demo_application.2 = 3.
Proof.
  split; [apply demo_answer|].
  destruct (every_request_answered (default_settings "key") demo_scope demo_deletion
    (MkProcess demo_emptied 3 []) demo_application.2 demo_application.1)
    as (response & request_id & w & passed & Hr & Hn & _).
  - unfold demo_application. apply surjective_pairing.
  - by rewrite demo_answer.
  - exact Hn.
Defined.
