(* ===== verification/AccountWitnesses.v ===== *)
(** * AccountWitnesses: the account theorems at work

    A salon signs up, its owner signs in, asks for a new password, a file is uploaded and a
    webhook arrives; each lemma applies one theorem of the account side to a state of this
    run. *)

From S2P Require Import Prelude Py Effects Schema Settings Orm AuditTrail Directory JobQueue.
From S2P Require Import Frames Providers Tenancy Users Auth UserListing UserPages UserBehaviour.
From S2P Require Import PasswordReset AuthBehaviour Uploads UploadBehaviour PublicLink Webhooks.
From S2P Require Import RateLimit WebhookBehaviour Accounts Booking System Routes RouteBehaviour.
From S2P Require Import RouteReads Twilio TwilioBehaviour Startup StartupBehaviour.

#[local] Instance shop_config : Config := default_config.
#[local] Instance shop_security : SecurityLaws := default_security _.

(** The mail goes out, and the storage holds one portrait. *)
Definition portrait : string :=
  of_chars (map ascii_of_N [137; 80; 78; 71; 13; 10; 26; 10; 0; 1]%N).
#[local] Instance shop_providers : Providers := {|
  sms_send := sms_send (Providers := null_providers);
  calendar_create_event := calendar_create_event (Providers := null_providers);
  calendar_cancel_event := calendar_cancel_event (Providers := null_providers);
  smtp_deliver _ _ _ _ := true;
  s3_head_object _ _ := Some (10, Some "image/png; charset=binary"%string);
  s3_get_object _ _ := Some portrait;
  s3_delete_object _ _ := true;
  s3_upload _ _ _ _ := true;
  s3_head_bucket _ := true;
  s3_presign _ key _ := Some ("https://storage/" ++ key)%string;
  http_scan_clean _ _ _ := true |}.

(** ** Facts about finite tables, by computation *)

Lemma keyed_by_rows {A} `{Entity A} (m : gmap Z A) :
  forallb (fun kv => pk kv.2 =? kv.1) (map_to_list m) = true -> keyed m.
Proof.
  intros Hall k r Hr. rewrite forallb_forall in Hall.
  apply Z.eqb_eq, (Hall (k, r)), list_elem_of_In. by apply elem_of_map_to_list.
Qed.

Lemma distinct_by_rows {A} (f : A -> string) (m : gmap Z A) :
  forallb (fun a => forallb (fun b => negb (String.eqb (f a.2) (f b.2)) || (a.1 =? b.1))
                      (map_to_list m)) (map_to_list m) = true ->
  forall i j r s, m !! i = Some r -> m !! j = Some s -> f r = f s -> i = j.
Proof.
  intros Hall i j r s Hi Hj E. rewrite forallb_forall in Hall.
  specialize (Hall (i, r) (proj1 (list_elem_of_In _ _) (proj2 (elem_of_map_to_list m i r) Hi))).
  rewrite forallb_forall in Hall.
  specialize (Hall (j, s) (proj1 (list_elem_of_In _ _) (proj2 (elem_of_map_to_list m j s) Hj))).
  simpl in Hall. rewrite E, String.eqb_refl in Hall. by apply Z.eqb_eq.
Qed.

(** ** The run *)

(** 2024-10-03 12:00 UTC *)
Definition noon : Z := combine 19999 (12 * hour_us).
Definition opening : World := MkWorld empty_db empty_db (fun _ => 1) (MkRedis ∅ ∅ ∅) noon 0 None.

Definition run_accounts (rs : list AccountRequest) (w : World) : World :=
  fold_left (fun w r => (run_request (execute_account r) w).2) rs w.

Definition browser : Peer := MkPeer None None (Some "10.0.0.1"%string).
Definition shop : World :=
  run_accounts [Signup browser "Salon" (Some "salon"%string) "owner@salon.pl" "old-password";
                Register browser "anna@salon.pl" "password-2" (Some "salon"%string);
                Signup browser "Other" (Some "other"%string) "owner@other.pl" "password-3"] opening.

Ltac computed := vm_compute; first [reflexivity | discriminate | solve [auto]].

Lemma shop_users_keyed : keyed (users (w_db shop)).
Proof. apply keyed_by_rows. computed. Qed.

(** ** Users *)

Definition two_by_email : UserQuery :=
  MkUserQuery 1 by_email desc None None None contains_mode.


Definition owner : User := MkUser 1 1 "owner@salon.pl" "bcrypt:old-password" true "admin" 0 false.

Lemma shop_committed_keyed : keyed (users (w_committed shop)).
Proof. apply keyed_by_rows. computed. Qed.

Lemma user_administration_isolated_witness :
  users (w_committed shop) !! 3 <> None
  /\ foreign 1 (users (w_committed (run_request (remove_user owner 3) shop).2))
     = foreign 1 (users (w_committed shop)).
Proof.
  split; [computed|].
  pose proof (user_administration_isolated owner 3 (MkUserAdminUpdate None None None) shop
    shop_committed_keyed) as Ht.
  exact (proj2 (proj2 (proj2 Ht))).
Defined.

(** ** Sessions *)

Definition tokens_of (r : Result Exn (string * string)) : string * string :=
  match r with Ok t => t | Raise _ => (""%string, ""%string) end.

Definition signed_in : (string * string) * World :=
  let '(r, w) := login_user "owner@salon.pl" "old-password" 1 shop in (tokens_of r, w).
Definition access_token : string := signed_in.1.1.
Definition refresh_token : string := signed_in.1.2.

Lemma owner_signs_in :
  login_user "owner@salon.pl" "old-password" 1 shop = (Ok (access_token, refresh_token), signed_in.2).
Proof. computed. Qed.

Lemma login_opens_account_witness :
  exists u k, users (w_db shop) !! k = Some u /\ usr_email u = "owner@salon.pl"%string
    /\ usr_tenant_id u = 1 /\ usr_is_active u = true
    /\ bcrypt_verify "old-password" (usr_hashed_password u) = true
    /\ forall w2 u2, get_current_user access_token None w2 = (Ok u2, w2)
         <-> opens (usr_id u) 1 (usr_token_version u)
               (w_now shop + timedelta_minutes access_token_expire_minutes) w2 u2.
Proof.
  pose proof (login_opens_account "owner@salon.pl" "old-password" 1 shop access_token refresh_token
    signed_in.2 owner_signs_in) as Ht. exact Ht.
Defined.

Definition after_refresh : World := (rotate_refresh_token refresh_token signed_in.2).2.
Definition an_hour_later : World := after_refresh <| w_now ::= Z.add hour_us |>.

Lemma refresh_token_spent : spent refresh_token signed_in.2 after_refresh.
Proof. left. eexists. vm_compute. reflexivity. Qed.

Lemma later_keys (w : World) f k :
  r_keys (w_redis (w <| w_now ::= f |>)) !! k = r_keys (w_redis w) !! k.
Proof. done. Qed.
Lemma later_now (w : World) : w_now w <= w_now (w <| w_now ::= Z.add hour_us |>).
Proof. cbn. unfold hour_us, minute_us, second_us. lia. Qed.

Lemma refresh_token_single_use_witness :
  exists e, (rotate_refresh_token refresh_token an_hour_later).1 = Raise e.
Proof.
  pose proof (refresh_token_single_use refresh_token signed_in.2 after_refresh an_hour_later
    refresh_token_spent (later_now _) (fun jti => later_keys _ _ _)) as Ht. exact Ht.
Defined.

(** The reset mail was sent: the token is the one of the stand-in generator. *)
Definition after_mail : World :=
  (run_request (create_password_reset_token_and_send_email 1 (Some "job-9"%string))
     (run_accounts [RequestReset browser "owner@salon.pl" (Some "salon"%string)] shop)).2.
Definition reset_token : string := token_urlsafe (w_entropy after_mail - 1).

Lemma after_mail_keyed : keyed (users (w_db after_mail)).
Proof. apply keyed_by_rows. computed. Qed.
Lemma after_mail_distinct : distinct_hashes (password_reset_tokens (w_db after_mail)).
Proof. refine (distinct_by_rows prt_token_hash _ _). computed. Qed.
Lemma reset_confirmed :
  confirm_password_reset reset_token "new-password" after_mail
  = (Ok "Password has been reset."%string, (confirm_password_reset reset_token "new-password" after_mail).2).
Proof. computed. Qed.
Definition after_reset : World := (confirm_password_reset reset_token "new-password" after_mail).2.

Lemma password_reset_ends_sessions_witness :
  exists k t u hashed,
    password_reset_tokens (w_db after_mail) !! k = Some t
    /\ users (w_db after_mail) !! prt_user_id t = Some u
    /\ bcrypt_verify "new-password" hashed = true
    /\ users (w_committed after_reset)
       = <[prt_user_id t := with_new_password hashed u]> (users (w_db after_mail))
    /\ forall other w2, w_db w2 = w_committed after_reset ->
         confirm_password_reset reset_token other w2
         = (Raise (DomainError BadRequestError INVALID_RESET_TOKEN_MESSAGE), w2).
Proof.
  pose proof (password_reset_ends_sessions reset_token "new-password" after_mail
    "Password has been reset." after_reset after_mail_keyed after_mail_distinct reset_confirmed)
    as (k & t & u & hashed & Hk & _ & _ & _ & Hu & _ & _ & Hpw & Husers & _ & _ & Hagain).
  exists k, t, u, hashed. auto.
Defined.

(** ** Webhooks *)

Definition second_times : list Z := [noon; noon + second_us; noon + 59 * second_us].

Lemma rate_limit_exact_witness :
  (attempts "login:10.0.0.1" 2 60 (noon :: second_times) shop).1
  = [Ok tt; Ok tt; Raise (HTTPException 429 "Too many requests");
     Raise (HTTPException 429 "Too many requests")].
Proof.
  pose proof (rate_limit_exact "login:10.0.0.1" 2 60 noon second_times shop eq_refl ltac:(done)
    ltac:(repeat constructor; computed)) as Ht.
  destruct (attempts "login:10.0.0.1" 2 60 (noon :: second_times) shop) as [rs w']. exact (proj1 Ht).
Defined.

Lemma checksum_is_hex k m : hex_digest (checksum k m) = true.
Proof.
  unfold hex_digest, checksum. set (n := fold_left _ _ 7).
  assert (0 <= n) as Hn.
  { subst n. destruct (chars (k ++ m)%string) as [|c l] using rev_ind; [done|].
    rewrite fold_left_app. simpl. apply Z.mod_pos_bound. lia. }
  apply andb_true_iff. split.
  - unfold truthy. apply negb_true_iff, String.eqb_neq. intros E.
    pose proof (py_int_string_of_Z n) as Hp. by rewrite E in Hp.
  - apply forallb_forall. intros c Hc. pose proof (string_of_Z_digits n Hn) as Hd.
    rewrite List.Forall_forall in Hd. specialize (Hd c Hc).
    by destruct c as [[] [] [] [] [] [] [] []].
Qed.

Definition event_body : string := "stripe/evt_1".
Definition event_moment : Z := noon / second_us - 10.
Definition event_signature : option string :=
  Some (signature_header event_moment event_body webhook_signature_secret).

Lemma webhook_signature_roundtrip_witness :
  verify_inbound_webhook_signature event_body event_signature None webhook_signature_secret
    webhook_signature_tolerance_seconds shop = (Ok tt, shop).
Proof.
  pose proof (webhook_signature_roundtrip event_moment event_body shop checksum_is_hex
    ltac:(computed) ltac:(computed)) as Ht. exact Ht.
Defined.

Definition deliver (w : World) : Result Exn (Z * json_object) * World :=
  run_request (inbound_webhook event_body browser (Some "key-1"%string) event_signature None) w.

Lemma shop_events_keyed : keyed (webhook_events (w_committed shop)).
Proof. apply keyed_by_rows. computed. Qed.

Lemma webhook_events_authentic_witness :
  webhook_events (w_committed (deliver shop).2)
    !! 1 = Some (MkWebhookEvent 1 "stripe" "evt_1" (hash_payload event_body) noon)
  /\ unchanged_or_recorded (webhook_events (w_committed shop)) noon event_body event_signature None
       (deliver shop).2.
Proof.
  split; [computed|].
  pose proof (webhook_events_authentic event_body browser (Some "key-1"%string) event_signature
    None shop shop_events_keyed) as Ht. exact Ht.
Defined.

Lemma shop_records_keyed : keyed (idempotency_records (w_committed shop)).
Proof. apply keyed_by_rows. computed. Qed.
Lemma shop_records_distinct : distinct_scopes (idempotency_records (w_committed shop)).
Proof. refine (distinct_by_rows idm_scope_key _ _). computed. Qed.
Definition accepted : Z * json_object := (200, webhook_response "accepted" "stripe" "evt_1").
Lemma event_delivered : deliver shop = (Ok accepted, (deliver shop).2).
Proof. computed. Qed.


(** ** Files *)

Definition portrait_key : string := "tenants/1/uploads/1/job5-portrait.png".
Definition uploading : World :=
  run_accounts [AsUser access_token None
                  (CompletePresignedUpload portrait_key "portrait.png" "image/png" 10)] signed_in.2.
Definition portrait_row : UploadedFile :=
  MkUploadedFile 1 1 1 portrait_key "portrait.png" "image/png" 10 UPLOAD_PENDING noon.

Lemma uploading_keyed : keyed (uploaded_files (w_db uploading)).
Proof. apply keyed_by_rows. computed. Qed.


Definition key_and_world : Result Exn string * World := build_object_key 1 1 "portrait.png" shop.
Definition built_key : string := match key_and_world.1 with Ok k => k | Raise _ => ""%string end.

Lemma object_key_has_one_owner_witness :
  ensure_object_key_belongs_to_owner built_key owner shop = (Ok tt, shop)
  /\ ensure_object_key_belongs_to_owner built_key (owner <| usr_id := 11 |>) shop
     = (Raise (DomainError BadRequestError "Invalid object key for current user"), shop).
Proof.
  pose proof (object_key_has_one_owner owner "portrait.png" shop built_key key_and_world.2
    ltac:(computed)) as Ht.
  split; [exact (Ht owner shop) | exact (Ht (owner <| usr_id := 11 |>) shop)].
Defined.

(** ** Endpoints of a business *)

Definition salon_fields : BusinessFields :=
  MkBusinessFields "en" (Some "+48999"%string) None None false POLICY_BUSINESS_PHONE
    INTERNAL_BOOKING None None None "free".

(** The owner opens a business with one employee; anna is a plain user of the tenant. *)
Definition salon : World :=
  let run r w := (run_request r w).2 in
  run (endpoint owner 1 (PostStaff "Ewa" None))
    (run (endpoint owner 0 (PostBusiness "Salon" "UTC" salon_fields)) shop).
Definition anna : User := MkUser 2 1 "anna@salon.pl" "bcrypt:password-2" true "user" 0 false.

Lemma no_memberships (t : gmap Z BusinessMembership) :
  length (map_to_list t) = 0%nat -> one_membership t.
Proof.
  intros E i j m n Hi. apply elem_of_map_to_list in Hi.
  apply nil_length_inv in E. rewrite E in Hi. by apply not_elem_of_nil in Hi.
Qed.
Lemma salon_memberships : one_membership (business_memberships (w_db salon)).
Proof. apply no_memberships. computed. Qed.

Definition renaming : BusinessWrite := PatchStaff 1 (Some "Eva"%string) None None.

Lemma owner_allowed : allowed owner 1 renaming salon = true.
Proof. computed. Qed.
Lemma anna_not_allowed : allowed anna 1 renaming salon = false.
Proof. computed. Qed.


Lemma staff_listed :
  answer_scopes owner 1 (GetStaffList false 1 20) salon = (Ok [(1, 1)], salon).
Proof. computed. Qed.

Lemma reads_stay_in_tenant_witness :
  salon = salon /\ forall l s, Ok (E := Exn) [(1, 1)] = Ok l -> In s l -> s = (usr_tenant_id owner, 1).
Proof.
  pose proof (reads_stay_in_tenant owner 1 (GetStaffList false 1 20) salon (Ok [(1, 1)]) salon
    staff_listed) as Ht. exact Ht.
Defined.

(** ** Twilio *)

Definition ring (signature : option string) : TwilioRequest :=
  MkTwilioRequest browser "https://salon.example/api/v1/webhooks/twilio/voice"
    (<["CallSid" := "CA1"]> (<["From" := "+48111"]> {["To" := "+48999"]}))%string signature.
Definition ring_signature : string :=
  hmac_sha1_base64 twilio_auth_token (signed_form (tw_url (ring None)) (tw_form (ring None))).
Definition refused_call : Result Exn (option string) * World :=
  run_request (post (ring (Some "forged"%string)) VoiceHook) salon.

Lemma call_refused : refused_call = (Raise (HTTPException 403 "Invalid Twilio signature"), refused_call.2).
Proof. computed. Qed.
Lemma call_not_signed : ~ signed_by_twilio (ring (Some "forged"%string)).
Proof. unfold signed_by_twilio. computed. Qed.

(** The forged call is refused; the same call with its signature opens a session. *)
Lemma unsigned_twilio_refused_witness :
  w_committed refused_call.2 = w_committed salon
  /\ vs_call_sid <$> voice_sessions (w_committed (run_request (post (ring (Some ring_signature))
                                                               VoiceHook) salon).2) !! 1
     = Some (Some "CA1"%string).
Proof.
  split; [|computed].
  pose proof (unsigned_twilio_refused (ring (Some "forged"%string)) VoiceHook salon _ refused_call.2
    eq_refl call_not_signed call_refused) as Ht. exact (proj1 Ht).
Defined.

(** ** Settings *)

(** A production deployment with a telephone number. *)
Definition telephone_settings : Settings :=
  production_settings
    <| set_twilio_voice_number := "+48999"%string |> <| set_twilio_auth_token := "token"%string |>.
Definition running_telephone : Settings := with_defaults (normalized telephone_settings).

Lemma telephone_accepted : validate telephone_settings = Ok running_telephone.
Proof. vm_compute. reflexivity. Qed.
Lemma running_in_production : set_environment running_telephone = "production"%string.
Proof. vm_compute. reflexivity. Qed.
Lemma number_set :
  is_blank (set_twilio_account_sid running_telephone) = false
  \/ is_blank (set_twilio_sms_from running_telephone) = false
  \/ is_blank (set_twilio_voice_number running_telephone) = false
  \/ is_blank (set_twilio_voice_base_url running_telephone) = false.
Proof. right; right; left. vm_compute. reflexivity. Qed.
Lemma unsigned_ring :
  ~ signed_by_twilio (H := config_of default_config running_telephone) (ring None).
Proof. unfold signed_by_twilio. by vm_compute. Qed.

Lemma production_is_hardened_witness :
  hardened running_telephone
  /\ (exists e, check_signature (H := config_of default_config running_telephone) (ring None) salon
                = (Raise e, salon))
  /\ validate (as_staging running_telephone) = Ok (as_staging running_telephone).
Proof.
  pose proof (production_is_hardened telephone_settings running_telephone default_config
    telephone_accepted running_in_production) as [Hh [_ [Hs Hv]]].
  exact (conj Hh (conj (Hs number_set (ring None) salon unsigned_ring) Hv)).
Defined.
